(* ===== verification/_CoqProject ===== *)
-Q . S2P
Prelude.v
GoRuntime.v
GoHoare.v
GoStrings.v
Util.v
GoText.v
Paths.v
Api.v
Sql.v
Storage.v
Gorm.v
MemDB.v
Authz.v
Pagination.v
Evaluation.v
EvaluationProofs.v
EvaluationConcurrent.v
EvaluationWitness.v
EvaluationConcurrentWitness.v
Streams.v
Ontology.v
Policies.v
PoliciesProofs.v
Orchestrator.v
OrchestratorProofs.v
OrchestratorCatalogs.v
OrchestratorCatalogsProofs.v
OrchestratorWitness.v
EvidenceStore.v
Discovery.v
DiscoveryProofs.v
Assessment.v
AssessmentProofs.v
AssessmentWitness.v
DiscoveryWitness.v
GoJson.v
Serializer.v
Formatter.v
Server.v
Connection.v
Gateway.v
GatewayRoutes.v
Rest.v
GatewayProofs.v
GatewayWitness.v
ServiceInfo.v
Session.v
Commands.v
Login.v
CliFlags.v
Payloads.v
OntologyMessages.v
AzureSdk.v
Azure.v
AzureResources.v
AzureProofs.v
AzureWitness.v
Aws.v
AwsProofs.v
K8s.v
CloudWitness.v
CliWitness.v
GormSetup.v
Services.v
Engine.v
EngineProofs.v
EngineWitness.v
Pipeline.v
CloudDiscovery.v
AzurePipeline.v
CloudDiscoveryWitness.v
PipelineComplete.v
PipelineWitness.v
PipelineCompleteWitness.v
