(* ===== verification/Prelude.v ===== *)
(** * Clouditor, verified

    Clouditor is a cloud assurance tool written in Go.  Its services form a
    pipeline: the discovery service lists the resources of a cloud service and
    sends each as an evidence to the assessment service; the assessment service
    evaluates the evidence against the metrics (Rego policies), forwards it to the
    evidence store and sends the assessment results to the orchestrator; the
    evaluation service asks the orchestrator for the assessment results and judges
    the controls of a catalog.  The orchestrator also keeps cloud services, targets
    of evaluation, certificates, metrics with their configurations and
    implementations, and catalogs.  All services keep their data behind one storage
    interface (GORM), check the caller's access to the cloud service of a request,
    and talk to each other over gRPC.  The resources come from discoverers for
    Azure, AWS and Kubernetes; the gRPC server authenticates every call, and a REST
    gateway stands in front of it.

    This library translates the hand-written Go code of these parts into executable
    definitions with the names of the source and proves their correctness.

    ** How Go code is modelled

    GoRuntime.v.  A handler is a function [Go W A]: from a state of the process to
    an outcome and a new state.  The outcome is a returned value, a panic (nil
    dereference, slice bounds, failed type assertion), or [OutOfFuel], which stands
    for a run that does not continue: the bound of a loop over remote answers is
    used up, a lock that is held is taken again, or a full channel is sent to.
    GoHoare.v has rules for postconditions that hold on every outcome.
    [(T, error)] results are [res T].  The state ([World]) is the database, the
    record of the service, the goroutines that were started and a tick: fresh
    UUIDs, times and remote answers are functions of the tick, so nothing is
    assumed of them but what a theorem names.  The goroutines of an errgroup run
    one after the other in any order ([Schedule]); steps inside two of them are not
    interleaved.  Other goroutines a handler starts are recorded and run by a
    definition of their own ([run_task]).  Integers that can overflow (page tokens,
    page sizes, periods in nanoseconds, numbers in JSON) are kept at their width.
    GoStrings.v and GoText.v have the parts of [strings], [slices], [strconv] and
    [encoding/base64] that are called, GoJson.v the decoding of [encoding/json];
    strings are bytes, and case mapping is that of ASCII letters.

    ** Files and the code they model

    - Prelude.v: tactics, hint and rewrite databases, generic lemmas.
    - Util.v: src/internal/util (Deref, Ref, IsNil, SafeTimestamp,
      GetJSONFilenames, CamelCaseToSnakeCase); Paths.v: ExpandPath of the same
      package, with the parts of path/filepath it calls.
    - Api.v: the protobuf messages as records, with their hand-written methods
      (src/api/orchestrator/orchestrator.go, src/api/assessment/assessment.go and
      the like).
    - Sql.v: the SQL condition strings of the sources, parsed and evaluated with
      three-valued logic.
    - Storage.v: the interface of src/persistence/persistence.go with its laws
      ([Storage], [StorageView], [StorageLaws]) and BuildConds.
    - Gorm.v: the wrapper of src/persistence/gorm/gorm.go over a GORM handle; it
      implements the interface.
    - MemDB.v: an executable database that satisfies the laws of GORM, on which all
      witnesses run.
    - Authz.v: src/service/authorization.go (modules [JWT] and [AllowAll]) and
      src/api/validate.go.
    - Pagination.v: src/api/pagination.go and src/service/paginate.go.
    - Evaluation.v, EvaluationProofs.v: src/service/evaluation/evaluation.go;
      EvaluationConcurrent.v: its StartEvaluation as the interleaved steps of
      concurrent calls.
    - Streams.v: src/api/streams.go.
    - Ontology.v: src/api/ontology/ontology.go.
    - Policies.v, PoliciesProofs.v: src/policies/policies.go and rego.go, and
      MetricConfiguration.Hash of src/api/assessment/metric.go.
    - Orchestrator.v, OrchestratorProofs.v: src/service/orchestrator
      (orchestrator.go, assessment_results.go, cloud_service.go, toe.go,
      certificates.go).
    - OrchestratorCatalogs.v, OrchestratorCatalogsProofs.v:
      src/service/orchestrator (metrics.go, catalogs.go).
    - EvidenceStore.v: src/service/evidence/evidence_store.go.
    - Discovery.v, DiscoveryProofs.v: src/service/discovery (discovery.go,
      graph.go) and src/api/discovery/discovery.go.
    - Assessment.v, AssessmentProofs.v: src/service/assessment/assessment.go.
    - OntologyMessages.v: the messages of src/api/ontology that the discoverers
      build, and Raw of src/api/discovery/discovery.go.
    - AzureSdk.v, Azure.v, AzureResources.v, AzureProofs.v:
      src/service/discovery/azure (authorization, lazy clients, paging, Defender and
      backup vaults in Azure.v; resource groups, storage, databases, compute,
      network and List in AzureResources.v).
    - Aws.v, AwsProofs.v: src/service/discovery/aws.
    - K8s.v: src/service/discovery/k8s.
    - Serializer.v: src/persistence/gorm/serializer.go and the ranges of
      src/api/assessment/metric.go.
    - Server.v: src/server/grpc.go and src/server/auth_middleware.go, with the
      chains of interceptors the server is built from.
    - Gateway.v, GatewayRoutes.v, GatewayProofs.v: the generated REST handlers
      src/api/*/*.pb.gw.go; Gateway.v says what a handler, a pattern and a
      registration are, GatewayRoutes.v has each of them under its name.
    - Rest.v: src/server/rest/rest.go.
    - Connection.v: src/api/connection.go and src/api/authorizer.go; module
      [Concurrent] interleaves the steps of concurrent calls.
    - ServiceInfo.v: src/service/runtime.go and src/internal/logging/logging.go;
      Payloads.v: the payloads of the requests that are logged
      (src/api/orchestrator/orchestrator.go and the like).
    - Formatter.v: the formatters of log lines (src/logging/formatter),
      with runes as [unicode/utf8] decodes them.
    - Session.v, Commands.v: src/cli (the session file, and what the commands call,
      print and complete); Login.v: the HTTP server that receives the code of a login
      (src/cli/commands/login/login.go) and the configuration of src/cmd/cli/cl.go.
    - CliFlags.v: the flags of the commands and the viper keys they are bound to.
    - GormSetup.v: opening a storage (src/persistence/gorm/gorm.go and
      src/persistence/inmemory).
    - Services.v: the options and NewService of the five services.
    - Engine.v, EngineProofs.v: src/cmd/engine/engine.go, from the flags to the two
      running servers.
    - Pipeline.v: the services together on one database, as a step relation;
      PipelineComplete.v: its runs in which no connection fails.
    - CloudDiscovery.v, AzurePipeline.v: the discoverers of AWS, Kubernetes and Azure
      as the discoverers of the discovery service (Start of
      src/service/discovery/discovery.go).
    - EvaluationWitness.v, EvaluationConcurrentWitness.v, OrchestratorWitness.v, AssessmentWitness.v,
      DiscoveryWitness.v, AzureWitness.v, CloudWitness.v, CliWitness.v,
      GatewayWitness.v, EngineWitness.v, PipelineWitness.v,
      PipelineCompleteWitness.v, CloudDiscoveryWitness.v: concrete deployments to which the theorems are
      applied, and runs that show where the code departs from its intention.

    ** Interfaces

    Components meet at type classes.  The services are verified against
    [StorageLaws], which Gorm.v discharges from [GormLaws], the documented
    behaviour of GORM; against [AuthorizationLaws], which both strategies satisfy;
    the evaluation service against [OrchestratorClientLaws], which OrchestratorProofs.v
    discharges with the orchestrator's own handler; the policy evaluator against
    [MetricsSource]/[StableSource], which AssessmentProofs.v discharges with the
    assessment service.  Third-party code is a class without a definition: OPA
    ([Opa]), protovalidate ([Validator]), the protobuf codecs ([TokenCodec],
    [AnyLibrary], [IsResource], [JSONLibrary]), gocron ([Gocron],
    [DiscoveryScheduler]), the cloud providers' SDKs ([Providers], [AzureSdk],
    [AwsSdk], [Kubernetes]), the text of JSON and protojson ([JsonText],
    [ProtoJson]), the JWT and JWKS libraries and the interceptors of
    go-grpc-middleware ([AuthLibrary], [GrpcAuth]), gRPC connections ([Grpc]), the
    runtime of grpc-gateway ([GatewayRuntime], [ServeMux], [GatewayDial], with
    [GatewayRuntimeLaws] and [ServeMuxLaws]), the HTTP server ([RestLibrary]), the file
    system ([Files], [Os]), OAuth 2.0 tokens ([OAuth], [LoginLibrary]), opening a
    database ([GormOpen]), the libraries the engine calls ([EngineLibrary]), and
    cobra and viper ([Viper], [ViperFlags], [ViperCast], [Config], [accepts]).  The
    discovery service sees a discoverer as the class [Discoverer] and the providers
    as [Providers]; CloudDiscovery.v and AzurePipeline.v implement both with the
    discoverers of this library.  Completeness of the pipeline is proved for a
    storage whose writes succeed ([ReliableStorage]).

    ** What the theorems show

    - Evaluation: a sub-control, a control and a catalog are judged exactly from
      the latest assessment results of their metrics, for every goroutine order,
      and exactly the results the rules ask for are stored; jobs stay unique and
      manual results keep a validity over any sequence of calls; list calls only
      show what the caller may access; the control cache answers what was loaded.
      When the steps of StartEvaluation calls interleave, the cache still ends with
      the controls of the catalog and every successful call has added one job; the
      uniqueness of jobs is lost, and an evaluation in between sees a part of the
      controls.
    - Assessment and policies: an accepted evidence yields exactly one transmitted
      and announced result per applicable metric and is forwarded once; rejected
      evidences leave nothing behind; both caches are transparent while the metrics
      do not change; metric events evict what they must.
    - Streams: no interleaving of handlers, failures, requeueing and restarts loses
      or duplicates a message (an invariant by induction on the step relation).
    - Orchestrator and evidence store: what list calls return is exactly what the
      filter selects and the caller may access, page by page; stored data is read
      back; refused calls change nothing; configurations fall back to defaults;
      events and hooks are delivered once and in order.
    - Discovery: every listed resource becomes one evidence and at most one row;
      resource and graph listings are confined.
    - Persistence and pagination: the GORM wrapper refines the storage interface;
      page tokens round-trip; fetching all pages terminates and returns every row
      once, in order; timestamps, Any messages, values and ranges are read back from
      their columns.
    - Authorization: the JWT strategy grants exactly what the claims say; a handler
      of the gRPC server runs only for an authenticated or exempted call, also
      through the chain of interceptors.
    - The services together: in every reachable state of the pipeline each stored
      evidence comes from a resource a discoverer listed and each stored assessment
      result from the evaluation of such an evidence; the failing results an
      evaluation names are among them.  With the discoverers of Azure, AWS and
      Kubernetes in place, these resources describe objects that an API of a provider
      delivered.  Conversely nothing is lost: after a discovery run whose messages are
      delivered, every order of the deliveries ends, with exactly one stored evidence
      for each listed resource and one stored result for each verdict on it.
    - REST: a request whose method and path match the pattern of a route is answered
      by the RPC of that route with the parameters of the path in its message; the
      two generated variants of each handler agree.
    - Engine: when the server runs, exactly one database is open and all services
      are wired to it, and the server serves the configured services; the services'
      own login is accepted exactly when their secret equals their client id,
      because the engine registers the id as the secret.
    - Discoverers: an Azure listing holds no nil resource and only lower-case
      identifiers, also when it ends with an error, and every virtual machine is
      listed with the values of its answer; the AWS compute listing has every
      volume, interface, machine and function once; a bucket counts as enforcing
      HTTPS exactly for the statements the code recognises; the Kubernetes network
      listing has every service and ingress.  Further lemmas record where nil
      dereferences, index panics and lost pages occur.
    - Connections: a call dials at most once before it runs and forgets the
      connection exactly after an EOF; in every interleaving dialling is exclusive,
      a call takes at most six steps and nothing blocks before every call has ended;
      a single caller never panics, two may.
    - Command line client: a saved session is continued with the same URL,
      configuration and token, refreshed if it has expired; no command panics on
      arguments it accepts; list commands print all pages; a flag reaches its command
      unless a later command took over its key; in every interleaving a login receives
      at most one code, and one that a request carried.
    - Small tools: Clean is idempotent and ExpandPath replaces a leading tilde by the
      home directory; a log line is capitalised in its first rune only and a gRPC log
      line is coloured by its code.

    ** Bounds and fuel

    [ListAllPaginated] takes a bound on the number of calls; [list_all_pages_complete]
    shows that the number of rows plus one is enough for a list call backed by
    PaginateStorage, and the evaluation theorems hold for every positive bound (the
    orchestrator answers "latest" requests on one page).  Theorems about sending
    assume room in the channel (capacity 1000, as in the source), because a full
    channel blocks the handler.  The Rego caches are described under a source of
    metrics that does not change; the theorems on events say what a change does.
    The loops over the pages of AWS functions and of the client's list commands take
    fuel; any number above the number of pages is enough.  The pagers of Azure are
    finite lists of answers, on which the loops are structural.

    ** Not modelled

    The usage and help texts of the commands, the completion scripts that cobra
    generates, and the test utilities have no behaviour of the program.  Of the
    generated code, the protobuf messages are represented by the records they declare
    and gRPC stubs by the call of the handler.  The bundled Rego policies and catalogs
    are data that OPA and the orchestrator load.  Authentication at the cloud
    providers, the SDKs and the other libraries named under Interfaces are parameters.

    A handler is one atomic step in Pipeline.v, and its lines are one sequence in the
    files of the services.  The steps of handlers are interleaved where they share
    state without a lock or wait for each other: the streams (Streams.v), connections
    (Connection.v) and StartEvaluation (EvaluationConcurrent.v); a data race on a Go
    map, which can end the process, is not an outcome of the model.  The mutexes are
    modelled where a lock can stay held (the metrics cache of the policy evaluator) or
    where calls race, and are otherwise taken as atomic sections.  Contexts are only
    what the authorization check reads from them, without cancellation and deadlines.
    The text of JSON decoding errors is not kept.  The float32 protocol versions are
    kept in tenths, timestamps and durations in nanoseconds. *)

From stdpp Require Export base tactics list gmap strings sorting relations.

Declare Scope go_scope.
Delimit Scope go_scope with go.
Global Open Scope go_scope.

(** ** Tactics shared by every component *)

(** Case analysis on the discriminee of the first [match] or [if] of the goal
    (respectively of a hypothesis), keeping the equation. *)
Ltac split_match :=
  match goal with
  | |- context [match ?x with _ => _ end] => let E := fresh "E" in destruct x eqn:E
  end.

Ltac split_match_in H :=
  match type of H with
  | context [match ?x with _ => _ end] => let E := fresh "E" in destruct x eqn:E
  end.

(** Exhaust the branches of a handler that is recorded in hypothesis [H]. *)
Ltac run_branches H :=
  repeat (split_match_in H; simplify_eq/=; try done).

Create HintDb clouditor discriminated.
Create Rewrite HintDb clouditor_rw.

(** ** Lists *)

Section ListFacts.
Context {A : Type}.
Implicit Types l : list A.

(** Loops of the shape [for _, x := range l { if p(x) { acc = append(acc, f(x)) } }]
    are [omap]s; this is the shape the services use to collect results. *)
Lemma foldl_snoc_omap {B} (f : A -> option B) l (acc : list B) :
  foldl (fun a x => match f x with Some y => a ++ [y] | None => a end) acc l
  = acc ++ omap f l.
Proof.
  revert acc. induction l as [|x l IH]; intros acc; simpl.
  - by rewrite app_nil_r.
  - rewrite IH. destruct (f x); simpl; by rewrite <-?app_assoc.
Qed.

Lemma foldl_app_concat {B} (f : A -> list B) l (acc : list B) :
  foldl (fun a x => a ++ f x) acc l = acc ++ (l ≫= f).
Proof.
  revert acc. induction l as [|x l IH]; intros acc; simpl.
  - by rewrite app_nil_r.
  - by rewrite IH, <-app_assoc.
Qed.

(** A window of a list followed by the next window is one larger window. *)
Lemma take_drop_window n m k (l : list A) :
  take n (drop k l) ++ take m (drop (k + n) l) = take (n + m) (drop k l).
Proof. rewrite <-drop_drop. apply take_take_drop. Qed.

Lemma elem_of_window n k (l : list A) x : x ∈ take n (drop k l) -> x ∈ l.
Proof.
  intros H. rewrite <-(take_drop k l). apply elem_of_app. right.
  rewrite <-(take_drop n (drop k l)). apply elem_of_app. by left.
Qed.

Lemma existsb_elem_of (p : A -> bool) l :
  existsb p l = true <-> exists x, x ∈ l /\ p x = true.
Proof.
  rewrite existsb_exists. split; intros (x & H1 & H2); exists x; split; auto;
    by apply list_elem_of_In.
Qed.

Lemma forallb_elem_of (p : A -> bool) l :
  forallb p l = true <-> forall x, x ∈ l -> p x = true.
Proof.
  rewrite forallb_forall. split; intros H x Hx; apply H; by apply list_elem_of_In.
Qed.

Lemma filter_Forall_id (P : A -> Prop) `{!forall x, Decision (P x)} l : Forall P l -> filter P l = l.
Proof.
  induction 1 as [|x l Hx _ IH]; [done|]. by rewrite filter_cons, decide_True, IH.
Qed.

(** Folding an update over a list of keys, and reading one key back. *)
Lemma foldl_insert_lookup {K V : Type} `{Countable K} (kf : A -> K) (vf : A -> V) l (m : gmap K V) k :
  foldl (fun m x => <[kf x := vf x]> m) m l !! k
  = match last (filter (fun x => kf x = k) l) with Some x => Some (vf x) | None => m !! k end.
Proof.
  revert m. induction l as [|x l IH] using rev_ind; intros m; [done|].
  rewrite foldl_app; simpl. rewrite filter_app, filter_cons, filter_nil.
  destruct (decide (kf x = k)) as [<-|Hne].
  - by rewrite lookup_insert_eq, last_snoc.
  - rewrite lookup_insert_ne by done. by rewrite app_nil_r, IH.
Qed.

End ListFacts.

Lemma Forall3_by_index {A B C} (Q : A -> B -> C -> Prop) l k m :
  length l = length k -> length l = length m ->
  (forall i x y z, l !! i = Some x -> k !! i = Some y -> m !! i = Some z -> Q x y z) ->
  Forall3 Q l k m.
Proof.
  revert k m. induction l as [|x l IH]; intros [|y k] [|z m] Hk Hm HQ; try done; [constructor|].
  constructor; [by apply (HQ 0)|]. apply IH; [naive_solver..|]. intros i. apply (HQ (S i)).
Qed.

#[export] Hint Rewrite @app_nil_r @app_nil_l : clouditor_rw.
