(* ===== verification/GoRuntime.v ===== *)
(** The Go features the handlers use, as a small state-and-panic monad, and Go's
    error values.

    A Go function that reads and writes shared state [W] and may panic (nil
    dereference, slice bounds, failed type assertion) is a [Go W A].  A Go
    function with result list [(T, error)] is a [Go W (res T)]. *)

From S2P Require Import Prelude.

(** ** Panics and state *)

(** [OutOfFuel] is a run that was cut off: the definitions with a loop whose
    length depends on a remote answer take a bound, and the theorems about them
    say which bound is enough. *)
Inductive outcome (A : Type) : Type :=
| Returned (a : A)
| Panicked
| OutOfFuel.
Arguments Returned {A} a.
Arguments Panicked {A}.
Arguments OutOfFuel {A}.

Definition Go (W A : Type) : Type := W -> outcome A * W.

Definition gret {W A} (a : A) : Go W A := fun w => (Returned a, w).

Definition gbind {W A B} (m : Go W A) (k : A -> Go W B) : Go W B :=
  fun w => match m w with
           | (Returned a, w') => k a w'
           | (Panicked, w') => (Panicked, w')
           | (OutOfFuel, w') => (OutOfFuel, w')
           end.

Definition gpanic {W A} : Go W A := fun w => (Panicked, w).

Definition gfuel {W A} : Go W A := fun w => (OutOfFuel, w).

Definition gread {W A} (f : W -> A) : Go W A := fun w => (Returned (f w), w).

Definition gmodify {W} (f : W -> W) : Go W unit := fun w => (Returned tt, f w).

(** [*p] and [p.Field]: a nil pointer panics. *)
Definition gderef {W A} (p : option A) : Go W A :=
  match p with Some a => gret a | None => gpanic end.

Notation "x <- m ;; k" := (gbind m (fun x => k))
  (at level 98, m at next level, right associativity) : go_scope.
Notation "m ;;; k" := (gbind m (fun _ => k))
  (at level 98, right associativity) : go_scope.

(** A [for range] loop whose body only has effects. *)
Fixpoint gfor {W A} (l : list A) (body : A -> Go W unit) : Go W unit :=
  match l with
  | [] => gret tt
  | x :: l => body x ;;; gfor l body
  end.

(** ** Errors *)

(** The gRPC status codes the services return. *)
Inductive code :=
| codes_OK | codes_Unknown | codes_InvalidArgument | codes_NotFound | codes_AlreadyExists
| codes_PermissionDenied | codes_FailedPrecondition | codes_Aborted | codes_Internal
| codes_Unauthenticated.

#[global] Instance code_eq_dec : EqDecision code.
Proof. solve_decision. Defined.

(** [EText m] is [errors.New(m)], [EWrap p e] is [fmt.Errorf("p: %w", e)],
    [EStatus c m] is [status.Error(c, m)]. *)
Inductive error :=
| EText (msg : string)
| EWrap (prefix : string) (inner : error)
| EStatus (c : code) (msg : string).

#[global] Instance error_eq_dec : EqDecision error.
Proof. solve_decision. Defined.

Definition code_String (c : code) : string :=
  match c with
  | codes_OK => "OK" | codes_Unknown => "Unknown" | codes_InvalidArgument => "InvalidArgument"
  | codes_NotFound => "NotFound" | codes_AlreadyExists => "AlreadyExists"
  | codes_PermissionDenied => "PermissionDenied" | codes_FailedPrecondition => "FailedPrecondition"
  | codes_Aborted => "Aborted" | codes_Internal => "Internal"
  | codes_Unauthenticated => "Unauthenticated"
  end.

(** [err.Error()] *)
Fixpoint Error (e : error) : string :=
  match e with
  | EText m => m
  | EWrap p e => p +:+ ": " +:+ Error e
  | EStatus c m => "rpc error: code = " +:+ code_String c +:+ " desc = " +:+ m
  end.

(** [errors.Is(err, target)]: the chain of wrapped errors contains the target. *)
Fixpoint errors_Is (e target : error) : bool :=
  bool_decide (e = target) ||
  match e with EWrap _ e' => errors_Is e' target | _ => false end.

(** [(T, error)] with exactly one of the two meaningful. *)
Inductive res (A : Type) : Type :=
| OK (a : A)
| Err (e : error).
Arguments OK {A} a.
Arguments Err {A} e.

Definition gerr {W A} (e : error) : Go W (res A) := gret (Err e).
Definition gok {W A} (a : A) : Go W (res A) := gret (OK a).

(** [x, err = m; if err != nil { return nil, f(err) }; k]. *)
Definition gtry {W A B} (m : Go W (res A)) (f : error -> error) (k : A -> Go W (res B)) : Go W (res B) :=
  gbind m (fun r => match r with OK a => k a | Err e => gerr (f e) end).

Notation "x <-? m '!' f ;; k" := (gtry m f (fun x => k))
  (at level 98, m at next level, f at next level, right associativity) : go_scope.

(** [if !cond { return nil, e }; k] *)
Definition gguard {W B} (c : bool) (e : error) (k : Go W (res B)) : Go W (res B) :=
  if c then k else gerr e.

Notation "'require' c 'else' e ;; k" := (gguard c e k)
  (at level 98, c at next level, e at next level, right associativity) : go_scope.

(** ** The environment: clock and UUID source *)

(** The [n]-th answer of [time.Now()] and of [uuid.NewString()]. *)
Class Env := {
  uuid_at : nat -> string;
  time_at : nat -> Z;
}.

(** The state a handler runs in: the database, the service's own fields, the
    goroutines it has started and not joined, and the position in [Env]. *)
Record World (DB S T : Type) := mkWorld {
  w_db : DB;
  w_svc : S;
  w_tasks : list T;
  w_tick : nat;
}.
Arguments mkWorld {DB S T}.
Arguments w_db {DB S T}.
Arguments w_svc {DB S T}.
Arguments w_tasks {DB S T}.
Arguments w_tick {DB S T}.

Section Effects.
Context {DB S T : Type} `{Env}.
Abbreviation W := (World DB S T).

Definition uuid_NewString : Go W string :=
  fun w => (Returned (uuid_at (w_tick w)),
            mkWorld (w_db w) (w_svc w) (w_tasks w) (w_tick w + 1)).

Definition time_Now : Go W Z :=
  fun w => (Returned (time_at (w_tick w)),
            mkWorld (w_db w) (w_svc w) (w_tasks w) (w_tick w + 1)).

(** [go f()]: the goroutine is recorded, it is not run to completion here. *)
Definition go_spawn (t : T) : Go W unit :=
  fun w => (Returned tt, mkWorld (w_db w) (w_svc w) (w_tasks w ++ [t]) (w_tick w)).

Definition db_query {A} (f : DB -> A) : Go W A := fun w => (Returned (f (w_db w)), w).

Definition db_exec {A} (f : DB -> A * DB) : Go W A :=
  fun w => let '(a, db') := f (w_db w) in
           (Returned a, mkWorld db' (w_svc w) (w_tasks w) (w_tick w)).

Definition svc_read {A} (f : S -> A) : Go W A := fun w => (Returned (f (w_svc w)), w).

Definition svc_modify (f : S -> S) : Go W unit :=
  fun w => (Returned tt, mkWorld (w_db w) (f (w_svc w)) (w_tasks w) (w_tick w)).
End Effects.

(** A remote call: the answer depends on when it is made and changes nothing here. *)
Section Remote.
Context {DB S T : Type}.

Definition remote {A} (answer : nat -> A) : Go (World DB S T) A :=
  fun w => (Returned (answer (w_tick w)),
            mkWorld (w_db w) (w_svc w) (w_tasks w) (w_tick w + 1)).

(** Code of another component that makes calls of its own: it starts at a tick and
    ends at a later one, with any outcome. *)
Definition Calls (A : Type) : Type := nat -> outcome A * nat.

Definition run_calls {A} (m : Calls A) : Go (World DB S T) A :=
  fun w => let '(o, n) := m (w_tick w) in (o, mkWorld (w_db w) (w_svc w) (w_tasks w) n).
End Remote.

(** A handler that only makes calls, as such code. *)
Definition calls_of {A} (m : Go (World unit unit unit) A) : Calls A :=
  fun n => let '(o, w) := m (mkWorld tt tt [] n) in (o, w_tick w).

(** ** Goroutine groups *)

(** The order in which the goroutines of a group of [n] that is started at tick
    [t] run; any order is possible. *)
Class Schedule := {
  order : nat -> nat -> list nat;
  order_perm : forall t n, order t n ≡ₚ seq 0 n;
}.

Section Errgroup.
Context {W A : Type}.

(** Run goroutine after goroutine: goroutine [i] stores its result at index [i],
    and the group keeps its first error. *)
Fixpoint group_run (sched : list nat) (body : nat -> Go W (res A))
    (results : list (option A)) (err : option error) : Go W (list (option A) * option error) :=
  match sched with
  | [] => gret (results, err)
  | i :: sched =>
      r <- body i ;;
      match r with
      | OK a => group_run sched body (<[i := Some a]> results) err
      | Err e => group_run sched body results (match err with None => Some e | Some _ => err end)
      end
  end.
End Errgroup.

(** [for i, x := range l { g.Go(func() error { ...; results[i] = result }) }; err = g.Wait()] *)
Definition errgroup {DB S T X A : Type} `{Schedule} (l : list X) (body : X -> Go (World DB S T) (res A))
  : Go (World DB S T) (list (option A) * option error) :=
  tick <- gread w_tick ;;
  group_run (order tick (length l))
    (fun i => match l !! i with Some x => body x | None => gpanic end)
    (replicate (length l) None) None.

(** ** gRPC streams *)

(** What [stream.Recv()] answers. *)
Inductive recv (A : Type) := RecvMsg (m : A) | RecvEOF | RecvError (e : error).
Arguments RecvMsg {A}.
Arguments RecvEOF {A}.
Arguments RecvError {A}.

(** What [stream.Send(res)] answers. *)
Inductive sent := SentOK | SentEOF | SentError (e : error).

(** ** Reasoning about handlers *)

Section MonadFacts.
Context {W : Type}.

Lemma gbind_ret {A B} (a : A) (k : A -> Go W B) w : gbind (gret a) k w = k a w.
Proof. reflexivity. Qed.

Lemma gbind_assoc {A B C} (m : Go W A) (f : A -> Go W B) (g : B -> Go W C) w :
  gbind (gbind m f) g w = gbind m (fun a => gbind (f a) g) w.
Proof. unfold gbind. by destruct (m w) as [[a| |] w']. Qed.

(** The first step of a run, once it is known. *)
Lemma gbind_eq {A B} (m : Go W A) (k : A -> Go W B) w a w' : m w = (Returned a, w') -> gbind m k w = k a w'.
Proof. unfold gbind. by intros ->. Qed.

(** A successful bind decomposes into two successful runs. *)
Lemma gbind_returned {A B} (m : Go W A) (k : A -> Go W B) w b w' :
  gbind m k w = (Returned b, w') <->
  exists a w1, m w = (Returned a, w1) /\ k a w1 = (Returned b, w').
Proof.
  unfold gbind. destruct (m w) as [[a| |] w1]; split.
  - eauto.
  - intros (a' & w1' & ? & ?). by simplify_eq.
  - done.
  - by intros (? & ? & ? & _).
  - done.
  - by intros (? & ? & ? & _).
Qed.

(** A run that returns, identified by evaluating it. *)
Lemma run_is {A} (m : Go W A) w r w' r0 : m w = (Returned r, w') -> fst (m w) = Returned r0 -> r = r0.
Proof. intros -> [= ->]. done. Qed.

Lemma gtry_OK {A B} (m : Go W (res A)) f (k : A -> Go W (res B)) w b w' :
  gtry m f k w = (Returned (OK b), w') ->
  exists a w1, m w = (Returned (OK a), w1) /\ k a w1 = (Returned (OK b), w').
Proof.
  intros (r & w1 & Hm & Hk)%gbind_returned. destruct r; [eauto|done].
Qed.
End MonadFacts.

(** *** Frames

    [m] only makes moves of [P], whatever its outcome. *)
Definition moves {W A : Type} (P : relation W) (m : Go W A) : Prop := forall w, P w (snd (m w)).

Section Moves.
Context {W : Type} (P : relation W) `{!PreOrder P}.

Lemma moves_ret {A} (a : A) : moves P (gret a).
Proof. intros w. reflexivity. Qed.

Lemma moves_ok {A} (a : A) : moves P (gok a).
Proof. intros w. reflexivity. Qed.

Lemma moves_err {A} e : moves P (@gerr W A e).
Proof. intros w. reflexivity. Qed.

Lemma moves_read {A} (f : W -> A) : moves P (gread f).
Proof. intros w. reflexivity. Qed.

Lemma moves_panic {A} : moves P (@gpanic W A).
Proof. intros w. reflexivity. Qed.

Lemma moves_fuel {A} : moves P (@gfuel W A).
Proof. intros w. reflexivity. Qed.

Lemma moves_bind {A B} (m : Go W A) (k : A -> Go W B) :
  moves P m -> (forall a, moves P (k a)) -> moves P (gbind m k).
Proof.
  intros Hm Hk w. unfold gbind. specialize (Hm w). destruct (m w) as [[a| |] w1]; cbn in *; [|done..].
  etrans; [exact Hm|apply Hk].
Qed.

Lemma moves_try {A B} (m : Go W (res A)) f (k : A -> Go W (res B)) :
  moves P m -> (forall a, moves P (k a)) -> moves P (gtry m f k).
Proof. intros Hm Hk. apply moves_bind; [done|]. intros [a|e]; [apply Hk|apply moves_err]. Qed.

Lemma moves_guard {B} c e (k : Go W (res B)) : moves P k -> moves P (gguard c e k).
Proof. destruct c; [done|]. intros _. apply moves_err. Qed.

Lemma moves_run {A} (m : Go W A) w o w' : moves P m -> m w = (o, w') -> P w w'.
Proof. intros Hm Hr. specialize (Hm w). by rewrite Hr in Hm. Qed.
End Moves.

(** The part [F] of the state is left alone. *)
Definition same_part {W X : Type} (F : W -> X) (w w' : W) : Prop := F w' = F w.

#[global] Instance same_part_preorder {W X} (F : W -> X) : PreOrder (same_part F).
Proof. split; unfold same_part; congruence. Qed.

Definition keeps {W X A : Type} (F : W -> X) (m : Go W A) : Prop := moves (same_part F) m.

Section Frames.
Context {W X : Type} (F : W -> X).

Lemma keeps_ret {A} (a : A) : keeps F (gret a).
Proof. done. Qed.

Lemma keeps_ok {A} (a : A) : keeps F (gok a).
Proof. done. Qed.

Lemma keeps_err {A} e : keeps F (@gerr W A e).
Proof. done. Qed.

Lemma keeps_read {A} (f : W -> A) : keeps F (gread f).
Proof. done. Qed.

Lemma keeps_panic {A} : keeps F (@gpanic W A).
Proof. done. Qed.

Lemma keeps_fuel {A} : keeps F (@gfuel W A).
Proof. done. Qed.

Lemma keeps_bind {A B} (m : Go W A) (k : A -> Go W B) :
  keeps F m -> (forall a, keeps F (k a)) -> keeps F (gbind m k).
Proof. apply moves_bind, _. Qed.

Lemma keeps_try {A B} (m : Go W (res A)) f (k : A -> Go W (res B)) :
  keeps F m -> (forall a, keeps F (k a)) -> keeps F (gtry m f k).
Proof. apply moves_try, _. Qed.

Lemma keeps_guard {B} c e (k : Go W (res B)) : keeps F k -> keeps F (gguard c e k).
Proof. apply moves_guard, _. Qed.

Lemma keeps_run {A} (m : Go W A) w o w' : keeps F m -> m w = (o, w') -> F w' = F w.
Proof. apply (moves_run (same_part F)). Qed.
End Frames.

(** *** Ticks and identifiers *)

Section Ticks.
Context {DB S T : Type}.
Abbreviation W := (World DB S T).

(** Time only goes on. *)
Definition tick_le (w w' : W) : Prop := w_tick w <= w_tick w'.

#[global] Instance tick_le_preorder : PreOrder tick_le.
Proof. split; unfold tick_le; [by intros ?|]. intros w1 w2 w3. lia. Qed.

Lemma moves_remote {A} (f : nat -> A) : moves tick_le (remote f : Go W A).
Proof. intros w. unfold tick_le. cbn. lia. Qed.
End Ticks.

Section Minted.
Context `{Env}.

(** Identifiers that [uuid.NewString()] answered between two ticks, at a different
    tick each. *)
Definition minted (t t' : nat) (ids : list string) : Prop :=
  exists ns, ids = uuid_at <$> ns /\ NoDup ns /\ Forall (fun n => t <= n < t') ns.

(** The generator has not answered any of the identifiers from a tick on. *)
Definition unused (t : nat) (ids : list string) : Prop := forall n, t <= n -> uuid_at n ∉ ids.

Lemma minted_nil t t' : minted t t' [].
Proof. exists []. split_and!; [done|constructor..]. Qed.

Lemma minted_cons t t1 t' ids : t < t1 -> minted t1 t' ids -> t1 <= t' -> minted t t' (uuid_at t :: ids).
Proof.
  intros Ht (ns & -> & Hnd & Hns) Ht'. exists (t :: ns). rewrite Forall_forall in Hns. split_and!; [done| |].
  - constructor; [|done]. intros Hin. specialize (Hns _ Hin). lia.
  - constructor; [lia|]. apply Forall_forall. intros n Hn. specialize (Hns _ Hn). lia.
Qed.

Lemma minted_weaken t0 t t' t1 ids : t0 <= t -> t' <= t1 -> minted t t' ids -> minted t0 t1 ids.
Proof.
  intros H1 H2 (ns & -> & Hnd & Hns). exists ns. split_and!; [done..|]. eapply Forall_impl; [exact Hns|]. cbn. lia.
Qed.

Lemma minted_NoDup `{!Inj (=) (=) uuid_at} t t' ids : minted t t' ids -> NoDup ids.
Proof. intros (ns & -> & Hnd & _). by apply NoDup_fmap. Qed.

Lemma unused_minted t t' ids old id : minted t t' ids -> unused t old -> id ∈ ids -> id ∉ old.
Proof.
  intros (ns & -> & _ & Hns) Hun (n & -> & Hn)%list_elem_of_fmap. rewrite Forall_forall in Hns. apply Hun.
  specialize (Hns _ Hn). lia.
Qed.

Lemma unused_after `{!Inj (=) (=) uuid_at} t t' ids old ids' : minted t t' ids -> t <= t' -> unused t old ->
  (forall id, id ∈ ids' -> id ∈ ids \/ id ∈ old) -> unused t' ids'.
Proof.
  intros (ns & -> & _ & Hns) Ht Hun Hids n Hn [(k & Heq & Hk)%list_elem_of_fmap|Hin]%Hids; [|by apply (Hun n); [lia|]].
  apply (inj uuid_at) in Heq as ->. rewrite Forall_forall in Hns. specialize (Hns _ Hk). lia.
Qed.
End Minted.

(** *** Goroutine groups

    A group whose goroutines always return, whatever the schedule: [I w ys] is an
    invariant of the state that records what the goroutines have added ([ys]),
    [P] holds of everything added, and [Q x a ys] is what goroutine [x] promises
    when it succeeds with [a], and [E x e] what is known when it fails with [e]. *)
Section GroupFacts.
Context {W A Y : Type} (I : W -> list Y -> Prop) (P : Y -> Prop).

Lemma group_run_total (Q : nat -> A -> list Y -> Prop) (E : nat -> error -> Prop) body sched :
  (forall i w acc, i ∈ sched -> I w acc ->
     exists r w' ys, body i w = (Returned r, w') /\ I w' (ys ++ acc) /\ Forall P ys /\
                     (forall a, r = OK a -> Q i a ys) /\ (forall e, r = Err e -> E i e)) ->
  forall results err w acc, I w acc -> NoDup sched -> Forall (fun i => i < length results) sched ->
  exists rs e w' ys (parts : list (nat * (A * list Y))),
    group_run sched body results err w = (Returned (rs, e), w') /\
    I w' (ys ++ acc) /\ Forall P ys /\ length rs = length results /\
    (forall i, i ∉ sched -> rs !! i = results !! i) /\
    (e = None -> err = None /\ parts.*1 = sched /\ ys ≡ₚ concat (parts.*2.*2) /\
       forall i a x, (i, (a, x)) ∈ parts -> rs !! i = Some (Some a) /\ Q i a x) /\
    (forall x, e = Some x -> err = Some x \/ exists i, i ∈ sched /\ E i x).
Proof.
  intros Hbody. induction sched as [|i sched IH]; intros results err w acc HI Hnd Hlen.
  - exists results, err, w, [], []. split_and!; simpl; auto. intros ->. split_and!; auto. set_solver.
  - destruct (Hbody i w acc ltac:(set_solver) HI) as (r & w1 & ys1 & Hb & HI1 & HP1 & HQ & HE).
    apply NoDup_cons in Hnd as [Hni Hnd]. apply Forall_cons in Hlen as [Hi Hlen].
    set (results1 := match r with OK a => <[i := Some a]> results | Err _ => results end).
    set (err1 := match r with OK _ => err | Err e => match err with None => Some e | _ => err end end).
    assert (Hl1 : length results1 = length results).
    { unfold results1. destruct r; [apply length_insert|done]. }
    destruct (IH ltac:(set_solver) results1 err1 w1 (ys1 ++ acc) HI1 Hnd ltac:(by rewrite Hl1))
      as (rs & e & w' & ys & parts & Hrun & HI' & HP & Hlr & Hout & Hok & Hfail).
    exists rs, e, w', (ys ++ ys1), (match r with OK a => (i, (a, ys1)) :: parts | Err _ => parts end).
    split_and!; [|by rewrite <-app_assoc|by apply Forall_app|congruence| | |].
    + simpl. unfold gbind. rewrite Hb. by destruct r.
    + intros j Hj. rewrite Hout by set_solver. unfold results1. destruct r; [|done].
      apply list_lookup_insert_ne. set_solver.
    + intros He. destruct (Hok He) as (He1 & Hp1 & Hys & Hparts). destruct r as [a|e1].
      2: { unfold err1 in He1. by destruct err. }
      split_and!; [done|by rewrite fmap_cons, Hp1| |].
      * cbn. rewrite Permutation_app_comm, Hys. done.
      * intros j b x [[= -> -> ->]|Hin]%elem_of_cons; [|by apply Hparts].
        split; [|by apply HQ]. rewrite Hout by done. apply list_lookup_insert_eq. lia.
    + intros x [Hx|(j & Hj & Hx)]%Hfail; [|right; exists j; set_solver]. unfold err1 in Hx.
      destruct r as [a|e1]; [by left|]. destruct err; [by left|]. right. exists i. split; [set_solver|]. naive_solver.
Qed.

Lemma parts_by_index {B} (d : B) n (parts : list (nat * B)) : parts.*1 ≡ₚ seq 0 n ->
  exists bs, length bs = n /\ parts.*2 ≡ₚ bs /\ forall i b, bs !! i = Some b -> (i, b) ∈ parts.
Proof.
  intros Hp. set (m := list_to_map parts : gmap nat B). set (f := fun i => default d (m !! i)).
  assert (Hnd : NoDup parts.*1) by (rewrite Hp; apply NoDup_seq).
  assert (Hf : forall i b, (i, b) ∈ parts -> f i = b).
  { intros i b Hin. unfold f, m. by rewrite (elem_of_list_to_map_1 _ _ _ Hnd Hin). }
  exists (f <$> seq 0 n). split_and!.
  - by rewrite length_fmap, length_seq.
  - rewrite <-Hp, <-list_fmap_compose. erewrite list_fmap_ext; [done|].
    intros k [i b] Hk. simpl. symmetry. apply Hf. by eapply list_elem_of_lookup_2.
  - intros i b. rewrite list_lookup_fmap. intros (j & Hj & ->)%fmap_Some.
    apply lookup_seq in Hj as [-> Hlt]. simpl.
    assert (Hin : i ∈ parts.*1) by (rewrite Hp; apply elem_of_seq; lia).
    apply list_elem_of_fmap in Hin as ([k b] & -> & Hin). simpl. by rewrite (Hf _ _ Hin).
Qed.
End GroupFacts.

Lemma errgroup_total {DB S T X A Y : Type} `{Schedule} (I : World DB S T -> list Y -> Prop) (P : Y -> Prop)
    (Q : X -> A -> list Y -> Prop) (E : X -> error -> Prop) (l : list X) body w acc :
  (forall x w acc, x ∈ l -> I w acc ->
     exists r w' ys, body x w = (Returned r, w') /\ I w' (ys ++ acc) /\ Forall P ys /\
                     (forall a, r = OK a -> Q x a ys) /\ (forall e, r = Err e -> E x e)) ->
  I w acc ->
  exists rs e w' ys, errgroup l body w = (Returned (rs, e), w') /\ I w' (ys ++ acc) /\ Forall P ys /\
    (e = None -> exists xs yss, rs = Some <$> xs /\ Forall3 Q l xs yss /\ ys ≡ₚ concat yss) /\
    (forall e1, e = Some e1 -> exists x, x ∈ l /\ E x e1).
Proof.
  intros Hbody HI. unfold errgroup, gbind, gread. set (sched := order (w_tick w) (length l)).
  assert (Hs : sched ≡ₚ seq 0 (length l)) by apply order_perm.
  assert (Hlt : Forall (fun i => i < length l) sched).
  { apply Forall_forall. intros i. rewrite Hs, elem_of_seq. lia. }
  edestruct (group_run_total I P (fun i a ys => exists x, l !! i = Some x /\ Q x a ys)
    (fun i e => exists x, x ∈ l /\ E x e)
    (fun i => match l !! i with Some x => body x | None => gpanic end) sched) with
    (results := replicate (length l) (@None A)) (err := @None error)
    as (rs & e & w' & ys & parts & Hrun & HI' & HP & Hlr & Hout & Hok & Hfail); [|exact HI| | |].
  - intros i w0 acc0 Hi HI0. rewrite Forall_forall in Hlt. destruct (lookup_lt_is_Some_2 l i (Hlt i Hi)) as [x Hx].
    rewrite Hx. destruct (Hbody x w0 acc0 ltac:(by eapply list_elem_of_lookup_2) HI0) as (r & w1 & ys & ? & ? & ? & HQ & HE).
    exists r, w1, ys. split_and!; eauto. intros e He. exists x. split; [by eapply list_elem_of_lookup_2|eauto].
  - rewrite Hs. apply NoDup_seq.
  - by rewrite length_replicate.
  - exists rs, e, w', ys. split_and!; [done..| |].
    2: { intros e1 [?|(? & _ & ?)]%Hfail; done. }
    intros He. destruct (Hok He) as (_ & Hp & Hys & Hparts).
    rewrite length_replicate in Hlr. rewrite <-Hp in Hs.
    destruct l as [|x0 l'] eqn:El.
    { exists [], []. destruct rs; [|done]. split_and!; [done|constructor|].
      destruct parts; [done|]. by apply Permutation_nil_r in Hs. }
    destruct (parts) as [|[? d0] ?] eqn:Ep; [by apply Permutation_nil_l in Hs|]. rewrite <-Ep in *.
    destruct (parts_by_index d0 _ _ Hs) as (bs & Hlb & Hbs & Hin). rewrite <-El in *.
    exists (bs.*1), (bs.*2). split_and!.
    + apply list_eq_same_length with (length l); [by rewrite !length_fmap|congruence|].
      intros i o1 o2 Hi. rewrite !list_lookup_fmap. intros Ho1 Ho2.
      destruct (bs !! i) as [[a y]|] eqn:Eb; [|done]. destruct (Hparts i a y (Hin _ _ Eb)) as [? _]. naive_solver.
    + apply Forall3_by_index; [rewrite !length_fmap; congruence..|].
      intros i x a y Hx Ha Hy. rewrite list_lookup_fmap in Ha. rewrite list_lookup_fmap in Hy.
      destruct (bs !! i) as [[a' y']|] eqn:Eb; simplify_eq/=.
      destruct (Hparts i a y (Hin _ _ Eb)) as [_ (x' & ? & ?)]. by simplify_eq.
    + by rewrite Hys, Hbs.
Qed.

(** Unfold the monad of a handler run in hypothesis [H] or in the goal. *)
Ltac go_unfold :=
  unfold gtry, gguard, gok, gerr, gbind, gret, gpanic, gfuel, gread, gmodify, gderef,
    db_query, db_exec, svc_read, svc_modify, go_spawn, uuid_NewString, time_Now, remote in *; simpl in *.

(** A run that ended: read off its result. *)
Ltac go_done H :=
  unfold gerr, gok, gret, gpanic, gfuel, svc_modify in H; simplify_eq.

(** Follow a run of a handler through all of its branches: [H] is
    [handler w = (outcome, w')] with the handler unfolded. *)
Ltac go_step H :=
  unfold gtry, gguard, gbind, gderef, gread, db_query, svc_read, go_spawn, uuid_NewString, time_Now, remote in H;
  repeat (cbv beta iota zeta in H; cbn [id fst snd w_db w_svc w_tasks w_tick] in H;
          match type of H with
          | context [match ?x with _ => _ end] =>
              lazymatch x with context [match _ with _ => _ end] => fail | _ => let E := fresh "E" in destruct x eqn:E end
          end);
  try (go_done H).

#[export] Hint Resolve moves_ret moves_ok moves_err moves_read moves_panic moves_fuel : clouditor.
#[export] Hint Resolve keeps_ret keeps_ok keeps_err keeps_read keeps_panic keeps_fuel keeps_bind keeps_try keeps_guard : clouditor.

#[export] Hint Rewrite @gbind_ret @gbind_assoc : clouditor_rw.
