(* ===== verification/GoHoare.v ===== *)
(** Postconditions of handlers: a unary program logic for the monad of GoRuntime.v,
    with a rule for every construct the handlers are made of. *)

From S2P Require Import Prelude GoRuntime.

(** ** Runs under an invariant

    Started in a state with [I], [m] ends in one, whatever its outcome, and what it
    returns satisfies [P]. *)
Definition ensures {W A} (I : W -> Prop) (m : Go W A) (P : A -> Prop) : Prop :=
  forall w, I w -> I (snd (m w)) /\ (forall a, fst (m w) = Returned a -> P a).

Section Ensures.
Context {W : Type} (I : W -> Prop).

Lemma ensures_ret {A} (a : A) (P : A -> Prop) : P a -> ensures I (gret a) P.
Proof. intros HP w Hw. split; [done|]. by intros ? [= <-]. Qed.

Lemma ensures_panic {A} (P : A -> Prop) : ensures I gpanic P.
Proof. intros w Hw. by split. Qed.

Lemma ensures_bind {A B} (m : Go W A) (k : A -> Go W B) Q P :
  ensures I m Q -> (forall a, Q a -> ensures I (k a) P) -> ensures I (gbind m k) P.
Proof.
  intros Hm Hk w Hw. destruct (Hm w Hw) as [Hi Hq]. unfold gbind. destruct (m w) as [[a| |] w']; [|by split..].
  apply Hk; [by apply Hq|done].
Qed.

Lemma ensures_weaken {A} (m : Go W A) (Q P : A -> Prop) :
  ensures I m Q -> (forall a, Q a -> P a) -> ensures I m P.
Proof. intros Hm Hq w Hw. destruct (Hm w Hw) as [? Hr]. split; [done|]. eauto. Qed.

Lemma ensures_deref {A} (o : option A) (P : A -> Prop) : (forall a, o = Some a -> P a) -> ensures I (gderef o) P.
Proof. intros HP. destruct o; [apply ensures_ret; auto|apply ensures_panic]. Qed.

Lemma ensures_try {A B} (m : Go W (res A)) f (k : A -> Go W (res B)) Q P :
  ensures I m (fun r => match r with OK a => Q a | Err _ => True end) -> (forall e, P (Err e)) ->
  (forall a, Q a -> ensures I (k a) P) -> ensures I (gtry m f k) P.
Proof. intros Hm He Hk. eapply ensures_bind; [exact Hm|]. intros [a|e] Hq; [by apply Hk|by apply ensures_ret]. Qed.

Lemma ensures_guard {B} c e (k : Go W (res B)) P : P (Err e) -> ensures I k P -> ensures I (gguard c e k) P.
Proof. intros He Hk. destruct c; [done|]. by apply ensures_ret. Qed.

(** What is returned, without the state. *)
Lemma ensures_returned {A} (m : Go W A) P w a w' : ensures I m P -> I w -> m w = (Returned a, w') -> P a /\ I w'.
Proof. intros Hm Hw Hr. destruct (Hm w Hw) as [Hi Hp]. rewrite Hr in *. auto. Qed.

Lemma ensures_fuel {A} (P : A -> Prop) : ensures I gfuel P.
Proof. intros w Hw. by split. Qed.

(** A frame that determines the invariant is as good as the invariant. *)
Lemma ensures_keeps {X A} (F : W -> X) (m : Go W A) :
  keeps F m -> (forall w w', F w' = F w -> I w -> I w') -> ensures I m (fun _ => True).
Proof. intros Hm Hi w Hw. split; [|done]. apply (Hi w); [apply Hm|done]. Qed.

(** What a run returned, as a fact about the run itself. *)
Lemma ensures_ran {A} (m : Go W A) : ensures I m (fun _ => True) ->
  ensures I m (fun a => exists w w', m w = (Returned a, w')).
Proof.
  intros Hm w Hw. destruct (Hm w Hw) as [Hi _]. split; [done|]. intros a Ha. exists w, (snd (m w)). rewrite <-Ha. by destruct (m w).
Qed.
End Ensures.

Section World_ensures.
Context {DB S T : Type} (I : World DB S T -> Prop).

Lemma ensures_svc_read {A} (f : S -> A) (P : A -> Prop) : (forall w, I w -> P (f (w_svc w))) -> ensures I (svc_read f) P.
Proof. intros HP w Hw. split; [done|]. intros a [= <-]. by apply HP. Qed.
End World_ensures.

(** Invariants of the service's record only. *)
Section Service_ensures.
Context {DB S T : Type} (J : S -> Prop).
Abbreviation I := (fun w : World DB S T => J (w_svc w)).

Lemma ensures_remote {A} (f : nat -> A) (P : A -> Prop) : (forall n, P (f n)) -> ensures I (remote f) P.
Proof. intros HP w Hw. split; [done|]. intros a [= <-]. apply HP. Qed.

Lemma ensures_svc_modify (f : S -> S) (P : unit -> Prop) : (forall s, J s -> J (f s)) -> P tt -> ensures I (svc_modify f) P.
Proof. intros Hf HP w Hw. split; [by apply Hf|]. by intros []. Qed.
End Service_ensures.
