(* ===== verification/GoStrings.v ===== *)
(** The parts of Go's [strings], [slices] and [encoding/base64] packages the
    sources call.  Strings are byte strings, as in Go. *)

From S2P Require Import Prelude.

(** ** Package strings *)

(** [strings.Join(elems, sep)] *)
Fixpoint strings_Join (elems : list string) (sep : string) : string :=
  match elems with
  | [] => ""
  | [x] => x
  | x :: rest => x +:+ sep +:+ strings_Join rest sep
  end.

Definition strings_HasPrefix (s pre : string) : bool := String.prefix pre s.

(** [strings.Contains(s, sub)] *)
Fixpoint strings_Contains (s sub : string) : bool :=
  strings_HasPrefix s sub ||
  match s with EmptyString => false | String _ s' => strings_Contains s' sub end.

(** [s[n:]] *)
Fixpoint str_drop (n : nat) (s : string) : string :=
  match n, s with
  | 0, _ => s
  | _, EmptyString => EmptyString
  | S n, String _ s => str_drop n s
  end.

(** [s[:n]] *)
Fixpoint str_take (n : nat) (s : string) : string :=
  match n, s with
  | 0, _ | _, EmptyString => EmptyString
  | S n, String c s => String c (str_take n s)
  end.

Definition strings_HasSuffix (s suf : string) : bool :=
  bool_decide (String.length suf <= String.length s) &&
  bool_decide (str_drop (String.length s - String.length suf) s = suf).

(** [strings.CutPrefix(s, prefix)] and [strings.CutSuffix(s, suffix)] *)
Definition strings_CutPrefix (s pre : string) : string * bool :=
  if strings_HasPrefix s pre then (str_drop (String.length pre) s, true) else (s, false).

Definition strings_CutSuffix (s suf : string) : string * bool :=
  if strings_HasSuffix s suf then (str_take (String.length s - String.length suf) s, true)
  else (s, false).

(** [strings.ReplaceAll(s, old, new)] for a non-empty [old]; [skip] counts the
    bytes of the current occurrence that are still to be dropped. *)
Fixpoint replace_from (skip : nat) (s old new : string) : string :=
  match s with
  | EmptyString => EmptyString
  | String c s' =>
      match skip with
      | S skip' => replace_from skip' s' old new
      | 0 => if strings_HasPrefix s old
             then new +:+ replace_from (String.length old - 1) s' old new
             else String c (replace_from 0 s' old new)
      end
  end.

Definition strings_ReplaceAll (s old new : string) : string := replace_from 0 s old new.

(** [strings.Compare(a, b)] as the comparison [slices.SortFunc] uses. *)
Definition strings_le (a b : string) : bool := String.leb a b.

(** ** Package slices *)

(** [slices.Contains(l, x)] *)
Definition slices_Contains {A} `{EqDecision A} (l : list A) (x : A) : bool := bool_decide (x ∈ l).

(** [slices.Index(l, x)]: the first position, or -1. *)
Fixpoint index_from {A} `{EqDecision A} (i : Z) (l : list A) (x : A) : Z :=
  match l with
  | [] => (-1)%Z
  | y :: l => if decide (y = x) then i else index_from (i + 1)%Z l x
  end.

Definition slices_Index {A} `{EqDecision A} (l : list A) (x : A) : Z := index_from 0 l x.

(** ** Facts *)

Lemma slices_Contains_true {A} `{EqDecision A} (l : list A) x :
  slices_Contains l x = true <-> x ∈ l.
Proof. unfold slices_Contains. by rewrite bool_decide_eq_true. Qed.

Lemma slices_Contains_false {A} `{EqDecision A} (l : list A) x :
  slices_Contains l x = false <-> x ∉ l.
Proof. unfold slices_Contains. by rewrite bool_decide_eq_false. Qed.

Lemma index_from_ge {A} `{EqDecision A} (l : list A) i x :
  (0 <= i)%Z -> index_from i l x = (-1)%Z \/ (i <= index_from i l x)%Z.
Proof.
  revert i. induction l as [|y l IH]; intros i Hi; simpl; [by left|].
  destruct (decide (y = x)); [right; lia|].
  destruct (IH (i + 1)%Z ltac:(lia)); [by left|right; lia].
Qed.

Lemma slices_Index_absent {A} `{EqDecision A} (l : list A) x :
  slices_Index l x = (-1)%Z <-> x ∉ l.
Proof.
  unfold slices_Index. assert (Hi : (0 <= 0)%Z) by lia. revert Hi. generalize 0%Z at 2 3 as i.
  induction l as [|y l IH]; intros i Hi; simpl; [set_solver|].
  destruct (decide (y = x)) as [->|Hne].
  - split; [lia|set_solver].
  - rewrite IH by lia. set_solver.
Qed.

(** [slices.Index] returns the position of the first occurrence. *)
Lemma index_from_lookup {A} `{EqDecision A} (l : list A) (i : Z) (n : nat) x :
  l !! n = Some x -> (forall m, m < n -> l !! m <> Some x) ->
  index_from i l x = (i + Z.of_nat n)%Z.
Proof.
  revert i n. induction l as [|y l IH]; intros i n Hn Hfirst; [done|]; simpl.
  destruct n as [|n]; simplify_eq/=.
  - rewrite decide_True by done. lia.
  - destruct (decide (y = x)) as [->|Hne].
    + exfalso. by apply (Hfirst 0); [lia|].
    + rewrite (IH (i + 1)%Z n); [lia|done|].
      intros m Hm. apply (Hfirst (S m)). lia.
Qed.

Lemma prefix_app (a b : string) : String.prefix a (a +:+ b) = true.
Proof.
  induction a as [|c a IH]; simpl; [by destruct b|].
  destruct (Ascii.ascii_dec c c); [done|congruence].
Qed.

Lemma str_append_assoc (a b c : string) : (a +:+ b) +:+ c = a +:+ (b +:+ c).
Proof.
  induction a as [|x a IH]; [done|].
  change (String x ((a +:+ b) +:+ c) = String x (a +:+ (b +:+ c))). by rewrite IH.
Qed.

Lemma str_append_nil (a : string) : a +:+ "" = a.
Proof.
  induction a as [|x a IH]; [done|]. change (String x (a +:+ "") = String x a). by rewrite IH.
Qed.

Lemma prefix_spec (a s : string) : String.prefix a s = true <-> exists b, s = a +:+ b.
Proof.
  split.
  - revert s. induction a as [|c a IH]; intros s Hp; [by exists s|].
    destruct s as [|d s]; [done|]. simpl in Hp.
    destruct (Ascii.ascii_dec c d) as [->|]; [|done].
    destruct (IH s Hp) as (b & ->). by exists b.
  - intros (b & ->). apply prefix_app.
Qed.

Lemma str_append_cons c (a b : string) : String c a +:+ b = String c (a +:+ b).
Proof. reflexivity. Qed.

Lemma str_append_empty (b : string) : "" +:+ b = b.
Proof. reflexivity. Qed.
