(* ===== verification/Util.v ===== *)
(** Package internal/util: pointer helpers, timestamps, directory listings and
    the metric-name conversion [CamelCaseToSnakeCase] that names the Rego
    packages. *)

From Stdlib Require Import Ascii.
From S2P Require Import Prelude GoRuntime GoStrings.

(** ** deref.go *)

(** The zero value of a Go type. *)
Class Zero (A : Type) := zero : A.
#[global] Instance Zero_string : Zero string := "".
#[global] Instance Zero_bool : Zero bool := false.
#[global] Instance Zero_Z : Zero Z := 0%Z.

Definition Deref {A} `{Zero A} (p : option A) : A :=
  match p with Some a => a | None => zero end.

Definition Ref {A} (a : A) : option A := Some a.

(** A value of interface type: the untyped nil, or a dynamic type with its
    (pointer) value. *)
Inductive iface (A : Type) := NilInterface | Typed (p : option A).
Arguments NilInterface {A}.
Arguments Typed {A} p.

Definition IsNil {A} (value : iface A) : bool :=
  match value with
  | NilInterface => true
  | Typed None => true
  | Typed (Some _) => false
  end.

(** ** time.go *)

(** A [time.Time] by its nanoseconds since the epoch; the zero time is
    January 1, year 1. *)
Definition zero_time : Z := (-62135596800 * 1000000000)%Z.

Definition SafeTimestamp (t : option Z) : Z :=
  match t with
  | None => 0
  | Some t => if bool_decide (t = zero_time) then 0 else t / 1000000000
  end%Z.

(** ** filesystem.go *)

(** [entries] is the answer of [os.ReadDir(folder)], the names in the folder. *)
Definition GetJSONFilenames (folder : string) (entries : res (list string)) : res (list string) :=
  match entries with
  | Err e => Err e
  | OK files =>
      OK (foldl (fun list name =>
                   if strings_HasSuffix name ".json"
                   then list ++ [folder +:+ "/" +:+ name] else list) [] files)
  end.

(** ** string.go *)

(** The ASCII part of package unicode.  Metric identifiers are ASCII; the model
    of [[]rune(input)] is the byte list, which is the rune list of an ASCII
    string. *)
Definition byte_in (lo hi : nat) (c : ascii) : bool :=
  let n := Ascii.nat_of_ascii c in (lo <=? n) && (n <=? hi).

Definition IsUpper (c : ascii) : bool := byte_in 65 90 c.
Definition IsLower (c : ascii) : bool := byte_in 97 122 c.
Definition IsDigit (c : ascii) : bool := byte_in 48 57 c.
Definition ToLower (c : ascii) : ascii :=
  if IsUpper c then Ascii.ascii_of_nat (Ascii.nat_of_ascii c + 32) else c.

(** [f(input[i])], and false when [i] is out of range (only evaluated in range). *)
Definition at_is (f : ascii -> bool) (input : list ascii) (i : nat) : bool :=
  match input !! i with Some c => f c | None => false end.

Definition marksNewWord (i : nat) (input : list ascii) : bool :=
  if bool_decide (length input <= i) then false
  else if bool_decide (i < length input - 1) && at_is IsUpper input i && at_is IsLower input (i + 1)
  then true
  else if bool_decide (0 < i) && at_is IsLower input (i - 1) && at_is IsUpper input i
  then true
  else if bool_decide (i < length input - 1) && at_is IsDigit input i && at_is IsLower input (i + 1)
  then true
  else if bool_decide (0 < i) && at_is IsUpper input (i - 1) && at_is IsDigit input i
  then true
  else false.

Definition underscore : ascii := "_"%char.

(** One iteration of the loop body: what is appended for position [i]. *)
Definition snake_piece (input : list ascii) (i : nat) (c : ascii) : list ascii :=
  if bool_decide (0 < i) && marksNewWord i input then [underscore; ToLower c] else [ToLower c].

(** [for i := range runeArray { ... }]: [rest] is what is left of [input] from
    position [i] on. *)
Fixpoint snake_loop (input : list ascii) (i : nat) (rest : list ascii) : list ascii :=
  match rest with
  | [] => []
  | c :: rest => snake_piece input i c ++ snake_loop input (S i) rest
  end.

Definition CamelCaseToSnakeCase (input : string) : string :=
  if bool_decide (input = "") then ""
  else let runeArray := String.list_ascii_of_string input in
       String.string_of_list_ascii (snake_loop runeArray 0 runeArray).

(** *** Properties of the conversion *)

Example camel_tests :
  map CamelCaseToSnakeCase
    [""; "TESTCamelCaseString"; "testCamelCaseSTRING"; "3TestCamelCaseString";
     "3testCamelCaseString"; "test3CamelCaseString"; "t3CamelCaseString"; "T3CamelCaseString"]
  = [""; "test_camel_case_string"; "test_camel_case_string"; "3_test_camel_case_string";
     "3test_camel_case_string"; "test3_camel_case_string"; "t3_camel_case_string";
     "t_3_camel_case_string"].
Proof. vm_compute. reflexivity. Qed.

Lemma ToLower_not_upper c : IsUpper (ToLower c) = false.
Proof. destruct c as [[] [] [] [] [] [] [] []]; vm_compute; reflexivity. Qed.

Lemma ToLower_underscore c : ToLower c = underscore <-> c = underscore.
Proof. destruct c as [[] [] [] [] [] [] [] []]; vm_compute; split; congruence. Qed.

Lemma elem_of_snake_loop input i rest c :
  c ∈ snake_loop input i rest -> c = underscore \/ exists d, d ∈ rest /\ c = ToLower d.
Proof.
  revert i. induction rest as [|d rest IH]; intros i; simpl; [set_solver|].
  rewrite elem_of_app. intros [Hc|[?|(?&?&?)]%IH]; [|set_solver..].
  unfold snake_piece in Hc. destruct (_ && _); set_solver.
Qed.

(** Removing the separators recovers the lower-cased input. *)
Definition no_sep (l : list ascii) : list ascii := filter (fun c => c <> underscore) l.

Lemma no_sep_app l1 l2 : no_sep (l1 ++ l2) = no_sep l1 ++ no_sep l2.
Proof. apply filter_app. Qed.

Lemma no_sep_snake_piece input i c : no_sep (snake_piece input i c) = no_sep [ToLower c].
Proof.
  unfold snake_piece. destruct (_ && _); [|done].
  change [underscore; ToLower c] with ([underscore] ++ [ToLower c]). by rewrite no_sep_app.
Qed.

Lemma no_sep_snake_loop input i rest :
  no_sep (snake_loop input i rest) = no_sep (ToLower <$> rest).
Proof.
  revert i. induction rest as [|c rest IH]; intros i; [done|]; simpl.
  rewrite no_sep_app, no_sep_snake_piece, IH. by rewrite <-no_sep_app.
Qed.

Lemma length_snake_loop input i rest :
  length rest <= length (snake_loop input i rest) <= 2 * length rest.
Proof.
  revert i. induction rest as [|c rest IH]; intros i; simpl; [lia|].
  rewrite length_app. specialize (IH (S i)).
  unfold snake_piece. destruct (_ && _); simpl; lia.
Qed.

Lemma list_ascii_snake input :
  String.list_ascii_of_string (CamelCaseToSnakeCase input)
  = snake_loop (String.list_ascii_of_string input) 0 (String.list_ascii_of_string input).
Proof.
  unfold CamelCaseToSnakeCase. destruct (decide (input = "")) as [->|Hne]; [done|].
  rewrite bool_decide_eq_false_2 by done. apply String.list_ascii_of_string_of_list_ascii.
Qed.

(** CamelCaseToSnakeCase (internal/util/string.go) yields no
    upper-case letter, loses and adds nothing but separators (erasing the
    underscores of the output gives the lower-cased input without its
    underscores), and at most doubles the length. *)
Theorem snake_case_correct (input : string) :
  let inp := String.list_ascii_of_string input in
  let out := String.list_ascii_of_string (CamelCaseToSnakeCase input) in
  (forall c, c ∈ out -> IsUpper c = false) /\
  no_sep out = no_sep (ToLower <$> inp) /\
  length inp <= length out <= 2 * length inp.
Proof.
  cbv zeta. rewrite list_ascii_snake. split_and!.
  - intros c [->|(d & _ & ->)]%elem_of_snake_loop; [done|apply ToLower_not_upper].
  - apply no_sep_snake_loop.
  - apply length_snake_loop.
  - apply length_snake_loop.
Qed.
