(* ===== verification/GoText.v ===== *)
(** More of Go's [strings] and [strconv]: splitting, case folding and decimal
    numbers, as the discoverers use them on identifiers.

    Case mapping is modelled on ASCII letters; the identifiers of the cloud
    providers are ASCII. *)

From Stdlib Require Import Ascii.
From S2P Require Import Prelude GoRuntime GoStrings Util.

(** [strings.Split(s, sep)] for a separator of one byte. *)
Fixpoint strings_Split (s : string) (sep : ascii) : list string :=
  match s with
  | EmptyString => [""]
  | String c s =>
      if bool_decide (c = sep) then "" :: strings_Split s sep
      else match strings_Split s sep with
           | x :: l => String c x :: l
           | [] => [String c ""]
           end
  end.

(** [strings.ToLower(s)] *)
Fixpoint strings_ToLower (s : string) : string :=
  match s with
  | EmptyString => EmptyString
  | String c s => String (ToLower c) (strings_ToLower s)
  end.

(** [strings.EqualFold(a, b)] *)
Definition strings_EqualFold (a b : string) : bool := bool_decide (strings_ToLower a = strings_ToLower b).

(** [int64], with its wrap-around. *)
Definition int64_min : Z := (- 2 ^ 63)%Z.
Definition int64_max : Z := (2 ^ 63 - 1)%Z.

Definition digit_value (c : ascii) : Z := Z.of_nat (nat_of_ascii c) - 48.

Fixpoint decimal_from (acc : Z) (s : string) : Z :=
  match s with
  | EmptyString => acc
  | String c s => decimal_from (10 * acc + digit_value c) s
  end.

Fixpoint all_digits (s : string) : bool :=
  match s with EmptyString => true | String c s => IsDigit c && all_digits s end.

(** [strconv.Atoi(s)]: an optional sign and at least one digit, in range. *)
Definition strconv_Atoi (s : string) : res Z :=
  let '(sign, digits) := match s with
    | String "-" s => ((-1)%Z, s)
    | String "+" s => (1%Z, s)
    | _ => (1%Z, s)
    end in
  if bool_decide (digits = "") || negb (all_digits digits)
  then Err (EText ("strconv.Atoi: parsing " +:+ s +:+ ": invalid syntax"))
  else let n := (sign * decimal_from 0 digits)%Z in
       if bool_decide (int64_min <= n <= int64_max)%Z then OK n
       else Err (EText ("strconv.Atoi: parsing " +:+ s +:+ ": value out of range")).

(** Digits of a number, least significant first in [digits_rev]; used to state
    round trips. *)
Fixpoint digits_of (fuel : nat) (n : Z) (acc : string) : string :=
  match fuel with
  | 0 => acc
  | S fuel => let acc := String (ascii_of_nat (Z.to_nat (48 + n mod 10))) acc in
              if bool_decide (n < 10)%Z then acc else digits_of fuel (n / 10) acc
  end.

(** [strconv.Itoa(n)] for a non-negative int64. *)
Definition strconv_Itoa (n : Z) : string := digits_of 20 n "".

(** ** Facts *)

Lemma str_length_append a b : String.length (a +:+ b) = String.length a + String.length b.
Proof. induction a as [|c a IH]; [done|]. rewrite str_append_cons. simpl. by rewrite IH. Qed.

Lemma str_take_append a b : str_take (String.length a) (a +:+ b) = a.
Proof. induction a as [|c a IH]; [by destruct b|]. rewrite str_append_cons. simpl. by rewrite IH. Qed.

Lemma str_drop_append a b : str_drop (String.length a) (a +:+ b) = b.
Proof. induction a as [|c a IH]; [by destruct b|]. rewrite str_append_cons. simpl. by rewrite IH. Qed.

Lemma split_nonempty s sep : strings_Split s sep <> [].
Proof. destruct s; simpl; [done|]. case_bool_decide; [done|]. by destruct (strings_Split s sep). Qed.

(** Splitting at an occurrence of the separator splits both sides. *)
Lemma split_app a b sep : strings_Split (a +:+ String sep b) sep = strings_Split a sep ++ strings_Split b sep.
Proof.
  induction a as [|c a IH]; simpl.
  - by rewrite bool_decide_eq_true_2.
  - change (String c a +:+ String sep b) with (String c (a +:+ String sep b)). simpl.
    case_bool_decide; [by rewrite IH|].
    pose proof (split_nonempty a sep). rewrite IH. by destruct (strings_Split a sep).
Qed.

(** A string without the separator is its only part. *)
Lemma split_none s sep : sep ∉ String.list_ascii_of_string s -> strings_Split s sep = [s].
Proof.
  induction s as [|c s IH]; simpl; [done|]. intros Hs. rewrite bool_decide_eq_false_2 by set_solver.
  rewrite IH by set_solver. done.
Qed.

Lemma join_cons x y l sep : strings_Join (x :: y :: l) sep = x +:+ sep +:+ strings_Join (y :: l) sep.
Proof. done. Qed.

(** Joining the parts gives the string back. *)
Lemma join_split s sep : strings_Join (strings_Split s sep) (String sep "") = s.
Proof.
  induction s as [|c s IH]; [done|]. cbn [strings_Split]. pose proof (split_nonempty s sep) as Hne.
  case_bool_decide as Hc.
  - subst. destruct (strings_Split s sep) as [|x l]; [done|]. rewrite join_cons, IH. done.
  - destruct (strings_Split s sep) as [|x [|y l]]; [done|..].
    + simpl in IH |- *. by rewrite IH.
    + rewrite join_cons in *. by rewrite <-IH.
Qed.

Lemma ToLower_idem c : ToLower (ToLower c) = ToLower c.
Proof. destruct c as [[] [] [] [] [] [] [] []]; reflexivity. Qed.

Lemma strings_ToLower_idem s : strings_ToLower (strings_ToLower s) = strings_ToLower s.
Proof. induction s as [|c s IH]; simpl; [done|]. by rewrite ToLower_idem, IH. Qed.

Lemma strings_ToLower_app a b : strings_ToLower (a +:+ b) = strings_ToLower a +:+ strings_ToLower b.
Proof. induction a as [|c a IH]; [done|]. rewrite !str_append_cons. simpl. by rewrite IH. Qed.

Lemma ToLower_slash c : ToLower c = "/"%char <-> c = "/"%char.
Proof. split; [|by intros ->]. destruct c as [[] [] [] [] [] [] [] []]; vm_compute; congruence. Qed.

(** Case folding does not move the segments of a path. *)
Lemma split_ToLower s : strings_Split (strings_ToLower s) "/" = strings_ToLower <$> strings_Split s "/".
Proof.
  induction s as [|c s IH]; [done|]. simpl. rewrite IH. case_bool_decide as Hc.
  - apply ToLower_slash in Hc as ->. done.
  - rewrite bool_decide_eq_false_2 by (by rewrite <-ToLower_slash).
    by destruct (strings_Split s "/").
Qed.

Lemma join_ToLower l : strings_Join (strings_ToLower <$> l) "/" = strings_ToLower (strings_Join l "/").
Proof.
  induction l as [|x [|y l] IH]; [done|done|]. rewrite fmap_cons, fmap_cons, !join_cons.
  rewrite !strings_ToLower_app. rewrite fmap_cons in IH. by rewrite IH.
Qed.

(** *** Decimal numbers *)

Lemma digit_char n : (0 <= n < 10)%Z ->
  let c := ascii_of_nat (Z.to_nat (48 + n)) in IsDigit c = true /\ digit_value c = n.
Proof.
  intros Hn. unfold IsDigit, byte_in, digit_value. rewrite nat_ascii_embedding by lia.
  split; [|lia]. rewrite !andb_true_iff, !Nat.leb_le. lia.
Qed.

Lemma digits_of_value fuel n s : (0 <= n < 10 ^ Z.of_nat fuel)%Z -> 0 < fuel ->
  decimal_from 0 (digits_of fuel n s) = decimal_from n s /\
  all_digits (digits_of fuel n s) = all_digits s /\ digits_of fuel n s <> "".
Proof.
  revert n s. induction fuel as [|fuel IH]; intros n s Hn Hf; [lia|]. cbn [digits_of].
  rewrite Nat2Z.inj_succ, Z.pow_succ_r in Hn by lia.
  pose proof (Z.mod_pos_bound n 10 ltac:(lia)) as Hm. destruct (digit_char (n mod 10) Hm) as [Hd Hv].
  case_bool_decide as Hlt.
  - rewrite Z.mod_small in * by lia. cbn [decimal_from all_digits]. rewrite Hv, Hd. split_and!; [f_equal; lia|done..].
  - destruct fuel as [|fuel]; [lia|]. destruct (IH (n / 10)%Z (String (ascii_of_nat (Z.to_nat (48 + n mod 10))) s))
      as (H1 & H2 & H3); [|lia|].
    { split; [apply Z.div_pos; lia|]. apply Z.div_lt_upper_bound; lia. }
    rewrite H1, H2. cbn [decimal_from all_digits]. rewrite Hv, Hd. split_and!; [|done|done].
    f_equal. pose proof (Z.div_mod n 10). lia.
Qed.

Lemma atoi_digits s : s <> "" -> all_digits s = true ->
  strconv_Atoi s = if bool_decide (int64_min <= decimal_from 0 s <= int64_max)%Z then OK (decimal_from 0 s)
                   else Err (EText ("strconv.Atoi: parsing " +:+ s +:+ ": value out of range")).
Proof.
  intros Hne Hd. unfold strconv_Atoi.
  assert (Hs : match s with String "-" s => ((-1)%Z, s) | String "+" s => (1%Z, s) | _ => (1%Z, s) end = (1%Z, s)).
  { destruct s as [|c s]; [done|]. simpl in Hd. apply andb_true_iff in Hd as [Hd _].
    destruct c as [[] [] [] [] [] [] [] []]; (reflexivity || (vm_compute in Hd; discriminate)). }
  rewrite Hs. rewrite bool_decide_eq_false_2, Hd by done. cbn [orb negb]. by rewrite Z.mul_1_l.
Qed.

(** A printed non-negative int64 is read back. *)
Lemma atoi_itoa n : (0 <= n <= int64_max)%Z -> strconv_Atoi (strconv_Itoa n) = OK n.
Proof.
  unfold int64_max. intros Hn. unfold strconv_Itoa. destruct (digits_of_value 20 n "") as (Hv & Hd & Hne); [|lia|].
  { change (10 ^ Z.of_nat 20)%Z with 100000000000000000000%Z. lia. }
  rewrite atoi_digits by done. rewrite Hv. cbn [decimal_from].
  by rewrite bool_decide_eq_true_2 by (unfold int64_min, int64_max; lia).
Qed.
