(* ===== verification/Paths.v ===== *)
(** internal/util/filesystem.go: ExpandPath, with the parts of [path/filepath] it
    calls, and the path of the signing keys of the embedded OAuth 2.0 server
    (server/rest/rest.go).

    The elements of a path are what is between its slashes.  Expanding a path that
    starts with a tilde appends its elements to those of the home directory;
    cleaning a path is idempotent. *)

From Stdlib Require Import Ascii.
From S2P Require Import Prelude GoRuntime GoStrings Util GoText.

(** ** path/filepath on Unix *)

Definition slash : ascii := "/".

(** The elements that are kept, the last one first in [stack]: empty elements and
    dots are dropped, and ".." removes the element before it; at the beginning it is
    dropped from a rooted path and kept in a relative one. *)
Fixpoint clean_from (rooted : bool) (stack elems : list string) : list string :=
  match elems with
  | [] => reverse stack
  | e :: elems =>
      if bool_decide (e = "" \/ e = ".") then clean_from rooted stack elems
      else if bool_decide (e = "..") then
        match stack with
        | [] => clean_from rooted (if rooted then [] else [".."]) elems
        | top :: below => clean_from rooted (if bool_decide (top = "..") then ".." :: stack else below) elems
        end
      else clean_from rooted (e :: stack) elems
  end.

Definition is_rooted (path : string) : bool := strings_HasPrefix path "/".

Definition clean_elements (path : string) : list string := clean_from (is_rooted path) [] (strings_Split path slash).

Definition from_elements (rooted : bool) (elems : list string) : string :=
  let s := strings_Join elems "/" in
  if rooted then "/" +:+ s else if bool_decide (s = "") then "." else s.

Definition filepath_Clean (path : string) : string := from_elements (is_rooted path) (clean_elements path).

(** [filepath.Join(elem...)]: from the first element that is not empty on. *)
Fixpoint filepath_Join (elem : list string) : string :=
  match elem with
  | [] => ""
  | e :: rest => if bool_decide (e = "") then filepath_Join rest else filepath_Clean (strings_Join elem "/")
  end.

(** ** filesystem.go *)

(** [home] is the answer of [os.UserHomeDir()]. *)
Definition ExpandPath (home : res string) (path : string) : res string :=
  match home with
  | Err e => Err (EWrap "could not find retrieve current user" e)
  | OK home =>
      let '(out, found) := strings_CutPrefix path "~" in
      OK (if found : bool then filepath_Join [home; out] else out)
  end.

(** The path that the function of [oauth2.WithSigningKeysFunc] loads the keys from. *)
Definition signing_keys_path (home : res string) (keyPath : string) : string :=
  match ExpandPath home keyPath with Err _ => "." | OK path => path end.

(** ** Cleaning *)

(** An element that cleaning keeps. *)
Definition plain (e : string) : Prop := e <> "" /\ e <> "." /\ e <> ".." /\ slash ∉ String.list_ascii_of_string e.

Definition no_slash (e : string) : Prop := slash ∉ String.list_ascii_of_string e.

Lemma split_no_slash s : Forall no_slash (strings_Split s slash).
Proof.
  unfold no_slash. induction s as [|c s IH]; cbn [strings_Split]; [repeat constructor; set_solver|].
  case_bool_decide; [constructor; [set_solver|done]|].
  destruct (strings_Split s slash) as [|x l]; [repeat constructor; set_solver|].
  apply Forall_cons in IH as [Hx Hl]. constructor; [|done]. cbn. set_solver.
Qed.

Lemma split_join elems : elems <> [] -> Forall no_slash elems -> strings_Split (strings_Join elems "/") slash = elems.
Proof.
  intros Hne Hs. destruct elems as [|e elems]; [done|]. clear Hne. revert e Hs.
  induction elems as [|e' elems IH]; intros e [He Hs]%Forall_cons; [by apply split_none|].
  rewrite join_cons. change (e +:+ "/" +:+ ?s) with (e +:+ String slash s). rewrite split_app, IH, split_none by done. done.
Qed.

(** What is left after cleaning: plain elements, behind some ".." in a relative path. *)
Definition cleaned (rooted : bool) (elems : list string) : Prop :=
  exists n l, elems = replicate n ".." ++ l /\ Forall plain l /\ (rooted = true -> n = 0).

Lemma cleaned_rev rooted top below : cleaned rooted (reverse (top :: below)) ->
  (top = ".." /\ rooted = false /\ exists n, reverse (top :: below) = replicate (S n) "..") \/
  (plain top /\ cleaned rooted (reverse below)).
Proof.
  rewrite reverse_cons. intros (n & l & Heq & Hl & Hn). destruct l as [|x l _] using rev_ind.
  - rewrite app_nil_r in Heq. destruct n as [|n]; [by destruct (reverse below)|]. left. rewrite replicate_S_end in Heq.
    apply app_inj_tail in Heq as [-> ->]. split_and!; [done|destruct rooted; [by specialize (Hn eq_refl)|done]|].
    exists n. by rewrite <-replicate_S_end.
  - right. rewrite app_assoc in Heq. apply app_inj_tail in Heq as [Heq ->]. apply Forall_app in Hl as [Hl Hx].
    rewrite Forall_singleton in Hx. split; [done|]. by exists n, l.
Qed.

Lemma clean_from_cleaned rooted stack elems : Forall no_slash elems -> cleaned rooted (reverse stack) ->
  cleaned rooted (clean_from rooted stack elems).
Proof.
  revert stack. induction elems as [|e elems IH]; intros stack Hs Hst; [done|]. apply Forall_cons in Hs as [He Hs].
  cbn [clean_from]. case_bool_decide as H1; [by apply IH|]. case_bool_decide as H2.
  - subst e. destruct stack as [|top below].
    + apply IH; [done|]. destruct rooted; [done|]. exists 1, []. by split_and!; [|constructor|].
    + apply IH; [done|]. destruct (cleaned_rev _ _ _ Hst) as [(-> & -> & n & Hr)|[Hp Hb]].
      * rewrite bool_decide_eq_true_2 by done. rewrite reverse_cons, Hr. exists (S (S n)), [].
        split_and!; [by rewrite app_nil_r, <-replicate_S_end|constructor|done].
      * rewrite bool_decide_eq_false_2; [done|]. by destruct Hp as (_ & _ & ? & _).
  - apply IH; [done|]. rewrite reverse_cons. destruct Hst as (n & l & -> & Hl & Hn). exists n, (l ++ [e]).
    split_and!; [by rewrite app_assoc| |done]. apply Forall_app. split; [done|]. apply Forall_singleton.
    split_and!; [by intros ->; apply H1; left|by intros ->; apply H1; right|done|done].
Qed.

Lemma clean_from_plain rooted stack l rest : Forall plain l ->
  clean_from rooted stack (l ++ rest) = clean_from rooted (reverse l ++ stack) rest.
Proof.
  intros Hl. revert stack. induction Hl as [|e l (H1 & H2 & H3 & _) _ IH]; intros stack; [done|]. cbn [clean_from app].
  rewrite bool_decide_eq_false_2 by naive_solver. rewrite bool_decide_eq_false_2 by done.
  rewrite IH, reverse_cons, <-app_assoc. done.
Qed.

Lemma clean_from_dots n k rest :
  clean_from false (replicate k "..") (replicate n ".." ++ rest) = clean_from false (replicate (n + k) "..") rest.
Proof.
  revert k. induction n as [|n IH]; intros k; [done|]. replace (S n + k) with (n + S k) by lia. rewrite <-IH.
  cbn [replicate app clean_from]. rewrite bool_decide_eq_false_2 by naive_solver. rewrite bool_decide_eq_true_2 by done.
  by destruct k.
Qed.

(** Elements that are clean stay as they are. *)
Lemma clean_from_clean rooted elems : cleaned rooted elems -> clean_from rooted [] elems = elems.
Proof.
  intros (n & l & -> & Hl & Hn). rewrite <-(app_nil_r l) at 1. destruct rooted.
  - rewrite (Hn eq_refl). cbn [replicate app]. rewrite clean_from_plain by done. cbn [clean_from]. by rewrite app_nil_r, reverse_involutive.
  - rewrite (clean_from_dots n 0 (l ++ []) : clean_from false [] _ = _), Nat.add_0_r, clean_from_plain by done.
    cbn [clean_from]. rewrite reverse_app, reverse_involutive. f_equal. by rewrite reverse_replicate.
Qed.

Lemma clean_elements_cleaned path : cleaned (is_rooted path) (clean_elements path).
Proof. apply clean_from_cleaned; [apply split_no_slash|]. by exists 0, []. Qed.

Lemma cleaned_no_slash rooted elems : cleaned rooted elems -> Forall no_slash elems /\ Forall (fun e => e <> "") elems.
Proof.
  intros (n & l & -> & Hl & _). rewrite !Forall_app. split_and!.
  - apply Forall_replicate. unfold no_slash. cbn. set_solver.
  - eapply Forall_impl; [exact Hl|]. by intros e (_ & _ & _ & ?).
  - by apply Forall_replicate.
  - eapply Forall_impl; [exact Hl|]. by intros e (? & _).
Qed.

Lemma join_empty elems : Forall (fun e => e <> "") elems -> strings_Join elems "/" = "" -> elems = [].
Proof. destruct 1 as [|e [|e' l] He]; [done|done|]. rewrite join_cons. by destruct e. Qed.

Lemma from_elements_read rooted elems : cleaned rooted elems ->
  is_rooted (from_elements rooted elems) = rooted /\ clean_elements (from_elements rooted elems) = elems.
Proof.
  intros Hc. destruct (cleaned_no_slash _ _ Hc) as [Hs Hne]. unfold from_elements.
  destruct rooted.
  - assert (Hr : is_rooted ("/" +:+ strings_Join elems "/") = true) by (unfold is_rooted, strings_HasPrefix; apply (prefix_app "/")).
    split; [done|]. unfold clean_elements. rewrite Hr.
    change ("/" +:+ ?s) with (String slash s). cbn [strings_Split]. rewrite bool_decide_eq_true_2 by done.
    cbn [clean_from]. rewrite bool_decide_eq_true_2 by (by left). destruct elems as [|e l]; [done|].
    rewrite split_join by done. by apply clean_from_clean.
  - case_bool_decide as He; [apply join_empty in He as ->; done|]. destruct elems as [|e l]; [done|].
    assert (Hr : is_rooted (strings_Join (e :: l) "/") = false).
    { apply Forall_cons in Hs as [Hse _]. apply Forall_cons in Hne as [Hee _]. destruct e as [|c e]; [done|].
      unfold is_rooted, strings_HasPrefix. assert (c <> slash) by (intros ->; apply Hse; cbn; set_solver).
      destruct (String.prefix "/" _) eqn:E; [|done]. apply prefix_spec in E as [b Hb].
      destruct l; [|rewrite join_cons in Hb]; by injection Hb. }
    split; [done|]. unfold clean_elements. rewrite Hr, split_join by done. by apply clean_from_clean.
Qed.

(** Cleaning a path again changes nothing. *)
Theorem clean_idempotent path : filepath_Clean (filepath_Clean path) = filepath_Clean path.
Proof.
  unfold filepath_Clean at 1 3. destruct (from_elements_read _ _ (clean_elements_cleaned path)) as [Hr He].
  fold (filepath_Clean path) in Hr, He. by rewrite Hr, He.
Qed.

(** ** Expanding *)

(** The elements of what follows the tilde, without those that cleaning drops. *)
Definition kept (p : string) : list string := filter (fun e => e <> "" /\ e <> ".") (strings_Split p slash).

Lemma clean_from_kept rooted stack elems : clean_from rooted stack (filter (fun e => e <> "" /\ e <> ".") elems) = clean_from rooted stack elems.
Proof.
  revert stack. induction elems as [|e elems IH]; intros stack; [done|]. cbn [clean_from].
  case_bool_decide as H1; [rewrite filter_cons_False by naive_solver; apply IH|].
  rewrite filter_cons_True by naive_solver. cbn [clean_from]. rewrite bool_decide_eq_false_2 by done.
  case_bool_decide; [destruct stack|]; apply IH.
Qed.

Lemma split_rooted home : is_rooted home = true -> exists l, strings_Split home slash = "" :: l.
Proof.
  unfold is_rooted, strings_HasPrefix. intros (b & ->)%prefix_spec. change ("/" +:+ b) with (String slash b).
  cbn [strings_Split]. rewrite bool_decide_eq_true_2 by done. by eexists.
Qed.

(** A path that starts with a tilde lies in the home directory, at what follows the
    tilde, as long as that has no ".."; in particular "~user/x" is the folder "user"
    in the home directory of the caller.  Every other path is left as it is, but
    only when the home directory is known. *)
Theorem expand_path_correct home path :
  (forall p, path = "~" +:+ p -> is_rooted home = true -> ".." ∉ strings_Split p slash ->
     exists out, ExpandPath (OK home) path = OK out /\ is_rooted out = true /\
       clean_elements out = clean_elements home ++ kept p) /\
  (strings_HasPrefix path "~" = false -> ExpandPath (OK home) path = OK path) /\
  (forall e, exists e', ExpandPath (Err e) path = Err e' /\ signing_keys_path (Err e) path = ".").
Proof.
  unfold ExpandPath, strings_CutPrefix. split_and!; [|by intros ->|by intros e; eexists].
  intros p -> Hroot Hdots. assert (Hpre : strings_HasPrefix ("~" +:+ p) "~" = true) by apply (prefix_app "~").
  rewrite Hpre. eexists. split; [reflexivity|]. change (str_drop _ ("~" +:+ p)) with (str_drop 0 p).
  assert (Hh : home <> "") by (by intros ->). cbn [filepath_Join]. rewrite bool_decide_eq_false_2 by done.
  assert (Hd : str_drop 0 p = p) by (by destruct p). rewrite Hd, join_cons. cbn [strings_Join].
  change (home +:+ "/" +:+ p) with (home +:+ String slash p).
  assert (Hr : is_rooted (home +:+ String slash p) = true).
  { unfold is_rooted, strings_HasPrefix in *. apply prefix_spec in Hroot as (b & ->). rewrite str_append_assoc. apply (prefix_app "/"). }
  pose proof (from_elements_read _ _ (clean_elements_cleaned (home +:+ String slash p))) as [Hr' He].
  fold (filepath_Clean (home +:+ String slash p)) in Hr', He. rewrite Hr', Hr. split; [done|]. rewrite He.
  unfold clean_elements at 1. rewrite Hr, split_app. pose proof (clean_elements_cleaned home) as Hclean.
  unfold clean_elements in *. rewrite Hroot in *. destruct Hclean as (n & l & Hl & Hplain & Hn). rewrite (Hn eq_refl) in Hl. cbn in Hl.
  assert (Hgen : forall stack elems, clean_from true stack (elems ++ strings_Split p slash)
    = clean_from true (reverse (clean_from true stack elems)) (strings_Split p slash)).
  { intros stack elems. revert stack. induction elems as [|e elems IH]; intros stack; cbn [clean_from app];
      [by rewrite reverse_involutive|]. repeat case_bool_decide; try destruct stack; apply IH. }
  rewrite Hgen, Hl, <-clean_from_kept. fold (kept p). rewrite <-(app_nil_r (kept p)) at 1.
  rewrite clean_from_plain; [cbn [clean_from]; by rewrite reverse_app, !reverse_involutive|].
  apply Forall_forall. intros e [[H1 H2] Hin]%list_elem_of_filter. split_and!; [done|done|by intros ->|].
  by apply (proj1 (Forall_forall _ _) (split_no_slash p)).
Qed.
