(* ===== verification/Api.v ===== *)
(** The protobuf messages of api/ as records, with the hand-written methods on
    them (api/orchestrator/orchestrator.go, api/assessment/assessment.go,
    api/evaluation/evaluation.go, api/discovery/discovery.go).

    A message-typed or [optional] field is a pointer, hence an [option]; a
    [repeated] field is a slice, hence a [list], and an [option] of a list where
    the code distinguishes the nil slice.  Timestamps are nanoseconds since the
    epoch. *)

From S2P Require Import Prelude GoRuntime GoStrings Util.

(** ** google.protobuf *)

(** google.protobuf.Value; a number is kept as the text Go prints for it. *)
Inductive Value :=
| NullValue
| NumberValue (repr : string)
| StringValue (s : string)
| BoolValue (b : bool)
| ListValue (l : list Value)
| StructValue (fields : list (string * Value)).

#[global] Instance Value_eq_dec : EqDecision Value.
Proof.
  refine (fix go (v1 v2 : Value) {struct v1} : Decision (v1 = v2) :=
    match v1, v2 with
    | NullValue, NullValue => left eq_refl
    | NumberValue a, NumberValue b => cast_if (decide (a = b))
    | StringValue a, StringValue b => cast_if (decide (a = b))
    | BoolValue a, BoolValue b => cast_if (decide (a = b))
    | ListValue l, ListValue k => cast_if (@list_eq_dec _ (go : EqDecision Value) l k)
    | StructValue l, StructValue k => cast_if (@list_eq_dec _ (@prod_eq_dec _ _ _ (go : EqDecision Value)) l k)
    | _, _ => right _
    end); clear go; abstract congruence.
Defined.

(** google.protobuf.Any *)
Record AnyPb := mkAnyPb { Any_TypeUrl : string; Any_Value : string }.

#[global] Instance AnyPb_eq_dec : EqDecision AnyPb.
Proof. solve_decision. Defined.

(** ** Paginated requests (api/pagination.go, PaginatedRequest) *)

Record PaginatedRequest := mkPaging {
  GetPageSize : Z;
  GetPageToken : string;
  GetOrderBy : string;
  GetAsc : bool;
}.

(** api/page_token.proto *)
Record PageToken := mkPageToken { PageToken_Start : Z; PageToken_Size : Z }.

#[global] Instance PageToken_eq_dec : EqDecision PageToken.
Proof. solve_decision. Defined.

(** ** api/assessment/metric.proto *)

Inductive Metric_Scale := SCALE_UNSPECIFIED | NOMINAL | ORDINAL | METRIC.

Inductive Range :=
| Range_AllowedValues (values : list Value)
| Range_Order (values : list Value)
| Range_MinMax (min max : Z).

Inductive Language := LANGUAGE_UNSPECIFIED | LANGUAGE_REGO.

#[global] Instance Language_eq_dec : EqDecision Language.
Proof. solve_decision. Defined.

Record MetricImplementation := mkMetricImplementation {
  MetricImplementation_MetricId : string;
  MetricImplementation_Lang : Language;
  MetricImplementation_Code : string;
  MetricImplementation_UpdatedAt : option Z;
}.

Record Metric := mkMetric {
  Metric_Id : string;
  Metric_Name : string;
  Metric_Description : string;
  Metric_Category : string;
  Metric_Scale_ : Metric_Scale;
  Metric_Range : option Range;
  Metric_Interval : Z;
  Metric_Implementation : option MetricImplementation;
  Metric_DeprecatedSince : option Z;
}.

Record MetricConfiguration := mkMetricConfiguration {
  MetricConfiguration_Operator : string;
  MetricConfiguration_TargetValue : option Value;
  MetricConfiguration_IsDefault : bool;
  MetricConfiguration_UpdatedAt : option Z;
  MetricConfiguration_MetricId : string;
  MetricConfiguration_CloudServiceId : string;
}.

#[global] Instance MetricConfiguration_eq_dec : EqDecision MetricConfiguration.
Proof. solve_decision. Defined.

(** ** api/assessment/assessment.proto *)

Record AssessmentResult := mkAssessmentResult {
  AssessmentResult_Id : string;
  AssessmentResult_Timestamp : option Z;
  AssessmentResult_MetricId : string;
  AssessmentResult_MetricConfiguration : option MetricConfiguration;
  AssessmentResult_Compliant : bool;
  AssessmentResult_EvidenceId : string;
  AssessmentResult_ResourceId : string;
  AssessmentResult_ResourceTypes : list string;
  AssessmentResult_NonComplianceComments : string;
  AssessmentResult_CloudServiceId : string;
  AssessmentResult_ToolId : option string;
}.

#[global] Instance AssessmentResult_eq_dec : EqDecision AssessmentResult.
Proof. solve_decision. Defined.

Inductive AssessmentStatus := WAITING_FOR_RELATED | ASSESSED | FAILED.

(** ** api/evidence *)

Record Evidence := mkEvidence {
  Evidence_Id : string;
  Evidence_Timestamp : option Z;
  Evidence_CloudServiceId : string;
  Evidence_ToolId : string;
  Evidence_Raw : option string;
  Evidence_Resource : option AnyPb;
}.

#[global] Instance Evidence_eq_dec : EqDecision Evidence.
Proof. solve_decision. Defined.

Record Evidence_Filter := mkEvidenceFilter {
  EvidenceFilter_CloudServiceId : option string;
  EvidenceFilter_ToolId : option string;
}.

(** [StoreEvidenceRequest] and [AssessEvidenceRequest] wrap an evidence. *)
Record EvidenceRequest := mkEvidenceRequest { EvidenceRequest_Evidence : option Evidence }.

#[global] Instance EvidenceRequest_eq_dec : EqDecision EvidenceRequest.
Proof. solve_decision. Defined.

Record ListEvidencesRequest := mkListEvidencesRequest {
  ListEvidences_Filter : option Evidence_Filter;
  ListEvidences_Paging : PaginatedRequest;
}.

(** ** api/discovery *)

Record Resource := mkResource {
  Resource_Id : string;
  Resource_CloudServiceId : string;
  Resource_ResourceType : string;
  Resource_Properties : option AnyPb;
}.

Record Resource_Filter := mkResourceFilter {
  ResourceFilter_Type : option string;
  ResourceFilter_CloudServiceId : option string;
}.

Record ListResourcesRequest := mkListResourcesRequest {
  ListResources_Filter : option Resource_Filter;
  ListResources_Paging : PaginatedRequest;
}.

Record GraphEdge := mkGraphEdge {
  GraphEdge_Id : string;
  GraphEdge_Source : string;
  GraphEdge_Target : string;
  GraphEdge_Type : string;
}.

(** ** api/orchestrator *)

(** The labels and the icon of [CloudService.Metadata]. *)
Record CloudService_Metadata := mkCloudServiceMetadata {
  Metadata_Labels : gmap string string;
  Metadata_Icon : option string;
}.

Inductive Control := mkControl {
  Control_Id : string;
  Control_CategoryName : string;
  Control_CategoryCatalogId : string;
  Control_Name : string;
  Control_Description : string;
  Control_Controls : list Control;
  Control_Metrics : list Metric;
  Control_ParentControlId : option string;
  Control_ParentControlCategoryName : option string;
  Control_ParentControlCategoryCatalogId : option string;
  Control_AssuranceLevel : option string;
}.

Record Category := mkCategory {
  Category_Name : string;
  Category_CatalogId : string;
  Category_Description : string;
  Category_Controls : list Control;
}.

Record Catalog_Metadata := mkCatalogMetadata { Metadata_Color : option string }.

Record Catalog := mkCatalog {
  Catalog_Id : string;
  Catalog_Name : string;
  Catalog_Description : string;
  Catalog_Categories : list Category;
  Catalog_AllInScope : bool;
  Catalog_AssuranceLevels : list string;
  Catalog_ShortName : string;
  Catalog_Metadata_ : option Catalog_Metadata;
}.

Record CloudService := mkCloudService {
  CloudService_Id : string;
  CloudService_Name : string;
  CloudService_Description : string;
  CloudService_CatalogsInScope : list Catalog;
  CloudService_ConfiguredMetrics : list Metric;
  CloudService_CreatedAt : option Z;
  CloudService_UpdatedAt : option Z;
  CloudService_Metadata_ : option CloudService_Metadata;
}.

Record TargetOfEvaluation := mkTargetOfEvaluation {
  TargetOfEvaluation_CloudServiceId : string;
  TargetOfEvaluation_CatalogId : string;
  TargetOfEvaluation_AssuranceLevel : option string;
}.

Record State := mkState {
  State_Id : string;
  State_State : string;
  State_TreeId : string;
  State_Timestamp : string;
  State_CertificateId : string;
}.

Record Certificate := mkCertificate {
  Certificate_Id : string;
  Certificate_Name : string;
  Certificate_CloudServiceId : string;
  Certificate_IssueDate : string;
  Certificate_ExpirationDate : string;
  Certificate_Standard : string;
  Certificate_AssuranceLevel : string;
  Certificate_Cab : string;
  Certificate_Description : string;
  Certificate_States : list State;
}.

Inductive MetricChangeEvent_Type :=
| TYPE_UNSPECIFIED | TYPE_CONFIG_CHANGED | TYPE_IMPLEMENTATION_CHANGED | TYPE_METADATA_CHANGED.

#[global] Instance MetricChangeEvent_Type_eq_dec : EqDecision MetricChangeEvent_Type.
Proof. solve_decision. Defined.

Record MetricChangeEvent := mkMetricChangeEvent {
  MetricChangeEvent_Type_ : MetricChangeEvent_Type;
  MetricChangeEvent_MetricId : string;
  MetricChangeEvent_CloudServiceId : string;
}.

Inductive ToeChangeType := TOE_CREATED | TOE_UPDATED | TOE_REMOVED.

Record TargetOfEvaluationChangeEvent := mkToeChangeEvent {
  ToeEvent_Type : ToeChangeType;
  ToeEvent_TargetOfEvaluation : option TargetOfEvaluation;
}.

(** [orchestrator.Filter] *)
Record ResultFilter := mkResultFilter {
  ResultFilter_CloudServiceId : option string;
  ResultFilter_Compliant : option bool;
  ResultFilter_MetricIds : option (list string);
  ResultFilter_MetricId : option string;
  ResultFilter_ToolId : option string;
}.

Record ListAssessmentResultsRequest := mkListAssessmentResultsRequest {
  ListAssessmentResults_Filter : option ResultFilter;
  ListAssessmentResults_LatestByResourceId : option bool;
  ListAssessmentResults_Paging : PaginatedRequest;
}.

(** [orchestrator.ListControlsRequest] *)
Record ListControlsRequest := mkListControlsRequest {
  ListControls_CatalogId : string;
  ListControls_CategoryName : string;
  ListControls_AssuranceLevels : option (list string);
  ListControls_Paging : PaginatedRequest;
}.

(** [orchestrator.ListMetricsRequest] *)
Record ListMetricsRequest := mkListMetricsRequest {
  ListMetrics_IncludeDeprecated : bool;
  ListMetrics_Paging : PaginatedRequest;
}.

(** A page of a list call: [res.<Items>] and [res.NextPageToken]. *)
Record Page (A : Type) := mkPage { Page_Items : list A; Page_NextPageToken : string }.
Arguments mkPage {A}.
Arguments Page_Items {A}.
Arguments Page_NextPageToken {A}.

(** [orchestrator.StoreAssessmentResultRequest] *)
Record StoreAssessmentResultRequest := mkStoreAssessmentResultRequest {
  StoreAssessmentResult_Result : option AssessmentResult;
}.

#[global] Instance StoreAssessmentResultRequest_eq_dec : EqDecision StoreAssessmentResultRequest.
Proof. solve_decision. Defined.

(** The answer of the streaming store calls: a flag and a message. *)
Record StoreStatus := mkStoreStatus { Store_Status : bool; Store_StatusMessage : string }.

(** ** api/evaluation/evaluation.proto *)

Inductive EvaluationStatus :=
| EVALUATION_STATUS_UNSPECIFIED
| EVALUATION_STATUS_COMPLIANT
| EVALUATION_STATUS_COMPLIANT_MANUALLY
| EVALUATION_STATUS_NOT_COMPLIANT
| EVALUATION_STATUS_NOT_COMPLIANT_MANUALLY
| EVALUATION_STATUS_PENDING.

#[global] Instance EvaluationStatus_eq_dec : EqDecision EvaluationStatus.
Proof. solve_decision. Defined.

(** The enum numbers stored in the database. *)
Definition EvaluationStatus_number (s : EvaluationStatus) : Z :=
  match s with
  | EVALUATION_STATUS_UNSPECIFIED => 0
  | EVALUATION_STATUS_COMPLIANT => 1
  | EVALUATION_STATUS_COMPLIANT_MANUALLY => 2
  | EVALUATION_STATUS_NOT_COMPLIANT => 3
  | EVALUATION_STATUS_NOT_COMPLIANT_MANUALLY => 4
  | EVALUATION_STATUS_PENDING => 10
  end%Z.

Record EvaluationResult := mkEvaluationResult {
  EvaluationResult_Id : string;
  EvaluationResult_CloudServiceId : string;
  EvaluationResult_ControlId : string;
  EvaluationResult_ControlCategoryName : string;
  EvaluationResult_ControlCatalogId : string;
  EvaluationResult_ParentControlId : option string;
  EvaluationResult_Status : EvaluationStatus;
  EvaluationResult_Timestamp : option Z;
  EvaluationResult_FailingAssessmentResultIds : list string;
  EvaluationResult_Comment : option string;
  EvaluationResult_ValidUntil : option Z;
}.

Record EvaluationFilter := mkEvaluationFilter {
  EvaluationFilter_CloudServiceId : option string;
  EvaluationFilter_CatalogId : option string;
  EvaluationFilter_ControlId : option string;
  EvaluationFilter_SubControls : option string;
  EvaluationFilter_ParentsOnly : option bool;
  EvaluationFilter_ValidManualOnly : option bool;
}.

Record ListEvaluationResultsRequest := mkListEvaluationResultsRequest {
  ListEvaluationResults_Filter : option EvaluationFilter;
  ListEvaluationResults_LatestByControlId : option bool;
  ListEvaluationResults_Paging : PaginatedRequest;
}.

Record StartEvaluationRequest := mkStartEvaluationRequest {
  StartEvaluation_CloudServiceId : string;
  StartEvaluation_CatalogId : string;
  StartEvaluation_Interval : option Z;
}.

Record CreateEvaluationResultRequest := mkCreateEvaluationResultRequest {
  CreateEvaluationResult_Result : option EvaluationResult;
}.

Record StopEvaluationRequest := mkStopEvaluationRequest {
  StopEvaluation_CloudServiceId : string;
  StopEvaluation_CatalogId : string;
}.

(** ** Methods on messages *)

(** [(c *Control) IsRelevantFor(toe, catalog)] *)
Definition IsRelevantFor (c : Control) (toe : TargetOfEvaluation) (catalog : Catalog) : bool :=
  if bool_decide (length (Catalog_AssuranceLevels catalog) = 0) then true
  else match Control_AssuranceLevel c, TargetOfEvaluation_AssuranceLevel toe with
       | None, _ | _, None => true
       | Some lc, Some lt =>
           let idxControl := slices_Index (Catalog_AssuranceLevels catalog) lc in
           let idxToe := slices_Index (Catalog_AssuranceLevels catalog) lt in
           (idxControl <=? idxToe)%Z
       end.

(** [GetCloudServiceId()] of the request that wraps an evidence. *)
Definition EvidenceRequest_GetCloudServiceId (req : EvidenceRequest) : string :=
  match EvidenceRequest_Evidence req with Some e => Evidence_CloudServiceId e | None => "" end.

(** [(req *StoreAssessmentResultRequest) GetCloudServiceId()] *)
Definition StoreAssessmentResult_GetCloudServiceId (req : StoreAssessmentResultRequest) : string :=
  match StoreAssessmentResult_Result req with
  | Some r => AssessmentResult_CloudServiceId r | None => "" end.

(** The wrappers around a certificate, a cloud service, a target of evaluation,
    a resource and an evaluation result: the cloud service of the inner object,
    and the empty string when the inner object is missing. *)
Definition CertificateRequest_GetCloudServiceId (cert : option Certificate) : string :=
  match cert with Some c => Certificate_CloudServiceId c | None => "" end.

Definition CloudServiceWrapper_GetCloudServiceId (cs : option CloudService) : string :=
  match cs with Some c => CloudService_Id c | None => "" end.

Definition ToeRequest_GetCloudServiceId (toe : option TargetOfEvaluation) : string :=
  match toe with Some t => TargetOfEvaluation_CloudServiceId t | None => "" end.

Definition UpdateResource_GetCloudServiceId (r : option Resource) : string :=
  match r with Some r => Resource_CloudServiceId r | None => "" end.

Definition CreateEvaluationResult_GetCloudServiceId (r : option EvaluationResult) : string :=
  match r with Some r => EvaluationResult_CloudServiceId r | None => "" end.

(** ** Relevance of a control *)

(** The position [n] of a level in the catalog's ordered list. *)
Definition level_at (catalog : Catalog) (l : string) (n : nat) : Prop :=
  Catalog_AssuranceLevels catalog !! n = Some l /\
  forall m, m < n -> Catalog_AssuranceLevels catalog !! m <> Some l.

Lemma level_at_index catalog l n :
  level_at catalog l n -> slices_Index (Catalog_AssuranceLevels catalog) l = Z.of_nat n.
Proof. intros [Hn Hf]. unfold slices_Index. by rewrite (index_from_lookup _ 0 n l Hn Hf). Qed.

(** When the control, the target of evaluation and the catalog all name
    assurance levels of the catalog, IsRelevantFor compares positions; with a
    level missing on either side, or no levels in the catalog, the control is
    relevant; a control level the catalog does not list is always relevant,
    and a ToE level it does not list makes every listed control irrelevant. *)
Theorem IsRelevantFor_spec (c : Control) (toe : TargetOfEvaluation) (catalog : Catalog) :
  (Catalog_AssuranceLevels catalog = [] \/ Control_AssuranceLevel c = None \/
   TargetOfEvaluation_AssuranceLevel toe = None -> IsRelevantFor c toe catalog = true) /\
  (forall lc lt nc nt, Catalog_AssuranceLevels catalog <> [] ->
     Control_AssuranceLevel c = Some lc -> TargetOfEvaluation_AssuranceLevel toe = Some lt ->
     level_at catalog lc nc -> level_at catalog lt nt ->
     (IsRelevantFor c toe catalog = true <-> nc <= nt)) /\
  (forall lc lt, Catalog_AssuranceLevels catalog <> [] ->
     Control_AssuranceLevel c = Some lc -> TargetOfEvaluation_AssuranceLevel toe = Some lt ->
     lt ∉ Catalog_AssuranceLevels catalog ->
     (IsRelevantFor c toe catalog = true <-> lc ∉ Catalog_AssuranceLevels catalog)).
Proof.
  unfold IsRelevantFor. split_and!.
  - intros [->|[-> | ->]]; [done| |]; destruct (bool_decide _); try done.
    by destruct (Control_AssuranceLevel c).
  - intros lc lt nc nt Hne -> -> Hc Ht.
    rewrite bool_decide_eq_false_2 by (by destruct (Catalog_AssuranceLevels catalog)).
    rewrite (level_at_index _ _ _ Hc), (level_at_index _ _ _ Ht). rewrite Z.leb_le. lia.
  - intros lc lt Hne -> -> Ht.
    rewrite bool_decide_eq_false_2 by (by destruct (Catalog_AssuranceLevels catalog)).
    apply slices_Index_absent in Ht. rewrite Ht, <-slices_Index_absent, Z.leb_le.
    unfold slices_Index. destruct (index_from_ge (Catalog_AssuranceLevels catalog) 0 lc); lia.
Qed.
