(* ===== verification/Sql.v ===== *)
(** The SQL condition language of the query strings in the sources
    ([storage.List(..., "cloud_service_id = ? AND ...", args...)]): lexer,
    parser with SQL's precedence (AND binds tighter than OR), and three-valued
    evaluation.  Only the operators the sources use are understood; everything
    else makes [conds_hold] answer [None]. *)

From Stdlib Require Import Ascii.
From S2P Require Import Prelude GoRuntime GoStrings Util.

(** ** Values and arguments *)

(** A column value. *)
Inductive sqlval :=
| VNull
| VStr (s : string)
| VInt (z : Z)
| VBool (b : bool)
| VTime (t : Z).

#[global] Instance sqlval_eq_dec : EqDecision sqlval.
Proof. solve_decision. Defined.

(** The dynamically typed arguments of the storage calls ([conds ...any]). *)
Inductive any :=
| AStr (s : string)
| AStrs (l : list string)
| ABool (b : bool)
| AInt (z : Z)
| AInts (l : list Z)
| APreload (query : string) (args : list string).

#[global] Instance any_eq_dec : EqDecision any.
Proof. solve_decision. Defined.

(** ** Lexer *)

Inductive token := TId (s : string) | TEq | TGe | TQm | TLp | TRp | TBad.

Definition is_word (c : ascii) : bool :=
  IsUpper c || IsLower c || IsDigit c || bool_decide (c = underscore).

(** [acc] is the identifier read so far, reversed; identifiers are case
    insensitive in SQL, so they are lower-cased. *)
Definition flush (acc : list ascii) (ts : list token) : list token :=
  match acc with [] => ts | _ => TId (String.string_of_list_ascii (reverse acc)) :: ts end.

Fixpoint lex (s : list ascii) (acc : list ascii) : list token :=
  match s with
  | [] => flush acc []
  | c :: s' =>
      if is_word c then lex s' (ToLower c :: acc)
      else flush acc
        (match c with
         | " "%char => lex s' []
         | "="%char => TEq :: lex s' []
         | "?"%char => TQm :: lex s' []
         | "("%char => TLp :: lex s' []
         | ")"%char => TRp :: lex s' []
         | ">"%char => match s' with
                       | "="%char :: s'' => TGe :: lex s'' []
                       | _ => TBad :: lex s' []
                       end
         | _ => TBad :: lex s' []
         end)
  end.

(** ** Conditions *)

Inductive cond :=
| CEq (col : string) (v : any)
| CIn (col : string) (v : any)
| CLike (col : string) (v : any)
| CIsNull (col : string)
| CGeNow (col : string)
| CAnd (a b : cond)
| COr (a b : cond).

(** *** Parser: [or ::= and { OR and }], [and ::= atom { AND atom }].
    Placeholders take the arguments from left to right; [fuel] bounds the
    nesting and is the number of tokens at the call. *)
Definition pstate : Type := list token * list any.

Fixpoint parse_or (fuel : nat) (st : pstate) : option (cond * pstate) :=
  match fuel with
  | 0 => None
  | S fuel =>
      '(a, st) ← parse_and fuel st;
      match st with
      | (TId "or" :: ts, args) => '(b, st) ← parse_or fuel (ts, args); Some (COr a b, st)
      | _ => Some (a, st)
      end
  end
with parse_and (fuel : nat) (st : pstate) : option (cond * pstate) :=
  match fuel with
  | 0 => None
  | S fuel =>
      '(a, st) ← parse_atom fuel st;
      match st with
      | (TId "and" :: ts, args) => '(b, st) ← parse_and fuel (ts, args); Some (CAnd a b, st)
      | _ => Some (a, st)
      end
  end
with parse_atom (fuel : nat) (st : pstate) : option (cond * pstate) :=
  match fuel with
  | 0 => None
  | S fuel =>
      match st with
      | (TLp :: ts, args) =>
          '(c, st) ← parse_or fuel (ts, args);
          match st with (TRp :: ts, args) => Some (c, (ts, args)) | _ => None end
      | (TId col :: TEq :: TQm :: ts, v :: args) => Some (CEq col v, (ts, args))
      | (TId col :: TId "in" :: TQm :: ts, v :: args) => Some (CIn col v, (ts, args))
      | (TId col :: TId "like" :: TQm :: ts, v :: args) => Some (CLike col v, (ts, args))
      | (TId col :: TId "is" :: TId "null" :: ts, args) => Some (CIsNull col, (ts, args))
      | (TId col :: TGe :: TId "current_timestamp" :: ts, args) => Some (CGeNow col, (ts, args))
      | _ => None
      end
  end.

(** A whole query string with its arguments: all tokens and all arguments are
    used up. *)
Definition sql_parse (query : string) (args : list any) : option cond :=
  let ts := lex (String.list_ascii_of_string query) [] in
  match parse_or (3 * S (length ts)) (ts, args) with
  | Some (c, ([], [])) => Some c
  | _ => None
  end.

(** *** Evaluation.  [None] is SQL's unknown. *)

(** LIKE: [%] matches any sequence of characters, [_] any one character. *)
Fixpoint like_match (pat s : list ascii) : bool :=
  match pat with
  | [] => match s with [] => true | _ => false end
  | p :: pat' =>
      if bool_decide (p = "%"%char)
      then (fix any_suffix (s : list ascii) : bool :=
              like_match pat' s ||
              match s with [] => false | _ :: s' => any_suffix s' end) s
      else match s with
           | c :: s' => (bool_decide (p = "_"%char) || bool_decide (p = c)) && like_match pat' s'
           | [] => false
           end
  end.

Definition sql_like (pat s : string) : bool :=
  like_match (String.list_ascii_of_string pat) (String.list_ascii_of_string s).

Definition eval_eq (x : sqlval) (v : any) : option bool :=
  match x, v with
  | VNull, _ => None
  | VStr a, AStr b => Some (bool_decide (a = b))
  | VInt a, AInt b => Some (bool_decide (a = b))
  | VBool a, ABool b => Some (bool_decide (a = b))
  | _, _ => Some false
  end.

Definition eval_in (x : sqlval) (v : any) : option bool :=
  match x, v with
  | VNull, _ => None
  | VStr a, AStrs l => Some (slices_Contains l a)
  | VInt a, AInts l => Some (slices_Contains l a)
  | _, _ => Some false
  end.

Definition eval_like (x : sqlval) (v : any) : option bool :=
  match x, v with
  | VNull, _ => None
  | VStr a, AStr p => Some (sql_like p a)
  | _, _ => Some false
  end.

Definition eval_ge_now (x : sqlval) (now : Z) : option bool :=
  match x with VTime t => Some (bool_decide (now <= t)%Z) | VNull => None | _ => Some false end.

Definition kand (a b : option bool) : option bool :=
  match a, b with
  | Some false, _ | _, Some false => Some false
  | Some true, Some true => Some true
  | _, _ => None
  end.

Definition kor (a b : option bool) : option bool :=
  match a, b with
  | Some true, _ | _, Some true => Some true
  | Some false, Some false => Some false
  | _, _ => None
  end.

Fixpoint eval (now : Z) (cols : string -> sqlval) (c : cond) : option bool :=
  match c with
  | CEq x v => eval_eq (cols x) v
  | CIn x v => eval_in (cols x) v
  | CLike x v => eval_like (cols x) v
  | CIsNull x => Some (match cols x with VNull => true | _ => false end)
  | CGeNow x => eval_ge_now (cols x) now
  | CAnd a b => kand (eval now cols a) (eval now cols b)
  | COr a b => kor (eval now cols a) (eval now cols b)
  end.

(** A row is selected when its condition is true (not false, not unknown). *)
Definition selected (now : Z) (cols : string -> sqlval) (c : cond) : bool :=
  match eval now cols c with Some true => true | _ => false end.

(** ** The [conds ...any] of the storage interface *)

(** Drop a leading preload option (applyPreload in persistence/gorm/gorm.go). *)
Definition strip_preload (conds : list any) : list any :=
  match conds with APreload _ _ :: rest => rest | _ => conds end.

(** What a condition list without preload option asks of a row with primary key
    [pk] and columns [cols]; [None] when the list is not one of the documented
    forms: no condition, an empty query string, a query string with its
    arguments, or one non-empty list of primary keys. *)
Definition plain_hold (now : Z) (pk : list string) (cols : string -> sqlval) (conds : list any) : option bool :=
  match conds with
  | [] => Some true
  | [AStrs (k :: ks)] => Some (bool_decide (pk ∈ (fun s => [s]) <$> (k :: ks)))
  | AStr q :: args =>
      if bool_decide (q = "" /\ args = []) then Some true
      else match sql_parse q args with
           | Some c => Some (selected now cols c)
           | None => None
           end
  | _ => None
  end.

Definition conds_hold (now : Z) (pk : list string) (cols : string -> sqlval) (conds : list any) : option bool :=
  plain_hold now pk cols (strip_preload conds).

(** The WHERE clause of a raw statement: nothing, or [WHERE q]. *)
Definition where_hold (now : Z) (pk : list string) (cols : string -> sqlval) (where_ : string) (args : list any) : option bool :=
  if bool_decide (where_ = "") then Some true
  else let '(q, found) := strings_CutPrefix where_ "WHERE " in
       if found then plain_hold now pk cols (AStr q :: args) else None.

(** ** Facts *)

Lemma selected_and now cols a b :
  selected now cols (CAnd a b) = selected now cols a && selected now cols b.
Proof. unfold selected; simpl. by destruct (eval now cols a) as [[]|], (eval now cols b) as [[]|]. Qed.

Lemma selected_or now cols a b :
  selected now cols (COr a b) = selected now cols a || selected now cols b.
Proof. unfold selected; simpl. by destruct (eval now cols a) as [[]|], (eval now cols b) as [[]|]. Qed.

Lemma selected_eq_str now cols x s :
  selected now cols (CEq x (AStr s)) = true <-> cols x = VStr s.
Proof.
  unfold selected; simpl. destruct (cols x); simpl; try (split; congruence).
  destruct (bool_decide _) eqn:E; [apply bool_decide_eq_true in E|apply bool_decide_eq_false in E];
    split; congruence.
Qed.

Lemma selected_eq_bool now cols x b :
  selected now cols (CEq x (ABool b)) = true <-> cols x = VBool b.
Proof.
  unfold selected; simpl. destruct (cols x); simpl; try (split; congruence).
  destruct (bool_decide _) eqn:E; [apply bool_decide_eq_true in E|apply bool_decide_eq_false in E];
    split; congruence.
Qed.

Lemma selected_in_strs now cols x l :
  selected now cols (CIn x (AStrs l)) = true <-> exists s, cols x = VStr s /\ s ∈ l.
Proof.
  unfold selected; simpl. destruct (cols x) as [|s| | |]; simpl; try (split; [done|by intros (?&?&?)]).
  destruct (slices_Contains l s) eqn:E.
  - apply slices_Contains_true in E. split; [eauto|done].
  - apply slices_Contains_false in E. split; [done|]. by intros (? & [= <-] & ?).
Qed.

Lemma selected_is_null now cols x :
  selected now cols (CIsNull x) = true <-> cols x = VNull.
Proof. unfold selected; simpl. by destruct (cols x). Qed.

Lemma selected_ge_now now cols x :
  selected now cols (CGeNow x) = true <-> exists t, cols x = VTime t /\ (now <= t)%Z.
Proof.
  unfold selected; simpl. destruct (cols x) as [| | | |t]; simpl; try (split; [done|by intros (?&?&?)]).
  destruct (bool_decide _) eqn:E; [apply bool_decide_eq_true in E|apply bool_decide_eq_false in E].
  - split; eauto.
  - split; [done|]. by intros (? & [= <-] & ?).
Qed.

Lemma selected_in_ints now cols x l :
  selected now cols (CIn x (AInts l)) = true <-> exists z, cols x = VInt z /\ z ∈ l.
Proof.
  unfold selected; simpl. destruct (cols x) as [| |z| |]; simpl; try (split; [done|by intros (?&?&?)]).
  destruct (slices_Contains l z) eqn:E.
  - apply slices_Contains_true in E. split; [eauto|done].
  - apply slices_Contains_false in E. split; [done|]. by intros (? & [= <-] & ?).
Qed.

Lemma selected_like now cols x p :
  selected now cols (CLike x (AStr p)) = true <-> exists s, cols x = VStr s /\ sql_like p s = true.
Proof.
  unfold selected; simpl. destruct (cols x) as [|s| | |]; simpl; try (split; [done|by intros (?&?&?)]).
  destruct (sql_like p s) eqn:E; split; naive_solver congruence.
Qed.

(** *** LIKE *)

(** Text without wildcards matches itself. *)
Definition literal (p : list ascii) : Prop := Forall (fun c => c <> "%"%char /\ c <> "_"%char) p.

Lemma like_literal p pat s : literal p ->
  like_match (p ++ pat) s = true <-> exists rest, s = p ++ rest /\ like_match pat rest = true.
Proof.
  intros Hp. revert s. induction Hp as [|c p [Hc1 Hc2] Hp IH]; intros s; [naive_solver|]. cbn.
  rewrite bool_decide_eq_false_2 by done. destruct s as [|d s]; [split; [done|by intros (? & ? & _)]|].
  rewrite bool_decide_eq_false_2 by done. cbn. rewrite andb_true_iff, bool_decide_eq_true, IH. naive_solver.
Qed.

Lemma like_any pat s :
  like_match ("%"%char :: pat) s = true <-> exists pre post, s = pre ++ post /\ like_match pat post = true.
Proof.
  cbn [like_match]. rewrite bool_decide_eq_true_2 by done. induction s as [|c s IH].
  - rewrite orb_false_r. split; [by exists [], []|]. intros (pre & post & Heq & Hm). by destruct pre, post.
  - rewrite orb_true_iff, IH. split.
    + intros [Hm|(pre & post & -> & Hm)]; [by exists [], (c :: s)|by exists (c :: pre), post].
    + intros ([|d pre] & post & Heq & Hm); simplify_eq/=; [by left|right; by exists pre, post].
Qed.

#[export] Hint Rewrite selected_and selected_or : clouditor_rw.

(** Evaluate the parser on a concrete query string with symbolic arguments. *)
Ltac sql_eval :=
  match goal with
  | |- context [sql_parse ?q ?a] =>
      let r := eval vm_compute in (sql_parse q a) in
      replace (sql_parse q a) with r by (vm_compute; reflexivity)
  end.

Example parse_precedence (a b : any) :
  sql_parse "x = ? AND y IS NULL OR y >= CURRENT_TIMESTAMP AND z IN ?" [a; b]
  = Some (COr (CAnd (CEq "x" a) (CIsNull "y")) (CAnd (CGeNow "y") (CIn "z" b))).
Proof. reflexivity. Qed.

Example parse_no_spaces (a : any) : sql_parse "id=?" [a] = Some (CEq "id" a).
Proof. reflexivity. Qed.
