(* ===== verification/Storage.v ===== *)
(** Package persistence: the tables, the [Storage] interface of
    persistence/persistence.go with the contract its comments document, and the
    condition helper [BuildConds].

    The services are verified against the interface ([Storage] with
    [StorageLaws]); [Gorm.v] shows that the implementation in
    persistence/gorm/gorm.go satisfies it, given the documented behaviour of the
    GORM library it wraps. *)

From S2P Require Import Prelude GoRuntime GoStrings Util Api Sql.

(** ** Errors of package persistence *)

Definition ErrRecordNotFound : error := EText "record not in the database".
Definition ErrConstraintFailed : error := EText "constraint failed".
Definition ErrUniqueConstraintFailed : error := EText "unique constraint failed".
Definition ErrUnsupportedType : error := EText "unsupported type".

(** ** Tables *)

(** The types that are migrated into tables (DefaultTypes), and the join table
    of metric configurations that NewStorage sets up. *)
Inductive table :=
| T_MetricImplementation | T_Metric | T_AssessmentResult | T_Resource | T_Evidence
| T_CloudService | T_Certificate | T_State | T_Catalog | T_Category | T_Control
| T_TargetOfEvaluation | T_EvaluationResult | T_MetricConfiguration.

#[global] Instance table_eq_dec : EqDecision table.
Proof. solve_decision. Defined.

Definition row (t : table) : Type :=
  match t with
  | T_MetricImplementation => MetricImplementation
  | T_Metric => Metric
  | T_AssessmentResult => AssessmentResult
  | T_Resource => Resource
  | T_Evidence => Evidence
  | T_CloudService => CloudService
  | T_Certificate => Certificate
  | T_State => State
  | T_Catalog => Catalog
  | T_Category => Category
  | T_Control => Control
  | T_TargetOfEvaluation => TargetOfEvaluation
  | T_EvaluationResult => EvaluationResult
  | T_MetricConfiguration => MetricConfiguration
  end.

(** Primary keys: the fields tagged [primaryKey] in the protobuf files, and [id]
    otherwise. *)
Definition pk (t : table) : row t -> list string :=
  match t with
  | T_MetricImplementation => fun r => [MetricImplementation_MetricId r]
  | T_Metric => fun r => [Metric_Id r]
  | T_AssessmentResult => fun r => [AssessmentResult_Id r]
  | T_Resource => fun r => [Resource_Id r]
  | T_Evidence => fun r => [Evidence_Id r]
  | T_CloudService => fun r => [CloudService_Id r]
  | T_Certificate => fun r => [Certificate_Id r]
  | T_State => fun r => [State_Id r]
  | T_Catalog => fun r => [Catalog_Id r]
  | T_Category => fun r => [Category_Name r; Category_CatalogId r]
  | T_Control => fun r => [Control_Id r; Control_CategoryName r; Control_CategoryCatalogId r]
  | T_TargetOfEvaluation => fun r => [TargetOfEvaluation_CloudServiceId r; TargetOfEvaluation_CatalogId r]
  | T_EvaluationResult => fun r => [EvaluationResult_Id r]
  | T_MetricConfiguration => fun r => [MetricConfiguration_MetricId r; MetricConfiguration_CloudServiceId r]
  end.

Definition opt_str (o : option string) : sqlval := match o with Some s => VStr s | None => VNull end.
Definition opt_time (o : option Z) : sqlval := match o with Some t => VTime t | None => VNull end.

(** The columns the query strings of the sources mention, under GORM's
    snake_case names; every other column name reads as NULL here. *)
Definition col (t : table) : row t -> string -> sqlval :=
  match t with
  | T_MetricImplementation => fun r c =>
      if bool_decide (c = "metric_id") then VStr (MetricImplementation_MetricId r)
      else if bool_decide (c = "code") then VStr (MetricImplementation_Code r)
      else if bool_decide (c = "updated_at") then opt_time (MetricImplementation_UpdatedAt r)
      else VNull
  | T_Metric => fun r c =>
      if bool_decide (c = "id") then VStr (Metric_Id r)
      else if bool_decide (c = "name") then VStr (Metric_Name r)
      else if bool_decide (c = "deprecated_since") then opt_time (Metric_DeprecatedSince r)
      else VNull
  | T_AssessmentResult => fun r c =>
      if bool_decide (c = "id") then VStr (AssessmentResult_Id r)
      else if bool_decide (c = "cloud_service_id") then VStr (AssessmentResult_CloudServiceId r)
      else if bool_decide (c = "compliant") then VBool (AssessmentResult_Compliant r)
      else if bool_decide (c = "metric_id") then VStr (AssessmentResult_MetricId r)
      else if bool_decide (c = "resource_id") then VStr (AssessmentResult_ResourceId r)
      else if bool_decide (c = "tool_id") then opt_str (AssessmentResult_ToolId r)
      else if bool_decide (c = "timestamp") then opt_time (AssessmentResult_Timestamp r)
      else VNull
  | T_Resource => fun r c =>
      if bool_decide (c = "id") then VStr (Resource_Id r)
      else if bool_decide (c = "cloud_service_id") then VStr (Resource_CloudServiceId r)
      else if bool_decide (c = "resource_type") then VStr (Resource_ResourceType r)
      else VNull
  | T_Evidence => fun r c =>
      if bool_decide (c = "id") then VStr (Evidence_Id r)
      else if bool_decide (c = "cloud_service_id") then VStr (Evidence_CloudServiceId r)
      else if bool_decide (c = "tool_id") then VStr (Evidence_ToolId r)
      else VNull
  | T_CloudService => fun r c =>
      if bool_decide (c = "id") then VStr (CloudService_Id r)
      else if bool_decide (c = "name") then VStr (CloudService_Name r)
      else VNull
  | T_Certificate => fun r c =>
      if bool_decide (c = "id") then VStr (Certificate_Id r)
      else if bool_decide (c = "cloud_service_id") then VStr (Certificate_CloudServiceId r)
      else VNull
  | T_State => fun r c =>
      if bool_decide (c = "id") then VStr (State_Id r) else VNull
  | T_Catalog => fun r c =>
      if bool_decide (c = "id") then VStr (Catalog_Id r)
      else if bool_decide (c = "name") then VStr (Catalog_Name r)
      else VNull
  | T_Category => fun r c =>
      if bool_decide (c = "name") then VStr (Category_Name r)
      else if bool_decide (c = "catalog_id") then VStr (Category_CatalogId r)
      else VNull
  | T_Control => fun r c =>
      if bool_decide (c = "id") then VStr (Control_Id r)
      else if bool_decide (c = "category_name") then VStr (Control_CategoryName r)
      else if bool_decide (c = "category_catalog_id") then VStr (Control_CategoryCatalogId r)
      else if bool_decide (c = "assurance_level") then opt_str (Control_AssuranceLevel r)
      else if bool_decide (c = "parent_control_id") then opt_str (Control_ParentControlId r)
      else VNull
  | T_TargetOfEvaluation => fun r c =>
      if bool_decide (c = "cloud_service_id") then VStr (TargetOfEvaluation_CloudServiceId r)
      else if bool_decide (c = "catalog_id") then VStr (TargetOfEvaluation_CatalogId r)
      else if bool_decide (c = "assurance_level") then opt_str (TargetOfEvaluation_AssuranceLevel r)
      else VNull
  | T_EvaluationResult => fun r c =>
      if bool_decide (c = "id") then VStr (EvaluationResult_Id r)
      else if bool_decide (c = "cloud_service_id") then VStr (EvaluationResult_CloudServiceId r)
      else if bool_decide (c = "control_id") then VStr (EvaluationResult_ControlId r)
      else if bool_decide (c = "control_catalog_id") then VStr (EvaluationResult_ControlCatalogId r)
      else if bool_decide (c = "parent_control_id") then opt_str (EvaluationResult_ParentControlId r)
      else if bool_decide (c = "status") then VInt (EvaluationStatus_number (EvaluationResult_Status r))
      else if bool_decide (c = "timestamp") then opt_time (EvaluationResult_Timestamp r)
      else if bool_decide (c = "valid_until") then opt_time (EvaluationResult_ValidUntil r)
      else VNull
  | T_MetricConfiguration => fun r c =>
      if bool_decide (c = "metric_id") then VStr (MetricConfiguration_MetricId r)
      else if bool_decide (c = "cloud_service_id") then VStr (MetricConfiguration_CloudServiceId r)
      else if bool_decide (c = "operator") then VStr (MetricConfiguration_Operator r)
      else VNull
  end.

(** Tables whose rows are not linked to rows of other tables. *)
Definition isolated (t : table) : bool :=
  match t with
  | T_AssessmentResult | T_Resource | T_Evidence | T_EvaluationResult => true
  | _ => false
  end.

(** Tables whose rows carry no associated rows, so that a row is read back as it
    was written. *)
Definition flat (t : table) : bool :=
  match t with
  | T_AssessmentResult | T_Resource | T_Evidence | T_EvaluationResult
  | T_MetricConfiguration | T_MetricImplementation | T_TargetOfEvaluation => true
  | _ => false
  end.

(** [r'] is how the database reads [r] back: [r] itself in a flat table, and
    otherwise a row with the same key and columns (its associations are
    separate rows). *)
Definition same_row (t : table) (r r' : row t) : Prop :=
  pk t r' = pk t r /\ (forall c, col t r' c = col t r c) /\ (flat t = true -> r' = r).

(** [Update] writes only the non-zero fields of the new row. *)
Definition is_zero (v : sqlval) : bool :=
  match v with
  | VNull => true | VStr s => bool_decide (s = "") | VInt z => bool_decide (z = 0%Z)
  | VBool b => negb b | VTime _ => false
  end.

Definition merged (t : table) (old new r' : row t) : Prop :=
  pk t r' = pk t old /\
  forall c, col t r' c = if is_zero (col t new c) then col t old c else col t new c.

(** ** Raw statements

    Both raw statements of the sources select the latest row of each partition;
    they are kept as the template with the texts that [fmt.Sprintf] fills in:
    the partition list, the table, the WHERE clause and the outer ordering. *)
Record raw_query := mkRaw {
  raw_part : string;
  raw_table : string;
  raw_where : string;
  raw_order : string;
}.

Definition raw_text (q : raw_query) : string :=
  "WITH sorted_results AS ( SELECT *, ROW_NUMBER() OVER (PARTITION BY " +:+ raw_part q +:+
  " ORDER BY timestamp DESC) AS row_number FROM " +:+ raw_table q +:+ " " +:+ raw_where q +:+
  " ) SELECT * FROM sorted_results WHERE row_number = 1" +:+ raw_order q +:+ ";".

Definition table_name (t : table) : string :=
  match t with
  | T_AssessmentResult => "assessment_results"
  | T_EvaluationResult => "evaluation_results"
  | _ => ""
  end.

(** ** The interface *)

(** [type Storage interface] of persistence/persistence.go.  The Go parameter
    [r any] of the reading calls selects the table; [Delete] takes the primary
    key set in [r], if any. *)
Class Storage (DB : Type) := {
  st_Create : forall t, row t -> DB -> option error * DB;
  st_Save : forall t, row t -> list any -> DB -> option error * DB;
  st_Update : forall t, row t -> list any -> DB -> option error * DB;
  st_Get : forall t : table, list any -> DB -> res (row t);
  st_List : forall t : table, string -> bool -> Z -> Z -> list any -> DB -> res (list (row t));
  st_Count : forall t : table, list any -> DB -> res Z;
  st_Delete : forall t : table, option (list string) -> list any -> DB -> option error * DB;
  st_Raw : forall t : table, raw_query -> list any -> DB -> res (list (row t));
}.

(** What a database contains: the rows of each table, the database's clock, and
    the order in which it enumerates the rows a query selects. *)
Class StorageView (DB : Type) := {
  rows : forall t, DB -> list (row t);
  db_now : DB -> Z;
  enumerate : forall t : table, string -> bool -> list any -> DB -> list (row t);
}.

(** Whether a row satisfies the conditions of a call. *)
Definition matches `{StorageView DB} t (db : DB) (conds : list any) (r : row t) : option bool :=
  conds_hold (db_now db) (pk t r) (col t r) conds.

(** The column names of a partition list. *)
Definition part_cols (part : string) : list string :=
  omap (fun tk => match tk with TId s => Some s | _ => None end)
       (lex (String.list_ascii_of_string part) []).

Definition same_part (t : table) (part : string) (r1 r2 : row t) : Prop :=
  forall c, c ∈ part_cols part -> col t r1 c = col t r2 c.

(** [ts1 <= ts2] for two timestamp columns. *)
Definition ts_le (v1 v2 : sqlval) : Prop :=
  match v1, v2 with VTime a, VTime b => (a <= b)%Z | VNull, _ => True | _, _ => False end.

(** [where = "WHERE " + strings.Join(query, " AND ")], when there is a query. *)
Definition where_clause (q : list string) : string :=
  match q with [] => "" | _ => "WHERE " +:+ strings_Join q " AND " end.

Definition where_matches `{StorageView DB} t (db : DB) (where_ : string) (args : list any) (r : row t) : option bool :=
  where_hold (db_now db) (pk t r) (col t r) where_ args.

(** [l] holds, for each partition of the selected rows, one row with the
    greatest timestamp of the partition, and nothing else. *)
Definition latest_rows `{StorageView DB} t (q : raw_query) (args : list any) (db : DB) (l : list (row t)) : Prop :=
  let sel := where_matches t db (raw_where q) args in
  (forall r, r ∈ l -> r ∈ rows t db /\ sel r <> Some false) /\
  (forall r, r ∈ rows t db -> sel r = Some true ->
     exists r', r' ∈ l /\ same_part t (raw_part q) r r' /\
                ts_le (col t r "timestamp") (col t r' "timestamp")) /\
  (forall i j r1 r2, l !! i = Some r1 -> l !! j = Some r2 -> same_part t (raw_part q) r1 r2 -> i = j).

(** *** Contract *)

(** The documented behaviour the services rely on.  A failed call leaves the
    database as it was; every call may fail with an error of the database. *)
Class StorageLaws (DB : Type) `{Storage DB, !StorageView DB} : Prop := {
  create_ok : forall t r (db db' : DB),
    st_Create t r db = (None, db') -> t <> T_Control ->
    (forall x, x ∈ rows t db -> pk t x <> pk t r) /\
    exists r', same_row t r r' /\ rows t db' ≡ₚ r' :: rows t db;
  create_err : forall t r e (db db' : DB), st_Create t r db = (Some e, db') -> db' = db;

  save_ok : forall t r conds (db db' : DB),
    st_Save t r conds db = (None, db') -> t <> T_Control ->
    exists r', same_row t r r' /\
      rows t db' ≡ₚ r' :: filter (fun x => pk t x <> pk t r) (rows t db);
  save_err : forall t r conds e (db db' : DB), st_Save t r conds db = (Some e, db') -> db' = db;

  update_ok : forall t r conds (db db' : DB),
    st_Update t r conds db = (None, db') -> t <> T_Control ->
    (forall x, x ∈ rows t db -> matches t db conds x = Some (bool_decide (pk t x = pk t r))) ->
    exists old r', old ∈ rows t db /\ pk t old = pk t r /\ merged t old r r' /\
      rows t db' ≡ₚ r' :: filter (fun x => pk t x <> pk t r) (rows t db);
  update_err : forall t r conds e (db db' : DB), st_Update t r conds db = (Some e, db') -> db' = db;
  update_notfound : forall t r conds e (db db' : DB),
    st_Update t r conds db = (Some e, db') -> errors_Is e ErrRecordNotFound = true ->
    forall x, x ∈ rows t db -> pk t x = pk t r -> matches t db conds x <> Some true;

  get_ok : forall t conds (db : DB) r, flat t = true ->
    st_Get t conds db = OK r -> r ∈ rows t db /\ matches t db conds r <> Some false;
  get_ok_key : forall t conds (db : DB) r,
    (forall q args rest, conds <> APreload q args :: rest) ->
    st_Get t conds db = OK r ->
    exists r0, r0 ∈ rows t db /\ same_row t r0 r /\ matches t db conds r0 <> Some false;
  get_none : forall t conds (db : DB) e,
    st_Get t conds db = Err e -> errors_Is e ErrRecordNotFound = true ->
    forall x, x ∈ rows t db -> matches t db conds x <> Some true;

  enumerate_sound : forall t ob asc conds (db : DB) r,
    r ∈ enumerate t ob asc conds db ->
    exists r0, r0 ∈ rows t db /\ same_row t r0 r /\ matches t db conds r0 <> Some false;
  enumerate_complete : forall t ob asc conds (db : DB) r0,
    r0 ∈ rows t db -> matches t db conds r0 = Some true ->
    exists r, same_row t r0 r /\ r ∈ enumerate t ob asc conds db;
  list_ok : forall t ob asc off lim conds (db : DB) l,
    st_List t ob asc off lim conds db = OK l -> (0 <= off)%Z -> (-1 <= lim)%Z ->
    l = (if bool_decide (lim = (-1)%Z) then id else take (Z.to_nat lim))
          (drop (Z.to_nat off) (enumerate t ob asc conds db));
  list_sound : forall t ob asc off lim conds (db : DB) l r,
    st_List t ob asc off lim conds db = OK l -> r ∈ l -> r ∈ enumerate t ob asc conds db;

  count_ok : forall t conds (db : DB) n,
    st_Count t conds db = OK n ->
    (forall x, x ∈ rows t db -> matches t db conds x <> None) ->
    n = Z.of_nat (length (filter (fun x => matches t db conds x = Some true) (rows t db)));

  delete_ok : forall t key conds (db db' : DB),
    st_Delete t key conds db = (None, db') -> t <> T_Control ->
    (forall x, x ∈ rows t db -> matches t db conds x <> None) ->
    let hit := fun x => (forall k, key = Some k -> pk t x = k) /\ matches t db conds x = Some true in
    (exists x, x ∈ rows t db /\ hit x) /\
    forall x, x ∈ rows t db' <-> x ∈ rows t db /\ ~ hit x;
  delete_err : forall t key conds e (db db' : DB), st_Delete t key conds db = (Some e, db') -> db' = db;
  delete_notfound : forall t key conds e (db db' : DB),
    st_Delete t key conds db = (Some e, db') -> errors_Is e ErrRecordNotFound = true ->
    forall x, x ∈ rows t db -> (forall k, key = Some k -> pk t x = k) ->
              matches t db conds x <> Some true;

  frame_create : forall t r e (db db' : DB), isolated t = true ->
    st_Create t r db = (e, db') -> forall t', t' <> t -> rows t' db' = rows t' db;
  frame_save : forall t r conds e (db db' : DB), isolated t = true ->
    st_Save t r conds db = (e, db') -> forall t', t' <> t -> rows t' db' = rows t' db;

  raw_latest : forall t q args (db : DB) l,
    table_name t <> "" -> raw_table q = table_name t ->
    st_Raw t q args db = OK l -> latest_rows t q args db l;
}.

(** ** BuildConds *)

Definition BuildConds (query : list string) (args : list any) : list any :=
  AStr (strings_Join query " AND ") :: args.

(** ** Handler-level access *)

Section Handlers.
Context {DB S T : Type} `{Storage DB}.
Abbreviation W := (World DB S T).

Definition err_res (e : option error) : res unit := match e with None => OK tt | Some e => Err e end.

Definition storage_Create t (r : row t) : Go W (res unit) :=
  db_exec (fun db => let '(e, db') := st_Create t r db in (err_res e, db')).
Definition storage_Save t (r : row t) conds : Go W (res unit) :=
  db_exec (fun db => let '(e, db') := st_Save t r conds db in (err_res e, db')).
Definition storage_Update t (r : row t) conds : Go W (res unit) :=
  db_exec (fun db => let '(e, db') := st_Update t r conds db in (err_res e, db')).
Definition storage_Delete t key conds : Go W (res unit) :=
  db_exec (fun db => let '(e, db') := st_Delete t key conds db in (err_res e, db')).
Definition storage_Get t conds : Go W (res (row t)) := db_query (st_Get t conds).
Definition storage_List t ob asc off lim conds : Go W (res (list (row t))) :=
  db_query (st_List t ob asc off lim conds).
Definition storage_Count t conds : Go W (res Z) := db_query (st_Count t conds).
Definition storage_Raw t q args : Go W (res (list (row t))) := db_query (st_Raw t q args).
End Handlers.

(** ** Derived facts *)

Section Facts.
Context {DB : Type} `{StorageLaws DB}.

Lemma same_row_refl t (r : row t) : same_row t r r.
Proof. by split_and!. Qed.

Lemma save_flat t r conds (db db' : DB) :
  flat t = true -> t <> T_Control -> st_Save t r conds db = (None, db') ->
  rows t db' ≡ₚ r :: filter (fun x => pk t x <> pk t r) (rows t db).
Proof.
  intros Hf Hc Hs. destruct (save_ok _ _ _ _ _ Hs Hc) as (r' & (_ & _ & Heq) & Hp).
  by rewrite Hp, (Heq Hf).
Qed.

Lemma create_flat t r (db db' : DB) :
  flat t = true -> st_Create t r db = (None, db') -> rows t db' ≡ₚ r :: rows t db.
Proof.
  intros Hf Hs. destruct (create_ok _ _ _ _ Hs) as (_ & r' & (_ & _ & Heq) & Hp); [by destruct t|].
  by rewrite Hp, (Heq Hf).
Qed.
End Facts.

(** A WHERE clause asks what the joined query asks. *)
Lemma where_clause_hold now pkv cols q args : q <> [] ->
  where_hold now pkv cols (where_clause q) args = plain_hold now pkv cols (AStr (strings_Join q " AND ") :: args).
Proof.
  intros Hq. unfold where_clause. destruct q as [|q0 q]; [done|]. set (j := strings_Join _ _).
  unfold where_hold. rewrite bool_decide_eq_false_2 by done.
  unfold strings_CutPrefix, strings_HasPrefix. rewrite prefix_app. reflexivity.
Qed.

(** *** Conditions that are query strings *)

Section Queries.
Context {DB : Type} `{StorageView DB}.

Lemma matches_query t (db : DB) q args c r : q <> "" -> sql_parse q args = Some c ->
  matches t db (AStr q :: args) r = Some (selected (db_now db) (col t r) c).
Proof.
  intros Hq Hp. unfold matches, conds_hold, plain_hold. cbn [strip_preload].
  rewrite bool_decide_eq_false_2 by (by intros [? ?]). by rewrite Hp.
Qed.

(** [x = ?]: a row can be selected exactly when its column has the value. *)
Lemma matches_eq t (db : DB) q x v r : q <> "" -> sql_parse q [AStr v] = Some (CEq x (AStr v)) ->
  matches t db [AStr q; AStr v] r = Some (bool_decide (col t r x = VStr v)).
Proof.
  intros Hq Hp. rewrite (matches_query _ _ _ _ _ _ Hq Hp). f_equal.
  apply Bool.eq_iff_eq_true. by rewrite selected_eq_str, bool_decide_eq_true.
Qed.

(** [x = ? AND y = ?] *)
Lemma matches_eq2 t (db : DB) q x y u v r : q <> "" ->
  sql_parse q [AStr u; AStr v] = Some (CAnd (CEq x (AStr u)) (CEq y (AStr v))) ->
  matches t db [AStr q; AStr u; AStr v] r = Some (bool_decide (col t r x = VStr u /\ col t r y = VStr v)).
Proof.
  intros Hq Hp. rewrite (matches_query _ _ _ _ _ _ Hq Hp). f_equal.
  apply Bool.eq_iff_eq_true. by rewrite selected_and, andb_true_iff, !selected_eq_str, bool_decide_eq_true.
Qed.

(** A preload option does not change what is selected. *)
Lemma matches_preload t (db : DB) q args conds r :
  match conds with APreload _ _ :: _ => False | _ => True end ->
  matches t db (APreload q args :: conds) r = matches t db conds r.
Proof. intros Hc. unfold matches, conds_hold. cbn [strip_preload]. destruct conds as [|[] ?]; done. Qed.
End Queries.

Ltac db_unfold :=
  unfold storage_Create, storage_Save, storage_Update, storage_Delete, storage_Get,
    storage_List, storage_Count, storage_Raw in *.
