(* ===== verification/Gorm.v ===== *)
(** persistence/gorm/gorm.go: the [Storage] implementation on top of the GORM
    library.  GORM itself is a parameter ([GormDB]) with its documented
    behaviour ([GormLaws]); the functions below are the wrapper: preload and
    condition handling, the translation of database errors into the errors of
    package persistence, and the order statement of [List].

    [gorm_storage_laws] is the refinement: the wrapper satisfies the contract
    [StorageLaws] the services are verified against. *)

From S2P Require Import Prelude GoRuntime GoStrings Util Api Sql Storage.

(** ** GORM *)

Inductive preload_opt := PreloadAssociations | PreloadQuery (query : string) (args : list string) | NoPreload.

Definition gorm_ErrRecordNotFound : error := EText "record not found".

(** The calls of [*gorm.DB] the wrapper makes.  A where clause is the query with
    its arguments; [g_Updates] and [g_Delete] also report [RowsAffected]. *)
Class GormDB (DB : Type) := {
  g_Create : forall t, row t -> DB -> option error * DB;
  g_First : forall t : table, preload_opt -> list any -> DB -> res (row t);
  g_Find : forall t : table, option Z -> Z -> string -> preload_opt -> list any -> DB -> res (list (row t));
  g_RawScan : forall t : table, raw_query -> list any -> DB -> res (list (row t));
  g_Count : forall t : table, list any -> DB -> res Z;
  g_Save : forall t, list any -> row t -> DB -> option error * DB;
  g_Updates : forall t, list any -> row t -> DB -> option error * Z * DB;
  g_Delete : forall t : table, option (list string) -> list any -> DB -> option error * Z * DB;
}.

(** ** The wrapper *)

Section Wrapper.
Context {DB : Type} `{GormDB DB}.

(** [Create], with its error translation. *)
Definition create_error (e : error) : error :=
  if strings_Contains (Error e) "constraint failed: UNIQUE constraint failed"
     || strings_Contains (Error e) "duplicate key value violates unique constraint"
  then ErrUniqueConstraintFailed
  else if strings_Contains (Error e) "constraint failed" then ErrConstraintFailed
  else e.

Definition Create t (r : row t) (db : DB) : option error * DB :=
  let '(err, db') := g_Create t r db in (create_error <$> err, db').

(** [applyWhere]: no condition, one condition, or a query with arguments. *)
Definition applyWhere (conds : list any) : list any :=
  match conds with
  | [] => []
  | [c] => [c]
  | c :: args => c :: args
  end.

(** [applyPreload] *)
Definition applyPreload (conds : list any) : preload_opt * list any :=
  match conds with
  | APreload query args :: rest =>
      if bool_decide (query <> "") then (PreloadQuery query args, rest) else (NoPreload, rest)
  | _ => (PreloadAssociations, conds)
  end.

Definition Get t (conds : list any) (db : DB) : res (row t) :=
  let '(pre, conds) := applyPreload conds in
  match g_First t pre conds db with
  | OK r => OK r
  | Err err => if errors_Is err gorm_ErrRecordNotFound then Err ErrRecordNotFound else Err err
  end.

(** The ORDER BY text of [List]. *)
Definition orderStmt (orderBy : string) (asc : bool) : string :=
  if bool_decide (orderBy = "") then ""
  else orderBy +:+ " " +:+ (if asc then "asc" else "desc").

Definition List_ t (orderBy : string) (asc : bool) (offset limit : Z) (conds : list any) (db : DB)
  : res (list (row t)) :=
  let lim := if bool_decide (limit <> (-1)%Z) then Some limit else None in
  let '(pre, conds) := applyPreload conds in
  g_Find t lim offset (orderStmt orderBy asc) pre conds db.

Definition Raw t (query : raw_query) (args : list any) (db : DB) : res (list (row t)) :=
  g_RawScan t query args db.

Definition Count t (conds : list any) (db : DB) : res Z := g_Count t (applyWhere conds) db.

Definition constraint_error (e : error) : error :=
  if strings_Contains (Error e) "constraint failed" then ErrConstraintFailed else e.

Definition Save t (r : row t) (conds : list any) (db : DB) : option error * DB :=
  let '(err, db') := g_Save t (applyWhere conds) r db in (constraint_error <$> err, db').

Definition Update t (r : row t) (conds : list any) (db : DB) : option error * DB :=
  let '(err, affected, db') := g_Updates t (applyWhere conds) r db in
  match err with
  | Some e => (Some (constraint_error e), db')
  | None => if bool_decide (affected = 0%Z) then (Some ErrRecordNotFound, db') else (None, db')
  end.

Definition Delete t (key : option (list string)) (conds : list any) (db : DB) : option error * DB :=
  let '(err, affected, db') := g_Delete t key conds db in
  match err with
  | Some e => (Some e, db')
  | None => if bool_decide (affected = 0%Z) then (Some ErrRecordNotFound, db') else (None, db')
  end.

#[export] Instance gorm_storage : Storage DB := {|
  st_Create := Create; st_Save := Save; st_Update := Update; st_Get := Get;
  st_List := List_; st_Count := Count; st_Delete := Delete; st_Raw := Raw;
|}.
End Wrapper.

(** ** What the wrapper relies on *)

(** The contents of the database behind GORM, and the order in which it
    enumerates the rows of a query. *)
Class GormView (DB : Type) := {
  g_rows : forall t, DB -> list (row t);
  g_now : DB -> Z;
  g_enumerate : forall t, string -> preload_opt -> list any -> DB -> list (row t);
}.

#[export] Instance gorm_view {DB} `{GormView DB} : StorageView DB := {|
  rows := g_rows;
  db_now := g_now;
  enumerate := fun t ob asc conds db =>
    g_enumerate t (orderStmt ob asc) (applyPreload conds).1 (applyPreload conds).2 db;
|}.

(** Whether a row satisfies a GORM condition list. *)
Definition g_matches {DB} `{GormView DB} t (db : DB) (conds : list any) (r : row t) : option bool :=
  plain_hold (g_now db) (pk t r) (col t r) conds.

(** Documented behaviour of GORM and the database. *)
Class GormLaws (DB : Type) `{GormDB DB, !GormView DB} : Prop := {
  g_create_ok : forall t r (db db' : DB),
    g_Create t r db = (None, db') -> t <> T_Control ->
    (forall x, x ∈ g_rows t db -> pk t x <> pk t r) /\
    exists r', same_row t r r' /\ g_rows t db' ≡ₚ r' :: g_rows t db;
  g_create_err : forall t r e (db db' : DB), g_Create t r db = (Some e, db') -> db' = db;
  g_save_ok : forall t r conds (db db' : DB),
    g_Save t conds r db = (None, db') -> t <> T_Control ->
    exists r', same_row t r r' /\
      g_rows t db' ≡ₚ r' :: filter (fun x => pk t x <> pk t r) (g_rows t db);
  g_save_err : forall t r conds e (db db' : DB), g_Save t conds r db = (Some e, db') -> db' = db;
  g_updates_ok : forall t r conds n (db db' : DB),
    g_Updates t conds r db = (None, n, db') -> n <> 0%Z -> t <> T_Control ->
    (forall x, x ∈ g_rows t db -> matches t db conds x = Some (bool_decide (pk t x = pk t r))) ->
    exists old r', old ∈ g_rows t db /\ pk t old = pk t r /\ merged t old r r' /\
      g_rows t db' ≡ₚ r' :: filter (fun x => pk t x <> pk t r) (g_rows t db);
  g_updates_none : forall t r conds (db db' : DB),
    g_Updates t conds r db = (None, 0%Z, db') ->
    db' = db /\ forall x, x ∈ g_rows t db -> pk t x = pk t r -> matches t db conds x <> Some true;
  g_updates_err : forall t r conds e n (db db' : DB),
    g_Updates t conds r db = (Some e, n, db') -> db' = db;
  g_first_ok : forall t pre conds (db : DB) r,
    g_First t pre conds db = OK r ->
    (flat t = true -> r ∈ g_rows t db /\ g_matches t db conds r <> Some false) /\
    (pre = PreloadAssociations ->
     exists r0, r0 ∈ g_rows t db /\ same_row t r0 r /\ g_matches t db conds r0 <> Some false);
  g_first_none : forall t pre conds (db : DB) e,
    g_First t pre conds db = Err e -> errors_Is e gorm_ErrRecordNotFound = true ->
    forall x, x ∈ g_rows t db -> g_matches t db conds x <> Some true;
  g_enumerate_sound : forall t order pre conds (db : DB) r,
    r ∈ g_enumerate t order pre conds db ->
    exists r0, r0 ∈ g_rows t db /\ same_row t r0 r /\ g_matches t db conds r0 <> Some false;
  g_enumerate_complete : forall t order pre conds (db : DB) r0,
    r0 ∈ g_rows t db -> g_matches t db conds r0 = Some true ->
    exists r, same_row t r0 r /\ r ∈ g_enumerate t order pre conds db;
  g_find_ok : forall t lim off order pre conds (db : DB) l,
    g_Find t lim off order pre conds db = OK l -> (0 <= off)%Z ->
    (forall n, lim = Some n -> (0 <= n)%Z) ->
    l = (match lim with None => id | Some n => take (Z.to_nat n) end)
          (drop (Z.to_nat off) (g_enumerate t order pre conds db));
  g_find_sound : forall t lim off order pre conds (db : DB) l r,
    g_Find t lim off order pre conds db = OK l -> r ∈ l -> r ∈ g_enumerate t order pre conds db;
  g_count_ok : forall t conds (db : DB) n,
    g_Count t conds db = OK n ->
    (forall x, x ∈ g_rows t db -> matches t db conds x <> None) ->
    n = Z.of_nat (length (filter (fun x => matches t db conds x = Some true) (g_rows t db)));
  g_delete_ok : forall t key conds n (db db' : DB),
    g_Delete t key conds db = (None, n, db') -> n <> 0%Z -> t <> T_Control ->
    (forall x, x ∈ g_rows t db -> matches t db conds x <> None) ->
    let hit := fun x => (forall k, key = Some k -> pk t x = k) /\ matches t db conds x = Some true in
    (exists x, x ∈ g_rows t db /\ hit x) /\
    forall x, x ∈ g_rows t db' <-> x ∈ g_rows t db /\ ~ hit x;
  g_delete_none : forall t key conds (db db' : DB),
    g_Delete t key conds db = (None, 0%Z, db') ->
    db' = db /\ forall x, x ∈ g_rows t db -> (forall k, key = Some k -> pk t x = k) ->
                 matches t db conds x <> Some true;
  g_delete_err : forall t key conds e n (db db' : DB),
    g_Delete t key conds db = (Some e, n, db') -> db' = db;
  g_frame_create : forall t r e (db db' : DB), isolated t = true ->
    g_Create t r db = (e, db') -> forall t', t' <> t -> g_rows t' db' = g_rows t' db;
  g_frame_save : forall t r conds e (db db' : DB), isolated t = true ->
    g_Save t conds r db = (e, db') -> forall t', t' <> t -> g_rows t' db' = g_rows t' db;
  g_raw_latest : forall t q args (db : DB) l,
    table_name t <> "" -> raw_table q = table_name t ->
    g_RawScan t q args db = OK l -> latest_rows t q args db l;
  (** GORM never returns the sentinel of package persistence. *)
  g_updates_foreign : forall t conds r db e n (db' : DB),
    g_Updates t conds r db = (Some e, n, db') -> errors_Is e ErrRecordNotFound = false;
  g_delete_foreign : forall t key conds db e n (db' : DB),
    g_Delete t key conds db = (Some e, n, db') -> errors_Is e ErrRecordNotFound = false;
  g_first_foreign : forall t pre conds (db : DB) e,
    g_First t pre conds db = Err e -> errors_Is e ErrRecordNotFound = false;
}.

(** ** Refinement *)

Lemma applyWhere_id conds : applyWhere conds = conds.
Proof. by destruct conds as [|? []]. Qed.

Lemma applyPreload_strip conds : (applyPreload conds).2 = strip_preload conds.
Proof. destruct conds as [|[] ?]; try done. simpl. by case_bool_decide. Qed.

Lemma constraint_error_notfound e :
  errors_Is (constraint_error e) ErrRecordNotFound = true -> errors_Is e ErrRecordNotFound = true.
Proof. unfold constraint_error. by destruct (strings_Contains _ _). Qed.

Section Refinement.
Context {DB : Type} `{GormLaws DB}.
Implicit Types db : DB.

Lemma matches_strip t db conds r :
  matches t db conds r = g_matches t db (applyPreload conds).2 r.
Proof. unfold matches, conds_hold. by rewrite applyPreload_strip. Qed.

Lemma Create_inv t r db e db' :
  Create t r db = (e, db') -> exists e0, g_Create t r db = (e0, db') /\ e = create_error <$> e0.
Proof. unfold Create. destruct (g_Create t r db). intros; simplify_eq. eauto. Qed.

Lemma Save_inv t r conds db e db' :
  Save t r conds db = (e, db') -> exists e0, g_Save t conds r db = (e0, db') /\ e = constraint_error <$> e0.
Proof. unfold Save. rewrite applyWhere_id. destruct (g_Save t conds r db). intros; simplify_eq. eauto. Qed.

Lemma Update_inv t r conds db e db' :
  Update t r conds db = (e, db') ->
  exists e0 n, g_Updates t conds r db = (e0, n, db') /\
    e = match e0 with Some x => Some (constraint_error x)
        | None => if bool_decide (n = 0%Z) then Some ErrRecordNotFound else None end.
Proof.
  unfold Update. rewrite applyWhere_id. destruct (g_Updates t conds r db) as [[[x|] n] db1];
    [|destruct (bool_decide (n = 0%Z)) eqn:E]; intros; simplify_eq; eexists _, _; split; eauto; simpl; by rewrite ?E.
Qed.

Lemma Delete_inv t key conds db e db' :
  Delete t key conds db = (e, db') ->
  exists e0 n, g_Delete t key conds db = (e0, n, db') /\
    e = match e0 with Some x => Some x
        | None => if bool_decide (n = 0%Z) then Some ErrRecordNotFound else None end.
Proof.
  unfold Delete. destruct (g_Delete t key conds db) as [[[x|] n] db1];
    [|destruct (bool_decide (n = 0%Z)) eqn:E]; intros; simplify_eq; eexists _, _; split; eauto; simpl; by rewrite ?E.
Qed.

Lemma Get_inv_OK t conds db r :
  Get t conds db = OK r -> g_First t (applyPreload conds).1 (applyPreload conds).2 db = OK r.
Proof.
  unfold Get. destruct (applyPreload conds) as [pre c]; simpl.
  destruct (g_First t pre c db); [done|]. by destruct (errors_Is _ _).
Qed.

Lemma Get_inv_none t conds db e :
  Get t conds db = Err e -> errors_Is e ErrRecordNotFound = true ->
  exists e0, g_First t (applyPreload conds).1 (applyPreload conds).2 db = Err e0 /\
             errors_Is e0 gorm_ErrRecordNotFound = true.
Proof.
  unfold Get. destruct (applyPreload conds) as [pre c]; simpl.
  destruct (g_First t pre c db) as [|e0] eqn:E; [done|].
  destruct (errors_Is e0 gorm_ErrRecordNotFound) eqn:E1; [eauto|].
  intros [= <-] Hn. apply g_first_foreign in E. congruence.
Qed.

Lemma List_inv t ob asc off lim conds db :
  List_ t ob asc off lim conds db
  = g_Find t (if bool_decide (lim <> (-1)%Z) then Some lim else None) off (orderStmt ob asc)
      (applyPreload conds).1 (applyPreload conds).2 db.
Proof. unfold List_. by destruct (applyPreload conds). Qed.
End Refinement.

Lemma gorm_storage_laws (DB : Type) (G : GormDB DB) (V : GormView DB) :
  GormLaws DB -> StorageLaws DB.
Proof.
  intros HL. constructor.
  - intros t r db db' ([e0|] & Hc & ?)%Create_inv ?; simplify_eq. by eapply g_create_ok.
  - intros t r e db db' ([e0|] & Hc & ?)%Create_inv; simplify_eq. by eapply g_create_err.
  - intros t r conds db db' ([e0|] & Hc & ?)%Save_inv ?; simplify_eq. by eapply g_save_ok.
  - intros t r conds e db db' ([e0|] & Hc & ?)%Save_inv; simplify_eq. by eapply g_save_err.
  - intros t r conds db db' ([e0|] & n & Hc & ?)%Update_inv Ht Hm; simplify_eq.
    case_bool_decide; simplify_eq. by eapply g_updates_ok.
  - intros t r conds e db db' ([e0|] & n & Hc & ?)%Update_inv; simplify_eq; [by eapply g_updates_err|].
    case_bool_decide; simplify_eq. by eapply g_updates_none.
  - intros t r conds e db db' ([e0|] & n & Hc & ?)%Update_inv Hnf; simplify_eq.
    + apply constraint_error_notfound in Hnf. apply g_updates_foreign in Hc. congruence.
    + case_bool_decide; simplify_eq. by eapply g_updates_none.
  - intros t conds db r Hf Hg%Get_inv_OK. rewrite matches_strip. by eapply g_first_ok.
  - intros t conds db r Hp Hg%Get_inv_OK.
    destruct (g_first_ok _ _ _ _ _ Hg) as [_ (r0 & ? & ? & ?)]; [destruct conds as [|[] ?]; naive_solver|].
    exists r0. by rewrite matches_strip.
  - intros t conds db e Hg Hnf x Hx. destruct (Get_inv_none _ _ _ _ Hg Hnf) as (e0 & ? & ?).
    rewrite matches_strip. by eapply g_first_none.
  - intros t ob asc conds db r (r0 & ? & ? & ?)%g_enumerate_sound. exists r0. by rewrite matches_strip.
  - intros t ob asc conds db r0 Hr0. rewrite matches_strip. intros Hm.
    destruct (g_enumerate_complete t (orderStmt ob asc) (applyPreload conds).1 _ _ _ Hr0 Hm) as (r & ? & ?). eauto.
  - intros t ob asc off lim conds db l Hl Ho Hlim. simpl in Hl. rewrite List_inv in Hl.
    rewrite (g_find_ok _ _ _ _ _ _ _ _ Hl Ho); [|intros n; case_bool_decide; naive_solver lia].
    repeat case_bool_decide; simplify_eq; try done; lia.
  - intros t ob asc off lim conds db l r Hl Hr. simpl in Hl. rewrite List_inv in Hl. by eapply g_find_sound.
  - intros t conds db n Hc Hm. simpl in Hc. unfold Count in Hc. rewrite applyWhere_id in Hc. by eapply g_count_ok.
  - intros t key conds db db' ([e0|] & n & Hc & ?)%Delete_inv Ht Hm; simplify_eq.
    case_bool_decide; simplify_eq. by eapply g_delete_ok.
  - intros t key conds e db db' ([e0|] & n & Hc & ?)%Delete_inv; simplify_eq; [by eapply g_delete_err|].
    case_bool_decide; simplify_eq. by eapply g_delete_none.
  - intros t key conds e db db' ([e0|] & n & Hc & ?)%Delete_inv Hnf; simplify_eq.
    + apply g_delete_foreign in Hc. congruence.
    + case_bool_decide; simplify_eq. by eapply g_delete_none.
  - intros t r e db db' Hi (e0 & Hc & _)%Create_inv. by eapply g_frame_create.
  - intros t r conds e db db' Hi (e0 & Hc & _)%Save_inv. by eapply g_frame_save.
  - intros t q args db l. by apply g_raw_latest.
Qed.

(** C16. The wrapper of persistence/gorm/gorm.go implements the Storage contract:
    under the documented behaviour of GORM, its Create, Save, Update, Get, List,
    Count, Delete and Raw satisfy every law the services rely on, including the
    error values that RowsAffected and gorm.ErrRecordNotFound turn into. *)
Theorem gorm_storage_refines (DB : Type) (G : GormDB DB) (V : GormView DB) :
  GormLaws DB -> @StorageLaws DB gorm_storage gorm_view.
Proof. apply gorm_storage_laws. Qed.
