(* ===== verification/MemDB.v ===== *)
(** A concrete database: lists of rows per table.  It satisfies [GormLaws], so
    every theorem about the services applies to it; the witnesses of the
    theorems run on it. *)

From Stdlib Require Import Eqdep_dec.
From S2P Require Import Prelude GoRuntime GoStrings Util Api Sql Storage Gorm.

Record memdb := mkMem { mem_rows : forall t, list (row t); mem_now : Z }.

Definition mem_empty (now : Z) : memdb := mkMem (fun _ => []) now.

Definition mem_set (t : table) (l : list (row t)) (m : memdb) : memdb :=
  mkMem (fun t' => match decide (t = t') with
                   | left e => eq_rect t (fun x => list (row x)) l t' e
                   | right _ => mem_rows m t'
                   end) (mem_now m).

Lemma mem_set_eq t l m : mem_rows (mem_set t l m) t = l.
Proof.
  simpl. destruct (decide (t = t)) as [e|]; [|done].
  by rewrite (UIP_dec table_eq_dec e eq_refl).
Qed.

Lemma mem_set_ne t t' l m : t' <> t -> mem_rows (mem_set t l m) t' = mem_rows m t'.
Proof. simpl. by destruct (decide (t = t')) as [->|]. Qed.

(** Rows that satisfy the conditions (conditions that are not understood select
    nothing). *)
Definition mem_hit (m : memdb) t (conds : list any) (r : row t) : bool :=
  match plain_hold (mem_now m) (pk t r) (col t r) conds with Some true => true | _ => false end.

Definition mem_select (m : memdb) t (conds : list any) : list (row t) :=
  filter (fun r => mem_hit m t conds r = true) (mem_rows m t).

(** [Update] is provided for the tables the services update. *)
Definition str_or (new old : string) : string := if bool_decide (new = "") then old else new.
Definition opt_or {A} (new old : option A) : option A := match new with Some _ => new | None => old end.

Definition mem_merge (t : table) : option (row t -> row t -> row t) :=
  match t with
  | T_Metric => Some (fun old new =>
      mkMetric (Metric_Id old) (str_or (Metric_Name new) (Metric_Name old)) (Metric_Description new)
        (Metric_Category new) (Metric_Scale_ new) (Metric_Range new) (Metric_Interval new)
        (Metric_Implementation new) (opt_or (Metric_DeprecatedSince new) (Metric_DeprecatedSince old)))
  | T_Catalog => Some (fun old new =>
      mkCatalog (Catalog_Id old) (str_or (Catalog_Name new) (Catalog_Name old)) (Catalog_Description new)
        (Catalog_Categories new) (Catalog_AllInScope new) (Catalog_AssuranceLevels new)
        (Catalog_ShortName new) (Catalog_Metadata_ new))
  | _ => None
  end.

(** The latest row per partition: [x] replaces the representative of its
    partition when it is newer. *)
Definition part_key (t : table) (part : string) (r : row t) : list sqlval := col t r <$> part_cols part.

Definition newer (v1 v2 : sqlval) : bool :=
  match v1, v2 with VTime a, VTime b => bool_decide (b < a)%Z | VTime _, VNull => true | _, _ => false end.

Fixpoint put_latest {t} (part : string) (x : row t) (acc : list (row t)) : list (row t) :=
  match acc with
  | [] => [x]
  | y :: acc =>
      if bool_decide (part_key t part x = part_key t part y)
      then (if newer (col t x "timestamp") (col t y "timestamp") then x else y) :: acc
      else y :: put_latest part x acc
  end.

Definition latest_of {t} (part : string) (l : list (row t)) : list (row t) :=
  foldl (fun acc x => put_latest part x acc) [] l.

Definition mem_keyed t (key : option (list string)) (r : row t) : bool :=
  match key with None => true | Some k => bool_decide (pk t r = k) end.

#[export] Instance mem_gorm : GormDB memdb := {|
  g_Create := fun t r m =>
    if existsb (fun x => bool_decide (pk t x = pk t r)) (mem_rows m t)
    then (Some (EText "constraint failed: UNIQUE constraint failed"), m)
    else (None, mem_set t (mem_rows m t ++ [r]) m);
  g_First := fun t _ conds m =>
    match mem_select m t conds with r :: _ => OK r | [] => Err gorm_ErrRecordNotFound end;
  g_Find := fun t lim off _ _ conds m =>
    OK ((match lim with None => id | Some n => take (Z.to_nat n) end)
          (drop (Z.to_nat off) (mem_select m t conds)));
  g_RawScan := fun t q args m =>
    OK (latest_of (raw_part q)
          (filter (fun r => where_hold (mem_now m) (pk t r) (col t r) (raw_where q) args = Some true)
                  (mem_rows m t)));
  g_Count := fun t conds m => OK (Z.of_nat (length (mem_select m t (strip_preload conds))));
  g_Save := fun t _ r m =>
    (None, mem_set t (r :: filter (fun x => pk t x <> pk t r) (mem_rows m t)) m);
  g_Updates := fun t conds r m =>
    match mem_merge t,
          filter (fun x => pk t x = pk t r) (mem_select m t (strip_preload conds)) with
    | None, _ => (Some (EText "unsupported"), 0%Z, m)
    | Some _, [] => (None, 0%Z, m)
    | Some f, old :: _ =>
        (None, 1%Z, mem_set t (f old r :: filter (fun x => pk t x <> pk t r) (mem_rows m t)) m)
    end;
  g_Delete := fun t key conds m =>
    let hit := fun x => mem_keyed t key x && mem_hit m t (strip_preload conds) x in
    if existsb hit (mem_rows m t)
    then (None, 1%Z, mem_set t (filter (fun x => hit x = false) (mem_rows m t)) m)
    else (None, 0%Z, m);
|}.

#[export] Instance mem_view : GormView memdb := {|
  g_rows := fun t m => mem_rows m t;
  g_now := mem_now;
  g_enumerate := fun t _ _ conds m => mem_select m t conds;
|}.

(** ** The laws *)

Lemma elem_of_mem_select m t conds r :
  r ∈ mem_select m t conds <-> r ∈ mem_rows m t /\ plain_hold (mem_now m) (pk t r) (col t r) conds = Some true.
Proof.
  unfold mem_select. rewrite list_elem_of_filter. unfold mem_hit.
  destruct (plain_hold _ _ _ _) as [[]|]; naive_solver.
Qed.

Lemma mem_matches t (m : memdb) conds r :
  matches t m conds r = plain_hold (mem_now m) (pk t r) (col t r) (strip_preload conds).
Proof. done. Qed.

Lemma same_part_key t part (r1 r2 : row t) :
  same_part t part r1 r2 <-> part_key t part r1 = part_key t part r2.
Proof.
  unfold same_part, part_key. split.
  - intros Hs. apply list_fmap_ext. intros i c Hc. apply Hs. by eapply list_elem_of_lookup_2.
  - intros Hk c (i & Hi)%list_elem_of_lookup_1.
    apply (f_equal (fun l => l !! i)) in Hk. rewrite !list_lookup_fmap, Hi in Hk. by simplify_eq/=.
Qed.

Section Latest.
Context {t : table} (part : string) (Hts : forall r : row t, exists o, col t r "timestamp" = opt_time o).
Implicit Types x y r : row t.
Abbreviation key := (part_key t part).
Abbreviation ts r := (col t r "timestamp").

Lemma newer_total x y : (newer (ts x) (ts y) = true /\ ts_le (ts y) (ts x)) \/
                        (newer (ts x) (ts y) = false /\ ts_le (ts x) (ts y)).
Proof.
  destruct (Hts x) as [[a|] ->], (Hts y) as [[b|] ->]; simpl; auto.
  case_bool_decide; [left|right]; split; auto; lia.
Qed.

Lemma ts_le_refl x : ts_le (ts x) (ts x).
Proof. destruct (Hts x) as [[a|] ->]; simpl; auto; lia. Qed.

Lemma ts_le_trans x y r : ts_le (ts x) (ts y) -> ts_le (ts y) (ts r) -> ts_le (ts x) (ts r).
Proof. destruct (Hts x) as [[a|] ->], (Hts y) as [[b|] ->], (Hts r) as [[c|] ->]; simpl; try done; lia. Qed.

Lemma put_latest_elem x acc r : r ∈ put_latest part x acc -> r = x \/ r ∈ acc.
Proof.
  induction acc as [|y acc IH]; simpl; [set_solver|].
  case_bool_decide; [destruct (newer _ _)|]; set_solver.
Qed.

Lemma put_latest_keys x acc :
  (key <$> put_latest part x acc) = (key <$> acc) \/
  (key x ∉ (key <$> acc) /\ (key <$> put_latest part x acc) = (key <$> acc) ++ [key x]).
Proof.
  induction acc as [|y acc IH]; [right; set_solver|]. cbn [put_latest].
  case_bool_decide as Hk.
  - left. rewrite !fmap_cons. f_equal. by destruct (newer _ _).
  - rewrite !fmap_cons. destruct IH as [-> | [Hn ->]]; [by left|right]. split; [set_solver|done].
Qed.

Lemma put_latest_covers x acc r : r = x \/ r ∈ acc ->
  exists r', r' ∈ put_latest part x acc /\ key r = key r' /\ ts_le (ts r) (ts r').
Proof.
  induction acc as [|y acc IH]; simpl.
  - intros [->|?]; [|set_solver]. exists x. split_and!; [set_solver|done|apply ts_le_refl].
  - case_bool_decide as Hk.
    + destruct (newer_total x y) as [[-> Hle]|[-> Hle]]; intros [->|[->|Hin]%elem_of_cons];
        first [ by exists r; split_and!; [set_solver|done|apply ts_le_refl]
              | by exists x; split_and!; [set_solver|done|auto using ts_le_refl]
              | by exists y; split_and!; [set_solver|done|auto using ts_le_refl] ].
    + intros [->|[->|Hin]%elem_of_cons].
      * destruct (IH (or_introl eq_refl)) as (r' & ? & ? & ?). exists r'. set_solver.
      * exists y. split_and!; [set_solver|done|apply ts_le_refl].
      * destruct (IH (or_intror Hin)) as (r' & ? & ? & ?). exists r'. set_solver.
Qed.

Lemma latest_of_snoc l x : latest_of part (l ++ [x]) = put_latest part x (latest_of part l).
Proof. unfold latest_of. by rewrite foldl_app. Qed.

Lemma latest_of_spec l :
  (forall r, r ∈ latest_of part l -> r ∈ l) /\
  (forall r, r ∈ l -> exists r', r' ∈ latest_of part l /\ key r = key r' /\ ts_le (ts r) (ts r')) /\
  NoDup (key <$> latest_of part l).
Proof.
  induction l as [|x l (IH1 & IH2 & IH3)] using rev_ind.
  - split_and!; [set_solver..|constructor].
  - rewrite latest_of_snoc. split_and!.
    + intros r [->|?]%put_latest_elem; set_solver.
    + intros r [Hr|Hr%list_elem_of_singleton]%elem_of_app; [|by subst r; apply put_latest_covers; left].
      destruct (IH2 r Hr) as (r1 & Hr1 & Hk1 & Hle1).
      destruct (put_latest_covers x (latest_of part l) r1 (or_intror Hr1)) as (r2 & ? & Hk2 & Hle2).
      exists r2. split_and!; [done|congruence|by eapply ts_le_trans].
    + destruct (put_latest_keys x (latest_of part l)) as [-> | [Hn ->]]; [done|].
      apply NoDup_app. split_and!; [done|set_solver|apply NoDup_singleton].
Qed.
End Latest.

Lemma table_timestamp t : table_name t <> "" -> forall r : row t, exists o, col t r "timestamp" = opt_time o.
Proof. destruct t; simpl; try done; intros _ r; eexists; reflexivity. Qed.

Lemma mem_raw_latest t q args (m : memdb) :
  table_name t <> "" ->
  latest_rows t q args m
    (latest_of (raw_part q)
       (filter (fun r => where_matches t m (raw_where q) args r = Some true) (mem_rows m t))).
Proof.
  intros Ht. set (sel := filter _ _).
  destruct (latest_of_spec (raw_part q) (table_timestamp t Ht) sel) as (H1 & H2 & H3).
  split_and!.
  - intros r Hr%H1. unfold sel in Hr. apply list_elem_of_filter in Hr as [Hs Hr]. split; [done|congruence].
  - intros r Hr Hs. destruct (H2 r) as (r' & ? & Hk & ?); [by apply list_elem_of_filter|].
    exists r'. by rewrite same_part_key.
  - intros i j r1 r2 Hi Hj Hk%same_part_key.
    eapply (NoDup_lookup _ i j); [exact H3|by rewrite list_lookup_fmap, Hi|].
    rewrite list_lookup_fmap, Hj. simpl. by f_equal.
Qed.

Lemma mem_merge_merged t f (old new : row t) :
  mem_merge t = Some f -> pk t old = pk t new -> merged t old new (f old new).
Proof.
  destruct t; try done; intros [= <-] Hk; (split; [done|]); intros c; simpl in *; simplify_eq/=;
    repeat case_bool_decide; simpl; unfold str_or, opt_or, opt_time, is_zero;
    repeat case_match; simplify_eq/=; repeat case_bool_decide; simplify_eq/=; congruence.
Qed.

#[export] Instance mem_gorm_laws : GormLaws memdb.
Proof.
  constructor; simpl.
  - intros t r db db' Hc Ht. split_match_in Hc; simplify_eq. split.
    + intros x Hx Hk. apply not_true_iff_false in E. apply E. apply existsb_elem_of.
      exists x. by rewrite bool_decide_eq_true.
    + exists r. split; [apply same_row_refl|]. rewrite mem_set_eq. apply Permutation_app_comm.
  - intros t r e db db' Hc. by split_match_in Hc; simplify_eq.
  - intros t r conds db db' Hc Ht. simplify_eq. exists r. split; [apply same_row_refl|]. by rewrite mem_set_eq.
  - done.
  - intros t r conds n db db' Hu Hn Ht Hm. destruct (mem_merge t) as [f|] eqn:Ef; [|done].
    destruct (filter _ _) as [|old rest] eqn:El; [by simplify_eq|]. simplify_eq.
    assert (Hold : old ∈ old :: rest) by set_solver. rewrite <-El, list_elem_of_filter, elem_of_mem_select in Hold.
    destruct Hold as (Hk & Hin & _). exists old, (f old r). rewrite mem_set_eq.
    split_and!; auto. by apply mem_merge_merged.
  - intros t r conds db db' Hu. destruct (mem_merge t) as [f|] eqn:Ef; [|done].
    destruct (filter _ _) as [|old rest] eqn:El; [|done]. simplify_eq. split; [done|].
    intros x Hx Hk Hm. assert (x ∈ @nil (row t)); [|set_solver]. rewrite <-El, list_elem_of_filter, elem_of_mem_select. done.
  - intros t r conds e n db db' Hu. destruct (mem_merge t); [|by simplify_eq]. by destruct (filter _ _).
  - intros t pre conds db r Hf. destruct (mem_select db t conds) as [|r0 l] eqn:El; [done|]. simplify_eq.
    assert (Hr : r ∈ mem_select db t conds) by (rewrite El; set_solver). apply elem_of_mem_select in Hr as [Hr Hm].
    unfold g_matches; simpl. rewrite Hm. split; [done|]. intros _. exists r. rewrite Hm. split_and!; auto using same_row_refl.
  - intros t pre conds db e Hf _ x Hx Hm. destruct (mem_select db t conds) eqn:El; [|done].
    assert (x ∈ mem_select db t conds) as Hs by by apply elem_of_mem_select. rewrite El in Hs. set_solver.
  - intros t order pre conds db r [Hr Hm]%elem_of_mem_select. exists r. unfold g_matches; simpl. rewrite Hm.
    split_and!; auto using same_row_refl.
  - intros t order pre conds db r0 Hr Hm. exists r0. split; [apply same_row_refl|]. by apply elem_of_mem_select.
  - intros t lim off order pre conds db l Hf _ _. by simplify_eq.
  - intros t lim off order pre conds db l r Hf Hr. simplify_eq. destruct lim; [by eapply elem_of_window|].
    simpl in Hr. rewrite <-(take_drop (Z.to_nat off) (mem_select db t conds)). set_solver.
  - intros t conds db n Hc Hm. simplify_eq. unfold mem_select. do 2 f_equal. apply list_filter_iff.
    intros x. rewrite mem_matches. unfold mem_hit. destruct (plain_hold _ _ _ _) as [[]|]; naive_solver.
  - intros t key conds n db db' Hd Hn Ht Hm. split_match_in Hd; simplify_eq.
    assert (Hiff : forall x, mem_keyed t key x && mem_hit db t (strip_preload conds) x = true <->
              (forall k, key = Some k -> pk t x = k) /\ matches t db conds x = Some true).
    { intros x. rewrite mem_matches, andb_true_iff. unfold mem_keyed, mem_hit.
      destruct (plain_hold _ _ _ _) as [[]|], key as [k|]; rewrite ?bool_decide_eq_true; naive_solver. }
    split.
    + apply existsb_elem_of in E as (x & Hx & Hh). exists x. by rewrite <-Hiff.
    + intros x. rewrite mem_set_eq, list_elem_of_filter, <-Hiff, not_true_iff_false. tauto.
  - intros t key conds db db' Hd. split_match_in Hd; simplify_eq. split; [done|].
    intros x Hx Hk Hm. apply not_true_iff_false in E. apply E, existsb_elem_of. exists x. split; [done|].
    rewrite mem_matches in Hm. unfold mem_keyed, mem_hit. rewrite Hm.
    destruct key; [|done]. rewrite andb_true_r, bool_decide_eq_true. by apply Hk.
  - intros t key conds e n db db' Hd. by split_match_in Hd; simplify_eq.
  - intros t r e db db' _ Hc t' Hne. split_match_in Hc; simplify_eq; [done|]. by apply mem_set_ne.
  - intros t r conds e db db' _ Hc t' Hne. simplify_eq. by apply mem_set_ne.
  - intros t q args db l Ht Htab Hr. simplify_eq. by apply mem_raw_latest.
  - intros t conds r db e n db' Hu. destruct (mem_merge t); [|by simplify_eq]. by destruct (filter _ _).
  - intros t key conds db e n db' Hd. by split_match_in Hd.
  - intros t pre conds db e Hf. destruct (mem_select db t conds); by simplify_eq.
Qed.

#[export] Instance mem_laws : StorageLaws memdb := gorm_storage_laws memdb _ _ _.
