(* ===== verification/Authz.v ===== *)
(** service/authorization.go and api/validate.go: who may touch which cloud
    service, and the check every handler starts with.

    The services are verified against the interface [AuthorizationStrategy] and
    its contract [AuthorizationLaws]; both strategies of the source satisfy it. *)

From S2P Require Import Prelude GoRuntime GoStrings Util Api.

(** ** Requests *)

Inductive RequestType := AccessCreate | AccessRead | AccessUpdate | AccessDelete.

Definition ErrPermissionDenied : error := EStatus codes_PermissionDenied "access denied".

(** ** The interface *)

(** [type AuthorizationStrategy interface]; a [CloudServiceRequest] is the value
    of its [GetCloudServiceId()]. *)
Class AuthorizationStrategy (Ctx : Type) := {
  CheckAccess : option Ctx -> RequestType -> string -> bool;
  AllowedCloudServices : option Ctx -> bool * list string;
}.

(** What the handlers rely on: the access check and the list of allowed cloud
    services describe the same set of cloud services. *)
Class AuthorizationLaws (Ctx : Type) `{AuthorizationStrategy Ctx} : Prop := {
  check_access_allowed : forall (ctx : option Ctx) typ id,
    CheckAccess ctx typ id = true <->
    fst (AllowedCloudServices ctx) = true \/ id ∈ snd (AllowedCloudServices ctx);
}.

(** The cloud services a caller may see. *)
Definition may_access {Ctx} `{AuthorizationStrategy Ctx} (ctx : option Ctx) (id : string) : Prop :=
  fst (AllowedCloudServices ctx) = true \/ id ∈ snd (AllowedCloudServices ctx).

(** ** Tokens *)

(** The values of a decoded JSON object, as [encoding/json] produces them. *)
Inductive json :=
| JNull | JBool (b : bool) | JNum (repr : string) | JStr (s : string)
| JArr (l : list json) | JObj (m : list (string * json)).

Definition MapClaims := gmap string json.

(** The third-party token functions: [grpc_auth.AuthFromMD(ctx, "bearer")] and
    [jwt.NewParser().ParseUnverified(token, &claims)]. *)
Class TokenLibrary (Ctx : Type) := {
  AuthFromMD : Ctx -> string -> res string;
  ParseUnverified : string -> res MapClaims;
}.

(** ** AuthorizationStrategyJWT *)

Module JWT.
Record AuthorizationStrategyJWT := mkJWT {
  CloudServicesKey : string;
  AllowAllKey : string;
}.

Section Strategy.
Context {Ctx : Type} `{TokenLibrary Ctx}.

(** The loop over the array claim: only string values are kept. *)
Fixpoint string_items (l : list json) (list_ : list string) : list string :=
  match l with
  | [] => list_
  | JStr s :: l => string_items l (list_ ++ [s])
  | _ :: l => string_items l list_
  end.

Definition AllowedCloudServices (a : AuthorizationStrategyJWT) (ctx : option Ctx) : bool * list string :=
  match ctx with
  | None => (false, [])
  | Some ctx =>
      match AuthFromMD ctx "bearer" with
      | Err _ => (false, [])
      | OK token =>
          match ParseUnverified (Ctx := Ctx) token with
          | Err _ => (false, [])
          | OK claims =>
              match claims !! AllowAllKey a with
              | Some (JBool true) => (true, [])
              | _ => match claims !! CloudServicesKey a with
                     | Some (JArr l) => (false, string_items l [])
                     | _ => (false, [])
                     end
              end
          end
      end
  end.

Definition CheckAccess (a : AuthorizationStrategyJWT) (ctx : option Ctx) (_ : RequestType) (id : string) : bool :=
  let '(all, list_) := AllowedCloudServices a ctx in
  if all then true else slices_Contains list_ id.

Definition strategy (a : AuthorizationStrategyJWT) : AuthorizationStrategy Ctx := {|
  Authz.CheckAccess := CheckAccess a;
  Authz.AllowedCloudServices := AllowedCloudServices a;
|}.

Lemma string_items_spec l acc s : s ∈ string_items l acc <-> s ∈ acc \/ JStr s ∈ l.
Proof.
  revert acc. induction l as [|x l IH]; intros acc; simpl; [set_solver|].
  destruct x; rewrite IH, ?elem_of_cons, ?elem_of_app, ?list_elem_of_singleton; naive_solver.
Qed.

Lemma jwt_strategy_laws a : @AuthorizationLaws Ctx (strategy a).
Proof.
  constructor. intros ctx typ id. cbn -[AllowedCloudServices]. unfold CheckAccess.
  destruct (AllowedCloudServices a ctx) as [[] l]; cbn.
  - naive_solver.
  - rewrite slices_Contains_true. naive_solver.
Qed.

(** The claims the token in the context carries, if it can be read. *)
Definition claims_of (ctx : option Ctx) : option MapClaims :=
  match ctx with
  | None => None
  | Some ctx => match AuthFromMD ctx "bearer" with
                | Err _ => None
                | OK token => match ParseUnverified (Ctx := Ctx) token with OK c => Some c | Err _ => None end
                end
  end.

(** AuthorizationStrategyJWT grants a request exactly when the token's claims
    can be read and either the allow-all claim is the boolean [true] or the
    cloud service id is a string element of the array claim; an absent context,
    an unreadable token, and a claim of another type grant nothing. *)
Theorem jwt_check_access (a : AuthorizationStrategyJWT) (ctx : option Ctx) typ id :
  CheckAccess a ctx typ id = true <->
  exists claims, claims_of ctx = Some claims /\
    (claims !! AllowAllKey a = Some (JBool true) \/
     exists l, claims !! CloudServicesKey a = Some (JArr l) /\ JStr id ∈ l).
Proof.
  unfold CheckAccess, AllowedCloudServices, claims_of.
  assert (Hmt : slices_Contains (@nil string) id = true <-> False) by done.
  destruct ctx as [ctx|]; [|rewrite Hmt; naive_solver].
  destruct (AuthFromMD ctx "bearer") as [token|]; [|rewrite Hmt; naive_solver].
  destruct (ParseUnverified token) as [claims|]; [|rewrite Hmt; naive_solver].
  assert (Hl : forall l, slices_Contains (string_items l []) id = true <-> JStr id ∈ l).
  { intros l. rewrite slices_Contains_true, string_items_spec. set_solver. }
  destruct (claims !! AllowAllKey a) as [[|[]| | | |]|] eqn:E1,
    (claims !! CloudServicesKey a) as [[| | | | |]|] eqn:E2;
    rewrite ?Hl, ?Hmt; (split; [try done; by eauto 8|]);
    intros (c & Hc & Hd); simplify_eq; destruct Hd as [Hd|(? & Hd & ?)]; rewrite ?E1, ?E2 in Hd; by simplify_eq.
Qed.
End Strategy.
End JWT.

(** ** AuthorizationStrategyAllowAll *)

Module AllowAll.
Section Strategy.
Context {Ctx : Type}.

Definition CheckAccess (_ : option Ctx) (_ : RequestType) (_ : string) : bool := true.
Definition AllowedCloudServices (_ : option Ctx) : bool * list string := (true, []).

Definition strategy : AuthorizationStrategy Ctx := {|
  Authz.CheckAccess := CheckAccess;
  Authz.AllowedCloudServices := AllowedCloudServices;
|}.

Lemma allow_all_strategy_laws : @AuthorizationLaws Ctx strategy.
Proof. constructor. intros. cbn. naive_solver. Qed.
End Strategy.
End AllowAll.

(** ** Validation *)

Definition ErrInvalidRequest : error := EText "invalid request".
Definition ErrEmptyRequest : error := EText "empty request".

(** protovalidate's [validator.Validate(req)]: the text of the violations. *)
Class Validator (R : Type) := violations : R -> option string.

(** [Validate(req)]; a nil request is [None]. *)
Definition Validate {R} `{Validator R} (req : option R) : option error :=
  match req with
  | None => Some (EStatus codes_InvalidArgument (Error ErrEmptyRequest))
  | Some r => match violations r with
              | Some v => Some (EStatus codes_InvalidArgument (Error ErrInvalidRequest +:+ ": " +:+ v))
              | None => None
              end
  end.

(** A rule that protovalidate enforces on a message. *)
Class Rule (R : Type) `{Validator R} (P : R -> Prop) : Prop :=
  rule : forall r, violations r = None -> P r.

Section ValidateFacts.
Context {R : Type} `{Validator R}.

Lemma Validate_None (req : option R) :
  Validate req = None <-> exists r, req = Some r /\ violations r = None.
Proof. unfold Validate. destruct req as [r|]; [destruct (violations r) eqn:E|]; naive_solver. Qed.

Lemma Validate_Some (req : option R) e :
  Validate req = Some e -> exists m, e = EStatus codes_InvalidArgument m.
Proof. unfold Validate. destruct req as [r|]; [destruct (violations r)|]; naive_solver. Qed.
End ValidateFacts.

(** [err = api.Validate(req); if err != nil { return nil, err }; k], giving [k]
    the request behind the pointer. *)
Definition with_valid {W R B} `{Validator R} (req : option R) (k : R -> Go W (res B)) : Go W (res B) :=
  match Validate req with
  | Some e => gerr e
  | None => match req with Some r => k r | None => gpanic end
  end.

Notation "'valid' r 'from' req ;; k" := (with_valid req (fun r => k))
  (at level 98, r name, req at next level, right associativity) : go_scope.

Lemma with_valid_nil {W R B} `{Validator R} (k : R -> Go W (res B)) w :
  with_valid None k w = (Returned (Err (EStatus codes_InvalidArgument "empty request")), w).
Proof. reflexivity. Qed.

(** Either the request is rejected with InvalidArgument before anything else
    happens, or it satisfies protovalidate's rules and the handler continues. *)
Lemma with_valid_run {W R B} `{Validator R} (req : option R) (k : R -> Go W (res B)) w :
  (exists m, with_valid req k w = (Returned (Err (EStatus codes_InvalidArgument m)), w) /\
     forall r, req = Some r -> violations r <> None) \/
  (exists r, req = Some r /\ violations r = None /\ with_valid req k w = k r w).
Proof.
  unfold with_valid. destruct (Validate req) as [e|] eqn:E.
  - left. destruct (Validate_Some _ _ E) as [m ->]. exists m. split; [done|]. intros r -> Hv.
    by rewrite (proj2 (Validate_None (Some r))) in E by eauto.
  - right. apply Validate_None in E as (r & -> & Hv). by exists r.
Qed.

(** Split the run of a handler at its validation step: the rejected request, and
    the valid request [r] with the rest of the handler. *)
Tactic Notation "run_valid" "as" ident(r) ident(Hv) :=
  match goal with
  | |- context [with_valid ?req ?k ?w] =>
      let m := fresh "m" in let Hm := fresh "Hm" in let Hrun := fresh "Hrun" in
      let Heq := fresh "Heq" in let Hrej := fresh "Hrej" in
      destruct (with_valid_run req k w) as [(m & Hm & Hrej)|(r & Heq & Hv & Hrun)];
      [rewrite Hm; clear Hm
      |rewrite Hrun; clear Hrun; cbv beta;
       first [is_var req; subst req | injection Heq as Heq; subst r]]
  end.
