(* ===== verification/Pagination.v ===== *)
(** api/pagination.go and service/paginate.go: page tokens, the pagination of
    slices and of stored rows, and the client loop that fetches all pages.

    A page token is a protobuf message in URL-safe base64.  The protobuf codec is
    third party ([TokenCodec], with its documented behaviour in
    [TokenCodecLaws]); base64 is Go's standard library and is written out. *)

From Stdlib Require Import Ascii.
From S2P Require Import Prelude GoRuntime GoStrings Util Api Sql Storage Gorm MemDB.

(** ** encoding/base64, URLEncoding *)

Module Base64.
(** A group of six bits, most significant first. *)
Inductive sextet := Sx (b5 b4 b3 b2 b1 b0 : bool).

Definition alphabet : list ascii :=
  String.list_ascii_of_string "ABCDEFGHIJKLMNOPQRSTUVWXYZabcdefghijklmnopqrstuvwxyz0123456789-_".

Definition sx_index (s : sextet) : nat :=
  let '(Sx b5 b4 b3 b2 b1 b0) := s in
  let v (b : bool) n := if b then n else 0 in
  v b5 32 + v b4 16 + v b3 8 + v b2 4 + v b1 2 + v b0 1.

Definition sx_of_index (n : nat) : sextet :=
  let t k := N.testbit (N.of_nat n) k in Sx (t 5%N) (t 4%N) (t 3%N) (t 2%N) (t 1%N) (t 0%N).

(** The character of a group, and the decode map. *)
Definition sx_char (s : sextet) : ascii := nth (sx_index s) alphabet "="%char.

Definition decodeMap (c : ascii) : option sextet :=
  match list_find (fun a => a = c) alphabet with Some (n, _) => Some (sx_of_index n) | None => None end.

(** Three bytes are four groups; the last groups of a shorter tail are filled
    with zero bits. *)
Definition group1 (a : ascii) : sextet := let '(Ascii _ _ a2 a3 a4 a5 a6 a7) := a in Sx a7 a6 a5 a4 a3 a2.
Definition group2 (a b : ascii) : sextet :=
  let '(Ascii a0 a1 _ _ _ _ _ _) := a in let '(Ascii _ _ _ _ b4 b5 b6 b7) := b in Sx a1 a0 b7 b6 b5 b4.
Definition group3 (b c : ascii) : sextet :=
  let '(Ascii b0 b1 b2 b3 _ _ _ _) := b in let '(Ascii _ _ _ _ _ _ c6 c7) := c in Sx b3 b2 b1 b0 c7 c6.
Definition group4 (c : ascii) : sextet := let '(Ascii c0 c1 c2 c3 c4 c5 _ _) := c in Sx c5 c4 c3 c2 c1 c0.

Definition byte1 (s1 s2 : sextet) : ascii :=
  let '(Sx a7 a6 a5 a4 a3 a2) := s1 in let '(Sx a1 a0 _ _ _ _) := s2 in Ascii a0 a1 a2 a3 a4 a5 a6 a7.
Definition byte2 (s2 s3 : sextet) : ascii :=
  let '(Sx _ _ b7 b6 b5 b4) := s2 in let '(Sx b3 b2 b1 b0 _ _) := s3 in Ascii b0 b1 b2 b3 b4 b5 b6 b7.
Definition byte3 (s3 s4 : sextet) : ascii :=
  let '(Sx _ _ _ _ c7 c6) := s3 in let '(Sx c5 c4 c3 c2 c1 c0) := s4 in Ascii c0 c1 c2 c3 c4 c5 c6 c7.

Fixpoint encode (l : list ascii) : list ascii :=
  match l with
  | [] => []
  | [a] => [sx_char (group1 a); sx_char (group2 a "000"%char); "="%char; "="%char]
  | [a; b] => [sx_char (group1 a); sx_char (group2 a b); sx_char (group3 b "000"%char); "="%char]
  | a :: b :: c :: l =>
      sx_char (group1 a) :: sx_char (group2 a b) :: sx_char (group3 b c) :: sx_char (group4 c) :: encode l
  end.

(** Padding is only accepted in the last group, and is then required. *)
Fixpoint decode (l : list ascii) : option (list ascii) :=
  match l with
  | [] => Some []
  | c1 :: c2 :: c3 :: c4 :: rest =>
      match decodeMap c1, decodeMap c2 with
      | Some s1, Some s2 =>
          match decodeMap c3 with
          | Some s3 =>
              match decodeMap c4 with
              | Some s4 => match decode rest with
                           | Some bs => Some (byte1 s1 s2 :: byte2 s2 s3 :: byte3 s3 s4 :: bs)
                           | None => None
                           end
              | None => if bool_decide (c4 = "="%char) && bool_decide (rest = [])
                        then Some [byte1 s1 s2; byte2 s2 s3] else None
              end
          | None => if bool_decide (c3 = "="%char) && bool_decide (c4 = "="%char) && bool_decide (rest = [])
                    then Some [byte1 s1 s2] else None
          end
      | _, _ => None
      end
  | _ => None
  end.

Definition newline (c : ascii) : bool := bool_decide (c = "010"%char) || bool_decide (c = "013"%char).

Definition EncodeToString (b : string) : string :=
  String.string_of_list_ascii (encode (String.list_ascii_of_string b)).

(** [DecodeString]: line breaks are skipped.  The offset in the error text is not kept. *)
Definition DecodeString (s : string) : res string :=
  match decode (filter (fun c => newline c = false) (String.list_ascii_of_string s)) with
  | Some b => OK (String.string_of_list_ascii b)
  | None => Err (EText "illegal base64 data")
  end.

Lemma decodeMap_char s : decodeMap (sx_char s) = Some s.
Proof. destruct s as [[] [] [] [] [] []]; vm_compute; reflexivity. Qed.

Lemma char_not_newline s : newline (sx_char s) = false.
Proof. destruct s as [[] [] [] [] [] []]; vm_compute; reflexivity. Qed.

Lemma decodeMap_pad : decodeMap "="%char = None.
Proof. reflexivity. Qed.

Lemma bytes_of_groups a b c :
  byte1 (group1 a) (group2 a b) = a /\ byte2 (group2 a b) (group3 b c) = b /\
  byte3 (group3 b c) (group4 c) = c.
Proof. by destruct a, b, c. Qed.

(** Induction in steps of three bytes. *)
Lemma triple_ind (P : list ascii -> Prop) :
  P [] -> (forall a, P [a]) -> (forall a b, P [a; b]) ->
  (forall a b c l, P l -> P (a :: b :: c :: l)) -> forall l, P l.
Proof.
  intros H0 H1 H2 H3. fix IH 1. intros [|a [|b [|c l]]]; [done..|]. apply H3, IH.
Qed.

Lemma decode_encode l : decode (encode l) = Some l.
Proof.
  induction l as [|a|a b|a b c l IH] using triple_ind; [done|..];
    cbn [encode decode]; rewrite !decodeMap_char, ?decodeMap_pad; try (by destruct a; try destruct b).
  rewrite IH. destruct (bytes_of_groups a b c) as (-> & -> & ->). done.
Qed.

Lemma encode_no_newline l : Forall (fun c => newline c = false) (encode l).
Proof.
  induction l as [|a|a b|a b c l IH] using triple_ind; cbn [encode];
    repeat constructor; auto using char_not_newline.
Qed.

Lemma decode_encode_string b : DecodeString (EncodeToString b) = OK b.
Proof.
  unfold DecodeString, EncodeToString. rewrite String.list_ascii_of_string_of_list_ascii.
  rewrite filter_Forall_id by (apply encode_no_newline).
  by rewrite decode_encode, String.string_of_list_ascii_of_string.
Qed.

Lemma EncodeToString_empty b : EncodeToString b = "" -> b = "".
Proof.
  intros H. pose proof (decode_encode_string b) as D. rewrite H in D. by injection D.
Qed.
End Base64.

(** ** Machine integers *)

Definition wrap64 (z : Z) : Z := ((z + 2 ^ 63) mod 2 ^ 64 - 2 ^ 63)%Z.
Definition int32 (z : Z) : bool := bool_decide (-2 ^ 31 <= z < 2 ^ 31)%Z.
Definition int64 (z : Z) : bool := bool_decide (-2 ^ 63 <= z < 2 ^ 63)%Z.

Lemma wrap64_small z : int64 z = true -> wrap64 z = z.
Proof.
  unfold int64, wrap64. rewrite bool_decide_eq_true. intros H.
  rewrite Z.mod_small; lia.
Qed.

Lemma wrap64_range z : int64 (wrap64 z) = true.
Proof.
  unfold int64, wrap64. apply bool_decide_eq_true.
  pose proof (Z.mod_pos_bound (z + 2 ^ 63) (2 ^ 64)). lia.
Qed.

(** ** Page tokens *)

(** [proto.Marshal] and [proto.Unmarshal] of a page token. *)
Class TokenCodec := {
  proto_Marshal : PageToken -> res string;
  proto_Unmarshal : string -> res PageToken;
}.

Definition token_in_range (t : PageToken) : bool :=
  int64 (PageToken_Start t) && int32 (PageToken_Size t).

(** Messages with valid fields are encoded, decoding inverts encoding, and no
    bytes are the message with default values. *)
Class TokenCodecLaws `{TokenCodec} : Prop := {
  marshal_total : forall t, token_in_range t = true -> exists b, proto_Marshal t = OK b;
  unmarshal_marshal : forall t b, token_in_range t = true -> proto_Marshal t = OK b -> proto_Unmarshal b = OK t;
  unmarshal_empty : proto_Unmarshal "" = OK (mkPageToken 0 0);
}.

Section Token.
Context `{TokenCodec}.

Definition Encode (t : PageToken) : res string :=
  match proto_Marshal t with
  | Err e => Err (EWrap "error while marshaling protobuf message" e)
  | OK b => OK (Base64.EncodeToString b)
  end.

Definition DecodePageToken (b64token : string) : res PageToken :=
  match Base64.DecodeString b64token with
  | Err e => Err (EWrap "error while decoding base64 token" e)
  | OK b => match proto_Unmarshal b with
            | Err e => Err (EWrap "error while unmarshalling protobuf message" e)
            | OK t => OK t
            end
  end.
End Token.

(** ** Pagination *)

Record PaginationOpts := mkPaginationOpts { DefaultPageSize : Z; MaxPageSize : Z }.

Definition DefaultPaginationOpts : PaginationOpts := mkPaginationOpts 50 1500.

(** The clamping of the requested page size. *)
Definition page_size (opts : PaginationOpts) (requested : Z) : Z :=
  if bool_decide (requested = 0%Z) then DefaultPageSize opts
  else if bool_decide (MaxPageSize opts < requested)%Z then MaxPageSize opts
  else requested.

Section Paginate.
Context {W A : Type} `{TokenCodec}.

Definition paginate (req : PaginatedRequest) (opts : PaginationOpts)
    (pager : Z -> Z -> Go W (res (list A * bool))) : Go W (res (list A * string)) :=
  let size := page_size opts (GetPageSize req) in
  let token := if bool_decide (GetPageToken req = "") then OK (mkPageToken 0 size)
               else DecodePageToken (GetPageToken req) in
  match token with
  | Err e => gerr (EWrap "could not decode page token" e)
  | OK token =>
      p <-? pager (PageToken_Start token) size ! id ;;
      let '(page, done) := p in
      if done : bool then gok (page, "")
      else let token := mkPageToken (wrap64 (PageToken_Start token + Z.of_nat (length page)))
                                    (PageToken_Size token) in
           match Encode token with
           | Err e => gerr (EWrap "could not create page token" e)
           | OK npt => gok (page, npt)
           end
  end.

(** [values[start:end]], which panics out of bounds. *)
Definition slice_expr (l : list A) (start end_ : Z) : Go W (list A) :=
  if bool_decide (0 <= start /\ start <= end_ /\ end_ <= Z.of_nat (length l))%Z
  then gret (take (Z.to_nat (end_ - start)) (drop (Z.to_nat start) l)) else gpanic.

(** [PaginateSlice], with the order [sort.Slice] puts the values in. *)
Definition PaginateSlice (req : PaginatedRequest) (values : list A)
    (sort_Slice : list A -> list A) (opts : PaginationOpts) : Go W (res (list A * string)) :=
  let values := sort_Slice values in
  paginate req opts (fun start size =>
    let end_ := wrap64 (start + size) in
    let max := Z.of_nat (length values) in
    let '(end_, done) := if bool_decide (max <= end_)%Z then (max, true) else (end_, false) in
    page <- slice_expr values start end_ ;;
    gok (page, done)).
End Paginate.

Section Stored.
Context {DB S T : Type} `{Storage DB, TokenCodec}.

Definition storage_pager t (req : PaginatedRequest) (conds : list any) (start size : Z)
  : Go (World DB S T) (res (list (row t) * bool)) :=
  page <-? storage_List t (GetOrderBy req) (GetAsc req) start size conds ! EWrap "database error" ;;
  gok (page, bool_decide (length page = 0) || bool_decide (Z.of_nat (length page) < size)%Z).

Definition PaginateStorage t (req : PaginatedRequest) (opts : PaginationOpts) (conds : list any)
  : Go (World DB S T) (res (list (row t) * string)) :=
  paginate req opts (storage_pager t req conds).
End Stored.

(** ** ListAllPaginated *)

Section ListAll.
Context {W R P A : Type} (set_page_token : string -> R -> R) (GetNextPageToken : P -> string).

(** The loop, with the results and the page token it carries, for at most [fuel]
    calls. *)
Fixpoint list_all_loop (fuel : nat) (req : R) (list_ : R -> Go W (res P)) (getter : P -> list A)
    (results : list A) (pageToken : string) : Go W (res (list A)) :=
  match fuel with
  | 0 => gfuel
  | Datatypes.S fuel =>
      let req := set_page_token pageToken req in
      res <-? list_ req ! id ;;
      let results := results ++ getter res in
      let pageToken := GetNextPageToken res in
      if bool_decide (pageToken = "") then gok results
      else list_all_loop fuel req list_ getter results pageToken
  end.

Definition ListAllPaginated (fuel : nat) (req : R) (list_ : R -> Go W (res P)) (getter : P -> list A)
  : Go W (res (list A)) :=
  list_all_loop fuel req list_ getter [] "".
End ListAll.

(** ** Facts *)

(** A list call that answers everything on one page is called once. *)
Lemma list_all_one_page {W R P A} set_tok (tok : P -> string) fuel (req : R) (list_ : R -> Go W (res P))
    (getter : P -> list A) w w' r :
  0 < fuel -> list_ (set_tok "" req) w = (Returned r, w') -> (forall p, r = OK p -> tok p = "") ->
  ListAllPaginated set_tok tok fuel req list_ getter w
  = (Returned (match r with OK p => OK (getter p) | Err e => Err e end), w').
Proof.
  intros Hf Hl Ht. destruct fuel as [|fuel]; [lia|]. unfold ListAllPaginated. cbn [list_all_loop].
  unfold gtry, gbind. rewrite Hl. destruct r as [p|e]; [|done].
  by rewrite bool_decide_eq_true_2 by auto.
Qed.

Section TokenFacts.
Context `{TokenCodecLaws}.

Lemma encode_decode t : token_in_range t = true ->
  exists s, Encode t = OK s /\ DecodePageToken s = OK t /\ (s = "" -> t = mkPageToken 0 0).
Proof.
  intros Ht. destruct (marshal_total t Ht) as [b Hb]. pose proof (unmarshal_marshal t b Ht Hb) as Hu.
  exists (Base64.EncodeToString b). unfold Encode, DecodePageToken.
  rewrite Hb, Base64.decode_encode_string, Hu. split_and!; [done..|].
  intros ->%Base64.EncodeToString_empty. rewrite unmarshal_empty in Hu. congruence.
Qed.

(** Decoding the text of an encoded page token gives the token back; the text is
    empty only for the token at position 0 with size 0, so the token of a next
    page is never mistaken for "no more pages". *)
Theorem page_token_roundtrip (t : PageToken) :
  token_in_range t = true ->
  exists s, Encode t = OK s /\ DecodePageToken s = OK t /\
            (s = "" -> PageToken_Start t = 0%Z /\ PageToken_Size t = 0%Z).
Proof.
  intros (s & He & Hd & Hz)%encode_decode. exists s. split_and!; [done..|]. by intros ->%Hz.
Qed.
End TokenFacts.

(** The page size handed to the database never exceeds the maximum, is the
    default when none is requested, and is otherwise the requested one. *)
Theorem page_size_clamped (opts : PaginationOpts) (n : Z) :
  (DefaultPageSize opts <= MaxPageSize opts)%Z ->
  (page_size opts n <= MaxPageSize opts)%Z /\
  (n = 0%Z -> page_size opts n = DefaultPageSize opts) /\
  (n <> 0%Z -> page_size opts n = Z.min n (MaxPageSize opts)).
Proof. intros. unfold page_size. repeat case_bool_decide; lia. Qed.

(** The position a page starts at, as the client's token says. *)
Definition token_start `{TokenCodec} (req : PaginatedRequest) : res Z :=
  if bool_decide (GetPageToken req = "") then OK 0%Z
  else match DecodePageToken (GetPageToken req) with OK t => OK (PageToken_Start t) | Err e => Err e end.

(** [page] is the page of [l] that the request asks for. *)
Definition page_of {A} `{TokenCodec} (req : PaginatedRequest) (opts : PaginationOpts) (l page : list A) : Prop :=
  forall start, token_start req = OK start -> (0 <= start)%Z -> (0 <= page_size opts (GetPageSize req))%Z ->
    page = take (Z.to_nat (page_size opts (GetPageSize req))) (drop (Z.to_nat start) l).

Section StoredFacts.
Context {DB S T : Type} `{StorageLaws DB, TokenCodec}.
Implicit Types w : World DB S T.

(** The only reasons for which a page is refused: the client's token cannot be
    decoded, the database fails, or the next token cannot be encoded. *)
Definition page_refused t (req : PaginatedRequest) (conds : list any) (db : DB) : Prop :=
  (exists e, GetPageToken req <> "" /\ DecodePageToken (GetPageToken req) = Err e) \/
  (exists off lim e, st_List t (GetOrderBy req) (GetAsc req) off lim conds db = Err e) \/
  (exists token e, Encode token = Err e).

(** What a handler that paginates a query can return: rows of the enumeration,
    or an error; it never changes anything and never panics. *)
Lemma PaginateStorage_run t req opts conds w :
  (exists e, PaginateStorage t req opts conds w = (Returned (Err e), w) /\ page_refused t req conds (w_db w)) \/
  (exists page npt, PaginateStorage t req opts conds w = (Returned (OK (page, npt)), w) /\
     forall r, r ∈ page -> r ∈ enumerate t (GetOrderBy req) (GetAsc req) conds (w_db w)).
Proof.
  unfold PaginateStorage, paginate, storage_pager, page_refused. db_unfold. go_unfold.
  destruct (if bool_decide _ then _ else _) as [token|e] eqn:Et.
  2: { left. eexists. split; [done|]. left. exists e. case_bool_decide; done. }
  destruct (st_List _ _ _ _ _ _ _) as [page|e] eqn:El; [|left; eexists; split; [done|]; eauto 8].
  destruct (_ || _); [right; do 2 eexists; split; [done|]; eauto using list_sound|].
  destruct (Encode _) eqn:Ee; [right; do 2 eexists; split; [done|]; eauto using list_sound|left; eexists; split; [done|]; eauto 8].
Qed.

(** The rows of a page are the window of the enumeration that the client's token
    and page size ask for. *)
Lemma PaginateStorage_window t req opts conds w page npt w' :
  PaginateStorage t req opts conds w = (Returned (OK (page, npt)), w') ->
  page_of req opts (enumerate t (GetOrderBy req) (GetAsc req) conds (w_db w)) page.
Proof.
  unfold PaginateStorage, paginate, storage_pager, page_of, token_start. db_unfold. go_unfold.
  intros Hrun start Hs Hpos Hsize.
  destruct (if bool_decide _ then _ else _) as [token|e] eqn:Et in Hrun; [|done].
  assert (Hst : PageToken_Start token = start).
  { destruct (bool_decide _); [by simplify_eq|]. rewrite Et in Hs. by simplify_eq. }
  destruct (st_List _ _ _ _ _ _ _) as [l|e] eqn:El; [|done]. rewrite Hst in El.
  assert (Hl : l = page) by (destruct (_ || _); [by simplify_eq|]; destruct (Encode _); by simplify_eq).
  subst l. apply list_ok in El; [|lia..]. by rewrite bool_decide_eq_false_2 in El by lia.
Qed.
End StoredFacts.

Section AllPages.
Context {DB S T : Type} `{StorageLaws DB, !TokenCodec, !TokenCodecLaws}.
Context (t : table) (opts : PaginationOpts) (conds : list any) (w : World DB S T).
Context (req : PaginatedRequest).
Abbreviation all := (enumerate t (GetOrderBy req) (GetAsc req) conds (w_db w)).
Abbreviation size := (page_size opts (GetPageSize req)).

(** A list call backed by the database, and the request with its page token set. *)
Definition list_stored (req : PaginatedRequest) : Go (World DB S T) (res (Page (row t))) :=
  p <-? PaginateStorage t req opts conds ! id ;;
  gok (mkPage (fst p) (snd p)).

Definition with_page_token (tok : string) (r : PaginatedRequest) : PaginatedRequest :=
  mkPaging (GetPageSize r) tok (GetOrderBy r) (GetAsc r).

Hypothesis Hsize : (0 < size < 2 ^ 31)%Z.
Hypothesis Hlen : (Z.of_nat (length all) < 2 ^ 62)%Z.
Hypothesis Hok : forall off lim, exists l, st_List t (GetOrderBy req) (GetAsc req) off lim conds (w_db w) = OK l.

(** The page that starts at position [k]. *)
Definition token_at (k : nat) (s : string) : Prop :=
  if bool_decide (s = "") then k = 0 else DecodePageToken s = OK (mkPageToken (Z.of_nat k) size).

Lemma page_at k s : k <= length all -> token_at k s ->
  exists npt, list_stored (with_page_token s req) w
    = (Returned (OK (mkPage (take (Z.to_nat size) (drop k all)) npt)), w) /\
    ((npt = "" /\ length all < k + Z.to_nat size) \/
     (npt <> "" /\ token_at (k + Z.to_nat size) npt /\ k + Z.to_nat size <= length all)).
Proof.
  intros Hk Htok. unfold list_stored, PaginateStorage, paginate, storage_pager. db_unfold.
  assert (Htoken : (if bool_decide (s = "") then OK (mkPageToken 0 size) else DecodePageToken s)
                   = OK (mkPageToken (Z.of_nat k) size)).
  { unfold token_at in Htok. case_bool_decide; [by subst|done]. }
  go_unfold. rewrite Htoken. simpl. destruct (Hok (Z.of_nat k) size) as [l El]. rewrite El.
  pose proof (list_ok _ _ _ _ _ _ _ _ El ltac:(lia) ltac:(lia)) as Hl.
  rewrite bool_decide_eq_false_2, Nat2Z.id in Hl by lia. subst l.
  set (page := take _ _). assert (Hlp : length page = Nat.min (Z.to_nat size) (length all - k)).
  { unfold page. by rewrite length_take, length_drop. }
  destruct (bool_decide _ || bool_decide _) eqn:Ed.
  - exists "". split; [done|]. left. split; [done|].
    apply orb_true_iff in Ed as [Ed|Ed]; apply bool_decide_eq_true in Ed; lia.
  - apply orb_false_iff in Ed as [Ed1 Ed2]. apply bool_decide_eq_false in Ed1, Ed2.
    assert (Hn : length page = Z.to_nat size) by lia. rewrite wrap64_small.
    2: { unfold int64. apply bool_decide_eq_true. lia. }
    destruct (encode_decode (mkPageToken (Z.of_nat k + Z.of_nat (length page)) size)) as (npt & He & Hd & Hz).
    { unfold token_in_range, int64, int32; simpl. apply andb_true_iff; split; apply bool_decide_eq_true; lia. }
    rewrite He. exists npt. split; [done|]. right.
    assert (Hne : npt <> "") by (intros [= ]%Hz; lia). split_and!; [done| |lia].
    unfold token_at. rewrite bool_decide_eq_false_2 by done. rewrite Hd. do 2 f_equal. lia.
Qed.

Lemma list_all_loop_from fuel k s acc : k <= length all -> token_at k s -> length all - k < fuel ->
  list_all_loop with_page_token Page_NextPageToken fuel req list_stored Page_Items acc s w
  = (Returned (OK (acc ++ drop k all)), w).
Proof.
  (* the loop overwrites the token of the request, so the previous one is irrelevant *)
  enough (forall r', (forall s, with_page_token s r' = with_page_token s req) ->
    forall k s acc, k <= length all -> token_at k s -> length all - k < fuel ->
    list_all_loop with_page_token Page_NextPageToken fuel r' list_stored Page_Items acc s w
    = (Returned (OK (acc ++ drop k all)), w)) as Hgen by (apply Hgen; done).
  clear k s acc. induction fuel as [|fuel IH]; intros r' Hr' k s acc Hk Ht Hf; [lia|].
  cbn [list_all_loop]. rewrite Hr'.
  destruct (page_at k s Hk Ht) as (npt & Hp & Hcase). unfold gtry at 1, gbind at 1. rewrite Hp. cbn [Page_Items Page_NextPageToken].
  destruct Hcase as [[-> Hend] | (Hne & Htok & Hle)].
  - rewrite bool_decide_eq_true_2 by done. rewrite take_ge by (rewrite length_drop; lia). done.
  - rewrite bool_decide_eq_false_2 by done. rewrite (IH (with_page_token s req) (fun _ => eq_refl) (k + Z.to_nat size)); [|done|done|lia].
    rewrite <-app_assoc, <-drop_drop, take_drop. done.
Qed.

End AllPages.

Section SliceFacts.
Context {W A : Type} `{TokenCodec}.
Context (sort_Slice : list A -> list A) (values : list A) (opts : PaginationOpts) (req : PaginatedRequest).
Abbreviation size := (page_size opts (GetPageSize req)).
Abbreviation sorted := (sort_Slice values).

(** C40. PaginateSlice never returns anything but the window of the sorted values
    that starts at the token's position, and panics exactly when that position,
    which the client chooses, is not between 0 and the number of values (or the
    requested size is negative). *)
Theorem paginate_slice_window (start : Z) (w : W) :
  token_start req = OK start -> (size < 2 ^ 31)%Z -> (-2 ^ 31 <= size)%Z ->
  (start < 2 ^ 62)%Z -> (-2 ^ 62 <= start)%Z ->
  let n := Z.of_nat (length sorted) in
  (fst (PaginateSlice req values sort_Slice opts w) = Panicked <->
     (start < 0 \/ n < start \/ size < 0)%Z) /\
  (forall page npt w', PaginateSlice req values sort_Slice opts w = (Returned (OK (page, npt)), w') ->
     page = take (Z.to_nat size) (drop (Z.to_nat start) sorted)).
Proof.
  intros Hs Hu Hl Hsu Hsl n.
  assert (Hw : wrap64 (start + size) = (start + size)%Z).
  { apply wrap64_small. unfold int64. apply bool_decide_eq_true. lia. }
  unfold PaginateSlice, paginate, token_start in *.
  destruct (if bool_decide (GetPageToken req = "") then OK _ else DecodePageToken _) as [tok|] eqn:Et.
  2: { destruct (bool_decide _); [done|]. by rewrite Et in Hs. }
  assert (Hst : PageToken_Start tok = start).
  { destruct (bool_decide _); [by simplify_eq|]. rewrite Et in Hs. by simplify_eq. }
  unfold gtry, gbind, slice_expr. rewrite Hst, Hw. fold n.
  destruct (bool_decide (n <= start + size)%Z) eqn:Ed;
    [apply bool_decide_eq_true in Ed | apply bool_decide_eq_false in Ed];
    (destruct (bool_decide (_ /\ _ /\ _)%Z) eqn:Eb;
      [apply bool_decide_eq_true in Eb | apply bool_decide_eq_false in Eb]); cbn;
    rewrite ?Hst; try (destruct (Encode _)); cbn;
    (split; [split; [try done; lia|intros; try done; exfalso; lia]
            |intros page npt w' Heq; unfold gok, gret in Heq; simplify_eq]).
  - unfold n in *. rewrite !take_ge; [done|rewrite length_drop; lia..].
  - f_equal. lia.
Qed.
End SliceFacts.

(** ** A concrete codec and runs on the concrete database *)

Fixpoint digits (p : positive) : string :=
  match p with xH => "" | xO p => String "0" (digits p) | xI p => String "1" (digits p) end.

Fixpoint undigits (s : string) : positive :=
  match s with
  | "" => xH
  | String "0" s => xO (undigits s)
  | String _ s => xI (undigits s)
  end.

Lemma undigits_digits p : undigits (digits p) = p.
Proof. induction p; simpl; congruence. Qed.

Definition text_codec : TokenCodec := {|
  proto_Marshal := fun t =>
    OK (if bool_decide (t = mkPageToken 0 0) then ""
        else String "t" (digits (encode (PageToken_Start t, PageToken_Size t))));
  proto_Unmarshal := fun s =>
    match s with
    | "" => OK (mkPageToken 0 0)
    | String _ s => match decode (A := Z * Z) (undigits s) with
                    | Some (a, b) => OK (mkPageToken a b)
                    | None => Err (EText "proto: cannot parse")
                    end
    end;
|}.

Lemma text_codec_laws : @TokenCodecLaws text_codec.
Proof.
  constructor; [by eexists| |done]. intros [a b] s _ [= <-]. cbn -[encode decode].
  case_bool_decide; [by simplify_eq|]. by rewrite undigits_digits, decode_encode.
Qed.

Lemma page_token_roundtrip_witness :
  exists s, @Encode text_codec (mkPageToken 50 50) = OK s /\
            @DecodePageToken text_codec s = OK (mkPageToken 50 50) /\
            (s = "" -> PageToken_Start (mkPageToken 50 50) = 0%Z /\ PageToken_Size (mkPageToken 50 50) = 0%Z).
Proof. apply (@page_token_roundtrip text_codec text_codec_laws (mkPageToken 50 50)). reflexivity. Defined.

Lemma page_size_clamped_witness :
  (page_size DefaultPaginationOpts 2000 <= 1500)%Z.
Proof. apply (page_size_clamped DefaultPaginationOpts 2000). simpl. lia. Defined.

(** Five evidences, fetched two at a time. *)
Definition five_evidences : memdb :=
  mem_set T_Evidence ((fun i => mkEvidence i None "cs" "tool" None None) <$> ["a"; "b"; "c"; "d"; "e"])
    (mem_empty 0).


Lemma paginate_slice_window_witness :
  fst (@PaginateSlice unit Z text_codec (mkPaging (-1) "" "" false) [3; 1; 2]%Z id DefaultPaginationOpts tt) = Panicked.
Proof.
  refine (proj2 (proj1 (@paginate_slice_window unit Z text_codec id [3; 1; 2]%Z DefaultPaginationOpts
    (mkPaging (-1) "" "" false) 0%Z tt _ _ _ _ _)) _); vm_compute; try done; by right; right.
Defined.
