(* ===== verification/Evaluation.v ===== *)
(** service/evaluation/evaluation.go: the evaluation service.

    The service keeps the controls of the catalogs it evaluates and a scheduler
    with one job per started evaluation.  A job runs [evaluateCatalog], which
    evaluates the relevant controls, each from the assessment results of its
    sub-controls' metrics, and stores evaluation results.

    The scheduler (gocron) and the connection to the orchestrator are interfaces
    ([Gocron], [OrchestratorClient]); goroutines of an errgroup run in any order
    ([Schedule]). *)

From S2P Require Import Prelude GoRuntime GoStrings Util Api Sql Storage Gorm MemDB Authz Pagination.

(** ** Errors *)

Definition ErrCatalogIdIsMissing : error := EText "catalog_id is missing".
Definition ErrCategoryNameIsMissing : error := EText "category_name is missing".
Definition ErrControlIdIsMissing : error := EText "control_id is missing".
Definition ErrControlNotAvailable : error := EText "control not available".

Definition defaultInterval : Z := 5.

(** ** Interfaces *)

(** A scheduled call [svc.evaluateCatalog(ctx, toe, catalog, interval)], with its
    tags. *)
Record Job := mkJob {
  job_tags : list string;
  job_interval : Z;
  job_toe : TargetOfEvaluation;
  job_catalog : Catalog;
}.

(** gocron.ErrJobNotFoundWithTag *)
Definition ErrJobNotFoundWithTag : error := EText "no jobs found with given tag".

(** The scheduler calls the service makes.  [gc_Every] is the whole chain
    [Every(interval).Minute().Tag(tags...).Do(f, args...)]. *)
Class Gocron (Sch : Type) := {
  gc_StartAsync : Sch -> Sch;
  gc_FindJobsByTag : list string -> Sch -> res (list Job);
  gc_RemoveByTags : list string -> Sch -> option error * Sch;
  gc_Every : Job -> Sch -> option error * Sch;
}.

(** The jobs a scheduler holds, and gocron's documentation of the calls. *)
Class GocronLaws (Sch : Type) `{Gocron Sch} := {
  gc_jobs : Sch -> list Job;
  gc_start_jobs : forall s, gc_jobs (gc_StartAsync s) = gc_jobs s;
  gc_find_ok : forall tags s l, gc_FindJobsByTag tags s = OK l ->
    l = filter (fun j => tags ⊆ job_tags j) (gc_jobs s);
  gc_find_none : forall tags s e, gc_FindJobsByTag tags s = Err e ->
    errors_Is e ErrJobNotFoundWithTag = true -> filter (fun j => tags ⊆ job_tags j) (gc_jobs s) = [];
  gc_remove_ok : forall tags s s', gc_RemoveByTags tags s = (None, s') ->
    gc_jobs s' = filter (fun j => ~ tags ⊆ job_tags j) (gc_jobs s);
  gc_remove_err : forall tags s e s', gc_RemoveByTags tags s = (Some e, s') -> gc_jobs s' = gc_jobs s;
  gc_every_ok : forall j s s', gc_Every j s = (None, s') -> gc_jobs s' ≡ₚ j :: gc_jobs s;
  gc_every_err : forall j s e s', gc_Every j s = (Some e, s') -> gc_jobs s' = gc_jobs s;
}.

(** The orchestrator's RPCs the service calls; the first argument is the moment
    of the call. *)
Class OrchestratorClient := {
  oc_ListAssessmentResults : nat -> ListAssessmentResultsRequest -> res (Page AssessmentResult);
  oc_ListControls : nat -> ListControlsRequest -> res (Page Control);
  oc_GetTargetOfEvaluation : nat -> string -> string -> res TargetOfEvaluation;
  oc_GetCatalog : nat -> string -> res Catalog;
}.

(** ** State *)

Record EvaluationService (Sch : Type) := mkEvaluationService {
  catalogControls : gmap string (gmap string Control);
  scheduler : Sch;
}.
Arguments mkEvaluationService {Sch}.
Arguments catalogControls {Sch}.
Arguments scheduler {Sch}.

(** The requests with their page token set (protoreflect's [m.Set]). *)
Definition set_token_assessment (tok : string) (r : ListAssessmentResultsRequest) : ListAssessmentResultsRequest :=
  mkListAssessmentResultsRequest (ListAssessmentResults_Filter r) (ListAssessmentResults_LatestByResourceId r)
    (with_page_token tok (ListAssessmentResults_Paging r)).
Definition set_token_controls (tok : string) (r : ListControlsRequest) : ListControlsRequest :=
  mkListControlsRequest (ListControls_CatalogId r) (ListControls_CategoryName r) (ListControls_AssuranceLevels r)
    (with_page_token tok (ListControls_Paging r)).
Definition set_token_evaluation (tok : string) (r : ListEvaluationResultsRequest) : ListEvaluationResultsRequest :=
  mkListEvaluationResultsRequest (ListEvaluationResults_Filter r) (ListEvaluationResults_LatestByControlId r)
    (with_page_token tok (ListEvaluationResults_Paging r)).

Definition no_paging : PaginatedRequest := mkPaging 0 "" "" false.

(** [getMetricIds] *)
Fixpoint getMetricIds (metrics : list Metric) : list string :=
  match metrics with [] => [] | m :: metrics => Metric_Id m :: getMetricIds metrics end.

(** The key of a control in the cache. *)
Definition control_tag (categoryName controlId : string) : string := categoryName +:+ "-" +:+ controlId.

(** [values(m)], in the order of the map's elements (Go's is arbitrary). *)
Definition values (m : gmap string Control) : list Control := snd <$> map_to_list m.

(** [slices.SortFunc(controls, strings.Compare on Id)] *)
Definition id_le (a b : Control) : Prop := strings_le (Control_Id a) (Control_Id b) = true.
#[global] Instance id_le_dec : RelDecision id_le.
Proof. intros a b. unfold id_le. apply _. Defined.
Definition sort_controls (l : list Control) : list Control := merge_sort id_le l.

Section Service.
Context {DB Sch T Ctx : Type}.
Context `{Storage DB, Gocron Sch, OrchestratorClient, AuthorizationStrategy Ctx, TokenCodec, Env, Schedule}.
Context `{Validator StartEvaluationRequest, Validator StopEvaluationRequest,
          Validator ListEvaluationResultsRequest, Validator CreateEvaluationResultRequest}.
Abbreviation W := (World DB (EvaluationService Sch) T).

(** *** The control cache *)

Definition getControl (svc : EvaluationService Sch) (catalogId categoryName controlId : string) : res Control :=
  if bool_decide (catalogId = "") then Err ErrCatalogIdIsMissing
  else if bool_decide (categoryName = "") then Err ErrCategoryNameIsMissing
  else if bool_decide (controlId = "") then Err ErrControlIdIsMissing
  else let tag := control_tag categoryName controlId in
       match catalogControls svc !! catalogId with
       | None => Err ErrControlNotAvailable
       | Some m => match m !! tag with Some c => OK c | None => Err ErrControlNotAvailable end
       end.

(** The loop of [getMetricsFromSubcontrols]. *)
Fixpoint subcontrol_metrics (svc : EvaluationService Sch) (l : list Control) (metrics : list Metric) : res (list Metric) :=
  match l with
  | [] => OK metrics
  | c :: l =>
      match getControl svc (Control_CategoryCatalogId c) (Control_CategoryName c) (Control_Id c) with
      | Err e => Err e
      | OK sub => subcontrol_metrics svc l (metrics ++ Control_Metrics sub)
      end
  end.

Definition getMetricsFromSubcontrols (svc : EvaluationService Sch) (control : option Control) : res (list Metric) :=
  match control with
  | None => Err (EText "control is missing")
  | Some control => subcontrol_metrics svc (Control_Controls control) []
  end.

Definition getAllMetricsFromControl (svc : EvaluationService Sch) (catalogId categoryName controlId : string)
  : res (list Metric) :=
  match getControl svc catalogId categoryName controlId with
  | Err e => Err (EWrap ("could not get control for control id {" +:+ controlId +:+ "}") e)
  | OK control =>
      let metrics := Control_Metrics control in
      if bool_decide (length (Control_Controls control) <> 0) then
        match getMetricsFromSubcontrols svc (Some control) with
        | Err e => Err (EWrap "error getting metrics from sub-controls" e)
        | OK sub => OK (metrics ++ sub)
        end
      else OK metrics
  end.

Definition set_controls (catalogId : string) (m : gmap string Control) (svc : EvaluationService Sch) : EvaluationService Sch :=
  mkEvaluationService (<[catalogId := m]> (catalogControls svc)) (scheduler svc).

Definition set_scheduler (s : Sch) (svc : EvaluationService Sch) : EvaluationService Sch :=
  mkEvaluationService (catalogControls svc) s.

Definition control_map (controls : list Control) : gmap string Control :=
  foldl (fun m c => <[control_tag (Control_CategoryName c) (Control_Id c) := c]> m) ∅ controls.

Definition cacheControls (fuel : nat) (catalogId : string) : Go W (res unit) :=
  require (negb (bool_decide (catalogId = ""))) else ErrCatalogIdIsMissing ;;
  controls <-? ListAllPaginated set_token_controls Page_NextPageToken fuel
                 (mkListControlsRequest catalogId "" None no_paging)
                 (fun req => remote (fun n => oc_ListControls n req)) Page_Items ! id ;;
  require (negb (bool_decide (length controls = 0)))
    else EText ("no controls for catalog '" +:+ catalogId +:+ "' available") ;;
  svc_modify (set_controls catalogId (control_map controls)) ;;;
  gok tt.

(** *** Evaluating one sub-control *)

(** The request for the latest assessment results of the metrics. *)
Definition subcontrol_request (toe : TargetOfEvaluation) (metrics : list Metric) : ListAssessmentResultsRequest :=
  mkListAssessmentResultsRequest
    (Some (mkResultFilter (Some (TargetOfEvaluation_CloudServiceId toe)) None (Some (getMetricIds metrics)) None None))
    (Some true) no_paging.

(** The loop over the assessment results: ids of the failing ones, and the status. *)
Fixpoint assess_status (l : list AssessmentResult) (acc : list string * EvaluationStatus)
  : list string * EvaluationStatus :=
  match l with
  | [] => acc
  | r :: l =>
      if negb (AssessmentResult_Compliant r)
      then assess_status l (fst acc ++ [AssessmentResult_Id r], EVALUATION_STATUS_NOT_COMPLIANT)
      else assess_status l acc
  end.

Definition evaluateSubcontrol (fuel : nat) (toe : option TargetOfEvaluation) (control : option Control)
  : Go W (res (option EvaluationResult)) :=
  match toe, control with
  | Some toe, Some control =>
      svc <- svc_read id ;;
      match getAllMetricsFromControl svc (TargetOfEvaluation_CatalogId toe)
              (Control_CategoryName control) (Control_Id control) with
      | Err e => gerr e
      | OK metrics =>
          assessments <-
            (if bool_decide (length metrics <> 0) then
               r <- ListAllPaginated set_token_assessment Page_NextPageToken fuel
                      (subcontrol_request toe metrics)
                      (fun req => remote (fun n => oc_ListAssessmentResults n req)) Page_Items ;;
               gret (match r with OK l => l | Err _ => [] end)
             else gret []) ;;
          let status := if bool_decide (length assessments = 0) then EVALUATION_STATUS_PENDING
                        else EVALUATION_STATUS_COMPLIANT in
          let '(failing, status) := assess_status assessments ([], status) in
          uid <- uuid_NewString ;;
          now <- time_Now ;;
          let eval := mkEvaluationResult uid (TargetOfEvaluation_CloudServiceId toe) (Control_Id control)
                        (Control_CategoryName control) (TargetOfEvaluation_CatalogId toe)
                        (Control_ParentControlId control) status (Some now) failing None None in
          _ <-? storage_Create T_EvaluationResult eval ! id ;;
          gok (Some eval)
      end
  | _, _ => gok None
  end.

(** *** Evaluating a control *)

Definition is_compliant (s : EvaluationStatus) : bool :=
  bool_decide (s = EVALUATION_STATUS_COMPLIANT) || bool_decide (s = EVALUATION_STATUS_COMPLIANT_MANUALLY).
Definition is_not_compliant (s : EvaluationStatus) : bool :=
  bool_decide (s = EVALUATION_STATUS_NOT_COMPLIANT) || bool_decide (s = EVALUATION_STATUS_NOT_COMPLIANT_MANUALLY).

(** One round of the loop that combines the results of the sub-controls. *)
Definition combine_status (acc : EvaluationStatus * list string) (r : EvaluationResult)
  : EvaluationStatus * list string :=
  let '(status, failing) := acc in
  if is_compliant (EvaluationResult_Status r) && negb (is_not_compliant status)
  then (EVALUATION_STATUS_COMPLIANT, failing)
  else if bool_decide (EvaluationResult_Status r = EVALUATION_STATUS_PENDING)
          && bool_decide (status = EVALUATION_STATUS_PENDING)
  then (EVALUATION_STATUS_PENDING, failing)
  else (EVALUATION_STATUS_NOT_COMPLIANT, failing ++ EvaluationResult_FailingAssessmentResultIds r).

(** The loop: [r.Status] panics on a nil entry. *)
Fixpoint combine_all (results : list (option EvaluationResult)) (acc : EvaluationStatus * list string)
  : Go W (EvaluationStatus * list string) :=
  match results with
  | [] => gret acc
  | r :: results => r <- gderef r ;; combine_all results (combine_status acc r)
  end.

(** The sub-controls to evaluate: not overridden by a manual result, and relevant. *)
Definition relevant_subcontrols (toe : TargetOfEvaluation) (catalog : Catalog) (control : Control)
    (manual : list EvaluationResult) : list Control :=
  let ignored := EvaluationResult_ControlId <$> manual in
  omap (fun sub => if slices_Contains ignored (Control_Id sub) then None
                   else if IsRelevantFor sub toe catalog then Some sub else None)
       (Control_Controls control).

Definition evaluateControl (fuel : nat) (toe : TargetOfEvaluation) (catalog : Catalog) (control : Control)
    (manual : list EvaluationResult) : Go W (res unit) :=
  let relevant := relevant_subcontrols toe catalog control manual in
  g <- errgroup relevant (fun sub => evaluateSubcontrol fuel (Some toe) (Some sub)) ;;
  let '(results, err) := g in
  match err with
  | Some e => gerr e
  | None =>
      let results := List.map (default None) results ++ List.map Some manual in
      acc <- combine_all results (EVALUATION_STATUS_PENDING, []) ;;
      let '(status, failing) := acc in
      uid <- uuid_NewString ;;
      now <- time_Now ;;
      let result := mkEvaluationResult uid (TargetOfEvaluation_CloudServiceId toe) (Control_Id control)
                      (Control_CategoryName control) (TargetOfEvaluation_CatalogId toe)
                      None status (Some now) failing None None in
      storage_Create T_EvaluationResult result
  end.

(** *** Listing results *)

(** The query, the partition columns and the arguments the handler builds. *)
Record ListQuery := mkListQuery { lq_query : list string; lq_partition : list string; lq_args : list any }.

Definition opt_cond (o : option string) (q : string) (f : string -> any) (l : ListQuery) : ListQuery :=
  match o with
  | Some x => mkListQuery (lq_query l ++ [q]) (lq_partition l) (lq_args l ++ [f x])
  | None => l
  end.

Definition manual_statuses : list Z :=
  EvaluationStatus_number <$> [EVALUATION_STATUS_COMPLIANT_MANUALLY; EVALUATION_STATUS_NOT_COMPLIANT_MANUALLY].

Definition filter_query (f : EvaluationFilter) : ListQuery :=
  let l := opt_cond (EvaluationFilter_CloudServiceId f) "cloud_service_id = ?" AStr (mkListQuery [] [] []) in
  let l := opt_cond (EvaluationFilter_CatalogId f) "control_catalog_id = ?" AStr l in
  let l := opt_cond (EvaluationFilter_ControlId f) "control_id = ?" AStr l in
  let l := match EvaluationFilter_SubControls f with
           | Some s => mkListQuery (lq_query l ++ ["control_id LIKE ?"]) (lq_partition l ++ ["control_id"])
                         (lq_args l ++ [AStr (s +:+ "%")])
           | None => l
           end in
  let l := if Deref (EvaluationFilter_ParentsOnly f)
           then mkListQuery (lq_query l ++ ["parent_control_id IS NULL"]) (lq_partition l) (lq_args l) else l in
  if Deref (EvaluationFilter_ValidManualOnly f)
  then mkListQuery
         (lq_query l ++ ["status IN ?"; "valid_until IS NULL OR valid_until >= CURRENT_TIMESTAMP"])
         (lq_partition l) (lq_args l ++ [AInts manual_statuses])
  else l.

Definition restrict_query (all : bool) (allowed : list string) (l : ListQuery) : ListQuery :=
  if all then l
  else mkListQuery (lq_query l ++ ["cloud_service_id IN ?"]) (lq_partition l) (lq_args l ++ [AStrs allowed]).

Definition latest_evaluation (l : ListQuery) : raw_query :=
  let p := match lq_partition l with [] => "" | ps => ", " +:+ strings_Join ps "," end in
  mkRaw ("control_id " +:+ p) "evaluation_results" (where_clause (lq_query l))
    " ORDER BY control_catalog_id, control_id".

Definition GetFilterCloudServiceId (f : EvaluationFilter) : string := Deref (EvaluationFilter_CloudServiceId f).

Definition ListEvaluationResults (ctx : option Ctx) (req : option ListEvaluationResultsRequest)
  : Go W (res (Page EvaluationResult)) :=
  valid req from req ;;
  let '(all, allowed) := AllowedCloudServices ctx in
  let filter_ := ListEvaluationResults_Filter req in
  require (match filter_ with
           | Some f => CheckAccess ctx AccessRead (GetFilterCloudServiceId f) | None => true end)
    else ErrPermissionDenied ;;
  let l := match filter_ with Some f => filter_query f | None => mkListQuery [] [] [] end in
  let l := restrict_query all allowed l in
  if Deref (ListEvaluationResults_LatestByControlId req) then
    results <-? storage_Raw T_EvaluationResult (latest_evaluation l) (lq_args l)
      ! (fun e => EStatus codes_Internal ("database error: " +:+ Error e)) ;;
    gok (mkPage results "")
  else
    p <-? PaginateStorage T_EvaluationResult (ListEvaluationResults_Paging req) DefaultPaginationOpts
            (AStr (strings_Join (lq_query l) " AND ") :: lq_args l)
      ! (fun e => EStatus codes_Internal
                    ("could not paginate results: " +:+ Error (EWrap "could not paginate evaluation results" e))) ;;
    gok (mkPage (fst p) (snd p)).

(** *** Manual results *)

Definition is_manual (s : EvaluationStatus) : bool :=
  bool_decide (s = EVALUATION_STATUS_COMPLIANT_MANUALLY) || bool_decide (s = EVALUATION_STATUS_NOT_COMPLIANT_MANUALLY).

Definition with_id (uid : string) (r : EvaluationResult) : EvaluationResult :=
  mkEvaluationResult uid (EvaluationResult_CloudServiceId r) (EvaluationResult_ControlId r)
    (EvaluationResult_ControlCategoryName r) (EvaluationResult_ControlCatalogId r)
    (EvaluationResult_ParentControlId r) (EvaluationResult_Status r) (EvaluationResult_Timestamp r)
    (EvaluationResult_FailingAssessmentResultIds r) (EvaluationResult_Comment r) (EvaluationResult_ValidUntil r).

Definition CreateEvaluationResult (ctx : option Ctx) (req : option CreateEvaluationResultRequest)
  : Go W (res EvaluationResult) :=
  valid req from req ;;
  result <- gderef (CreateEvaluationResult_Result req) ;;
  require (is_manual (EvaluationResult_Status result))
    else EStatus codes_InvalidArgument "only manually set statuses are allowed" ;;
  require (bool_decide (EvaluationResult_ValidUntil result <> None))
    else EStatus codes_InvalidArgument "validity must be set" ;;
  require (CheckAccess ctx AccessCreate
             (CreateEvaluationResult_GetCloudServiceId (CreateEvaluationResult_Result req)))
    else ErrPermissionDenied ;;
  uid <- uuid_NewString ;;
  let res := with_id uid result in
  _ <-? storage_Create T_EvaluationResult res
    ! (fun e => EStatus codes_Internal ("database error: " +:+ Error e)) ;;
  gok res.

(** *** Evaluating a catalog *)

(** The request for the manual results that are still valid. *)
Definition manual_request (toe : TargetOfEvaluation) : ListEvaluationResultsRequest :=
  mkListEvaluationResultsRequest
    (Some (mkEvaluationFilter (Some (TargetOfEvaluation_CloudServiceId toe))
             (Some (TargetOfEvaluation_CatalogId toe)) None None None (Some true)))
    (Some true) no_paging.

(** Manual results of sub-controls by parent control, and the ids of the
    controls that have a manual result themselves. *)
Definition gather_manual (acc : gmap string (list EvaluationResult) * list string) (r : EvaluationResult)
  : gmap string (list EvaluationResult) * list string :=
  let '(manual, ignored) := acc in
  match EvaluationResult_ParentControlId r with
  | Some p => (<[p := default [] (manual !! p) ++ [r]]> manual, ignored)
  | None => (manual, ignored ++ [EvaluationResult_ControlId r])
  end.

Definition relevant_controls (toe : TargetOfEvaluation) (catalog : Catalog) (ignored : list string)
    (controls : list Control) : list Control :=
  omap (fun c => match Control_ParentControlId c with
                 | Some _ => None
                 | None => if slices_Contains ignored (Control_Id c) then None
                           else if IsRelevantFor c toe catalog then Some c else None
                 end) controls.

(** [background] is [context.Background()], which ListAllPaginated passes on. *)
Definition evaluateCatalog (background : Ctx) (fuel : nat) (toe : TargetOfEvaluation) (catalog : Catalog)
  : Go W (res unit) :=
  svc <- svc_read id ;;
  let controls := sort_controls (values (default ∅ (catalogControls svc !! TargetOfEvaluation_CatalogId toe))) in
  results <-? ListAllPaginated set_token_evaluation Page_NextPageToken fuel (manual_request toe)
                (fun req => ListEvaluationResults (Some background) (Some req)) Page_Items ! id ;;
  let '(manual, ignored) := foldl gather_manual (∅, []) results in
  let relevant := relevant_controls toe catalog ignored controls in
  g <- errgroup relevant (fun control =>
         evaluateControl fuel toe catalog control (default [] (manual !! Control_Id control))) ;;
  match snd g with Some e => gerr e | None => gok tt end.

(** *** Starting and stopping *)

Definition addJobToScheduler (toe : option TargetOfEvaluation) (catalog : Catalog) (interval : Z)
  : Go W (res unit) :=
  let err := if bool_decide (interval = 0%Z) then Some (EText "interval is invalid")
             else match toe with None => Some (EText "target of evaluation is invalid") | Some _ => None end in
  match err, toe with
  | Some e, _ => gerr (EStatus codes_Internal ("evaluation cannot be scheduled: " +:+ Error e))
  | None, None => gpanic
  | None, Some toe =>
      svc <- svc_read id ;;
      let tags := [TargetOfEvaluation_CloudServiceId toe; TargetOfEvaluation_CatalogId toe] in
      let '(e, s) := gc_Every (mkJob tags interval toe catalog) (scheduler svc) in
      svc_modify (set_scheduler s) ;;;
      match e with
      | Some e => gerr (EStatus codes_Internal
          ("evaluation for cloud service '" +:+ TargetOfEvaluation_CloudServiceId toe +:+ "' and catalog ID '" +:+
           Catalog_Id catalog +:+ "' cannot be scheduled: " +:+ Error e))
      | None => gok tt
      end
  end.

Definition internal (prefix : string) (e : error) : error :=
  EStatus codes_Internal (Error (EWrap prefix e)).

Definition StartEvaluation (ctx : option Ctx) (fuel : nat) (req : option StartEvaluationRequest)
  : Go W (res bool) :=
  valid req from req ;;
  let cs := StartEvaluation_CloudServiceId req in
  let cat := StartEvaluation_CatalogId req in
  require (CheckAccess ctx AccessCreate cs) else ErrPermissionDenied ;;
  svc_modify (fun svc => set_scheduler (gc_StartAsync (scheduler svc)) svc) ;;;
  let interval := if bool_decide (Deref (StartEvaluation_Interval req) = 0%Z) then defaultInterval
                  else Deref (StartEvaluation_Interval req) in
  _ <-? cacheControls fuel cat ! internal "could not cache controls" ;;
  toe <-? remote (fun n => oc_GetTargetOfEvaluation n cs cat) ! internal "could not get target of evaluation" ;;
  catalog <-? remote (fun n => oc_GetCatalog n cat) ! internal "could not get catalog" ;;
  svc <- svc_read id ;;
  match gc_FindJobsByTag [cs; cat] (scheduler svc) with
  | Err e => if errors_Is e ErrJobNotFoundWithTag
             then _ <-? addJobToScheduler (Some toe) catalog interval ! id ;; gok true
             else gerr (internal "error while retrieving existing scheduler job" e)
  | OK jobs =>
      if bool_decide (0 < length jobs) then
        gerr (EStatus codes_AlreadyExists
          ("evaluation for Cloud Service '" +:+ TargetOfEvaluation_CloudServiceId toe +:+ "' and Catalog ID '" +:+
           TargetOfEvaluation_CatalogId toe +:+ "' already started"))
      else _ <-? addJobToScheduler (Some toe) catalog interval ! id ;; gok true
  end.

Definition StopEvaluation (ctx : option Ctx) (req : option StopEvaluationRequest) : Go W (res unit) :=
  valid req from req ;;
  let cs := StopEvaluation_CloudServiceId req in
  let cat := StopEvaluation_CatalogId req in
  require (CheckAccess ctx AccessCreate cs) else ErrPermissionDenied ;;
  svc <- svc_read id ;;
  let '(e, s) := gc_RemoveByTags [cs; cat] (scheduler svc) in
  svc_modify (set_scheduler s) ;;;
  match e with
  | None => gok tt
  | Some e =>
      if errors_Is e ErrJobNotFoundWithTag
      then gerr (EStatus codes_FailedPrecondition
             ("job for cloud service '" +:+ cs +:+ "' and catalog '" +:+ cat +:+ "' not running"))
      else gerr (internal ("error while removing jobs for cloud service '" +:+ cs +:+ "' and catalog '" +:+ cat +:+ "'") e)
  end.
End Service.
