(* ===== verification/EvaluationProofs.v ===== *)
(** Correctness of the evaluation service (Evaluation.v): the status of
    sub-controls and controls, for every schedule of the goroutines; what a
    catalog evaluation stores; confinement of the list call; the scheduler
    invariant over any sequence of calls. *)

From S2P Require Import Prelude GoRuntime GoStrings Util Api Sql Storage Gorm MemDB Authz Pagination Evaluation.

(** ** The verdict on a sub-control and on a control *)

(** The verdict of a list of assessment results. *)
Definition results_verdict (l : list AssessmentResult) : EvaluationStatus :=
  if bool_decide (l = []) then EVALUATION_STATUS_PENDING
  else if forallb AssessmentResult_Compliant l then EVALUATION_STATUS_COMPLIANT
  else EVALUATION_STATUS_NOT_COMPLIANT.

(** The results that made a sub-control fail. *)
Definition failing_ids (l : list AssessmentResult) : list string :=
  AssessmentResult_Id <$> filter (fun r => AssessmentResult_Compliant r = false) l.

Lemma assess_status_spec l ids st :
  assess_status l (ids, st)
  = (ids ++ failing_ids l,
     if forallb AssessmentResult_Compliant l then st else EVALUATION_STATUS_NOT_COMPLIANT).
Proof.
  revert ids st. induction l as [|r l IH]; intros ids st; simpl.
  - unfold failing_ids. by rewrite filter_nil, app_nil_r.
  - unfold failing_ids. rewrite filter_cons. destruct (AssessmentResult_Compliant r) eqn:E; simpl; rewrite IH; [done|].
    rewrite <-app_assoc. f_equal. by destruct (forallb _ l).
Qed.

Lemma assess_status_verdict l :
  assess_status l ([], if bool_decide (length l = 0) then EVALUATION_STATUS_PENDING else EVALUATION_STATUS_COMPLIANT)
  = (failing_ids l, results_verdict l).
Proof.
  rewrite assess_status_spec. unfold results_verdict. destruct l as [|r l]; [done|].
  by rewrite !bool_decide_eq_false_2 by done.
Qed.

Definition pending (s : EvaluationStatus) : bool := bool_decide (s = EVALUATION_STATUS_PENDING).

Fixpoint skip_pending (l : list EvaluationStatus) : list EvaluationStatus :=
  match l with s :: l' => if pending s then skip_pending l' else l | [] => [] end.

(** The verdict on a control from the statuses of its sub-controls, in order. *)
Definition control_verdict (l : list EvaluationStatus) : EvaluationStatus :=
  match skip_pending l with
  | [] => EVALUATION_STATUS_PENDING
  | l' => if forallb is_compliant l' then EVALUATION_STATUS_COMPLIANT else EVALUATION_STATUS_NOT_COMPLIANT
  end.

Abbreviation statuses := (fmap EvaluationResult_Status).

(** One round of the loop, from each of the statuses it can be in. *)
Lemma combine_step r ids :
  let f := ids ++ EvaluationResult_FailingAssessmentResultIds r in
  let s := EvaluationResult_Status r in
  combine_status (EVALUATION_STATUS_NOT_COMPLIANT, ids) r = (EVALUATION_STATUS_NOT_COMPLIANT, f) /\
  combine_status (EVALUATION_STATUS_COMPLIANT, ids) r
    = (if is_compliant s then (EVALUATION_STATUS_COMPLIANT, ids) else (EVALUATION_STATUS_NOT_COMPLIANT, f)) /\
  combine_status (EVALUATION_STATUS_PENDING, ids) r
    = (if is_compliant s then (EVALUATION_STATUS_COMPLIANT, ids)
       else if pending s then (EVALUATION_STATUS_PENDING, ids) else (EVALUATION_STATUS_NOT_COMPLIANT, f)).
Proof. unfold combine_status. destruct (EvaluationResult_Status r); split_and!; reflexivity. Qed.

Lemma combine_not_compliant rs ids :
  foldl combine_status (EVALUATION_STATUS_NOT_COMPLIANT, ids) rs
  = (EVALUATION_STATUS_NOT_COMPLIANT, ids ++ (rs ≫= EvaluationResult_FailingAssessmentResultIds)).
Proof.
  revert ids. induction rs as [|r rs IH]; intros ids; [simpl; by rewrite app_nil_r|].
  cbn [foldl]. destruct (combine_step r ids) as (-> & _ & _). by rewrite IH, <-app_assoc.
Qed.

Lemma combine_compliant rs ids :
  fst (foldl combine_status (EVALUATION_STATUS_COMPLIANT, ids) rs)
  = if forallb is_compliant (statuses rs) then EVALUATION_STATUS_COMPLIANT else EVALUATION_STATUS_NOT_COMPLIANT.
Proof.
  revert ids. induction rs as [|r rs IH]; intros ids; [done|]. rewrite fmap_cons. cbn [foldl forallb].
  destruct (combine_step r ids) as (_ & -> & _). destruct (is_compliant _); [apply IH|by rewrite combine_not_compliant].
Qed.

Lemma pending_not_compliant s : pending s = true -> is_compliant s = false.
Proof. by destruct s. Qed.

Lemma combine_verdict rs ids :
  fst (foldl combine_status (EVALUATION_STATUS_PENDING, ids) rs) = control_verdict (statuses rs).
Proof.
  unfold control_verdict. revert ids. induction rs as [|r rs IH]; intros ids; [done|].
  rewrite fmap_cons. cbn [foldl skip_pending]. destruct (combine_step r ids) as (_ & _ & ->).
  destruct (pending (EvaluationResult_Status r)) eqn:Ep; [rewrite (pending_not_compliant _ Ep); apply IH|].
  cbn [forallb]. destruct (is_compliant _); [apply combine_compliant|by rewrite combine_not_compliant].
Qed.

(** When results that do not fail name no failing assessment results (as those
    of this service do), the failing ones of the control are all of them. *)
Lemma combine_failing rs st ids :
  Forall (fun r => EvaluationResult_Status r = EVALUATION_STATUS_NOT_COMPLIANT \/
                   EvaluationResult_FailingAssessmentResultIds r = []) rs ->
  snd (foldl combine_status (st, ids) rs) = ids ++ (rs ≫= EvaluationResult_FailingAssessmentResultIds).
Proof.
  intros Hr. revert st ids. induction Hr as [|r rs Hr _ IH]; intros st ids; [simpl; by rewrite app_nil_r|].
  cbn [foldl]. rewrite bind_cons.
  assert (exists st', combine_status (st, ids) r = (st', ids ++ EvaluationResult_FailingAssessmentResultIds r)) as [st' ->].
  { unfold combine_status. destruct Hr as [Hr|Hr]; rewrite Hr, ?app_nil_r; [by destruct st; eexists|].
    by repeat case_match; eexists. }
  by rewrite IH, <-app_assoc.
Qed.

(** The combined status is COMPLIANT exactly for pending results followed by at
    least one compliant result and nothing else; it is PENDING exactly when all
    are; in every other case it is NOT_COMPLIANT. *)
Lemma control_verdict_compliant l :
  control_verdict l = EVALUATION_STATUS_COMPLIANT <->
  exists ps cs, l = ps ++ cs /\ cs <> [] /\
    Forall (fun s => s = EVALUATION_STATUS_PENDING) ps /\ Forall (fun s => is_compliant s = true) cs.
Proof.
  unfold control_verdict. split.
  - induction l as [|s l IH]; [done|]. cbn [skip_pending]. destruct (pending s) eqn:Ep.
    + intros (ps & cs & -> & Hc & Hp & Hcs)%IH. exists (s :: ps), cs. split_and!; auto.
      constructor; [by apply bool_decide_eq_true in Ep|done].
    + destruct (forallb is_compliant (s :: l)) eqn:Ec; [|done]. intros _. exists [], (s :: l).
      split_and!; auto. apply Forall_forall. rewrite forallb_elem_of in Ec. auto.
  - intros (ps & cs & -> & Hc & Hp & Hcs). induction Hp as [|s ps -> _ IH]; [|exact IH]. simpl.
    destruct cs as [|s cs]; [done|]. apply Forall_cons in Hcs as [Hs Hcs]. simpl.
    destruct (pending s) eqn:Ep; [by rewrite (pending_not_compliant _ Ep) in Hs|]. rewrite Hs. simpl.
    assert (forallb is_compliant cs = true) as ->; [|done].
    apply forallb_elem_of. by rewrite <-Forall_forall.
Qed.

Lemma control_verdict_pending l :
  control_verdict l = EVALUATION_STATUS_PENDING <-> Forall (fun s => s = EVALUATION_STATUS_PENDING) l.
Proof.
  unfold control_verdict. split.
  - induction l as [|s l IH]; [constructor|]. cbn [skip_pending]. destruct (pending s) eqn:Ep.
    + intros H%IH. constructor; [by apply bool_decide_eq_true in Ep|done].
    + by destruct (forallb _ _).
  - induction 1 as [|s l -> _ IH]; done.
Qed.

(** ** What the orchestrator promises *)

(** A request for the latest results is answered on one page, with results of
    the cloud service and of the metrics the filter names. *)
Class OrchestratorClientLaws `{OrchestratorClient} : Prop := {
  latest_one_page : forall n req p,
    Deref (ListAssessmentResults_LatestByResourceId req) = true ->
    oc_ListAssessmentResults n req = OK p -> Page_NextPageToken p = "";
  latest_filtered : forall n req p f r cs ids,
    Deref (ListAssessmentResults_LatestByResourceId req) = true ->
    oc_ListAssessmentResults n req = OK p -> ListAssessmentResults_Filter req = Some f ->
    ResultFilter_CloudServiceId f = Some cs -> ResultFilter_MetricIds f = Some ids ->
    r ∈ Page_Items p -> AssessmentResult_CloudServiceId r = cs /\ AssessmentResult_MetricId r ∈ ids;
}.

(** ** Runs of the evaluation *)

Section Runs.
Context {DB Sch T Ctx : Type}.
Context `{StorageLaws DB, Gocron Sch, OrchestratorClient, !OrchestratorClientLaws}.
Context `{AuthorizationStrategy Ctx, TokenCodec, Env, Schedule, Validator ListEvaluationResultsRequest}.
Implicit Types w : World DB (EvaluationService Sch) T.

(** The assessment results the orchestrator reports at moment [n] for the metrics. *)
Definition answers (n : nat) (toe : TargetOfEvaluation) (metrics : list Metric) : list AssessmentResult :=
  if bool_decide (metrics = []) then []
  else match oc_ListAssessmentResults n (subcontrol_request toe metrics) with
       | OK p => Page_Items p
       | Err _ => []
       end.

(** [r] is the result of sub-control [c]: its verdict and its failing results are
    those of the reported assessment results of its metrics. *)
Definition sub_result (svc : EvaluationService Sch) (toe : TargetOfEvaluation) (c : Control) (r : EvaluationResult) : Prop :=
  exists metrics n uid now,
    getAllMetricsFromControl svc (TargetOfEvaluation_CatalogId toe) (Control_CategoryName c) (Control_Id c) = OK metrics /\
    r = mkEvaluationResult uid (TargetOfEvaluation_CloudServiceId toe) (Control_Id c) (Control_CategoryName c)
          (TargetOfEvaluation_CatalogId toe) (Control_ParentControlId c)
          (results_verdict (answers n toe metrics)) (Some now) (failing_ids (answers n toe metrics)) None None.

(** [r] is the result of control [c] from the results [subs] of its sub-controls
    and the [manual] ones. *)
Definition control_result (toe : TargetOfEvaluation) (c : Control) (subs manual : list EvaluationResult)
    (r : EvaluationResult) : Prop :=
  exists uid now failing,
    r = mkEvaluationResult uid (TargetOfEvaluation_CloudServiceId toe) (Control_Id c) (Control_CategoryName c)
          (TargetOfEvaluation_CatalogId toe) None (control_verdict (statuses (subs ++ manual)))
          (Some now) failing None None /\
    (Forall (fun r => EvaluationResult_Status r = EVALUATION_STATUS_NOT_COMPLIANT \/
                      EvaluationResult_FailingAssessmentResultIds r = []) manual ->
     failing = (subs ++ manual) ≫= EvaluationResult_FailingAssessmentResultIds).

(** Results the service creates on its own. *)
Definition automatic (toe : TargetOfEvaluation) (r : EvaluationResult) : Prop :=
  is_manual (EvaluationResult_Status r) = false /\ EvaluationResult_ValidUntil r = None /\
  EvaluationResult_CloudServiceId r = TargetOfEvaluation_CloudServiceId toe /\
  EvaluationResult_ControlCatalogId r = TargetOfEvaluation_CatalogId toe.

(** The sub-controls that are to be evaluated: those without a manual result that
    are relevant for the target of evaluation. *)
Definition due_subcontrols (toe : TargetOfEvaluation) (catalog : Catalog) (c : Control)
    (manual : list EvaluationResult) : list Control :=
  filter (fun s => Control_Id s ∉ EvaluationResult_ControlId <$> manual /\ IsRelevantFor s toe catalog = true)
    (Control_Controls c).

(** The top-level controls of [l] that are to be evaluated, given the manual
    results that were found: those with a manual result of their own are not. *)
Definition overridden (found : list EvaluationResult) : list string :=
  EvaluationResult_ControlId <$> filter (fun r => EvaluationResult_ParentControlId r = None) found.
Definition due_controls (toe : TargetOfEvaluation) (catalog : Catalog) (found : list EvaluationResult)
    (l : list Control) : list Control :=
  filter (fun c => Control_ParentControlId c = None /\ Control_Id c ∉ overridden found /\
                   IsRelevantFor c toe catalog = true) l.

(** The manual results for the sub-controls of the control with id [p]. *)
Definition manual_for (found : list EvaluationResult) (p : string) : list EvaluationResult :=
  filter (fun r => EvaluationResult_ParentControlId r = Some p) found.

(** The only reasons for which an evaluation of sub-controls and their control can
    fail: the metrics of a sub-control are not found in the cache, or the database
    refuses a result. *)
Definition failed_for (svc : EvaluationService Sch) (toe : TargetOfEvaluation) (subs : list Control) (e : error) : Prop :=
  (exists sub, sub ∈ subs /\
     getAllMetricsFromControl svc (TargetOfEvaluation_CatalogId toe) (Control_CategoryName sub) (Control_Id sub) = Err e) \/
  (exists (x : EvaluationResult) db db', automatic toe x /\ st_Create T_EvaluationResult x db = (Some e, db')).

Lemma relevant_subcontrols_due toe catalog c manual :
  relevant_subcontrols toe catalog c manual = due_subcontrols toe catalog c manual.
Proof.
  unfold relevant_subcontrols, due_subcontrols. induction (Control_Controls c) as [|s l IH]; [done|].
  rewrite filter_cons, <-IH. csimpl. destruct (slices_Contains _ _) eqn:E.
  - apply slices_Contains_true in E. by rewrite decide_False by tauto.
  - apply slices_Contains_false in E. destruct (IsRelevantFor s toe catalog) eqn:Er.
    + by rewrite decide_True by done.
    + by rewrite decide_False by (intros [_ ?]; congruence).
Qed.

Lemma relevant_controls_due toe catalog found l :
  relevant_controls toe catalog (overridden found) l = due_controls toe catalog found l.
Proof.
  unfold relevant_controls, due_controls. induction l as [|s l IH]; [done|].
  rewrite filter_cons, <-IH. csimpl. destruct (Control_ParentControlId s); [by rewrite decide_False by naive_solver|].
  destruct (slices_Contains _ _) eqn:E.
  - apply slices_Contains_true in E. by rewrite decide_False by tauto.
  - apply slices_Contains_false in E. destruct (IsRelevantFor s toe catalog) eqn:Er.
    + by rewrite decide_True by done.
    + by rewrite decide_False by (intros (_ & _ & ?); congruence).
Qed.

Lemma gather_manual_spec found m0 ig0 :
  let '(manual, ignored) := foldl gather_manual (m0, ig0) found in
  ignored = ig0 ++ overridden found /\
  forall p, default [] (manual !! p) = default [] (m0 !! p) ++ manual_for found p.
Proof.
  revert m0 ig0. unfold overridden, manual_for. induction found as [|r found IH]; intros m0 ig0.
  { simpl. split; [by rewrite app_nil_r|]. intros p. by rewrite app_nil_r. }
  simpl foldl. destruct (EvaluationResult_ParentControlId r) as [p|] eqn:Ep.
  - specialize (IH (<[p:=default [] (m0 !! p) ++ [r]]> m0) ig0). destruct (foldl _ _ _) as [manual ignored].
    destruct IH as [-> IH]. split; [by rewrite filter_cons, decide_False by congruence|].
    intros q. rewrite IH, filter_cons. destruct (decide (p = q)) as [->|Hne].
    + rewrite lookup_insert_eq, decide_True by done. simpl. by rewrite <-app_assoc.
    + by rewrite lookup_insert_ne, decide_False by congruence.
  - specialize (IH m0 (ig0 ++ [EvaluationResult_ControlId r])). destruct (foldl _ _ _) as [manual ignored].
    destruct IH as [-> IH]. split.
    + rewrite filter_cons, decide_True by done. by rewrite <-app_assoc.
    + intros q. by rewrite IH, filter_cons, decide_False by congruence.
Qed.

(** [w] is [w0] with the evaluation results [added], and nothing else changed. *)
Definition grown w0 w (added : list EvaluationResult) : Prop :=
  w_svc w = w_svc w0 /\ w_tasks w = w_tasks w0 /\
  rows T_EvaluationResult (w_db w) ≡ₚ added ++ rows T_EvaluationResult (w_db w0) /\
  forall t, t <> T_EvaluationResult -> rows t (w_db w) = rows t (w_db w0).

Lemma grown_refl w : grown w w [].
Proof. by split_and!. Qed.

Lemma grown_tick w0 w acc n : grown w0 w acc -> grown w0 (mkWorld (w_db w) (w_svc w) (w_tasks w) n) acc.
Proof. done. Qed.

(** Storing one more result. *)
Lemma grown_create w0 w acc (r : EvaluationResult) : grown w0 w acc ->
  exists e w', storage_Create T_EvaluationResult r w = (Returned e, w') /\
    ((e = OK tt /\ grown w0 w' (r :: acc)) \/
     (exists m, e = Err m /\ exists db db', st_Create T_EvaluationResult r db = (Some m, db')) /\ grown w0 w' acc).
Proof.
  intros (Hs & Ht & Hr & Hf). unfold storage_Create, db_exec.
  destruct (st_Create T_EvaluationResult r (w_db w)) as [e db'] eqn:Ec.
  do 2 eexists. split; [reflexivity|]. destruct e as [m|]; [right|left].
  - split; [eauto|]. rewrite (create_err _ _ _ _ _ Ec). by destruct w.
  - split; [done|]. split_and!; simpl; auto.
    + rewrite (create_flat T_EvaluationResult _ _ _ eq_refl Ec), Hr. done.
    + intros t Hne. by rewrite (frame_create T_EvaluationResult _ _ _ _ eq_refl Ec t Hne), Hf.
Qed.

Lemma results_verdict_auto l : is_manual (results_verdict l) = false.
Proof. unfold results_verdict. by repeat case_match. Qed.

Lemma control_verdict_auto l : is_manual (control_verdict l) = false.
Proof. unfold control_verdict. by repeat case_match. Qed.

Lemma sub_result_automatic svc toe c r : sub_result svc toe c r -> automatic toe r.
Proof. intros (m & n & uid & now & _ & ->). split_and!; auto. apply results_verdict_auto. Qed.

Lemma control_result_automatic toe c subs manual r : control_result toe c subs manual r -> automatic toe r.
Proof. intros (uid & now & f & -> & _). split_and!; auto. apply control_verdict_auto. Qed.

(** Fetching the assessment results of the metrics takes one call. *)
Lemma fetch_answers fuel toe metrics w : 0 < fuel ->
  exists w', (if bool_decide (length metrics <> 0) then
     r <- ListAllPaginated set_token_assessment Page_NextPageToken fuel (subcontrol_request toe metrics)
            (fun req => remote (fun n => oc_ListAssessmentResults n req)) Page_Items ;;
     gret (match r with OK l => l | Err _ => [] end)
   else gret []) w = (Returned (answers (w_tick w) toe metrics), w') /\
  w_db w' = w_db w /\ w_svc w' = w_svc w /\ w_tasks w' = w_tasks w.
Proof.
  intros Hf. unfold answers. destruct metrics as [|m ms].
  { exists w. by rewrite bool_decide_eq_false_2 by (intros ?; done). }
  rewrite (bool_decide_eq_true_2 (length _ <> 0)) by done. rewrite (bool_decide_eq_false_2 (_ = [])) by done.
  unfold gbind. erewrite list_all_one_page; [|done|reflexivity|].
  2: { intros p Hp. by eapply latest_one_page, Hp. }
  exists (mkWorld (w_db w) (w_svc w) (w_tasks w) (w_tick w + 1)). split; [|by split_and!].
  cbn -[subcontrol_request].
  change (set_token_assessment "" (subcontrol_request toe (m :: ms))) with (subcontrol_request toe (m :: ms)).
  by destruct (oc_ListAssessmentResults _ _).
Qed.

Lemma evaluateSubcontrol_run fuel toe c w0 w acc : 0 < fuel -> grown w0 w acc ->
  exists r w' ys, evaluateSubcontrol fuel (Some toe) (Some c) w = (Returned r, w') /\
    grown w0 w' (ys ++ acc) /\ Forall (automatic toe) ys /\
    (forall o, r = OK o -> exists x, o = Some x /\ ys = [x] /\ sub_result (w_svc w0) toe c x) /\
    (forall e, r = Err e -> ys = [] /\ failed_for (w_svc w0) toe [c] e).
Proof.
  intros Hf Hg. unfold evaluateSubcontrol. unfold gbind at 1, svc_read. cbn [id].
  destruct (getAllMetricsFromControl _ _ _ _) as [metrics|e] eqn:Em.
  2: { exists (Err e), w, []. split_and!; auto; [naive_solver|]. intros e' [= <-]. split; [done|]. left. exists c.
       split; [set_solver|]. destruct Hg as [Hs _]. by rewrite <-Hs. }
  destruct (fetch_answers fuel toe metrics w Hf) as (w1 & Hfetch & Hdb & Hsv & Htk).
  unfold gbind at 1. rewrite Hfetch. rewrite assess_status_verdict. cbv zeta.
  unfold gbind at 1, uuid_NewString. unfold gbind at 1, time_Now. cbn [w_db w_svc w_tasks w_tick].
  set (x := mkEvaluationResult _ _ _ _ _ _ _ _ _ _ _). set (w2 := mkWorld _ _ _ _).
  assert (Hg2 : grown w0 w2 acc) by (unfold grown, w2; cbn; rewrite Hdb, Hsv, Htk; exact Hg).
  assert (Hx : sub_result (w_svc w0) toe c x).
  { destruct Hg as [Hs _]. rewrite <-Hs. unfold sub_result, x. eauto 8. }
  destruct (grown_create w0 w2 acc x Hg2) as (e & w' & Hc & Hcase). unfold gtry, gbind. rewrite Hc.
  destruct Hcase as [[-> Hg']|[(m & -> & db & db' & Hdbc) Hg']].
  - exists (OK (Some x)), w', [x]. split_and!; auto.
    + constructor; [by eapply sub_result_automatic|done].
    + intros o [= <-]. eauto.
    + done.
  - exists (Err m), w', []. split_and!; auto; [naive_solver|]. intros e' [= <-]. split; [done|]. right.
    exists x, db, db'. split; [by eapply sub_result_automatic|done].
Qed.

Lemma combine_all_run (rs : list EvaluationResult) acc w :
  combine_all (DB := DB) (Sch := Sch) (T := T) (List.map Some rs) acc w = (Returned (foldl combine_status acc rs), w).
Proof. revert acc. induction rs as [|r rs IH]; intros acc; [done|]. simpl. unfold gbind. simpl. apply IH. Qed.

(** The results of the sub-controls, in the order of the sub-controls. *)
Lemma group_results toe svc l xs yss :
  Forall3 (fun c (o : option EvaluationResult) ys =>
             exists x, o = Some x /\ ys = [x] /\ sub_result svc toe c x) l xs yss ->
  exists subs, xs = List.map Some subs /\ yss = (fun x => [x]) <$> subs /\ Forall2 (sub_result svc toe) l subs.
Proof.
  induction 1 as [|c o ys l xs yss (x & -> & -> & Hx) _ (subs & -> & -> & IH)]; [by exists []|].
  exists (x :: subs). split_and!; [done..|by constructor].
Qed.

Lemma subs_fail_well svc toe l subs : Forall2 (sub_result svc toe) l subs ->
  Forall (fun r => EvaluationResult_Status r = EVALUATION_STATUS_NOT_COMPLIANT \/
                   EvaluationResult_FailingAssessmentResultIds r = []) subs.
Proof.
  induction 1 as [|c r l subs (m & n & uid & now & _ & ->) _ IH]; constructor; auto. simpl.
  unfold results_verdict, failing_ids. case_bool_decide as Hn; [rewrite Hn; by right|].
  destruct (forallb _ _) eqn:E; [right|by left]. rewrite forallb_elem_of in E.
  assert (filter (fun r => AssessmentResult_Compliant r = false) (answers n toe m) = []) as ->; [|done].
  apply elem_of_nil_inv. intros r [Hr Hin]%list_elem_of_filter. by rewrite (E r Hin) in Hr.
Qed.

Lemma evaluateControl_run fuel toe catalog c manual w0 w acc : 0 < fuel -> grown w0 w acc ->
  exists r w' ys, evaluateControl fuel toe catalog c manual w = (Returned r, w') /\
    grown w0 w' (ys ++ acc) /\ Forall (automatic toe) ys /\
    (forall u, r = OK u -> exists x subs, ys ≡ₚ x :: subs /\
      Forall2 (sub_result (w_svc w0) toe) (due_subcontrols toe catalog c manual) subs /\
      control_result toe c subs manual x) /\
    (forall e, r = Err e -> failed_for (w_svc w0) toe (due_subcontrols toe catalog c manual) e).
Proof.
  intros Hf Hg. unfold evaluateControl. rewrite relevant_subcontrols_due. unfold gbind at 1.
  destruct (errgroup_total (fun w ys => grown w0 w ys) (automatic toe)
    (fun c (o : option EvaluationResult) ys => exists x, o = Some x /\ ys = [x] /\ sub_result (w_svc w0) toe c x)
    (fun c e => failed_for (w_svc w0) toe [c] e) (due_subcontrols toe catalog c manual)
    (fun sub => evaluateSubcontrol fuel (Some toe) (Some sub)) w acc)
    as (rs & e & w1 & ys & Hrun & Hg1 & Hys & Hok & Hfail); [|done|].
  { intros x w1 acc1 _ Hg1. edestruct (evaluateSubcontrol_run fuel toe x) as (r & w2 & ys & ? & ? & ? & ? & He); eauto.
    exists r, w2, ys. split_and!; auto. intros e ->. by apply He. }
  rewrite Hrun. destruct e as [e|].
  { exists (Err e), w1, ys. split_and!; [done..|]. intros e' [= <-].
    destruct (Hfail e eq_refl) as (sub & Hin & [(sub' & Hs & He)|Hdb]); [left|by right].
    exists sub'. split; [|done]. apply list_elem_of_singleton in Hs as ->. done. }
  destruct (Hok eq_refl) as (xs & yss & -> & Hgr & Hperm).
  destruct (group_results _ _ _ _ _ Hgr) as (subs & -> & -> & Hsubs).
  assert (Hmap : List.map (default None) (Some <$> List.map Some subs) ++ List.map Some manual
                 = List.map Some (subs ++ manual)).
  { rewrite List.map_app. f_equal. clear. induction subs as [|x l IH]; [done|]. cbn. f_equal. exact IH. }
  rewrite Hmap. unfold gbind at 1. rewrite combine_all_run.
  destruct (foldl combine_status (EVALUATION_STATUS_PENDING, []) (subs ++ manual)) as [st failing] eqn:Ef.
  unfold gbind at 1, uuid_NewString. unfold gbind at 1, time_Now. cbn [w_db w_svc w_tasks w_tick].
  set (x := mkEvaluationResult _ _ _ _ _ _ _ _ _ _ _). set (w2 := mkWorld _ _ _ _).
  assert (Hx : control_result toe c subs manual x).
  { exists (uuid_at (w_tick w1)), (time_at (w_tick w1 + 1)), failing. split.
    - unfold x. rewrite <-(combine_verdict _ []), Ef. done.
    - intros Hm. rewrite <-(app_nil_l (_ ≫= _)), <-(combine_failing (subs ++ manual) EVALUATION_STATUS_PENDING []), Ef; [done|].
      apply Forall_app. split; [by eapply subs_fail_well|done]. }
  destruct (grown_create w0 w2 (ys ++ acc) x Hg1) as (e & w' & Hc & Hcase). rewrite Hc.
  destruct Hcase as [[-> Hg']|[(m & -> & db & db' & Hdbc) Hg']].
  - exists (OK tt), w', (x :: ys). split_and!; auto.
    + constructor; [by eapply control_result_automatic|done].
    + intros u _. exists x, subs. split_and!; auto. constructor. rewrite Hperm. clear. induction subs; simpl; [done|by constructor].
    + done.
  - exists (Err m), w', ys. split_and!; auto; [naive_solver|]. intros e' [= <-]. right.
    exists x, db, db'. split; [by eapply control_result_automatic|done].
Qed.

(** ** Listing *)

(** The conditions of a caller that may not see everything, once the filter (if
    any) names a cloud service: a selected row belongs to an allowed cloud
    service or to the one of the filter. *)
Lemma restricted_query now pkv cols allowed cs (f : option EvaluationFilter) :
  match f with Some f => EvaluationFilter_CloudServiceId f = Some cs | None => True end ->
  let l := restrict_query false allowed
             (match f with Some f => filter_query f | None => mkListQuery [] [] [] end) in
  exists b, plain_hold now pkv cols (AStr (strings_Join (lq_query l) " AND ") :: lq_args l) = Some b /\
    (b = true -> exists s, cols "cloud_service_id" = VStr s /\ (s ∈ allowed \/ f <> None /\ s = cs)).
Proof.
  intros Hf. destruct f as [[c1 c2 c3 c4 c5 c6]|]; simpl in Hf; subst;
    [destruct c2, c3, c4, c5 as [[]|], c6 as [[]|]|];
    cbv zeta; unfold plain_hold; rewrite bool_decide_eq_false_2 by (intros [? ?]; done);
    sql_eval; eexists; (split; [reflexivity|]);
    autorewrite with clouditor_rw;
    rewrite ?orb_true_iff, ?andb_true_iff, ?selected_eq_str, ?selected_in_strs; naive_solver.
Qed.

Lemma no_query_no_args all allowed (f : option EvaluationFilter) :
  let l := restrict_query all allowed (match f with Some f => filter_query f | None => mkListQuery [] [] [] end) in
  lq_query l = [] -> lq_args l <> [] -> False.
Proof.
  destruct all; [|intros l; unfold l; simpl; by destruct (lq_query _)].
  destruct f as [[c1 c2 c3 c4 c5 c6]|]; [|done].
  by destruct c1, c2, c3, c4, c5 as [[]|], c6 as [[]|].
Qed.

Lemma ListEvaluationResults_run ctx req w :
  (exists e, ListEvaluationResults ctx req w = (Returned (Err e), w)) \/
  (exists p r, ListEvaluationResults ctx req w = (Returned (OK p), w) /\ req = Some r /\
     (Deref (ListEvaluationResults_LatestByControlId r) = true -> Page_NextPageToken p = "") /\
     match ListEvaluationResults_Filter r with
     | Some f => CheckAccess ctx AccessRead (GetFilterCloudServiceId f) = true | None => True end /\
     let l := restrict_query (fst (AllowedCloudServices ctx)) (snd (AllowedCloudServices ctx))
                (match ListEvaluationResults_Filter r with Some f => filter_query f | None => mkListQuery [] [] [] end) in
     forall x, x ∈ Page_Items p -> x ∈ rows T_EvaluationResult (w_db w) /\
       plain_hold (db_now (w_db w)) (pk T_EvaluationResult x) (col T_EvaluationResult x)
         (AStr (strings_Join (lq_query l) " AND ") :: lq_args l) <> Some false).
Proof.
  unfold ListEvaluationResults.
  run_valid as r Hv; [left; by eexists|].
  destruct (AllowedCloudServices ctx) as [all allowed] eqn:Ea. cbn [fst snd].
  set (ok := match ListEvaluationResults_Filter r with Some _ => _ | None => true end).
  destruct ok eqn:Eok; [|left; by eexists]. unfold gguard.
  set (l := restrict_query all allowed _).
  assert (Hacc : match ListEvaluationResults_Filter r with
     | Some f => CheckAccess ctx AccessRead (GetFilterCloudServiceId f) = true | None => True end).
  { unfold ok in Eok. by destruct (ListEvaluationResults_Filter r). }
  destruct (Deref (ListEvaluationResults_LatestByControlId r)) eqn:Elat.
  - unfold storage_Raw, db_query, gtry, gbind.
    destruct (st_Raw _ _ _ _) as [rs|e] eqn:Er; [|left; by eexists]. right.
    exists (mkPage rs ""), r. split_and!; auto. intros x Hx.
    destruct (raw_latest T_EvaluationResult (latest_evaluation l) _ _ _ ltac:(done) eq_refl Er) as (Hsel & _ & _).
    destruct (Hsel x Hx) as [Hin Hw]. split; [done|]. unfold where_matches in Hw. cbn [raw_where latest_evaluation] in Hw.
    destruct (lq_query l) as [|q0 ql] eqn:El; [|rewrite <-El in *; by rewrite where_clause_hold in Hw by (by rewrite El)].
    destruct (lq_args l) eqn:Eargs; [fold l; rewrite El, Eargs; by vm_compute|]. exfalso. eapply (no_query_no_args all allowed (ListEvaluationResults_Filter r)); [exact El|].
    fold l. by rewrite Eargs.
  - unfold gtry, gbind. destruct (PaginateStorage_run T_EvaluationResult (ListEvaluationResults_Paging r)
      DefaultPaginationOpts (AStr (strings_Join (lq_query l) " AND ") :: lq_args l) w)
      as [(e & He & _)|(page & npt & Hp & Hin)]; [rewrite He; left; by eexists|]. rewrite Hp. right.
    exists (mkPage page npt), r. split_and!; [done|done|congruence|done|]. intros x Hx%Hin.
    destruct (enumerate_sound _ _ _ _ _ _ Hx) as (x0 & Hr0 & (_ & _ & Heq) & Hm). rewrite (Heq eq_refl). done.
Qed.

(** The results stored for one control: its own and those of its sub-controls. *)
Definition control_evaluated (svc : EvaluationService Sch) toe catalog (manual : list EvaluationResult)
    (c : Control) (ys : list EvaluationResult) : Prop :=
  exists x subs, ys ≡ₚ x :: subs /\
    Forall2 (sub_result svc toe) (due_subcontrols toe catalog c manual) subs /\
    control_result toe c subs manual x.

(** The results stored for a catalog, given the manual results that were found. *)
Definition cached_controls (svc : EvaluationService Sch) (catalogId : string) : list Control :=
  (map_to_list (default ∅ (catalogControls svc !! catalogId))).*2.

Definition catalog_evaluated (svc : EvaluationService Sch) toe catalog (found ys : list EvaluationResult) : Prop :=
  exists cs yss,
    cs ≡ₚ due_controls toe catalog found (cached_controls svc (TargetOfEvaluation_CatalogId toe)) /\
    Forall2 (fun c => control_evaluated svc toe catalog (manual_for found (Control_Id c)) c) cs yss /\
    ys ≡ₚ concat yss.

(** The only reasons for which the evaluation of a catalog can fail. *)
Definition catalog_failed (svc : EvaluationService Sch) toe catalog (found : list EvaluationResult) (e : error) : Prop :=
  exists c, c ∈ due_controls toe catalog found (cached_controls svc (TargetOfEvaluation_CatalogId toe)) /\
    failed_for svc toe (due_subcontrols toe catalog c (manual_for found (Control_Id c))) e.

Lemma evaluateCatalog_run bg fuel toe catalog w : 0 < fuel ->
  exists r w' ys, evaluateCatalog bg fuel toe catalog w = (Returned r, w') /\
    grown w w' ys /\ Forall (automatic toe) ys /\
    match r with
    | OK _ => exists page, ListEvaluationResults (Some bg) (Some (manual_request toe)) w = (Returned (OK page), w) /\
        catalog_evaluated (w_svc w) toe catalog (Page_Items page) ys
    | Err e =>
        ListEvaluationResults (Some bg) (Some (manual_request toe)) w = (Returned (Err e), w) /\ ys = [] \/
        exists page, ListEvaluationResults (Some bg) (Some (manual_request toe)) w = (Returned (OK page), w) /\
          catalog_failed (w_svc w) toe catalog (Page_Items page) e
    end.
Proof.
  intros Hf. unfold evaluateCatalog. unfold gbind at 1, svc_read. cbn [id].
  assert (Hl : exists r, ListEvaluationResults (Some bg) (Some (manual_request toe)) w = (Returned r, w) /\
                         forall p, r = OK p -> Page_NextPageToken p = "").
  { destruct (ListEvaluationResults_run (Some bg) (Some (manual_request toe)) w)
      as [[e He]|(p & r & Hp & [= <-] & Htok & _)]; [exists (Err e)|exists (OK p)]; naive_solver. }
  destruct Hl as (r & Hl & Htok). unfold gtry at 1, gbind at 1.
  erewrite list_all_one_page; [|done|exact Hl|exact Htok].
  destruct r as [page|e]; [|exists (Err e), w, []; split_and!; auto using grown_refl].
  cbn -[foldl relevant_controls sort_controls values evaluateControl errgroup].
  pose proof (gather_manual_spec (Page_Items page) ∅ []) as Hgm.
  destruct (foldl gather_manual (∅, []) (Page_Items page)) as [manual ignored].
  destruct Hgm as [-> Hman]. rewrite app_nil_l, relevant_controls_due. set (relevant := due_controls _ _ _ _).
  assert (Hperm : relevant ≡ₚ due_controls toe catalog (Page_Items page)
                    (cached_controls (w_svc w) (TargetOfEvaluation_CatalogId toe))).
  { unfold relevant, due_controls, cached_controls, sort_controls, values. by rewrite (merge_sort_Permutation id_le). }
  unfold gbind at 1.
  destruct (errgroup_total (fun w' ys => grown w w' ys) (automatic toe)
    (fun c (_ : unit) ys => control_evaluated (w_svc w) toe catalog (manual_for (Page_Items page) (Control_Id c)) c ys)
    (fun c e => failed_for (w_svc w) toe (due_subcontrols toe catalog c (manual_for (Page_Items page) (Control_Id c))) e)
    relevant (fun c => evaluateControl fuel toe catalog c (default [] (manual !! Control_Id c))) w [])
    as (rs & e & w' & ys & Hrun & Hg & Hys & Hok & Hfail); [|apply grown_refl|].
  { intros c w1 acc1 _ Hg1. rewrite Hman. by apply evaluateControl_run. }
  rewrite app_nil_r in Hg.
  exists (match e with Some e => Err e | None => OK tt end), w', ys.
  split_and!; [by rewrite Hrun; destruct e|done..|]. destruct e as [e|].
  - right. exists page. split; [done|]. destruct (Hfail e eq_refl) as (c & Hc & He). exists c. by rewrite <-Hperm.
  - exists page. split; [done|]. destruct (Hok eq_refl) as (xs & yss & _ & H3' & Hp).
    exists relevant, yss. split_and!; [done| |done]. clear -H3'. clearbody relevant. induction H3'; constructor; auto.
Qed.

(** *** Theorems *)

(** C18. Evaluating a sub-control ends, whatever the orchestrator answers.  On success
    exactly one result is stored: NOT_COMPLIANT with exactly the failing
    assessment results if there is one, PENDING if there are none at all (no
    metrics, no results, or the orchestrator failed), COMPLIANT otherwise.  The
    judged results all belong to the cloud service and to metrics of the control.
    On failure nothing is stored; it fails only when the metrics of the control are
    not found or the database refuses the result. *)
Theorem evaluateSubcontrol_correct fuel toe c w : 0 < fuel ->
  exists r w', evaluateSubcontrol fuel (Some toe) (Some c) w = (Returned r, w') /\
    ((exists e, r = Err e /\ grown w w' [] /\ failed_for (w_svc w) toe [c] e) \/
     exists x metrics n, r = OK (Some x) /\ grown w w' [x] /\
       getAllMetricsFromControl (w_svc w) (TargetOfEvaluation_CatalogId toe)
         (Control_CategoryName c) (Control_Id c) = OK metrics /\
       EvaluationResult_ControlId x = Control_Id c /\
       EvaluationResult_CloudServiceId x = TargetOfEvaluation_CloudServiceId toe /\
       EvaluationResult_Status x = results_verdict (answers n toe metrics) /\
       EvaluationResult_FailingAssessmentResultIds x = failing_ids (answers n toe metrics) /\
       forall a, a ∈ answers n toe metrics ->
         AssessmentResult_CloudServiceId a = TargetOfEvaluation_CloudServiceId toe /\
         AssessmentResult_MetricId a ∈ getMetricIds metrics).
Proof.
  intros Hf. destruct (evaluateSubcontrol_run fuel toe c w w [] Hf (grown_refl w)) as (r & w' & ys & Hrun & Hg & _ & Hok & Herr).
  rewrite app_nil_r in Hg. exists r, w'. split; [done|]. destruct r as [o|e].
  - right. destruct (Hok o eq_refl) as (x & -> & -> & metrics & n & uid & now & Hm & ->).
    eexists _, metrics, n. split_and!; [done|exact Hg|done..|]. intros a. unfold answers.
    case_bool_decide; [set_solver|]. destruct (oc_ListAssessmentResults _ _) as [p|] eqn:Ep; [|set_solver].
    intros Ha. by eapply (latest_filtered n (subcontrol_request toe metrics) p).
  - left. exists e. destruct (Herr e eq_refl) as [-> ?]. by split_and!.
Qed.

(** C1. Evaluating a control ends, for every order in which its goroutines run.  On
    success exactly the results of its relevant sub-controls without a manual
    result, each judged as [sub_result] says, and one result for the control are
    stored; the control is COMPLIANT only if no sub-control result is anything but
    compliant or pending and at least one is compliant, PENDING exactly when all
    results are pending.  It fails only when the metrics of such a sub-control are
    not found or the database refuses a result. *)
Theorem evaluateControl_correct fuel toe catalog c manual w : 0 < fuel ->
  exists r w' ys, evaluateControl fuel toe catalog c manual w = (Returned r, w') /\ grown w w' ys /\
    (forall e, r = Err e -> failed_for (w_svc w) toe (due_subcontrols toe catalog c manual) e) /\
    (r = OK tt -> exists x subs, ys ≡ₚ x :: subs /\
       Forall2 (sub_result (w_svc w) toe) (due_subcontrols toe catalog c manual) subs /\
       EvaluationResult_ControlId x = Control_Id c /\
       EvaluationResult_CloudServiceId x = TargetOfEvaluation_CloudServiceId toe /\
       let sts := statuses (subs ++ manual) in
       EvaluationResult_Status x = control_verdict sts /\
       (EvaluationResult_Status x = EVALUATION_STATUS_COMPLIANT ->
          (exists s, s ∈ sts /\ is_compliant s = true) /\
          forall s, s ∈ sts -> is_compliant s = true \/ s = EVALUATION_STATUS_PENDING) /\
       (EvaluationResult_Status x = EVALUATION_STATUS_PENDING <->
          forall s, s ∈ sts -> s = EVALUATION_STATUS_PENDING)).
Proof.
  intros Hf. destruct (evaluateControl_run fuel toe catalog c manual w w [] Hf (grown_refl w))
    as (r & w' & ys & Hrun & Hg & _ & Hok & Herr).
  rewrite app_nil_r in Hg. exists r, w', ys. split_and!; [done..|]. intros ->.
  destruct (Hok tt eq_refl) as (x & subs & Hys & Hsubs & uid & now & failing & -> & _).
  eexists _, subs. cbv zeta. split_and!; [exact Hys|done|done|done|done| |].
  - cbn. intros (ps & cs & -> & Hne & Hp & Hc)%control_verdict_compliant. rewrite Forall_forall in Hp, Hc.
    split; [|set_solver]. destruct cs as [|s cs]; [done|]. exists s. set_solver.
  - cbn. by rewrite control_verdict_pending, Forall_forall.
Qed.

(** C2. Evaluating a catalog ends.  On success it has stored, for each top-level
    control of the cached catalog that is relevant for the target of evaluation
    and not overridden by a manual result, that control's result and those of its
    sub-controls, and nothing else; on failure everything stored is still an
    automatic result for this target of evaluation.  It fails only when the manual
    results cannot be listed, the metrics of a sub-control are not found, or the
    database refuses a result. *)
Theorem evaluateCatalog_correct bg fuel toe catalog w : 0 < fuel ->
  exists r w' ys, evaluateCatalog bg fuel toe catalog w = (Returned r, w') /\ grown w w' ys /\
    Forall (automatic toe) ys /\
    match r with
    | OK _ => exists page, ListEvaluationResults (Some bg) (Some (manual_request toe)) w = (Returned (OK page), w) /\
        catalog_evaluated (w_svc w) toe catalog (Page_Items page) ys
    | Err e =>
        ListEvaluationResults (Some bg) (Some (manual_request toe)) w = (Returned (Err e), w) /\ ys = [] \/
        exists page, ListEvaluationResults (Some bg) (Some (manual_request toe)) w = (Returned (OK page), w) /\
          catalog_failed (w_svc w) toe catalog (Page_Items page) e
    end.
Proof. apply evaluateCatalog_run. Qed.

(** Under a strategy that needs a token in the context, no catalog is ever
    evaluated: the manual results are requested with the background context,
    which carries none. *)
Theorem background_never_evaluates bg fuel toe catalog w r w' :
  0 < fuel -> (forall typ id, CheckAccess (Some bg) typ id = false) ->
  evaluateCatalog bg fuel toe catalog w = (Returned r, w') ->
  w' = w /\ (violations (manual_request toe) = None -> r = Err ErrPermissionDenied).
Proof.
  intros Hf Hbg Hrun. unfold evaluateCatalog in Hrun. unfold gbind at 1, svc_read in Hrun. cbn [id] in Hrun.
  assert (Hl : exists e, ListEvaluationResults (Some bg) (Some (manual_request toe)) w = (Returned (Err e), w) /\
                         (violations (manual_request toe) = None -> e = ErrPermissionDenied)).
  { unfold ListEvaluationResults, with_valid, Validate.
    destruct (violations (manual_request toe)); [by eexists|].
    destruct (AllowedCloudServices _). cbn. rewrite Hbg. by eexists. }
  destruct Hl as (e & Hl & He). unfold gtry at 1, gbind at 1 in Hrun.
  erewrite list_all_one_page in Hrun; [|done|exact Hl|done]. unfold gerr, gret in Hrun. cbn in Hrun. simplify_eq. split; [done|].
  intros Hv. by rewrite (He Hv).
Qed.

(** C13. ListEvaluationResults returns only stored results of cloud services the caller
    may access, on both of its paths and for every filter, and changes nothing.
    (A caller that may access the cloud service "" is excluded: the filter
    without a cloud service is checked against it.) *)
Theorem list_results_confined `{!AuthorizationLaws Ctx} ctx req w p w' :
  "" ∉ snd (AllowedCloudServices ctx) ->
  ListEvaluationResults ctx req w = (Returned (OK p), w') ->
  w' = w /\ forall x, x ∈ Page_Items p ->
    x ∈ rows T_EvaluationResult (w_db w) /\ may_access ctx (EvaluationResult_CloudServiceId x).
Proof.
  intros Hmt Hrun. destruct (ListEvaluationResults_run ctx req w) as [[e He]|(p' & r & Hp & -> & _ & Hacc & Hin)].
  { by rewrite He in Hrun. }
  rewrite Hp in Hrun. simplify_eq. split; [done|]. intros x Hx. destruct (Hin x Hx) as [Hr Hh]. split; [done|].
  unfold may_access. destruct (fst (AllowedCloudServices ctx)) eqn:Eall; [by left|right].
  assert (Hcs : exists cs, match ListEvaluationResults_Filter r with
                | Some f => EvaluationFilter_CloudServiceId f = Some cs | None => True end /\
                (ListEvaluationResults_Filter r <> None -> cs ∈ snd (AllowedCloudServices ctx))).
  { destruct (ListEvaluationResults_Filter r) as [f|]; [|by exists ""].
    apply check_access_allowed in Hacc as [?|Hacc]; [congruence|]. unfold GetFilterCloudServiceId in Hacc.
    destruct (EvaluationFilter_CloudServiceId f) as [cs|]; [by exists cs|]. by destruct (Hmt Hacc). }
  destruct Hcs as (cs & Hf & Hal).
  destruct (restricted_query (db_now (w_db w')) (pk T_EvaluationResult x) (col T_EvaluationResult x)
              (snd (AllowedCloudServices ctx)) cs _ Hf) as (b & Hb & Hsel).
  rewrite Hb in Hh. destruct b; [|done]. destruct (Hsel eq_refl) as (s & Hs & Hor).
  assert (s = EvaluationResult_CloudServiceId x) as -> by (by vm_compute in Hs; simplify_eq).
  destruct Hor as [?|[Hne ->]]; auto.
Qed.
End Runs.

(** ** The control cache *)

Section Cache.
Context {DB Sch T : Type} `{OrchestratorClient}.
Implicit Types w : World DB (EvaluationService Sch) T.

Definition tag_of (c : Control) : string := control_tag (Control_CategoryName c) (Control_Id c).

Lemma control_map_lookup controls tag :
  control_map controls !! tag = last (filter (fun c => tag_of c = tag) controls).
Proof.
  unfold control_map. rewrite (foldl_insert_lookup tag_of id). by destruct (last _).
Qed.

Lemma last_unique_tag controls c : NoDup (tag_of <$> controls) -> c ∈ controls ->
  last (filter (fun c' => tag_of c' = tag_of c) controls) = Some c.
Proof.
  intros Hnd (i & Hi)%list_elem_of_lookup.
  destruct (last (filter (fun c' => tag_of c' = tag_of c) controls)) as [c'|] eqn:El.
  - apply last_Some_elem_of, list_elem_of_filter in El as [Ht (j & Hj)%list_elem_of_lookup].
    assert (i = j) as <-.
    { eapply (NoDup_lookup _ i j (tag_of c)); [exact Hnd|rewrite list_lookup_fmap, Hi; done|].
      rewrite list_lookup_fmap, Hj. simpl. by rewrite Ht. }
    congruence.
  - apply last_None in El. assert (c ∈ @nil Control); [|set_solver].
    rewrite <-El. apply list_elem_of_filter. split; [done|]. by eapply list_elem_of_lookup_2.
Qed.

(** What a successful cacheControls leaves: exactly the controls of the catalog,
    found again by category name and control id as long as no two of them share
    the combined key, and the cache of every other catalog as it was. *)
Theorem cached_controls_found fuel catalogId w w' :
  cacheControls fuel catalogId w = (Returned (OK tt), w') ->
  exists controls w1,
    ListAllPaginated set_token_controls Page_NextPageToken fuel (mkListControlsRequest catalogId "" None no_paging)
      (fun req => remote (fun n => oc_ListControls n req)) Page_Items w = (Returned (OK controls), w1) /\
    controls <> [] /\
    (NoDup (tag_of <$> controls) -> forall c, c ∈ controls ->
       Control_CategoryName c <> "" -> Control_Id c <> "" ->
       getControl (w_svc w') catalogId (Control_CategoryName c) (Control_Id c) = OK c) /\
    (forall cat id c, getControl (w_svc w') catalogId cat id = OK c ->
       c ∈ controls /\ tag_of c = control_tag cat id) /\
    (forall other cat id, other <> catalogId ->
       getControl (w_svc w') other cat id = getControl (w_svc w1) other cat id).
Proof.
  unfold cacheControls, gguard. destruct (negb (bool_decide (catalogId = ""))) eqn:Ec; [|done].
  apply negb_true_iff, bool_decide_eq_false in Ec.
  intros (controls & w1 & Hl & Hk)%gtry_OK. exists controls, w1. split; [done|].
  destruct (negb (bool_decide (length controls = 0))) eqn:En; [|done].
  apply negb_true_iff, bool_decide_eq_false in En. injection Hk as <-. cbn [w_svc]. unfold getControl, set_controls. cbn [catalogControls].
  rewrite bool_decide_eq_false_2 by done. rewrite lookup_insert_eq.
  split_and!.
  - by intros ->.
  - intros Hnd c Hc Hcat Hid. rewrite !bool_decide_eq_false_2 by done.
    change (control_tag _ _) with (tag_of c). by rewrite control_map_lookup, last_unique_tag.
  - intros cat id c. repeat case_bool_decide; try done. rewrite control_map_lookup.
    destruct (last _) eqn:El; [|done]. intros [= ->].
    apply last_Some_elem_of, list_elem_of_filter in El as [Ht Hin]. done.
  - intros other cat id Hne. by rewrite lookup_insert_ne.
Qed.

Lemma subcontrol_metrics_spec (svc : EvaluationService Sch) l acc (f : Control -> Control) :
  (forall s, s ∈ l -> getControl svc (Control_CategoryCatalogId s) (Control_CategoryName s) (Control_Id s) = OK (f s)) ->
  subcontrol_metrics svc l acc = OK (acc ++ (l ≫= fun s => Control_Metrics (f s))).
Proof.
  revert acc. induction l as [|s l IH]; intros acc Hall; simpl; [by rewrite app_nil_r|].
  rewrite Hall by set_solver. rewrite IH by set_solver. by rewrite <-app_assoc.
Qed.

(** The metrics of a control are its own followed by those of its sub-controls,
    in order, when all of them are cached; a sub-control that is not cached makes
    the whole call fail. *)
Theorem all_metrics_of_control (svc : EvaluationService Sch) catalogId category id c :
  getControl svc catalogId category id = OK c ->
  (forall f : Control -> Control,
     (forall s, s ∈ Control_Controls c ->
        getControl svc (Control_CategoryCatalogId s) (Control_CategoryName s) (Control_Id s) = OK (f s)) ->
     getAllMetricsFromControl svc catalogId category id
     = OK (Control_Metrics c ++ (Control_Controls c ≫= fun s => Control_Metrics (f s)))) /\
  (forall s e, s ∈ Control_Controls c ->
     getControl svc (Control_CategoryCatalogId s) (Control_CategoryName s) (Control_Id s) = Err e ->
     exists e', getAllMetricsFromControl svc catalogId category id = Err e').
Proof.
  intros Hc. unfold getAllMetricsFromControl. rewrite Hc. split.
  - intros f Hall. destruct (Control_Controls c) as [|s l] eqn:El.
    + rewrite bool_decide_eq_false_2 by (intros ?; done). by rewrite app_nil_r.
    + rewrite bool_decide_eq_true_2 by done. unfold getMetricsFromSubcontrols.
      rewrite El, (subcontrol_metrics_spec svc _ [] f) by done. done.
  - intros s e Hs He. rewrite bool_decide_eq_true_2 by (destruct (Control_Controls c); set_solver).
    unfold getMetricsFromSubcontrols.
    assert (exists e', subcontrol_metrics svc (Control_Controls c) [] = Err e') as [e' ->]; [|by eexists].
    generalize (@nil Metric) as acc. induction (Control_Controls c) as [|s' l IH]; intros acc; [set_solver|]. simpl.
    destruct (getControl svc (Control_CategoryCatalogId s') _ _) as [c'|e'] eqn:Eg; [|by eexists]. apply IH.
    apply elem_of_cons in Hs as [->|Hs]; [congruence|done].
Qed.
End Cache.

(** ** Any sequence of calls *)

(** The target of evaluation the orchestrator reports is the requested one. *)
Class ToeLaws `{OrchestratorClient} : Prop :=
  toe_requested : forall n cs cat toe, oc_GetTargetOfEvaluation n cs cat = OK toe ->
    TargetOfEvaluation_CloudServiceId toe = cs /\ TargetOfEvaluation_CatalogId toe = cat.

Section Transitions.
Context {DB Sch T Ctx : Type}.
Context `{StorageLaws DB, Gocron Sch, !GocronLaws Sch, OrchestratorClient, !OrchestratorClientLaws, !ToeLaws}.
Context `{AuthorizationStrategy Ctx, TokenCodec, Env, Schedule}.
Context `{Validator StartEvaluationRequest, Validator StopEvaluationRequest,
          Validator ListEvaluationResultsRequest, Validator CreateEvaluationResultRequest}.
Abbreviation W := (World DB (EvaluationService Sch) T).
Abbreviation jobs_of w := (gc_jobs (scheduler (w_svc w))).

(** One step of the running service: a call returns, or a scheduled job runs. *)
Inductive eval_step : W -> W -> Prop :=
| step_start ctx fuel req r w w' : StartEvaluation ctx fuel req w = (Returned r, w') -> eval_step w w'
| step_stop ctx req r w w' : StopEvaluation ctx req w = (Returned r, w') -> eval_step w w'
| step_list ctx req r w w' : ListEvaluationResults ctx req w = (Returned r, w') -> eval_step w w'
| step_create ctx req r w w' : CreateEvaluationResult ctx req w = (Returned r, w') -> eval_step w w'
| step_job bg fuel j r w w' : j ∈ jobs_of w -> 0 < fuel ->
    evaluateCatalog bg fuel (job_toe j) (job_catalog j) w = (Returned r, w') -> eval_step w w'.

(** Every job carries the tags of its target of evaluation, and no two jobs
    evaluate the same cloud service against the same catalog. *)
Definition jobs_ok (js : list Job) : Prop :=
  NoDup (job_tags <$> js) /\
  forall j, j ∈ js -> job_interval j <> 0%Z /\
    job_tags j = [TargetOfEvaluation_CloudServiceId (job_toe j); TargetOfEvaluation_CatalogId (job_toe j)].

(** Exactly the manual results carry a validity. *)
Definition result_ok (r : EvaluationResult) : Prop :=
  is_manual (EvaluationResult_Status r) = true <-> EvaluationResult_ValidUntil r <> None.

Definition service_ok (w : W) : Prop :=
  jobs_ok (jobs_of w) /\ forall r, r ∈ rows T_EvaluationResult (w_db w) -> result_ok r.

Lemma jobs_ok_perm js js' : js ≡ₚ js' -> jobs_ok js -> jobs_ok js'.
Proof.
  intros Hp [Hnd Hj]. split; [by rewrite <-Hp|]. intros j Hin. apply Hj. by rewrite Hp.
Qed.

Lemma jobs_ok_filter (P : Job -> Prop) `{!forall j, Decision (P j)} js : jobs_ok js -> jobs_ok (filter P js).
Proof.
  intros [Hnd Hj]. split.
  - eapply sublist_NoDup; [exact Hnd|]. apply fmap_sublist, sublist_filter.
  - intros j [_ Hin]%list_elem_of_filter. auto.
Qed.

(** Scheduling does not touch the database. *)
Lemma addJob_run toe catalog interval (w : W) :
  jobs_ok (jobs_of w) -> interval <> 0%Z ->
  [TargetOfEvaluation_CloudServiceId toe; TargetOfEvaluation_CatalogId toe] ∉ (job_tags <$> jobs_of w) ->
  exists r w', addJobToScheduler (Some toe) catalog interval w = (Returned r, w') /\
    w_db w' = w_db w /\ catalogControls (w_svc w') = catalogControls (w_svc w) /\ jobs_ok (jobs_of w') /\
    match r with
    | OK _ => jobs_of w' ≡ₚ mkJob [TargetOfEvaluation_CloudServiceId toe; TargetOfEvaluation_CatalogId toe]
                               interval toe catalog :: jobs_of w
    | Err e => jobs_of w' = jobs_of w /\ exists m, e = EStatus codes_Internal m
    end.
Proof.
  intros Hj Hi Hfree. unfold addJobToScheduler. rewrite bool_decide_eq_false_2 by done.
  unfold gbind, svc_read, svc_modify. cbn [id]. set (job := mkJob _ _ _ _).
  destruct (gc_Every job (scheduler (w_svc w))) as [e s] eqn:Ee. cbn.
  destruct e as [e|]; do 2 eexists; (split; [reflexivity|]); cbn; split_and!; auto.
  - by rewrite (gc_every_err _ _ _ _ Ee).
  - by rewrite (gc_every_err _ _ _ _ Ee).
  - by eexists.
  - apply (jobs_ok_perm (job :: jobs_of w)); [by rewrite (gc_every_ok _ _ _ Ee)|].
    destruct Hj as [Hnd Hj]. split; [by constructor|]. intros j [->|Hin]%elem_of_cons; [done|auto].
  - by apply gc_every_ok.
Qed.

(** *** Starting and stopping *)

(** Storing the controls of a catalog leaves the database and the jobs alone. *)
Lemma cacheControls_frame fuel cat (w : W) o w' :
  cacheControls fuel cat w = (o, w') -> w_db w' = w_db w /\ jobs_of w' = jobs_of w.
Proof.
  assert (Hloop : forall fuel (req : ListControlsRequest) acc tok (w : W) o w',
    list_all_loop set_token_controls Page_NextPageToken fuel req
      (fun req => remote (fun n => oc_ListControls n req)) Page_Items acc tok w = (o, w') ->
    w_db w' = w_db w /\ w_svc w' = w_svc w).
  { clear. induction fuel as [|fuel IH]; intros req acc tok w o w' Hr; cbn [list_all_loop] in Hr; [by go_done Hr|].
    unfold gtry, gbind, remote in Hr. destruct (oc_ListControls _ _) as [p|e]; [|by go_done Hr].
    case_bool_decide; [by go_done Hr|]. by apply IH in Hr. }
  unfold cacheControls, gguard. destruct (negb _); [|intros Hr; by go_done Hr].
  unfold gtry, gbind. destruct (ListAllPaginated _ _ _ _ _ _ w) as [r w1] eqn:El. apply Hloop in El as [Hd Hs].
  intros Hr. assert (Hw : w_db w' = w_db w1 /\ jobs_of w' = jobs_of w1).
  { destruct r as [[controls|e]| |]; [destruct (negb _)|..]; by go_done Hr. }
  destruct Hw as [-> ->]. by rewrite Hd, Hs.
Qed.

(** What a call of StartEvaluation may do: it leaves the database alone, keeps the
    jobs distinct, and on success schedules one new job, for the requested cloud
    service and catalog, with the requested interval or the default one. *)
Definition interval_of (q : StartEvaluationRequest) : Z :=
  if bool_decide (Deref (StartEvaluation_Interval q) = 0%Z) then defaultInterval
  else Deref (StartEvaluation_Interval q).

Definition tags_of (q : StartEvaluationRequest) : list string :=
  [StartEvaluation_CloudServiceId q; StartEvaluation_CatalogId q].

Definition started (q : StartEvaluationRequest) (w : W) (r : res bool) (w' : W) : Prop :=
  w_db w' = w_db w /\ jobs_ok (jobs_of w') /\
  match r with
  | OK _ => tags_of q ∉ (job_tags <$> jobs_of w) /\ exists toe catalog,
      TargetOfEvaluation_CloudServiceId toe = StartEvaluation_CloudServiceId q /\
      TargetOfEvaluation_CatalogId toe = StartEvaluation_CatalogId q /\
      jobs_of w' ≡ₚ mkJob (tags_of q) (interval_of q) toe catalog :: jobs_of w
  | Err _ => jobs_of w' = jobs_of w
  end.

Lemma started_err q e (w w' : W) :
  jobs_ok (jobs_of w) -> w_db w' = w_db w -> jobs_of w' = jobs_of w -> started q w (Err e) w'.
Proof. intros Hj Hd Hjs. unfold started. by rewrite Hjs. Qed.

(** Scheduling when no job has the tags. *)
Lemma schedule_new q toe catalog (w0 w : W) r w' :
  jobs_ok (jobs_of w0) -> w_db w = w_db w0 -> jobs_of w = jobs_of w0 ->
  TargetOfEvaluation_CloudServiceId toe = StartEvaluation_CloudServiceId q ->
  TargetOfEvaluation_CatalogId toe = StartEvaluation_CatalogId q ->
  filter (fun j => tags_of q ⊆ job_tags j) (jobs_of w) = [] ->
  gtry (addJobToScheduler (Some toe) catalog (interval_of q)) id (fun _ => gok true) w = (Returned r, w') ->
  started q w0 r w'.
Proof.
  intros Hj Hd Hjs Hcs Hcat Hnone.
  assert (Htags : [TargetOfEvaluation_CloudServiceId toe; TargetOfEvaluation_CatalogId toe] = tags_of q).
  { unfold tags_of. by rewrite Hcs, Hcat. }
  assert (Hfree : tags_of q ∉ (job_tags <$> jobs_of w)).
  { intros (j & Ht & Hin)%list_elem_of_fmap. assert (j ∈ @nil Job) as Hnil; [|set_solver].
    rewrite <-Hnone. apply list_elem_of_filter. rewrite <-Ht. done. }
  destruct (addJob_run toe catalog (interval_of q) w) as (r0 & w4 & Hadd & Hd4 & _ & Hok & Hres);
    [by rewrite Hjs|unfold interval_of; case_bool_decide; done|by rewrite Htags|].
  unfold gtry, gbind. rewrite Hadd. rewrite Htags, Hjs in Hres. rewrite Hjs in Hfree.
  unfold started. destruct r0 as [u0|e0]; intros Hr0; go_done Hr0.
  - split_and!; [congruence|done|done|]. eauto.
  - split_and!; [congruence|done|]. by destruct Hres as [-> _].
Qed.

Lemma StartEvaluation_run ctx fuel req (w : W) r w' :
  jobs_ok (jobs_of w) -> StartEvaluation ctx fuel req w = (Returned r, w') ->
  (w' = w /\ exists e, r = Err e) \/
  exists q, req = Some q /\ CheckAccess ctx AccessCreate (StartEvaluation_CloudServiceId q) = true /\ started q w r w'.
Proof.
  intros Hj. unfold StartEvaluation. run_valid as q Hv; [intros; simplify_eq; eauto|].
  unfold gguard. destruct (CheckAccess _ _ _) eqn:Ea; [|intros Hr; go_done Hr; eauto].
  intros Hr. right. exists q. split_and!; [done..|]. revert Hr.
  fold (interval_of q). cbv zeta. unfold gbind at 1, svc_modify. set (w1 := mkWorld _ _ _ _).
  unfold gtry at 1, gbind at 1. destruct (cacheControls fuel _ w1) as [o w2] eqn:Ec.
  apply cacheControls_frame in Ec as [Hd2 Hj2]. change (w_db w1) with (w_db w) in Hd2.
  assert (Hj1 : jobs_of w1 = jobs_of w) by apply gc_start_jobs. rewrite Hj1 in Hj2.
  destruct o as [[u|e]| |]; intros Hr; try done; [|go_done Hr; by apply started_err].
  unfold gtry at 1, gbind at 1, remote in Hr.
  destruct (oc_GetTargetOfEvaluation _ _ _) as [toe|e] eqn:Et; [|go_done Hr; by apply started_err].
  unfold gtry at 1, gbind at 1 in Hr. cbn [w_db w_svc w_tasks w_tick] in Hr.
  destruct (oc_GetCatalog _ _) as [catalog|e]; [|go_done Hr; by apply started_err].
  unfold gbind at 1, svc_read in Hr. cbn [id w_svc] in Hr. destruct (toe_requested _ _ _ _ Et) as [Hcs Hcat].
  fold (tags_of q) in Hr. destruct (gc_FindJobsByTag _ _) as [js|e] eqn:Ef.
  - case_bool_decide as Hl; [go_done Hr; by apply started_err|].
    refine (schedule_new q toe catalog w _ r w' Hj _ _ Hcs Hcat _ Hr); [done..|].
    apply gc_find_ok in Ef. destruct js; [done|simpl in *; lia].
  - destruct (errors_Is e _) eqn:Ei; [|go_done Hr; by apply started_err].
    refine (schedule_new q toe catalog w _ r w' Hj _ _ Hcs Hcat _ Hr); [done..|]. by eapply gc_find_none.
Qed.

Lemma StopEvaluation_run ctx req (w : W) r w' :
  StopEvaluation ctx req w = (Returned r, w') ->
  (w' = w /\ exists e, r = Err e) \/
  exists q, req = Some q /\ CheckAccess ctx AccessCreate (StopEvaluation_CloudServiceId q) = true /\
    w_db w' = w_db w /\
    let tags := [StopEvaluation_CloudServiceId q; StopEvaluation_CatalogId q] in
    match r with
    | OK _ => jobs_of w' = filter (fun j => ~ tags ⊆ job_tags j) (jobs_of w)
    | Err _ => jobs_of w' = jobs_of w
    end.
Proof.
  unfold StopEvaluation. run_valid as q Hv; [intros; simplify_eq; eauto|].
  unfold gguard. destruct (CheckAccess _ _ _) eqn:Ea; [|intros Hr; go_done Hr; eauto].
  intros Hr. right. exists q. split_and!; [done..| |]; revert Hr;
    unfold gbind, svc_read, svc_modify; cbn [id];
    destruct (gc_RemoveByTags _ _) as [e s] eqn:Er; intros Hr.
  - destruct e as [e|]; [destruct (errors_Is _ _)|]; by go_done Hr.
  - destruct e as [e|]; [destruct (errors_Is _ _)|]; go_done Hr; cbn.
    + by apply gc_remove_err in Er.
    + by apply gc_remove_err in Er.
    + by apply gc_remove_ok in Er.
Qed.

Lemma CreateEvaluationResult_run ctx req (w : W) r w' :
  CreateEvaluationResult ctx req w = (Returned r, w') ->
  w_svc w' = w_svc w /\ w_tasks w' = w_tasks w /\
  match r with
  | Err _ => w_db w' = w_db w
  | OK x => exists q x0, req = Some q /\ CreateEvaluationResult_Result q = Some x0 /\
      x = with_id (uuid_at (w_tick w)) x0 /\ is_manual (EvaluationResult_Status x0) = true /\
      EvaluationResult_ValidUntil x0 <> None /\
      CheckAccess ctx AccessCreate (EvaluationResult_CloudServiceId x0) = true /\
      rows T_EvaluationResult (w_db w') ≡ₚ x :: rows T_EvaluationResult (w_db w) /\
      forall t, t <> T_EvaluationResult -> rows t (w_db w') = rows t (w_db w)
  end.
Proof.
  unfold CreateEvaluationResult. run_valid as q Hv; [intros; by simplify_eq|].
  destruct (CreateEvaluationResult_Result q) as [x0|] eqn:Ex; [|done].
  unfold gbind at 1, gderef, gret. cbn [CreateEvaluationResult_GetCloudServiceId].
  unfold gguard. destruct (is_manual _) eqn:Em; [|intros Hr; by go_done Hr].
  case_bool_decide as Hu; [|intros Hr; by go_done Hr].
  destruct (CheckAccess _ _ _) eqn:Ea; [|intros Hr; by go_done Hr].
  unfold gbind at 1, uuid_NewString, gtry, gbind. set (x := with_id _ x0). set (w1 := mkWorld _ _ _ _).
  unfold storage_Create, db_exec. destruct (st_Create T_EvaluationResult x (w_db w1)) as [[e|] db'] eqn:Ec; intros Hr; cbn [err_res] in Hr; go_done Hr; cbn.
  - apply create_err in Ec. split_and!; [done..|]. exact Ec.
  - split_and!; [done..|]. exists q, x0. split_and!; auto.
    + by apply (create_flat T_EvaluationResult) in Ec.
    + intros t Hne. by rewrite (frame_create T_EvaluationResult _ _ _ _ eq_refl Ec t Hne).
Qed.

(** C34. A manual result is stored exactly as sent, under a fresh id, only for callers
    with access to its cloud service and only with a manual status and a
    validity; every other request leaves the database as it was. *)
Theorem create_result_correct ctx req (w : W) r w' :
  CreateEvaluationResult ctx req w = (Returned r, w') ->
  match r with
  | Err _ => w_db w' = w_db w
  | OK x => exists q x0, req = Some q /\ CreateEvaluationResult_Result q = Some x0 /\
      x = with_id (uuid_at (w_tick w)) x0 /\ is_manual (EvaluationResult_Status x0) = true /\
      EvaluationResult_ValidUntil x0 <> None /\
      CheckAccess ctx AccessCreate (EvaluationResult_CloudServiceId x0) = true /\
      rows T_EvaluationResult (w_db w') ≡ₚ x :: rows T_EvaluationResult (w_db w)
  end.
Proof.
  intros Hr. destruct (CreateEvaluationResult_run ctx req w r w' Hr) as (_ & _ & Hm). destruct r; [|done].
  destruct Hm as (q & x0 & ? & ? & ? & ? & ? & ? & ? & _). exists q, x0. by split_and!.
Qed.

Lemma automatic_ok toe r : automatic toe r -> result_ok r.
Proof. intros (Hm & Hv & _). unfold result_ok. rewrite Hm, Hv. naive_solver. Qed.

Lemma service_ok_step (w w' : W) : service_ok w -> eval_step w w' -> service_ok w'.
Proof.
  intros [Hj Hr] Hstep.
  destruct Hstep as [ctx fuel req r w w' Hc|ctx req r w w' Hc|ctx req r w w' Hc|ctx req r w w' Hc|bg fuel j r w w' Hin Hf Hc].
  - apply StartEvaluation_run in Hc as [[-> _]|(q & _ & _ & Hd & Hj' & _)]; [done| |done].
    split; [done|]. by rewrite Hd.
  - apply StopEvaluation_run in Hc as [[-> _]|(q & _ & _ & Hd & Hjs)]; [done|]. split; [|by rewrite Hd].
    destruct r; rewrite Hjs; [by apply jobs_ok_filter|done].
  - destruct (ListEvaluationResults_run ctx req w) as [[e He]|(p & q & Hp & _)]; [rewrite He in Hc|rewrite Hp in Hc];
      by simplify_eq.
  - apply CreateEvaluationResult_run in Hc as (Hs & _ & Hm). split; [by rewrite Hs|].
    destruct r as [x|e]; [|by rewrite Hm]. destruct Hm as (q & x0 & _ & _ & -> & Hman & Hv & _ & Hrows & _).
    intros y. rewrite Hrows. intros [->|?]%elem_of_cons; [|auto]. unfold result_ok. simpl. by rewrite Hman.
  - destruct (evaluateCatalog_run bg fuel (job_toe j) (job_catalog j) w Hf)
      as (r' & w1 & ys & Hrun & (Hs & _ & Hrows & _) & Ha & _). rewrite Hrun in Hc. simplify_eq.
    split; [by rewrite Hs|]. intros y. rewrite Hrows. intros [Hy|?]%elem_of_app; [|auto].
    rewrite Forall_forall in Ha. by eapply automatic_ok, Ha.
Qed.

(** C11. Whatever sequence of calls and job runs the service goes through from a state
    in which it holds: no two scheduled jobs evaluate the same cloud service
    against the same catalog, every job is tagged with its own cloud service and
    catalog and has a non-zero interval, and exactly the manual results in the
    database carry a validity. *)
Theorem service_invariant (w w' : W) : service_ok w -> rtc eval_step w w' -> service_ok w'.
Proof. intros Hok Hr. induction Hr as [|w1 w2 w3 Hs _ IH]; [done|]. by apply IH, (service_ok_step w1). Qed.

(** C35. Starting is exclusive: after a successful StartEvaluation, another one for the
    same cloud service and catalog cannot succeed, and after a successful
    StopEvaluation no job for them is left. *)
Theorem start_stop_exclusive ctx fuel q (w w1 : W) b :
  jobs_ok (jobs_of w) ->
  StartEvaluation ctx fuel (Some q) w = (Returned (OK b), w1) ->
  (exists toe catalog, jobs_of w1 ≡ₚ mkJob (tags_of q) (interval_of q) toe catalog :: jobs_of w) /\
  (forall ctx' fuel' r w2, StartEvaluation ctx' fuel' (Some q) w1 = (Returned r, w2) ->
     exists e, r = Err e /\ jobs_of w2 = jobs_of w1) /\
  (forall ctx' w2, StopEvaluation ctx'
       (Some (mkStopEvaluationRequest (StartEvaluation_CloudServiceId q) (StartEvaluation_CatalogId q))) w1
     = (Returned (OK tt), w2) -> forall j, j ∈ jobs_of w2 <-> j ∈ jobs_of w1 /\ ~ tags_of q ⊆ job_tags j).
Proof.
  intros Hj Hs. apply StartEvaluation_run in Hs as [[_ [e [=]]]|(q' & [= <-] & _ & Hd & Hj1 & Hnew & toe & cat & _ & _ & Hp)]; [|done].
  split_and!.
  - eauto.
  - intros ctx' fuel' r w2 Hs. apply StartEvaluation_run in Hs as [[-> [e ->]]|(q' & [= <-] & _ & _ & _ & Hr)]; [eauto| |done].
    destruct r as [b'|e]; [|eauto]. destruct Hr as [Hfree _]. exfalso. apply Hfree. rewrite Hp. cbn. set_solver.
  - intros ctx' w2 Hs. apply StopEvaluation_run in Hs as [[_ [e [=]]]|(q' & [= <-] & _ & _ & Hjs)].
    intros j. cbn in Hjs. rewrite Hjs, list_elem_of_filter. tauto.
Qed.
End Transitions.
