(* ===== verification/EvaluationConcurrent.v ===== *)
(** Concurrent calls of StartEvaluation (service/evaluation/evaluation.go).

    gRPC runs every call in a goroutine of its own, and the service has no lock: the
    control cache is filled entry by entry, and the scheduler is asked for a job
    before one is added.  Here the steps of the calls are interleaved.  Once no call
    is filling the cache of a catalog, it holds exactly the controls of the catalog,
    whatever the order of the steps; every call that succeeds has added one job.
    But an evaluation in between finds only a part of the controls, and two calls
    for the same target can both add a job. *)

From S2P Require Import Prelude GoRuntime GoStrings Util Api Sql Storage Authz Pagination Evaluation EvaluationProofs.

(** Where a call is: the request was accepted; the controls of the list are still to
    be put into the cache; target and catalog were fetched; the scheduler had no job
    for them; the answer. *)
Inductive start_pc :=
| Accepted
| Filling (rest : list Control)
| Fetched (toe : TargetOfEvaluation) (catalog : Catalog)
| NoJobFound (toe : TargetOfEvaluation) (catalog : Catalog)
| Answered (r : res bool).

Record start_call := mkStartCall {
  start_CloudServiceId : string;
  start_CatalogId : string;
  start_interval : Z;
  start_at : start_pc;
}.

Definition at_pc (pc : start_pc) (c : start_call) : start_call :=
  mkStartCall (start_CloudServiceId c) (start_CatalogId c) (start_interval c) pc.

Section Starts.
Context {Sch : Type} `{Gocron Sch}.
Abbreviation Svc := (EvaluationService Sch).

(** The orchestrator, whose answers do not change: the controls of a catalog on all
    pages, targets of evaluation and catalogs. *)
Context (controls_of : string -> res (list Control)) (toe_of : string -> string -> res TargetOfEvaluation)
  (catalog_of : string -> res Catalog).

(** [svc.catalogControls[catalogId][tag] = control], in the map that is there now *)
Definition put_control (catalogId : string) (c : Control) (svc : Svc) : Svc :=
  set_controls catalogId (<[tag_of c := c]> (default ∅ (catalogControls svc !! catalogId))) svc.

(** The next step of a call, which ends with an access to what is shared. *)
Definition start_next (c : start_call) (svc : Svc) : option (Svc * start_call) :=
  let cs := start_CloudServiceId c in
  let cat := start_CatalogId c in
  match start_at c with
  | Accepted =>
      Some (if bool_decide (cat = "") then (svc, at_pc (Answered (Err (internal "could not cache controls" ErrCatalogIdIsMissing))) c)
            else match controls_of cat with
                 | Err e => (svc, at_pc (Answered (Err (internal "could not cache controls" e))) c)
                 | OK [] => (svc, at_pc (Answered (Err (internal "could not cache controls"
                              (EText ("no controls for catalog '" +:+ cat +:+ "' available"))))) c)
                 | OK controls => (set_controls cat ∅ svc, at_pc (Filling controls) c)
                 end)
  | Filling (x :: rest) => Some (put_control cat x svc, at_pc (Filling rest) c)
  | Filling [] =>
      Some (svc, at_pc (match toe_of cs cat with
                        | Err e => Answered (Err (internal "could not get target of evaluation" e))
                        | OK toe => match catalog_of cat with
                                    | Err e => Answered (Err (internal "could not get catalog" e))
                                    | OK catalog => Fetched toe catalog
                                    end
                        end) c)
  | Fetched toe catalog =>
      Some (svc, at_pc (match gc_FindJobsByTag [cs; cat] (scheduler svc) with
                        | Err e => if errors_Is e ErrJobNotFoundWithTag then NoJobFound toe catalog
                                   else Answered (Err (internal "error while retrieving existing scheduler job" e))
                        | OK jobs => if bool_decide (0 < length jobs)
                                     then Answered (Err (EStatus codes_AlreadyExists
                                       ("evaluation for Cloud Service '" +:+ TargetOfEvaluation_CloudServiceId toe +:+
                                        "' and Catalog ID '" +:+ TargetOfEvaluation_CatalogId toe +:+ "' already started")))
                                     else NoJobFound toe catalog
                        end) c)
  | NoJobFound toe catalog =>
      let '(r, w) := addJobToScheduler (DB := unit) (T := unit) (Some toe) catalog (start_interval c) (mkWorld tt svc [] 0) in
      Some (w_svc w, at_pc (Answered (match r with Returned (OK _) => OK true | Returned (Err e) => Err e | _ => OK true end)) c)
  | Answered _ => None
  end.

(** The service with the calls that are under way. *)
Record starts := mkStarts { st_svc : Svc; st_calls : list start_call }.

Inductive starts_step : starts -> starts -> Prop :=
| starts_call i c c' svc svc' calls : calls !! i = Some c -> start_next c svc = Some (svc', c') ->
    starts_step (mkStarts svc calls) (mkStarts svc' (<[i := c']> calls))
| starts_new cs cat interval svc calls :
    starts_step (mkStarts svc calls)
      (mkStarts (set_scheduler (gc_StartAsync (scheduler svc)) svc) (calls ++ [mkStartCall cs cat interval Accepted])).

(** ** The cache *)

Section Cache.
Context (cat : string) (l : list Control) (Hl : controls_of cat = OK l) (Hnd : NoDup (tag_of <$> l)).

(** A call that still has to put a control of the catalog under the key. *)
Definition will_put (k : string) (calls : list start_call) : Prop :=
  exists c rest, c ∈ calls /\ start_CatalogId c = cat /\ start_at c = Filling rest /\ k ∈ tag_of <$> rest.

(** What is filled in are controls of the catalog; and what is missing in the cache
    will be put by a call. *)
Definition cache_inv (s : starts) : Prop :=
  (forall c rest, c ∈ st_calls s -> start_CatalogId c = cat -> start_at c = Filling rest ->
     rest ⊆ l /\ is_Some (catalogControls (st_svc s) !! cat)) /\
  match catalogControls (st_svc s) !! cat with
  | None => True
  | Some m => m ⊆ control_map l /\ forall k, is_Some (control_map l !! k) -> is_Some (m !! k) \/ will_put k (st_calls s)
  end.

Lemma control_map_at c : c ∈ l -> control_map l !! tag_of c = Some c.
Proof. intros Hc. rewrite control_map_lookup. by apply last_unique_tag. Qed.

Lemma call_replaced {A} (calls : list A) i c c' : calls !! i = Some c ->
  (forall x, x ∈ <[i := c']> calls -> x = c' \/ x ∈ calls) /\ (forall x, x ∈ calls -> x = c \/ x ∈ <[i := c']> calls) /\
  c' ∈ <[i := c']> calls.
Proof.
  intros Hi. pose proof (lookup_lt_Some _ _ _ Hi) as Hlt. split_and!.
  - intros x [j Hj]%list_elem_of_lookup. apply list_lookup_insert_Some in Hj as [(_ & -> & _)|[_ Hj]]; [by left|].
    right. by eapply list_elem_of_lookup_2.
  - intros x [j Hj]%list_elem_of_lookup. destruct (decide (j = i)) as [->|Hne]; [left; congruence|]. right.
    apply (list_elem_of_lookup_2 _ j). by rewrite list_lookup_insert_ne.
  - apply (list_elem_of_lookup_2 _ i). by apply list_lookup_insert_eq.
Qed.

(** A call that is not filling the cache of the catalog makes no difference. *)
Lemma will_put_replaced k calls i c c' : calls !! i = Some c -> will_put k calls ->
  (forall rest, start_CatalogId c = cat -> start_at c = Filling rest -> k ∈ tag_of <$> rest ->
     exists rest', start_CatalogId c' = cat /\ start_at c' = Filling rest' /\ k ∈ tag_of <$> rest') ->
  will_put k (<[i := c']> calls).
Proof.
  intros Hi (x & rest & Hx & Hcat & Hat & Hk) Hc. destruct (call_replaced calls i c c' Hi) as (_ & Hback & Hin).
  destruct (Hback x Hx) as [->|Hx']; [|by exists x, rest].
  destruct (Hc rest Hcat Hat Hk) as (rest' & ? & ? & ?). by exists c', rest'.
Qed.

Lemma cache_inv_replaced svc calls i c c' : calls !! i = Some c -> cache_inv (mkStarts svc calls) ->
  (forall rest, start_CatalogId c = cat -> start_at c = Filling rest -> rest = []) ->
  (forall rest, start_at c' = Filling rest -> start_CatalogId c' <> cat) ->
  cache_inv (mkStarts svc (<[i := c']> calls)).
Proof.
  intros Hi [Hsub Hm] Hc Hc'. destruct (call_replaced calls i c c' Hi) as (Hfwd & _ & _). split; cbn in *.
  - intros x rest [->|Hx]%Hfwd Hcat Hat; [by destruct (Hc' rest)|by eapply Hsub].
  - destruct (catalogControls svc !! cat) as [m|]; [|done]. destruct Hm as [Hsm Hk]. split; [done|]. intros k Hkl.
    destruct (Hk k Hkl) as [?|Hw]; [by left|right]. eapply will_put_replaced; [done..|]. intros rest Hcat Hat Hin.
    rewrite (Hc rest Hcat Hat) in Hin. by apply elem_of_nil in Hin.
Qed.

(** For a call that is not filling the cache of the catalog. *)
Ltac idle := eapply cache_inv_replaced; [done|done|intros; congruence|try done].

(** The first step of a call for the catalog empties its cache. *)
Lemma cache_inv_reset svc calls i c : calls !! i = Some c -> cache_inv (mkStarts svc calls) -> start_CatalogId c = cat ->
  cache_inv (mkStarts (set_controls cat ∅ svc) (<[i := at_pc (Filling l) c]> calls)).
Proof.
  intros Hi [Hsub _] Hcat. destruct (call_replaced calls i c (at_pc (Filling l) c) Hi) as (Hfwd & _ & Hin). split; cbn in *.
  - rewrite lookup_insert_eq. intros x rest [->|Hx]%Hfwd Hx1 Hx2; [injection Hx2 as <-; by split; [|eexists]|].
    split; [by eapply Hsub|by eexists].
  - rewrite lookup_insert_eq. split; [apply map_empty_subseteq|]. intros k [x Hx]. right.
    exists (at_pc (Filling l) c), l. split_and!; [done..|]. rewrite control_map_lookup in Hx. apply last_Some_elem_of in Hx.
    apply list_elem_of_filter in Hx as [<- Hx]. by apply list_elem_of_fmap_2.
Qed.

Lemma cache_inv_put svc calls i c x rest : calls !! i = Some c -> cache_inv (mkStarts svc calls) -> start_CatalogId c = cat ->
  start_at c = Filling (x :: rest) ->
  cache_inv (mkStarts (put_control cat x svc) (<[i := at_pc (Filling rest) c]> calls)).
Proof.
  intros Hi [Hsub Hm] Hcat Hat. destruct (call_replaced calls i c (at_pc (Filling rest) c) Hi) as (Hfwd & _ & Hin). cbn in *.
  destruct (Hsub c (x :: rest)) as [Hxl [m Hsome]]; [by eapply list_elem_of_lookup_2|done..|]. rewrite Hsome in Hm.
  destruct Hm as [Hsm Hk]. unfold put_control, cache_inv. rewrite Hsome. cbn. rewrite lookup_insert_eq. split.
  - intros y r [->|Hy]%Hfwd Hy1 Hy2; [injection Hy2 as <-; split; [set_solver|by eexists]|split; [by eapply Hsub|by eexists]].
  - split; [apply insert_subseteq_l; [apply control_map_at; set_solver|done]|]. intros k Hkl.
    destruct (decide (k = tag_of x)) as [->|Hne]; [left; rewrite lookup_insert_eq; by eexists|].
    rewrite lookup_insert_ne by done. destruct (Hk k Hkl) as [?|Hw]; [by left|right].
    eapply will_put_replaced; [done..|]. intros r Hr1 Hr2 Hr3. rewrite Hat in Hr2. injection Hr2 as <-.
    exists rest. split_and!; [done..|]. set_solver.
Qed.

(** Calls for other catalogs do not touch the cache of this one. *)
Lemma cache_inv_same svc svc' calls : catalogControls svc' !! cat = catalogControls svc !! cat ->
  cache_inv (mkStarts svc calls) -> cache_inv (mkStarts svc' calls).
Proof. unfold cache_inv. cbn. by intros ->. Qed.

Lemma start_next_inv svc calls i c svc' c' : calls !! i = Some c -> start_next c svc = Some (svc', c') ->
  cache_inv (mkStarts svc calls) -> cache_inv (mkStarts svc' (<[i := c']> calls)).
Proof.
  intros Hi Hn Hinv. unfold start_next in Hn. destruct (start_at c) as [|[|x rest]|toe catalog|toe catalog|r] eqn:Hat; [| | | | |done].
  - case_bool_decide as Hempty; [injection Hn as <- <-; idle|].
    destruct (decide (start_CatalogId c = cat)) as [Hcat|Hcat].
    + rewrite Hcat, Hl in Hn. destruct l as [|y l'] eqn:El; injection Hn as <- <-; [idle|].
      rewrite <-El in *. by apply cache_inv_reset.
    + destruct (controls_of (start_CatalogId c)) as [[|y l']|e]; injection Hn as <- <-;
        [idle| |idle].
      apply (cache_inv_same svc); [cbn; by rewrite lookup_insert_ne|]. idle.
  - injection Hn as <- <-. idle. cbn. intros rest. by repeat case_match.
  - injection Hn as <- <-. destruct (decide (start_CatalogId c = cat)) as [Hcat|Hcat]; [rewrite Hcat; by apply cache_inv_put|].
    apply (cache_inv_same svc); [cbn; by rewrite lookup_insert_ne|]. idle.
  - injection Hn as <- <-. idle. cbn. intros rest. by repeat case_match.
  - destruct (addJobToScheduler _ _ _ _) as [r w] eqn:Ha. injection Hn as <- <-.
    apply (cache_inv_same svc); [|idle].
    unfold addJobToScheduler in Ha. repeat case_match; go_unfold; simplify_eq/=; by repeat case_match; simplify_eq/=.
Qed.

Lemma starts_step_inv s s' : starts_step s s' -> cache_inv s -> cache_inv s'.
Proof.
  destruct 1 as [i c c' svc svc' calls Hi Hn|cs0 cat0 interval svc calls]; [by eapply start_next_inv|].
  intros [Hsub Hm]. split; cbn in *.
  - intros c rest [Hc|Hc]%elem_of_app Hcat Hat; [by eapply Hsub|]. apply list_elem_of_singleton in Hc as ->. done.
  - destruct (catalogControls svc !! cat) as [m|]; [|done]. destruct Hm as [? Hk]. split; [done|]. intros k Hkl.
    destruct (Hk k Hkl) as [?|(c & rest & Hc & Hrest)]; [by left|right]. exists c, rest. split; [|done]. apply elem_of_app. by left.
Qed.

(** The cache is right: it was never filled, or it has exactly the controls. *)
Definition cache_right (svc : Svc) : Prop := forall m, catalogControls svc !! cat = Some m -> m = control_map l.

Lemma cache_run svc s : cache_right svc -> rtc starts_step (mkStarts svc []) s -> cache_inv s.
Proof.
  intros Hr Hrun. assert (H0 : cache_inv (mkStarts svc [])).
  { split; cbn; [by intros c rest ?%elem_of_nil|]. destruct (catalogControls svc !! cat) as [m|] eqn:Hm; [|done].
    rewrite (Hr m Hm). split; [done|by left]. }
  remember (mkStarts svc []) as s0 eqn:E. clear E Hr. revert H0. induction Hrun as [|s1 s2 s3 Hs _ IH]; [done|].
  intros H1. apply IH. by eapply starts_step_inv.
Qed.

(** Whatever the order in which the steps of concurrent calls are made: an evaluation
    finds controls of the catalog only, and all of them as soon as no call is
    filling the cache. *)
Lemma cache_converges svc s m : cache_right svc -> rtc starts_step (mkStarts svc []) s ->
  catalogControls (st_svc s) !! cat = Some m ->
  m ⊆ control_map l /\
  ((forall c x rest, c ∈ st_calls s -> start_CatalogId c = cat -> start_at c <> Filling (x :: rest)) -> m = control_map l).
Proof.
  intros Hr Hrun Hm. destruct (cache_run svc s Hr Hrun) as [_ Hi]. rewrite Hm in Hi. destruct Hi as [Hsub Hk]. split; [done|].
  intros Hidle. apply map_eq. intros k. destruct (control_map l !! k) as [c|] eqn:Ec.
  - destruct (Hk k) as [[c' Hc']|(x & rest & Hx & Hcat & Hat & Hin)]; [by eexists| |].
    + rewrite Hc'. pose proof (lookup_weaken _ _ _ _ Hc' Hsub). congruence.
    + destruct rest as [|y rest]; [by apply elem_of_nil in Hin|]. by destruct (Hidle x y rest).
  - destruct (m !! k) as [c'|] eqn:Ec'; [|done]. pose proof (lookup_weaken _ _ _ _ Ec' Hsub). congruence.
Qed.
End Cache.

(** ** The jobs *)

Context `{!GocronLaws Sch}.

(** The job that a successful call has added. *)
Definition job_added (c : start_call) : list Job :=
  match start_at c, toe_of (start_CloudServiceId c) (start_CatalogId c), catalog_of (start_CatalogId c) with
  | Answered (OK _), OK toe, OK catalog =>
      [mkJob [TargetOfEvaluation_CloudServiceId toe; TargetOfEvaluation_CatalogId toe] (start_interval c) toe catalog]
  | _, _, _ => []
  end.

(** What a call has fetched is what the orchestrator answers. *)
Definition fetched_right (c : start_call) : Prop := forall toe catalog,
  start_at c = Fetched toe catalog \/ start_at c = NoJobFound toe catalog ->
  toe_of (start_CloudServiceId c) (start_CatalogId c) = OK toe /\ catalog_of (start_CatalogId c) = OK catalog.

Lemma add_job_run toe catalog interval (svc : Svc) :
  exists r w', addJobToScheduler (DB := unit) (T := unit) (Some toe) catalog interval (mkWorld tt svc [] 0) = (Returned r, w') /\
    gc_jobs (scheduler (w_svc w')) ≡ₚ
      (if r then [mkJob [TargetOfEvaluation_CloudServiceId toe; TargetOfEvaluation_CatalogId toe] interval toe catalog] else [])
      ++ gc_jobs (scheduler svc).
Proof.
  unfold addJobToScheduler. case_bool_decide; [by do 2 eexists|]. go_unfold.
  destruct (gc_Every _ (scheduler svc)) as [[e|] s] eqn:He; do 2 eexists; (split; [reflexivity|]); cbn.
  - by rewrite (gc_every_err _ _ _ _ He).
  - by apply gc_every_ok.
Qed.

Lemma start_next_jobs c svc svc' c' : start_next c svc = Some (svc', c') -> fetched_right c ->
  fetched_right c' /\ job_added c = [] /\ gc_jobs (scheduler svc') ≡ₚ job_added c' ++ gc_jobs (scheduler svc).
Proof.
  unfold start_next, fetched_right, job_added. intros Hn Hf.
  destruct (start_at c) as [|[|x rest]|toe catalog|toe catalog|r] eqn:Hat; [| | | | |done].
  - repeat case_match; simplify_eq/=; (split_and!; [naive_solver|done|done]).
  - simplify_eq/=. destruct (toe_of _ _) as [toe|e] eqn:Ht; [|split_and!; [naive_solver|done|done]].
    destruct (catalog_of _) as [catalog|e] eqn:Hc; (split_and!; [naive_solver|done|done]).
  - simplify_eq/=. split_and!; [naive_solver|done|done].
  - simplify_eq/=. repeat case_match; simplify_eq/=; (split_and!; [naive_solver|done|done]).
  - destruct (add_job_run toe catalog (start_interval c) svc) as (r & w & Hr & Hj). rewrite Hr in Hn. simplify_eq/=.
    destruct (Hf toe catalog) as [-> ->]; [by right|]. destruct r; (split_and!; [naive_solver|done|exact Hj]).
Qed.

Definition jobs_inv (jobs0 : list Job) (s : starts) : Prop :=
  Forall fetched_right (st_calls s) /\
  gc_jobs (scheduler (st_svc s)) ≡ₚ (st_calls s ≫= job_added) ++ jobs0.

Lemma starts_step_jobs jobs0 s s' : starts_step s s' -> jobs_inv jobs0 s -> jobs_inv jobs0 s'.
Proof.
  destruct 1 as [i c c' svc svc' calls Hi Hn|cs0 cat0 interval svc calls]; intros [Hf Hj]; split; cbn in *.
  - apply Forall_insert; [done|]. eapply start_next_jobs; [done|]. by eapply Forall_lookup_1.
  - destruct (start_next_jobs c svc svc' c' Hn) as (_ & Hc & ->); [by eapply Forall_lookup_1|].
    rewrite Hj, (insert_take_drop _ _ _ (lookup_lt_Some _ _ _ Hi)), <-(take_drop_middle _ _ _ Hi) at 1.
    rewrite !bind_app, !bind_cons, Hc. cbn. rewrite <-!app_assoc. by rewrite Permutation_app_swap_app.
  - apply Forall_app. split; [done|]. apply Forall_singleton. intros toe catalog. naive_solver.
  - by rewrite bind_app, gc_start_jobs, Hj, app_nil_r.
Qed.

(** ** Together *)

(** C12. Over every interleaving of the steps of any number of concurrent StartEvaluation
    calls, while the orchestrator's answers do not change and from a cache that is
    right: an evaluation finds in the cache only controls of the catalog, and finds
    all of them as soon as no call is filling the cache of the catalog; and the
    scheduler has, beside the jobs it had, exactly one for each call that has
    succeeded. *)
Theorem concurrent_starts svc s :
  (forall cat l, controls_of cat = OK l -> cache_right cat l svc) -> rtc starts_step (mkStarts svc []) s ->
  (forall cat l m, controls_of cat = OK l -> NoDup (tag_of <$> l) -> catalogControls (st_svc s) !! cat = Some m ->
     m ⊆ control_map l /\
     ((forall c x rest, c ∈ st_calls s -> start_CatalogId c = cat -> start_at c <> Filling (x :: rest)) -> m = control_map l)) /\
  gc_jobs (scheduler (st_svc s)) ≡ₚ (st_calls s ≫= job_added) ++ gc_jobs (scheduler svc).
Proof.
  intros Hr Hrun. split; [intros cat l m Hl Hnd Hm; by eapply cache_converges; eauto|].
  assert (H0 : jobs_inv (gc_jobs (scheduler svc)) (mkStarts svc [])) by (by split; [constructor|]).
  remember (mkStarts svc []) as s0 eqn:E. clear E Hr. cut (jobs_inv (gc_jobs (scheduler svc)) s); [by intros []|]. revert H0.
  generalize (gc_jobs (scheduler svc)) as jobs0. intros jobs0. induction Hrun as [|s1 s2 s3 Hs _ IH]; [done|].
  intros H1. apply IH. by eapply starts_step_jobs.
Qed.
End Starts.
