(* ===== verification/EvaluationWitness.v ===== *)
(** The evaluation service on a concrete deployment: the database of MemDB.v, a
    scheduler that is a list of jobs, and an orchestrator with fixed answers.
    The theorems of EvaluationProofs.v are applied to it, and the behaviours that
    depart from the service's documentation are shown on it. *)

From S2P Require Import Prelude GoRuntime GoStrings Util Api Sql Storage Gorm MemDB Authz Pagination Evaluation EvaluationProofs.

(** ** The deployment *)

Fixpoint ticks (n : nat) : string := match n with 0 => "" | S n => "i" +:+ ticks n end.

#[export] Instance demo_env : Env := {| uuid_at := ticks; time_at := fun n => Z.of_nat n |}.
#[export] Instance demo_schedule : Schedule := {| order := fun _ n => seq 0 n; order_perm := fun _ _ => Permutation_refl _ |}.
#[export] Instance demo_codec : TokenCodec := text_codec.
#[export] Instance accept_all {R} : Validator R := fun _ => None.

(** A scheduler that is its list of jobs. *)
Definition demo_find (tags : list string) (s : list Job) : list Job := filter (fun j => tags ⊆ job_tags j) s.

#[export] Instance demo_gocron : Gocron (list Job) := {|
  gc_StartAsync := fun s => s;
  gc_FindJobsByTag := fun tags s => match demo_find tags s with [] => Err ErrJobNotFoundWithTag | l => OK l end;
  gc_RemoveByTags := fun tags s =>
    match demo_find tags s with
    | [] => (Some ErrJobNotFoundWithTag, s)
    | _ => (None, filter (fun j => ~ tags ⊆ job_tags j) s)
    end;
  gc_Every := fun j s => (None, j :: s);
|}.

#[export] Program Instance demo_gocron_laws : GocronLaws (list Job) := {| gc_jobs := fun s => s |}.
Next Obligation. done. Qed.
Next Obligation. intros tags s l Hf. simpl in Hf. unfold demo_find in Hf. by destruct (filter _ s) eqn:E; simplify_eq. Qed.
Next Obligation. intros tags s e Hf _. simpl in Hf. unfold demo_find in Hf. by destruct (filter _ s) eqn:E; simplify_eq. Qed.
Next Obligation. intros tags s s' Hf. simpl in Hf. by destruct (demo_find _ s) eqn:E; simplify_eq. Qed.
Next Obligation. intros tags s e s' Hf. simpl in Hf. by destruct (demo_find _ s) eqn:E; simplify_eq. Qed.
Next Obligation. intros j s s' [= <-]. done. Qed.
Next Obligation. done. Qed.

(** A catalog with one control of two sub-controls, and their metrics. *)
Definition demo_metric (id : string) : Metric := mkMetric id id "" "" METRIC None 0 None None.
Definition demo_sub (id m : string) (parent : string) : Control :=
  mkControl id "Cat" "C5" id "" [] [demo_metric m] (Some parent) (Some "Cat") (Some "C5") None.
Definition demo_control : Control :=
  mkControl "OPS-13" "Cat" "C5" "OPS-13" "" [demo_sub "OPS-13.1" "m1" "OPS-13"; demo_sub "OPS-13.2" "m2" "OPS-13"] []
    None None None None.
Definition demo_catalog : Catalog := mkCatalog "C5" "C5" "" [] false [] "" None.
Definition demo_toe : TargetOfEvaluation := mkTargetOfEvaluation "svc" "C5" None.
Definition demo_controls : list Control :=
  demo_control :: Control_Controls demo_control.

(** The orchestrator: [m1] has a compliant result, [m2] the given ones. *)
Definition demo_result (id m : string) (ok : bool) : AssessmentResult :=
  mkAssessmentResult id (Some 0%Z) m None ok "" "res" [] "" "svc" None.

Definition demo_results (m2 : list AssessmentResult) (f : option ResultFilter) : list AssessmentResult :=
  match f with
  | Some (mkResultFilter (Some cs) _ (Some ids) _ _) =>
      filter (fun r => AssessmentResult_CloudServiceId r = cs /\ AssessmentResult_MetricId r ∈ ids)
        (demo_result "r1" "m1" true :: m2)
  | _ => []
  end.

Definition demo_orchestrator (m2 : list AssessmentResult) : OrchestratorClient := {|
  oc_ListAssessmentResults := fun _ req => OK (mkPage (demo_results m2 (ListAssessmentResults_Filter req)) "");
  oc_ListControls := fun _ _ => OK (mkPage demo_controls "");
  oc_GetTargetOfEvaluation := fun _ cs cat => OK (mkTargetOfEvaluation cs cat None);
  oc_GetCatalog := fun _ id => OK demo_catalog;
|}.

Lemma demo_orchestrator_laws m2 : @OrchestratorClientLaws (demo_orchestrator m2).
Proof.
  constructor; [naive_solver|]. intros n req p f r cs ids _ [= <-] Hf Hcs Hids. simpl. rewrite Hf.
  destruct f as [c ? i ? ?]; simpl in *; subst. intros [[? ?] _]%list_elem_of_filter. done.
Qed.

Lemma demo_toe_laws m2 : @ToeLaws (demo_orchestrator m2).
Proof. intros n cs cat toe [= <-]. done. Qed.

Definition demo_authz : AuthorizationStrategy unit := AllowAll.strategy.

(** The state with the catalog's controls cached, no jobs, and some stored results. *)
Definition demo_service : EvaluationService (list Job) :=
  mkEvaluationService {["C5" := control_map demo_controls]} [].
Definition demo_world (results : list EvaluationResult) : World memdb (EvaluationService (list Job)) unit :=
  mkWorld (mem_set T_EvaluationResult results (mem_empty 100)) demo_service [] 0.

Definition stored (r : outcome (res unit) * World memdb (EvaluationService (list Job)) unit)
  : list (string * string * EvaluationStatus) :=
  (fun x => (EvaluationResult_CloudServiceId x, EvaluationResult_ControlId x, EvaluationResult_Status x))
    <$> mem_rows (w_db (snd r)) T_EvaluationResult.

(** *** A run: both sub-controls and the control are judged *)
Example demo_run :
  stored (@evaluateCatalog memdb (list Job) unit unit _ (demo_orchestrator [demo_result "r2" "m2" false]) demo_authz _ _ _ _ tt 1
            demo_toe demo_catalog (demo_world []))
  = [("svc", "OPS-13.1", EVALUATION_STATUS_COMPLIANT); ("svc", "OPS-13.2", EVALUATION_STATUS_NOT_COMPLIANT);
     ("svc", "OPS-13", EVALUATION_STATUS_NOT_COMPLIANT)].
Proof. vm_compute. reflexivity. Qed.

(** ** The theorems on the deployment *)

Definition failing_m2 : OrchestratorClient := demo_orchestrator [demo_result "r2" "m2" false].
Definition failing_m2_laws : @OrchestratorClientLaws failing_m2 := demo_orchestrator_laws _.

Lemma evaluateSubcontrol_correct_witness :
  exists r w', @evaluateSubcontrol memdb (list Job) unit _ failing_m2 _ 1 (Some demo_toe)
    (Some (demo_sub "OPS-13.2" "m2" "OPS-13")) (demo_world []) = (Returned r, w').
Proof.
  destruct (@evaluateSubcontrol_correct memdb (list Job) unit _ _ _ failing_m2 failing_m2_laws _ 1 demo_toe
    (demo_sub "OPS-13.2" "m2" "OPS-13") (demo_world []) ltac:(lia)) as (r & w' & Hr & _).
  exists r, w'. exact Hr.
Defined.

Lemma evaluateControl_correct_witness :
  exists r w' ys, @evaluateControl memdb (list Job) unit _ failing_m2 _ _ 1 demo_toe demo_catalog demo_control []
    (demo_world []) = (Returned r, w') /\ grown (demo_world []) w' ys.
Proof.
  destruct (@evaluateControl_correct memdb (list Job) unit _ _ _ failing_m2 failing_m2_laws _ _ 1 demo_toe
    demo_catalog demo_control [] (demo_world []) ltac:(lia)) as (r & w' & ys & Hr & Hg & _).
  exists r, w', ys. split; [exact Hr|exact Hg].
Defined.

Lemma evaluateCatalog_correct_witness :
  exists r w' ys, @evaluateCatalog memdb (list Job) unit unit _ failing_m2 demo_authz _ _ _ _ tt 1 demo_toe demo_catalog
    (demo_world []) = (Returned r, w') /\ grown (demo_world []) w' ys.
Proof.
  destruct (@evaluateCatalog_correct memdb (list Job) unit unit _ _ _ failing_m2 failing_m2_laws demo_authz _ _ _ _ tt 1
    demo_toe demo_catalog (demo_world []) ltac:(lia)) as (r & w' & ys & Hr & Hg & _).
  exists r, w', ys. split; [exact Hr|exact Hg].
Defined.

(** A token library in which a context is a token, and the background context has none. *)
Definition token_ctx : TokenLibrary (option MapClaims) := {|
  AuthFromMD := fun ctx _ => match ctx with Some _ => OK "token" | None => Err (EText "no token") end;
  ParseUnverified := fun _ => OK {["cloudserviceid" := JArr [JStr "svc"]]};
|}.
Definition jwt_authz : AuthorizationStrategy (option MapClaims) :=
  @JWT.strategy _ token_ctx (JWT.mkJWT "cloudserviceid" "cladmin").

Lemma background_never_evaluates_witness :
  snd (@evaluateCatalog memdb (list Job) unit (option MapClaims) _ failing_m2 jwt_authz _ _ _ _ None 1
         demo_toe demo_catalog (demo_world [])) = demo_world [].
Proof.
  destruct (@evaluateCatalog memdb (list Job) unit (option MapClaims) _ failing_m2 jwt_authz _ _ _ _ None 1
         demo_toe demo_catalog (demo_world [])) as [o w'] eqn:E.
  destruct o as [r| |]; [|vm_compute in E; discriminate E..].
  refine (proj1 (@background_never_evaluates memdb (list Job) unit (option MapClaims) _ failing_m2 jwt_authz _ _ _ _
    None 1 demo_toe demo_catalog (demo_world []) r w' _ _ E)); [lia|done].
Defined.

Definition manual_result (cs cat : string) : EvaluationResult :=
  mkEvaluationResult "manual" cs "OPS-13" "Cat" cat None EVALUATION_STATUS_COMPLIANT_MANUALLY (Some 50%Z) [] None (Some 200%Z).

Definition user_ctx : option (option MapClaims) := Some (Some ∅).
Definition list_mine : ListEvaluationResultsRequest :=
  mkListEvaluationResultsRequest (Some (mkEvaluationFilter (Some "svc") None None None None (Some true))) None no_paging.
Definition two_tenants : World memdb (EvaluationService (list Job)) unit :=
  demo_world [manual_result "svc" "C5"; mkEvaluationResult "x" "other" "OPS-13" "Cat" "C5" None
     EVALUATION_STATUS_COMPLIANT_MANUALLY (Some 50%Z) [] None (Some 200%Z)].

Lemma list_results_confined_witness :
  @may_access _ jwt_authz user_ctx (EvaluationResult_CloudServiceId (manual_result "svc" "C5")).
Proof.
  refine (proj2 (proj2 (@list_results_confined memdb (list Job) unit (option MapClaims) _ _ _ jwt_authz _ _
    (@JWT.jwt_strategy_laws _ token_ctx _) user_ctx (Some list_mine) two_tenants
    (mkPage [manual_result "svc" "C5"] "") two_tenants _ _) (manual_result "svc" "C5") _)).
  - vm_compute. intros H. inversion H as [|? ? ? H']; inversion H'.
  - vm_compute. reflexivity.
  - set_solver.
Defined.

Lemma cached_controls_found_witness :
  exists controls w1,
    @ListAllPaginated (World memdb (EvaluationService (list Job)) unit) _ _ _ set_token_controls Page_NextPageToken 1
      (mkListControlsRequest "C5" "" None no_paging)
      (fun req => remote (fun n => @oc_ListControls failing_m2 n req)) Page_Items (demo_world [])
    = (Returned (OK controls), w1) /\ controls <> [].
Proof.
  destruct (@cacheControls memdb (list Job) unit failing_m2 1 "C5" (demo_world [])) as [o w'] eqn:E.
  assert (o = Returned (OK tt)) as -> by (vm_compute in E; congruence).
  destruct (@cached_controls_found memdb (list Job) unit failing_m2 1 "C5" (demo_world []) w' E)
    as (controls & w1 & Hl & Hne & _).
  exists controls, w1. split; [exact Hl|exact Hne].
Defined.

Lemma all_metrics_of_control_witness :
  getAllMetricsFromControl demo_service "C5" "Cat" "OPS-13" = OK [demo_metric "m1"; demo_metric "m2"].
Proof.
  refine (eq_trans (proj1 (all_metrics_of_control demo_service "C5" "Cat" "OPS-13" demo_control _) (fun s => s) _) _);
    [vm_compute; reflexivity| |reflexivity].
  intros s [->|[->|Hs]%elem_of_cons]%elem_of_cons; [vm_compute; reflexivity..|by apply elem_of_nil in Hs].
Defined.

Lemma create_result_correct_witness :
  match @CreateEvaluationResult memdb (list Job) unit unit _ demo_authz _ _ None
          (Some (mkCreateEvaluationResultRequest (Some (manual_result "svc" "C5")))) (demo_world []) with
  | (Returned (OK x), w') => mem_rows (w_db w') T_EvaluationResult ≡ₚ [x]
  | _ => False
  end.
Proof.
  destruct (@CreateEvaluationResult memdb (list Job) unit unit _ demo_authz _ _ None
          (Some (mkCreateEvaluationResultRequest (Some (manual_result "svc" "C5")))) (demo_world [])) as [o w'] eqn:E.
  destruct o as [[x|e]| |]; [|vm_compute in E; discriminate E..].
  destruct (@create_result_correct memdb (list Job) unit unit _ _ _ demo_authz _ _ None
    (Some (mkCreateEvaluationResultRequest (Some (manual_result "svc" "C5")))) (demo_world []) (OK x) w' E)
    as (q & x0 & _ & _ & _ & _ & _ & _ & Hrows). exact Hrows.
Defined.

(** Start the evaluation of the demo catalog, then run its job. *)
Definition start_req : StartEvaluationRequest := mkStartEvaluationRequest "svc" "C5" None.

Lemma demo_service_ok : @service_ok memdb (list Job) unit _ _ _ (demo_world []).
Proof. split; [split; [constructor|set_solver]|]. intros r Hr. by apply elem_of_nil in Hr. Qed.

Lemma service_invariant_witness :
  @service_ok memdb (list Job) unit _ _ _
    (snd (@StartEvaluation memdb (list Job) unit unit _ failing_m2 demo_authz _ None 1 (Some start_req) (demo_world []))).
Proof.
  refine (@service_invariant memdb (list Job) unit unit _ _ _ _ _ failing_m2 failing_m2_laws (demo_toe_laws _) demo_authz
    _ _ _ _ _ _ _ (demo_world []) _ demo_service_ok _).
  apply rtc_once. apply (step_start None 1 (Some start_req) (OK true)). vm_compute. reflexivity.
Defined.

Lemma start_stop_exclusive_witness :
  exists toe catalog,
    @gc_jobs _ _ demo_gocron_laws (scheduler (w_svc (snd (@StartEvaluation memdb (list Job) unit unit _ failing_m2 demo_authz _
      None 1 (Some start_req) (demo_world []))))) ≡ₚ [mkJob ["svc"; "C5"] 5 toe catalog].
Proof.
  destruct (@StartEvaluation memdb (list Job) unit unit _ failing_m2 demo_authz _ None 1 (Some start_req) (demo_world []))
    as [o w1] eqn:E.
  destruct o as [[b|e]| |]; [|vm_compute in E; discriminate E..].
  exact (proj1 (@start_stop_exclusive memdb (list Job) unit unit _ _ _ _ demo_gocron_laws failing_m2 failing_m2_laws (demo_toe_laws _) demo_authz
    _ _ None 1 start_req (demo_world []) w1 b (proj1 demo_service_ok) E)).
Defined.

(** ** Departures from the documentation *)

(** The validity condition is not parenthesised, so AND takes precedence: a manual
    result of another cloud service and another catalog is found as well, and the
    control it names is not evaluated. *)
Theorem foreign_manual_result_suppresses :
  let run := @evaluateCatalog memdb (list Job) unit unit _ failing_m2 demo_authz _ _ _ _ tt 1 demo_toe demo_catalog in
  stored (run (demo_world [])) <> [] /\
  fst (run (demo_world [manual_result "other" "other catalog"])) = Returned (OK tt) /\
  stored (run (demo_world [manual_result "other" "other catalog"]))
  = [("other", "OPS-13", EVALUATION_STATUS_COMPLIANT_MANUALLY)].
Proof. vm_compute. split_and!; [discriminate|reflexivity..]. Qed.

(** The status of a control depends on the order of its sub-controls: a pending
    result after a compliant one makes the control NOT_COMPLIANT, without naming
    any failing assessment result; before it, the control is COMPLIANT. *)
Theorem control_status_order_dependent (c p : EvaluationResult) :
  EvaluationResult_Status c = EVALUATION_STATUS_COMPLIANT ->
  EvaluationResult_Status p = EVALUATION_STATUS_PENDING ->
  EvaluationResult_FailingAssessmentResultIds p = [] ->
  foldl combine_status (EVALUATION_STATUS_PENDING, []) [p; c] = (EVALUATION_STATUS_COMPLIANT, []) /\
  foldl combine_status (EVALUATION_STATUS_PENDING, []) [c; p] = (EVALUATION_STATUS_NOT_COMPLIANT, []).
Proof. intros Hc Hp Hf. unfold combine_status; simpl. rewrite !Hc, !Hp, !Hf. split; reflexivity. Qed.

Lemma control_status_order_dependent_witness :
  fst (foldl combine_status (EVALUATION_STATUS_PENDING, [])
    [mkEvaluationResult "a" "" "" "" "" None EVALUATION_STATUS_COMPLIANT None [] None None;
     mkEvaluationResult "b" "" "" "" "" None EVALUATION_STATUS_PENDING None [] None None])
  = EVALUATION_STATUS_NOT_COMPLIANT.
Proof.
  exact (f_equal fst (proj2 (control_status_order_dependent
    (mkEvaluationResult "a" "" "" "" "" None EVALUATION_STATUS_COMPLIANT None [] None None)
    (mkEvaluationResult "b" "" "" "" "" None EVALUATION_STATUS_PENDING None [] None None) eq_refl eq_refl eq_refl))).
Defined.

(** Two controls of one catalog can share a cache key; the later one then answers
    for both. *)
Theorem control_tag_collision (c1 c2 : Control) :
  Control_CategoryName c1 = "a-b" -> Control_Id c1 = "c" ->
  Control_CategoryName c2 = "a" -> Control_Id c2 = "b-c" ->
  getControl (mkEvaluationService {["cat" := control_map [c1; c2]]} ([] : list Job)) "cat" "a-b" "c" = OK c2.
Proof.
  destruct c1, c2; simpl; intros -> -> -> ->. vm_compute. reflexivity.
Qed.

Lemma control_tag_collision_witness :
  getControl (mkEvaluationService {["cat" := control_map
      [mkControl "c" "a-b" "cat" "" "" [] [] None None None None; mkControl "b-c" "a" "cat" "" "" [] [] None None None None]]}
    ([] : list Job)) "cat" "a-b" "c" = OK (mkControl "b-c" "a" "cat" "" "" [] [] None None None None).
Proof. exact (control_tag_collision (mkControl "c" "a-b" "cat" "" "" [] [] None None None None)
  (mkControl "b-c" "a" "cat" "" "" [] [] None None None None) eq_refl eq_refl eq_refl eq_refl). Defined.
