(* ===== verification/EvaluationConcurrentWitness.v ===== *)
(** Concurrent StartEvaluation calls on the deployment of EvaluationWitness.v: the
    theorem of EvaluationConcurrent.v applied to a run, and two runs that show what
    the missing lock allows. *)

From S2P Require Import Prelude GoRuntime GoStrings Util Api Sql Storage Gorm MemDB Authz Pagination Evaluation EvaluationProofs EvaluationConcurrent EvaluationWitness.

Definition demo_controls_of (cat : string) : res (list Control) := OK (if bool_decide (cat = "C5") then demo_controls else []).
Definition demo_toe_of (cs cat : string) : res TargetOfEvaluation := OK (mkTargetOfEvaluation cs cat None).
Definition demo_catalog_of (cat : string) : res Catalog := OK demo_catalog.

Abbreviation demo_step := (starts_step demo_controls_of demo_toe_of demo_catalog_of).
Abbreviation demo_starts := (starts (Sch := list Job)).

(** The calls make a step each, in the order of the list. *)
Fixpoint schedule (order : list nat) (s : demo_starts) : option demo_starts :=
  match order with
  | [] => Some s
  | i :: order =>
      c ← st_calls s !! i;
      '(svc, c') ← start_next demo_controls_of demo_toe_of demo_catalog_of c (st_svc s);
      schedule order (mkStarts svc (<[i := c']> (st_calls s)))
  end.

Lemma schedule_run order s s' : schedule order s = Some s' -> rtc demo_step s s'.
Proof.
  revert s. induction order as [|i order IH]; intros [svc calls] Hs; simpl in Hs; [by simplify_eq|].
  destruct (calls !! i) as [c|] eqn:Hi; [|done]. simpl in Hs.
  destruct (start_next _ _ _ c svc) as [[svc' c']|] eqn:Hn; [|done]. simpl in Hs.
  eapply rtc_l; [by eapply starts_call|by apply IH].
Qed.

(** Two calls for the same service and catalog, one after the other accepted. *)
Definition two_calls (svc : EvaluationService (list Job)) : demo_starts :=
  mkStarts svc [mkStartCall "svc" "C5" 5 Accepted; mkStartCall "svc" "C5" 5 Accepted].
Definition fresh_service : EvaluationService (list Job) := mkEvaluationService ∅ [].

Lemma two_calls_run : rtc demo_step (mkStarts fresh_service []) (two_calls fresh_service).
Proof. eapply rtc_l; [apply (starts_new _ _ _ "svc" "C5" 5)|]. apply rtc_once. exact (starts_new _ _ _ "svc" "C5" 5 fresh_service [mkStartCall "svc" "C5" 5 Accepted]). Qed.

Definition after (order : list nat) : demo_starts := default (two_calls fresh_service) (schedule order (two_calls fresh_service)).

(** The first call has finished, and the second one has just emptied the cache. *)
Definition refilling : list nat := [0; 0; 0; 0; 0; 0; 0; 1].
(** Both calls find no job before either adds one. *)
Definition both_add : list nat := [0; 0; 0; 0; 1; 1; 1; 1; 0; 1; 0; 1; 0; 1].

Lemma after_run order s : schedule order (two_calls fresh_service) = Some s -> rtc demo_step (mkStarts fresh_service []) (after order).
Proof. intros Hs. unfold after. rewrite Hs. etrans; [apply two_calls_run|by eapply schedule_run]. Qed.

(** The cache of the catalog after the interleaved calls is that of one call. *)
Lemma concurrent_starts_witness :
  catalogControls (st_svc (after both_add)) !! "C5" = Some (control_map demo_controls) /\
  length (scheduler (st_svc (after both_add))) = 2.
Proof.
  destruct (concurrent_starts demo_controls_of demo_toe_of demo_catalog_of fresh_service (after both_add)) as [Hcache Hjobs].
  - intros cat l _ m Hm. cbn in Hm. by rewrite lookup_empty in Hm.
  - eapply after_run. vm_compute. reflexivity.
  - split; [|exact (Permutation_length Hjobs)].
    destruct (catalogControls (st_svc (after both_add)) !! "C5") as [m|] eqn:Hm; [|vm_compute in Hm; discriminate Hm].
    f_equal. refine (proj2 (Hcache "C5" demo_controls m eq_refl _ Hm) _); [by apply (bool_decide_unpack _); vm_compute|].
    intros c x rest Hc. vm_compute in Hc. repeat (apply elem_of_cons in Hc as [->|Hc]; [done|]). by apply elem_of_nil in Hc.
Defined.

(** Two concurrent calls for the same target both succeed, and the scheduler has two
    equal jobs; run one after the other, the second is refused. *)
Example concurrent_starts_add_two_jobs :
  (start_at <$> st_calls (after both_add)) = [Answered (OK true); Answered (OK true)] /\
  length (scheduler (st_svc (after both_add))) = 2 /\
  (start_at <$> st_calls (after [0; 0; 0; 0; 0; 0; 0; 1; 1; 1; 1; 1; 1])) =
    [Answered (OK true); Answered (Err (EStatus codes_AlreadyExists
       "evaluation for Cloud Service 'svc' and Catalog ID 'C5' already started"))].
Proof. vm_compute. done. Qed.

(** While a later call, which will be refused, refills the cache, the job of the first
    call evaluates a catalog without controls: nothing is stored, and no error is
    reported. *)
Example refill_hides_controls :
  let w := mkWorld (mem_empty 100) (st_svc (after refilling)) [] 0 in
  length (scheduler (w_svc w)) = 1 /\
  stored (@evaluateCatalog memdb (list Job) unit unit _ failing_m2 demo_authz _ _ _ _ tt 1 demo_toe demo_catalog w) = [] /\
  fst (@evaluateCatalog memdb (list Job) unit unit _ failing_m2 demo_authz _ _ _ _ tt 1 demo_toe demo_catalog w) = Returned (OK tt).
Proof. vm_compute. done. Qed.
