(* ===== verification/Streams.v ===== *)
(** api/streams.go: stream channels to other services.

    [StreamsOf] keeps one channel per target; each channel has a buffered Go
    channel that handlers put messages into and a goroutine ([sendLoop]) that
    moves them to the gRPC stream.  The goroutines the component has started are
    part of its state, and the interleavings of handlers and goroutines are the
    steps of [step]. *)

From S2P Require Import Prelude GoRuntime GoStrings.

Definition ErrMissingInitFunc : error := EText "missing stream initializer function".

(** The buffer of the Go channel. *)
Definition channel_cap : nat := 1000.

(** ** State *)

(** The stream handle is [None] after a restart whose init function failed. *)
Record StreamChannelOf (Stream Msg : Type) := mkStreamChannel {
  sc_channel : list Msg;
  sc_stream : option Stream;
  sc_target : string;
  sc_component : string;
  sc_dead : bool;
}.
Arguments mkStreamChannel {Stream Msg}.
Arguments sc_channel {Stream Msg}.
Arguments sc_stream {Stream Msg}.
Arguments sc_target {Stream Msg}.
Arguments sc_component {Stream Msg}.
Arguments sc_dead {Stream Msg}.

(** The goroutines of a channel, named by its target: the loops, a goroutine that
    puts a message back, and a GetStream call that has seen the channel dead and
    is about to restart it. *)
Inductive routine (Msg : Type) :=
| RecvLoop (target : string)
| SendLoop (target : string)
| Requeue (target : string) (m : Msg)
| Restarting (target : string).
Arguments RecvLoop {Msg}.
Arguments SendLoop {Msg}.
Arguments Requeue {Msg}.
Arguments Restarting {Msg}.

#[global] Instance routine_eq_dec {Msg} `{EqDecision Msg} : EqDecision (routine Msg).
Proof. solve_decision. Defined.

Record StreamsOf (Stream Msg : Type) := mkStreams {
  channels : gmap string (StreamChannelOf Stream Msg);
  routines : list (routine Msg);
}.
Arguments mkStreams {Stream Msg}.
Arguments channels {Stream Msg}.
Arguments routines {Stream Msg}.

(** [NewStreamsOf] *)
Definition NewStreamsOf {Stream Msg} : StreamsOf Stream Msg := mkStreams ∅ [].

(** A component of a larger state. *)
Class Field (W F : Type) := { field_get : W -> F; field_set : F -> W -> W }.
Class FieldLaws (W F : Type) `{Field W F} : Prop := {
  field_get_set : forall f w, field_get (field_set f w) = f;
  field_set_set : forall f g w, field_set f (field_set g w) = field_set f w;
}.

Section Streams.
Context {W Stream Msg : Type} `{Field W (StreamsOf Stream Msg)}.
Abbreviation streams := (StreamsOf Stream Msg).
Abbreviation chan := (StreamChannelOf Stream Msg).

Definition st_read {A} (f : streams -> A) : Go W A := fun w => (Returned (f (field_get w)), w).
Definition st_modify (f : streams -> streams) : Go W unit := fun w => (Returned tt, field_set (f (field_get w)) w).

(** The init function of a stream; [None] is the nil function. *)
Definition InitFuncOf := option (string -> Go W (res Stream)).

Definition set_chan (c : chan) (s : streams) : streams :=
  mkStreams (<[sc_target c := c]> (channels s)) (routines s).
Definition go_routine (r : routine Msg) (s : streams) : streams :=
  mkStreams (channels s) (routines s ++ [r]).

Definition revive (str : option Stream) (dead : bool) (c : chan) : chan :=
  mkStreamChannel (sc_channel c) str (sc_target c) (sc_component c) dead.

Definition addStream (target component : string) (init : InitFuncOf) : Go W (res chan) :=
  match init with
  | None => gerr ErrMissingInitFunc
  | Some init =>
      stream <-? init target ! EWrap "could not init stream" ;;
      let c := mkStreamChannel [] (Some stream) target component false in
      st_modify (set_chan c) ;;;
      st_modify (go_routine (RecvLoop target)) ;;;
      st_modify (go_routine (SendLoop target)) ;;;
      gok c
  end.

Definition restartStream (c : chan) (init : InitFuncOf) : Go W (res chan) :=
  match init with
  | None => gerr ErrMissingInitFunc
  | Some init =>
      stream <- init (sc_target c) ;;
      match stream with
      | Err e =>
          st_modify (set_chan (revive None (sc_dead c) c)) ;;;
          gerr (EWrap "could not init stream" e)
      | OK stream =>
          let c := revive (Some stream) false c in
          st_modify (set_chan c) ;;;
          st_modify (go_routine (RecvLoop (sc_target c))) ;;;
          st_modify (go_routine (SendLoop (sc_target c))) ;;;
          gok c
      end
  end.

(** The error of a failed restart is built from [c.component] and [c.target]
    after [c] was set to the nil that [restartStream] returned. *)
Definition GetStream (target component : string) (init : InitFuncOf) : Go W (res chan) :=
  found <- st_read (fun s => channels s !! target) ;;
  match found with
  | None =>
      c <-? addStream target component init
        ! EWrap ("could not add stream for " +:+ component +:+ " with target '" +:+ target +:+ "'") ;;
      gok c
  | Some c =>
      if sc_dead c then
        r <- restartStream c init ;;
        match r with
        | Err _ => gpanic
        | OK c => gok c
        end
      else gok c
  end.

(** [c.channel <- m]: waits while the buffer is full. *)
Definition enqueue (m : Msg) (c : chan) : option chan :=
  if bool_decide (length (sc_channel c) < channel_cap)
  then Some (mkStreamChannel (sc_channel c ++ [m]) (sc_stream c) (sc_target c) (sc_component c) (sc_dead c))
  else None.

Definition Send (target : string) (m : Msg) : Go W unit :=
  c <- st_read (fun s => channels s !! target) ;;
  c <- gderef c ;;
  match enqueue m c with
  | Some c => st_modify (set_chan c)
  | None => gfuel
  end.

(** [CloseAll]: the handles that are closed; a nil handle panics. *)
Fixpoint close_streams (l : list chan) (closed : list Stream) : Go W (list Stream) :=
  match l with
  | [] => gret closed
  | c :: l => s <- gderef (sc_stream c) ;; close_streams l (closed ++ [s])
  end.

Definition CloseAll : Go W (list Stream) :=
  l <- st_read (fun s => snd <$> map_to_list (channels s)) ;;
  close_streams l [].
End Streams.

(** ** Goroutines *)

Section Goroutines.
Context {Stream Msg : Type} `{EqDecision Msg}.
Abbreviation streams := (StreamsOf Stream Msg).

(** One goroutine ends. *)
Fixpoint remove_one (r : routine Msg) (l : list (routine Msg)) : list (routine Msg) :=
  match l with
  | [] => []
  | x :: l => if decide (x = r) then l else x :: remove_one r l
  end.

Definition end_routine (r : routine Msg) (s : streams) : streams :=
  mkStreams (channels s) (remove_one r (routines s)).

(** One iteration of [sendLoop]: the next message, whether it was sent, and the
    state; [None] when there is no message to fetch.  After an error the channel
    is dead, a goroutine puts the message back, and the loop ends. *)
Definition sendLoop_iter (answer : sent) (target : string) (s : streams) : option (Msg * bool * streams) :=
  match channels s !! target with
  | None => None
  | Some c =>
      match sc_channel c with
      | [] => None
      | m :: rest =>
          let c' dead := mkStreamChannel rest (sc_stream c) (sc_target c) (sc_component c) dead in
          match answer with
          | SentOK => Some (m, true, set_chan (c' (sc_dead c)) s)
          | SentEOF | SentError _ =>
              Some (m, false, go_routine (Requeue target m) (end_routine (SendLoop target) (set_chan (c' true) s)))
          end
      end
  end.

(** The goroutine that puts a message back. *)
Definition requeue_run (target : string) (m : Msg) (s : streams) : option streams :=
  match channels s !! target with
  | None => None
  | Some c => match enqueue m c with
              | Some c => Some (end_routine (Requeue target m) (set_chan c s))
              | None => None
              end
  end.

(** One iteration of [recvLoop]: messages are discarded, the loop ends on EOF and errors. *)
Definition recvLoop_iter {A} (answer : recv A) (target : string) (s : streams) : streams :=
  match answer with RecvMsg _ => s | _ => end_routine (RecvLoop target) s end.

(** The part of GetStream after it found the channel dead. *)
Definition restart_run (init : res Stream) (target : string) (s : streams) : option streams :=
  match channels s !! target with
  | None => None
  | Some c =>
      let s := end_routine (Restarting target) s in
      Some (match init with
            | Err _ => set_chan (revive None (sc_dead c) c) s
            | OK str =>
                go_routine (SendLoop (sc_target c))
                  (go_routine (RecvLoop (sc_target c)) (set_chan (revive (Some str) false c) s))
            end)
  end.

(** *** Interleavings

    A state of the component with what handlers have put into the channels and
    what the streams have taken, both by target and in order. *)
Record net := mkNet {
  net_streams : streams;
  net_put : list (string * Msg);
  net_wire : list (string * Msg);
}.

Inductive step : net -> net -> Prop :=
| step_add s p w target component str :
    channels s !! target = None ->
    step (mkNet s p w)
         (mkNet (go_routine (SendLoop target) (go_routine (RecvLoop target)
                   (set_chan (mkStreamChannel [] (Some str) target component false) s))) p w)
| step_put s p w target c c' m :
    channels s !! target = Some c -> enqueue m c = Some c' ->
    step (mkNet s p w) (mkNet (set_chan c' s) (p ++ [(target, m)]) w)
| step_sent s p w target m s' :
    SendLoop target ∈ routines s -> sendLoop_iter SentOK target s = Some (m, true, s') ->
    step (mkNet s p w) (mkNet s' p (w ++ [(target, m)]))
| step_failed s p w target m answer s' :
    SendLoop target ∈ routines s -> sendLoop_iter answer target s = Some (m, false, s') ->
    step (mkNet s p w) (mkNet s' p w)
| step_requeue s p w target m s' :
    Requeue target m ∈ routines s -> requeue_run target m s = Some s' ->
    step (mkNet s p w) (mkNet s' p w)
| step_recv s p w target (answer : recv unit) :
    RecvLoop target ∈ routines s ->
    step (mkNet s p w) (mkNet (recvLoop_iter answer target s) p w)
| step_dead s p w target c :
    channels s !! target = Some c -> sc_dead c = true ->
    step (mkNet s p w) (mkNet (go_routine (Restarting target) s) p w)
| step_restart s p w target init s' :
    Restarting target ∈ routines s -> restart_run init target s = Some s' ->
    step (mkNet s p w) (mkNet s' p w).

Definition net_start : net := mkNet NewStreamsOf [] [].
Definition reachable (n : net) : Prop := rtc step net_start n.
End Goroutines.

(** ** Facts *)

Section Conservation.
Context {Stream Msg : Type} `{EqDecision Msg}.
Abbreviation streams := (StreamsOf Stream Msg).

(** The messages of one target: put or sent, waiting in its buffer, on their way back. *)
Definition of_target (t : string) (l : list (string * Msg)) : list Msg :=
  omap (fun x => if decide (fst x = t) then Some (snd x) else None) l.
Definition waiting (t : string) (s : streams) : list Msg :=
  match channels s !! t with Some c => sc_channel c | None => [] end.
Definition going_back (t : string) (l : list (routine Msg)) : list Msg :=
  omap (fun r => match r with Requeue t' m => if decide (t' = t) then Some m else None | _ => None end) l.

Record streams_inv (n : net (Stream := Stream) (Msg := Msg)) : Prop := {
  inv_chan : forall t c, channels (net_streams n) !! t = Some c ->
    sc_target c = t /\ length (sc_channel c) <= channel_cap /\
    (sc_dead c = false -> SendLoop t ∈ routines (net_streams n));
  inv_kept : forall t, of_target t (net_put n) ≡ₚ
    of_target t (net_wire n) ++ waiting t (net_streams n) ++ going_back t (routines (net_streams n));
}.

Lemma of_target_snoc t l t' m :
  of_target t (l ++ [(t', m)]) = of_target t l ++ (if decide (t' = t) then [m] else []).
Proof. unfold of_target. rewrite omap_app. cbn. by destruct (decide (t' = t)). Qed.

Lemma going_back_snoc t l r : going_back t (l ++ [r]) = going_back t l ++ going_back t [r].
Proof. apply omap_app. Qed.

Lemma remove_one_perm (r : routine Msg) l : r ∈ l -> r :: remove_one r l ≡ₚ l.
Proof.
  induction l as [|x l IH]; [by intros ?%elem_of_nil|]. cbn. destruct (decide (x = r)) as [->|Hne]; [done|].
  intros [->|Hin]%elem_of_cons; [done|]. rewrite <-IH at 2 by done. constructor.
Qed.

Lemma elem_of_remove_one (r x : routine Msg) l : x <> r -> x ∈ l -> x ∈ remove_one r l.
Proof.
  intros Hne. induction l as [|y l IH]; [done|]. cbn. destruct (decide (y = r)) as [->|]; set_solver.
Qed.

Lemma going_back_remove t r l : r ∈ l -> going_back t [r] ++ going_back t (remove_one r l) ≡ₚ going_back t l.
Proof.
  intros Hr. unfold going_back. rewrite <-omap_app. cbn [app]. by rewrite (remove_one_perm r l Hr).
Qed.

Lemma going_back_keep t r l : going_back t [r] = [] -> going_back t (remove_one r l) = going_back t l.
Proof.
  intros Hr. induction l as [|x l IH]; [done|]. cbn [remove_one]. destruct (decide (x = r)) as [->|].
  - change (r :: l) with ([r] ++ l). unfold going_back in *. by rewrite omap_app, Hr.
  - cbn. unfold going_back in IH. by rewrite IH.
Qed.

Lemma waiting_set t (c : StreamChannelOf Stream Msg) s :
  waiting t (set_chan c s) = if decide (sc_target c = t) then sc_channel c else waiting t s.
Proof.
  unfold waiting, set_chan. cbn. destruct (decide (sc_target c = t)) as [->|Hne].
  - by rewrite lookup_insert_eq.
  - by rewrite lookup_insert_ne.
Qed.

Lemma enqueue_Some m (c c' : StreamChannelOf Stream Msg) : enqueue m c = Some c' ->
  sc_target c' = sc_target c /\ sc_channel c' = sc_channel c ++ [m] /\ sc_dead c' = sc_dead c /\
  length (sc_channel c') <= channel_cap.
Proof.
  unfold enqueue. case_bool_decide as Hl; intros [= <-]. cbn [sc_target sc_channel sc_dead].
  rewrite length_app. cbn [length]. split_and!; [done..|]. lia.
Qed.

(** A step that changes the channel of one target, its goroutines, and what was
    put into it and sent from it. *)
Lemma inv_update s p w (c : StreamChannelOf Stream Msg) rs p' w' :
  let t := sc_target c in
  streams_inv (mkNet s p w) ->
  length (sc_channel c) <= channel_cap -> (sc_dead c = false -> SendLoop t ∈ rs) ->
  (forall t', t' <> t -> (SendLoop t' ∈ routines s -> SendLoop t' ∈ rs) /\
     of_target t' p' = of_target t' p /\ of_target t' w' = of_target t' w /\
     going_back t' rs ≡ₚ going_back t' (routines s)) ->
  of_target t p' ≡ₚ of_target t w' ++ sc_channel c ++ going_back t rs ->
  streams_inv (mkNet (mkStreams (<[t := c]> (channels s)) rs) p' w').
Proof.
  intros t [Hchan Hkept] Hcap Hsend Hother Hsame. constructor; cbn [net_streams net_put net_wire channels routines set_chan go_routine end_routine].
  - intros t' c'. rewrite lookup_insert_Some. intros [[<- <-]|[Hne Hl]]; [done|].
    destruct (Hchan t' c' Hl) as (? & ? & Hs). split_and!; [done..|]. intros Hd. by apply Hother, Hs.
  - intros t'. unfold waiting. cbn [net_streams net_put net_wire channels routines set_chan go_routine end_routine]. destruct (decide (t' = t)) as [->|Hne].
    + by rewrite lookup_insert_eq.
    + rewrite lookup_insert_ne by done. destruct (Hother t' Hne) as (_ & -> & -> & ->). apply (Hkept t').
Qed.

(** A step that only starts or ends goroutines which carry no message. *)
Lemma inv_routines s p w rs :
  streams_inv (mkNet s p w) ->
  (forall t, SendLoop t ∈ routines s -> SendLoop t ∈ rs) -> (forall t, going_back t rs ≡ₚ going_back t (routines s)) ->
  streams_inv (mkNet (mkStreams (channels s) rs) p w).
Proof.
  intros [Hchan Hkept] Hs Hg. constructor; cbn [net_streams net_put net_wire channels routines set_chan go_routine end_routine].
  - intros t c Hl. destruct (Hchan t c Hl) as (? & ? & ?). auto.
  - intros t. rewrite Hg. apply Hkept.
Qed.

Lemma of_target_other t t' l (m : Msg) : t' <> t -> of_target t' (l ++ [(t, m)]) = of_target t' l.
Proof. intros Hne. by rewrite of_target_snoc, decide_False, app_nil_r. Qed.

Lemma going_back_requeue t m : going_back t [Requeue t m] = [m].
Proof. cbn. by rewrite decide_True. Qed.

Lemma going_back_requeue_other t t' (m : Msg) : t' <> t -> going_back t' [Requeue t m] = [].
Proof. intros Hne. cbn. by rewrite decide_False. Qed.

Lemma inv_put s p w t c c' m : streams_inv (mkNet s p w) -> channels s !! t = Some c -> enqueue m c = Some c' ->
  streams_inv (mkNet (set_chan c' s) (p ++ [(t, m)]) w).
Proof.
  intros Hinv Hc (Ht & Hq & Hd & Hcap)%enqueue_Some. destruct (inv_chan _ Hinv t c Hc) as (Htc & _ & Hs).
  assert (Htt : sc_target c' = t) by congruence.
  apply (inv_update s p w c' (routines s)); [done|done| | |].
  - rewrite Hd, Htt. done.
  - intros t' Hne. rewrite Htt in Hne. by rewrite of_target_other.
  - rewrite Htt, of_target_snoc, decide_True, Hq by done. pose proof (inv_kept _ Hinv t) as Hk. cbn [net_streams net_put net_wire channels routines set_chan go_routine end_routine] in Hk.
    rewrite Hk. unfold waiting. rewrite Hc. solve_Permutation.
Qed.

Lemma inv_sent s p w t m s' : streams_inv (mkNet s p w) -> sendLoop_iter SentOK t s = Some (m, true, s') ->
  streams_inv (mkNet s' p (w ++ [(t, m)])).
Proof.
  intros Hinv Hi. unfold sendLoop_iter in Hi. destruct (channels s !! t) as [c|] eqn:Hc; [|done].
  destruct (sc_channel c) as [|m' rest] eqn:Hq; simplify_eq.
  destruct (inv_chan _ Hinv t c Hc) as (Ht & Hcap & Hs). rewrite Hq in Hcap. cbn in Hcap.
  apply (inv_update s p w (mkStreamChannel rest (sc_stream c) (sc_target c) (sc_component c) (sc_dead c)) (routines s));
    cbn [sc_target sc_channel sc_dead]; rewrite ?Ht; [done|lia|done| |].
  - intros t' Hne. by rewrite of_target_other.
  - rewrite of_target_snoc, decide_True by done. pose proof (inv_kept _ Hinv t) as Hk. cbn [net_streams net_put net_wire channels routines set_chan go_routine end_routine] in Hk.
    rewrite Hk. unfold waiting. rewrite Hc, Hq. solve_Permutation.
Qed.

Lemma inv_failed s p w t m answer s' : streams_inv (mkNet s p w) ->
  sendLoop_iter answer t s = Some (m, false, s') -> streams_inv (mkNet s' p w).
Proof.
  intros Hinv Hi. unfold sendLoop_iter in Hi. destruct (channels s !! t) as [c|] eqn:Hc; [|done].
  destruct (sc_channel c) as [|m' rest] eqn:Hq; [done|].
  destruct (inv_chan _ Hinv t c Hc) as (Ht & Hcap & Hs). rewrite Hq in Hcap. cbn in Hcap.
  assert (Hnew : streams_inv (mkNet (mkStreams (<[sc_target c := mkStreamChannel rest (sc_stream c) (sc_target c) (sc_component c) true]>
    (channels s)) (remove_one (SendLoop t) (routines s) ++ [Requeue t m'])) p w)).
  { apply (inv_update s p w (mkStreamChannel rest (sc_stream c) (sc_target c) (sc_component c) true));
      cbn [sc_target sc_channel sc_dead]; rewrite ?Ht; [done|lia|done| |].
    - intros t' Hne. split_and!; [|done..|].
      + intros Hin. apply elem_of_app. left. apply elem_of_remove_one; [congruence|done].
      + by rewrite going_back_snoc, going_back_keep, going_back_requeue_other, app_nil_r.
    - rewrite going_back_snoc, going_back_keep, going_back_requeue by done. pose proof (inv_kept _ Hinv t) as Hk. cbn [net_streams net_put net_wire channels routines set_chan go_routine end_routine] in Hk.
      rewrite Hk. unfold waiting. rewrite Hc, Hq. solve_Permutation. }
  destruct answer; [done|..]; injection Hi as <- <-; exact Hnew.
Qed.

Lemma inv_requeue s p w t m s' : streams_inv (mkNet s p w) -> Requeue t m ∈ routines s ->
  requeue_run t m s = Some s' -> streams_inv (mkNet s' p w).
Proof.
  intros Hinv Hin Hr. unfold requeue_run in Hr. destruct (channels s !! t) as [c|] eqn:Hc; [|done].
  destruct (enqueue m c) as [c'|] eqn:He; [|done]. injection Hr as <-.
  apply enqueue_Some in He as (Ht & Hq & Hd & Hcap). destruct (inv_chan _ Hinv t c Hc) as (Htc & _ & Hs).
  assert (Htt : sc_target c' = t) by congruence.
  apply (inv_update s p w c' (remove_one (Requeue t m) (routines s))); rewrite ?Htt; [done|done| | |].
  - rewrite Hd. intros Hdead%Hs. by apply elem_of_remove_one.
  - intros t' Hne. split_and!; [|done..|].
    + intros Hl. by apply elem_of_remove_one.
    + by rewrite going_back_keep by (by apply going_back_requeue_other).
  - pose proof (inv_kept _ Hinv t) as Hk. cbn [net_streams net_put net_wire channels routines set_chan go_routine end_routine] in Hk. rewrite Hk, Hq. unfold waiting. rewrite Hc.
    rewrite <-(going_back_remove t _ _ Hin), going_back_requeue. solve_Permutation.
Qed.

Lemma inv_restart s p w t init s' : streams_inv (mkNet s p w) -> restart_run init t s = Some s' ->
  streams_inv (mkNet s' p w).
Proof.
  intros Hinv Hr. unfold restart_run in Hr. destruct (channels s !! t) as [c|] eqn:Hc; [|done]. injection Hr as <-.
  destruct (inv_chan _ Hinv t c Hc) as (Ht & Hcap & Hs). pose proof (inv_kept _ Hinv t) as Hk. cbn [net_streams net_put net_wire channels routines set_chan go_routine end_routine] in Hk.
  assert (Hw : waiting t s = sc_channel c) by (unfold waiting; by rewrite Hc). rewrite Hw in Hk.
  destruct init as [str|e].
  - apply (inv_update s p w (revive (Some str) false c)
      ((remove_one (Restarting t) (routines s) ++ [RecvLoop (sc_target c)]) ++ [SendLoop (sc_target c)]));
      cbn [revive sc_target sc_channel sc_dead]; rewrite ?Ht; [done|done|set_solver| |].
    + intros t' Hne. rewrite !going_back_snoc, going_back_keep by done. cbn. rewrite !app_nil_r.
      split_and!; [|done..]. intros Hl. do 2 (apply elem_of_app; left). by apply elem_of_remove_one.
    + rewrite !going_back_snoc, going_back_keep by done. cbn. by rewrite !app_nil_r.
  - apply (inv_update s p w (revive None (sc_dead c) c) (remove_one (Restarting t) (routines s)));
      cbn [revive sc_target sc_channel sc_dead]; rewrite ?Ht; [done|done| | |].
    + intros Hl%Hs. by apply elem_of_remove_one.
    + intros t' Hne. rewrite going_back_keep by done. split_and!; [|done..]. intros Hl. by apply elem_of_remove_one.
    + by rewrite going_back_keep.
Qed.

Lemma step_inv n n' : streams_inv n -> step n n' -> streams_inv n'.
Proof.
  intros Hinv Hstep. destruct Hstep as [s p w t comp str Hc|s p w t c c' m Hc He|s p w t m s' _ Hi|s p w t m a s' _ Hi
    |s p w t m s' Hin Hr|s p w t a Hin|s p w t c Hc Hd|s p w t init s' Hin Hr].
  - apply (inv_update s p w (mkStreamChannel [] (Some str) t comp false)
      ((routines s ++ [RecvLoop t]) ++ [SendLoop t])); cbn [sc_target sc_channel sc_dead length];
      [done|unfold channel_cap; lia|set_solver| |].
    + intros t' Hne. rewrite !going_back_snoc. cbn. rewrite !app_nil_r. set_solver.
    + rewrite !going_back_snoc. cbn. rewrite !app_nil_r. pose proof (inv_kept _ Hinv t) as Hk. cbn [net_streams net_put net_wire channels routines set_chan go_routine end_routine] in Hk.
      rewrite Hk. unfold waiting. by rewrite Hc.
  - by eapply inv_put.
  - by eapply inv_sent.
  - by eapply inv_failed.
  - by eapply inv_requeue.
  - destruct a; [by destruct s| |]; (apply inv_routines; [done| |]; intros t');
      [intros Hl; by apply elem_of_remove_one|by rewrite going_back_keep|intros Hl; by apply elem_of_remove_one|by rewrite going_back_keep].
  - apply inv_routines; [done|set_solver|]. intros t'. rewrite going_back_snoc. cbn. by rewrite app_nil_r.
  - by eapply inv_restart.
Qed.

Lemma reachable_inv n : reachable n -> streams_inv n.
Proof.
  intros Hr. unfold reachable in Hr. assert (H0 : streams_inv (@net_start Stream Msg)).
  { constructor; cbn; [done|]. intros t. done. }
  revert H0. induction Hr as [|n1 n2 n3 Hs _ IH]; [done|]. intros H0. by eapply IH, step_inv.
Qed.

End Conservation.

(** ** GetStream *)

Section GetStreamFacts.
Context {W Stream Msg : Type} `{Field W (StreamsOf Stream Msg), !FieldLaws W (StreamsOf Stream Msg)}.

(** The state of the component after its loops were started for a channel. *)
Definition started (c : StreamChannelOf Stream Msg) (s : StreamsOf Stream Msg) : StreamsOf Stream Msg :=
  go_routine (SendLoop (sc_target c)) (go_routine (RecvLoop (sc_target c)) (set_chan c s)).

(** No message is stuck: a goroutine sends from every channel that is alive or has
    messages, and channels are registered under their own names. *)
Definition flowing (s : StreamsOf Stream Msg) : Prop :=
  forall t c, channels s !! t = Some c ->
    sc_target c = t /\ (sc_dead c = false \/ sc_channel c <> [] -> SendLoop t ∈ routines s).

Lemma flowing_new : flowing NewStreamsOf.
Proof. by intros t c. Qed.

Lemma flowing_set c s : flowing s ->
  (sc_dead c = false \/ sc_channel c <> [] -> SendLoop (sc_target c) ∈ routines s) -> flowing (set_chan c s).
Proof.
  intros Hs Hc t c'. cbn. rewrite lookup_insert_Some. intros [[<- <-]|[_ Hl]]; [done|by apply Hs].
Qed.

Lemma flowing_started c s : flowing s -> flowing (started c s).
Proof.
  intros Hs t c'. unfold started. cbn. rewrite lookup_insert_Some. intros [[<- <-]|[_ Hl]]; [split; [done|set_solver]|].
  destruct (Hs t c' Hl) as [Ht Hr]. split; [done|]. intros Hor. specialize (Hr Hor). set_solver.
Qed.

Lemma flowing_put t c c' m s : flowing s -> channels s !! t = Some c -> sc_dead c = false -> enqueue m c = Some c' ->
  flowing (set_chan c' s).
Proof.
  intros Hs Hc Hd (Ht & _)%enqueue_Some. destruct (Hs t c Hc) as [Htc Hr]. apply flowing_set; [done|].
  intros _. rewrite Ht, Htc. apply Hr. by left.
Qed.

(** The next message is sent. *)
Lemma flowing_next `{EqDecision Msg} t m rest s : flowing s -> waiting t s = m :: rest ->
  SendLoop t ∈ routines s /\
  exists s', sendLoop_iter SentOK t s = Some (m, true, s') /\ waiting t s' = rest /\ flowing s'.
Proof.
  unfold waiting, sendLoop_iter. intros Hs. destruct (channels s !! t) as [c|] eqn:Hc; [|done]. intros Hq.
  destruct (Hs t c Hc) as [Ht Hr]. assert (Hl : SendLoop t ∈ routines s) by (apply Hr; right; by rewrite Hq).
  split; [done|]. rewrite Hq. eexists. split; [reflexivity|]. cbn. rewrite Ht, lookup_insert_eq. split; [done|].
  replace t with (sc_target c). by apply flowing_set; [|rewrite Ht].
Qed.

Lemma get_stream_live target component init c (w : W) :
  channels (field_get w) !! target = Some c -> sc_dead c = false ->
  GetStream target component init w = (Returned (OK c), w).
Proof. intros Hc Hd. unfold GetStream, gbind, st_read. by rewrite Hc, Hd. Qed.

Lemma get_stream_new target component (f : string -> Go W (res Stream)) str (w w1 : W) :
  channels (field_get w) !! target = None -> f target w = (Returned (OK str), w1) ->
  let c := mkStreamChannel [] (Some str) target component false in
  GetStream target component (Some f) w = (Returned (OK c), field_set (started c (field_get w1)) w1).
Proof.
  intros Hc Hf c. unfold GetStream, addStream, gtry, gbind, st_read. rewrite Hc, Hf. cbn.
  by rewrite !field_get_set, !field_set_set.
Qed.

Lemma get_stream_restart target component (f : string -> Go W (res Stream)) str c (w w1 : W) :
  channels (field_get w) !! target = Some c -> sc_dead c = true -> f (sc_target c) w = (Returned (OK str), w1) ->
  let c' := revive (Some str) false c in
  GetStream target component (Some f) w = (Returned (OK c'), field_set (started c' (field_get w1)) w1).
Proof.
  intros Hc Hd Hf c'. unfold GetStream, restartStream, gbind, st_read. rewrite Hc, Hd, Hf. cbn.
  by rewrite !field_get_set, !field_set_set.
Qed.

Lemma get_stream_init_error target component (f : string -> Go W (res Stream)) e (w w1 : W) :
  channels (field_get w) !! target = None -> f target w = (Returned (Err e), w1) ->
  GetStream target component (Some f) w
  = (Returned (Err (EWrap ("could not add stream for " +:+ component +:+ " with target '" +:+ target +:+ "'")
       (EWrap "could not init stream" e))), w1).
Proof. intros Hc Hf. unfold GetStream, addStream, gtry, gbind, st_read. by rewrite Hc, Hf. Qed.

(** GetStream on a channel whose connection was lost: when the stream can be
    opened again the channel is revived with everything that was waiting in it
    and both loops are started; when opening fails, the error is not returned:
    the error text is taken from the nil channel that restartStream returned,
    and the handler panics. *)
Theorem get_stream_dead target component (f : string -> Go W (res Stream)) c r (w w1 : W) :
  channels (field_get w) !! target = Some c -> sc_dead c = true -> f (sc_target c) w = (Returned r, w1) ->
  match r with
  | OK str =>
      exists w', GetStream target component (Some f) w = (Returned (OK (revive (Some str) false c)), w') /\
        channels (field_get w') = <[sc_target c := revive (Some str) false c]> (channels (field_get w1)) /\
        routines (field_get w') = routines (field_get w1) ++ [RecvLoop (sc_target c); SendLoop (sc_target c)]
  | Err _ => fst (GetStream target component (Some f) w) = Panicked
  end.
Proof.
  intros Hc Hd Hf. destruct r as [str|e].
  - rewrite (get_stream_restart _ _ _ _ _ _ _ Hc Hd Hf). eexists. split; [done|]. rewrite field_get_set.
    split; [done|]. cbn. by rewrite <-app_assoc.
  - unfold GetStream, restartStream, gbind, st_read. by rewrite Hc, Hd, Hf.
Qed.

(** A channel for the target is available, revived or created when it has to be,
    with nothing lost from its buffer. *)
Lemma get_stream_ready target component (f : string -> Go W (res Stream)) str (w w1 : W) :
  f target w = (Returned (OK str), w1) -> field_get w1 = field_get w ->
  (forall c, channels (field_get w) !! target = Some c -> sc_target c = target) ->
  exists c w', GetStream target component (Some f) w = (Returned (OK c), w') /\ sc_target c = target /\
    channels (field_get w') !! target = Some c /\ sc_channel c = waiting target (field_get w) /\
    sc_dead c = false /\ (w' = w \/ w' = field_set (started c (field_get w)) w1).
Proof.
  intros Hf Hg Hwf. unfold waiting. destruct (channels (field_get w) !! target) as [c|] eqn:Hc.
  - specialize (Hwf c eq_refl). destruct (sc_dead c) eqn:Hd.
    + eexists _, _. rewrite <- Hwf in Hf. split; [by eapply get_stream_restart|]. rewrite field_get_set, Hg.
      split_and!; [done| |done|done|by right]. cbn. by rewrite Hwf, lookup_insert_eq.
    + exists c, w. split; [by apply get_stream_live|]. split_and!; by auto.
  - eexists _, _. split; [by eapply get_stream_new|]. rewrite field_get_set, Hg.
    split_and!; [done| |done|done|by right]. cbn. by rewrite lookup_insert_eq.
Qed.

(** Putting a message into a channel with room. *)
Lemma send_run target m c (w : W) : channels (field_get w) !! target = Some c -> sc_target c = target ->
  length (sc_channel c) < channel_cap ->
  exists c', enqueue m c = Some c' /\ Send target m w = (Returned tt, field_set (set_chan c' (field_get w)) w).
Proof.
  intros Hc Ht Hl. unfold Send, gbind, st_read. rewrite Hc. cbn. unfold enqueue.
  rewrite bool_decide_eq_true_2 by done. by eexists.
Qed.
End GetStreamFacts.

(** ** Two departures from the documentation *)

(** One put message whose sending fails is put back behind a later message. *)
Definition reordered : option (list nat * list nat) :=
  let c := mkStreamChannel [1; 2] (Some tt) "t" "Orchestrator" false in
  let s := mkStreams {["t" := c]} [SendLoop "t"] in
  '(m, _, s1) ← sendLoop_iter SentEOF "t" s;
  s2 ← requeue_run "t" m s1;
  '(m1, _, s3) ← sendLoop_iter SentOK "t" s2;
  '(m2, _, _) ← sendLoop_iter SentOK "t" s3;
  Some ([1; 2], [m1; m2]).

Lemma requeue_reorders : reordered = Some ([1; 2], [2; 1]).
Proof. vm_compute. reflexivity. Qed.
