(* ===== verification/Ontology.v ===== *)
(** api/ontology/ontology.go: what the services ask of a discovered resource.

    A resource is one of the generated ontology messages; the generated code and
    protobuf's reflection and JSON encoding are the interface [IsResource]. *)

From S2P Require Import Prelude GoRuntime GoStrings Util Api Authz.

(** What [v.Interface()] of a message field holds. *)
Inductive FieldValue :=
| FieldString (s : string)
| FieldStrings (l : list string)
| FieldOther.

Class IsResource (R : Type) := {
  resource_GetId : R -> string;
  resource_GetRaw : R -> string;
  (** The fields of the message in the order of its descriptor. *)
  resource_fields : R -> list (string * FieldValue);
  (** The [resource_type_names] option of the message descriptor. *)
  resource_type_names : R -> list string;
  (** [protojson.MarshalOptions{EmitUnpopulated: true}.Marshal]. *)
  protojson_Marshal : R -> res string;
}.

(** [json.Unmarshal] into a map. *)
Class JSONLibrary := json_Unmarshal_map : string -> res (gmap string json).

(** Protobuf's [Any]: [(x *anypb.Any).UnmarshalNew()], the type assertion of the
    decoded message to an ontology resource, and [anypb.New(resource)]. *)
Class AnyLibrary (Message R : Type) := {
  UnmarshalNew : option AnyPb -> res Message;
  as_resource : Message -> option R;
  anypb_New : R -> res AnyPb;
}.

Definition ErrNotOntologyResource : error := EText "protobuf message is not a valid ontology resource".

Record Relationship := mkRelationship { Relationship_Property : string; Relationship_Value : string }.

Section Resource.
Context {R : Type} `{IsResource R, JSONLibrary}.

(** The body of the loop over the fields: what one field contributes. *)
Definition related_field (field : string * FieldValue) : list Relationship :=
  let '(property, found) := strings_CutSuffix (fst field) "_id" in
  if found then
    match snd field with
    | FieldString v => if bool_decide (v <> "") then [mkRelationship property v] else []
    | FieldStrings vs => mkRelationship property <$> vs
    | FieldOther => []
    end
  else [].

Fixpoint related_loop (fields : list (string * FieldValue)) (ids : list Relationship) : list Relationship :=
  match fields with
  | [] => ids
  | f :: fields => related_loop fields (ids ++ related_field f)
  end.

Definition Related (r : R) : list Relationship := related_loop (resource_fields r) [].

Definition ResourceTypes (r : R) : list string := resource_type_names r.

Definition HasType (r : R) (typ : string) : bool := slices_Contains (ResourceTypes r) typ.

Definition ResourceMap (r : R) : res (gmap string json) :=
  match protojson_Marshal r with
  | Err e => Err e
  | OK b => match json_Unmarshal_map b with
            | Err e => Err e
            | OK props => OK (<["type" := JArr (JStr <$> ResourceTypes r)]> props)
            end
  end.

Lemma related_loop_spec fields ids : related_loop fields ids = ids ++ (fields ≫= related_field).
Proof.
  revert ids. induction fields as [|f fields IH]; intros ids; simpl; [by rewrite app_nil_r|].
  by rewrite IH, <-app_assoc.
Qed.

(** A relationship is a non-empty string field, or an element of a string-list
    field, whose name is the property followed by [_id]. *)
Lemma elem_of_related r rel :
  rel ∈ Related r <-> exists f, f ∈ resource_fields r /\ rel ∈ related_field f.
Proof.
  unfold Related. rewrite related_loop_spec, app_nil_l. setoid_rewrite list_elem_of_bind. naive_solver.
Qed.
End Resource.
