(* ===== verification/Policies.v ===== *)
(** Package policies (policies.go, rego.go): the evaluation of an evidence
    against the metrics, with its two caches.

    [regoEval] caches prepared Rego queries (by metric, cloud service and a hash
    of the configuration) and, per tool and resource type, the metrics that were
    applicable the first time.  Open Policy Agent is the interface [Opa]; the
    source of the metrics is the interface [MetricsSource], which the assessment
    service implements. *)

From Stdlib Require Import Ascii.
From S2P Require Import Prelude GoRuntime GoStrings Util Api Authz Pagination Ontology.

(** ** encoding/base64, RawURLEncoding *)

Module RawBase64.
Import Base64.

Fixpoint encode (l : list ascii) : list ascii :=
  match l with
  | [] => []
  | [a] => [sx_char (group1 a); sx_char (group2 a "000"%char)]
  | [a; b] => [sx_char (group1 a); sx_char (group2 a b); sx_char (group3 b "000"%char)]
  | a :: b :: c :: l =>
      sx_char (group1 a) :: sx_char (group2 a b) :: sx_char (group3 b c) :: sx_char (group4 c) :: encode l
  end.

Definition EncodeToString (b : string) : string :=
  String.string_of_list_ascii (encode (String.list_ascii_of_string b)).

(** The inverse, to show that the encoding loses nothing. *)
Fixpoint decode (l : list ascii) : option (list ascii) :=
  match l with
  | [] => Some []
  | [c1; c2] => s1 ← decodeMap c1; s2 ← decodeMap c2; Some [byte1 s1 s2]
  | [c1; c2; c3] => s1 ← decodeMap c1; s2 ← decodeMap c2; s3 ← decodeMap c3; Some [byte1 s1 s2; byte2 s2 s3]
  | c1 :: c2 :: c3 :: c4 :: rest =>
      s1 ← decodeMap c1; s2 ← decodeMap c2; s3 ← decodeMap c3; s4 ← decodeMap c4; bs ← decode rest;
      Some (byte1 s1 s2 :: byte2 s2 s3 :: byte3 s3 s4 :: bs)
  | _ => None
  end.

Lemma raw_decode_encode l : decode (encode l) = Some l.
Proof.
  induction l as [|a|a b|a b c l IH] using triple_ind; [done|..]; cbn [encode decode].
  - rewrite !decodeMap_char. by destruct a.
  - rewrite !decodeMap_char. by destruct a, b.
  - destruct (encode l) as [|x [|y [|z k]]] eqn:E; rewrite !decodeMap_char; cbn -[decode]; rewrite IH;
      destruct (bytes_of_groups a b c) as (-> & -> & ->); done.
Qed.

#[export] Instance EncodeToString_inj : Inj (=) (=) EncodeToString.
Proof.
  intros a b Hab. apply (f_equal String.list_ascii_of_string) in Hab. unfold EncodeToString in Hab.
  rewrite !String.list_ascii_of_string_of_list_ascii in Hab. apply (f_equal decode) in Hab.
  rewrite !raw_decode_encode in Hab. injection Hab as Hab.
  by rewrite <-(String.string_of_list_ascii_of_string a), Hab, String.string_of_list_ascii_of_string.
Qed.
End RawBase64.

(** ** Metric configurations (api/assessment/metric.go) *)

(** [fmt.Sprintf("%v", value)] of a protobuf value: the message's own text. *)
Class ValueText := Value_String : option Value -> string.

(** [(x *MetricConfiguration) Hash()] *)
Definition Hash `{ValueText} (x : MetricConfiguration) : string :=
  RawBase64.EncodeToString
    (MetricConfiguration_Operator x +:+ "-" +:+ Value_String (MetricConfiguration_TargetValue x)).

(** [(x *structpb.Value) AsInterface()] *)
Fixpoint AsInterface (v : Value) : json :=
  match v with
  | NullValue => JNull
  | NumberValue n => JNum n
  | StringValue s => JStr s
  | BoolValue b => JBool b
  | ListValue l => JArr (AsInterface <$> l)
  | StructValue fs => JObj ((fun kv => (fst kv, AsInterface (snd kv))) <$> fs)
  end.

Definition AsInterface_ptr (v : option Value) : json :=
  match v with Some v => AsInterface v | None => JNull end.

(** ** Open Policy Agent *)

(** The variable bindings of one query result. *)
Definition Vars := gmap string json.

(** The object the in-memory store is created from. *)
Record StoreData := mkStoreData {
  data_target_value : json;
  data_operator : string;
  data_config : MetricConfiguration;
}.

Class Opa (Query Tx : Type) := {
  (** [inmem.NewFromObject(data)] followed by [store.NewTransaction]. *)
  opa_NewTransaction : StoreData -> res Tx;
  opa_UpsertPolicy : Tx -> string -> string -> res Tx;
  (** [rego.New(Query(q), Package(p), Store, Transaction(tx), Load(files)).PrepareForEval]. *)
  opa_PrepareForEval : string -> string -> Tx -> list string -> res Query;
  opa_Commit : Tx -> option error;
  opa_Eval : Query -> gmap string json -> res (list Vars);
  (** [json.Marshal] of a binding and [json.Unmarshal] into a configuration. *)
  json_Marshal : json -> res string;
  json_Unmarshal_config : string -> res MetricConfiguration;
}.

(** ** policies.go *)

Record Result := mkResult {
  Result_Applicable : bool;
  Result_Compliant : bool;
  Result_TargetValue : json;
  Result_Operator : string;
  Result_MetricID : string;
  Result_Config : MetricConfiguration;
}.

(** [type MetricsSource interface] *)
Class MetricsSource (W : Type) := {
  src_Metrics : Go W (res (list Metric));
  src_MetricConfiguration : string -> string -> Go W (res MetricConfiguration);
  src_MetricImplementation : Language -> string -> Go W (res MetricImplementation);
}.

Definition createKey (evidence : Evidence) (types : list string) : string :=
  strings_ReplaceAll (strings_Join (types ++ [Evidence_ToolId evidence]) "-") " " "".

(** ** rego.go *)

(** [mrtc] maps a key to a slice, [None] being the nil slice; [mrtc_locked] is
    whether its mutex is held for writing. *)
Record regoEval (Query : Type) := mkRegoEval {
  qc : gmap string Query;
  mrtc : gmap string (option (list string));
  mrtc_locked : bool;
  re_pkg : string;
}.
Arguments mkRegoEval {Query}.
Arguments qc {Query}.
Arguments mrtc {Query}.
Arguments mrtc_locked {Query}.
Arguments re_pkg {Query}.

Definition DefaultRegoPackage : string := "clouditor.metrics".

Definition WithPackageName {Query} (pkg : string) (re : regoEval Query) : regoEval Query :=
  mkRegoEval (qc re) (mrtc re) (mrtc_locked re) pkg.

Definition NewRegoEval {Query} (opts : list (regoEval Query -> regoEval Query)) : regoEval Query :=
  foldl (fun re o => o re) (mkRegoEval ∅ ∅ false DefaultRegoPackage) opts.

(** The state the evaluator lives in. *)
Class RegoState (W Query : Type) := {
  re_get : W -> regoEval Query;
  re_set : regoEval Query -> W -> W;
}.

(** [status.FromError(err)]: the status of the first status error in the chain;
    for a wrapped one the message is the text of the whole chain. *)
Fixpoint status_code (e : error) : option code :=
  match e with EText _ => None | EWrap _ e => status_code e | EStatus c _ => Some c end.

Definition status_FromError (e : error) : option (code * string) :=
  match e with
  | EStatus c m => Some (c, m)
  | _ => match status_code e with Some c => Some (c, Error e) | None => None end
  end.

(** The errors the evaluation of all metrics passes over. *)
Definition missing_metric (e : error) : bool :=
  match status_FromError e with
  | Some (c, m) =>
      bool_decide (c = codes_NotFound) &&
      (strings_Contains m "implementation for metric not found" ||
       strings_Contains m "metric configuration not found for metric")
  | None => false
  end.

Definition query_indent : string := String "010" (String "009" (String "009" (String "009" ""))).

(** The text given to [rego.Query]. *)
Definition query_text (prefix pkg : string) : string :=
  query_indent +:+ "applicable = data." +:+ prefix +:+ "." +:+ pkg +:+ ".applicable;" +:+
  query_indent +:+ "compliant = data." +:+ prefix +:+ "." +:+ pkg +:+ ".compliant;" +:+
  query_indent +:+ "operator = data.clouditor.operator;" +:+
  query_indent +:+ "target_value = data.clouditor.target_value;" +:+
  query_indent +:+ "config = data.clouditor.config".

(** The key of a prepared query. *)
Definition query_key `{ValueText} (metricID serviceID : string) (config : MetricConfiguration) : string :=
  metricID +:+ "-" +:+ serviceID +:+ "-" +:+ Hash config.

Section Rego.
Context {W Query Tx R : Type}.
Context `{Opa Query Tx, RegoState W Query, Src : MetricsSource W, IsResource R, JSONLibrary, ValueText}.

Definition re_read {A} (f : regoEval Query -> A) : Go W A := fun w => (Returned (f (re_get w)), w).
Definition re_modify (f : regoEval Query -> regoEval Query) : Go W unit :=
  fun w => (Returned tt, re_set (f (re_get w)) w).

Definition set_qc (q : gmap string Query) (re : regoEval Query) : regoEval Query :=
  mkRegoEval q (mrtc re) (mrtc_locked re) (re_pkg re).
Definition set_mrtc (key : string) (l : option (list string)) (re : regoEval Query) : regoEval Query :=
  mkRegoEval (qc re) (<[key := l]> (mrtc re)) (mrtc_locked re) (re_pkg re).
Definition set_locked (b : bool) (re : regoEval Query) : regoEval Query :=
  mkRegoEval (qc re) (mrtc re) b (re_pkg re).

(** *** The query cache *)

Definition qc_Get (key : string) (orElse : string -> Go W (res Query)) : Go W (res Query) :=
  cached <- re_read (fun re => qc re !! key) ;;
  match cached with
  | Some query => gok query
  | None =>
      query <-? orElse key ! id ;;
      re_modify (fun re => set_qc (<[key := query]> (qc re)) re) ;;;
      gok query
  end.

Definition qc_Empty : Go W unit := re_modify (set_qc ∅).

Definition qc_Evict (metric : string) : Go W unit :=
  re_modify (fun re => set_qc (filter (fun kv => strings_HasPrefix (fst kv) metric = false) (qc re)) re).

(** *** Evaluating one metric *)

(** The function given to [qc.Get]: prepare a query for the metric. *)
Definition prepare_query (baseDir metricID : string) (config : MetricConfiguration) (_ : string) : Go W (res Query) :=
  let bundle := baseDir +:+ "/policies/bundles/" +:+ metricID +:+ "/" in
  let operators := baseDir +:+ "/policies/operators.rego" in
  let data := mkStoreData (AsInterface_ptr (MetricConfiguration_TargetValue config))
                (MetricConfiguration_Operator config) config in
  tx <-? gret (opa_NewTransaction data) ! EWrap "could not create transaction" ;;
  prefix <- re_read re_pkg ;;
  let pkg := CamelCaseToSnakeCase metricID in
  impl <-? src_MetricImplementation LANGUAGE_REGO metricID
       ! EWrap ("could not fetch policy for metric " +:+ metricID) ;;
  tx <-? gret (opa_UpsertPolicy tx (bundle +:+ "metric.rego") (MetricImplementation_Code impl))
     ! EWrap "could not upsert policy" ;;
  query <-? gret (opa_PrepareForEval (query_text prefix pkg) prefix tx [operators])
        ! EWrap ("could not prepare rego evaluation for metric " +:+ metricID) ;;
  match opa_Commit tx with
  | Some e => gerr (EWrap "could not commit transaction" e)
  | None => gok query
  end.

(** The type assertions [.(bool)] and [.(string)] on a binding. *)
Definition assert_bool {V} (vars : Vars) (name : string) : Go V bool :=
  match vars !! name with Some (JBool b) => gret b | _ => gpanic end.
Definition assert_string {V} (vars : Vars) (name : string) : Go V string :=
  match vars !! name with Some (JStr s) => gret s | _ => gpanic end.
(** [Bindings[name]] without an assertion: a missing binding is nil. *)
Definition binding (vars : Vars) (name : string) : json := default JNull (vars !! name).

(** From [query.Eval] on. *)
Definition run_query {V} (metricID : string) (query : Query) (m : gmap string json) : Go V (res (option Result)) :=
  results <-? gret (opa_Eval query m) ! EWrap "could not evaluate rego policy" ;;
  match results with
  | [] => gerr (EText ("no results. probably the package name of metric " +:+ metricID +:+ " is wrong"))
  | vars :: _ =>
      applicable <- assert_bool vars "applicable" ;;
      compliant <- assert_bool vars "compliant" ;;
      operator <- assert_string vars "operator" ;;
      b <-? gret (json_Marshal (binding vars "config")) ! EWrap "JSON marshal failed" ;;
      config <-? gret (json_Unmarshal_config b) ! EWrap "JSON unmarshal failed" ;;
      if applicable
      then gok (Some (mkResult applicable compliant (binding vars "target_value") operator metricID config))
      else gok None
  end.

Definition evalMap (baseDir serviceID metricID : string) (m : gmap string json) : Go W (res (option Result)) :=
  config <-? src_MetricConfiguration serviceID metricID
         ! EWrap ("could not fetch metric configuration for metric " +:+ metricID) ;;
  let key := query_key metricID serviceID config in
  query <-? qc_Get key (prepare_query baseDir metricID config)
        ! EWrap ("could not fetch cached query for metric " +:+ metricID) ;;
  run_query metricID query m.

(** *** Evaluating an evidence *)

(** [re.mrtc.RLock()] and [re.mrtc.Lock()] wait while the lock is held. *)
Definition mrtc_await : Go W unit :=
  locked <- re_read mrtc_locked ;; if locked : bool then gfuel else gret tt.
Definition mrtc_Lock : Go W unit := mrtc_await ;;; re_modify (set_locked true).
Definition mrtc_Unlock : Go W unit := re_modify (set_locked false).

(** The loop over all metrics, with the applicable ones and their results so far. *)
Fixpoint eval_metrics (baseDir serviceID key : string) (m : gmap string json) (metrics : list Metric)
    (cached : list string) (data : list (option Result)) : Go W (res (list string * list (option Result))) :=
  match metrics with
  | [] => gok (cached, data)
  | metric :: metrics =>
      runMap <- evalMap baseDir serviceID (Metric_Id metric) m ;;
      match runMap with
      | Err e =>
          if missing_metric e then eval_metrics baseDir serviceID key m metrics cached data
          else re_modify (set_mrtc key None) ;;; mrtc_Unlock ;;; gerr e
      | OK None => eval_metrics baseDir serviceID key m metrics cached data
      | OK (Some r) =>
          eval_metrics baseDir serviceID key m metrics (cached ++ [Metric_Id metric]) (data ++ [Some r])
      end
  end.

(** The loop over the cached metrics. *)
Fixpoint eval_cached (baseDir serviceID : string) (m : gmap string json) (cached : list string)
    (data : list (option Result)) : Go W (res (list (option Result))) :=
  match cached with
  | [] => gok data
  | metric :: cached =>
      runMap <-? evalMap baseDir serviceID metric m ! id ;;
      match runMap with
      | Some r => eval_cached baseDir serviceID m cached (data ++ [Some r])
      | None => eval_cached baseDir serviceID m cached data
      end
  end.

Definition Eval (evidence : Evidence) (r : R) : Go W (res (list (option Result))) :=
  let baseDir := "." in
  m <-? gret (ResourceMap r) ! id ;;
  let types := ResourceTypes r in
  let key := createKey evidence types in
  mrtc_await ;;;
  cached <- re_read (fun re => default None (mrtc re !! key)) ;;
  match cached with
  | None =>
      metrics <-? src_Metrics ! EWrap "could not retrieve metric definitions" ;;
      mrtc_Lock ;;;
      found <-? eval_metrics baseDir (Evidence_CloudServiceId evidence) key m metrics [] [] ! id ;;
      re_modify (set_mrtc key (Some (fst found))) ;;;
      mrtc_Unlock ;;;
      gok (snd found)
  | Some cached => eval_cached baseDir (Evidence_CloudServiceId evidence) m cached []
  end.

Definition HandleMetricEvent (event : MetricChangeEvent) : Go W (option error) :=
  qc_Evict (MetricChangeEvent_MetricId event) ;;;
  gret None.
End Rego.
