(* ===== verification/PoliciesProofs.v ===== *)
(** The policy evaluation is correct: the two caches of [regoEval] are
    transparent while the metrics do not change, metric events evict exactly the
    queries they have to, and what the applicability cache may leave out. *)

From Stdlib Require Import Ascii.
From S2P Require Import Prelude GoRuntime GoStrings Util Api Authz Pagination Ontology Policies.

(** ** Keys *)

Fixpoint no_dash (s : string) : bool :=
  match s with EmptyString => true | String c s => negb (bool_decide (c = "-"%char)) && no_dash s end.

Lemma split_dash a a' b b' : no_dash a = true -> no_dash a' = true ->
  a +:+ "-" +:+ b = a' +:+ "-" +:+ b' -> a = a' /\ b = b'.
Proof.
  revert a'. induction a as [|c a IH]; intros [|c' a'] Ha Ha' Heq;
    rewrite ?str_append_cons, ?str_append_empty in Heq; cbn in Ha, Ha'.
  - by injection Heq as ->.
  - injection Heq as <- _. by rewrite bool_decide_eq_true_2 in Ha' by done.
  - injection Heq as -> _. by rewrite bool_decide_eq_true_2 in Ha by done.
  - apply andb_true_iff in Ha as [_ Ha]. apply andb_true_iff in Ha' as [_ Ha'].
    injection Heq as -> Heq. destruct (IH a' Ha Ha' Heq) as [-> ->]. done.
Qed.

Lemma append_inj_length a a' b b' : String.length a = String.length a' ->
  a +:+ b = a' +:+ b' -> a = a' /\ b = b'.
Proof.
  revert a'. induction a as [|c a IH]; intros [|c' a'] Hl Heq; cbn in Hl; [done|lia..|].
  rewrite ?str_append_cons in Heq.
  injection Heq as -> Heq. destruct (IH a' ltac:(lia) Heq) as [-> ->]. done.
Qed.

(** The length of a UUID, which protovalidate requires of a cloud service id. *)
Definition is_uuid (s : string) : Prop := String.length s = 36.

Section Keys.
Context `{ValueText}.

(** MetricConfiguration.Hash (api/assessment/metric.go) identifies
    what it is computed from: for operators without a dash (Clouditor's operators
    are comparison symbols and words), two configurations have the same hash
    exactly when they have the same operator and their target values print the
    same.  In particular no two different target values of one operator share a
    cached query. *)
Theorem hash_identifies (c c' : MetricConfiguration) :
  no_dash (MetricConfiguration_Operator c) = true ->
  no_dash (MetricConfiguration_Operator c') = true ->
  (Hash c = Hash c' <->
   MetricConfiguration_Operator c = MetricConfiguration_Operator c' /\
   Value_String (MetricConfiguration_TargetValue c) = Value_String (MetricConfiguration_TargetValue c')).
Proof.
  intros Hc Hc'. unfold Hash. split.
  - intros Heq%RawBase64.EncodeToString_inj. by apply split_dash in Heq.
  - by intros [-> ->].
Qed.

Lemma query_key_inj m s c m' s' c' :
  no_dash m = true -> no_dash m' = true -> is_uuid s -> is_uuid s' ->
  query_key m s c = query_key m' s' c' -> m = m' /\ s = s' /\ Hash c = Hash c'.
Proof.
  unfold query_key, is_uuid. intros Hm Hm' Hs Hs' Heq. apply split_dash in Heq as [-> Heq]; [|done..].
  apply append_inj_length in Heq as [-> Heq]; [|congruence]. by injection Heq.
Qed.

Lemma query_key_prefix m s c : strings_HasPrefix (query_key m s c) m = true.
Proof. apply prefix_app. Qed.

(** For two metrics without dashes in their names, a key of one starts with the
    name of the other only when the name itself does. *)
Lemma query_key_other m m' s c : no_dash m = true -> String.prefix m m' = false ->
  strings_HasPrefix (query_key m' s c) m = false.
Proof.
  intros Hm Hp. apply not_true_is_false. unfold query_key, strings_HasPrefix. intros (b & Hb)%prefix_spec.
  revert m' Hp Hb. induction m as [|x m IH]; intros [|y m'] Hp Hb;
    rewrite ?str_append_cons, ?str_append_empty in Hb; cbn in Hm, Hp; [done..| |].
  - injection Hb as <- _. by rewrite bool_decide_eq_true_2 in Hm by done.
  - injection Hb as -> Hb. apply andb_true_iff in Hm as [_ Hm]. destruct (ascii_dec x x); [|done]. by eapply IH.
Qed.
End Keys.

(** ** Metric events *)

Section Events.
Context {W Query : Type} `{RegoState W Query}.

Class RegoStateLaws : Prop := { re_get_set : forall r w, re_get (re_set r w) = r }.

(** Handling a metric event removes every prepared query of the metric, for
    every cloud service and every configuration, so that the next evaluation
    prepares the metric's current implementation again; queries whose key does
    not start with the metric's name stay.  The cache of applicable metrics is
    left as it was, whatever the event says. *)
Theorem metric_event_evicts `{RegoStateLaws, ValueText} (event : MetricChangeEvent) (w : W) :
  let m := MetricChangeEvent_MetricId event in
  exists w', HandleMetricEvent event w = (Returned None, w') /\
    (forall s c, qc (re_get w') !! query_key m s c = None) /\
    (forall k, strings_HasPrefix k m = false -> qc (re_get w') !! k = qc (re_get w) !! k) /\
    (forall m' s c, no_dash m = true -> String.prefix m m' = false ->
       qc (re_get w') !! query_key m' s c = qc (re_get w) !! query_key m' s c) /\
    mrtc (re_get w') = mrtc (re_get w).
Proof.
  intros m. eexists. split; [reflexivity|]. rewrite re_get_set. cbn.
  assert (Hkeep : forall k, strings_HasPrefix k m = false ->
    filter (fun kv : string * Query => strings_HasPrefix kv.1 m = false) (qc (re_get w)) !! k = qc (re_get w) !! k).
  { intros k Hk. rewrite map_lookup_filter. destruct (qc (re_get w) !! k); [|done]. cbn.
    by rewrite option_guard_True. }
  split_and!; [|done| |done].
  - intros s c. rewrite map_lookup_filter. destruct (qc (re_get w) !! _); [|done]. cbn.
    rewrite option_guard_False; [done|]. intros Hk. by pose proof (eq_trans (eq_sym Hk) (query_key_prefix m s c)).
  - intros m' s c Hm Hp. apply Hkeep. by apply query_key_other.
Qed.
End Events.

(** ** Evaluation without caches *)

Section Direct.
Context {Query Tx : Type} `{Opa Query Tx, ValueText}.

(** What the metrics source answers while nothing changes. *)
Context (pkg : string) (ms : list Metric).
Context (cfg : string -> string -> res MetricConfiguration) (impl : string -> res MetricImplementation).

(** Preparing the query of a metric from its configuration and implementation. *)
Definition direct_query (metricID : string) (config : MetricConfiguration) : res Query :=
  match opa_NewTransaction (mkStoreData (AsInterface_ptr (MetricConfiguration_TargetValue config))
          (MetricConfiguration_Operator config) config) with
  | Err e => Err (EWrap "could not create transaction" e)
  | OK tx =>
      match impl metricID with
      | Err e => Err (EWrap ("could not fetch policy for metric " +:+ metricID) e)
      | OK i =>
          match opa_UpsertPolicy tx ("./policies/bundles/" +:+ metricID +:+ "/" +:+ "metric.rego")
                  (MetricImplementation_Code i) with
          | Err e => Err (EWrap "could not upsert policy" e)
          | OK tx =>
              match opa_PrepareForEval (query_text pkg (CamelCaseToSnakeCase metricID)) pkg tx
                      ["./policies/operators.rego"] with
              | Err e => Err (EWrap ("could not prepare rego evaluation for metric " +:+ metricID) e)
              | OK q => match opa_Commit tx with
                        | Some e => Err (EWrap "could not commit transaction" e)
                        | None => OK q
                        end
              end
          end
      end
  end.

(** What the policy engine's answer means: its first row of bindings has to hold
    the booleans "applicable" and "compliant" and the text "operator" (anything
    else panics); a metric that is not applicable has no verdict. *)
Definition verdict (metricID : string) (answer : res (list Vars)) : outcome (res (option Result)) :=
  match answer with
  | Err e => Returned (Err (EWrap "could not evaluate rego policy" e))
  | OK [] => Returned (Err (EText ("no results. probably the package name of metric " +:+ metricID +:+ " is wrong")))
  | OK (vars :: _) =>
      match vars !! "applicable", vars !! "compliant", vars !! "operator" with
      | Some (JBool applicable), Some (JBool compliant), Some (JStr operator) =>
          match json_Marshal (default JNull (vars !! "config")) with
          | Err e => Returned (Err (EWrap "JSON marshal failed" e))
          | OK b =>
              match json_Unmarshal_config b with
              | Err e => Returned (Err (EWrap "JSON unmarshal failed" e))
              | OK config =>
                  Returned (OK (if applicable
                    then Some (mkResult true compliant (default JNull (vars !! "target_value")) operator metricID config)
                    else None))
              end
          end
      | _, _, _ => Panicked
      end
  end.

(** The verdict of one metric on a resource. *)
Definition direct (serviceID : string) (m : gmap string json) (metricID : string) : outcome (res (option Result)) :=
  match cfg serviceID metricID with
  | Err e => Returned (Err (EWrap ("could not fetch metric configuration for metric " +:+ metricID) e))
  | OK config =>
      match direct_query metricID config with
      | Err e => Returned (Err (EWrap ("could not fetch cached query for metric " +:+ metricID) e))
      | OK q => verdict metricID (opa_Eval q m)
      end
  end.

(** The verdicts of the given metrics, in order; [skip] says which errors count
    as "not applicable". *)
Fixpoint direct_all (skip : error -> bool) (serviceID : string) (m : gmap string json) (ids : list string)
  : outcome (res (list Result)) :=
  match ids with
  | [] => Returned (OK [])
  | id :: ids =>
      match direct serviceID m id with
      | Returned (OK o) =>
          match direct_all skip serviceID m ids with
          | Returned (OK rs) => Returned (OK (match o with Some r => r :: rs | None => rs end))
          | other => other
          end
      | Returned (Err e) => if skip e then direct_all skip serviceID m ids else Returned (Err e)
      | Panicked => Panicked
      | OutOfFuel => OutOfFuel
      end
  end.

(** The same metrics with missing ones passed over: what the source promises for
    an evidence. *)
Definition assess_all (serviceID : string) (m : gmap string json) : outcome (res (list Result)) :=
  direct_all missing_metric serviceID m (Metric_Id <$> ms).

Lemma run_query_pure {V} metricID (q : Query) m (v : V) :
  run_query metricID q m v = (verdict metricID (opa_Eval q m), v).
Proof.
  unfold run_query, verdict, assert_bool, assert_string, binding. go_unfold.
  repeat (case_match; simplify_eq/=; try done).
Qed.

Lemma verdict_id metricID answer r : verdict metricID answer = Returned (OK (Some r)) -> Result_MetricID r = metricID.
Proof. unfold verdict. intros Hr. repeat (case_match; simplify_eq/=; try done). Qed.

Lemma direct_id serviceID m metricID r :
  direct serviceID m metricID = Returned (OK (Some r)) -> Result_MetricID r = metricID.
Proof. unfold direct. intros Hd. repeat (case_match; simplify_eq/=). by eapply verdict_id. Qed.

Lemma direct_not_stuck serviceID m metricID : direct serviceID m metricID <> OutOfFuel.
Proof.
  unfold direct, verdict. repeat (case_match; simplify_eq/=; try done).
Qed.

Lemma direct_all_ids skip serviceID m ids rs r :
  direct_all skip serviceID m ids = Returned (OK rs) -> r ∈ rs -> Result_MetricID r ∈ ids.
Proof.
  revert rs. induction ids as [|id ids IH]; intros rs Hd Hr; cbn in Hd; [simplify_eq; set_solver|].
  repeat (case_match; simplify_eq/=); try set_solver.
  apply elem_of_cons in Hr as [->|Hr]; [|set_solver]. erewrite direct_id by done. set_solver.
Qed.
End Direct.

(** ** The caches are transparent *)

Section Caches.
Context {W Query Tx R : Type}.
Context `{Opa Query Tx, RegoState W Query, !RegoStateLaws, Src : MetricsSource W, IsResource R, JSONLibrary, ValueText}.
Context (pkg : string) (ms : list Metric).
Context (cfg : string -> string -> res MetricConfiguration) (impl : string -> res MetricImplementation).

(** A metrics source whose answers do not change while [I] holds, and which
    leaves the evaluator alone. *)
Class StableSource (I : W -> Prop) : Prop := {
  stable_metrics : forall w, I w ->
    exists w', src_Metrics w = (Returned (OK ms), w') /\ I w' /\ re_get w' = re_get w;
  stable_config : forall w s m, is_uuid s -> I w ->
    exists w', src_MetricConfiguration s m w = (Returned (cfg s m), w') /\ I w' /\ re_get w' = re_get w;
  stable_implementation : forall w m, I w ->
    exists w', src_MetricImplementation LANGUAGE_REGO m w = (Returned (impl m), w') /\ I w' /\ re_get w' = re_get w;
  stable_set : forall w r, I w -> I (re_set r w);
}.

Context (I : W -> Prop) `{!StableSource I}.
Context (Hnames : Forall (fun m => no_dash (Metric_Id m) = true) ms).

(** Every cached query that a lookup can find is the one that would be prepared now. *)
Definition coherent (re : regoEval Query) : Prop :=
  re_pkg re = pkg /\
  forall m s c q, no_dash m = true -> is_uuid s -> cfg s m = OK c ->
    qc re !! query_key m s c = Some q -> direct_query pkg impl m c = OK q.

(** The evaluator may only have cached more queries. *)
Definition same_mrtc (re re' : regoEval Query) : Prop :=
  mrtc re' = mrtc re /\ mrtc_locked re' = mrtc_locked re.

(** The metrics cached as applicable are metrics of the source. *)
Definition known (re : regoEval Query) : Prop :=
  forall key ids, mrtc re !! key = Some (Some ids) -> ids ⊆ Metric_Id <$> ms.

Definition good (w : W) : Prop := I w /\ coherent (re_get w).

Lemma prepare_query_direct m c k w : I w -> re_pkg (re_get w) = pkg ->
  exists w', prepare_query "." m c k w = (Returned (direct_query pkg impl m c), w') /\ I w' /\ re_get w' = re_get w.
Proof.
  intros HI Hp. unfold prepare_query, direct_query. cbv zeta. unfold gtry, gbind, gret at 1.
  destruct (opa_NewTransaction _) as [tx|e]; [|by exists w].
  unfold re_read. rewrite Hp. destruct (stable_implementation w m HI) as (w1 & -> & HI1 & He1).
  destruct (impl m) as [i|e]; [|by exists w1].
  exists w1. split_and!; [|done..].
  change ((("." +:+ "/policies/bundles/" +:+ m +:+ "/") +:+ "metric.rego"))
    with ("./policies/bundles/" +:+ ((m +:+ "/") +:+ "metric.rego")).
  rewrite (str_append_assoc m "/").
  unfold gret. destruct (opa_UpsertPolicy _ _ _) as [tx'|e]; [|done].
  change ("." +:+ "/policies/operators.rego") with "./policies/operators.rego".
  destruct (opa_PrepareForEval _ _ _ _) as [q|e]; [|done]. by destruct (opa_Commit _).
Qed.

Lemma coherent_insert re m s c q : coherent re -> no_dash m = true -> is_uuid s -> cfg s m = OK c ->
  direct_query pkg impl m c = OK q -> coherent (set_qc (<[query_key m s c := q]> (qc re)) re).
Proof.
  intros [Hp Hc] Hm Hs Hcfg Hq. split; [done|]. intros m' s' c' q' Hm' Hs' Hcfg'. cbn.
  rewrite lookup_insert_Some. intros [[Heq <-]|[_ Hl]]; [|by eauto].
  apply query_key_inj in Heq as (<- & <- & _); [|done..]. congruence.
Qed.

Lemma evalMap_direct m s x w : good w -> no_dash m = true -> is_uuid s ->
  exists w', evalMap "." s m x w = (direct pkg cfg impl s x m, w') /\ good w' /\ same_mrtc (re_get w) (re_get w').
Proof.
  intros [HI Hco] Hm Hs. unfold evalMap, direct. unfold gtry at 1, gbind at 1.
  destruct (stable_config w s m Hs HI) as (w1 & -> & HI1 & He1).
  destruct (cfg s m) as [c|e] eqn:Ec; [|exists w1; unfold good, same_mrtc; by rewrite He1].
  unfold gtry, gbind at 1, qc_Get, gbind at 1, re_read. rewrite He1.
  destruct (qc (re_get w) !! query_key m s c) as [q|] eqn:Eq.
  - rewrite (proj2 Hco m s c q Hm Hs Ec Eq). unfold gok, gret. cbv beta iota. exists w1. rewrite run_query_pure.
    split; [done|]. unfold good, same_mrtc. by rewrite He1.
  - unfold gtry, gbind at 1.
    destruct (prepare_query_direct m c (query_key m s c) w1 HI1) as (w2 & -> & HI2 & He2).
    { rewrite He1. apply Hco. }
    destruct (direct_query pkg impl m c) as [q|e] eqn:Ed.
    2: { exists w2. unfold good, same_mrtc. by rewrite He2, He1. }
    unfold gbind, re_modify, gok, gret. cbv beta iota. rewrite run_query_pure. eexists. split; [done|]. unfold good, same_mrtc. rewrite re_get_set, He2, He1. cbn.
    split_and!; [by apply stable_set|by apply coherent_insert|done..].
Qed.

Lemma metric_name id : id ∈ Metric_Id <$> ms -> no_dash id = true.
Proof. intros (m & -> & Hm)%list_elem_of_fmap. rewrite Forall_forall in Hnames. by apply Hnames. Qed.

Lemma eval_cached_direct s x ids data w : good w -> is_uuid s -> ids ⊆ Metric_Id <$> ms ->
  exists w', eval_cached "." s x ids data w
    = (match direct_all pkg cfg impl (fun _ => false) s x ids with
       | Returned (OK rs) => Returned (OK (data ++ (Some <$> rs)))
       | Returned (Err e) => Returned (Err e)
       | Panicked => Panicked
       | OutOfFuel => OutOfFuel
       end, w') /\ good w' /\ same_mrtc (re_get w) (re_get w').
Proof.
  intros Hg Hs. revert data w Hg. induction ids as [|id ids IH]; intros data w Hg Hids.
  { exists w. cbn. rewrite app_nil_r. done. }
  cbn [eval_cached direct_all]. unfold gtry, gbind.
  destruct (evalMap_direct id s x w Hg (metric_name id ltac:(set_solver)) Hs) as (w1 & -> & Hg1 & Hm1).
  destruct (direct _ _ _ s x id) as [[o|e]| |]; [|by exists w1..].
  assert (Hids' : ids ⊆ Metric_Id <$> ms) by set_solver.
  destruct o as [r|].
  - destruct (IH (data ++ [Some r]) w1 Hg1 Hids') as (w' & Hrun & Hg' & Hm').
    exists w'. rewrite Hrun. unfold same_mrtc in *. split_and!; [|done|intuition congruence..].
    destruct (direct_all _ _ _ _ s x ids) as [[rs|e]| |]; [|done..]. cbn. by rewrite <-app_assoc.
  - destruct (IH data w1 Hg1 Hids') as (w' & Hrun & Hg' & Hm').
    exists w'. rewrite Hrun. unfold same_mrtc in *. split_and!; [|done|intuition congruence..].
    by destruct (direct_all _ _ _ _ s x ids) as [[rs|e]| |].
Qed.

Lemma good_re_modify w f : good w -> coherent (f (re_get w)) -> good (re_set (f (re_get w)) w).
Proof. intros [HI _] Hf. split; [by apply stable_set|by rewrite re_get_set]. Qed.

(** What the loop over all metrics does to the cache of applicable metrics. *)
Definition mrtc_after (key : string) (out : outcome (res (list Result))) (re re' : regoEval Query) : Prop :=
  match out with
  | Returned (Err _) => mrtc re' = <[key := None]> (mrtc re) /\ mrtc_locked re' = false
  | _ => same_mrtc re re'
  end.

Lemma eval_metrics_direct s key x metrics cached data w : good w -> is_uuid s -> metrics ⊆ ms ->
  let out := direct_all pkg cfg impl missing_metric s x (Metric_Id <$> metrics) in
  exists w', eval_metrics "." s key x metrics cached data w
    = (match out with
       | Returned (OK rs) => Returned (OK (cached ++ (Result_MetricID <$> rs), data ++ (Some <$> rs)))
       | Returned (Err e) => Returned (Err e)
       | Panicked => Panicked
       | OutOfFuel => OutOfFuel
       end, w') /\ good w' /\ mrtc_after key out (re_get w) (re_get w').
Proof.
  intros Hg Hs. revert cached data w Hg. induction metrics as [|m metrics IH]; intros cached data w Hg Hms out.
  { exists w. cbn. rewrite !app_nil_r. done. }
  subst out. cbn [eval_metrics fmap list_fmap direct_all]. unfold gbind at 1.
  assert (Hm : Metric_Id m ∈ Metric_Id <$> ms) by (apply list_elem_of_fmap_2; set_solver).
  destruct (evalMap_direct (Metric_Id m) s x w Hg (metric_name _ Hm) Hs) as (w1 & -> & Hg1 & [Hm1 Hl1]).
  assert (Hms' : metrics ⊆ ms) by set_solver.
  destruct (direct pkg cfg impl s x (Metric_Id m)) as [[o|e]| |] eqn:Ed; [| |by exists w1..].
  - set (cached1 := match o with Some _ => cached ++ [Metric_Id m] | None => cached end).
    set (data1 := match o with Some r => data ++ [Some r] | None => data end).
    destruct (IH cached1 data1 w1 Hg1 Hms') as (w' & Hrun & Hg' & Hm').
    exists w'. destruct (direct_all _ _ _ _ s x _) as [[rs|e]| |];
      (split_and!; [|done|unfold mrtc_after, same_mrtc in *; by rewrite <- ?Hm1, <- ?Hl1]);
      destruct o as [r|]; unfold cached1, data1 in Hrun; try done.
    apply direct_id in Ed. cbn. rewrite Hrun, Ed, <-!app_assoc. done.
  - destruct (missing_metric e) eqn:Ee.
    + destruct (IH cached data w1 Hg1 Hms') as (w' & Hrun & Hg' & Hm').
      exists w'. rewrite Hrun. split_and!; [done..|].
      destruct (direct_all _ _ _ _ s x _) as [[rs|e']| |]; unfold mrtc_after, same_mrtc in *; by rewrite <- ?Hm1, <- ?Hl1.
    + eexists. split; [reflexivity|]. rewrite !re_get_set. cbn. rewrite Hm1. split; [|done].
      destruct Hg1 as [HI1 Hc1]. split; [by repeat apply stable_set|]. by rewrite !re_get_set.
Qed.

(** The slice of pointers [Eval] answers with. *)
Definition as_data (out : outcome (res (list Result))) : outcome (res (list (option Result))) :=
  match out with
  | Returned (OK rs) => Returned (OK (Some <$> rs))
  | Returned (Err e) => Returned (Err e)
  | Panicked => Panicked
  | OutOfFuel => OutOfFuel
  end.

Lemma await_unlocked w : mrtc_locked (re_get w) = false -> mrtc_await w = (Returned tt, w).
Proof. intros Hl. unfold mrtc_await, gbind, re_read. by rewrite Hl. Qed.

Lemma eval_hit ev r x ids w : good w -> mrtc_locked (re_get w) = false -> known (re_get w) ->
  is_uuid (Evidence_CloudServiceId ev) -> ResourceMap r = OK x ->
  mrtc (re_get w) !! createKey ev (ResourceTypes r) = Some (Some ids) ->
  exists w', Eval ev r w = (as_data (direct_all pkg cfg impl (fun _ => false) (Evidence_CloudServiceId ev) x ids), w') /\
    good w' /\ same_mrtc (re_get w) (re_get w').
Proof.
  intros Hg Hl Hk Hs Hx Hids. unfold Eval. cbv zeta. unfold gtry, gbind, gret at 1. rewrite Hx.
  rewrite await_unlocked by done. unfold re_read. rewrite Hids. cbn [default id].
  by apply eval_cached_direct; [..|by eapply Hk].
Qed.

(** The state of the evaluator after all metrics have been tried. *)
Definition mrtc_filled (key : string) (out : outcome (res (list Result))) (re re' : regoEval Query) : Prop :=
  match out with
  | Returned (OK rs) => mrtc re' = <[key := Some (Result_MetricID <$> rs)]> (mrtc re) /\ mrtc_locked re' = false
  | Returned (Err _) => mrtc re' = <[key := None]> (mrtc re) /\ mrtc_locked re' = false
  | Panicked | OutOfFuel => mrtc re' = mrtc re /\ mrtc_locked re' = true
  end.

Lemma eval_miss ev r x w : good w -> mrtc_locked (re_get w) = false ->
  is_uuid (Evidence_CloudServiceId ev) -> ResourceMap r = OK x ->
  default None (mrtc (re_get w) !! createKey ev (ResourceTypes r)) = None ->
  let out := assess_all pkg ms cfg impl (Evidence_CloudServiceId ev) x in
  exists w', Eval ev r w = (as_data out, w') /\ good w' /\
    mrtc_filled (createKey ev (ResourceTypes r)) out (re_get w) (re_get w').
Proof.
  intros [HI Hc] Hl Hs Hx Hmiss out. unfold Eval. cbv zeta. unfold gtry, gbind, gret at 1. rewrite Hx.
  rewrite await_unlocked by done. unfold re_read. rewrite Hmiss.
  set (key := createKey ev (ResourceTypes r)).
  destruct (stable_metrics w HI) as (w1 & -> & HI1 & He1). unfold mrtc_Lock, gbind.
  rewrite await_unlocked by (by rewrite He1). unfold re_modify at 1. rewrite He1.
  set (w2 := re_set (set_locked true (re_get w)) w1).
  assert (He2 : re_get w2 = set_locked true (re_get w)) by apply re_get_set.
  destruct (eval_metrics_direct (Evidence_CloudServiceId ev) key x ms [] [] w2)
    as (w3 & Hrun & Hg3 & Hm3); [split; [by apply stable_set|by rewrite He2]|done|done|].
  rewrite Hrun. fold (assess_all pkg ms cfg impl (Evidence_CloudServiceId ev) x) in *. subst out.
  destruct (assess_all _ _ _ _ _ x) as [[rs|e]| |]; cbn in *; rewrite He2 in Hm3; cbn in Hm3;
    [|by exists w3|by exists w3|by exists w3].
  destruct Hm3 as [Hm3 _]. eexists. split; [reflexivity|]. rewrite !re_get_set. cbn. rewrite Hm3.
  split; [|done]. destruct Hg3 as [HI3 Hc3]. split; [by repeat apply stable_set|]. by rewrite !re_get_set.
Qed.

(** The same metrics apply to both resources (an absent field of the second may
    still make one of them inapplicable). *)
Definition same_applicability (s : string) (x : gmap string json) (s' : string) (x' : gmap string json) : Prop :=
  forall id, id ∈ Metric_Id <$> ms ->
    match direct pkg cfg impl s x id with
    | Returned (OK (Some _)) => exists o, direct pkg cfg impl s' x' id = Returned (OK o)
    | _ => direct pkg cfg impl s' x' id = Returned (OK None) \/
           exists e, direct pkg cfg impl s' x' id = Returned (Err e) /\ missing_metric e = true
    end.

Lemma direct_all_cached s x s' x' ids rs : ids ⊆ Metric_Id <$> ms -> same_applicability s x s' x' ->
  direct_all pkg cfg impl missing_metric s x ids = Returned (OK rs) ->
  direct_all pkg cfg impl (fun _ => false) s' x' (Result_MetricID <$> rs)
  = direct_all pkg cfg impl missing_metric s' x' ids.
Proof.
  intros Hids Hsame. revert rs. induction ids as [|id ids IH]; intros rs Hd; cbn in Hd; [by simplify_eq|].
  specialize (IH ltac:(set_solver)). pose proof (Hsame id ltac:(set_solver)) as Hs.
  destruct (direct pkg cfg impl s x id) as [[[r|]|e]| |] eqn:Ed; simplify_eq/=.
  - destruct (direct_all _ _ _ _ s x ids) as [[rs'|]| |] eqn:Ea; simplify_eq. cbn.
    rewrite (direct_id _ _ _ _ _ _ _ Ed), IH by done. by destruct Hs as [o ->].
  - destruct (direct_all _ _ _ _ s x ids) as [[rs'|]| |] eqn:Ea; simplify_eq. rewrite IH by done.
    destruct Hs as [->|(e & -> & ->)]; [|done]. by destruct (direct_all _ _ _ _ s' x' ids) as [[]| |].
  - destruct (missing_metric e); [|done]. rewrite IH by done.
    destruct Hs as [->|(e' & -> & ->)]; [|done]. by destruct (direct_all _ _ _ _ s' x' ids) as [[]| |].
Qed.

Lemma filled_known key s x re re' : known re ->
  mrtc_filled key (assess_all pkg ms cfg impl s x) re re' -> known re'.
Proof.
  intros Hk Hf. unfold mrtc_filled in Hf. destruct (assess_all _ _ _ _ s x) as [[rs|e]| |] eqn:E;
    destruct Hf as [Hf _]; unfold known; rewrite Hf; try done; intros k ids; rewrite lookup_insert_Some;
    (intros [[_ Heq]|[_ Hl]]; [simplify_eq|by eapply Hk]).
  intros id (r & -> & Hr)%list_elem_of_fmap. by eapply direct_all_ids.
Qed.

(** What the cache remembers for the evidence's key, if anything, gives the resource
    the verdicts that trying every metric gives it. *)
Definition cache_fits (re : regoEval Query) (ev : Evidence) (r : R) (x : gmap string json) : Prop :=
  forall ids, default None (mrtc re !! createKey ev (ResourceTypes r)) = Some ids ->
    direct_all pkg cfg impl (fun _ => false) (Evidence_CloudServiceId ev) x ids
    = assess_all pkg ms cfg impl (Evidence_CloudServiceId ev) x.

(** The applicable metrics of a key are remembered the first time. *)
Definition mrtc_grown (key : string) (rs : list Result) (re re' : regoEval Query) : Prop :=
  match default None (mrtc re !! key) with
  | Some _ => mrtc re' = mrtc re
  | None => mrtc re' = <[key := Some (Result_MetricID <$> rs)]> (mrtc re)
  end.

Lemma eval_fits ev r x rs w : good w -> mrtc_locked (re_get w) = false -> known (re_get w) ->
  is_uuid (Evidence_CloudServiceId ev) -> ResourceMap r = OK x -> cache_fits (re_get w) ev r x ->
  assess_all pkg ms cfg impl (Evidence_CloudServiceId ev) x = Returned (OK rs) ->
  exists w', Eval ev r w = (Returned (OK (Some <$> rs)), w') /\ good w' /\ known (re_get w') /\
    mrtc_locked (re_get w') = false /\ mrtc_grown (createKey ev (ResourceTypes r)) rs (re_get w) (re_get w').
Proof.
  intros Hg Hl Hk Hs Hx Hfit Hrs. unfold cache_fits, mrtc_grown in *.
  destruct (default None (mrtc (re_get w) !! _)) as [ids|] eqn:E.
  - destruct (mrtc (re_get w) !! createKey ev (ResourceTypes r)) as [o|] eqn:E'; [|done]. cbn in E. subst o.
    destruct (eval_hit ev r x ids w Hg Hl Hk Hs Hx E') as (w' & Hrun & Hg' & Hm & Hl'). exists w'.
    rewrite (Hfit ids eq_refl), Hrs in Hrun. split_and!; [done..| |congruence|done]. unfold known. by rewrite Hm.
  - destruct (eval_miss ev r x w Hg Hl Hs Hx E) as (w' & Hrun & Hg' & Hf). exists w'.
    assert (Hk' : known (re_get w')) by (by eapply filled_known).
    rewrite Hrs in Hrun, Hf. destruct Hf as [Hm Hl']. by split_and!.
Qed.

(** It keeps fitting the resources to which the same metrics apply. *)
Lemma fits_grown ev r x rs ev' r' x' re re' :
  mrtc_grown (createKey ev (ResourceTypes r)) rs re re' ->
  assess_all pkg ms cfg impl (Evidence_CloudServiceId ev) x = Returned (OK rs) ->
  (createKey ev' (ResourceTypes r') = createKey ev (ResourceTypes r) ->
   same_applicability (Evidence_CloudServiceId ev) x (Evidence_CloudServiceId ev') x') ->
  cache_fits re ev' r' x' -> cache_fits re' ev' r' x'.
Proof.
  intros Hm Hrs Hsame Hfit ids. unfold mrtc_grown in Hm.
  destruct (default None (mrtc re !! _)) as [ids0|]; rewrite Hm; [apply Hfit|].
  destruct (decide (createKey ev' (ResourceTypes r') = createKey ev (ResourceTypes r))) as [Heq|Hne].
  - rewrite Heq, lookup_insert_eq. intros [= <-]. unfold assess_all in *. by erewrite direct_all_cached; [|..|apply Hsame|].
  - rewrite lookup_insert_ne by congruence. apply Hfit.
Qed.

(** C8. While the metrics do not change, the first evaluation of a resource of some
    type from some tool answers exactly what trying every metric without any
    cache answers: the results of the applicable metrics in the source's order,
    metrics with a missing implementation or configuration passed over, and the
    first other error otherwise.  Prepared queries found in the cache change
    nothing.  The applicable metrics are remembered on success, the entry is
    cleared on an error, and the lock is released on both (a Rego result of the
    wrong type panics with the lock held). *)
Theorem eval_all_metrics (ev : Evidence) (r : R) (x : gmap string json) (w : W) :
  good w -> known (re_get w) -> mrtc_locked (re_get w) = false ->
  is_uuid (Evidence_CloudServiceId ev) -> ResourceMap r = OK x ->
  default None (mrtc (re_get w) !! createKey ev (ResourceTypes r)) = None ->
  let out := assess_all pkg ms cfg impl (Evidence_CloudServiceId ev) x in
  exists w', Eval ev r w = (as_data out, w') /\ good w' /\ known (re_get w') /\
    mrtc_filled (createKey ev (ResourceTypes r)) out (re_get w) (re_get w').
Proof.
  intros Hg Hk Hl Hs Hx Hmiss out. destruct (eval_miss ev r x w Hg Hl Hs Hx Hmiss) as (w' & Hrun & Hg' & Hf).
  exists w'. split_and!; [done..|by eapply filled_known|done].
Qed.

(** C9. After that first evaluation the cache of applicable metrics is transparent
    for every evidence with the same key (same resource types and tool, any cloud
    service) to which the same metrics apply: the second evaluation, which only
    looks at the cached metrics, answers exactly what trying every metric would. *)
Theorem eval_cache_transparent (ev ev' : Evidence) (r r' : R) (x x' : gmap string json) (w : W) (rs : list Result) :
  good w -> known (re_get w) -> mrtc_locked (re_get w) = false ->
  is_uuid (Evidence_CloudServiceId ev) -> is_uuid (Evidence_CloudServiceId ev') ->
  ResourceMap r = OK x -> ResourceMap r' = OK x' ->
  createKey ev' (ResourceTypes r') = createKey ev (ResourceTypes r) ->
  default None (mrtc (re_get w) !! createKey ev (ResourceTypes r)) = None ->
  assess_all pkg ms cfg impl (Evidence_CloudServiceId ev) x = Returned (OK rs) ->
  same_applicability (Evidence_CloudServiceId ev) x (Evidence_CloudServiceId ev') x' ->
  exists w1 w2, Eval ev r w = (Returned (OK (Some <$> rs)), w1) /\
    Eval ev' r' w1 = (as_data (assess_all pkg ms cfg impl (Evidence_CloudServiceId ev') x'), w2).
Proof.
  intros Hg Hk Hl Hs Hs' Hx Hx' Hkey Hmiss Hrs Hsame.
  destruct (eval_miss ev r x w Hg Hl Hs Hx Hmiss) as (w1 & Hrun & Hg1 & Hf).
  assert (Hk1 : known (re_get w1)) by (by eapply filled_known).
  rewrite Hrs in Hrun, Hf. destruct Hf as [Hf1 Hf2]. rewrite <- Hkey in Hf1.
  destruct (eval_hit ev' r' x' (Result_MetricID <$> rs) w1) as (w2 & Hrun2 & _); [done..|by rewrite Hf1, lookup_insert_eq|].
  exists w1, w2. split; [done|]. rewrite Hrun2. unfold assess_all. by erewrite direct_all_cached.
Qed.
End Caches.

(** ** What the applicability cache leaves out *)

Section Hits.
Context {W Query Tx R : Type}.
Context `{Opa Query Tx, RegoState W Query, !RegoStateLaws, Src : MetricsSource W, IsResource R, JSONLibrary, ValueText}.

Lemma evalMap_id dir s m x w r w' :
  evalMap dir s m x w = (Returned (OK (Some r)), w') -> Result_MetricID r = m.
Proof.
  unfold evalMap. intros (c & w1 & _ & Hq)%gtry_OK. apply gtry_OK in Hq as (q & w2 & _ & Hr).
  rewrite run_query_pure in Hr. injection Hr as Hr _. by eapply verdict_id.
Qed.

Lemma eval_cached_ids dir s x ids data w rs w' (P : string -> Prop) :
  Forall P ids -> Forall (fun o => exists r, o = Some r /\ P (Result_MetricID r)) data ->
  eval_cached dir s x ids data w = (Returned (OK rs), w') ->
  Forall (fun o => exists r, o = Some r /\ P (Result_MetricID r)) rs.
Proof.
  revert data w. induction ids as [|id ids IH]; intros data w Hids Hd Hrun; cbn in Hrun.
  - by injection Hrun as <- _.
  - apply Forall_cons in Hids as [Hid Hids]. apply gtry_OK in Hrun as ([r|] & w1 & Hm & Hrun).
    + eapply IH; [done| |done]. apply Forall_app. split; [done|]. constructor; [|constructor].
      exists r. split; [done|]. by erewrite evalMap_id.
    + by eapply IH.
Qed.

(** Once metrics are cached for a key, an evaluation reports on no other metric,
    whatever the source of metrics says by then and however the resource differs
    from the first one: a metric that was not applicable to the first resource, or
    whose implementation or configuration was missing then, is never assessed
    again for this tool and these resource types, and no metric event changes that. *)
Theorem hit_ignores_other_metrics (ev : Evidence) (r : R) (event : MetricChangeEvent) (ids : list string) (w w' : W) rs :
  mrtc (re_get w) !! createKey ev (ResourceTypes r) = Some (Some ids) ->
  Eval ev r (snd (HandleMetricEvent event w)) = (Returned (OK rs), w') ->
  Forall (fun o => exists r, o = Some r /\ Result_MetricID r ∈ ids) rs.
Proof.
  intros Hids. set (w1 := snd (HandleMetricEvent event w)).
  assert (Hids1 : mrtc (re_get w1) !! createKey ev (ResourceTypes r) = Some (Some ids)).
  { unfold w1. cbn. by rewrite re_get_set. }
  unfold Eval. cbv zeta. intros (x & w2 & Hx & Hrun)%gtry_OK. injection Hx as Hx <-.
  apply gbind_returned in Hrun as ([] & w3 & Ha & Hrun). unfold mrtc_await, gbind, re_read in Ha.
  destruct (mrtc_locked (re_get w1)); [done|]. injection Ha as <-.
  unfold gbind, re_read in Hrun. rewrite Hids1 in Hrun. cbn [default id] in Hrun.
  eapply (eval_cached_ids _ _ _ _ _ _ _ _ (fun id => id ∈ ids)); [|done|exact Hrun]. by apply Forall_forall.
Qed.
End Hits.

(** ** What an evaluation leaves alone *)

Section Frame.
Context {W Query Tx R : Type} (P : relation W) `{!PreOrder P}.
Context `{Opa Query Tx, RegoState W Query, MetricsSource W, IsResource R, JSONLibrary, ValueText}.

(** Moves that the metrics source makes, and that the evaluator's caches do not
    matter to. *)
Class EvalFrame : Prop := {
  frame_metrics : moves P src_Metrics;
  frame_config : forall s m, moves P (src_MetricConfiguration s m);
  frame_implementation : forall l m, moves P (src_MetricImplementation l m);
  frame_set : forall r w, P w (re_set r w);
}.
Context `{!EvalFrame}.

Lemma moves_re_read {A} (f : regoEval Query -> A) : moves P (re_read f).
Proof. apply moves_read, _. Qed.

Lemma moves_re_modify f : moves P (re_modify f).
Proof. intros w. apply frame_set. Qed.

Local Hint Resolve frame_metrics frame_config frame_implementation moves_re_read moves_re_modify : clouditor.

(** Split a handler into its steps and close those that are known to be moves of [P]. *)
Ltac frame :=
  repeat first [ progress intros | solve [auto with clouditor] | apply moves_bind | apply moves_try
               | apply moves_guard | case_match ].

Lemma moves_run_query metricID (q : Query) m : moves P (run_query metricID q m).
Proof. unfold run_query, assert_bool, assert_string. frame. Qed.

Local Hint Resolve moves_run_query : clouditor.

Lemma moves_evalMap dir s m x : moves P (evalMap dir s m x).
Proof. unfold evalMap, qc_Get, prepare_query. cbv zeta. frame. Qed.

Local Hint Resolve moves_evalMap : clouditor.

Lemma moves_eval_metrics dir s key x ms cached data : moves P (eval_metrics dir s key x ms cached data).
Proof. revert cached data. induction ms; intros; cbn [eval_metrics]; unfold mrtc_Unlock; frame. Qed.

Lemma moves_eval_cached dir s x ids data : moves P (eval_cached dir s x ids data).
Proof. revert data. induction ids; intros; cbn [eval_cached]; frame. Qed.

Local Hint Resolve moves_eval_metrics moves_eval_cached : clouditor.

Lemma moves_Eval ev (r : R) : moves P (Eval ev r).
Proof.
  unfold Eval, mrtc_await, mrtc_Lock, mrtc_await, mrtc_Unlock. cbv zeta. frame.
Qed.
End Frame.
