(* ===== verification/Orchestrator.v ===== *)
(** service/orchestrator: state, hooks, assessment results, cloud services,
    targets of evaluation and certificates.  (Metrics and catalogs are in
    OrchestratorCatalogs.v.)

    The goroutines a handler starts ([go svc.informHook(...)], [go func() {
    svc.events <- event }()]) are recorded as tasks of the world; [run_task] is
    what they do when they run.  A hook is known by a number, and the calls of
    hooks are kept in a trace. *)

From S2P Require Import Prelude GoRuntime GoStrings Util Api Sql Storage Gorm MemDB Authz Pagination.

(** ** Requests *)

Record GetAssessmentResultRequest := mkGetAssessmentResultRequest { GetAssessmentResult_Id : string }.
Record RegisterCloudServiceRequest := mkRegisterCloudServiceRequest { RegisterCloudService_CloudService : option CloudService }.
Record UpdateCloudServiceRequest := mkUpdateCloudServiceRequest { UpdateCloudService_CloudService : option CloudService }.
Record ListCloudServicesRequest := mkListCloudServicesRequest { ListCloudServices_Paging : PaginatedRequest }.
Record GetCloudServiceRequest := mkGetCloudServiceRequest { GetCloudService_CloudServiceId : string }.
Record RemoveCloudServiceRequest := mkRemoveCloudServiceRequest { RemoveCloudService_CloudServiceId : string }.
Record GetCloudServiceStatisticsRequest := mkGetStatisticsRequest { GetStatistics_CloudServiceId : string }.
Record CreateToeRequest := mkCreateToeRequest { CreateToe_Toe : option TargetOfEvaluation }.
Record UpdateToeRequest := mkUpdateToeRequest { UpdateToe_Toe : option TargetOfEvaluation }.
Record GetToeRequest := mkGetToeRequest { GetToe_CloudServiceId : string; GetToe_CatalogId : string }.
Record RemoveToeRequest := mkRemoveToeRequest { RemoveToe_CloudServiceId : string; RemoveToe_CatalogId : string }.
Record ListToeRequest := mkListToeRequest {
  ListToe_CloudServiceId : string;
  ListToe_CatalogId : string;
  ListToe_Paging : PaginatedRequest;
}.
Record CreateCertificateRequest := mkCreateCertificateRequest { CreateCertificate_Certificate : option Certificate }.
Record UpdateCertificateRequest := mkUpdateCertificateRequest { UpdateCertificate_Certificate : option Certificate }.
Record GetCertificateRequest := mkGetCertificateRequest { GetCertificate_CertificateId : string }.
Record RemoveCertificateRequest := mkRemoveCertificateRequest { RemoveCertificate_CertificateId : string }.
Record ListCertificatesRequest := mkListCertificatesRequest { ListCertificates_Paging : PaginatedRequest }.
Record ListPublicCertificatesRequest := mkListPublicCertificatesRequest { ListPublic_Paging : PaginatedRequest }.

Record CloudServiceStatistics := mkStatistics {
  NumberOfSelectedCatalogs : Z;
  NumberOfDiscoveredResources : Z;
  NumberOfEvidences : Z;
  NumberOfAssessmentResults : Z;
}.

(** ** State *)

Definition Hook := nat.

Inductive HookCall :=
| CalledResultHook (h : Hook) (r : AssessmentResult)
| CalledCloudServiceHook (h : Hook) (cs : option CloudService)
| CalledToeHook (h : Hook) (e : TargetOfEvaluationChangeEvent).

Record OrchestratorService := mkOrchestrator {
  cloudServiceHooks : list Hook;
  toeHooks : list Hook;
  AssessmentResultHooks : list Hook;
  events : list MetricChangeEvent;
  defaultMetricConfigurations : gmap string MetricConfiguration;
  hook_calls : list HookCall;
}.

(** [make(chan *orchestrator.MetricChangeEvent, 1000)] *)
Definition events_capacity : nat := 1000.

Inductive OrchestratorTask :=
| InformHook (r : AssessmentResult)
| InformHooks (cs : option CloudService)
| InformToeHooks (e : TargetOfEvaluationChangeEvent)
| SendEvent (e : MetricChangeEvent).

Definition log_calls (l : list HookCall) (s : OrchestratorService) : OrchestratorService :=
  mkOrchestrator (cloudServiceHooks s) (toeHooks s) (AssessmentResultHooks s) (events s)
    (defaultMetricConfigurations s) (hook_calls s ++ l).

Definition push_event (e : MetricChangeEvent) (s : OrchestratorService) : OrchestratorService :=
  mkOrchestrator (cloudServiceHooks s) (toeHooks s) (AssessmentResultHooks s) (events s ++ [e])
    (defaultMetricConfigurations s) (hook_calls s).

(** *** Hooks *)

Definition RegisterAssessmentResultHook (h : Hook) (s : OrchestratorService) : OrchestratorService :=
  mkOrchestrator (cloudServiceHooks s) (toeHooks s) (AssessmentResultHooks s ++ [h]) (events s)
    (defaultMetricConfigurations s) (hook_calls s).

Definition RegisterCloudServiceHook (h : Hook) (s : OrchestratorService) : OrchestratorService :=
  mkOrchestrator (cloudServiceHooks s ++ [h]) (toeHooks s) (AssessmentResultHooks s) (events s)
    (defaultMetricConfigurations s) (hook_calls s).

Definition RegisterToeHook (h : Hook) (s : OrchestratorService) : OrchestratorService :=
  mkOrchestrator (cloudServiceHooks s) (toeHooks s ++ [h]) (AssessmentResultHooks s) (events s)
    (defaultMetricConfigurations s) (hook_calls s).

Definition informHook (r : AssessmentResult) (s : OrchestratorService) : OrchestratorService :=
  foldl (fun s h => log_calls [CalledResultHook h r] s) s (AssessmentResultHooks s).

Definition informHooks (cld : option CloudService) (s : OrchestratorService) : OrchestratorService :=
  let hooks := cloudServiceHooks s in
  if bool_decide (0 < length hooks) then foldl (fun s h => log_calls [CalledCloudServiceHook h cld] s) s hooks else s.

Definition informToeHooks (e : TargetOfEvaluationChangeEvent) (s : OrchestratorService) : OrchestratorService :=
  let hooks := toeHooks s in
  if bool_decide (0 < length hooks) then foldl (fun s h => log_calls [CalledToeHook h e] s) s hooks else s.

(** What a goroutine does when it runs; sending to a full channel has to wait. *)
Definition run_task (t : OrchestratorTask) (s : OrchestratorService) : option OrchestratorService :=
  match t with
  | InformHook r => Some (informHook r s)
  | InformHooks cs => Some (informHooks cs s)
  | InformToeHooks e => Some (informToeHooks e s)
  | SendEvent e => if bool_decide (length (events s) < events_capacity) then Some (push_event e s) else None
  end.

(** ** Errors *)

Definition internal_error (prefix : string) (e : error) : error := EStatus codes_Internal (prefix +:+ Error e).

(** [if errors.Is(err, ErrRecordNotFound) { return nf } else if err != nil { Internal }]. *)
Definition lookup_error (nf : error) (prefix : string) (e : error) : error :=
  if errors_Is e ErrRecordNotFound then nf else internal_error prefix e.

Definition ErrCertificationNotFound : error := EStatus codes_NotFound "certificate not found".

Definition DefaultTargetCloudServiceId : string := "00000000-0000-0000-0000-000000000000".
Definition DefaultTargetCloudServiceName : string := "default".
Definition DefaultTargetCloudServiceDescription : string := "The default target cloud service".

Definition WithoutPreload : any := APreload "" [].

Section Handlers.
Context {DB Ctx : Type} `{Storage DB, AuthorizationStrategy Ctx, TokenCodec, Env}.
Context `{Validator GetAssessmentResultRequest, Validator ListAssessmentResultsRequest,
          Validator StoreAssessmentResultRequest}.
Context `{Validator RegisterCloudServiceRequest, Validator UpdateCloudServiceRequest, Validator ListCloudServicesRequest,
          Validator GetCloudServiceRequest, Validator RemoveCloudServiceRequest, Validator GetCloudServiceStatisticsRequest}.
Context `{Validator CreateToeRequest, Validator UpdateToeRequest, Validator GetToeRequest, Validator RemoveToeRequest,
          Validator ListToeRequest}.
Context `{Validator CreateCertificateRequest, Validator UpdateCertificateRequest, Validator GetCertificateRequest,
          Validator RemoveCertificateRequest, Validator ListCertificatesRequest, Validator ListPublicCertificatesRequest}.
Abbreviation W := (World DB OrchestratorService OrchestratorTask).

(** *** Assessment results *)

Definition GetAssessmentResult (ctx : option Ctx) (req : option GetAssessmentResultRequest)
  : Go W (res AssessmentResult) :=
  valid req from req ;;
  res <-? storage_Get T_AssessmentResult [AStr "Id = ?"; AStr (GetAssessmentResult_Id req)]
    ! lookup_error (EStatus codes_NotFound "assessment result not found") "database error: " ;;
  let '(all, allowed) := AllowedCloudServices ctx in
  require (negb (negb all && negb (slices_Contains allowed (AssessmentResult_CloudServiceId res))))
    else ErrPermissionDenied ;;
  gok res.

(** The conditions of a list call: query parts and their arguments. *)
Definition cond_list : Type := list string * list any.

Definition add_cond {A} (o : option A) (q : string) (f : A -> any) (l : cond_list) : cond_list :=
  match o with Some x => (l.1 ++ [q], l.2 ++ [f x]) | None => l end.

Definition result_filter_query (f : ResultFilter) : cond_list :=
  let l := add_cond (ResultFilter_CloudServiceId f) "cloud_service_id = ?" AStr ([], []) in
  let l := add_cond (ResultFilter_Compliant f) "compliant = ?" ABool l in
  let l := add_cond (ResultFilter_MetricIds f) "metric_id IN ?" AStrs l in
  add_cond (ResultFilter_ToolId f) "tool_id = ?" AStr l.

Definition restrict_conds (all : bool) (allowed : list string) (l : cond_list) : cond_list :=
  if all then l else (l.1 ++ ["cloud_service_id IN ?"], l.2 ++ [AStrs allowed]).

Definition latest_assessment (q : list string) : raw_query :=
  mkRaw "resource_id, metric_id" "assessment_results" (where_clause q) "".

Definition ListAssessmentResults (ctx : option Ctx) (req : option ListAssessmentResultsRequest)
  : Go W (res (Page AssessmentResult)) :=
  valid req from req ;;
  let '(all, allowed) := AllowedCloudServices ctx in
  let filter_ := ListAssessmentResults_Filter req in
  require (negb (negb all && match filter_ with
             | Some f => match ResultFilter_CloudServiceId f with
                         | Some cs => negb (slices_Contains allowed cs) | None => false end
             | None => false end))
    else ErrPermissionDenied ;;
  let l := match filter_ with Some f => result_filter_query f | None => ([], []) end in
  let '(query, args) := restrict_conds all allowed l in
  if Deref (ListAssessmentResults_LatestByResourceId req) then
    results <-? storage_Raw T_AssessmentResult (latest_assessment query) args ! internal_error "database error: " ;;
    gok (mkPage results "")
  else
    p <-? PaginateStorage T_AssessmentResult (ListAssessmentResults_Paging req) DefaultPaginationOpts
            (AStr (strings_Join query " AND ") :: args) ! internal_error "could not paginate results: " ;;
    gok (mkPage (fst p) (snd p)).

Definition StoreAssessmentResult (ctx : option Ctx) (req : option StoreAssessmentResultRequest)
  : Go W (res unit) :=
  valid req from req ;;
  require (CheckAccess ctx AccessRead (StoreAssessmentResult_GetCloudServiceId req)) else ErrPermissionDenied ;;
  result <- gderef (StoreAssessmentResult_Result req) ;;
  _ <-? storage_Create T_AssessmentResult result ! internal_error "database error: " ;;
  go_spawn (InformHook result) ;;;
  gok tt.

(** The stream handler: [ins] are the answers of [Recv] and [send] that of the
    [n]-th [Send]; the result is the responses that were sent and the error. *)
Fixpoint StoreAssessmentResults (ctx : option Ctx) (ins : list (recv StoreAssessmentResultRequest))
    (send : nat -> sent) (out : list StoreStatus) : Go W (list StoreStatus * option error) :=
  match ins with
  | [] | RecvEOF :: _ => gret (out, None)
  | RecvError e :: _ =>
      gret (out, Some (EStatus codes_Unknown (Error (EWrap "cannot receive stream request" e))))
  | RecvMsg result :: ins =>
      r <- StoreAssessmentResult ctx (Some (mkStoreAssessmentResultRequest (StoreAssessmentResult_Result result))) ;;
      let res := match r with Err e => mkStoreStatus false (Error e) | OK _ => mkStoreStatus true "" end in
      _ <- gderef (StoreAssessmentResult_Result result) ;;
      match send (length out) with
      | SentOK => StoreAssessmentResults ctx ins send (out ++ [res])
      | SentEOF => gret (out, None)
      | SentError e =>
          gret (out, Some (EStatus codes_Unknown (Error (EWrap "cannot stream response to the client" e))))
      end
  end.

(** *** Cloud services *)

Definition RegisterCloudService (req : option RegisterCloudServiceRequest) : Go W (res CloudService) :=
  valid req from req ;;
  uid <- uuid_NewString ;;
  cs <- gderef (RegisterCloudService_CloudService req) ;;
  now <- time_Now ;;
  let metadata := match CloudService_Metadata_ cs with
                  | Some md => mkCloudServiceMetadata (Metadata_Labels md) (Metadata_Icon md)
                  | None => mkCloudServiceMetadata ∅ None
                  end in
  let res := mkCloudService uid (CloudService_Name cs) (CloudService_Description cs) [] []
               (Some now) (Some now) (Some metadata) in
  _ <-? storage_Create T_CloudService res ! internal_error "could not add cloud service to the database: " ;;
  go_spawn (InformHooks (Some res)) ;;;
  gok res.

Definition ListCloudServices (ctx : option Ctx) (req : option ListCloudServicesRequest) : Go W (res (Page CloudService)) :=
  valid req from req ;;
  let '(all, allowed) := AllowedCloudServices ctx in
  let conds := if negb all then [AStrs allowed] else [] in
  p <-? PaginateStorage T_CloudService (ListCloudServices_Paging req) DefaultPaginationOpts conds
    ! internal_error "could not paginate results: " ;;
  gok (mkPage (fst p) (snd p)).

Definition service_not_found : error := EStatus codes_NotFound "service not found".

Definition GetCloudService (ctx : option Ctx) (req : option GetCloudServiceRequest) : Go W (res CloudService) :=
  valid req from req ;;
  require (CheckAccess ctx AccessRead (GetCloudService_CloudServiceId req)) else ErrPermissionDenied ;;
  response <-? storage_Get T_CloudService [AStr "Id = ?"; AStr (GetCloudService_CloudServiceId req)]
    ! lookup_error service_not_found "database error: " ;;
  gok response.

Definition with_updated (now : Z) (cs : CloudService) : CloudService :=
  mkCloudService (CloudService_Id cs) (CloudService_Name cs) (CloudService_Description cs)
    (CloudService_CatalogsInScope cs) (CloudService_ConfiguredMetrics cs) (CloudService_CreatedAt cs)
    (Some now) (CloudService_Metadata_ cs).

Definition UpdateCloudService (ctx : option Ctx) (req : option UpdateCloudServiceRequest) : Go W (res CloudService) :=
  valid req from req ;;
  require (CheckAccess ctx AccessUpdate (CloudServiceWrapper_GetCloudServiceId (UpdateCloudService_CloudService req)))
    else ErrPermissionDenied ;;
  cs <- gderef (UpdateCloudService_CloudService req) ;;
  count <-? storage_Count T_CloudService [AStr "id = ?"; AStr (CloudService_Id cs)] ! internal_error "database error: " ;;
  require (negb (bool_decide (count = 0%Z))) else service_not_found ;;
  now <- time_Now ;;
  let res := with_updated now cs in
  _ <-? storage_Save T_CloudService res [AStr "Id = ?"; AStr (CloudService_Id cs)] ! internal_error "database error: " ;;
  go_spawn (InformHooks (Some res)) ;;;
  gok res.

Definition RemoveCloudService (ctx : option Ctx) (req : option RemoveCloudServiceRequest) : Go W (res unit) :=
  valid req from req ;;
  require (CheckAccess ctx AccessDelete (RemoveCloudService_CloudServiceId req)) else ErrPermissionDenied ;;
  _ <-? storage_Delete T_CloudService (Some [RemoveCloudService_CloudServiceId req]) []
    ! lookup_error service_not_found "database error: " ;;
  go_spawn (InformHooks None) ;;;
  gok tt.

Definition GetCloudServiceStatistics (ctx : option Ctx) (req : option GetCloudServiceStatisticsRequest)
  : Go W (res CloudServiceStatistics) :=
  valid req from req ;;
  let id_ := GetStatistics_CloudServiceId req in
  require (CheckAccess ctx AccessRead id_) else ErrPermissionDenied ;;
  cs <-? storage_Get T_CloudService [AStr "Id = ?"; AStr id_]
    ! lookup_error service_not_found "database error getting cloud service: " ;;
  let catalogs := Z.of_nat (length (CloudService_CatalogsInScope cs)) in
  resources <-? storage_Count T_Resource [AStr "cloud_service_id = ?"; AStr id_]
    ! internal_error "database error counting resources: " ;;
  evidences <-? storage_Count T_Evidence [AStr "cloud_service_id = ?"; AStr id_]
    ! internal_error "database error counting evidences: " ;;
  results <-? storage_Count T_AssessmentResult [AStr "cloud_service_id = ?"; AStr id_]
    ! internal_error "database error counting assessment results: " ;;
  gok (mkStatistics catalogs resources evidences results).

Definition CreateDefaultTargetCloudService : Go W (res (option CloudService)) :=
  count <-? storage_Count T_CloudService [] ! EWrap "storage error" ;;
  if bool_decide (count = 0%Z) then
    now <- time_Now ;;
    let service := mkCloudService DefaultTargetCloudServiceId DefaultTargetCloudServiceName
                     DefaultTargetCloudServiceDescription [] [] (Some now) (Some now) None in
    _ <-? storage_Create T_CloudService service ! EWrap "storage error" ;;
    gok (Some service)
  else gok None.

(** *** Targets of evaluation *)

Definition CreateTargetOfEvaluation (ctx : option Ctx) (req : option CreateToeRequest) : Go W (res TargetOfEvaluation) :=
  valid req from req ;;
  require (CheckAccess ctx AccessCreate (ToeRequest_GetCloudServiceId (CreateToe_Toe req))) else ErrPermissionDenied ;;
  toe <- gderef (CreateToe_Toe req) ;;
  _ <-? storage_Create T_TargetOfEvaluation toe
    ! (fun e => if errors_Is e ErrConstraintFailed
                then EStatus codes_InvalidArgument "invalid catalog or cloud service"
                else internal_error "database error: " e) ;;
  go_spawn (InformToeHooks (mkToeChangeEvent TOE_CREATED (Some toe))) ;;;
  gok toe.

Definition toe_not_found : error := EStatus codes_NotFound "ToE not found".

Definition GetTargetOfEvaluation (ctx : option Ctx) (req : option GetToeRequest) : Go W (res TargetOfEvaluation) :=
  valid req from req ;;
  require (CheckAccess ctx AccessRead (GetToe_CloudServiceId req)) else ErrPermissionDenied ;;
  response <-? storage_Get T_TargetOfEvaluation
      [WithoutPreload; AStr "cloud_service_id = ? AND catalog_id = ?"; AStr (GetToe_CloudServiceId req); AStr (GetToe_CatalogId req)]
    ! lookup_error toe_not_found "database error: " ;;
  gok response.

Definition ListTargetsOfEvaluation (ctx : option Ctx) (req : option ListToeRequest) : Go W (res (Page TargetOfEvaluation)) :=
  valid req from req ;;
  require (CheckAccess ctx AccessRead (ListToe_CloudServiceId req)) else ErrPermissionDenied ;;
  let conds :=
    if bool_decide (ListToe_CloudServiceId req <> "")
    then [WithoutPreload; AStr "cloud_service_id = ?"; AStr (ListToe_CloudServiceId req)]
    else if bool_decide (ListToe_CatalogId req <> "")
    then [WithoutPreload; AStr "catalog_id = ?"; AStr (ListToe_CatalogId req)]
    else [WithoutPreload] in
  p <-? PaginateStorage T_TargetOfEvaluation (ListToe_Paging req) DefaultPaginationOpts conds
    ! internal_error "could not paginate results: " ;;
  gok (mkPage (fst p) (snd p)).

Definition UpdateTargetOfEvaluation (ctx : option Ctx) (req : option UpdateToeRequest) : Go W (res TargetOfEvaluation) :=
  valid req from req ;;
  require (CheckAccess ctx AccessUpdate (ToeRequest_GetCloudServiceId (UpdateToe_Toe req))) else ErrPermissionDenied ;;
  toe <- gderef (UpdateToe_Toe req) ;;
  _ <-? storage_Update T_TargetOfEvaluation toe
      [AStr "cloud_service_id = ? AND catalog_id = ?"; AStr (TargetOfEvaluation_CloudServiceId toe);
       AStr (TargetOfEvaluation_CatalogId toe)]
    ! (fun e => if errors_Is e ErrRecordNotFound then toe_not_found
                else if errors_Is e ErrConstraintFailed then toe_not_found
                else internal_error "database error: " e) ;;
  go_spawn (InformToeHooks (mkToeChangeEvent TOE_UPDATED (Some toe))) ;;;
  gok toe.

Definition RemoveTargetOfEvaluation (ctx : option Ctx) (req : option RemoveToeRequest) : Go W (res unit) :=
  valid req from req ;;
  require (CheckAccess ctx AccessDelete (RemoveToe_CloudServiceId req)) else ErrPermissionDenied ;;
  _ <-? storage_Delete T_TargetOfEvaluation None
      [AStr "cloud_service_id = ? AND catalog_id = ?"; AStr (RemoveToe_CloudServiceId req); AStr (RemoveToe_CatalogId req)]
    ! lookup_error toe_not_found "database error: " ;;
  let toe := mkTargetOfEvaluation (RemoveToe_CloudServiceId req) (RemoveToe_CatalogId req) None in
  go_spawn (InformToeHooks (mkToeChangeEvent TOE_REMOVED (Some toe))) ;;;
  gok tt.

(** *** Certificates *)

Definition CreateCertificate (ctx : option Ctx) (req : option CreateCertificateRequest) : Go W (res Certificate) :=
  valid req from req ;;
  require (CheckAccess ctx AccessCreate (CertificateRequest_GetCloudServiceId (CreateCertificate_Certificate req)))
    else ErrPermissionDenied ;;
  cert <- gderef (CreateCertificate_Certificate req) ;;
  _ <-? storage_Create T_Certificate cert ! internal_error "could not add certificate to the database: " ;;
  gok cert.

Definition GetCertificate (ctx : option Ctx) (req : option GetCertificateRequest) : Go W (res Certificate) :=
  valid req from req ;;
  res <-? storage_Get T_Certificate [AStr "Id = ?"; AStr (GetCertificate_CertificateId req)]
    ! lookup_error ErrCertificationNotFound "database error: " ;;
  let '(all, allowed) := AllowedCloudServices ctx in
  require (negb (negb all && negb (slices_Contains allowed (Certificate_CloudServiceId res))))
    else EStatus codes_PermissionDenied (Error ErrPermissionDenied) ;;
  gok res.

Definition ListCertificates (ctx : option Ctx) (req : option ListCertificatesRequest) : Go W (res (Page Certificate)) :=
  valid req from req ;;
  let '(all, allowed) := AllowedCloudServices ctx in
  let '(query, args) := restrict_conds all allowed ([], []) in
  p <-? PaginateStorage T_Certificate (ListCertificates_Paging req) DefaultPaginationOpts (BuildConds query args)
    ! internal_error "could not paginate results: " ;;
  gok (mkPage (fst p) (snd p)).

Definition without_states (c : Certificate) : Certificate :=
  mkCertificate (Certificate_Id c) (Certificate_Name c) (Certificate_CloudServiceId c) (Certificate_IssueDate c)
    (Certificate_ExpirationDate c) (Certificate_Standard c) (Certificate_AssuranceLevel c) (Certificate_Cab c)
    (Certificate_Description c) [].

Definition ListPublicCertificates (req : option ListPublicCertificatesRequest) : Go W (res (Page Certificate)) :=
  valid req from req ;;
  p <-? PaginateStorage T_Certificate (ListPublic_Paging req) DefaultPaginationOpts []
    ! internal_error "could not paginate results: " ;;
  gok (mkPage (without_states <$> fst p) (snd p)).

Definition UpdateCertificate (ctx : option Ctx) (req : option UpdateCertificateRequest) : Go W (res Certificate) :=
  valid req from req ;;
  require (CheckAccess ctx AccessUpdate (CertificateRequest_GetCloudServiceId (UpdateCertificate_Certificate req)))
    else ErrPermissionDenied ;;
  cert <- gderef (UpdateCertificate_Certificate req) ;;
  count <-? storage_Count T_Certificate [AStr "id=?"; AStr (Certificate_Id cert)] ! internal_error "database error: " ;;
  require (negb (bool_decide (count = 0%Z))) else ErrCertificationNotFound ;;
  _ <-? storage_Save T_Certificate cert [AStr "Id = ?"; AStr (Certificate_Id cert)] ! internal_error "database error: " ;;
  gok cert.

Definition checkExistence (req : RemoveCertificateRequest) : Go W (res unit) :=
  count <-? storage_Count T_Certificate [AStr "Id = ?"; AStr (RemoveCertificate_CertificateId req)]
    ! internal_error "database error: " ;;
  require (negb (bool_decide (count = 0%Z))) else ErrCertificationNotFound ;;
  gok tt.

Definition checkAuthorization (ctx : option Ctx) (req : RemoveCertificateRequest) : Go W (res unit) :=
  let '(all, allowed) := AllowedCloudServices ctx in
  if negb all then
    count2 <-? storage_Count T_Certificate
        [AStr "id = ? AND cloud_service_id IN ?"; AStr (RemoveCertificate_CertificateId req); AStrs allowed]
      ! internal_error "database error: " ;;
    require (negb (bool_decide (count2 = 0%Z))) else ErrPermissionDenied ;;
    gok tt
  else gok tt.

Definition RemoveCertificate (ctx : option Ctx) (req : option RemoveCertificateRequest) : Go W (res unit) :=
  valid req from req ;;
  _ <-? checkExistence req ! id ;;
  _ <-? checkAuthorization ctx req ! id ;;
  _ <-? storage_Delete T_Certificate None [AStr "Id = ?"; AStr (RemoveCertificate_CertificateId req)]
    ! internal_error "database error: " ;;
  gok tt.
End Handlers.
