(* ===== verification/OrchestratorProofs.v ===== *)
(** Correctness of the orchestrator's handlers (Orchestrator.v): what the list
    calls return and to whom, what the storing calls store, and that the
    orchestrator keeps the promises the evaluation service relies on. *)

From S2P Require Import Prelude GoRuntime GoStrings Util Api Sql Storage Gorm MemDB Authz Pagination Evaluation EvaluationProofs EvaluationWitness Orchestrator.

(** ** Assessment results *)

(** What a filter asks of a result. *)
Definition result_selected (f : option ResultFilter) (r : AssessmentResult) : Prop :=
  match f with
  | None => True
  | Some f =>
      (forall cs, ResultFilter_CloudServiceId f = Some cs -> AssessmentResult_CloudServiceId r = cs) /\
      (forall b, ResultFilter_Compliant f = Some b -> AssessmentResult_Compliant r = b) /\
      (forall ids, ResultFilter_MetricIds f = Some ids -> AssessmentResult_MetricId r ∈ ids) /\
      (forall t, ResultFilter_ToolId f = Some t -> AssessmentResult_ToolId r = Some t)
  end.

Definition result_conds all allowed (f : option ResultFilter) : cond_list :=
  restrict_conds all allowed (match f with Some f => result_filter_query f | None => ([], []) end).

Lemma opt_str_Some o s : opt_str o = VStr s <-> o = Some s.
Proof. destruct o; simpl; split; congruence. Qed.

Lemma result_query_exact now pkv (r : AssessmentResult) all allowed f :
  exists b, plain_hold now pkv (col T_AssessmentResult r)
      (AStr (strings_Join (result_conds all allowed f).1 " AND ") :: (result_conds all allowed f).2) = Some b /\
    (b = true <-> result_selected f r /\ (all = true \/ AssessmentResult_CloudServiceId r ∈ allowed)).
Proof.
  unfold result_conds.
  destruct f as [[c1 c2 c3 c4 c5]|], all; [destruct c1, c2, c3, c5|destruct c1, c2, c3, c5| |];
    unfold plain_hold;
    first [ rewrite bool_decide_eq_true_2 by done; eexists; split; [reflexivity|]; naive_solver
          | rewrite bool_decide_eq_false_2 by (intros [? ?]; done) ];
    sql_eval; eexists; (split; [reflexivity|]);
    autorewrite with clouditor_rw;
    rewrite ?andb_true_iff, ?selected_eq_str, ?selected_eq_bool, ?selected_in_strs; simpl;
    rewrite ?opt_str_Some; naive_solver.
Qed.

Section Results.
Context {DB Ctx : Type} `{StorageLaws DB, AuthorizationStrategy Ctx, !AuthorizationLaws Ctx, TokenCodec, Env}.
Context `{Validator GetAssessmentResultRequest, Validator ListAssessmentResultsRequest,
          Validator StoreAssessmentResultRequest}.
Implicit Types w : World DB OrchestratorService OrchestratorTask.

(** One result per resource and metric, none older than any selected result of
    the same resource and metric. *)
Definition latest_results (all selected : AssessmentResult -> Prop) (l : list AssessmentResult) : Prop :=
  (forall r, all r -> selected r -> exists r', r' ∈ l /\
     AssessmentResult_ResourceId r' = AssessmentResult_ResourceId r /\
     AssessmentResult_MetricId r' = AssessmentResult_MetricId r /\
     ts_le (opt_time (AssessmentResult_Timestamp r)) (opt_time (AssessmentResult_Timestamp r'))) /\
  (forall i j r1 r2, l !! i = Some r1 -> l !! j = Some r2 ->
     AssessmentResult_ResourceId r1 = AssessmentResult_ResourceId r2 ->
     AssessmentResult_MetricId r1 = AssessmentResult_MetricId r2 -> i = j).

Lemma same_part_results (r1 r2 : AssessmentResult) :
  same_part T_AssessmentResult "resource_id, metric_id" r1 r2 <->
  AssessmentResult_ResourceId r1 = AssessmentResult_ResourceId r2 /\
  AssessmentResult_MetricId r1 = AssessmentResult_MetricId r2.
Proof.
  unfold same_part. change (part_cols "resource_id, metric_id") with ["resource_id"; "metric_id"]. split.
  - intros Hs. pose proof (Hs "resource_id" ltac:(set_solver)) as H1'. pose proof (Hs "metric_id" ltac:(set_solver)) as H2'.
    simpl in H1', H2'. by simplify_eq.
  - intros [Hr Hm] c [->|[->|Hc]%elem_of_cons]%elem_of_cons; simpl; [congruence..|by apply elem_of_nil in Hc].
Qed.

Lemma result_access (ctx : option Ctx) (r : AssessmentResult) :
  (fst (AllowedCloudServices ctx) = true \/ AssessmentResult_CloudServiceId r ∈ snd (AllowedCloudServices ctx)) <->
  may_access ctx (AssessmentResult_CloudServiceId r).
Proof. done. Qed.

(** The raw statement of the latest results. *)
Lemma latest_assessment_rows all allowed f (db : DB) l :
  st_Raw T_AssessmentResult (latest_assessment (result_conds all allowed f).1) (result_conds all allowed f).2 db = OK l ->
  (forall r, r ∈ l -> r ∈ rows T_AssessmentResult db /\ result_selected f r /\
             (all = true \/ AssessmentResult_CloudServiceId r ∈ allowed)) /\
  latest_results (fun r => r ∈ rows T_AssessmentResult db)
    (fun r => result_selected f r /\ (all = true \/ AssessmentResult_CloudServiceId r ∈ allowed)) l.
Proof.
  intros Hr. destruct (raw_latest T_AssessmentResult (latest_assessment _) _ _ _ ltac:(done) eq_refl Hr) as (Hsound & Hcompl & Huniq).
  assert (Hw : forall r, exists b, where_matches T_AssessmentResult db (where_clause (result_conds all allowed f).1)
      (result_conds all allowed f).2 r = Some b /\
    (b = true <-> result_selected f r /\ (all = true \/ AssessmentResult_CloudServiceId r ∈ allowed))).
  { intros r. unfold where_matches.
    destruct (result_query_exact (db_now db) (pk T_AssessmentResult r) r all allowed f) as (b & Hb & Hiff).
    destruct (result_conds all allowed f).1 as [|q0 qs] eqn:Eq.
    - exists true. split; [done|]. rewrite <-Hiff. clear -Hb Eq.
      assert ((result_conds all allowed f).2 = []) as E2.
      { destruct f as [[[] ? [] ? []]|], all; try done; by destruct ResultFilter_Compliant. }
      rewrite E2 in Hb. vm_compute in Hb. naive_solver.
    - exists b. rewrite where_clause_hold by done. done. }
  split; [|split].
  - intros r Hin. destruct (Hsound r Hin) as [Hrow Hsel]. split; [done|].
    destruct (Hw r) as (b & Hb & Hiff). cbn [raw_where latest_assessment] in Hsel. rewrite Hb in Hsel.
    destruct b; [by apply Hiff|done].
  - intros r Hrow Hsel. destruct (Hw r) as (b & Hb & Hiff). apply Hiff in Hsel. subst b.
    destruct (Hcompl r Hrow Hb) as (r' & Hin & Hp%same_part_results & Hts). exists r'. naive_solver.
  - intros i j r1 r2 Hi Hj Hres Hmet. eapply Huniq; eauto. by apply same_part_results.
Qed.

(** The enumeration the pages of a list call are windows of. *)
Definition result_pages (ctx : option Ctx) (q : ListAssessmentResultsRequest) (db : DB) : list AssessmentResult :=
  let conds := result_conds (AllowedCloudServices ctx).1 (AllowedCloudServices ctx).2 (ListAssessmentResults_Filter q) in
  enumerate T_AssessmentResult (GetOrderBy (ListAssessmentResults_Paging q)) (GetAsc (ListAssessmentResults_Paging q))
    (AStr (strings_Join conds.1 " AND ") :: conds.2) db.

Lemma elem_of_result_pages ctx q (db : DB) r :
  r ∈ result_pages ctx q db <-> r ∈ rows T_AssessmentResult db /\
    result_selected (ListAssessmentResults_Filter q) r /\ may_access ctx (AssessmentResult_CloudServiceId r).
Proof.
  unfold result_pages, may_access. destruct (AllowedCloudServices ctx) as [all allowed]. cbn [fst snd].
  assert (Hm : forall x : AssessmentResult, exists b,
    matches T_AssessmentResult db (AStr (strings_Join (result_conds all allowed (ListAssessmentResults_Filter q)).1 " AND ")
      :: (result_conds all allowed (ListAssessmentResults_Filter q)).2) x = Some b /\
    (b = true <-> result_selected (ListAssessmentResults_Filter q) x /\ (all = true \/ AssessmentResult_CloudServiceId x ∈ allowed))).
  { intros x. apply (result_query_exact (db_now db) (pk T_AssessmentResult x) x all allowed). }
  split.
  - intros Hr. destruct (enumerate_sound T_AssessmentResult _ _ _ _ _ Hr) as (r0 & Hr0 & (_ & _ & Heq) & Hne). specialize (Heq eq_refl).
    subst r0. split; [done|]. destruct (Hm r) as (b & Hb & Hiff). apply Hiff. rewrite Hb in Hne. by destruct b.
  - intros [Hr Hsel]. destruct (Hm r) as (b & Hb & Hiff). apply Hiff in Hsel as ->.
    destruct (enumerate_complete T_AssessmentResult (GetOrderBy (ListAssessmentResults_Paging q)) (GetAsc (ListAssessmentResults_Paging q))
      _ _ _ Hr Hb) as (r' & (_ & _ & Heq) & Hin). by rewrite (Heq eq_refl) in Hin.
Qed.

(** The only reasons for which ListAssessmentResults refuses a request: it is
    invalid, it asks for a cloud service the caller may not access, or the database
    or the page token fails. *)
Definition results_refused ctx (q : ListAssessmentResultsRequest) w : Prop :=
  violations q <> None \/
  (exists f cs, ListAssessmentResults_Filter q = Some f /\ ResultFilter_CloudServiceId f = Some cs /\ ~ may_access ctx cs) \/
  (exists query args e, st_Raw T_AssessmentResult query args (w_db w) = Err e) \/
  (exists conds, page_refused T_AssessmentResult (ListAssessmentResults_Paging q) conds (w_db w)).

Lemma ListAssessmentResults_run ctx req w :
  (exists e, ListAssessmentResults ctx req w = (Returned (Err e), w) /\ forall q, req = Some q -> results_refused ctx q w) \/
  (exists p q, ListAssessmentResults ctx req w = (Returned (OK p), w) /\ req = Some q /\
     (forall r, r ∈ Page_Items p -> r ∈ rows T_AssessmentResult (w_db w) /\
        result_selected (ListAssessmentResults_Filter q) r /\ may_access ctx (AssessmentResult_CloudServiceId r)) /\
     (Deref (ListAssessmentResults_LatestByResourceId q) = true ->
        Page_NextPageToken p = "" /\
        latest_results (fun r => r ∈ rows T_AssessmentResult (w_db w))
          (fun r => result_selected (ListAssessmentResults_Filter q) r /\ may_access ctx (AssessmentResult_CloudServiceId r))
          (Page_Items p)) /\
     (Deref (ListAssessmentResults_LatestByResourceId q) = false ->
        page_of (ListAssessmentResults_Paging q) DefaultPaginationOpts (result_pages ctx q (w_db w)) (Page_Items p))).
Proof.
  unfold ListAssessmentResults. run_valid as q Hv; [left; eexists; split; [done|]; left; by apply Hrej|].
  destruct (AllowedCloudServices ctx) as [all allowed] eqn:Ea. unfold gguard.
  destruct (negb (negb all && _)) eqn:Eg.
  2: { left. eexists. split; [done|]. intros q0 [= <-]. right; left.
       destruct (ListAssessmentResults_Filter q) as [f|]; [|by destruct all]. exists f.
       destruct (ResultFilter_CloudServiceId f) as [cs|]; [|by destruct all]. exists cs. split_and!; [done..|].
       unfold may_access. rewrite Ea. destruct all; [done|]. simpl in Eg. rewrite negb_involutive in Eg.
       apply slices_Contains_false in Eg. cbn. naive_solver. }
  change (restrict_conds all allowed _) with (result_conds all allowed (ListAssessmentResults_Filter q)).
  destruct (result_conds all allowed (ListAssessmentResults_Filter q)) as [query args] eqn:Ec.
  assert (Hma : forall r, (all = true \/ AssessmentResult_CloudServiceId r ∈ allowed) <->
                may_access ctx (AssessmentResult_CloudServiceId r)).
  { intros r. rewrite <-result_access, Ea. done. }
  destruct (Deref (ListAssessmentResults_LatestByResourceId q)) eqn:El.
  - unfold storage_Raw, db_query, gtry, gbind. destruct (st_Raw _ _ _ _) as [l|e] eqn:Er.
    2: { left. eexists. split; [done|]. intros q0 [= <-]. right; right; left. eauto. }
    right. exists (mkPage l ""), q.
    replace query with (result_conds all allowed (ListAssessmentResults_Filter q)).1 in Er by (by rewrite Ec).
    replace args with (result_conds all allowed (ListAssessmentResults_Filter q)).2 in Er by (by rewrite Ec).
    apply latest_assessment_rows in Er as [Hs [Hc Hu]]. split_and!; [done..| | |congruence].
    + intros r Hr. destruct (Hs r Hr) as (? & ? & ?). rewrite <-Hma. done.
    + intros _. split; [done|]. split; [|done]. intros r Hr [Hsel Hm]. apply Hc; [done|]. by rewrite Hma.
  - unfold gtry, gbind. destruct (PaginateStorage_run T_AssessmentResult (ListAssessmentResults_Paging q)
      DefaultPaginationOpts (AStr (strings_Join query " AND ") :: args) w)
      as [(e & He & Hno)|(page & npt & Hp & Hin)].
    { rewrite He. left. eexists. split; [done|]. intros q0 [= <-]. do 3 right. eauto. }
    rewrite Hp. right.
    exists (mkPage page npt), q.
    assert (Hpages : result_pages ctx q (w_db w) = enumerate T_AssessmentResult (GetOrderBy (ListAssessmentResults_Paging q))
      (GetAsc (ListAssessmentResults_Paging q)) (AStr (strings_Join query " AND ") :: args) (w_db w)).
    { unfold result_pages. rewrite Ea. cbn [fst snd]. by rewrite Ec. }
    split_and!; [done..| |congruence|].
    + intros r Hr%Hin. rewrite <-Hpages in Hr. by apply elem_of_result_pages.
    + intros _. rewrite Hpages. exact (PaginateStorage_window T_AssessmentResult _ _ _ _ _ _ _ Hp).
Qed.

(** C14. ListAssessmentResults always answers and changes nothing.  It only returns
    stored results that the filter selects and whose cloud service the caller may
    access; asked for the latest results it returns, for every resource and metric
    with such a result, exactly one that no other is newer than, all on one page;
    otherwise it returns the requested page of an enumeration of exactly these
    results.  It fails only for an invalid request, a cloud service the caller may
    not access, a broken page token or a failing database. *)
Theorem list_assessment_results_correct ctx q w :
  exists r, ListAssessmentResults ctx (Some q) w = (Returned r, w) /\
  match r with
  | Err _ => results_refused ctx q w
  | OK p =>
      (forall r, r ∈ Page_Items p -> r ∈ rows T_AssessmentResult (w_db w) /\
         result_selected (ListAssessmentResults_Filter q) r /\ may_access ctx (AssessmentResult_CloudServiceId r)) /\
      (Deref (ListAssessmentResults_LatestByResourceId q) = true ->
         Page_NextPageToken p = "" /\
         latest_results (fun r => r ∈ rows T_AssessmentResult (w_db w))
           (fun r => result_selected (ListAssessmentResults_Filter q) r /\ may_access ctx (AssessmentResult_CloudServiceId r))
           (Page_Items p)) /\
      (Deref (ListAssessmentResults_LatestByResourceId q) = false ->
         page_of (ListAssessmentResults_Paging q) DefaultPaginationOpts (result_pages ctx q (w_db w)) (Page_Items p)) /\
      (forall r, r ∈ result_pages ctx q (w_db w) <-> r ∈ rows T_AssessmentResult (w_db w) /\
         result_selected (ListAssessmentResults_Filter q) r /\ may_access ctx (AssessmentResult_CloudServiceId r))
  end.
Proof.
  destruct (ListAssessmentResults_run ctx (Some q) w) as [(e & He & Hno)|(p & q' & Hp & [= <-] & Hs & Hl & Hpg)].
  - exists (Err e). split; [done|]. by apply Hno.
  - exists (OK p). split_and!; [done..|]. intros r. apply elem_of_result_pages.
Qed.

(** The evaluation service's connection to an orchestrator that is in state
    [state n] at moment [n]. *)
Definition orchestrator_answers (ctx : option Ctx)
    (state : nat -> World DB OrchestratorService OrchestratorTask) (n : nat) (req : ListAssessmentResultsRequest)
  : res (Page AssessmentResult) :=
  match fst (ListAssessmentResults ctx (Some req) (state n)) with
  | Returned r => r
  | _ => Err (EText "rpc error")
  end.

(** Its answers are those of the handler. *)
Lemma orchestrator_answered ctx state n req p : orchestrator_answers ctx state n req = OK p ->
  (forall r, r ∈ Page_Items p -> r ∈ rows T_AssessmentResult (w_db (state n)) /\
     result_selected (ListAssessmentResults_Filter req) r /\ may_access ctx (AssessmentResult_CloudServiceId r)) /\
  (Deref (ListAssessmentResults_LatestByResourceId req) = true -> Page_NextPageToken p = "").
Proof.
  unfold orchestrator_answers.
  destruct (ListAssessmentResults_run ctx (Some req) (state n)) as [(e & -> & _)|(p' & q & -> & [= <-] & Hs & Hlat & _)]; [done|].
  intros [= <-]. split; [done|]. intros Hl. by apply Hlat.
Qed.

Lemma orchestrator_client_laws ctx state controls toe catalog :
  @OrchestratorClientLaws (Build_OrchestratorClient (orchestrator_answers ctx state) controls toe catalog).
Proof.
  constructor; cbn [oc_ListAssessmentResults].
  - intros n req p Hl [_ Hp]%orchestrator_answered. by apply Hp.
  - intros n req p f r cs ids _ [Hs _]%orchestrator_answered Hf Hcs Hids (_ & Hsel & _)%Hs. rewrite Hf in Hsel.
    destruct Hsel as (Hc & _ & Hm & _). split; [by apply Hc|by apply Hm].
Qed.

End Results.

(** ** Storing results *)

Section Storing.
Context {DB Ctx : Type} `{StorageLaws DB, AuthorizationStrategy Ctx, TokenCodec, Env}.
Context `{Validator GetAssessmentResultRequest, Validator StoreAssessmentResultRequest}.
Implicit Types w : World DB OrchestratorService OrchestratorTask.

(** [w'] is [w] with the results [l] stored and their hooks due, nothing else. *)
Definition stored_results w (l : list AssessmentResult) w' : Prop :=
  rows T_AssessmentResult (w_db w') ≡ₚ l ++ rows T_AssessmentResult (w_db w) /\
  (forall t, t <> T_AssessmentResult -> rows t (w_db w') = rows t (w_db w)) /\
  w_svc w' = w_svc w /\ w_tasks w' = w_tasks w ++ (InformHook <$> reverse l).

Lemma stored_results_trans w1 w2 w3 l1 l2 :
  stored_results w1 l1 w2 -> stored_results w2 l2 w3 -> stored_results w1 (l2 ++ l1) w3.
Proof.
  intros (Hr1 & Hf1 & Hs1 & Ht1) (Hr2 & Hf2 & Hs2 & Ht2). split_and!.
  - by rewrite Hr2, Hr1, app_assoc.
  - intros t Ht. by rewrite Hf2, Hf1.
  - congruence.
  - rewrite Ht2, Ht1, reverse_app, fmap_app. by rewrite app_assoc.
Qed.

(** Storing one result that is there: it is stored and its hooks are due, or an
    error is returned and nothing has changed. *)
Lemma StoreAssessmentResult_run ctx result w :
  exists r w', StoreAssessmentResult ctx (Some (mkStoreAssessmentResultRequest (Some result))) w = (Returned r, w') /\
    ((exists e, r = Err e /\ stored_results w [] w') \/
     (r = OK tt /\ CheckAccess ctx AccessRead (AssessmentResult_CloudServiceId result) = true /\
      stored_results w [result] w')).
Proof.
  assert (Hrefl : stored_results w [] w) by (split_and!; auto; simpl; by rewrite app_nil_r).
  unfold StoreAssessmentResult. run_valid as q Hv; [do 2 eexists; split; [done|]; left; eauto|].
  cbn [StoreAssessmentResult_GetCloudServiceId StoreAssessmentResult_Result].
  unfold gguard. destruct (CheckAccess _ _ _) eqn:Ea; [|do 2 eexists; split; [done|]; left; eauto].
  unfold gbind, gderef, gret, gtry, storage_Create, db_exec, gbind, go_spawn.
  destruct (st_Create T_AssessmentResult result (w_db w)) as [[e|] db'] eqn:Ec; cbn.
  - do 2 eexists. split; [reflexivity|]. left. eexists. split; [done|]. apply create_err in Ec. subst db'. by destruct w.
  - do 2 eexists. split; [reflexivity|]. right. split_and!; [done..|]. split_and!; cbn.
    + by apply (create_flat T_AssessmentResult) in Ec.
    + intros t Ht. by apply (frame_create T_AssessmentResult _ _ _ _ eq_refl Ec).
    + done.
    + done.
Qed.

(** The results among [msgs] that were acknowledged. *)
Definition acknowledged (msgs : list AssessmentResult) (sts : list StoreStatus) : list AssessmentResult :=
  fst <$> filter (fun p => Store_Status (snd p) = true) (zip msgs sts).

(** C19. A stream of results is answered with one status per result, in order; exactly
    the acknowledged results are stored, each for a caller with access to its
    cloud service, and the hooks are due exactly once for each of them. *)
Theorem store_stream_correct ctx (msgs : list AssessmentResult) w :
  exists sts w',
    StoreAssessmentResults ctx
      (((fun m => RecvMsg (mkStoreAssessmentResultRequest (Some m))) <$> msgs) ++ [RecvEOF]) (fun _ => SentOK) [] w
    = (Returned (sts, None), w') /\
    length sts = length msgs /\ stored_results w (reverse (acknowledged msgs sts)) w' /\
    forall r, r ∈ acknowledged msgs sts -> CheckAccess ctx AccessRead (AssessmentResult_CloudServiceId r) = true.
Proof.
  enough (Hgen : forall out w, exists sts w',
    StoreAssessmentResults ctx
      (((fun m => RecvMsg (mkStoreAssessmentResultRequest (Some m))) <$> msgs) ++ [RecvEOF]) (fun _ => SentOK) out w
    = (Returned (out ++ sts, None), w') /\
    length sts = length msgs /\ stored_results w (reverse (acknowledged msgs sts)) w' /\
    forall r, r ∈ acknowledged msgs sts -> CheckAccess ctx AccessRead (AssessmentResult_CloudServiceId r) = true)
    by apply (Hgen []).
  clear w. induction msgs as [|m msgs IH]; intros out w.
  { exists [], w. rewrite app_nil_r. split_and!; auto; [|set_solver]. split_and!; auto. simpl. by rewrite app_nil_r. }
  rewrite fmap_cons. cbn [app StoreAssessmentResults StoreAssessmentResult_Result].
  destruct (StoreAssessmentResult_run ctx m w) as (r & w1 & Hr & Hcase).
  unfold gbind at 1. rewrite Hr. cbn [gderef]. unfold gbind at 1, gret at 1.
  set (st := match r with Err e => _ | OK _ => _ end).
  destruct (IH (out ++ [st]) w1) as (sts & w' & Hrun & Hlen & Hst & Hacc).
  exists (st :: sts), w'. rewrite Hrun, <-app_assoc. unfold acknowledged in *. cbn [zip zip_with].
  rewrite filter_cons.
  destruct Hcase as [(e & -> & Hs)|(-> & Ha & Hs)].
  - rewrite decide_False by (unfold st; by simpl). split_and!; [done|simpl; congruence| |done].
    rewrite <-(app_nil_r (reverse _)). by eapply stored_results_trans.
  - rewrite decide_True by done. rewrite fmap_cons, reverse_cons. split_and!; [done|simpl; congruence| |].
    + by eapply stored_results_trans.
    + intros r0 [->|Hin]%elem_of_cons; [done|]. by apply Hacc.
Qed.

(** A message without a result stops the process: the handler answers the invalid
    request and then reads the id of the result that is not there. *)
Theorem store_stream_nil_panics ctx ins send out w :
  fst (StoreAssessmentResults ctx (RecvMsg (mkStoreAssessmentResultRequest None) :: ins) send out w) = Panicked.
Proof.
  cbn [StoreAssessmentResults StoreAssessmentResult_Result]. unfold gbind at 1.
  destruct (StoreAssessmentResult ctx (Some (mkStoreAssessmentResultRequest None)) w) as [o w1] eqn:E.
  unfold StoreAssessmentResult in E. revert E. run_valid as q Hv; [intros [= <- <-]; done|].
  unfold gguard. destruct (CheckAccess _ _ _); [|intros [= <- <-]; done]. intros [= <- <-]. done.
Qed.

(** GetAssessmentResult returns only the stored result with the requested id, and
    only to a caller that may access its cloud service. *)
Theorem get_result_confined `{!AuthorizationLaws Ctx} ctx q w r w' :
  GetAssessmentResult ctx (Some q) w = (Returned (OK r), w') ->
  w' = w /\ r ∈ rows T_AssessmentResult (w_db w) /\ AssessmentResult_Id r = GetAssessmentResult_Id q /\
  may_access ctx (AssessmentResult_CloudServiceId r).
Proof.
  unfold GetAssessmentResult. run_valid as q' Hv; [done|].
  unfold gtry, gbind, storage_Get, db_query. destruct (st_Get _ _ _) as [x|e] eqn:Eg; [|done].
  destruct (AllowedCloudServices ctx) as [all allowed] eqn:Ea. unfold gguard.
  destruct (negb _) eqn:En; [|done]. intros [= <- <-].
  apply (get_ok T_AssessmentResult) in Eg as [Hin Hm]; [|done]. split_and!; [done..| |].
  - rewrite (matches_eq _ _ "Id = ?" "id") in Hm by done. case_bool_decide as Hid; [|done].
    simpl in Hid. by simplify_eq.
  - unfold may_access. rewrite Ea. simpl. destruct all; [by left|right].
    apply negb_true_iff, andb_false_iff in En as [?|En]; [done|].
    by apply negb_false_iff, slices_Contains_true in En.
Qed.
End Storing.

(** ** Cloud services, targets of evaluation, certificates *)

Section Objects.
Context {DB Ctx : Type} `{StorageLaws DB, AuthorizationStrategy Ctx, !AuthorizationLaws Ctx, TokenCodec, Env}.
Context `{Validator RegisterCloudServiceRequest, Validator UpdateCloudServiceRequest, Validator ListCloudServicesRequest,
          Validator GetCloudServiceRequest, Validator RemoveCloudServiceRequest, Validator GetCloudServiceStatisticsRequest}.
Context `{Validator CreateToeRequest, Validator UpdateToeRequest, Validator GetToeRequest, Validator RemoveToeRequest,
          Validator ListToeRequest}.
Context `{Validator CreateCertificateRequest, Validator UpdateCertificateRequest, Validator GetCertificateRequest,
          Validator RemoveCertificateRequest, Validator ListCertificatesRequest, Validator ListPublicCertificatesRequest}.
Implicit Types w : World DB OrchestratorService OrchestratorTask.

(** The number of rows of a table that belong to a cloud service. *)
Definition of_service t (id : string) (db : DB) : Z :=
  Z.of_nat (length (filter (fun r => col t r "cloud_service_id" = VStr id) (rows t db))).

Lemma count_of_service t id (db : DB) n :
  st_Count t [AStr "cloud_service_id = ?"; AStr id] db = OK n -> n = of_service t id db.
Proof.
  assert (Hm : forall x : row t, matches t db [AStr "cloud_service_id = ?"; AStr id] x
               = Some (bool_decide (col t x "cloud_service_id" = VStr id))).
  { intros x. by apply (matches_eq t db "cloud_service_id = ?" "cloud_service_id"). }
  intros Hc. rewrite (count_ok _ _ _ _ Hc) by (intros x _; by rewrite Hm). unfold of_service. do 2 f_equal.
  apply list_filter_iff. intros x. rewrite Hm. split; [intros [= Hb]; by apply bool_decide_eq_true in Hb|].
  intros Hb. by rewrite bool_decide_eq_true_2.
Qed.

(** The statistics are exact: the numbers of resources, evidences and assessment
    results are those of the rows with this cloud service, and only a caller with
    access gets them.  Nothing is changed. *)
Theorem statistics_exact ctx q w s w' :
  GetCloudServiceStatistics ctx (Some q) w = (Returned (OK s), w') ->
  let id := GetStatistics_CloudServiceId q in
  w' = w /\ may_access ctx id /\
  NumberOfDiscoveredResources s = of_service T_Resource id (w_db w) /\
  NumberOfEvidences s = of_service T_Evidence id (w_db w) /\
  NumberOfAssessmentResults s = of_service T_AssessmentResult id (w_db w) /\
  exists cs, cs ∈ rows T_CloudService (w_db w) /\ CloudService_Id cs = id.
Proof.
  unfold GetCloudServiceStatistics. run_valid as q' Hv; [done|]. unfold gguard. cbv zeta.
  destruct (CheckAccess _ _ _) eqn:Ea; [|done]. apply check_access_allowed in Ea.
  unfold gtry, gbind, storage_Get, storage_Count, db_query.
  destruct (st_Get _ _ _) as [cs|] eqn:Eg; [|done].
  destruct (st_Count T_Resource _ _) as [n1|] eqn:E1; [|done].
  destruct (st_Count T_Evidence _ _) as [n2|] eqn:E2; [|done].
  destruct (st_Count T_AssessmentResult _ _) as [n3|] eqn:E3; [|done]. intros [= <- <-]. cbn.
  apply count_of_service in E1, E2, E3. split_and!; [done..|].
  destruct (get_ok_key T_CloudService _ (w_db w) cs (ltac:(done) : forall q0 args rest,
    [AStr "Id = ?"; AStr (GetStatistics_CloudServiceId q)] <> APreload q0 args :: rest) Eg) as (r0 & Hr0 & _ & Hm). exists r0. split; [done|].
  rewrite (matches_eq _ _ "Id = ?" "id") in Hm by done. case_bool_decide as Hid; [|done]. simpl in Hid. by simplify_eq.
Qed.

(** The default cloud service is created exactly when there is no cloud service
    at all, so that creating it a second time does nothing. *)
Theorem default_service_once w r w' :
  CreateDefaultTargetCloudService w = (Returned (OK r), w') ->
  (rows T_CloudService (w_db w) <> [] -> r = None /\ w' = w) /\
  (rows T_CloudService (w_db w) = [] -> exists cs, r = Some cs /\ CloudService_Id cs = DefaultTargetCloudServiceId /\
     exists cs', same_row T_CloudService cs cs' /\ rows T_CloudService (w_db w') ≡ₚ [cs']) /\
  (forall r2 w2, CreateDefaultTargetCloudService w' = (Returned (OK r2), w2) -> r2 = None /\ w2 = w').
Proof.
  assert (Hcount : forall w n, st_Count T_CloudService [] (w_db w) = OK n ->
            n = Z.of_nat (length (rows T_CloudService (w_db w)))).
  { intros w0 n Hn. rewrite (count_ok _ _ _ _ Hn) by done. do 2 f_equal.
    apply filter_Forall_id, Forall_forall. done. }
  assert (Hrun : forall w r w', CreateDefaultTargetCloudService w = (Returned (OK r), w') ->
    (rows T_CloudService (w_db w) <> [] -> r = None /\ w' = w) /\
    (rows T_CloudService (w_db w) = [] -> exists cs, r = Some cs /\ CloudService_Id cs = DefaultTargetCloudServiceId /\
       exists cs', same_row T_CloudService cs cs' /\ rows T_CloudService (w_db w') ≡ₚ [cs'])).
  { clear w r w'. intros w r w'. unfold CreateDefaultTargetCloudService, gtry, gbind, storage_Count, db_query, time_Now.
    destruct (st_Count _ _ _) as [n|] eqn:Ec; [|done]. apply Hcount in Ec. case_bool_decide as Hn.
    - unfold storage_Create, db_exec. cbn [w_db]. set (cs := mkCloudService _ _ _ _ _ _ _ _).
      destruct (st_Create T_CloudService cs (w_db w)) as [[e|] db'] eqn:Ecr; [done|]. intros [= <- <-]. split.
      + intros Hne. destruct (rows T_CloudService (w_db w)); [done|simpl in *; lia].
      + intros Hnil. exists cs. split_and!; [done..|].
        destruct (create_ok T_CloudService _ _ _ Ecr ltac:(done)) as (_ & cs' & Hs & Hp). exists cs'.
        split; [done|]. cbn. by rewrite Hp, Hnil.
    - intros [= <- <-]. split; [done|]. intros Hnil. rewrite Hnil in Ec. simpl in Ec. lia. }
  intros Hr. destruct (Hrun _ _ _ Hr) as [H1' H2']. split_and!; [done..|].
  intros r2 w2 Hr2. apply (Hrun _ _ _ Hr2). destruct (decide (rows T_CloudService (w_db w) = [])) as [Hnil|Hne].
  - destruct (H2' Hnil) as (cs & _ & _ & cs' & _ & Hp). intros Hn. rewrite Hn in Hp. by apply Permutation_nil_l in Hp.
  - destruct (H1' Hne) as [_ ->]. done.
Qed.

Lemma toe_matches (db : DB) cs cat (x : TargetOfEvaluation) :
  matches T_TargetOfEvaluation db [AStr "cloud_service_id = ? AND catalog_id = ?"; AStr cs; AStr cat] x
  = Some (bool_decide (pk T_TargetOfEvaluation x = [cs; cat])).
Proof.
  rewrite (matches_eq2 _ _ "cloud_service_id = ? AND catalog_id = ?" "cloud_service_id" "catalog_id") by done.
  f_equal. simpl. apply bool_decide_ext. naive_solver.
Qed.

Lemma GetToe_run ctx q w r w' :
  GetTargetOfEvaluation ctx (Some q) w = (Returned r, w') ->
  w' = w /\
  match r with
  | OK x => x ∈ rows T_TargetOfEvaluation (w_db w) /\
      pk T_TargetOfEvaluation x = [GetToe_CloudServiceId q; GetToe_CatalogId q]
  | Err e => e = toe_not_found ->
      forall x, x ∈ rows T_TargetOfEvaluation (w_db w) ->
                pk T_TargetOfEvaluation x <> [GetToe_CloudServiceId q; GetToe_CatalogId q]
  end.
Proof.
  unfold GetTargetOfEvaluation. run_valid as q' Hv; [intros [= <- <-]; done|]. unfold gguard.
  destruct (CheckAccess _ _ _); [|intros [= <- <-]; done].
  unfold gtry, gbind, storage_Get, db_query. destruct (st_Get _ _ _) as [x|e] eqn:Eg.
  - intros [= <- <-]. split; [done|]. apply (get_ok T_TargetOfEvaluation) in Eg as [Hin Hm]; [|done]. split; [done|].
    unfold WithoutPreload in Hm. rewrite matches_preload, toe_matches in Hm by done. by case_bool_decide.
  - intros [= <- <-]. split; [done|]. unfold lookup_error. destruct (errors_Is _ _) eqn:Ei; [|done]. intros _ x Hx Hk.
    apply (get_none T_TargetOfEvaluation _ _ _ Eg Ei x Hx). unfold WithoutPreload.
    rewrite matches_preload, toe_matches by done. by rewrite bool_decide_eq_true_2.
Qed.

(** A target of evaluation that was created is found again under its cloud
    service and catalog, exactly as created, and it was created only for a caller
    with access to the cloud service; its change event is due to the hooks. *)
Theorem toe_create_get ctx q w toe w1 :
  CreateTargetOfEvaluation ctx (Some q) w = (Returned (OK toe), w1) ->
  CreateToe_Toe q = Some toe /\ may_access ctx (TargetOfEvaluation_CloudServiceId toe) /\
  w_tasks w1 = w_tasks w ++ [InformToeHooks (mkToeChangeEvent TOE_CREATED (Some toe))] /\
  forall ctx' r w2, GetTargetOfEvaluation ctx'
      (Some (mkGetToeRequest (TargetOfEvaluation_CloudServiceId toe) (TargetOfEvaluation_CatalogId toe))) w1
    = (Returned r, w2) -> (forall x, r = OK x -> x = toe) /\ r <> Err toe_not_found.
Proof.
  unfold CreateTargetOfEvaluation. run_valid as q' Hv; [done|]. unfold gguard.
  destruct (CheckAccess _ _ _) eqn:Ea; [|done]. apply check_access_allowed in Ea.
  destruct (CreateToe_Toe q) as [t|] eqn:Et; [|done]. cbn [ToeRequest_GetCloudServiceId] in Ea.
  unfold gbind at 1, gderef, gret at 1, gtry, storage_Create, db_exec, gbind, go_spawn.
  destruct (st_Create T_TargetOfEvaluation t (w_db w)) as [[e|] db'] eqn:Ec; [done|]. intros [= <- <-].
  split_and!; [done..|]. intros ctx' r w2 Hg. apply GetToe_run in Hg as [_ Hr]. cbn [w_db] in Hr.
  destruct (create_ok T_TargetOfEvaluation _ _ _ Ec ltac:(done)) as (Hfree & _).
  apply (create_flat T_TargetOfEvaluation) in Ec; [|done]. split.
  - intros x ->. destruct Hr as [Hin Hk]. rewrite Ec in Hin. apply elem_of_cons in Hin as [->|Hin]; [done|].
    exfalso. apply (Hfree x Hin). rewrite Hk. done.
  - intros ->. refine (Hr eq_refl t _ eq_refl). rewrite Ec. set_solver.
Qed.

(** Certificates with one id are the same certificate (its primary key). *)
Definition unique_certificates (db : DB) : Prop :=
  forall x y, x ∈ rows T_Certificate db -> y ∈ rows T_Certificate db ->
              Certificate_Id x = Certificate_Id y -> x = y.

Lemma certificate_id_matches (db : DB) id (x : Certificate) :
  matches T_Certificate db [AStr "Id = ?"; AStr id] x = Some (bool_decide (Certificate_Id x = id)).
Proof.
  rewrite (matches_eq _ _ "Id = ?" "id") by done. f_equal. simpl. apply bool_decide_ext. naive_solver.
Qed.

(** The authorization check of RemoveCertificate passes only for a caller with
    access to everything or to a certificate with this id. *)
Lemma checkAuthorization_ok ctx q w u w1 :
  checkAuthorization ctx q w = (Returned (OK u), w1) ->
  w1 = w /\ (fst (AllowedCloudServices ctx) = true \/
    exists c, c ∈ rows T_Certificate (w_db w) /\ Certificate_Id c = RemoveCertificate_CertificateId q /\
              may_access ctx (Certificate_CloudServiceId c)).
Proof.
  unfold checkAuthorization, may_access. set (id := RemoveCertificate_CertificateId q).
  destruct (AllowedCloudServices ctx) as [all allowed].
  destruct all; simpl; [intros [= _ <-]; auto|]. unfold gtry, gbind, storage_Count, db_query.
  destruct (st_Count _ _ _) as [m|] eqn:Em; [|done]. unfold gguard.
  destruct (negb (bool_decide (m = 0%Z))) eqn:En; [|done]. intros [= _ <-]. split; [done|right].
  assert (Hmm : forall x : Certificate, matches T_Certificate (w_db w)
     [AStr "id = ? AND cloud_service_id IN ?"; AStr id; AStrs allowed] x
     = Some (selected (db_now (w_db w)) (col T_Certificate x)
               (CAnd (CEq "id" (AStr id)) (CIn "cloud_service_id" (AStrs allowed))))).
  { intros x. by apply matches_query. }
  rewrite (count_ok _ _ _ _ Em) in En by (intros x _; by rewrite Hmm).
  destruct (filter _ _) as [|c l] eqn:El; [done|].
  assert (Hc : c ∈ c :: l) by set_solver. rewrite <-El, list_elem_of_filter, Hmm in Hc. destruct Hc as [Hs Hin].
  injection Hs as Hs. rewrite selected_and, andb_true_iff, selected_eq_str, selected_in_strs in Hs.
  destruct Hs as [Hid (s & Hcs & Hal)]. simpl in Hid, Hcs. simplify_eq. exists c. eauto.
Qed.

(** RemoveCertificate removes exactly the certificate with the requested id, and
    only when the caller may access that certificate's cloud service. *)
Theorem remove_certificate_authorized ctx q w w' :
  unique_certificates (w_db w) ->
  RemoveCertificate ctx (Some q) w = (Returned (OK tt), w') ->
  (exists c, c ∈ rows T_Certificate (w_db w) /\ Certificate_Id c = RemoveCertificate_CertificateId q /\
             may_access ctx (Certificate_CloudServiceId c)) /\
  forall x, x ∈ rows T_Certificate (w_db w') <->
            x ∈ rows T_Certificate (w_db w) /\ Certificate_Id x <> RemoveCertificate_CertificateId q.
Proof.
  intros Huniq. unfold RemoveCertificate. run_valid as q' Hv; [done|]. set (id := RemoveCertificate_CertificateId q).
  unfold gtry at 1, gbind at 1. unfold checkExistence at 1. fold id.
  unfold gtry at 1, gbind at 1, storage_Count, db_query. destruct (st_Count _ _ _) as [n|]; [|done].
  unfold gguard. destruct (negb (bool_decide (n = 0%Z))); [|done]. cbn [gok gret].
  unfold gtry at 1, gbind at 1. destruct (checkAuthorization ctx q w) as [[[u|e]| |] w1] eqn:Eauth; try done.
  intros Hdel. unfold gtry, gbind, storage_Delete, db_exec in Hdel.
  destruct (st_Delete _ _ _ _) as [[e|] db'] eqn:Ed; [done|]. injection Hdel as <-. cbn [w_db].
  destruct (checkAuthorization_ok _ _ _ _ _ Eauth) as [-> Hauth]. fold id in Hauth.
  destruct (delete_ok T_Certificate _ _ _ _ Ed ltac:(done)) as [(x & Hx & _ & Hmx) Hrows].
  { intros x _. by rewrite certificate_id_matches. }
  rewrite certificate_id_matches in Hmx. case_bool_decide as Hidx; [|done]. split.
  - destruct Hauth as [Hall|(c & Hc & Hidc & Hacc)]; [|eauto]. exists x. split_and!; [done..|]. by left.
  - intros y. rewrite Hrows, certificate_id_matches. fold id. split; intros [Hy Hn]; (split; [done|]).
    + intros Hidy. apply Hn. split; [done|]. by rewrite bool_decide_eq_true_2.
    + intros [_ Hb]. by case_bool_decide.
Qed.
End Objects.

(** ** Hooks and events *)

Lemma log_calls_all {A} (f : A -> HookCall) (l : list A) s :
  foldl (fun s h => log_calls [f h] s) s l = log_calls (f <$> l) s.
Proof.
  revert s. induction l as [|h l IH]; intros s; simpl.
  - destruct s. unfold log_calls. simpl. by rewrite app_nil_r.
  - rewrite IH. unfold log_calls. simpl. by rewrite <-app_assoc.
Qed.

(** Running the goroutine of a change calls every hook that is registered at that
    time exactly once, in the order of registration, and changes nothing else;
    an event is appended to the channel exactly when the channel has room. *)
Theorem tasks_inform_all s :
  (forall r, run_task (InformHook r) s
     = Some (log_calls ((fun h => CalledResultHook h r) <$> AssessmentResultHooks s) s)) /\
  (forall cs, run_task (InformHooks cs) s
     = Some (log_calls ((fun h => CalledCloudServiceHook h cs) <$> cloudServiceHooks s) s)) /\
  (forall e, run_task (InformToeHooks e) s
     = Some (log_calls ((fun h => CalledToeHook h e) <$> toeHooks s) s)) /\
  (forall e s', run_task (SendEvent e) s = Some s' <->
     length (events s) < events_capacity /\ s' = push_event e s).
Proof.
  assert (Hnil : log_calls [] s = s) by (destruct s; unfold log_calls; simpl; by rewrite app_nil_r).
  split_and!; intros; simpl.
  - unfold informHook. by rewrite (log_calls_all (fun h => CalledResultHook h r)).
  - unfold informHooks. case_bool_decide as Hl; [by rewrite (log_calls_all (fun h => CalledCloudServiceHook h cs))|].
    destruct (cloudServiceHooks s); [by rewrite fmap_nil, Hnil|simpl in *; lia].
  - unfold informToeHooks. case_bool_decide as Hl; [by rewrite (log_calls_all (fun h => CalledToeHook h e))|].
    destruct (toeHooks s); [by rewrite fmap_nil, Hnil|simpl in *; lia].
  - case_bool_decide; naive_solver.
Qed.
