(* ===== verification/OrchestratorCatalogs.v ===== *)
(** service/orchestrator/metrics.go and catalogs.go: metrics with their
    implementations and configurations, the change events, and catalogs. *)

From S2P Require Import Prelude GoRuntime GoStrings Util Api Sql Storage Gorm MemDB Authz Pagination Orchestrator.

(** ** Requests *)

Record CreateMetricRequest := mkCreateMetricRequest { CreateMetric_Metric : option Metric }.
Record UpdateMetricRequest := mkUpdateMetricRequest { UpdateMetric_Metric : option Metric }.
Record UpdateMetricImplementationRequest := mkUpdateImplementationRequest {
  UpdateImplementation_Implementation : option MetricImplementation;
}.
Record RemoveMetricRequest := mkRemoveMetricRequest { RemoveMetric_MetricId : string }.
Record GetMetricRequest := mkGetMetricRequest { GetMetric_MetricId : string }.
Record GetMetricConfigurationRequest := mkGetConfigurationRequest {
  GetConfiguration_CloudServiceId : string;
  GetConfiguration_MetricId : string;
}.
Record UpdateMetricConfigurationRequest := mkUpdateConfigurationRequest {
  UpdateConfiguration_CloudServiceId : string;
  UpdateConfiguration_MetricId : string;
  UpdateConfiguration_Configuration : option MetricConfiguration;
}.
Record ListMetricConfigurationRequest := mkListConfigurationRequest { ListConfiguration_CloudServiceId : string }.
Record GetMetricImplementationRequest := mkGetImplementationRequest { GetImplementation_MetricId : string }.

Record CreateCatalogRequest := mkCreateCatalogRequest { CreateCatalog_Catalog : option Catalog }.
Record UpdateCatalogRequest := mkUpdateCatalogRequest { UpdateCatalog_Catalog : option Catalog }.
Record GetCatalogRequest := mkGetCatalogRequest { GetCatalog_CatalogId : string }.
Record RemoveCatalogRequest := mkRemoveCatalogRequest { RemoveCatalog_CatalogId : string }.
Record ListCatalogsRequest := mkListCatalogsRequest { ListCatalogs_Paging : PaginatedRequest }.
Record GetCategoryRequest := mkGetCategoryRequest { GetCategory_CatalogId : string; GetCategory_CategoryName : string }.
Record GetControlRequest := mkGetControlRequest {
  GetControl_CatalogId : string;
  GetControl_CategoryName : string;
  GetControl_ControlId : string;
}.

Definition ErrMetricNotFound : error := EStatus codes_NotFound "metric not found".

(** The files the service reads at its start, and how their JSON decodes (a JSON
    [null] decodes to a nil pointer). *)
Class Files := {
  os_ReadFile : string -> res string;
  embedded_ReadFile : string -> res string;
  read_folder : string -> res (list string);
  json_configuration : string -> res (option MetricConfiguration);
  json_metrics : string -> res (list Metric);
  json_catalogs : string -> res (list Catalog);
}.

Definition set_defaults (m : gmap string MetricConfiguration) (s : OrchestratorService) : OrchestratorService :=
  mkOrchestrator (cloudServiceHooks s) (toeHooks s) (AssessmentResultHooks s) (events s) m (hook_calls s).

Definition set_events (l : list MetricChangeEvent) (s : OrchestratorService) : OrchestratorService :=
  mkOrchestrator (cloudServiceHooks s) (toeHooks s) (AssessmentResultHooks s) l
    (defaultMetricConfigurations s) (hook_calls s).

Section Handlers.
Context {DB Ctx : Type} `{Storage DB, AuthorizationStrategy Ctx, TokenCodec, Env, Files}.
Context `{Validator CreateMetricRequest, Validator UpdateMetricRequest, Validator UpdateMetricImplementationRequest,
          Validator ListMetricsRequest, Validator RemoveMetricRequest, Validator GetMetricRequest,
          Validator GetMetricConfigurationRequest, Validator UpdateMetricConfigurationRequest,
          Validator ListMetricConfigurationRequest, Validator GetMetricImplementationRequest}.
Context `{Validator CreateCatalogRequest, Validator UpdateCatalogRequest, Validator GetCatalogRequest,
          Validator RemoveCatalogRequest, Validator ListCatalogsRequest, Validator GetCategoryRequest,
          Validator GetControlRequest, Validator ListControlsRequest}.
Abbreviation W := (World DB OrchestratorService OrchestratorTask).

(** *** Loading metrics *)

Definition loadMetricImplementation (metricID file : string) : Go W (res MetricImplementation) :=
  match os_ReadFile file with
  | Err e => gerr (EWrap "could not read file" e)
  | OK b => now <- time_Now ;; gok (mkMetricImplementation metricID LANGUAGE_REGO b (Some now))
  end.

(** The default configuration is stored under the metric's id. *)
Definition as_default (id : string) (c : MetricConfiguration) : MetricConfiguration :=
  mkMetricConfiguration (MetricConfiguration_Operator c) (MetricConfiguration_TargetValue c) true
    (MetricConfiguration_UpdatedAt c) id (MetricConfiguration_CloudServiceId c).

Definition prepareMetric (m : Metric) : Go W (res MetricImplementation) :=
  let id_ := Metric_Id m in
  impl <-? loadMetricImplementation id_ ("policies/bundles/" +:+ id_ +:+ "/metric.rego")
    ! EWrap "could not load metric implementation" ;;
  match os_ReadFile ("policies/bundles/" +:+ id_ +:+ "/data.json") with
  | Err e => gerr (EWrap ("could not retrieve default configuration for metric " +:+ id_) e)
  | OK b =>
      match json_configuration b with
      | Err e => gerr (EWrap ("error in reading default configuration for metric " +:+ id_) e)
      | OK config =>
          config <- gderef config ;;
          svc_modify (fun s => set_defaults (<[id_ := as_default id_ config]> (defaultMetricConfigurations s)) s) ;;;
          gok impl
      end
  end.

Definition load_metric (m : Metric) : Go W unit :=
  r <- storage_Save T_Metric m [AStr "id = ? "; AStr (Metric_Id m)] ;;
  match r with
  | Err _ => gret tt
  | OK _ =>
      r <- prepareMetric m ;;
      match r with
      | Err _ => gret tt
      | OK impl =>
          _ <- storage_Save T_MetricImplementation impl [AStr "metric_id = ? "; AStr (Metric_Id m)] ;;
          gret tt
      end
  end.

Definition loadEmbeddedMetrics (metricsFile : string) : res (list Metric) :=
  match embedded_ReadFile metricsFile with
  | Err e => Err (EWrap ("error while loading " +:+ metricsFile) e)
  | OK b => match json_metrics b with
            | Err e => Err (EWrap "error in JSON marshal" e)
            | OK l => OK l
            end
  end.

(** [loadMetricsFunc] defaults to the embedded metrics. *)
Definition loadMetrics (loadMetricsFunc : option (res (list Metric))) (metricsFile : string) : Go W (res unit) :=
  match default (loadEmbeddedMetrics metricsFile) loadMetricsFunc with
  | Err e => gerr (EWrap "could not load metrics" e)
  | OK metrics =>
      svc_modify (set_defaults ∅) ;;;
      gfor metrics load_metric ;;;
      gok tt
  end.

(** *** Metrics *)

Definition metadata_changed (id_ : string) : OrchestratorTask :=
  SendEvent (mkMetricChangeEvent TYPE_METADATA_CHANGED id_ "").

Definition CreateMetric (req : option CreateMetricRequest) : Go W (res Metric) :=
  valid req from req ;;
  metric <- gderef (CreateMetric_Metric req) ;;
  count <-? storage_Count T_Metric [AStr "id = ?"; AStr (Metric_Id metric)] ! internal_error "database error: " ;;
  require (negb (bool_decide (0 < count)%Z)) else EStatus codes_AlreadyExists "metric already exists" ;;
  require (bool_decide (Metric_DeprecatedSince metric = None))
    else EStatus codes_FailedPrecondition "the metric shouldn't be set to deprecated at creation time" ;;
  _ <-? storage_Create T_Metric metric ! internal_error "database error: " ;;
  go_spawn (metadata_changed (Metric_Id metric)) ;;;
  gok metric.

(** The stored metric with the fields of the request. *)
Definition updated_metric (old new : Metric) : Metric :=
  mkMetric (Metric_Id old) (Metric_Name new) (Metric_Description new) (Metric_Category new) (Metric_Scale_ new)
    (Metric_Range new) (Metric_Interval old) (Metric_Implementation old) (Metric_DeprecatedSince new).

Definition UpdateMetric (req : option UpdateMetricRequest) : Go W (res Metric) :=
  valid req from req ;;
  new <- gderef (UpdateMetric_Metric req) ;;
  metric <-? storage_Get T_Metric [AStr "id = ?"; AStr (Metric_Id new)]
    ! lookup_error ErrMetricNotFound "database error: " ;;
  let metric := updated_metric metric new in
  _ <-? storage_Save T_Metric metric [AStr "id = ? "; AStr (Metric_Id metric)] ! internal_error "database error: " ;;
  go_spawn (metadata_changed (Metric_Id metric)) ;;;
  gok metric.

Definition UpdateMetricImplementation (req : option UpdateMetricImplementationRequest) : Go W (res MetricImplementation) :=
  valid req from req ;;
  impl <- gderef (UpdateImplementation_Implementation req) ;;
  metric <-? storage_Get T_Metric [AStr "id = ?"; AStr (MetricImplementation_MetricId impl)]
    ! lookup_error ErrMetricNotFound "database error: " ;;
  now <- time_Now ;;
  let impl := mkMetricImplementation (MetricImplementation_MetricId impl) (MetricImplementation_Lang impl)
                (MetricImplementation_Code impl) (Some now) in
  _ <-? storage_Save T_MetricImplementation impl [AStr "metric_id = ?"; AStr (MetricImplementation_MetricId impl)]
    ! EWrap "could not save metric implementation" ;;
  go_spawn (SendEvent (mkMetricChangeEvent TYPE_IMPLEMENTATION_CHANGED (Metric_Id metric) "")) ;;;
  gok impl.

Definition ListMetrics (req : option ListMetricsRequest) : Go W (res (Page Metric)) :=
  valid req from req ;;
  let conds := if negb (ListMetrics_IncludeDeprecated req) then [AStr "deprecated_since IS NULL"] else [] in
  p <-? PaginateStorage T_Metric (ListMetrics_Paging req) DefaultPaginationOpts conds
    ! internal_error "could not paginate metrics: " ;;
  gok (mkPage (fst p) (snd p)).

Definition deprecated (now : Z) (m : Metric) : Metric :=
  mkMetric (Metric_Id m) (Metric_Name m) (Metric_Description m) (Metric_Category m) (Metric_Scale_ m)
    (Metric_Range m) (Metric_Interval m) (Metric_Implementation m) (Some now).

Definition RemoveMetric (req : option RemoveMetricRequest) : Go W (res unit) :=
  valid req from req ;;
  metric <-? storage_Get T_Metric [AStr "id = ?"; AStr (RemoveMetric_MetricId req)]
    ! lookup_error ErrMetricNotFound "database error: " ;;
  metric <- (if bool_decide (Metric_DeprecatedSince metric = None)
             then now <- time_Now ;; gret (deprecated now metric) else gret metric) ;;
  _ <-? storage_Update T_Metric metric [AStr "Id = ?"; AStr (RemoveMetric_MetricId req)]
    ! internal_error "database error: " ;;
  gok tt.

Definition GetMetric (req : option GetMetricRequest) : Go W (res Metric) :=
  valid req from req ;;
  metric <-? storage_Get T_Metric [AStr "id = ?"; AStr (GetMetric_MetricId req)]
    ! lookup_error ErrMetricNotFound "database error: " ;;
  gok metric.

(** *** Configurations *)

Definition for_service (id_ : string) (c : MetricConfiguration) : MetricConfiguration :=
  mkMetricConfiguration (MetricConfiguration_Operator c) (MetricConfiguration_TargetValue c)
    (MetricConfiguration_IsDefault c) (MetricConfiguration_UpdatedAt c) (MetricConfiguration_MetricId c) id_.

Definition configuration_not_found (id_ : string) : error :=
  EStatus codes_NotFound ("metric configuration not found for metric with id '" +:+ id_ +:+ "'").

Definition GetMetricConfiguration (ctx : option Ctx) (req : option GetMetricConfigurationRequest)
  : Go W (res MetricConfiguration) :=
  valid req from req ;;
  let cs := GetConfiguration_CloudServiceId req in
  let metric := GetConfiguration_MetricId req in
  require (CheckAccess ctx AccessRead cs) else ErrPermissionDenied ;;
  r <- storage_Get T_MetricConfiguration
         [WithoutPreload; AStr "cloud_service_id = ? AND metric_id = ?"; AStr cs; AStr metric] ;;
  match r with
  | OK res => gok res
  | Err e =>
      if errors_Is e ErrRecordNotFound then
        svc <- svc_read id ;;
        match defaultMetricConfigurations svc !! metric with
        | Some config => gok (for_service cs config)
        | None => gerr (configuration_not_found metric)
        end
      else gerr (internal_error "database error: " e)
  end.

Definition custom (now : Z) (c : MetricConfiguration) : MetricConfiguration :=
  mkMetricConfiguration (MetricConfiguration_Operator c) (MetricConfiguration_TargetValue c) false (Some now)
    (MetricConfiguration_MetricId c) (MetricConfiguration_CloudServiceId c).

Definition UpdateMetricConfiguration (ctx : option Ctx) (req : option UpdateMetricConfigurationRequest)
  : Go W (res MetricConfiguration) :=
  valid req from req ;;
  let cs := UpdateConfiguration_CloudServiceId req in
  let metric := UpdateConfiguration_MetricId req in
  require (CheckAccess ctx AccessRead cs) else ErrPermissionDenied ;;
  config <- gderef (UpdateConfiguration_Configuration req) ;;
  now <- time_Now ;;
  let config := custom now config in
  _ <-? storage_Save T_MetricConfiguration config
      [AStr "metric_id = ? AND cloud_service_id = ?"; AStr metric; AStr cs]
    ! (fun e => if errors_Is e ErrConstraintFailed then EStatus codes_NotFound "metric or service does not exist"
                else internal_error "database error: " e) ;;
  go_spawn (SendEvent (mkMetricChangeEvent TYPE_CONFIG_CHANGED metric cs)) ;;;
  gok config.

(** The loop of ListMetricConfigurations: metrics whose configuration cannot be
    read are left out. *)
Fixpoint collect_configurations (ctx : option Ctx) (cs : string) (metrics : list Metric)
    (acc : gmap string MetricConfiguration) : Go W (gmap string MetricConfiguration) :=
  match metrics with
  | [] => gret acc
  | m :: metrics =>
      r <- GetMetricConfiguration ctx (Some (mkGetConfigurationRequest cs (Metric_Id m))) ;;
      match r with
      | OK config => collect_configurations ctx cs metrics (<[Metric_Id m := config]> acc)
      | Err _ => collect_configurations ctx cs metrics acc
      end
  end.

Definition ListMetricConfigurations (ctx : option Ctx) (req : option ListMetricConfigurationRequest)
  : Go W (res (gmap string MetricConfiguration)) :=
  valid req from req ;;
  let cs := ListConfiguration_CloudServiceId req in
  require (CheckAccess ctx AccessRead cs) else ErrPermissionDenied ;;
  metrics <-? storage_List T_Metric "" true 0 (-1) [] ! internal_error "database error: " ;;
  configurations <- collect_configurations ctx cs metrics ∅ ;;
  gok configurations.

Definition GetMetricImplementation (req : option GetMetricImplementationRequest) : Go W (res MetricImplementation) :=
  valid req from req ;;
  res <-? storage_Get T_MetricImplementation [AStr "metric_id = ?"; AStr (GetImplementation_MetricId req)]
    ! (fun e => if bool_decide (e = ErrRecordNotFound) then EStatus codes_NotFound "implementation for metric not found"
                else internal_error "could not retrieve metric implementation: " e) ;;
  gok res.

(** The subscriber loop.  [sends] are the answers of [stream.Send]; the second
    result is [None] while the loop still waits, for an event or for the client. *)
Fixpoint SubscribeMetricChangeEvents (sends : list sent) (out : list MetricChangeEvent)
  : Go W (list MetricChangeEvent * option (res unit)) :=
  match sends with
  | [] => gret (out, None)
  | s :: sends =>
      svc <- svc_read id ;;
      match events svc with
      | [] => gret (out, None)
      | e :: rest =>
          svc_modify (set_events rest) ;;;
          match s with
          | SentOK => SubscribeMetricChangeEvents sends (out ++ [e])
          | SentEOF => gret (out, Some (OK tt))
          | SentError err =>
              gret (out, Some (Err (EStatus codes_Unknown (Error (EWrap "cannot stream response to the client" err)))))
          end
      end
  end.

(** *** Catalogs *)

Definition catalog_not_found : error := EStatus codes_NotFound "catalog not found".

Definition CreateCatalog (req : option CreateCatalogRequest) : Go W (res Catalog) :=
  valid req from req ;;
  catalog <- gderef (CreateCatalog_Catalog req) ;;
  _ <-? storage_Create T_Catalog catalog ! internal_error "database error: " ;;
  gok catalog.

Definition GetCatalog (req : option GetCatalogRequest) : Go W (res Catalog) :=
  valid req from req ;;
  response <-? storage_Get T_Catalog
      [APreload "Categories.Controls" ["parent_control_id IS NULL"]; AStr "Id = ?"; AStr (GetCatalog_CatalogId req)]
    ! lookup_error catalog_not_found "database error: " ;;
  gok response.

Definition ListCatalogs (req : option ListCatalogsRequest) : Go W (res (Page Catalog)) :=
  valid req from req ;;
  p <-? PaginateStorage T_Catalog (ListCatalogs_Paging req) DefaultPaginationOpts []
    ! internal_error "could not paginate results: " ;;
  gok (mkPage (fst p) (snd p)).

Definition UpdateCatalog (req : option UpdateCatalogRequest) : Go W (res Catalog) :=
  valid req from req ;;
  res <- gderef (UpdateCatalog_Catalog req) ;;
  _ <-? storage_Update T_Catalog res [AStr "id = ?"; AStr (Catalog_Id res)]
    ! lookup_error catalog_not_found "database error: " ;;
  gok res.

Definition RemoveCatalog (req : option RemoveCatalogRequest) : Go W (res unit) :=
  valid req from req ;;
  _ <-? storage_Delete T_Catalog None [AStr "Id = ?"; AStr (RemoveCatalog_CatalogId req)]
    ! lookup_error catalog_not_found "database error: " ;;
  gok tt.

Definition GetCategory (req : option GetCategoryRequest) : Go W (res Category) :=
  valid req from req ;;
  res <-? storage_Get T_Category
      [APreload "Controls" ["parent_control_id IS NULL"]; AStr "name = ? AND catalog_id = ?";
       AStr (GetCategory_CategoryName req); AStr (GetCategory_CatalogId req)]
    ! lookup_error (EStatus codes_NotFound "category not found") "database error: " ;;
  gok res.

Definition GetControl (req : option GetControlRequest) : Go W (res Control) :=
  valid req from req ;;
  res <-? storage_Get T_Control
      [AStr "Id = ? AND category_name = ? AND category_catalog_id = ?";
       AStr (GetControl_ControlId req); AStr (GetControl_CategoryName req); AStr (GetControl_CatalogId req)]
    ! lookup_error (EStatus codes_NotFound "control not found") "database error: " ;;
  gok res.

(** The conditions of ListControls. *)
Definition control_conds (req : ListControlsRequest) : cond_list :=
  let cat := ListControls_CatalogId req in
  let name := ListControls_CategoryName req in
  let l := if bool_decide (name <> "") && bool_decide (cat <> "")
           then (["category_name = ?"], [AStr name]) else ([], []) : cond_list in
  let l := if bool_decide (cat <> "") then (l.1 ++ ["category_catalog_id = ?"], l.2 ++ [AStr cat]) else l in
  match ListControls_AssuranceLevels req with
  | Some ((_ :: _) as levels) =>
      (l.1 ++ ["(assurance_level IN ? OR assurance_level IS NULL)"], l.2 ++ [AStrs levels])
  | _ => l
  end.

Definition ListControls (req : option ListControlsRequest) : Go W (res (Page Control)) :=
  valid req from req ;;
  let '(query, args) := control_conds req in
  p <-? PaginateStorage T_Control (ListControls_Paging req) DefaultPaginationOpts
          (AStr (strings_Join query " AND ") :: args) ! internal_error "could not paginate results: " ;;
  gok (mkPage (fst p) (snd p)).

(** *** Loading catalogs *)

(** The catalogs of the files that can be read and decoded, in order. *)
Definition read_catalogs (files : list string) : list Catalog :=
  foldl (fun acc file =>
           match os_ReadFile file with
           | Err _ => acc
           | OK b => match json_catalogs b with Err _ => acc | OK l => acc ++ l end
           end) [] files.

(** A sub-control gets the category and catalog it is in, and its parent's key
    (pointers to the fields of the parent control: the value they have now). *)
Definition adopt (category catalog : string) (control sub : Control) : Control :=
  mkControl (Control_Id sub) category catalog (Control_Name sub) (Control_Description sub) (Control_Controls sub)
    (Control_Metrics sub) (Some (Control_Id control)) (Some (Control_CategoryName control))
    (Some (Control_CategoryCatalogId control)) (Control_AssuranceLevel sub).

Definition adopt_subcontrols (category catalog : string) (control : Control) : Control :=
  mkControl (Control_Id control) (Control_CategoryName control) (Control_CategoryCatalogId control)
    (Control_Name control) (Control_Description control)
    (adopt category catalog control <$> Control_Controls control)
    (Control_Metrics control) (Control_ParentControlId control) (Control_ParentControlCategoryName control)
    (Control_ParentControlCategoryCatalogId control) (Control_AssuranceLevel control).

Definition adopt_catalog (c : Catalog) : Catalog :=
  mkCatalog (Catalog_Id c) (Catalog_Name c) (Catalog_Description c)
    ((fun cat => mkCategory (Category_Name cat) (Category_CatalogId cat) (Category_Description cat)
                   (adopt_subcontrols (Category_Name cat) (Catalog_Id c) <$> Category_Controls cat))
       <$> Catalog_Categories c)
    (Catalog_AllInScope c) (Catalog_AssuranceLevels c) (Catalog_ShortName c) (Catalog_Metadata_ c).

(** The error is that of the last file that failed, or of reading the folder. *)
Definition last_error (folder : res (list string)) : option error :=
  match folder with
  | Err e => Some e
  | OK files =>
      match last files with
      | None => None
      | Some file => match os_ReadFile file with
                     | Err e => Some e
                     | OK b => match json_catalogs b with Err e => Some e | OK _ => None end
                     end
      end
  end.

Definition loadEmbeddedCatalogs (catalogsFolder : string) : list Catalog * option error :=
  let folder := GetJSONFilenames catalogsFolder (read_folder catalogsFolder) in
  let files := match folder with OK l => l | Err _ => [] end in
  (adopt_catalog <$> read_catalogs files, last_error folder).

(** [svc.storage.Save(catalogs)] saves the catalogs in one transaction. *)
Fixpoint save_all (l : list Catalog) (db : DB) : option error * DB :=
  match l with
  | [] => (None, db)
  | c :: l => match st_Save T_Catalog c [] db with
              | (Some e, db') => (Some e, db')
              | (None, db') => save_all l db'
              end
  end.

Definition loadCatalogs (loadCatalogsFunc : option (list Catalog * option error)) (catalogsFolder : string)
  : Go W (res unit) :=
  match default (loadEmbeddedCatalogs catalogsFolder) loadCatalogsFunc with
  | (_, Some e) => gerr (EWrap "could not load catalogs" e)
  | (catalogs, None) =>
      db_exec (fun db => match save_all catalogs db with
                         | (Some e, _) => (Err e, db)
                         | (None, db') => (OK tt, db')
                         end)
  end.

(** [NewService]: metrics and catalogs are loaded, errors are only logged. *)
Definition NewOrchestratorService (metricsFunc : option (res (list Metric))) (metricsFile : string)
    (catalogsFunc : option (list Catalog * option error)) (catalogsFolder : string) : Go W unit :=
  _ <- loadMetrics metricsFunc metricsFile ;;
  _ <- loadCatalogs catalogsFunc catalogsFolder ;;
  gret tt.
End Handlers.
