(* ===== verification/OrchestratorCatalogsProofs.v ===== *)
(** Correctness of metrics, configurations, change events and catalogs
    (OrchestratorCatalogs.v). *)

From S2P Require Import Prelude GoRuntime GoStrings Util Api Sql Storage Gorm MemDB Authz Pagination Orchestrator OrchestratorCatalogs.

Section Configurations.
Context {DB Ctx : Type} `{StorageLaws DB, AuthorizationStrategy Ctx, !AuthorizationLaws Ctx, TokenCodec, Env}.
Context `{Validator GetMetricConfigurationRequest, Validator UpdateMetricConfigurationRequest,
          Validator ListMetricConfigurationRequest}.
Implicit Types w : World DB OrchestratorService OrchestratorTask.

(** The stored configuration of a metric for a cloud service. *)
Definition stored_configuration w (cs metric : string) (c : MetricConfiguration) : Prop :=
  c ∈ rows T_MetricConfiguration (w_db w) /\ MetricConfiguration_CloudServiceId c = cs /\
  MetricConfiguration_MetricId c = metric.

Lemma configuration_matches (db : DB) cs metric (c : MetricConfiguration) :
  matches T_MetricConfiguration db
    [WithoutPreload; AStr "cloud_service_id = ? AND metric_id = ?"; AStr cs; AStr metric] c
  = Some (bool_decide (MetricConfiguration_CloudServiceId c = cs /\ MetricConfiguration_MetricId c = metric)).
Proof.
  unfold WithoutPreload. rewrite matches_preload by done.
  rewrite (matches_eq2 _ _ "cloud_service_id = ? AND metric_id = ?" "cloud_service_id" "metric_id") by done.
  f_equal. simpl. apply bool_decide_ext. naive_solver.
Qed.

(** The answers of GetMetricConfiguration. *)
Definition configuration_answer ctx w (cs metric : string) (r : res MetricConfiguration) : Prop :=
  match r with
  | OK c => may_access ctx cs /\
      (stored_configuration w cs metric c \/
       ((forall c', ~ stored_configuration w cs metric c') /\
        exists d, defaultMetricConfigurations (w_svc w) !! metric = Some d /\ c = for_service cs d))
  | Err e => e = configuration_not_found metric ->
      (forall c', ~ stored_configuration w cs metric c') /\ defaultMetricConfigurations (w_svc w) !! metric = None
  end.

Lemma GetMetricConfiguration_run ctx cs metric w :
  exists r, GetMetricConfiguration ctx (Some (mkGetConfigurationRequest cs metric)) w = (Returned r, w) /\
    configuration_answer ctx w cs metric r /\
    (violations (mkGetConfigurationRequest cs metric) = None -> CheckAccess ctx AccessRead cs = true ->
     (forall e, st_Get T_MetricConfiguration
        [WithoutPreload; AStr "cloud_service_id = ? AND metric_id = ?"; AStr cs; AStr metric] (w_db w) = Err e ->
        errors_Is e ErrRecordNotFound = true) ->
     forall e, r = Err e -> e = configuration_not_found metric).
Proof.
  unfold GetMetricConfiguration. run_valid as q Hv.
  { eexists. split; [done|]. split; [done|]. intros Hv _ _. by destruct (Hrej _ eq_refl). }
  cbn [GetConfiguration_CloudServiceId GetConfiguration_MetricId]. unfold gguard.
  destruct (CheckAccess _ _ _) eqn:Ea; [|eexists; split; [done|]; split; [done|congruence]].
  apply check_access_allowed in Ea. unfold gbind, storage_Get, db_query.
  destruct (st_Get _ _ _) as [c|e] eqn:Eg.
  - eexists. split; [done|]. split; [|naive_solver]. split; [done|left].
    apply (get_ok T_MetricConfiguration) in Eg as [Hin Hm]; [|done].
    rewrite configuration_matches in Hm. case_bool_decide; [|done]. split; tauto.
  - destruct (errors_Is _ _) eqn:Ei.
    2: { eexists. split; [done|]. split; [done|]. intros _ _ Hnf. rewrite (Hnf e eq_refl) in Ei. done. }
    assert (Hnone : forall c', ~ stored_configuration w cs metric c').
    { intros c' (Hin & Hc & Hm). apply (get_none T_MetricConfiguration _ _ _ Eg Ei c' Hin).
      rewrite configuration_matches. by rewrite bool_decide_eq_true_2. }
    unfold svc_read. cbn [id].
    destruct (defaultMetricConfigurations (w_svc w) !! metric) as [d|] eqn:Ed; eexists; (split; [done|]).
    + split; [|naive_solver]. split; [done|right]. eauto.
    + split; [done|naive_solver].
Qed.

(** GetMetricConfiguration always answers and changes nothing; it answers a caller
    with access with the configuration stored for the cloud service and the metric,
    and only when there is none with the default one, made out to the cloud
    service; it reports NotFound only when there is neither.  A valid request of a
    caller with access fails in no other way, unless the database fails. *)
Theorem configuration_falls_back ctx cs metric w :
  exists r, GetMetricConfiguration ctx (Some (mkGetConfigurationRequest cs metric)) w = (Returned r, w) /\
    configuration_answer ctx w cs metric r /\
    (violations (mkGetConfigurationRequest cs metric) = None -> CheckAccess ctx AccessRead cs = true ->
     (forall e, st_Get T_MetricConfiguration
        [WithoutPreload; AStr "cloud_service_id = ? AND metric_id = ?"; AStr cs; AStr metric] (w_db w) = Err e ->
        errors_Is e ErrRecordNotFound = true) ->
     forall e, r = Err e -> e = configuration_not_found metric).
Proof. apply GetMetricConfiguration_run. Qed.

Lemma collect_run ctx cs metrics acc w :
  exists m, collect_configurations ctx cs metrics acc w = (Returned m, w) /\
    (forall id c, m !! id = Some c -> acc !! id = Some c \/
       id ∈ (Metric_Id <$> metrics) /\
       GetMetricConfiguration ctx (Some (mkGetConfigurationRequest cs id)) w = (Returned (OK c), w)) /\
    (forall id, is_Some (acc !! id) -> is_Some (m !! id)) /\
    (forall id, id ∈ (Metric_Id <$> metrics) ->
       (exists c, GetMetricConfiguration ctx (Some (mkGetConfigurationRequest cs id)) w = (Returned (OK c), w)) ->
       is_Some (m !! id)).
Proof.
  revert acc. induction metrics as [|x metrics IH]; intros acc; cbn [collect_configurations].
  { exists acc. split_and!; auto. set_solver. }
  destruct (GetMetricConfiguration_run ctx cs (Metric_Id x) w) as (r & Hrun & Ha & _).
  unfold gbind. rewrite Hrun. destruct r as [c|e].
  - destruct (IH (<[Metric_Id x := c]> acc)) as (m & Hm & Hs & Hmono & Hc). exists m. split_and!; [done|..].
    + intros id c0 Hl. destruct (Hs id c0 Hl) as [Hacc|[Hin Hans]]; [|right; set_solver].
      destruct (decide (Metric_Id x = id)) as [<-|Hne].
      * rewrite lookup_insert_eq in Hacc. simplify_eq. right. set_solver.
      * rewrite lookup_insert_ne in Hacc by done. by left.
    + intros id Hid. apply Hmono. destruct (decide (Metric_Id x = id)) as [<-|Hne];
        [rewrite lookup_insert_eq; eauto|by rewrite lookup_insert_ne].
    + intros id [->|Hin]%elem_of_cons Hex; [|by apply Hc]. apply Hmono. rewrite lookup_insert_eq. eauto.
  - destruct (IH acc) as (m & Hm & Hs & Hmono & Hc). exists m. split_and!; [done| |done|].
    + intros id c0 Hl. destruct (Hs id c0 Hl) as [?|[? ?]]; [by left|right; set_solver].
    + intros id [->|Hin]%elem_of_cons Hex; [|by apply Hc]. destruct Hex as (c & Hc'). congruence.
Qed.

(** ListMetricConfigurations returns for each listed metric the configuration
    GetMetricConfiguration answers for it (the stored one, or the default), and
    leaves out exactly the metrics for which that call fails. *)
Theorem list_configurations_correct ctx cs w m w' :
  ListMetricConfigurations ctx (Some (mkListConfigurationRequest cs)) w = (Returned (OK m), w') ->
  w' = w /\ exists metrics, st_List T_Metric "" true 0 (-1) [] (w_db w) = OK metrics /\
    (forall id c, m !! id = Some c -> id ∈ (Metric_Id <$> metrics) /\ configuration_answer ctx w cs id (OK c)) /\
    (forall id, id ∈ (Metric_Id <$> metrics) ->
       is_Some (m !! id) <->
       exists c, GetMetricConfiguration ctx (Some (mkGetConfigurationRequest cs id)) w = (Returned (OK c), w)).
Proof.
  unfold ListMetricConfigurations. run_valid as q Hv; [done|]. cbn [ListConfiguration_CloudServiceId]. unfold gguard.
  destruct (CheckAccess _ _ _); [|done]. unfold gtry, gbind at 1, storage_List, db_query.
  destruct (st_List _ _ _ _ _ _ _) as [metrics|]; [|done].
  destruct (collect_run ctx cs metrics ∅ w) as (m0 & Hm0 & Hs & _ & Hc). unfold gbind. rewrite Hm0.
  intros [= <- <-]. split; [done|]. exists metrics. split_and!; [done|..].
  - intros id c Hl. destruct (Hs id c Hl) as [Hmt|[Hin Hg]]; [by rewrite lookup_empty in Hmt|]. split; [done|].
    destruct (GetMetricConfiguration_run ctx cs id w) as (r & Hrun & Ha & _). rewrite Hrun in Hg. by simplify_eq.
  - intros id Hin. split; [|by apply Hc]. intros [c Hl].
    destruct (Hs id c Hl) as [Hmt|[_ Hg]]; [by rewrite lookup_empty in Hmt|]. eauto.
Qed.

(** C37. A configuration update by a caller with access stores the configuration with
    a new timestamp and not as a default, under the key the configuration itself
    names, and announces the change of the requested metric and cloud service
    exactly once; a refused update changes nothing and announces nothing. *)
Theorem update_configuration_correct ctx q w r w' :
  UpdateMetricConfiguration ctx (Some q) w = (Returned r, w') ->
  match r with
  | OK c => exists c0, UpdateConfiguration_Configuration q = Some c0 /\
      may_access ctx (UpdateConfiguration_CloudServiceId q) /\ c = custom (time_at (w_tick w)) c0 /\
      rows T_MetricConfiguration (w_db w') ≡ₚ
        c :: filter (fun x => pk T_MetricConfiguration x <> pk T_MetricConfiguration c) (rows T_MetricConfiguration (w_db w)) /\
      w_tasks w' = w_tasks w ++ [SendEvent (mkMetricChangeEvent TYPE_CONFIG_CHANGED
                     (UpdateConfiguration_MetricId q) (UpdateConfiguration_CloudServiceId q))]
  | Err _ => w_db w' = w_db w /\ w_tasks w' = w_tasks w
  end.
Proof.
  unfold UpdateMetricConfiguration. run_valid as q' Hv; [intros [= <- <-]; done|]. unfold gguard. cbv zeta.
  destruct (CheckAccess _ _ _) eqn:Ea; [|intros [= <- <-]; done]. apply check_access_allowed in Ea.
  destruct (UpdateConfiguration_Configuration q) as [c0|] eqn:Ec; [|done].
  unfold gbind at 1, gderef, gret at 1. unfold gbind at 1, time_Now. cbn [w_db w_svc w_tasks w_tick].
  set (c := custom _ c0). unfold gtry, gbind, storage_Save, db_exec, go_spawn. cbn [w_db w_svc w_tasks w_tick].
  destruct (st_Save T_MetricConfiguration c _ (w_db w)) as [[e|] db'] eqn:Es; intros [= <- <-]; cbn.
  - by apply save_err in Es.
  - exists c0. apply (save_flat T_MetricConfiguration) in Es; [|done..]. split_and!; done.
Qed.
End Configurations.

(** ** Metrics and events *)

Section Metrics.
Context {DB Ctx : Type} `{StorageLaws DB, AuthorizationStrategy Ctx, TokenCodec, Env}.
Context `{Validator ListMetricsRequest, Validator RemoveMetricRequest}.
Implicit Types w : World DB OrchestratorService OrchestratorTask.

Lemma metric_id_matches (db : DB) q id (x : Metric) : q = "id = ?" \/ q = "Id = ?" ->
  matches T_Metric db [AStr q; AStr id] x = Some (bool_decide (Metric_Id x = id)).
Proof.
  intros Hq. rewrite (matches_eq _ _ q "id") by (by destruct Hq as [-> | ->]).
  f_equal. simpl. apply bool_decide_ext. naive_solver.
Qed.

(** The column of a metric that says it is deprecated. *)
Definition metric_deprecated (m : Metric) : Prop := Metric_DeprecatedSince m <> None.

Lemma col_deprecated (m : Metric) : col T_Metric m "deprecated_since" = opt_time (Metric_DeprecatedSince m).
Proof. done. Qed.

(** Removing a metric does not delete it: afterwards there is still exactly one
    metric with the id, it is deprecated, and every other metric is untouched. *)
Theorem remove_metric_deprecates q w w' :
  RemoveMetric (Some q) w = (Returned (OK tt), w') ->
  let id := RemoveMetric_MetricId q in
  exists m, Metric_Id m = id /\ metric_deprecated m /\
    rows T_Metric (w_db w') ≡ₚ m :: filter (fun x => Metric_Id x <> id) (rows T_Metric (w_db w)).
Proof.
  unfold RemoveMetric. run_valid as q' Hv; [done|]. set (id := RemoveMetric_MetricId q).
  unfold gtry at 1, gbind at 1, storage_Get, db_query. destruct (st_Get _ _ _) as [m|] eqn:Eg; [|done].
  destruct (get_ok_key T_Metric _ (w_db w) m (ltac:(done) : forall q0 args rest,
    [AStr "id = ?"; AStr id] <> APreload q0 args :: rest) Eg) as (m0 & Hin0 & (Hpk & Hcol & _) & Hm0).
  rewrite metric_id_matches in Hm0 by (by left). case_bool_decide as Hid0; [|done].
  assert (Hid : Metric_Id m = id) by (simpl in Hpk; congruence).
  set (pick := if bool_decide _ then _ else _).
  assert (Hpick : exists w1 m1, pick w = (Returned m1, w1) /\ w_db w1 = w_db w /\ Metric_Id m1 = id /\ metric_deprecated m1).
  { unfold pick. case_bool_decide as Hd; unfold gbind, time_Now, gret; do 2 eexists; split_and!; done. }
  destruct Hpick as (w1 & m1 & Hp & Hdb & Hid1 & Hdep1). unfold gbind at 1. rewrite Hp.
  unfold gtry, gbind, storage_Update, db_exec. rewrite Hdb.
  destruct (st_Update T_Metric m1 _ (w_db w)) as [[e|] db'] eqn:Eu; [done|]. intros [= <-]. cbn [w_db].
  destruct (update_ok T_Metric _ _ _ _ Eu ltac:(done)) as (old & r' & Hold & Hko & [Hkr Hmerge] & Hrows).
  { intros x Hx. rewrite metric_id_matches by (by right). f_equal. apply bool_decide_ext. cbn [pk].
    fold id. rewrite <-Hid1. split; [by intros ->|by intros [=]]. }
  exists r'. split_and!.
  - simpl in Hkr, Hko. congruence.
  - specialize (Hmerge "deprecated_since"). rewrite !col_deprecated in Hmerge. unfold metric_deprecated in *.
    destruct (Metric_DeprecatedSince m1) as [t|]; [|done]. simpl in Hmerge.
    by destruct (Metric_DeprecatedSince r').
  - rewrite Hrows. f_equiv. erewrite list_filter_iff; [done|]. intros x. cbn [pk]. rewrite <-Hid1.
    split; intros Hne Heq; apply Hne; [by rewrite Heq|by injection Heq].
Qed.

(** Without the deprecated metrics, ListMetrics returns none of them. *)
Theorem list_metrics_current paging w p w' :
  ListMetrics (Some (mkListMetricsRequest false paging)) w = (Returned (OK p), w') ->
  w' = w /\ forall m, m ∈ Page_Items p -> ~ metric_deprecated m.
Proof.
  unfold ListMetrics. run_valid as q Hv; [done|]. cbn [ListMetrics_IncludeDeprecated ListMetrics_Paging negb].
  unfold gtry, gbind. destruct (PaginateStorage_run T_Metric paging DefaultPaginationOpts [AStr "deprecated_since IS NULL"] w)
    as [(e & He & _)|(page & npt & Hp & Hin)]; [by rewrite He|]. rewrite Hp. intros [= <- <-]. split; [done|].
  intros m Hm%Hin. destruct (enumerate_sound _ _ _ _ _ _ Hm) as (m0 & _ & (_ & Hcol & _) & Hsel).
  rewrite (matches_query _ _ "deprecated_since IS NULL" [] (CIsNull "deprecated_since")) in Hsel by done.
  destruct (selected _ _ _) eqn:Es; [|done]. apply selected_is_null in Es. rewrite <-Hcol, col_deprecated in Es.
  unfold metric_deprecated. destruct (Metric_DeprecatedSince m); [done|]. intros Hn. by apply Hn.
Qed.

(** A subscriber receives the queued events in the order in which they were
    queued, each at most once; when its stream breaks, exactly one event has been
    taken from the queue without being delivered. *)
Theorem subscriber_fifo sends w out r w' :
  SubscribeMetricChangeEvents sends [] w = (Returned (out, r), w') ->
  w_db w' = w_db w /\
  exists lost, events (w_svc w) = out ++ lost ++ events (w_svc w') /\ (r = None -> lost = []) /\
               (r <> None -> length lost = 1).
Proof.
  enough (Hgen : forall acc w, SubscribeMetricChangeEvents sends acc w = (Returned (out, r), w') ->
    w_db w' = w_db w /\ exists got lost, out = acc ++ got /\ events (w_svc w) = got ++ lost ++ events (w_svc w') /\
      (r = None -> lost = []) /\ (r <> None -> length lost = 1)).
  { intros Hr. destruct (Hgen [] w Hr) as (Hd & got & lost & -> & ? & ? & ?). split; [done|]. by exists lost. }
  induction sends as [|s sends IH]; intros acc w0; cbn [SubscribeMetricChangeEvents].
  { intros [= <- <- <-]. split; [done|]. exists [], []. by rewrite app_nil_r. }
  unfold gbind at 1, svc_read. cbn [id]. destruct (events (w_svc w0)) as [|e rest] eqn:Ee.
  { intros [= <- <- <-]. split; [done|]. exists [], []. rewrite app_nil_r, Ee. done. }
  unfold gbind at 1, svc_modify. destruct s.
  - intros (Hd & got & lost & -> & Hev & Hl1 & Hl2)%IH. split; [done|]. exists (e :: got), lost.
    rewrite <-app_assoc. cbn in Hev. rewrite Hev. done.
  - intros [= <- <- <-]. split; [done|]. exists [], [e]. rewrite app_nil_r. done.
  - intros [= <- <- <-]. split; [done|]. exists [], [e]. rewrite app_nil_r. done.
Qed.
End Metrics.

(** ** Catalogs *)

Section Catalogs.
Context {DB Ctx : Type} `{StorageLaws DB, AuthorizationStrategy Ctx, TokenCodec, Env, !Files}.
Context `{Validator ListControlsRequest}.
Implicit Types w : World DB OrchestratorService OrchestratorTask.

(** What a ListControls request asks of a control: the catalog, the category when
    the catalog is given, and one of the assurance levels (a control without a
    level is always listed). *)
Definition control_selected (q : ListControlsRequest) (c : Control) : Prop :=
  (ListControls_CatalogId q <> "" -> Control_CategoryCatalogId c = ListControls_CatalogId q) /\
  (ListControls_CatalogId q <> "" -> ListControls_CategoryName q <> "" ->
     Control_CategoryName c = ListControls_CategoryName q) /\
  (forall l a, ListControls_AssuranceLevels q = Some l -> l <> [] -> Control_AssuranceLevel c = Some a -> a ∈ l).

Lemma control_query_exact now pkv (c : Control) q :
  exists b, plain_hold now pkv (col T_Control c)
      (AStr (strings_Join (control_conds q).1 " AND ") :: (control_conds q).2) = Some b /\
    (b = true <-> control_selected q c).
Proof.
  destruct q as [cat name lv pg]. unfold control_conds, control_selected.
  cbn [ListControls_CatalogId ListControls_CategoryName ListControls_AssuranceLevels].
  assert (Hlv : forall l : list string, opt_str (Control_AssuranceLevel c) = VNull \/
     (exists s, opt_str (Control_AssuranceLevel c) = VStr s /\ s ∈ l) <->
     forall a, Control_AssuranceLevel c = Some a -> a ∈ l).
  { intros l. destruct (Control_AssuranceLevel c) as [a|]; simpl; naive_solver. }
  destruct (decide (cat = "")) as [->|Hcat], (decide (name = "")) as [->|Hname], lv as [[|l0 l]|];
    repeat first [rewrite bool_decide_eq_false_2 by (intros Hn; by apply Hn) | rewrite bool_decide_eq_true_2 by done];
    cbn [andb app fst snd]; unfold plain_hold;
    first [ rewrite bool_decide_eq_true_2 by done; eexists; split; [reflexivity|]; naive_solver
          | rewrite bool_decide_eq_false_2 by (intros [? ?]; done) ];
    sql_eval; eexists; (split; [reflexivity|]);
    autorewrite with clouditor_rw;
    rewrite ?andb_true_iff, ?orb_true_iff, ?selected_eq_str, ?selected_in_strs, ?selected_is_null;
    cbn [col bool_decide decide]; naive_solver.
Qed.

Lemma control_selected_row q (c0 c : Control) :
  same_row T_Control c0 c -> control_selected q c0 -> control_selected q c.
Proof.
  intros (_ & Hcol & _) (H1' & H2' & H3').
  pose proof (Hcol "category_catalog_id") as E1. pose proof (Hcol "category_name") as E2.
  pose proof (Hcol "assurance_level") as E3. simpl in E1, E2, E3.
  assert (E4 : Control_AssuranceLevel c = Control_AssuranceLevel c0).
  { destruct (Control_AssuranceLevel c), (Control_AssuranceLevel c0); simpl in E3; congruence. }
  injection E1 as E1. injection E2 as E2. unfold control_selected. rewrite E1, E2, E4. done.
Qed.

(** The enumeration the pages of ListControls are windows of. *)
Definition control_pages (q : ListControlsRequest) (db : DB) : list Control :=
  enumerate T_Control (GetOrderBy (ListControls_Paging q)) (GetAsc (ListControls_Paging q))
    (AStr (strings_Join (control_conds q).1 " AND ") :: (control_conds q).2) db.

(** ListControls always answers and changes nothing: it returns the requested
    page of an enumeration of the controls the request asks for: each enumerated
    control is selected and stored, and each stored control that is selected is
    enumerated.  It fails only for an invalid request, a broken page token or a
    failing database. *)
Theorem list_controls_correct q w :
  exists r, ListControls (Some q) w = (Returned r, w) /\
  match r with
  | Err _ => violations q <> None \/ exists conds, page_refused T_Control (ListControls_Paging q) conds (w_db w)
  | OK p =>
      (forall c, c ∈ Page_Items p -> c ∈ control_pages q (w_db w)) /\
      page_of (ListControls_Paging q) DefaultPaginationOpts (control_pages q (w_db w)) (Page_Items p) /\
      (forall c, c ∈ control_pages q (w_db w) ->
         control_selected q c /\ exists c0, c0 ∈ rows T_Control (w_db w) /\ same_row T_Control c0 c) /\
      (forall c0, c0 ∈ rows T_Control (w_db w) -> control_selected q c0 ->
         exists c, c ∈ control_pages q (w_db w) /\ same_row T_Control c0 c)
  end.
Proof.
  unfold ListControls. run_valid as q' Hv; [eexists; split; [done|]; left; by apply Hrej|]. pose proof (eq_refl (control_pages q (w_db w))) as Hpages.
  unfold control_pages at 1 in Hpages.
  pose proof (fun c : Control => control_query_exact (db_now (w_db w)) (pk T_Control c) c q) as Hex.
  destruct (control_conds q) as [query args]. cbn [fst snd] in Hpages, Hex.
  unfold gtry, gbind. destruct (PaginateStorage_run T_Control (ListControls_Paging q) DefaultPaginationOpts
    (AStr (strings_Join query " AND ") :: args) w) as [(e & He & Hno)|(page & npt & Hp & Hin)].
  { rewrite He. eexists. split; [done|]. right. eauto. }
  rewrite Hp. eexists. split; [done|]. rewrite <-Hpages. split_and!; [exact Hin|exact (PaginateStorage_window T_Control _ _ _ _ _ _ _ Hp)| |].
  - intros c Hc. destruct (enumerate_sound T_Control _ _ _ _ _ Hc) as (c0 & Hr0 & Hsame & Hm). split; [|by exists c0].
    apply (control_selected_row q c0 c Hsame). destruct (Hex c0) as (b & Hb & Hiff).
    unfold matches, conds_hold in Hm. cbn [strip_preload] in Hm. rewrite Hb in Hm. destruct b; [|done]. by apply Hiff.
  - intros c0 Hr0 Hsel. destruct (Hex c0) as (b & Hb & Hiff). apply Hiff in Hsel as ->.
    destruct (enumerate_complete T_Control (GetOrderBy (ListControls_Paging q)) (GetAsc (ListControls_Paging q))
      (AStr (strings_Join query " AND ") :: args) (w_db w) c0 Hr0 Hb) as (c & Hsame & Hc). by exists c.
Qed.

(** A catalog file that cannot be read is skipped, unless it is the last one: its
    error is then the result, and no catalog at all is stored. *)
Theorem last_catalog_file_decides folder files file e w :
  GetJSONFilenames folder (read_folder folder) = OK (files ++ [file]) ->
  (os_ReadFile file = Err e ->
     loadCatalogs None folder w = (Returned (Err (EWrap "could not load catalogs" e)), w)) /\
  (forall b l, os_ReadFile file = OK b -> json_catalogs b = OK l ->
     snd (loadEmbeddedCatalogs folder) = None /\
     forall c, c ∈ l -> adopt_catalog c ∈ fst (loadEmbeddedCatalogs folder)).
Proof.
  intros Hf. unfold loadCatalogs, loadEmbeddedCatalogs. cbn [default]. rewrite Hf. unfold last_error. rewrite last_snoc.
  split.
  - intros ->. done.
  - intros b l Hb Hl. rewrite Hb, Hl. split; [done|]. intros c Hc. cbn [fst]. apply list_elem_of_fmap.
    exists c. split; [done|]. unfold read_catalogs. rewrite foldl_app. cbn [foldl]. rewrite Hb, Hl. set_solver.
Qed.
End Catalogs.
