(* ===== verification/OrchestratorWitness.v ===== *)
(** The orchestrator on a concrete deployment: the theorems of
    OrchestratorProofs.v and OrchestratorCatalogsProofs.v applied to it, and
    behaviours that depart from the intended ones. *)

From S2P Require Import Prelude GoRuntime GoStrings Util Api Sql Storage Gorm MemDB Authz Pagination Evaluation EvaluationProofs EvaluationWitness Orchestrator OrchestratorProofs OrchestratorCatalogs OrchestratorCatalogsProofs.

Definition demo_configuration (m cs : string) : MetricConfiguration :=
  mkMetricConfiguration "==" (Some (BoolValue true)) true None m cs.

Definition demo_orch : OrchestratorService :=
  mkOrchestrator [1] [2] [3] [] {["m1" := demo_configuration "m1" ""]} [].

Definition orch_world (db : memdb) : World memdb OrchestratorService OrchestratorTask := mkWorld db demo_orch [] 0.

Definition old_and_new : memdb :=
  mem_set T_AssessmentResult
    [mkAssessmentResult "old" (Some 1%Z) "m1" None true "" "res" [] "" "svc" None;
     mkAssessmentResult "new" (Some 2%Z) "m1" None false "" "res" [] "" "svc" None;
     mkAssessmentResult "foreign" (Some 3%Z) "m1" None false "" "res2" [] "" "other" None] (mem_empty 0).

Definition new_result : AssessmentResult := mkAssessmentResult "new" (Some 2%Z) "m1" None false "" "res" [] "" "svc" None.

Definition latest_request : ListAssessmentResultsRequest := mkListAssessmentResultsRequest None (Some true) no_paging.

(** A caller with access to "svc" only. *)
Existing Instance jwt_authz | 20.
Definition jwt_laws : @AuthorizationLaws _ jwt_authz := @JWT.jwt_strategy_laws _ token_ctx _.

Lemma list_assessment_results_correct_witness :
  @may_access _ jwt_authz user_ctx (AssessmentResult_CloudServiceId new_result).
Proof.
  destruct (@list_assessment_results_correct memdb (option MapClaims) _ _ _ jwt_authz jwt_laws
    _ _ user_ctx latest_request (orch_world old_and_new)) as (r & Hr & Hm).
  pose proof (run_is _ _ _ _ (OK (mkPage [new_result] "")) Hr) as Hrun.
  rewrite Hrun in Hm by (vm_compute; reflexivity).
  refine (proj2 (proj2 (proj1 Hm new_result _))). set_solver.
Defined.


Lemma store_stream_correct_witness :
  exists sts w',
    @StoreAssessmentResults memdb (option MapClaims) _ jwt_authz _ user_ctx
      [RecvMsg (mkStoreAssessmentResultRequest (Some new_result)); RecvEOF] (fun _ => SentOK) [] (orch_world (mem_empty 0))
    = (Returned (sts, None), w') /\ length sts = 1.
Proof.
  destruct (@store_stream_correct memdb (option MapClaims) _ _ _ jwt_authz _ user_ctx [new_result] (orch_world (mem_empty 0)))
    as (sts & w' & Hr & Hl & _). exists sts, w'. split; [exact Hr|exact Hl].
Defined.

Lemma get_result_confined_witness :
  AssessmentResult_Id new_result = "new".
Proof.
  refine (proj1 (proj2 (proj2 (@get_result_confined memdb (option MapClaims) _ _ _ jwt_authz _ jwt_laws user_ctx
    (mkGetAssessmentResultRequest "new") (orch_world old_and_new) new_result (orch_world old_and_new) _)))).
  vm_compute. reflexivity.
Defined.

Definition demo_cloud_service (id : string) : CloudService := mkCloudService id id "" [] [] None None None.

Definition with_services : memdb := mem_set T_CloudService [demo_cloud_service "svc"; demo_cloud_service "other"] old_and_new.

Lemma statistics_exact_witness : of_service T_AssessmentResult "svc" with_services = 2%Z.
Proof.
  symmetry.
  refine (proj1 (proj2 (proj2 (proj2 (proj2 (@statistics_exact memdb (option MapClaims) _ _ _ jwt_authz jwt_laws _ user_ctx
    (mkGetStatisticsRequest "svc") (orch_world with_services) (mkStatistics 0 0 0 2) (orch_world with_services) _)))))).
  vm_compute. reflexivity.
Defined.

Lemma default_service_once_witness :
  forall r2 w2, CreateDefaultTargetCloudService (snd (CreateDefaultTargetCloudService (orch_world (mem_empty 0)))) = (Returned (OK r2), w2) ->
    r2 = None.
Proof.
  intros r2 w2 H2. destruct (CreateDefaultTargetCloudService (orch_world (mem_empty 0))) as [o w'] eqn:E.
  destruct o as [[r|e]| |]; [|vm_compute in E; discriminate E..].
  exact (proj1 (proj2 (proj2 (default_service_once (orch_world (mem_empty 0)) r w' E)) r2 w2 H2)).
Defined.

Lemma toe_create_get_witness :
  @may_access _ jwt_authz user_ctx "svc".
Proof.
  refine (proj1 (proj2 (@toe_create_get memdb (option MapClaims) _ _ _ jwt_authz jwt_laws _ _ user_ctx
    (mkCreateToeRequest (Some demo_toe)) (orch_world (mem_empty 0)) demo_toe
    (snd (@CreateTargetOfEvaluation memdb (option MapClaims) _ jwt_authz _ user_ctx (Some (mkCreateToeRequest (Some demo_toe)))
            (orch_world (mem_empty 0)))) _))).
  vm_compute. reflexivity.
Defined.

Definition certificate (id cs text : string) : Certificate := mkCertificate id text cs "" "" "" "" "" "" [].
Definition two_certificates : memdb := mem_set T_Certificate [certificate "c1" "svc" "mine"; certificate "c2" "other" "theirs"] (mem_empty 0).

Lemma remove_certificate_authorized_witness :
  exists c, c ∈ mem_rows two_certificates T_Certificate /\ Certificate_Id c = "c1" /\
            @may_access _ jwt_authz user_ctx (Certificate_CloudServiceId c).
Proof.
  refine (proj1 (@remove_certificate_authorized memdb (option MapClaims) _ _ _ jwt_authz jwt_laws _ user_ctx
    (mkRemoveCertificateRequest "c1") (orch_world two_certificates)
    (snd (@RemoveCertificate memdb (option MapClaims) _ jwt_authz _ user_ctx (Some (mkRemoveCertificateRequest "c1"))
       (orch_world two_certificates))) _ _)).
  - intros x y Hx Hy. cbn in Hx, Hy. set_solver.
  - vm_compute. reflexivity.
Defined.

(** ** Metrics and configurations *)

Definition with_metrics : memdb := mem_set T_Metric [demo_metric "m1"; demo_metric "m2"] (mem_empty 0).

Lemma configuration_falls_back_witness :
  configuration_answer user_ctx (orch_world with_metrics) "svc" "m1" (OK (demo_configuration "m1" "svc")).
Proof.
  destruct (@configuration_falls_back memdb (option MapClaims) _ _ _ jwt_authz jwt_laws _ user_ctx "svc" "m1"
    (orch_world with_metrics)) as (r & Hr & Ha & _).
  rewrite (run_is _ _ _ _ (OK (demo_configuration "m1" "svc")) Hr) in Ha by (vm_compute; reflexivity). exact Ha.
Defined.

Lemma list_configurations_correct_witness :
  exists metrics, st_List T_Metric "" true 0 (-1) [] with_metrics = OK metrics.
Proof.
  destruct (@list_configurations_correct memdb (option MapClaims) _ _ _ jwt_authz jwt_laws _ _ user_ctx "svc"
    (orch_world with_metrics) {["m1" := demo_configuration "m1" "svc"]} (orch_world with_metrics))
    as (_ & metrics & Hl & _); [vm_compute; reflexivity|].
  exists metrics. exact Hl.
Defined.

Definition update_request (cs : string) : UpdateMetricConfigurationRequest :=
  mkUpdateConfigurationRequest "svc" "m1" (Some (demo_configuration "m1" cs)).

Lemma update_configuration_correct_witness :
  match @UpdateMetricConfiguration memdb (option MapClaims) _ jwt_authz _ _ user_ctx (Some (update_request "svc")) (orch_world with_metrics) with
  | (Returned (OK c), w') => exists c0, Some (demo_configuration "m1" "svc") = Some c0 /\ may_access user_ctx "svc"
  | _ => False
  end.
Proof.
  destruct (@UpdateMetricConfiguration memdb (option MapClaims) _ jwt_authz _ _ user_ctx (Some (update_request "svc"))
    (orch_world with_metrics)) as [o w'] eqn:E.
  destruct o as [[c|e]| |]; [|vm_compute in E; discriminate E..].
  destruct (@update_configuration_correct memdb (option MapClaims) _ _ _ jwt_authz jwt_laws _ _ user_ctx
    (update_request "svc") (orch_world with_metrics) (OK c) w' E) as (c0 & Hc & Ha & _).
  exists c0. split; [exact Hc|exact Ha].
Defined.

Lemma remove_metric_deprecates_witness :
  exists m, Metric_Id m = "m1" /\ metric_deprecated m.
Proof.
  destruct (@remove_metric_deprecates memdb _ _ _ _ _ (mkRemoveMetricRequest "m1") (orch_world with_metrics)
    (snd (@RemoveMetric memdb _ _ _ (Some (mkRemoveMetricRequest "m1")) (orch_world with_metrics))))
    as (m & Hid & Hd & _); [vm_compute; reflexivity|].
  exists m. split; [exact Hid|exact Hd].
Defined.

Definition queued (l : list MetricChangeEvent) : World memdb OrchestratorService OrchestratorTask :=
  mkWorld (mem_empty 0) (set_events l demo_orch) [] 0.
Definition event (m : string) : MetricChangeEvent := mkMetricChangeEvent TYPE_METADATA_CHANGED m "".

Lemma subscriber_fifo_witness :
  exists lost, [event "a"; event "b"] = [event "a"] ++ lost ++ [] /\ length lost = 1.
Proof.
  destruct (@subscriber_fifo memdb [SentOK; SentEOF] (queued [event "a"; event "b"]) [event "a"] (Some (OK tt)) (queued []))
    as (_ & lost & Hl & _ & H1); [vm_compute; reflexivity|].
  exists lost. split; [exact Hl|apply H1; discriminate].
Defined.

Definition with_controls : memdb := mem_set T_Control demo_controls (mem_empty 0).
Definition controls_request : ListControlsRequest := mkListControlsRequest "C5" "" None no_paging.

Lemma list_controls_correct_witness : control_selected controls_request demo_control.
Proof.
  destruct (@list_controls_correct memdb _ _ _ _ _ controls_request (orch_world with_controls)) as (r & Hr & Hm).
  rewrite (run_is _ _ _ _ (OK (mkPage demo_controls "")) Hr) in Hm by (vm_compute; reflexivity).
  destruct Hm as (Hin & _ & Hsel & _).
  refine (proj1 (Hsel demo_control (Hin demo_control _))). apply list_elem_of_here.
Defined.

(** ** Departures from the intended behaviour *)

(** A caller with access to its own cloud service only replaces the certificate of
    another one: the access check looks at the new certificate, the row that is
    overwritten is found by its id. *)
Theorem certificate_takeover :
  let run := @UpdateCertificate memdb (option MapClaims) _ jwt_authz _ user_ctx
    (Some (mkUpdateCertificateRequest (Some (certificate "c2" "svc" "taken over")))) (orch_world two_certificates) in
  CheckAccess user_ctx AccessUpdate "other" = false /\
  fst run = Returned (OK (certificate "c2" "svc" "taken over")) /\
  mem_rows (w_db (snd run)) T_Certificate = [certificate "c2" "svc" "taken over"; certificate "c1" "svc" "mine"].
Proof. vm_compute. split_and!; reflexivity. Qed.

(** A caller with access to its own cloud service only sets the configuration of a
    metric for another one: the access check looks at the request's cloud service,
    the configuration is stored under the cloud service it names itself, and the
    announced event names the request's. *)
Theorem configuration_of_other_service :
  let run := @UpdateMetricConfiguration memdb (option MapClaims) _ jwt_authz _ _ user_ctx (Some (update_request "other"))
    (orch_world with_metrics) in
  CheckAccess user_ctx AccessUpdate "other" = false /\
  (MetricConfiguration_CloudServiceId <$> mem_rows (w_db (snd run)) T_MetricConfiguration) = ["other"] /\
  w_tasks (snd run) = [SendEvent (mkMetricChangeEvent TYPE_CONFIG_CHANGED "m1" "svc")].
Proof. vm_compute. split_and!; reflexivity. Qed.

(** A metric without a default configuration is missing from the list of
    configurations, although every known metric should be in it. *)
Theorem configuration_missing :
  fst (@ListMetricConfigurations memdb (option MapClaims) _ jwt_authz _ _ user_ctx (Some (mkListConfigurationRequest "svc"))
    (orch_world with_metrics)) = Returned (OK {["m1" := demo_configuration "m1" "svc"]}).
Proof. vm_compute. reflexivity. Qed.
