(* ===== verification/EvidenceStore.v ===== *)
(** service/evidence/evidence_store.go: the evidence store.

    Evidences are stored once by id; listing and reading are confined to the
    cloud services of the caller. *)

From S2P Require Import Prelude GoRuntime GoStrings Util Api Sql Storage Gorm MemDB Authz Pagination.

Record GetEvidenceRequest := mkGetEvidenceRequest { GetEvidence_EvidenceId : string }.

(** ** State *)

Record EvidenceHookCall := mkEvidenceHookCall {
  ev_hook : nat;
  ev_evidence : option Evidence;
  ev_error : option error;
}.

Record EvidenceService := mkEvidenceService {
  evidenceHooks : list nat;
  evidence_calls : list EvidenceHookCall;
}.

(** [NewService] without options. *)
Definition NewService : EvidenceService := mkEvidenceService [] [].

(** [go svc.informHooks(ctx, evidence, err)] *)
Inductive EvidenceTask := InformEvidenceHooks (e : option Evidence) (err : option error).

Definition RegisterEvidenceHook (h : nat) (s : EvidenceService) : EvidenceService :=
  mkEvidenceService (evidenceHooks s ++ [h]) (evidence_calls s).

Definition informHooks (e : option Evidence) (err : option error) (s : EvidenceService) : EvidenceService :=
  foldl (fun s h => mkEvidenceService (evidenceHooks s) (evidence_calls s ++ [mkEvidenceHookCall h e err]))
    s (evidenceHooks s).

Definition run_task (t : EvidenceTask) (s : EvidenceService) : EvidenceService :=
  match t with InformEvidenceHooks e err => informHooks e err s end.

(** ** Handlers *)

Section Handlers.
Context {DB Ctx : Type} `{Storage DB, AuthorizationStrategy Ctx, TokenCodec}.
Context `{Validator EvidenceRequest, Validator ListEvidencesRequest, Validator GetEvidenceRequest}.
Abbreviation W := (World DB EvidenceService EvidenceTask).

Definition create_error (e : error) : error :=
  if errors_Is e ErrUniqueConstraintFailed then EStatus codes_AlreadyExists "entry already exists"
  else EStatus codes_Internal ("database error: " +:+ Error e).

Definition StoreEvidence (ctx : option Ctx) (req : option EvidenceRequest) : Go W (res unit) :=
  valid req from req ;;
  require (CheckAccess ctx AccessUpdate (EvidenceRequest_GetCloudServiceId req)) else ErrPermissionDenied ;;
  ev <- gderef (EvidenceRequest_Evidence req) ;;
  _ <-? storage_Create T_Evidence ev ! create_error ;;
  go_spawn (InformEvidenceHooks (Some ev) None) ;;;
  gok tt.

(** The stream handler: [ins] are the answers of [Recv] and [send] that of the
    [n]-th [Send]; the result is the responses that were sent and the error. *)
Fixpoint StoreEvidences (ctx : option Ctx) (ins : list (recv EvidenceRequest)) (send : nat -> sent)
    (out : list StoreStatus) : Go W (list StoreStatus * option error) :=
  match ins with
  | [] | RecvEOF :: _ => gret (out, None)
  | RecvError e :: _ =>
      gret (out, Some (EStatus codes_Unknown (Error (EWrap "cannot receive stream request" e))))
  | RecvMsg req :: ins =>
      r <- StoreEvidence ctx (Some (mkEvidenceRequest (EvidenceRequest_Evidence req))) ;;
      let res := match r with Err e => mkStoreStatus false (Error e) | OK _ => mkStoreStatus true "" end in
      match send (length out) with
      | SentOK => StoreEvidences ctx ins send (out ++ [res])
      | SentEOF => gret (out, None)
      | SentError e =>
          gret (out, Some (EStatus codes_Unknown (Error (EWrap "cannot send response to the client" e))))
      end
  end.

(** The conditions the filter adds: a missing and an empty value are the same. *)
Definition add_nonempty (v : option string) (q : string) (l : list string * list any) : list string * list any :=
  if bool_decide (Deref v <> "") then (l.1 ++ [q], l.2 ++ [AStr (Deref v)]) else l.

Definition evidence_filter (f : Evidence_Filter) : list string * list any :=
  add_nonempty (EvidenceFilter_ToolId f) "tool_id = ?"
    (add_nonempty (EvidenceFilter_CloudServiceId f) "cloud_service_id = ?" ([], [])).

Definition restrict_evidences (all : bool) (allowed : list string) (l : list string * list any) : list string * list any :=
  if all then l else (l.1 ++ ["cloud_service_id IN ?"], l.2 ++ [AStrs allowed]).

(** [req.GetFilter().GetCloudServiceId()] *)
Definition filter_service (f : option Evidence_Filter) : string :=
  match f with Some f => Deref (EvidenceFilter_CloudServiceId f) | None => "" end.

Definition ListEvidences (ctx : option Ctx) (req : option ListEvidencesRequest) : Go W (res (Page Evidence)) :=
  valid req from req ;;
  let '(all, allowed) := AllowedCloudServices ctx in
  let cs := filter_service (ListEvidences_Filter req) in
  require (negb (negb all && negb (bool_decide (cs = "")) && negb (slices_Contains allowed cs))) else ErrPermissionDenied ;;
  let l := match ListEvidences_Filter req with Some f => evidence_filter f | None => ([], []) end in
  let '(query, args) := restrict_evidences all allowed l in
  p <-? PaginateStorage T_Evidence (ListEvidences_Paging req) DefaultPaginationOpts (BuildConds query args)
    ! (fun e => EStatus codes_Internal ("could not paginate results: " +:+ Error e)) ;;
  gok (mkPage (fst p) (snd p)).

Definition GetEvidence (ctx : option Ctx) (req : option GetEvidenceRequest) : Go W (res Evidence) :=
  valid req from req ;;
  let '(all, allowed) := AllowedCloudServices ctx in
  let conds := if negb all
               then [AStr "id = ? AND cloud_service_id IN ?"; AStr (GetEvidence_EvidenceId req); AStrs allowed]
               else [AStr "id = ?"; AStr (GetEvidence_EvidenceId req)] in
  res <-? storage_Get T_Evidence conds
    ! (fun e => if errors_Is e ErrRecordNotFound then EStatus codes_NotFound "evidence not found"
                else EStatus codes_Internal ("database error: " +:+ Error e)) ;;
  gok res.
End Handlers.

(** ** Correctness *)

(** What a filter asks of an evidence. *)
Definition evidence_selected (f : option Evidence_Filter) (e : Evidence) : Prop :=
  match f with
  | None => True
  | Some f =>
      (Deref (EvidenceFilter_CloudServiceId f) <> "" -> Evidence_CloudServiceId e = Deref (EvidenceFilter_CloudServiceId f)) /\
      (Deref (EvidenceFilter_ToolId f) <> "" -> Evidence_ToolId e = Deref (EvidenceFilter_ToolId f))
  end.

Definition evidence_conds all allowed (f : option Evidence_Filter) : list string * list any :=
  restrict_evidences all allowed (match f with Some f => evidence_filter f | None => ([], []) end).

Lemma evidence_query_exact now pkv (e : Evidence) all allowed f :
  exists b, plain_hold now pkv (col T_Evidence e)
      (BuildConds (evidence_conds all allowed f).1 (evidence_conds all allowed f).2) = Some b /\
    (b = true <-> evidence_selected f e /\ (all = true \/ Evidence_CloudServiceId e ∈ allowed)).
Proof.
  unfold evidence_conds, BuildConds, evidence_selected, evidence_filter, add_nonempty.
  destruct f as [[c1 c2]|]; [simpl; generalize (Deref c1) as d1, (Deref c2) as d2; intros d1 d2; clear c1 c2;
    destruct (bool_decide (d1 <> "")) eqn:E1, (bool_decide (d2 <> "")) eqn:E2|];
    rewrite ?bool_decide_eq_true, ?bool_decide_eq_false in *; destruct all; unfold plain_hold;
    first [ rewrite bool_decide_eq_true_2 by done; eexists; split; [reflexivity|]; naive_solver
          | rewrite bool_decide_eq_false_2 by (intros [? ?]; done) ];
    sql_eval; eexists; (split; [reflexivity|]);
    autorewrite with clouditor_rw;
    rewrite ?andb_true_iff, ?selected_eq_str, ?selected_in_strs; simpl; naive_solver.
Qed.

Section Correct.
Context {DB Ctx : Type} `{StorageLaws DB, AuthorizationStrategy Ctx, !AuthorizationLaws Ctx, TokenCodec}.
Context `{Validator EvidenceRequest, Validator ListEvidencesRequest, Validator GetEvidenceRequest}.
Implicit Types w : World DB EvidenceService EvidenceTask.

Lemma evidence_matches (db : DB) all allowed f (e : Evidence) :
  (matches T_Evidence db (BuildConds (evidence_conds all allowed f).1 (evidence_conds all allowed f).2) e <> Some false <->
   evidence_selected f e /\ (all = true \/ Evidence_CloudServiceId e ∈ allowed)) /\
  (matches T_Evidence db (BuildConds (evidence_conds all allowed f).1 (evidence_conds all allowed f).2) e = Some true <->
   evidence_selected f e /\ (all = true \/ Evidence_CloudServiceId e ∈ allowed)).
Proof.
  destruct (evidence_query_exact (db_now db) (pk T_Evidence e) e all allowed f) as (b & Hb & Hiff).
  change (matches T_Evidence db ?c e) with (plain_hold (db_now db) (pk T_Evidence e) (col T_Evidence e) c).
  rewrite Hb. destruct b; naive_solver.
Qed.

(** C21. ListEvidences always answers and changes nothing: it returns the requested
    page of an enumeration of exactly the stored evidences that the filter selects
    and whose cloud service the caller may access.  It fails only for an invalid
    request, a cloud service the caller may not access, a broken page token or a
    failing database. *)
Theorem list_evidences_correct ctx q w :
  let conds := evidence_conds (AllowedCloudServices ctx).1 (AllowedCloudServices ctx).2 (ListEvidences_Filter q) in
  let pages := enumerate T_Evidence (GetOrderBy (ListEvidences_Paging q)) (GetAsc (ListEvidences_Paging q))
                 (BuildConds conds.1 conds.2) (w_db w) in
  exists r, ListEvidences ctx (Some q) w = (Returned r, w) /\
  match r with
  | Err _ => violations q <> None \/ ~ may_access ctx (filter_service (ListEvidences_Filter q)) \/
      page_refused T_Evidence (ListEvidences_Paging q) (BuildConds conds.1 conds.2) (w_db w)
  | OK p =>
      (forall e, e ∈ Page_Items p -> e ∈ pages) /\
      page_of (ListEvidences_Paging q) DefaultPaginationOpts pages (Page_Items p) /\
      (forall e, e ∈ pages <-> e ∈ rows T_Evidence (w_db w) /\ evidence_selected (ListEvidences_Filter q) e /\
         may_access ctx (Evidence_CloudServiceId e)) /\
      (filter_service (ListEvidences_Filter q) <> "" -> may_access ctx (filter_service (ListEvidences_Filter q)))
  end.
Proof.
  unfold ListEvidences. run_valid as q' Hv; [eexists; split; [done|]; left; by apply Hrej|]. unfold may_access.
  destruct (AllowedCloudServices ctx) as [all allowed]. cbn [fst snd]. unfold gguard.
  destruct (negb (negb all && _ && _)) eqn:Eg.
  2: { eexists. split; [done|]. right; left. intros [->|Hin]; [done|]. destruct all; [done|]. cbn in Eg.
       case_bool_decide; [done|]. simpl in Eg. rewrite negb_involutive in Eg. by apply slices_Contains_false in Eg. }
  change (restrict_evidences all allowed _) with (evidence_conds all allowed (ListEvidences_Filter q)).
  destruct (evidence_conds all allowed (ListEvidences_Filter q)) as [query args] eqn:Ec. unfold gtry, gbind.
  destruct (PaginateStorage_run T_Evidence (ListEvidences_Paging q) DefaultPaginationOpts (BuildConds query args) w)
    as [(e & He & Hno)|(page & npt & Hp & Hin)]; [rewrite He; eexists; split; [done|]; right; right; exact Hno|].
  rewrite Hp. eexists. split; [done|].
  pose proof (evidence_matches (w_db w) all allowed (ListEvidences_Filter q)) as Hm. rewrite Ec in Hm. cbn [fst snd] in Hm.
  split_and!; [done|exact (PaginateStorage_window T_Evidence _ _ _ _ _ _ _ Hp)| |].
  - intros e. split.
    + intros He. destruct (enumerate_sound _ _ _ _ _ _ He) as (e0 & He0 & (_ & _ & Heq) & Hmm).
      specialize (Heq eq_refl). subst e0. split; [done|]. by apply (proj1 (Hm e)).
    + intros [Hrow Hsel]. apply (proj2 (Hm e)) in Hsel. destruct (enumerate_complete _ (GetOrderBy (ListEvidences_Paging q))
        (GetAsc (ListEvidences_Paging q)) _ _ _ Hrow Hsel) as (e' & (_ & _ & Heq) & He'). by rewrite (Heq eq_refl) in He'.
  - intros Hne. destruct all; [by left|right]. rewrite bool_decide_eq_false_2 in Eg by done. simpl in Eg.
    by rewrite negb_involutive, slices_Contains_true in Eg.
Qed.

Lemma get_evidence_matches (db : DB) id all allowed (e : Evidence) :
  matches T_Evidence db
    (if negb all then [AStr "id = ? AND cloud_service_id IN ?"; AStr id; AStrs allowed] else [AStr "id = ?"; AStr id]) e
  = Some (bool_decide (Evidence_Id e = id /\ (all = true \/ Evidence_CloudServiceId e ∈ allowed))).
Proof.
  destruct all; cbn [negb].
  - rewrite (matches_eq _ _ "id = ?" "id") by done. f_equal. apply bool_decide_ext. simpl. naive_solver congruence.
  - erewrite matches_query by (done || reflexivity). f_equal. apply Bool.eq_iff_eq_true.
    rewrite selected_and, andb_true_iff, selected_eq_str, selected_in_strs, bool_decide_eq_true. simpl. naive_solver congruence.
Qed.

(** C20. Storing and reading back: after StoreEvidence accepted an evidence, the
    evidence is there, the id was free before, the hooks are informed exactly
    once, and GetEvidence with its id never reports "not found" and returns
    nothing but this evidence to a caller with access. *)
Theorem store_evidence_roundtrip ctx ev w w1 :
  StoreEvidence ctx (Some (mkEvidenceRequest (Some ev))) w = (Returned (OK tt), w1) ->
  may_access ctx (Evidence_CloudServiceId ev) /\
  rows T_Evidence (w_db w1) ≡ₚ ev :: rows T_Evidence (w_db w) /\
  (forall e, e ∈ rows T_Evidence (w_db w) -> Evidence_Id e <> Evidence_Id ev) /\
  w_tasks w1 = w_tasks w ++ [InformEvidenceHooks (Some ev) None] /\
  forall r w2, GetEvidence ctx (Some (mkGetEvidenceRequest (Evidence_Id ev))) w1 = (Returned r, w2) ->
    w2 = w1 /\ r <> Err (EStatus codes_NotFound "evidence not found") /\ (forall e, r = OK e -> e = ev).
Proof.
  unfold StoreEvidence. run_valid as q Hv; [done|]. cbn [EvidenceRequest_Evidence].
  change (EvidenceRequest_GetCloudServiceId _) with (Evidence_CloudServiceId ev).
  unfold gguard. destruct (CheckAccess _ _ _) eqn:Ea; [|done]. cbn [gderef]. rewrite gbind_ret.
  unfold gtry, gbind at 1, storage_Create, db_exec. destruct (st_Create T_Evidence ev (w_db w)) as [[e|] db'] eqn:Ec;
    [done|]. cbn. intros [= <-]. cbn [w_db w_tasks].
  destruct (create_ok _ _ _ _ Ec) as (Hfree & ev' & (_ & _ & Heq) & Hrows); [done|]. rewrite (Heq eq_refl) in Hrows.
  apply check_access_allowed in Ea. split_and!; [done|done| |done|].
  - intros e He Hid. apply (Hfree e He). cbn. by rewrite Hid.
  - intros r w2. unfold GetEvidence. unfold may_access in *.
    run_valid as q' Hv'; [intros [= <- <-]; split_and!; [done| |done]; congruence|]. cbn [GetEvidence_EvidenceId].
    destruct (AllowedCloudServices ctx) as [all allowed]. unfold gtry, gbind, storage_Get, db_query. cbn [w_db fst snd] in *.
    destruct (st_Get T_Evidence _ db') as [x|e] eqn:Eg; intros [= <- <-].
    + apply (get_ok T_Evidence) in Eg as [Hx Hm]; [|done]. rewrite get_evidence_matches in Hm. split_and!; [done..|].
      intros y [= <-]. case_bool_decide as Hid; [|done]. rewrite Hrows in Hx.
      apply elem_of_cons in Hx as [->|Hx]; [done|]. exfalso. apply (Hfree x Hx). cbn. by rewrite (proj1 Hid).
    + split_and!; [done| |done]. destruct (errors_Is e ErrRecordNotFound) eqn:Ei; [|congruence]. exfalso.
      refine (get_none T_Evidence _ _ _ Eg Ei ev _ _); [rewrite Hrows; by left|].
      rewrite get_evidence_matches, bool_decide_eq_true_2; [done|]. naive_solver.
Qed.
End Correct.
