(* ===== verification/Discovery.v ===== *)
(** service/discovery (discovery.go, graph.go) and api/discovery/discovery.go:
    the discovery service.

    A scheduled discovery run lists the resources of one discoverer, saves each
    in the database and sends it as an evidence to the assessment service.  The
    discoverers of the cloud providers, gocron and protobuf's [Any] are
    interfaces. *)

From S2P Require Import Prelude GoRuntime GoStrings Util Api Sql Storage Gorm MemDB Authz Pagination Streams Ontology.

(** ** api/discovery *)

Definition DefaultCloudServiceID : string := "00000000-0000-0000-0000-000000000000".
Definition EvidenceCollectorToolId : string := "Clouditor Evidences Collection".

Record StartDiscoveryRequest := mkStartDiscoveryRequest { StartDiscovery_ResourceGroup : option string }.
Record ListGraphEdgesRequest := mkListGraphEdgesRequest { ListGraphEdges_Paging : PaginatedRequest }.
Record UpdateResourceRequest := mkUpdateResourceRequest { UpdateResource_Resource : option Resource }.

(** [type Discoverer interface]; a listing depends on when it is made. *)
Class Discoverer (D R : Type) := {
  disc_Name : D -> string;
  disc_List : D -> Calls (res (list R));
}.

Section Conversion.
Context {Message R : Type} `{IsResource R, AnyLibrary Message R}.

(** [(r *Resource) ToOntologyResource()] *)
Definition ToOntologyResource (r : Resource) : res R :=
  match UnmarshalNew (Resource_Properties r) with
  | Err e => Err e
  | OK m => match as_resource m with Some x => OK x | None => Err ErrNotOntologyResource end
  end.

Definition ToDiscoveryResource (resource : R) (csID : string) : res Resource :=
  match anypb_New resource with
  | Err e => Err (EWrap "could not convert protobuf structure" e)
  | OK a => OK (mkResource (resource_GetId resource) csID (strings_Join (ResourceTypes resource) ",") (Some a))
  end.
End Conversion.

(** ** State *)

Inductive DiscoveryEventType := DiscovererStart | DiscovererFinished.

Record DiscoveryEvent := mkDiscoveryEvent {
  DiscoveryEvent_Type : DiscoveryEventType;
  DiscoveryEvent_DiscovererName : string;
  DiscoveryEvent_DiscoveredItems : nat;
  DiscoveryEvent_Time : Z;
}.

(** The goroutines that put an event on the unbuffered [Events] channel; the
    time is read when they run. *)
Inductive DiscoveryTask := EmitEvent (typ : DiscoveryEventType) (name : string) (items : nat).

(** gocron, as this service uses it: [ds_Every] is
    [Every(interval).Tag(tag).Do(svc.StartDiscovery, d)]. *)
Class DiscoveryScheduler (Sch D : Type) := {
  ds_TagsUnique : Sch -> Sch;
  ds_Every : Z -> string -> D -> Sch -> option error * Sch;
  ds_StartAsync : Sch -> Sch;
  ds_Stop : Sch -> Sch;
}.

(** The options of the Azure discoverer. *)
Inductive AzureOption := AzureWithAuthorizer | AzureWithCloudServiceID (id : string) | AzureWithResourceGroup (rg : string).

(** Authentication to a provider and the discoverers it gives. *)
Class Providers (D : Type) := {
  azure_NewAuthorizer : Calls (option error);
  azure_NewAzureDiscovery : list AzureOption -> D;
  k8s_AuthFromKubeConfig : Calls (option error);
  k8s_discoveries : string -> list D;
  aws_Client : Type;
  aws_NewClient : Calls (res aws_Client);
  aws_discoveries : aws_Client -> string -> list D;
}.

(** The RPC of the assessment service. *)
Class AssessmentClient (Stream : Type) := dc_AssessEvidences : nat -> res Stream.

Record DiscoveryService (Sch D Stream : Type) := mkDiscovery {
  assessmentStreams : StreamsOf Stream EvidenceRequest;
  assessment_Target : string;
  ds_scheduler : Sch;
  providers : list string;
  discoverers : list D;
  discoveryInterval : Z;
  csID : string;
}.
Arguments mkDiscovery {Sch D Stream}.
Arguments assessmentStreams {Sch D Stream}.
Arguments assessment_Target {Sch D Stream}.
Arguments ds_scheduler {Sch D Stream}.
Arguments providers {Sch D Stream}.
Arguments discoverers {Sch D Stream}.
Arguments discoveryInterval {Sch D Stream}.
Arguments csID {Sch D Stream}.

Definition DefaultAssessmentAddress : string := "localhost:9090".
Definition ProviderAWS : string := "aws".
Definition ProviderK8S : string := "k8s".
Definition ProviderAzure : string := "azure".

(** [5 * time.Minute] *)
Definition default_interval : Z := 5 * 60 * 1000000000.

Section Service.
Context {DB Sch D Stream Message R Ctx : Type}.
Context `{Storage DB, DiscoveryScheduler Sch D, Providers D, Discoverer D R, AssessmentClient Stream}.
Context `{IsResource R, AnyLibrary Message R, AuthorizationStrategy Ctx, TokenCodec, Env}.
Context `{Validator StartDiscoveryRequest, Validator ListResourcesRequest, Validator ListGraphEdgesRequest,
          Validator UpdateResourceRequest}.
Abbreviation Svc := (DiscoveryService Sch D Stream).
Abbreviation W := (World DB Svc DiscoveryTask).

Definition set_streams (f : StreamsOf Stream EvidenceRequest) (s : Svc) : Svc :=
  mkDiscovery f (assessment_Target s) (ds_scheduler s) (providers s) (discoverers s) (discoveryInterval s) (csID s).
Definition set_discoverers (l : list D) (s : Svc) : Svc :=
  mkDiscovery (assessmentStreams s) (assessment_Target s) (ds_scheduler s) (providers s) l (discoveryInterval s) (csID s).
Definition set_ds_scheduler (sch : Sch) (s : Svc) : Svc :=
  mkDiscovery (assessmentStreams s) (assessment_Target s) sch (providers s) (discoverers s) (discoveryInterval s) (csID s).

#[global] Instance assessment_streams_field : Field W (StreamsOf Stream EvidenceRequest) := {|
  field_get := fun w => assessmentStreams (w_svc w);
  field_set := fun f w => mkWorld (w_db w) (set_streams f (w_svc w)) (w_tasks w) (w_tick w);
|}.

(** *** Options and construction *)

Definition WithAssessmentAddress (target : string) (s : Svc) : Svc :=
  mkDiscovery (assessmentStreams s) target (ds_scheduler s) (providers s) (discoverers s) (discoveryInterval s) (csID s).
Definition WithCloudServiceID (id : string) (s : Svc) : Svc :=
  mkDiscovery (assessmentStreams s) (assessment_Target s) (ds_scheduler s) (providers s) (discoverers s) (discoveryInterval s) id.
Definition WithProviders (l : list string) (s : Svc) : Svc :=
  mkDiscovery (assessmentStreams s) (assessment_Target s) (ds_scheduler s) l (discoverers s) (discoveryInterval s) (csID s).
Definition WithAdditionalDiscoverers (l : list D) (s : Svc) : Svc := set_discoverers (discoverers s ++ l) s.
Definition WithDiscoveryInterval (i : Z) (s : Svc) : Svc :=
  mkDiscovery (assessmentStreams s) (assessment_Target s) (ds_scheduler s) (providers s) (discoverers s) i (csID s).

Definition NewService (sch : Sch) (opts : list (Svc -> Svc)) : Svc :=
  foldl (fun s o => o s) (mkDiscovery NewStreamsOf DefaultAssessmentAddress sch [] [] default_interval DefaultCloudServiceID) opts.

(** *** Start *)

Definition add_discoverers (l : list D) : Go W unit := svc_modify (fun s => set_discoverers (discoverers s ++ l) s).

(** The loop over the providers, with the Azure options collected so far. *)
Fixpoint add_providers (rg : string) (l : list string) (opts : list AzureOption) : Go W (res unit) :=
  match l with
  | [] => gok tt
  | provider :: l =>
      id <- svc_read csID ;;
      if bool_decide (provider = ProviderAzure) then
        err <- run_calls azure_NewAuthorizer ;;
        match err with
        | Some e => gerr (EStatus codes_FailedPrecondition ("could not authenticate to Azure: " +:+ Error e))
        | None =>
            let opts := opts ++ [AzureWithAuthorizer; AzureWithCloudServiceID id] in
            let opts := if bool_decide (rg <> "") then opts ++ [AzureWithResourceGroup rg] else opts in
            add_discoverers [azure_NewAzureDiscovery opts] ;;;
            add_providers rg l opts
        end
      else if bool_decide (provider = ProviderK8S) then
        err <- run_calls k8s_AuthFromKubeConfig ;;
        match err with
        | Some e => gerr (EStatus codes_FailedPrecondition ("could not authenticate to Kubernetes: " +:+ Error e))
        | None => add_discoverers (k8s_discoveries id) ;;; add_providers rg l opts
        end
      else if bool_decide (provider = ProviderAWS) then
        client <- run_calls aws_NewClient ;;
        match client with
        | Err e => gerr (EStatus codes_FailedPrecondition ("could not authenticate to AWS: " +:+ Error e))
        | OK client => add_discoverers (aws_discoveries client id) ;;; add_providers rg l opts
        end
      else gerr (EStatus codes_InvalidArgument ("provider " +:+ provider +:+ " not known"))
  end.

(** The loop that schedules the discoverers. *)
Fixpoint schedule_all (l : list D) : Go W (res unit) :=
  match l with
  | [] => gok tt
  | v :: l =>
      s <- svc_read id ;;
      let '(err, sch) := ds_Every (discoveryInterval s) (disc_Name v) v (ds_scheduler s) in
      svc_modify (set_ds_scheduler sch) ;;;
      match err with
      | Some e => gerr (EStatus codes_Aborted ("could not schedule job for {" +:+ disc_Name v +:+ "}: " +:+ Error e))
      | None => schedule_all l
      end
  end.

Definition Start (ctx : option Ctx) (req : option StartDiscoveryRequest) : Go W (res unit) :=
  valid req from req ;;
  id <- svc_read csID ;;
  require (CheckAccess ctx AccessUpdate id) else ErrPermissionDenied ;;
  svc_modify (fun s => set_ds_scheduler (ds_TagsUnique (ds_scheduler s)) s) ;;;
  provs <- svc_read providers ;;
  _ <-? add_providers (Deref (StartDiscovery_ResourceGroup req)) provs [] ! (fun e => e) ;;
  discs <- svc_read discoverers ;;
  _ <-? schedule_all discs ! (fun e => e) ;;
  svc_modify (fun s => set_ds_scheduler (ds_StartAsync (ds_scheduler s)) s) ;;;
  gok tt.

Definition Shutdown : Go W (list Stream) :=
  closed <- CloseAll (Msg := EvidenceRequest) ;;
  svc_modify (fun s => set_ds_scheduler (ds_Stop (ds_scheduler s)) s) ;;;
  gret closed.

(** *** A discovery run *)

Definition initAssessmentStream (_ : string) : Go W (res Stream) :=
  stream <-? remote dc_AssessEvidences ! EWrap "could not set up stream for assessing evidences" ;;
  gok stream.

(** The evidence for a resource. *)
Definition new_evidence (id cs : string) (now : Z) (resource : R) (a : AnyPb) : Evidence :=
  mkEvidence id (Some now) cs EvidenceCollectorToolId (Some (resource_GetRaw resource)) (Some a).

(** The loop over the discovered resources; a resource that cannot be converted
    or sent is skipped, one that cannot be saved is sent all the same. *)
Fixpoint discover_all (l : list R) : Go W unit :=
  match l with
  | [] => gret tt
  | resource :: l =>
      cs <- svc_read csID ;;
      match ToDiscoveryResource resource cs with
      | Err _ => discover_all l
      | OK r =>
          _ <- storage_Save T_Resource r [AStr "id = ?"; AStr (Resource_Id r)] ;;
          match anypb_New resource with
          | Err _ => discover_all l
          | OK a =>
              id <- uuid_NewString ;;
              now <- time_Now ;;
              let e := new_evidence id cs now resource a in
              target <- svc_read assessment_Target ;;
              channel <- GetStream (Msg := EvidenceRequest) target "Assessment" (Some initAssessmentStream) ;;
              match channel with
              | Err _ => discover_all l
              | OK c => Send (Stream := Stream) (sc_target c) (mkEvidenceRequest (Some e)) ;;; discover_all l
              end
          end
      end
  end.

Definition StartDiscovery (discoverer : D) : Go W unit :=
  go_spawn (EmitEvent DiscovererStart (disc_Name discoverer) 0) ;;;
  list_ <- run_calls (disc_List discoverer) ;;
  match list_ with
  | Err _ => gret tt
  | OK list_ =>
      go_spawn (EmitEvent DiscovererFinished (disc_Name discoverer) (length list_)) ;;;
      discover_all list_
  end.

(** *** Queries *)

Definition resource_filter (f : Resource_Filter) : list string * list any :=
  let l := match ResourceFilter_CloudServiceId f with
           | Some cs => (["cloud_service_id = ?"], [AStr cs]) | None => ([], []) end in
  match ResourceFilter_Type f with
  | Some t => (l.1 ++ ["(resource_type LIKE ? OR resource_type LIKE ? OR resource_type LIKE ?)"],
               l.2 ++ [AStr (t +:+ ",%"); AStr ("%," +:+ t +:+ ",%"); AStr ("%," +:+ t)])
  | None => l
  end.

Definition restrict_resources (all : bool) (allowed : list string) (l : list string * list any) : list string * list any :=
  if all then l else (l.1 ++ ["cloud_service_id IN ?"], l.2 ++ [AStrs allowed]).

Definition ListResources (ctx : option Ctx) (req : option ListResourcesRequest) : Go W (res (Page Resource)) :=
  valid req from req ;;
  let filter_ := ListResources_Filter req in
  require (match filter_ with
           | Some f => CheckAccess ctx AccessRead (Deref (ResourceFilter_CloudServiceId f)) | None => true end)
    else ErrPermissionDenied ;;
  let l := match filter_ with Some f => resource_filter f | None => ([], []) end in
  let '(all, allowed) := AllowedCloudServices ctx in
  let '(query, args) := restrict_resources all allowed l in
  p <-? PaginateStorage T_Resource (ListResources_Paging req) DefaultPaginationOpts
          (AStr (strings_Join query " AND ") :: args) ! (fun e => e) ;;
  gok (mkPage (fst p) (snd p)).

(** The edges of one stored resource. *)
Definition resource_edges (resource : Resource) : list GraphEdge :=
  match ToOntologyResource (R := R) resource with
  | Err _ => []
  | OK r => (fun rel => mkGraphEdge (Resource_Id resource +:+ "-" +:+ Relationship_Value rel) (Resource_Id resource)
                          (Relationship_Value rel) (Relationship_Property rel)) <$> Related r
  end.

Fixpoint graph_edges (l : list Resource) (edges : list GraphEdge) : list GraphEdge :=
  match l with [] => edges | r :: l => graph_edges l (edges ++ resource_edges r) end.

Definition ListGraphEdges (ctx : option Ctx) (req : option ListGraphEdgesRequest) : Go W (res (Page GraphEdge)) :=
  valid req from req ;;
  let '(all, allowed) := AllowedCloudServices ctx in
  let '(query, args) := restrict_resources all allowed ([], []) in
  p <-? PaginateStorage T_Resource (ListGraphEdges_Paging req) DefaultPaginationOpts (BuildConds query args)
    ! (fun e => EStatus codes_Internal ("database error: " +:+ Error e)) ;;
  gok (mkPage (graph_edges (fst p) []) (snd p)).

Definition UpdateResource (ctx : option Ctx) (req : option UpdateResourceRequest) : Go W (res (option Resource)) :=
  valid req from req ;;
  require (CheckAccess ctx AccessRead (UpdateResource_GetCloudServiceId (UpdateResource_Resource req)))
    else ErrPermissionDenied ;;
  r <- gderef (UpdateResource_Resource req) ;;
  _ <-? storage_Save T_Resource r [AStr "id = ?"; AStr (Resource_Id r)]
    ! (fun e => EStatus codes_Internal ("database error: " +:+ Error e)) ;;
  gok (UpdateResource_Resource req).
End Service.
