(* ===== verification/DiscoveryProofs.v ===== *)
(** The discovery service is correct: every discovered resource becomes exactly
    one evidence, the list calls are confined to the caller's cloud services, and
    which resources the filter by type finds. *)

From Stdlib Require Import Ascii.
From S2P Require Import Prelude GoRuntime GoStrings Util Api Sql Storage Gorm MemDB Authz Pagination Streams Ontology Discovery.

(** ** Discovery runs *)

Section Runs.
Context {DB Sch D Stream Message R : Type}.
Context `{StorageLaws DB, DiscoveryScheduler Sch D, Discoverer D R, AssessmentClient Stream}.
Context `{IsResource R, AnyLibrary Message R, Env}.
Abbreviation Svc := (DiscoveryService Sch D Stream).
Abbreviation W := (World DB Svc DiscoveryTask).
Implicit Types w : W.

#[global] Instance assessment_field_laws : FieldLaws W (StreamsOf Stream EvidenceRequest).
Proof. by constructor. Qed.

(** The channel to the assessment service. *)
Definition ac_waiting w : list EvidenceRequest := waiting (assessment_Target (w_svc w)) (assessmentStreams (w_svc w)).
Definition named w : Prop :=
  forall t c, channels (assessmentStreams (w_svc w)) !! t = Some c -> sc_target c = t.

(** The evidence a run makes of a resource. *)
Definition evidence_for (cs : string) (resource : R) (e : Evidence) : Prop :=
  (exists a, anypb_New resource = OK a /\ Evidence_Resource e = Some a) /\
  Evidence_CloudServiceId e = cs /\ Evidence_ToolId e = EvidenceCollectorToolId /\
  Evidence_Raw e = Some (resource_GetRaw resource).

(** It is a new one, with an identifier and a time of its own. *)
Definition made_evidence (cs : string) (resource : R) (e : Evidence) : Prop :=
  exists k t a, anypb_New resource = OK a /\ e = new_evidence (uuid_at k) cs (time_at t) resource a.

Lemma made_evidence_for cs r e : made_evidence cs r e -> evidence_for cs r e.
Proof. intros (k & t & a & Ha & ->). split_and!; [by exists a|done..]. Qed.

(** A resource with the id is stored. *)
Definition has_id (id : string) w : Prop := exists x, x ∈ rows T_Resource (w_db w) /\ Resource_Id x = id.

(** The database refuses to save the resource. *)
Definition save_refused (cs : string) (r : R) : Prop :=
  exists x db e db', ToDiscoveryResource r cs = OK x /\
    st_Save T_Resource x [AStr "id = ?"; AStr (Resource_Id x)] db = (Some e, db').

(** The listed resources have been written, each under its id, and nothing else. *)
Definition saved (cs : string) (l : list R) w w' : Prop :=
  (forall t, t <> T_Resource -> rows t (w_db w') = rows t (w_db w)) /\
  (forall x, x ∈ rows T_Resource (w_db w') ->
    x ∈ rows T_Resource (w_db w) \/ exists r, r ∈ l /\ ToDiscoveryResource r cs = OK x) /\
  (forall id, has_id id w -> has_id id w') /\
  (forall r, r ∈ l -> has_id (resource_GetId r) w' \/ save_refused cs r).

Lemma save_one (r : R) x w :
  ToDiscoveryResource r (csID (w_svc w)) = OK x ->
  exists e w1, storage_Save T_Resource x [AStr "id = ?"; AStr (Resource_Id x)] w = (Returned e, w1) /\
    saved (csID (w_svc w)) [r] w w1 /\ w_svc w1 = w_svc w /\ w_tasks w1 = w_tasks w /\ w_tick w1 = w_tick w.
Proof.
  intros Hx. unfold storage_Save, db_exec. destruct (st_Save T_Resource x _ (w_db w)) as [[e|] db'] eqn:Es.
  - pose proof (save_err _ _ _ _ _ _ Es) as ->. do 2 eexists. split; [reflexivity|]. split; [|done].
    split_and!; [done|by left|done|]. intros r' ->%list_elem_of_singleton. right. by exists x, (w_db w), e, (w_db w).
  - do 2 eexists. split; [reflexivity|]. split; [|done].
    assert (Hrows := save_flat T_Resource _ _ _ _ eq_refl ltac:(done) Es).
    split_and!; unfold has_id; cbn [w_db]; try setoid_rewrite Hrows.
    + intros t Ht. by apply (frame_save T_Resource _ _ _ _ _ eq_refl Es).
    + intros y [->|Hy]%elem_of_cons; [right; exists r; set_solver|]. left. apply list_elem_of_filter in Hy. tauto.
    + intros id (y & Hy & Hid). destruct (decide (pk T_Resource y = pk T_Resource x)) as [Hpk|Hpk].
      * exists x. split; [by left|]. injection Hpk. congruence.
      * exists y. split; [|done]. right. by apply list_elem_of_filter.
    + intros r' ->%list_elem_of_singleton. left. exists x. split; [by left|].
      unfold ToDiscoveryResource in Hx. destruct (anypb_New r); by simplify_eq.
Qed.

Context (Hup : forall n, exists str, dc_AssessEvidences n = OK str).

(** Putting one evidence into the channel to the assessment service. *)
Lemma send_evidence_run e w : named w -> length (ac_waiting w) < channel_cap ->
  exists c w1 w2, GetStream (assessment_Target (w_svc w)) "Assessment" (Some initAssessmentStream) w = (Returned (OK c), w1) /\
    Send (Stream := Stream) (sc_target c) (mkEvidenceRequest (Some e)) w1 = (Returned tt, w2) /\
    ac_waiting w2 = ac_waiting w ++ [mkEvidenceRequest (Some e)] /\ named w2 /\ w_db w2 = w_db w /\
    w_tasks w2 = w_tasks w /\ csID (w_svc w2) = csID (w_svc w) /\
    assessment_Target (w_svc w2) = assessment_Target (w_svc w) /\ tick_le w w2 /\
    (flowing (assessmentStreams (w_svc w)) -> flowing (assessmentStreams (w_svc w2))).
Proof.
  intros Hn Hroom. set (t := assessment_Target (w_svc w)). destruct (Hup (w_tick w)) as [str Hstr].
  destruct (get_stream_ready t "Assessment" initAssessmentStream str w
    (mkWorld (w_db w) (w_svc w) (w_tasks w) (w_tick w + 1))) as (c & w1 & Hg & Ht & Hc & Hq & Hd & Hw1); [|done|by apply Hn|].
  { unfold initAssessmentStream. go_unfold. by rewrite Hstr. }
  destruct (send_run t (mkEvidenceRequest (Some e)) c w1 Hc Ht) as (c' & He & Hs); [rewrite Hq; exact Hroom|].
  assert (Hflow : flowing (assessmentStreams (w_svc w)) -> flowing (set_chan c' (assessmentStreams (w_svc w1)))).
  { intros Hf. eapply flowing_put; [|exact Hc|done..]. destruct Hw1 as [->| ->]; [done|]. by apply flowing_started. }
  apply enqueue_Some in He as (Ht' & Hq' & _ & _). rewrite Ht in Ht'.
  eexists c, w1, _. rewrite Ht. split_and!; [done|exact Hs|..].
  - unfold ac_waiting. cbn -[waiting]. replace (assessment_Target (w_svc w1)) with t by (by destruct Hw1 as [->| ->]).
    rewrite waiting_set, decide_True by done. by rewrite Hq', Hq.
  - intros t0 c0. cbn. rewrite lookup_insert_Some. intros [[<- <-]|[_ Hl]]; [done|].
    destruct Hw1 as [->| ->]; [by apply Hn|]. cbn in Hl. rewrite lookup_insert_Some in Hl.
    destruct Hl as [[<- <-]|[_ Hl]]; [done|by apply Hn].
  - by destruct Hw1 as [->| ->].
  - by destruct Hw1 as [->| ->].
  - by destruct Hw1 as [->| ->].
  - by destruct Hw1 as [->| ->].
  - destruct Hw1 as [->| ->]; unfold tick_le; cbn; lia.
  - done.
Qed.

Lemma saved_trans cs l1 l2 w1 w2 w3 :
  saved cs l1 w1 w2 -> saved cs l2 w2 w3 -> saved cs (l1 ++ l2) w1 w3.
Proof.
  intros (Hf1 & Hs1 & Hm1 & Ha1) (Hf2 & Hs2 & Hm2 & Ha2). split_and!.
  - intros t Ht. by rewrite Hf2, Hf1.
  - intros x [Hx|(r & Hr & Hx)]%Hs2; [|right; set_solver]. apply Hs1 in Hx as [?|(r & ? & ?)]; [by left|right; set_solver].
  - auto.
  - intros r [Hr|Hr]%elem_of_app; [|auto]. destruct (Ha1 r Hr); auto.
Qed.

Lemma discover_all_run (l : list R) w : named w -> length (ac_waiting w) + length l <= channel_cap ->
  Forall (fun r => exists a, anypb_New r = OK a) l ->
  exists es w', discover_all l w = (Returned tt, w') /\ Forall2 (made_evidence (csID (w_svc w))) l es /\
    ac_waiting w' = ac_waiting w ++ ((fun e => mkEvidenceRequest (Some e)) <$> es) /\
    saved (csID (w_svc w)) l w w' /\ w_tasks w' = w_tasks w /\
    (flowing (assessmentStreams (w_svc w)) -> flowing (assessmentStreams (w_svc w'))) /\
    assessment_Target (w_svc w') = assessment_Target (w_svc w) /\
    minted (w_tick w) (w_tick w') (Evidence_Id <$> es) /\ tick_le w w'.
Proof.
  revert w. induction l as [|r l IH]; intros w Hn Hroom Hany.
  { exists [], w. split_and!; [done|constructor|by rewrite app_nil_r| |done..|apply minted_nil|done].
    split_and!; [done|by left|done|set_solver]. }
  apply Forall_cons in Hany as [[a Ha] Hany]. cbn [discover_all length] in *. unfold gbind at 1, svc_read at 1. cbv beta iota.
  destruct (ToDiscoveryResource r (csID (w_svc w))) as [x|e] eqn:Ex; [|unfold ToDiscoveryResource in Ex; by rewrite Ha in Ex].
  destruct (save_one r x w Ex) as (o & w1 & Hsave & Honly & Hsvc1 & Htk1 & Hti1). unfold gbind at 1. rewrite Hsave, Ha.
  unfold uuid_NewString, time_Now, gbind at 1 2. cbn [w_tick w_db w_svc w_tasks]. unfold gbind at 1, svc_read at 1. cbv beta iota.
  cbn [w_svc]. set (e := new_evidence _ _ _ _ _). set (w2 := mkWorld _ _ _ _).
  assert (Hq2 : ac_waiting w2 = ac_waiting w) by (unfold ac_waiting; cbn; by rewrite Hsvc1).
  destruct (send_evidence_run e w2) as (c & w3 & w4 & Hget & Hsend & Hq4 & Hn4 & Hdb4 & Htk4 & Hcs4 & Htg4 & Hti4 & Hfl4).
  { unfold named. cbn. by rewrite Hsvc1. }
  { rewrite Hq2. lia. }
  change (assessment_Target (w_svc w1)) with (assessment_Target (w_svc w2)). unfold gbind at 1. rewrite Hget.
  unfold gbind at 1. rewrite Hsend. cbn in Hcs4. rewrite Hsvc1 in Hcs4.
  destruct (IH w4) as (es & w' & Hrun & Hall & Hq' & Honly' & Htk' & Hfl' & Htg' & Hids' & Hti'); [done|rewrite Hq4, Hq2, length_app; cbn; lia|done|].
  rewrite Hcs4 in Hall, Honly'. exists (e :: es), w'. split_and!; [done| |..].
  - constructor; [|done]. by exists (w_tick w1), (w_tick w1 + 1), a.
  - by rewrite Hq', Hq4, Hq2, <-app_assoc.
  - apply (saved_trans _ [r] l w w4 w'); [|done].
    unfold saved, has_id. rewrite Hdb4. cbn [w2 w_db]. exact Honly.
  - by rewrite Htk', Htk4.
  - intros Hf. apply Hfl', Hfl4. cbn. by rewrite Hsvc1.
  - rewrite Htg', Htg4. cbn. by rewrite Hsvc1.
  - unfold tick_le in *. cbn in Hti4. cbn. rewrite <-Hti1. eapply minted_cons; [|exact Hids'|]; lia.
  - unfold tick_le in *. cbn in Hti4. lia.
Qed.

(** A run over a discoverer that lists [l]. *)
Lemma discovery_run (d : D) (l : list R) n w :
  disc_List d (w_tick w) = (Returned (OK l), n) -> Forall (fun r => exists a, anypb_New r = OK a) l ->
  named w -> length (ac_waiting w) + length l <= channel_cap ->
  exists es w', StartDiscovery d w = (Returned tt, w') /\ Forall2 (made_evidence (csID (w_svc w))) l es /\
    ac_waiting w' = ac_waiting w ++ ((fun e => mkEvidenceRequest (Some e)) <$> es) /\
    saved (csID (w_svc w)) l w w' /\
    w_tasks w' = w_tasks w ++ [EmitEvent DiscovererStart (disc_Name d) 0; EmitEvent DiscovererFinished (disc_Name d) (length l)] /\
    (flowing (assessmentStreams (w_svc w)) -> flowing (assessmentStreams (w_svc w'))) /\
    assessment_Target (w_svc w') = assessment_Target (w_svc w) /\ minted n (w_tick w') (Evidence_Id <$> es).
Proof.
  intros Hl Hany Hn Hroom. unfold StartDiscovery, go_spawn, run_calls, gbind at 1 2. cbn [w_tick w_db w_svc w_tasks].
  rewrite Hl. unfold gbind at 1. cbn [w_tick w_db w_svc w_tasks]. set (w1 := mkWorld _ _ _ _).
  destruct (discover_all_run l w1) as (es & w' & Hrun & Hall & Hq & Honly & Htk & Hn' & Htg & Hids & _); [done..|].
  exists es, w'. rewrite Htk. cbn. split_and!; try done. by rewrite <-app_assoc.
Qed.

(** C22. A discovery run over a discoverer that lists [l]: both events are emitted,
    every resource becomes exactly one evidence of the service's cloud service,
    in the listed order, in the channel to the assessment service, even when
    saving it failed; a resource with its id is stored, unless the database refused
    to save it, and the database is only changed by saving these resources. *)
Theorem discovery_run_correct (d : D) (l : list R) n w :
  disc_List d (w_tick w) = (Returned (OK l), n) -> Forall (fun r => exists a, anypb_New r = OK a) l ->
  named w -> length (ac_waiting w) + length l <= channel_cap ->
  exists es w', StartDiscovery d w = (Returned tt, w') /\ Forall2 (evidence_for (csID (w_svc w))) l es /\
    ac_waiting w' = ac_waiting w ++ ((fun e => mkEvidenceRequest (Some e)) <$> es) /\
    saved (csID (w_svc w)) l w w' /\
    w_tasks w' = w_tasks w ++ [EmitEvent DiscovererStart (disc_Name d) 0; EmitEvent DiscovererFinished (disc_Name d) (length l)].
Proof.
  intros Hl Hany Hn Hroom. destruct (discovery_run d l n w Hl Hany Hn Hroom) as (es & w' & ? & ? & ? & ? & ? & _).
  exists es, w'. split_and!; try done. eapply Forall2_impl; [done|]. apply made_evidence_for.
Qed.
End Runs.

(** ** Listing resources *)

(** The filter by type, as the query asks it of the joined type names. *)
Definition type_found (t joined : string) : bool :=
  sql_like (t +:+ ",%") joined || (sql_like ("%," +:+ t +:+ ",%") joined || sql_like ("%," +:+ t) joined).

Definition resource_selected (f : option Resource_Filter) (r : Resource) : Prop :=
  match f with
  | None => True
  | Some f =>
      match ResourceFilter_CloudServiceId f with Some cs => Resource_CloudServiceId r = cs | None => True end /\
      match ResourceFilter_Type f with Some t => type_found t (Resource_ResourceType r) = true | None => True end
  end.

Definition resource_conds all allowed (f : option Resource_Filter) : list string * list any :=
  restrict_resources all allowed (match f with Some f => resource_filter f | None => ([], []) end).

Lemma type_found_true t joined : type_found t joined = true <->
  sql_like (t +:+ ",%") joined = true \/ sql_like ("%," +:+ t +:+ ",%") joined = true \/ sql_like ("%," +:+ t) joined = true.
Proof. unfold type_found. by rewrite !orb_true_iff. Qed.

Lemma resource_query_exact now pkv (r : Resource) all allowed f :
  exists b, plain_hold now pkv (col T_Resource r)
      (BuildConds (resource_conds all allowed f).1 (resource_conds all allowed f).2) = Some b /\
    (b = true <-> resource_selected f r /\ (all = true \/ Resource_CloudServiceId r ∈ allowed)).
Proof.
  unfold resource_conds, BuildConds, resource_selected, resource_filter, type_found.
  destruct f as [[[t|] [cs|]]|], all;
    cbn [ResourceFilter_Type ResourceFilter_CloudServiceId restrict_resources fst snd app];
    unfold plain_hold;
    first [ rewrite bool_decide_eq_true_2 by done; eexists; split; [reflexivity|]; naive_solver
          | rewrite bool_decide_eq_false_2 by (intros [? ?]; done) ];
    try (generalize (t +:+ ",%") as p1, ("%," +:+ t +:+ ",%") as p2, ("%," +:+ t) as p3; intros p1 p2 p3);
    sql_eval; eexists; (split; [reflexivity|]);
    autorewrite with clouditor_rw;
    rewrite ?andb_true_iff, ?orb_true_iff, ?selected_like, ?selected_eq_str, ?selected_in_strs; simpl;
    naive_solver congruence.
Qed.

Section Queries.
Context {DB Sch D Stream Message R Ctx : Type}.
Context `{StorageLaws DB, DiscoveryScheduler Sch D, AuthorizationStrategy Ctx, !AuthorizationLaws Ctx, TokenCodec}.
Context `{IsResource R, AnyLibrary Message R}.
Context `{Validator ListResourcesRequest, Validator ListGraphEdgesRequest, Validator UpdateResourceRequest}.
Abbreviation W := (World DB (DiscoveryService Sch D Stream) DiscoveryTask).
Implicit Types w : W.

Lemma resource_pages (db : DB) ob asc all allowed f (r : Resource) :
  r ∈ enumerate T_Resource ob asc (BuildConds (resource_conds all allowed f).1 (resource_conds all allowed f).2) db <->
  r ∈ rows T_Resource db /\ resource_selected f r /\ (all = true \/ Resource_CloudServiceId r ∈ allowed).
Proof.
  assert (Hm : forall x : Resource, exists b,
    matches T_Resource db (BuildConds (resource_conds all allowed f).1 (resource_conds all allowed f).2) x = Some b /\
    (b = true <-> resource_selected f x /\ (all = true \/ Resource_CloudServiceId x ∈ allowed))).
  { intros x. apply (resource_query_exact (db_now db) (pk T_Resource x) x all allowed f). }
  split.
  - intros Hr. destruct (enumerate_sound _ _ _ _ _ _ Hr) as (r0 & Hr0 & (_ & _ & Heq) & Hne). specialize (Heq eq_refl).
    subst r0. split; [done|]. destruct (Hm r) as (b & Hb & Hiff). apply Hiff. rewrite Hb in Hne. by destruct b.
  - intros [Hr Hsel]. destruct (Hm r) as (b & Hb & Hiff). apply Hiff in Hsel as ->.
    destruct (enumerate_complete _ ob asc _ _ _ Hr Hb) as (r' & (_ & _ & Heq) & Hin). by rewrite (Heq eq_refl) in Hin.
Qed.

(** ListResources always answers and changes nothing: it returns the requested
    page of an enumeration of exactly the stored resources that the filter selects
    and whose cloud service the caller may access.  It fails only for an invalid
    request, a filter whose cloud service (the empty id, when it names none) the
    caller may not access, a broken page token or a failing database. *)
Theorem list_resources_correct ctx q w :
  let conds := resource_conds (AllowedCloudServices ctx).1 (AllowedCloudServices ctx).2 (ListResources_Filter q) in
  let pages := enumerate T_Resource (GetOrderBy (ListResources_Paging q)) (GetAsc (ListResources_Paging q))
                 (BuildConds conds.1 conds.2) (w_db w) in
  exists r, ListResources ctx (Some q) w = (Returned r, w) /\
  match r with
  | Err _ => violations q <> None \/
      (exists f, ListResources_Filter q = Some f /\
         CheckAccess ctx AccessRead (Deref (ResourceFilter_CloudServiceId f)) = false) \/
      page_refused T_Resource (ListResources_Paging q) (BuildConds conds.1 conds.2) (w_db w)
  | OK p =>
      (forall r, r ∈ Page_Items p -> r ∈ pages) /\
      page_of (ListResources_Paging q) DefaultPaginationOpts pages (Page_Items p) /\
      (forall r, r ∈ pages <-> r ∈ rows T_Resource (w_db w) /\ resource_selected (ListResources_Filter q) r /\
         may_access ctx (Resource_CloudServiceId r))
  end.
Proof.
  unfold ListResources. run_valid as q' Hv; [eexists; split; [done|]; left; by apply Hrej|].
  unfold gguard, may_access. case_match.
  2: { eexists. split; [done|]. right; left. destruct (ListResources_Filter q); [|done]. eauto. }
  destruct (AllowedCloudServices ctx) as [all allowed]. cbn [fst snd].
  change (restrict_resources all allowed _) with (resource_conds all allowed (ListResources_Filter q)).
  pose proof (resource_pages (w_db w) (GetOrderBy (ListResources_Paging q)) (GetAsc (ListResources_Paging q))
    all allowed (ListResources_Filter q)) as Hpages.
  destruct (resource_conds all allowed (ListResources_Filter q)) as [query args]. unfold gtry, gbind. cbn [fst snd] in Hpages.
  destruct (PaginateStorage_run T_Resource (ListResources_Paging q) DefaultPaginationOpts (BuildConds query args) w)
    as [(e & He & Hno)|(page & npt & Hp & Hin)]; unfold BuildConds in *; [rewrite He; eexists; split; [done|]; right; right; exact Hno|].
  rewrite Hp. eexists. split; [done|].
  split_and!; [done|exact (PaginateStorage_window T_Resource _ _ _ _ _ _ _ Hp)|done].
Qed.

Lemma graph_edges_spec l edges : graph_edges (R := R) l edges = edges ++ (l ≫= resource_edges (R := R)).
Proof.
  revert edges. induction l as [|r l IH]; intros edges; cbn [graph_edges]; [by rewrite app_nil_r|].
  rewrite IH, <-app_assoc. done.
Qed.

(** ListGraphEdges answers exactly the relationships of the resources on the
    requested page of the resources that the caller may access: each edge leads
    from such a resource, under the property's name, to the id the resource's field
    holds, and no relationship is left out. *)
Theorem graph_edges_correct ctx q w p w' :
  ListGraphEdges (R := R) ctx (Some q) w = (Returned (OK p), w') ->
  let conds := resource_conds (AllowedCloudServices ctx).1 (AllowedCloudServices ctx).2 None in
  let pages := enumerate T_Resource (GetOrderBy (ListGraphEdges_Paging q)) (GetAsc (ListGraphEdges_Paging q))
                 (BuildConds conds.1 conds.2) (w_db w) in
  exists page, w' = w /\ page_of (ListGraphEdges_Paging q) DefaultPaginationOpts pages page /\
    (forall r, r ∈ page -> r ∈ pages) /\
    (forall r, r ∈ pages <-> r ∈ rows T_Resource (w_db w) /\ may_access ctx (Resource_CloudServiceId r)) /\
    (forall edge, edge ∈ Page_Items p <-> exists r x rel, r ∈ page /\ ToOntologyResource r = OK x /\ rel ∈ Related x /\
       edge = mkGraphEdge (Resource_Id r +:+ "-" +:+ Relationship_Value rel) (Resource_Id r)
                (Relationship_Value rel) (Relationship_Property rel)).
Proof.
  unfold ListGraphEdges. run_valid as q' Hv; [done|]. unfold may_access.
  destruct (AllowedCloudServices ctx) as [all allowed]. cbn [fst snd].
  change (restrict_resources all allowed _) with (resource_conds all allowed None).
  pose proof (resource_pages (w_db w) (GetOrderBy (ListGraphEdges_Paging q)) (GetAsc (ListGraphEdges_Paging q))
    all allowed None) as Hpages.
  destruct (resource_conds all allowed None) as [query args]. unfold gtry, gbind. cbn [fst snd] in Hpages.
  destruct (PaginateStorage_run T_Resource (ListGraphEdges_Paging q) DefaultPaginationOpts (BuildConds query args) w)
    as [(e & He & _)|(page & npt & Hp & Hin)]; [by rewrite He|]. rewrite Hp. intros [= <- <-]. cbn [Page_Items fst snd].
  exists page. split_and!; [done|exact (PaginateStorage_window T_Resource _ _ _ _ _ _ _ Hp)|done| |].
  - intros r. rewrite Hpages. cbn [resource_selected]. tauto.
  - intros edge. rewrite graph_edges_spec, app_nil_l, list_elem_of_bind. unfold resource_edges. split.
    + intros (r & Hedge & Hr). destruct (ToOntologyResource r) as [x|] eqn:Ex; [|by apply elem_of_nil in Hedge].
      apply list_elem_of_fmap in Hedge as (rel & -> & Hrel). by exists r, x, rel.
    + intros (r & x & rel & Hr & Hx & Hrel & ->). exists r. split; [|done]. rewrite Hx. apply list_elem_of_fmap. by exists rel.
Qed.

(** A request to update a resource that carries none is not rejected: with access
    to the empty cloud service id (every caller of the allow-all strategy), the
    handler dereferences the missing resource and panics. *)
Theorem update_resource_nil_panics ctx w :
  violations (mkUpdateResourceRequest None) = None -> CheckAccess ctx AccessRead "" = true ->
  fst (UpdateResource ctx (Some (mkUpdateResourceRequest None)) w) = Panicked.
Proof.
  intros Hv Hc. unfold UpdateResource, with_valid, Validate. rewrite Hv. unfold gguard. cbn. by rewrite Hc.
Qed.
End Queries.

(** ** The filter by type *)

Abbreviation chars := String.list_ascii_of_string.

Lemma chars_app a b : chars (a +:+ b) = chars a ++ chars b.
Proof. induction a as [|c a IH]; [done|]. rewrite str_append_cons. cbn. by rewrite IH. Qed.

Lemma like_all s : like_match ["%"%char] s = true.
Proof. apply like_any. exists s, []. by rewrite app_nil_r. Qed.

Lemma comma_literal : literal [","%char].
Proof. by constructor. Qed.

Lemma like_comma pat s : like_match (","%char :: pat) s = true <-> exists rest, s = ","%char :: rest /\ like_match pat rest = true.
Proof. apply (like_literal [","%char] pat s comma_literal). Qed.

Lemma like_end s : like_match [] s = true <-> s = [].
Proof. by destruct s. Qed.

(** The three patterns, on the characters of the joined type names. *)
Lemma type_found_spec t joined : literal (chars t) ->
  type_found t joined = true <->
    (exists post, chars joined = chars t ++ ","%char :: post) \/
    (exists pre post, chars joined = pre ++ ","%char :: chars t ++ ","%char :: post) \/
    (exists pre, chars joined = pre ++ ","%char :: chars t).
Proof.
  intros Ht. rewrite type_found_true. unfold sql_like. rewrite !chars_app.
  change (chars ",%") with [","%char; "%"%char]. change (chars "%,") with ["%"%char; ","%char]. cbn [app].
  assert (Hend : forall s, like_match (chars t ++ [","%char; "%"%char]) s = true <-> exists post, s = chars t ++ ","%char :: post).
  { intros s. rewrite like_literal by done. split.
    - intros (rest & -> & (post & -> & _)%like_comma). by exists post.
    - intros (post & ->). eexists. split; [done|]. apply like_comma. exists post. by rewrite like_all. }
  assert (Hlast : forall s, like_match (chars t) s = true <-> s = chars t).
  { intros s. pose proof (like_literal (chars t) [] s Ht) as Hl. rewrite app_nil_r in Hl. rewrite Hl. split.
    - intros (rest & -> & ->%like_end). by rewrite app_nil_r.
    - intros ->. exists []. by rewrite app_nil_r. }
  rewrite Hend, !like_any. apply or_iff_compat_l. apply Morphisms_Prop.or_iff_morphism; split.
  - intros (pre & post & -> & (rest & -> & (post' & ->)%Hend)%like_comma). by exists pre, post'.
  - intros (pre & post & ->). do 2 eexists. split; [done|]. apply like_comma. eexists. split; [done|]. apply Hend. by eexists.
  - intros (pre & post & -> & (rest & -> & ->%Hlast)%like_comma). by exists pre.
  - intros (pre & ->). do 2 eexists. split; [done|]. apply like_comma. eexists. split; [done|]. by apply Hlast.
Qed.

Lemma join_app l1 l2 : l1 <> [] -> l2 <> [] ->
  strings_Join (l1 ++ l2) "," = strings_Join l1 "," +:+ "," +:+ strings_Join l2 ",".
Proof.
  intros H1 H2. induction l1 as [|a [|b l1] IH]; [done|destruct l2; done|].
  change (strings_Join ((a :: b :: l1) ++ l2) ",") with (a +:+ "," +:+ strings_Join ((b :: l1) ++ l2) ",").
  rewrite IH by done. change (strings_Join (a :: b :: l1) ",") with (a +:+ "," +:+ strings_Join (b :: l1) ",").
  by rewrite !str_append_assoc.
Qed.

(** What the three patterns find among the joined type names. *)
Lemma type_found_joined (t : string) (types : list string) :
  literal (chars t) ->
  (t ∈ types -> 2 <= length types -> type_found t (strings_Join types ",") = true) /\
  (","%char ∉ chars t -> type_found t (strings_Join [t] ",") = false).
Proof.
  intros Ht. split.
  - intros (l1 & l2 & ->)%list_elem_of_split Hlen. apply type_found_spec; [done|].
    destruct l1 as [|a l1], l2 as [|b l2]; [cbn in Hlen; lia|..].
    + left. cbn [app]. change (t :: b :: l2) with ([t] ++ (b :: l2)). rewrite join_app by done.
      rewrite !chars_app. by eexists.
    + right; right. rewrite join_app by done. rewrite !chars_app. by eexists.
    + right; left. rewrite join_app by done. change (t :: b :: l2) with ([t] ++ (b :: l2)). rewrite join_app by done.
      rewrite !chars_app. by do 2 eexists.
  - intros Hc. apply not_true_is_false. rewrite type_found_spec by done. cbn [strings_Join].
    intros [(post & Heq)|[(pre & post & Heq)|(pre & Heq)]]; apply Hc; rewrite Heq; set_solver.
Qed.

Section TypeFilter.
Context {Message R : Type}.
Context `{IsResource R, AnyLibrary Message R}.

(** The filter by type finds a resource that discovery saved under each of its
    type names as soon as it has at least two of them, and never finds a resource
    whose only type name is the one asked for (type names without commas and
    wildcards). *)
Theorem type_filter_finds (resource : R) (cs t : string) (r : Resource) now :
  ToDiscoveryResource resource cs = OK r -> literal (chars t) ->
  let q := resource_filter (mkResourceFilter (Some t) None) in
  let answer := plain_hold now (pk T_Resource r) (col T_Resource r) (BuildConds q.1 q.2) in
  (t ∈ ResourceTypes resource -> 2 <= length (ResourceTypes resource) -> answer = Some true) /\
  (ResourceTypes resource = [t] -> ","%char ∉ chars t -> answer = Some false).
Proof.
  intros Hr Ht q answer.
  destruct (resource_query_exact now (pk T_Resource r) r true [] (Some (mkResourceFilter (Some t) None))) as (b & Hb & Hiff).
  change (answer = Some b) in Hb. rewrite Hb. clear Hb answer. cbn in Hiff.
  assert (Htypes : Resource_ResourceType r = strings_Join (ResourceTypes resource) ",").
  { unfold ToDiscoveryResource in Hr. destruct (anypb_New resource); by simplify_eq. }
  rewrite Htypes in Hiff. split.
  - intros Hin Hlen. f_equal. apply Hiff. split; [|by left]. split; [done|]. by apply type_found_joined.
  - intros Hone Hc. rewrite Hone in Hiff. f_equal. apply not_true_is_false. intros Hb%Hiff.
    destruct Hb as [[_ Hb] _]. rewrite (proj2 (type_found_joined t [t] Ht) Hc) in Hb. done.
Qed.
End TypeFilter.
