(* ===== verification/Assessment.v ===== *)
(** service/assessment/assessment.go: the assessment service.

    An evidence is evaluated by the policy evaluator of Policies.v, forwarded to
    the evidence store, and its results are sent to the orchestrator, both through
    the stream channels of Streams.v.  The service is itself the evaluator's
    source of metrics: it asks the orchestrator and caches configurations.

    The connections to the evidence store and the orchestrator are the interface
    [AssessmentClients]; protobuf's [Any] is [AnyLibrary]. *)

From S2P Require Import Prelude GoRuntime GoStrings Util Api Authz Pagination Streams Ontology Policies.

(** [EvictionTime = time.Hour * 1] in nanoseconds. *)
Definition EvictionTime : Z := 3600 * 1000000000.

Definition AssessmentToolId : string := "Clouditor Assessment".
Definition DefaultEvidenceStoreAddress : string := "localhost:9090".
Definition DefaultOrchestratorAddress : string := "localhost:9090".

(** ** Interfaces *)

(** The RPCs of the evidence store ([EvS] is its stream) and of the orchestrator
    ([OrS], [EvtS] are its streams), by the moment of the call. *)
Class AssessmentClients (EvS OrS EvtS : Type) := {
  ec_StoreEvidences : nat -> res EvS;
  ac_StoreAssessmentResults : nat -> res OrS;
  ac_SubscribeMetricChangeEvents : nat -> res EvtS;
  ac_ListMetrics : nat -> ListMetricsRequest -> res (Page Metric);
  ac_GetMetricImplementation : nat -> string -> res MetricImplementation;
  ac_GetMetricConfiguration : nat -> string -> string -> res MetricConfiguration;
}.

(** ** State *)

Record cachedConfiguration := mkCached { cachedAt : Z; cached_MetricConfiguration : MetricConfiguration }.

(** A call of a result hook, with its two arguments. *)
Record ResultHookCall := mkResultHookCall {
  call_hook : nat;
  call_result : option AssessmentResult;
  call_error : option error;
}.

Record AssessmentService (Query EvS OrS EvtS : Type) := mkAssessment {
  isEvidenceStoreDisabled : bool;
  evidenceStoreStreams : StreamsOf EvS EvidenceRequest;
  evidenceStore_Target : string;
  orchestratorStreams : StreamsOf OrS StoreAssessmentResultRequest;
  orchestrator_Target : string;
  metricEventStream : option EvtS;
  resultHooks : list nat;
  result_calls : list ResultHookCall;
  cachedConfigurations : gmap string cachedConfiguration;
  pe : regoEval Query;
  evalPkg : string;
}.
Arguments mkAssessment {Query EvS OrS EvtS}.
Arguments isEvidenceStoreDisabled {Query EvS OrS EvtS}.
Arguments evidenceStoreStreams {Query EvS OrS EvtS}.
Arguments evidenceStore_Target {Query EvS OrS EvtS}.
Arguments orchestratorStreams {Query EvS OrS EvtS}.
Arguments orchestrator_Target {Query EvS OrS EvtS}.
Arguments metricEventStream {Query EvS OrS EvtS}.
Arguments resultHooks {Query EvS OrS EvtS}.
Arguments result_calls {Query EvS OrS EvtS}.
Arguments cachedConfigurations {Query EvS OrS EvtS}.
Arguments pe {Query EvS OrS EvtS}.
Arguments evalPkg {Query EvS OrS EvtS}.

(** The goroutines the service starts. *)
Inductive AssessmentTask :=
| InformResultHooks (r : option AssessmentResult) (err : option error)
| RecvEventsLoop.

(** The page token of a request for the metrics. *)
Definition set_token_metrics (tok : string) (r : ListMetricsRequest) : ListMetricsRequest :=
  mkListMetricsRequest (ListMetrics_IncludeDeprecated r) (with_page_token tok (ListMetrics_Paging r)).

Section Service.
Context {Query Tx EvS OrS EvtS Message R Ctx : Type}.
Context `{Opa Query Tx, AssessmentClients EvS OrS EvtS, AnyLibrary Message R, IsResource R, JSONLibrary, ValueText}.
Context `{AuthorizationStrategy Ctx, Env, Validator EvidenceRequest, Validator Message}.
Abbreviation Svc := (AssessmentService Query EvS OrS EvtS).
Abbreviation W := (World unit Svc AssessmentTask).

(** *** Fields *)

Definition set_ev_streams (f : StreamsOf EvS EvidenceRequest) (s : Svc) : Svc :=
  mkAssessment (isEvidenceStoreDisabled s) f (evidenceStore_Target s) (orchestratorStreams s) (orchestrator_Target s)
    (metricEventStream s) (resultHooks s) (result_calls s) (cachedConfigurations s) (pe s) (evalPkg s).
Definition set_or_streams (f : StreamsOf OrS StoreAssessmentResultRequest) (s : Svc) : Svc :=
  mkAssessment (isEvidenceStoreDisabled s) (evidenceStoreStreams s) (evidenceStore_Target s) f (orchestrator_Target s)
    (metricEventStream s) (resultHooks s) (result_calls s) (cachedConfigurations s) (pe s) (evalPkg s).
Definition set_event_stream (f : option EvtS) (s : Svc) : Svc :=
  mkAssessment (isEvidenceStoreDisabled s) (evidenceStoreStreams s) (evidenceStore_Target s) (orchestratorStreams s)
    (orchestrator_Target s) f (resultHooks s) (result_calls s) (cachedConfigurations s) (pe s) (evalPkg s).
Definition set_hooks (hooks : list nat) (calls : list ResultHookCall) (s : Svc) : Svc :=
  mkAssessment (isEvidenceStoreDisabled s) (evidenceStoreStreams s) (evidenceStore_Target s) (orchestratorStreams s)
    (orchestrator_Target s) (metricEventStream s) hooks calls (cachedConfigurations s) (pe s) (evalPkg s).
Definition set_configurations (m : gmap string cachedConfiguration) (s : Svc) : Svc :=
  mkAssessment (isEvidenceStoreDisabled s) (evidenceStoreStreams s) (evidenceStore_Target s) (orchestratorStreams s)
    (orchestrator_Target s) (metricEventStream s) (resultHooks s) (result_calls s) m (pe s) (evalPkg s).
Definition set_pe (re : regoEval Query) (s : Svc) : Svc :=
  mkAssessment (isEvidenceStoreDisabled s) (evidenceStoreStreams s) (evidenceStore_Target s) (orchestratorStreams s)
    (orchestrator_Target s) (metricEventStream s) (resultHooks s) (result_calls s) (cachedConfigurations s) re (evalPkg s).

Definition with_svc (f : Svc -> Svc) (w : W) : W := mkWorld (w_db w) (f (w_svc w)) (w_tasks w) (w_tick w).

#[global] Instance ev_streams_field : Field W (StreamsOf EvS EvidenceRequest) := {|
  field_get := fun w => evidenceStoreStreams (w_svc w);
  field_set := fun f => with_svc (set_ev_streams f);
|}.
#[global] Instance or_streams_field : Field W (StreamsOf OrS StoreAssessmentResultRequest) := {|
  field_get := fun w => orchestratorStreams (w_svc w);
  field_set := fun f => with_svc (set_or_streams f);
|}.
#[global] Instance pe_state : RegoState W Query := {|
  re_get := fun w => pe (w_svc w);
  re_set := fun re => with_svc (set_pe re);
|}.

(** *** Options and construction *)

Definition WithoutEvidenceStore (s : Svc) : Svc :=
  mkAssessment true (evidenceStoreStreams s) (evidenceStore_Target s) (orchestratorStreams s) (orchestrator_Target s)
    (metricEventStream s) (resultHooks s) (result_calls s) (cachedConfigurations s) (pe s) (evalPkg s).
Definition WithEvidenceStoreAddress (address : string) (s : Svc) : Svc :=
  mkAssessment (isEvidenceStoreDisabled s) (evidenceStoreStreams s) address (orchestratorStreams s) (orchestrator_Target s)
    (metricEventStream s) (resultHooks s) (result_calls s) (cachedConfigurations s) (pe s) (evalPkg s).
Definition WithOrchestratorAddress (target : string) (s : Svc) : Svc :=
  mkAssessment (isEvidenceStoreDisabled s) (evidenceStoreStreams s) (evidenceStore_Target s) (orchestratorStreams s) target
    (metricEventStream s) (resultHooks s) (result_calls s) (cachedConfigurations s) (pe s) (evalPkg s).
Definition WithRegoPackageName (pkg : string) (s : Svc) : Svc :=
  mkAssessment (isEvidenceStoreDisabled s) (evidenceStoreStreams s) (evidenceStore_Target s) (orchestratorStreams s)
    (orchestrator_Target s) (metricEventStream s) (resultHooks s) (result_calls s) (cachedConfigurations s) (pe s) pkg.

Definition NewService (opts : list (Svc -> Svc)) : Svc :=
  let svc := mkAssessment false NewStreamsOf DefaultEvidenceStoreAddress NewStreamsOf DefaultOrchestratorAddress
               None [] [] ∅ (mkRegoEval ∅ ∅ false "") "" in
  let svc := foldl (fun s o => o s) svc opts in
  let svc := if bool_decide (evalPkg svc = "") then WithRegoPackageName DefaultRegoPackage svc else svc in
  set_pe (NewRegoEval [WithPackageName (evalPkg svc)]) svc.

(** *** The metrics source *)

(** At most [fuel] pages of metrics are asked for. *)
Context (fuel : nat).

Definition Metrics : Go W (res (list Metric)) :=
  metrics <-? ListAllPaginated set_token_metrics Page_NextPageToken fuel
                (mkListMetricsRequest false (mkPaging 0 "" "" false))
                (fun req => remote (fun n => ac_ListMetrics n req)) Page_Items
    ! EWrap "could not retrieve metric list from orchestrator" ;;
  gok metrics.

Definition MetricImplementation_ (lang : Language) (metric : string) : Go W (res MetricImplementation) :=
  require (bool_decide (lang = LANGUAGE_REGO)) else EText "unsupported language" ;;
  impl <-? remote (fun n => ac_GetMetricImplementation n metric)
    ! EWrap ("could not retrieve metric implementation for " +:+ metric +:+ " from orchestrator") ;;
  gok impl.

(** The key of a cached configuration. *)
Definition configuration_key (cloudServiceID metricID : string) : string := cloudServiceID +:+ "-" +:+ metricID.

(** [!ok || cache.cachedAt.After(time.Now().Add(EvictionTime))] *)
Definition stale (cache : option cachedConfiguration) : Go W bool :=
  match cache with
  | None => gret true
  | Some c => now <- time_Now ;; gret (bool_decide (now + EvictionTime < cachedAt c)%Z)
  end.

Definition MetricConfiguration_ (cloudServiceID metricID : string) : Go W (res MetricConfiguration) :=
  let key := configuration_key cloudServiceID metricID in
  cache <- svc_read (fun s => cachedConfigurations s !! key) ;;
  refresh <- stale cache ;;
  if refresh : bool then
    config <-? remote (fun n => ac_GetMetricConfiguration n cloudServiceID metricID)
      ! EWrap ("could not retrieve metric configuration for " +:+ metricID) ;;
    now <- time_Now ;;
    svc_modify (fun s => set_configurations (<[key := mkCached now config]> (cachedConfigurations s)) s) ;;;
    gok config
  else match cache with Some c => gok (cached_MetricConfiguration c) | None => gpanic end.

#[global] Instance service_source : MetricsSource W := {|
  src_Metrics := Metrics;
  src_MetricConfiguration := MetricConfiguration_;
  src_MetricImplementation := MetricImplementation_;
|}.

(** *** Streams *)

Definition initEvidenceStoreStream (_ : string) : Go W (res EvS) :=
  stream <-? remote ec_StoreEvidences
    ! EWrap "could not set up stream to evidence store for storing evidences" ;;
  gok stream.

Definition initOrchestratorStream (_ : string) : Go W (res OrS) :=
  stream <-? remote ac_StoreAssessmentResults
    ! EWrap "could not set up stream to orchestrator for storing assessment results" ;;
  events <- remote ac_SubscribeMetricChangeEvents ;;
  match events with
  | Err e =>
      svc_modify (set_event_stream None) ;;;
      gerr (EWrap "could not set up stream for listening to metric change events" e)
  | OK events =>
      svc_modify (set_event_stream (Some events)) ;;;
      go_spawn RecvEventsLoop ;;;
      gok stream
  end.

(** *** Assessing an evidence *)

(** [status.Errorf(codes.Internal, "%v", err)] *)
Definition internal (e : error) : error := EStatus codes_Internal (Error e).

(** [go svc.informHooks(ctx, nil, err); return nil, status.Errorf(...)] *)
Definition fail_inform {A} (informed returned : error) : Go W (res A) :=
  go_spawn (InformResultHooks None (Some informed)) ;;; gerr returned.

(** The result of one evaluation. *)
Definition new_result (ev : Evidence) (resource : R) (data : Result) (id : string) (now : Z) : AssessmentResult :=
  mkAssessmentResult id (Some now) (Result_MetricID data) (Some (Result_Config data)) (Result_Compliant data)
    (Evidence_Id ev) (resource_GetId resource) (ResourceTypes resource) "No comments so far"
    (Evidence_CloudServiceId ev) (Some AssessmentToolId).

(** The loop over the evaluations. *)
Fixpoint send_results (ev : Evidence) (resource : R) (channel : string) (evaluations : list (option Result))
    (results : list AssessmentResult) : Go W (list AssessmentResult) :=
  match evaluations with
  | [] => gret results
  | None :: evaluations => send_results ev resource channel evaluations results
  | Some data :: evaluations =>
      id <- uuid_NewString ;;
      now <- time_Now ;;
      let result := new_result ev resource data id now in
      go_spawn (InformResultHooks (Some result) None) ;;;
      Send (Stream := OrS) channel (mkStoreAssessmentResultRequest (Some result)) ;;;
      send_results ev resource channel evaluations (results ++ [result])
  end.

Definition store_evidence (ev : Evidence) : Go W (res unit) :=
  disabled <- svc_read isEvidenceStoreDisabled ;;
  if disabled : bool then gok tt
  else
    target <- svc_read evidenceStore_Target ;;
    c <- GetStream (Msg := EvidenceRequest) target "Evidence Store" (Some initEvidenceStoreStream) ;;
    match c with
    | Err e =>
        let err := EWrap ("could not get stream to evidence store (" +:+ target +:+ ")") e in
        fail_inform err (internal err)
    | OK c =>
        Send (Stream := EvS) (sc_target c) (mkEvidenceRequest (Some ev)) ;;;
        gok tt
    end.

Definition handleEvidence (ev : Evidence) : Go W (res (list AssessmentResult)) :=
  m <-? gret (UnmarshalNew (Evidence_Resource ev))
    ! (fun e => EStatus codes_Internal ("could not unmarshal resource proto message: " +:+ Error e)) ;;
  valid m from (Some m) ;;
  match as_resource m with
  | None => gerr (EStatus codes_Internal ("invalid embedded resource: " +:+ Error ErrNotOntologyResource))
  | Some resource =>
      evaluations <- Eval ev resource ;;
      match evaluations with
      | Err e => fail_inform (EWrap "could not evaluate evidence" e) (internal e)
      | OK evaluations =>
          _ <-? store_evidence ev ! id ;;
          target <- svc_read orchestrator_Target ;;
          c <- GetStream (Msg := StoreAssessmentResultRequest) target "Orchestrator" (Some initOrchestratorStream) ;;
          match c with
          | Err e =>
              let err := EWrap ("could not get stream to orchestrator (" +:+ target +:+ ")") e in
              fail_inform err (internal err)
          | OK c =>
              results <- send_results ev resource (sc_target c) evaluations [] ;;
              gok results
          end
      end
  end.

Definition AssessEvidence (ctx : option Ctx) (req : option EvidenceRequest) : Go W (res unit) :=
  valid req from req ;;
  require (CheckAccess ctx AccessUpdate (EvidenceRequest_GetCloudServiceId req)) else ErrPermissionDenied ;;
  ev <- gderef (EvidenceRequest_Evidence req) ;;
  _ <-? handleEvidence ev ! id ;;
  gok tt.

(** [AssessEvidencesResponse] *)
Record AssessEvidencesResponse := mkAssessResponse { Assess_Status : AssessmentStatus; Assess_StatusMessage : string }.

(** The stream handler: [ins] are the answers of [Recv] and [send] that of the
    [n]-th [Send]; the result is the responses that were sent and the error. *)
Fixpoint AssessEvidences (ctx : option Ctx) (ins : list (recv EvidenceRequest)) (send : nat -> sent)
    (out : list AssessEvidencesResponse) : Go W (list AssessEvidencesResponse * option error) :=
  match ins with
  | [] | RecvEOF :: _ => gret (out, None)
  | RecvError e :: _ =>
      gret (out, Some (EStatus codes_Unknown (Error (EWrap "cannot receive stream request" e))))
  | RecvMsg req :: ins =>
      r <- AssessEvidence ctx (Some (mkEvidenceRequest (EvidenceRequest_Evidence req))) ;;
      let res := match r with Err e => mkAssessResponse FAILED (Error e) | OK _ => mkAssessResponse ASSESSED "" end in
      match send (length out) with
      | SentOK => AssessEvidences ctx ins send (out ++ [res])
      | SentEOF => gret (out, None)
      | SentError e =>
          gret (out, Some (EStatus codes_Unknown (Error (EWrap "cannot send response to the client" e))))
      end
  end.

(** *** Hooks *)

Definition RegisterResultHook (h : nat) (s : Svc) : Svc := set_hooks (resultHooks s ++ [h]) (result_calls s) s.

Definition informResultHooks (r : option AssessmentResult) (err : option error) (s : Svc) : Svc :=
  let hooks := resultHooks s in
  if bool_decide (0 < length hooks)
  then foldl (fun s h => set_hooks (resultHooks s) (result_calls s ++ [mkResultHookCall h r err]) s) s hooks
  else s.

(** *** Metric events *)

Definition handleMetricEvent (event : MetricChangeEvent) : Go W unit :=
  (if bool_decide (MetricChangeEvent_Type_ event = TYPE_CONFIG_CHANGED) then
     let key := configuration_key (MetricChangeEvent_CloudServiceId event) (MetricChangeEvent_MetricId event) in
     svc_modify (fun s => set_configurations (delete key (cachedConfigurations s)) s)
   else gret tt) ;;;
  _ <- HandleMetricEvent event ;;
  gret tt.

(** [ins] are the answers of [svc.metricEventStream.Recv()], so far. *)
Fixpoint recvEventsLoop (ins : list (recv MetricChangeEvent)) : Go W unit :=
  stream <- svc_read metricEventStream ;;
  _ <- gderef stream ;;
  match ins with
  | [] | RecvEOF :: _ | RecvError _ :: _ => gret tt
  | RecvMsg event :: ins => handleMetricEvent event ;;; recvEventsLoop ins
  end.

Definition Shutdown : Go W (list EvS * list OrS) :=
  evs <- CloseAll (Msg := EvidenceRequest) ;;
  ors <- CloseAll (Msg := StoreAssessmentResultRequest) ;;
  gret (evs, ors).
End Service.
