(* ===== verification/AssessmentProofs.v ===== *)
(** The assessment service is correct: while the orchestrator's metrics do not
    change it is a faithful metrics source, an accepted evidence is forwarded once
    and yields exactly one announced and transmitted result per applicable metric,
    and metric events reach both caches. *)

From S2P Require Import Prelude GoRuntime GoStrings Util Api Authz Pagination Streams Ontology Policies PoliciesProofs Assessment.

Section Proofs.
Context {Query Tx EvS OrS EvtS Message R Ctx : Type}.
Context `{Opa Query Tx, AssessmentClients EvS OrS EvtS, AnyLibrary Message R, IsResource R, JSONLibrary, ValueText}.
Context `{AuthorizationStrategy Ctx, Env, Validator EvidenceRequest, Validator Message}.
Context (fuel : nat).
Abbreviation Svc := (AssessmentService Query EvS OrS EvtS).
Abbreviation W := (World unit Svc AssessmentTask).

(** ** The parts of the state *)

#[global] Instance ev_field_laws : FieldLaws W (StreamsOf EvS EvidenceRequest).
Proof. by constructor. Qed.
#[global] Instance or_field_laws : FieldLaws W (StreamsOf OrS StoreAssessmentResultRequest).
Proof. by constructor. Qed.
#[global] Instance pe_state_laws : @RegoStateLaws W Query _.
Proof. by constructor. Qed.

(** Everything of the state that assessing does not put into a cache. *)
Definition frame (w : W) :=
  (isEvidenceStoreDisabled (w_svc w), evidenceStoreStreams (w_svc w), evidenceStore_Target (w_svc w),
   orchestratorStreams (w_svc w), orchestrator_Target (w_svc w), w_tasks w).

#[global] Instance service_frame : @EvalFrame W Query (same_part frame) _ (service_source fuel).
Proof.
  constructor; [| | |done].
  - cbn. unfold Metrics, ListAllPaginated. apply keeps_try; [|done].
    generalize (@nil Metric) as l, "" as tok, (mkListMetricsRequest false (mkPaging 0 "" "" false)) as req.
    induction fuel as [|n IH]; intros; cbn [list_all_loop]; [done|].
    apply keeps_try; [done|]. intros p. case_match; [done|apply IH].
  - intros s m w. cbn. unfold MetricConfiguration_, stale. go_unfold. by repeat (case_match; simplify_eq/=).
  - intros l m w. cbn. unfold MetricImplementation_. go_unfold. by repeat (case_match; simplify_eq/=).
Qed.

#[global] Instance service_ticks : @EvalFrame W Query tick_le _ (service_source fuel).
Proof.
  assert (Hr : forall A (f : nat -> A), moves tick_le (remote f : Go W A)) by (intros; apply moves_remote).
  constructor; [| | |intros r w; unfold tick_le; cbn; lia].
  - cbn. unfold Metrics, ListAllPaginated. apply (moves_try tick_le); [|intros; apply moves_ok, _].
    generalize (@nil Metric) as l, "" as tok, (mkListMetricsRequest false (mkPaging 0 "" "" false)) as req.
    induction fuel as [|n IH]; intros; cbn [list_all_loop]; [apply moves_fuel, _|].
    apply (moves_try tick_le); [apply Hr|]. intros p. case_match; [apply moves_ok, _|apply IH].
  - intros s m w. cbn. unfold MetricConfiguration_, stale, tick_le. go_unfold. repeat (case_match; simplify_eq/=); lia.
  - intros l m w. cbn. unfold MetricImplementation_, tick_le. go_unfold. repeat (case_match; simplify_eq/=); lia.
Qed.

(** What forwarding leaves alone. *)
Definition settings (w : W) :=
  (isEvidenceStoreDisabled (w_svc w), evidenceStore_Target (w_svc w), orchestrator_Target (w_svc w),
   cachedConfigurations (w_svc w), pe (w_svc w)).

(** ** The service as a metrics source *)

(** The pages the orchestrator lists, from a page token on. *)
Fixpoint collect_pages (page_at : string -> Page Metric) (n : nat) (tok : string) : option (list Metric) :=
  match n with
  | 0 => None
  | S n =>
      let p := page_at tok in
      if bool_decide (Page_NextPageToken p = "") then Some (Page_Items p)
      else match collect_pages page_at n (Page_NextPageToken p) with
           | Some l => Some (Page_Items p ++ l)
           | None => None
           end
  end.

(** An orchestrator whose metrics, configurations and implementations do not
    change; [fuel] pages hold all metrics. *)
Class StableOrchestrator (ms : list Metric) (cfg0 : string -> string -> res MetricConfiguration)
    (impl0 : string -> res MetricImplementation) : Prop := {
  so_metrics : exists page_at, collect_pages page_at fuel "" = Some ms /\
    forall n req, ac_ListMetrics n req = OK (page_at (GetPageToken (ListMetrics_Paging req)));
  so_config : forall n s m, ac_GetMetricConfiguration n s m = cfg0 s m;
  so_implementation : forall n m, ac_GetMetricImplementation n m = impl0 m;
}.

Section Source.
Context (ms : list Metric) (cfg0 : string -> string -> res MetricConfiguration)
  (impl0 : string -> res MetricImplementation) `{!StableOrchestrator ms cfg0 impl0}.

(** What the service makes of the orchestrator's answers. *)
Definition cfg (s m : string) : res MetricConfiguration :=
  match cfg0 s m with OK c => OK c | Err e => Err (EWrap ("could not retrieve metric configuration for " +:+ m) e) end.
Definition impl (m : string) : res MetricImplementation :=
  match impl0 m with
  | OK i => OK i
  | Err e => Err (EWrap ("could not retrieve metric implementation for " +:+ m +:+ " from orchestrator") e)
  end.

(** The cached configurations are the orchestrator's. *)
Definition cache_current (w : W) : Prop :=
  forall s m c, is_uuid s -> cachedConfigurations (w_svc w) !! configuration_key s m = Some c ->
    cfg0 s m = OK (cached_MetricConfiguration c).

Lemma configuration_key_inj s m s' m' : is_uuid s -> is_uuid s' ->
  configuration_key s m = configuration_key s' m' -> s = s' /\ m = m'.
Proof.
  unfold is_uuid, configuration_key. intros Hs Hs' Heq. apply append_inj_length in Heq as [-> Heq]; [|congruence].
  by injection Heq.
Qed.

Lemma metrics_run l page_at n tok req acc (w : W) :
  (forall n req, ac_ListMetrics n req = OK (page_at (GetPageToken (ListMetrics_Paging req)))) ->
  collect_pages page_at n tok = Some l ->
  exists t, list_all_loop set_token_metrics Page_NextPageToken n req
      (fun req => remote (fun n => ac_ListMetrics n req)) Page_Items acc tok w
    = (Returned (OK (acc ++ l)), mkWorld (w_db w) (w_svc w) (w_tasks w) t).
Proof.
  intros Hpages. revert l tok req acc w. induction n as [|n IH]; intros l tok req acc w Hc; [done|].
  cbn [list_all_loop collect_pages] in *. unfold gtry, gbind, remote. rewrite Hpages. cbn in *.
  case_bool_decide; [injection Hc as <-; by eexists|].
  destruct (collect_pages page_at n _) as [l'|] eqn:E; [|done]. injection Hc as <-.
  edestruct IH as [t Ht]; [done|]. exists t. cbn in Ht. rewrite Ht. by rewrite <-app_assoc.
Qed.

(** The service answers the evaluator as the orchestrator would, through its own
    cache of configurations, and keeps that cache current. *)
#[global] Instance service_stable : StableSource (Src := service_source fuel) ms cfg impl cache_current.
Proof.
  constructor.
  - intros w Hw. destruct so_metrics as (page_at & Hc & Hp). cbn. unfold Metrics, ListAllPaginated, gtry, gbind.
    edestruct (metrics_run ms page_at fuel "") as [t Ht]; [done..|]. rewrite Ht. by eexists.
  - intros w s m Hs Hw. cbn. unfold MetricConfiguration_, cfg, stale. go_unfold.
    assert (Hins : forall c now tick, cfg0 s m = OK c -> cache_current (mkWorld (w_db w)
      (set_configurations (<[configuration_key s m := mkCached now c]> (cachedConfigurations (w_svc w))) (w_svc w))
      (w_tasks w) tick)).
    { intros c now tick Hc s' m' c' Hs'. cbn. rewrite lookup_insert_Some. intros [[Heq <-]|[_ Hl]]; [|by eapply Hw].
      apply configuration_key_inj in Heq as [<- <-]; done. }
    destruct (cachedConfigurations (w_svc w) !! configuration_key s m) as [c|] eqn:Ec; cbn; rewrite ?so_config.
    + rewrite (Hw s m c Hs Ec). case_bool_decide; cbn; rewrite ?so_config, ?(Hw s m c Hs Ec); eexists; split; try done.
      split; [|done]. apply Hins. by apply (Hw s m c).
    + destruct (cfg0 s m) as [c|e] eqn:E0; cbn; eexists; (split; [done|]); (split; [|done]); [by apply Hins|done].
  - intros w m Hw. cbn. unfold MetricImplementation_, impl. go_unfold. rewrite so_implementation.
    destruct (impl0 m); by eexists.
  - done.
Qed.
End Source.

(** ** Forwarding *)

(** The evidence store and the orchestrator accept streams. *)
Class ClientsUp : Prop := {
  up_evidences : forall n, exists str, ec_StoreEvidences n = OK str;
  up_results : forall n, exists str, ac_StoreAssessmentResults n = OK str;
  up_events : forall n, exists str, ac_SubscribeMetricChangeEvents n = OK str;
}.
Context `{!ClientsUp}.

(** The channel of a target, if it exists, is registered under its own name. *)
Definition well_named {Stream Msg} (s : StreamsOf Stream Msg) : Prop :=
  forall t c, channels s !! t = Some c -> sc_target c = t.

Definition ev_waiting (w : W) : list EvidenceRequest :=
  waiting (evidenceStore_Target (w_svc w)) (evidenceStoreStreams (w_svc w)).
Definition or_waiting (w : W) : list StoreAssessmentResultRequest :=
  waiting (orchestrator_Target (w_svc w)) (orchestratorStreams (w_svc w)).

(** A result the service builds for an evaluation. *)
Definition result_for (ev : Evidence) (resource : R) (data : Result) (r : AssessmentResult) : Prop :=
  AssessmentResult_MetricId r = Result_MetricID data /\
  AssessmentResult_MetricConfiguration r = Some (Result_Config data) /\
  AssessmentResult_Compliant r = Result_Compliant data /\
  AssessmentResult_EvidenceId r = Evidence_Id ev /\
  AssessmentResult_ResourceId r = resource_GetId resource /\
  AssessmentResult_ResourceTypes r = ResourceTypes resource /\
  AssessmentResult_CloudServiceId r = Evidence_CloudServiceId ev /\
  AssessmentResult_ToolId r = Some AssessmentToolId.

(** It is a new one, with an identifier and a time of its own. *)
Definition made_result (ev : Evidence) (resource : R) (data : Result) (r : AssessmentResult) : Prop :=
  exists k t, r = new_result ev resource data (uuid_at k) (time_at t).

Lemma made_result_for ev (resource : R) data r : made_result ev resource data r -> result_for ev resource data r.
Proof. intros (k & t & ->). by split_and!. Qed.

Lemma store_evidence_run ev (w : W) :
  well_named (evidenceStoreStreams (w_svc w)) -> length (ev_waiting w) < channel_cap ->
  exists w', store_evidence ev w = (Returned (OK tt), w') /\ settings w' = settings w /\
    ev_waiting w' = ev_waiting w ++
      (if isEvidenceStoreDisabled (w_svc w) then [] else [mkEvidenceRequest (Some ev)]) /\
    orchestratorStreams (w_svc w') = orchestratorStreams (w_svc w) /\ w_tasks w' = w_tasks w /\
    (flowing (evidenceStoreStreams (w_svc w)) -> flowing (evidenceStoreStreams (w_svc w'))) /\ tick_le w w'.
Proof.
  intros Hn Hroom. unfold store_evidence, gbind at 1, svc_read at 1.
  destruct (isEvidenceStoreDisabled (w_svc w)) eqn:Hdis.
  { exists w. by rewrite app_nil_r. }
  unfold gbind at 1, svc_read at 1. cbv beta iota. set (t := evidenceStore_Target (w_svc w)).
  destruct (up_evidences (w_tick w)) as [str Hstr].
  destruct (get_stream_ready t "Evidence Store" initEvidenceStoreStream str w
    (mkWorld (w_db w) (w_svc w) (w_tasks w) (w_tick w + 1))) as (c & w1 & Hg & Ht & Hc & Hq & Hd & Hw1); [|done|by apply Hn|].
  { unfold initEvidenceStoreStream. go_unfold. by rewrite Hstr. }
  unfold gbind at 1. rewrite Hg. unfold gbind. rewrite Ht.
  assert (Hroom' : length (sc_channel c) < channel_cap) by (rewrite Hq; exact Hroom).
  destruct (send_run t (mkEvidenceRequest (Some ev)) c w1 Hc Ht Hroom') as (c' & He & ->).
  pose proof He as (Ht' & Hq' & _ & _)%enqueue_Some. rewrite Ht in Ht'.
  eexists. split; [reflexivity|]. unfold ev_waiting, settings, tick_le. cbn -[waiting].
  assert (Hsame : settings w1 = settings w /\ orchestratorStreams (w_svc w1) = orchestratorStreams (w_svc w) /\
    w_tasks w1 = w_tasks w /\ (flowing (evidenceStoreStreams (w_svc w)) -> flowing (evidenceStoreStreams (w_svc w1))) /\
    tick_le w w1).
  { unfold tick_le. destruct Hw1 as [->| ->]; [done|]. cbn. split_and!; [done..| |lia]. apply flowing_started. }
  destruct Hsame as ([= Hdis1 Ht1 Hot1 Hcc1 Hpe1] & -> & -> & Hn1 & Hti). rewrite Ht1, Hdis1, Hot1, Hcc1, Hpe1.
  split_and!; [by rewrite Hdis| |done|done| |done].
  - rewrite waiting_set, decide_True, Hq', Hq by done. done.
  - intros Hf. eapply flowing_put; [by apply Hn1|exact Hc|done..].
Qed.

Lemma send_results_run ev (resource : R) rs acc (w : W) :
  well_named (orchestratorStreams (w_svc w)) ->
  (exists c, channels (orchestratorStreams (w_svc w)) !! orchestrator_Target (w_svc w) = Some c /\ sc_dead c = false) ->
  length (or_waiting w) + length rs <= channel_cap ->
  exists results w', send_results ev resource (orchestrator_Target (w_svc w)) (Some <$> rs) acc w
      = (Returned (acc ++ results), w') /\
    Forall2 (made_result ev resource) rs results /\
    or_waiting w' = or_waiting w ++ ((fun r => mkStoreAssessmentResultRequest (Some r)) <$> results) /\
    w_tasks w' = w_tasks w ++ ((fun r => InformResultHooks (Some r) None) <$> results) /\
    evidenceStoreStreams (w_svc w') = evidenceStoreStreams (w_svc w) /\ settings w' = settings w /\
    (flowing (orchestratorStreams (w_svc w)) -> flowing (orchestratorStreams (w_svc w'))) /\
    minted (w_tick w) (w_tick w') (AssessmentResult_Id <$> results) /\ tick_le w w'.
Proof.
  remember (orchestrator_Target (w_svc w)) as t eqn:Ht0. symmetry in Ht0. revert acc w Ht0.
  induction rs as [|d rs IH]; intros acc w Ht0 Hn (c & Hc & Hd) Hroom.
  { exists [], w. cbn. rewrite !app_nil_r. split_and!; try done. apply minted_nil. }
  cbn [fmap list_fmap send_results]. unfold uuid_NewString, time_Now, go_spawn, gbind at 1 2 3. cbn [w_tick w_db w_svc w_tasks].
  set (r := new_result _ _ _ _ _). set (w1 := mkWorld _ _ _ _).
  assert (Hq : or_waiting w = sc_channel c) by (unfold or_waiting, waiting; rewrite Ht0; by rewrite Hc).
  rewrite Hq in Hroom. cbn [length] in Hroom.
  assert (Hc1 : channels (@field_get W (StreamsOf OrS StoreAssessmentResultRequest) _ w1) !! t = Some c) by exact Hc.
  destruct (send_run t (mkStoreAssessmentResultRequest (Some r)) c w1 Hc1 (Hn _ _ Hc) ltac:(lia)) as (c' & He & Hs).
  unfold gbind at 1. rewrite Hs. pose proof He as (Ht' & Hq' & Hd' & _)%enqueue_Some. rewrite (Hn _ _ Hc) in Ht'.
  set (w2 := field_set _ w1).
  assert (Hw2 : or_waiting w2 = or_waiting w ++ [mkStoreAssessmentResultRequest (Some r)]).
  { unfold or_waiting at 1. cbn -[waiting]. rewrite Ht0, waiting_set, decide_True by done. by rewrite Hq', Hq. }
  destruct (IH (acc ++ [r]) w2) as (results & w' & Hrun & Hall & Hor & Htasks & Hev & Hset & Hn' & Hids & Hti);
    [done| | |rewrite Hw2, length_app, Hq; cbn; lia|].
  - intros t' c''. cbn. rewrite lookup_insert_Some. intros [[<- <-]|[_ Hl]]; [done|by apply Hn].
  - cbn. rewrite Ht', lookup_insert_eq. exists c'. by rewrite Hd'.
  - exists (r :: results), w'. rewrite Hrun. split_and!; [by rewrite <-app_assoc|constructor; [by exists (w_tick w), (w_tick w + 1)|done]|..].
    + by rewrite Hor, Hw2, <-app_assoc.
    + rewrite Htasks. change (w_tasks w2) with (w_tasks w ++ [InformResultHooks (Some r) None]). by rewrite <-app_assoc.
    + done.
    + done.
    + intros Hf. apply Hn'. by eapply flowing_put.
    + cbn [w2 w1 w_tick field_set] in Hids, Hti. unfold tick_le in Hti. cbn in Hids, Hti.
      cbn. eapply minted_cons; [|exact Hids|]; lia.
    + unfold tick_le in *. cbn in Hti. lia.
Qed.

(** The goroutine that listens to metric events, when opening the stream starts one. *)
Definition listening (l : list AssessmentTask) : Prop := l = [] \/ l = [RecvEventsLoop].

Lemma orchestrator_stream_run (w : W) : well_named (orchestratorStreams (w_svc w)) ->
  let t := orchestrator_Target (w_svc w) in
  exists c w' l, GetStream t "Orchestrator" (Some initOrchestratorStream) w = (Returned (OK c), w') /\
    sc_target c = t /\ (exists c, channels (orchestratorStreams (w_svc w')) !! t = Some c /\ sc_dead c = false) /\
    well_named (orchestratorStreams (w_svc w')) /\ orchestrator_Target (w_svc w') = t /\
    or_waiting w' = or_waiting w /\ w_tasks w' = w_tasks w ++ l /\ listening l /\
    evidenceStoreStreams (w_svc w') = evidenceStoreStreams (w_svc w) /\ settings w' = settings w /\ tick_le w w' /\
    (flowing (orchestratorStreams (w_svc w)) -> flowing (orchestratorStreams (w_svc w'))).
Proof.
  intros Hn t. destruct (up_results (w_tick w)) as [str Hstr]. destruct (up_events (w_tick w + 1)) as [evt Hevt].
  set (w1 := mkWorld (w_db w) (set_event_stream (Some evt) (w_svc w)) (w_tasks w ++ [RecvEventsLoop]) (w_tick w + 1 + 1)).
  destruct (get_stream_ready t "Orchestrator" initOrchestratorStream str w w1) as (c & w' & Hg & Ht & Hc & Hq & Hd & Hw');
    [|done|by apply Hn|].
  { unfold initOrchestratorStream, gtry, gbind, remote. rewrite Hstr. cbn. by rewrite Hevt. }
  assert (Hq' : or_waiting w' = or_waiting w).
  { unfold or_waiting at 1. replace (orchestrator_Target (w_svc w')) with t by (by destruct Hw' as [->| ->]).
    unfold waiting. cbn in Hc. by rewrite Hc. }
  destruct Hw' as [->|Hw'].
  - exists c, w, []. split_and!; [done|done|by eexists|done|done|done|by rewrite app_nil_r|by left|done..].
  - exists c, w', [RecvEventsLoop].
    split_and!; [done|done|by eexists| |by rewrite Hw'|done|by rewrite Hw'|by right|by rewrite Hw'|by rewrite Hw'|rewrite Hw'; unfold tick_le; cbn; lia|
      rewrite Hw'; apply flowing_started].
    rewrite Hw'. intros t' c'. cbn. rewrite lookup_insert_Some. intros [[<- <-]|[_ Hl]]; [done|by apply Hn].
Qed.

(** ** Assessing *)

(** What is left of the handler once the request is valid. *)
Lemma AssessEvidence_valid ctx ev (w : W) : violations (mkEvidenceRequest (Some ev)) = None ->
  AssessEvidence fuel ctx (Some (mkEvidenceRequest (Some ev))) w
  = if CheckAccess ctx AccessUpdate (Evidence_CloudServiceId ev)
    then gtry (handleEvidence fuel ev) id (fun _ => gok tt) w
    else (Returned (Err ErrPermissionDenied), w).
Proof.
  intros Hv. unfold AssessEvidence, with_valid, Validate. rewrite Hv. unfold gguard.
  change (EvidenceRequest_GetCloudServiceId _) with (Evidence_CloudServiceId ev). by destruct (CheckAccess _ _ _).
Qed.


Section Assess.
Context (ms : list Metric) (cfg0 : string -> string -> res MetricConfiguration)
  (impl0 : string -> res MetricImplementation) `{!StableOrchestrator ms cfg0 impl0}.
Context (Hnames : Forall (fun m => no_dash (Metric_Id m) = true) ms) (pkg : string).

(** The service's caches agree with the orchestrator. *)
Definition caches_good (w : W) : Prop :=
  good pkg (cfg cfg0) (impl impl0) (cache_current cfg0) w /\ known ms (pe (w_svc w)) /\
  mrtc_locked (pe (w_svc w)) = false.

Lemma settings_good w w' : settings w' = settings w -> caches_good w -> caches_good w'.
Proof.
  unfold settings. intros [= _ _ _ Hc Hp] ([Hcur Hco] & Hk & Hl). unfold caches_good, good, cache_current in *. cbn in *.
  by rewrite Hc, Hp.
Qed.

(** The handler on an accepted evidence, when the cache of applicable metrics has
    nothing or what fits the resource. *)
Lemma assess_evidence_run ctx ev m (resource : R) x rs (w : W) :
  let req := mkEvidenceRequest (Some ev) in
  violations req = None -> CheckAccess ctx AccessUpdate (Evidence_CloudServiceId ev) = true ->
  UnmarshalNew (Evidence_Resource ev) = OK m -> violations m = None -> as_resource m = Some resource ->
  caches_good w -> is_uuid (Evidence_CloudServiceId ev) -> ResourceMap resource = OK x ->
  cache_fits pkg ms (cfg cfg0) (impl impl0) (pe (w_svc w)) ev resource x ->
  assess_all pkg ms (cfg cfg0) (impl impl0) (Evidence_CloudServiceId ev) x = Returned (OK rs) ->
  well_named (evidenceStoreStreams (w_svc w)) -> length (ev_waiting w) < channel_cap ->
  well_named (orchestratorStreams (w_svc w)) -> length (or_waiting w) + length rs <= channel_cap ->
  exists w' results l, AssessEvidence fuel ctx (Some req) w = (Returned (OK tt), w') /\
    Forall2 (made_result ev resource) rs results /\
    ev_waiting w' = ev_waiting w ++ (if isEvidenceStoreDisabled (w_svc w) then [] else [req]) /\
    or_waiting w' = or_waiting w ++ ((fun r => mkStoreAssessmentResultRequest (Some r)) <$> results) /\
    w_tasks w' = w_tasks w ++ l ++ ((fun r => InformResultHooks (Some r) None) <$> results) /\ listening l /\
    mrtc_grown (createKey ev (ResourceTypes resource)) rs (pe (w_svc w)) (pe (w_svc w')) /\ caches_good w' /\
    (flowing (evidenceStoreStreams (w_svc w)) -> flowing (evidenceStoreStreams (w_svc w'))) /\
    (flowing (orchestratorStreams (w_svc w)) -> flowing (orchestratorStreams (w_svc w'))) /\
    (isEvidenceStoreDisabled (w_svc w'), evidenceStore_Target (w_svc w'), orchestrator_Target (w_svc w'))
    = (isEvidenceStoreDisabled (w_svc w), evidenceStore_Target (w_svc w), orchestrator_Target (w_svc w)) /\
    minted (w_tick w) (w_tick w') (AssessmentResult_Id <$> results) /\ tick_le w w'.
Proof.
  intros req Hv Hacc Hm Hvm Hres (Hgood & Hknown & Hlock) Hs Hx Hfit Hrs Hwev Hrev Hwor Hror.
  unfold req. rewrite AssessEvidence_valid, Hacc by done. fold req.
  unfold gtry at 1, gbind at 1, handleEvidence. unfold gtry at 1, gbind at 1, gret at 1. rewrite Hm.
  unfold with_valid, Validate. rewrite Hvm, Hres.
  destruct (eval_fits (Src := service_source fuel) pkg ms (cfg cfg0) (impl impl0) (cache_current cfg0) Hnames ev resource x rs w
    Hgood Hlock Hknown Hs Hx Hfit Hrs) as (w1 & Hrun & Hg1 & Hk1 & Hl1 & Hgrown).
  assert (Hfr : frame w1 = frame w) by (eapply keeps_run; [|exact Hrun]; apply moves_Eval; apply _).
  assert (Ht1 : tick_le w w1) by (eapply (moves_run tick_le); [|exact Hrun]; apply moves_Eval; apply _).
  unfold gbind at 1. rewrite Hrun. injection Hfr as Hdis Hes Het Hos Hot Htk.
  destruct (store_evidence_run ev w1) as (w2 & Hst & Hset2 & Hev2 & Hos2 & Htk2 & Hn2 & Ht2);
    [by rewrite Hes|unfold ev_waiting; by rewrite Hes, Het|].
  unfold gtry at 1, gbind at 1. rewrite Hst. unfold gbind at 1, svc_read at 1. cbv beta iota.
  destruct (orchestrator_stream_run w2) as (c & w3 & l & Hg & Hct & Hsome & Hwn & Hot3 & Hor3 & Htk3 & Hl & Hes3 & Hset3 & Ht3 & Hfl3);
    [by rewrite Hos2, Hos|].
  unfold gbind at 1. rewrite Hg. rewrite Hct, <-Hot3. unfold settings in Hset2. injection Hset2 as Hd2 Hett2 Hott2 Hcc2 Hpe2.
  assert (Hor : or_waiting w3 = or_waiting w) by (rewrite Hor3; unfold or_waiting; by rewrite Hos2, Hott2, Hos, Hot).
  destruct (send_results_run ev resource rs [] w3)
    as (results & w4 & Hsend & Hall & Hor4 & Htk4 & Hes4 & Hset4 & Hn4 & Hids & Ht4); [done|by rewrite Hot3|by rewrite Hor|].
  unfold gbind at 1. rewrite Hsend. rewrite Hset3 in Hset4.
  assert (Hgood4 : caches_good w4).
  { apply (settings_good w1); [|by split_and!]. rewrite Hset4. unfold settings. by rewrite Hd2, Hett2, Hott2, Hcc2, Hpe2. }
  unfold settings in Hset4. injection Hset4 as Hd4 Hett4 Hott4 Hcc4 Hpe4.
  exists w4, results, l. split_and!; [done..| | | |done| |done|by rewrite Hes4, Hes3, <-Hes| | | |unfold tick_le in *; lia].
  - unfold ev_waiting at 1. rewrite Hes4, Hes3, Hett4. fold (ev_waiting w2). rewrite Hev2, Hdis. unfold ev_waiting. by rewrite Hes, Het.
  - by rewrite Hor4, Hor.
  - by rewrite Htk4, Htk3, Htk2, Htk, <-app_assoc.
  - by rewrite Hpe4, Hpe2.
  - rewrite <-Hos, <-Hos2. auto.
  - by rewrite Hd4, Hett4, Hott4, Hd2, Hett2, Hott2, Hdis, Het, Hot.
  - unfold tick_le in *. eapply minted_weaken; [| |exact Hids]; lia.
Qed.

End Assess.


(** ** Metric configurations *)

(** A configuration event for a cloud service and a metric makes the service ask
    the orchestrator again: the next request for that configuration answers what
    the orchestrator answers then, and no prepared query of the metric is left. *)
Theorem config_event_refreshes (event : MetricChangeEvent) (w : W) :
  MetricChangeEvent_Type_ event = TYPE_CONFIG_CHANGED ->
  let s := MetricChangeEvent_CloudServiceId event in
  let m := MetricChangeEvent_MetricId event in
  exists w', handleMetricEvent event w = (Returned tt, w') /\
    fst (MetricConfiguration_ s m w') =
      Returned (match ac_GetMetricConfiguration (w_tick w') s m with
                | OK c => OK c
                | Err e => Err (EWrap ("could not retrieve metric configuration for " +:+ m) e)
                end) /\
    (forall s c, qc (pe (w_svc w')) !! query_key m s c = None) /\
    mrtc (pe (w_svc w')) = mrtc (pe (w_svc w)).
Proof.
  intros Ht s m. unfold handleMetricEvent. rewrite bool_decide_eq_true_2 by done.
  eexists. split; [reflexivity|]. cbn. split_and!; [|intros s' c|done].
  - unfold MetricConfiguration_, stale. go_unfold. fold s m. rewrite lookup_delete_eq. cbn.
    by destruct (ac_GetMetricConfiguration (w_tick w) s m).
  - rewrite map_lookup_filter. destruct (qc (pe (w_svc w)) !! _); [|done]. cbn. rewrite option_guard_False; [done|].
    intros Hk. by pose proof (eq_trans (eq_sym Hk) (query_key_prefix m s' c)).
Qed.

(** EvictionTime has no effect: however old a cached configuration is, the
    service answers with it and does not ask the orchestrator (the test compares
    the time of caching with one hour in the future). *)
Theorem cached_configuration_never_expires s m c (w : W) :
  cachedConfigurations (w_svc w) !! configuration_key s m = Some c ->
  (cachedAt c <= time_at (w_tick w))%Z ->
  MetricConfiguration_ s m w
  = (Returned (OK (cached_MetricConfiguration c)), mkWorld (w_db w) (w_svc w) (w_tasks w) (w_tick w + 1)).
Proof.
  intros Hc Ht. unfold MetricConfiguration_, stale. go_unfold. rewrite Hc. cbn.
  rewrite bool_decide_eq_false_2; [done|]. unfold EvictionTime. lia.
Qed.
End Proofs.
