(* ===== verification/AssessmentWitness.v ===== *)
(** Streams, policies and the assessment service on a concrete deployment: a
    policy engine whose policies look at one field, an orchestrator with two
    metrics of which one has no implementation, and resources with one field. *)

From S2P Require Import Prelude GoRuntime GoStrings Util Api Authz Pagination Evaluation EvaluationProofs EvaluationWitness Streams Ontology Policies PoliciesProofs Assessment AssessmentProofs.

(** ** The deployment *)

(** A resource: its id and whether its field "enabled" is set and true. *)
Record DemoResource := mkDemoResource { demo_id : string; demo_enabled : option bool }.

Definition on_off (o : option bool) : string :=
  match o with Some true => "on" | Some false => "off" | None => "" end.

#[export] Instance demo_ontology : IsResource DemoResource := {|
  resource_GetId := demo_id;
  resource_GetRaw := fun _ => "";
  resource_fields := fun _ => [("parent_id", FieldString "root"); ("labels", FieldOther)];
  resource_type_names := fun _ => ["VirtualMachine"; "Compute"];
  protojson_Marshal := fun r => OK (on_off (demo_enabled r));
|}.

#[export] Instance demo_json : JSONLibrary := fun s =>
  if bool_decide (s = "on") then OK {["enabled" := JBool true]}
  else if bool_decide (s = "off") then OK {["enabled" := JBool false]} else OK ∅.

#[export] Instance demo_any : AnyLibrary DemoResource DemoResource := {|
  UnmarshalNew := fun a => match a with
    | Some a => OK (mkDemoResource (Any_TypeUrl a)
        (if bool_decide (Any_Value a = "on") then Some true else if bool_decide (Any_Value a = "off") then Some false else None))
    | None => Err (EText "invalid empty type URL") end;
  as_resource := Some;
  anypb_New := fun r => OK (mkAnyPb (demo_id r) (on_off (demo_enabled r)));
|}.

#[export] Instance demo_text : ValueText := fun v => match v with Some (StringValue s) => s | _ => "" end.

Definition demo_config : MetricConfiguration := mkMetricConfiguration "==" (Some (BoolValue true)) true None "" "".

(** A policy is the name of the field it looks at. *)
#[export] Instance demo_opa : Opa string string := {|
  opa_NewTransaction := fun _ => OK "";
  opa_UpsertPolicy := fun _ _ code => OK code;
  opa_PrepareForEval := fun _ _ tx _ => OK tx;
  opa_Commit := fun _ => None;
  opa_Eval := fun q m =>
    OK [<["applicable" := JBool (match m !! q with Some _ => true | None => false end)]>
        (<["compliant" := match m !! q with Some (JBool b) => JBool b | _ => JBool false end]>
          {["operator" := JStr "=="]})];
  json_Marshal := fun _ => OK "";
  json_Unmarshal_config := fun _ => OK demo_config;
|}.

Definition demo_metrics : list Metric := [demo_metric "Enabled"; demo_metric "NotImplemented"].
Definition demo_cfg (s m : string) : res MetricConfiguration := OK demo_config.
Definition demo_impl (m : string) : res MetricImplementation :=
  if bool_decide (m = "Enabled") then OK (mkMetricImplementation m LANGUAGE_REGO "enabled" None)
  else Err (EStatus codes_NotFound "implementation for metric not found").

#[export] Instance demo_clients : AssessmentClients unit unit unit := {|
  ec_StoreEvidences := fun _ => OK tt;
  ac_StoreAssessmentResults := fun _ => OK tt;
  ac_SubscribeMetricChangeEvents := fun _ => OK tt;
  ac_ListMetrics := fun _ _ => OK (mkPage demo_metrics "");
  ac_GetMetricImplementation := fun _ => demo_impl;
  ac_GetMetricConfiguration := fun _ => demo_cfg;
|}.

#[export] Instance demo_up : ClientsUp.
Proof. constructor; intros n; by exists tt. Qed.

#[export] Instance demo_stable : StableOrchestrator 1 demo_metrics demo_cfg demo_impl.
Proof. constructor; [|done..]. by exists (fun _ => mkPage demo_metrics ""). Qed.

Abbreviation DemoSvc := (AssessmentService string unit unit unit).
Abbreviation DemoW := (World unit DemoSvc AssessmentTask).

Definition demo_assessment : DemoSvc := NewService [].
Definition demo_start : DemoW := mkWorld tt demo_assessment [] 0.

Definition demo_service_id : string := "00000000-0000-0000-0000-000000000000".
Definition demo_evidence (enabled : option bool) : Evidence :=
  mkEvidence "e1" (Some 0%Z) demo_service_id "tool" None (Some (mkAnyPb "vm1" (on_off enabled))).
Definition demo_vm (enabled : option bool) : DemoResource := mkDemoResource "vm1" enabled.

Lemma demo_names : Forall (fun m => no_dash (Metric_Id m) = true) demo_metrics.
Proof. repeat constructor. Qed.

Lemma demo_good : good DefaultRegoPackage (cfg demo_cfg) (impl demo_impl) (cache_current demo_cfg) demo_start.
Proof. split; [done|]. by split. Qed.

Lemma demo_known : known demo_metrics (re_get demo_start).
Proof. done. Qed.

(** The map and the verdict of a resource. *)
Definition demo_map (enabled : option bool) : gmap string json :=
  match ResourceMap (demo_vm enabled) with OK m => m | Err _ => ∅ end.
Definition demo_verdict (compliant : bool) : Result := mkResult true compliant JNull "==" "Enabled" demo_config.

Lemma demo_map_eq enabled : ResourceMap (demo_vm enabled) = OK (demo_map enabled).
Proof. by destruct enabled as [[]|]. Qed.

(** *** Keys and events *)

Lemma hash_identifies_witness : Hash demo_config = Hash (mkMetricConfiguration "==" (Some (BoolValue true)) false None "" "").
Proof. by apply (hash_identifies demo_config (mkMetricConfiguration "==" (Some (BoolValue true)) false None "" "")). Defined.

Lemma metric_event_evicts_witness : exists w',
  @HandleMetricEvent DemoW string _ (mkMetricChangeEvent TYPE_CONFIG_CHANGED "Enabled" "") demo_start = (Returned None, w').
Proof.
  destruct (metric_event_evicts (mkMetricChangeEvent TYPE_CONFIG_CHANGED "Enabled" "") demo_start) as (w' & Hw & _).
  by exists w'.
Defined.

(** *** Evaluations *)

Abbreviation demo_eval := (@Eval DemoW string string DemoResource _ _ (service_source 1) _ _ _).

Lemma eval_all_metrics_witness :
  exists w', demo_eval (demo_evidence (Some true)) (demo_vm (Some true)) demo_start
    = (Returned (OK [Some (demo_verdict true)]), w').
Proof.
  destruct (eval_all_metrics (Src := service_source 1) DefaultRegoPackage demo_metrics (cfg demo_cfg) (impl demo_impl)
    (cache_current demo_cfg) demo_names (demo_evidence (Some true)) (demo_vm (Some true)) (demo_map (Some true)) demo_start
    demo_good demo_known eq_refl eq_refl (demo_map_eq _) eq_refl) as (w' & Hw & _).
  exists w'. rewrite Hw. reflexivity.
Defined.

(** A second evidence of the same kind, with the other verdict. *)
Lemma eval_cache_transparent_witness :
  exists w1 w2, demo_eval (demo_evidence (Some true)) (demo_vm (Some true)) demo_start
      = (Returned (OK [Some (demo_verdict true)]), w1) /\
    demo_eval (demo_evidence (Some false)) (demo_vm (Some false)) w1 = (Returned (OK [Some (demo_verdict false)]), w2).
Proof.
  destruct (eval_cache_transparent (Src := service_source 1) DefaultRegoPackage demo_metrics (cfg demo_cfg) (impl demo_impl)
    (cache_current demo_cfg) demo_names (demo_evidence (Some true)) (demo_evidence (Some false)) (demo_vm (Some true))
    (demo_vm (Some false)) (demo_map (Some true)) (demo_map (Some false)) demo_start [demo_verdict true]
    demo_good demo_known eq_refl eq_refl eq_refl (demo_map_eq _) (demo_map_eq _) eq_refl eq_refl)
    as (w1 & w2 & H1 & H2).
  - vm_compute. reflexivity.
  - intros id [->|[->|Hid]%elem_of_cons]%elem_of_cons.
    + vm_compute. by eexists.
    + vm_compute. right. eexists. split; reflexivity.
    + by apply elem_of_nil in Hid.
  - exists w1, w2. split; [exact H1|]. rewrite H2. reflexivity.
Defined.

(** A first resource without the field leaves the metric out of the cache. *)
Definition demo_blind : DemoW := snd (demo_eval (demo_evidence None) (demo_vm None) demo_start).
Definition demo_second : outcome (res (list (option Result))) * DemoW :=
  demo_eval (demo_evidence (Some false)) (demo_vm (Some false))
    (snd (HandleMetricEvent (mkMetricChangeEvent TYPE_IMPLEMENTATION_CHANGED "Enabled" "") demo_blind)).

Lemma hit_ignores_other_metrics_witness :
  Forall (fun o => exists r, o = Some r /\ Result_MetricID r ∈ @nil string) (@nil (option Result)).
Proof.
  apply (hit_ignores_other_metrics (Src := service_source 1) (demo_evidence (Some false)) (demo_vm (Some false))
    (mkMetricChangeEvent TYPE_IMPLEMENTATION_CHANGED "Enabled" "") [] demo_blind (snd demo_second)).
  - vm_compute. reflexivity.
  - vm_compute. reflexivity.
Defined.

(** The non-compliant resource is never reported, although the metric applies to
    it and a fresh evaluator reports it. *)
Theorem applicability_cached_by_type :
  fst demo_second = Returned (OK []) /\
  fst (demo_eval (demo_evidence (Some false)) (demo_vm (Some false)) demo_start) = Returned (OK [Some (demo_verdict false)]).
Proof. split; vm_compute; reflexivity. Qed.

(** *** The service *)

Lemma demo_caches : caches_good demo_metrics demo_cfg demo_impl DefaultRegoPackage demo_start.
Proof. split; [exact demo_good|]. split; [exact demo_known|done]. Qed.



Definition demo_event : MetricChangeEvent := mkMetricChangeEvent TYPE_CONFIG_CHANGED "Enabled" demo_service_id.

Lemma config_event_refreshes_witness :
  exists w', @handleMetricEvent string unit unit unit demo_event demo_start = (Returned tt, w') /\
    fst (@MetricConfiguration_ string unit unit unit _ _ demo_service_id "Enabled" w') = Returned (OK demo_config).
Proof.
  destruct (@config_event_refreshes string unit unit unit _ _ _ demo_event demo_start eq_refl) as (w' & Hw & Hc & _).
  exists w'. split; [exact Hw|exact Hc].
Defined.

(** A configuration cached at time 0 is still served three hours later. *)
Definition late : Env := {| uuid_at := ticks; time_at := fun _ => (3 * EvictionTime)%Z |}.
Definition demo_cached : DemoW :=
  mkWorld tt (set_configurations {[configuration_key demo_service_id "Enabled" := mkCached 0 demo_config]} demo_assessment) [] 0.

Lemma cached_configuration_never_expires_witness :
  fst (@MetricConfiguration_ string unit unit unit _ late demo_service_id "Enabled" demo_cached) = Returned (OK demo_config).
Proof.
  rewrite (@cached_configuration_never_expires string unit unit unit _ late demo_service_id "Enabled" (mkCached 0 demo_config)
    demo_cached eq_refl ltac:(vm_compute; congruence)). reflexivity.
Defined.

(** *** Streams *)

(** A channel is opened, a message is put, and sending it fails. *)
Definition demo_chan (q : list nat) (dead : bool) : StreamChannelOf unit nat :=
  mkStreamChannel q (Some tt) "t" "Orchestrator" dead.
Definition net_opened : StreamsOf unit nat :=
  go_routine (SendLoop "t") (go_routine (RecvLoop "t") (set_chan (demo_chan [] false) NewStreamsOf)).
Definition net_queued : StreamsOf unit nat := set_chan (demo_chan [7] false) net_opened.
Definition net_failed : StreamsOf unit nat :=
  go_routine (Requeue "t" 7) (end_routine (SendLoop "t") (set_chan (demo_chan [] true) net_queued)).

Lemma net_failed_reachable : reachable (mkNet net_failed [("t", 7)] []).
Proof.
  eapply rtc_l; [exact (step_add NewStreamsOf [] [] "t" "Orchestrator" tt eq_refl)|].
  eapply rtc_l; [exact (step_put net_opened [] [] "t" (demo_chan [] false) (demo_chan [7] false) 7 eq_refl eq_refl)|].
  apply rtc_once. apply (step_failed net_queued [("t", 7)] [] "t" 7 SentEOF net_failed); [|reflexivity].
  cbn. set_solver.
Qed.


Definition demo_dead : DemoW :=
  mkWorld tt (set_or_streams (mkStreams {["o" := mkStreamChannel [] (Some tt) "o" "Orchestrator" true]} []) demo_assessment) [] 0.

Lemma get_stream_dead_witness :
  fst (GetStream (Stream := unit) (Msg := StoreAssessmentResultRequest) "o" "Orchestrator"
         (Some (fun _ => gerr (EText "refused"))) demo_dead) = Panicked.
Proof.
  exact (get_stream_dead (Stream := unit) (Msg := StoreAssessmentResultRequest) "o" "Orchestrator"
    (fun _ => gerr (EText "refused")) (mkStreamChannel [] (Some tt) "o" "Orchestrator" true) (Err (EText "refused"))
    demo_dead demo_dead eq_refl eq_refl eq_refl).
Defined.
