(* ===== verification/DiscoveryWitness.v ===== *)
(** The evidence store and the discovery service on a concrete deployment, with
    the theorems of EvidenceStore.v and DiscoveryProofs.v applied to it. *)

From S2P Require Import Prelude GoRuntime GoStrings Util Api Sql Storage Gorm MemDB Authz Pagination Evaluation EvaluationProofs EvaluationWitness Streams Ontology Policies PoliciesProofs Assessment AssessmentProofs AssessmentWitness EvidenceStore Discovery DiscoveryProofs.

(** ** Storage *)

Lemma gorm_storage_refines_witness : @StorageLaws memdb gorm_storage gorm_view.
Proof. exact (gorm_storage_refines memdb mem_gorm mem_view mem_gorm_laws). Defined.

(** ** The evidence store *)

Definition jwt_access_laws : @AuthorizationLaws _ jwt_authz := @JWT.jwt_strategy_laws _ token_ctx _.

Definition ev_of (id cs : string) : Evidence := mkEvidence id None cs "tool" None None.
Definition ev_world (l : list Evidence) : World memdb EvidenceService EvidenceTask :=
  mkWorld (mem_set T_Evidence l (mem_empty 0)) (mkEvidenceService [1] []) [] 0.

(** The caller may access "svc": of two evidences it is shown its own. *)
Lemma list_evidences_correct_witness :
  ev_of "1" "svc" ∈ rows T_Evidence (w_db (ev_world [ev_of "1" "svc"; ev_of "2" "other"])) /\
  @may_access _ jwt_authz user_ctx "svc".
Proof.
  destruct (@list_evidences_correct memdb (option MapClaims) _ _ _ jwt_authz _ _ user_ctx
    (mkListEvidencesRequest None no_paging) (ev_world [ev_of "1" "svc"; ev_of "2" "other"])) as (r & Hr & Hm).
  rewrite (run_is _ _ _ _ (OK (mkPage [ev_of "1" "svc"] "")) Hr) in Hm by (vm_compute; reflexivity).
  destruct Hm as (Hin & _ & Hpages & _).
  destruct (proj1 (Hpages (ev_of "1" "svc")) (Hin (ev_of "1" "svc") (list_elem_of_here _ _))) as (Hrow & _ & Ha).
  split; [exact Hrow|exact Ha].
Defined.

Definition stored_ev : World memdb EvidenceService EvidenceTask :=
  snd (@StoreEvidence memdb (option MapClaims) _ jwt_authz _ user_ctx (Some (mkEvidenceRequest (Some (ev_of "1" "svc"))))
         (ev_world [])).

Lemma store_evidence_roundtrip_witness :
  @may_access _ jwt_authz user_ctx "svc" /\ w_tasks stored_ev = [InformEvidenceHooks (Some (ev_of "1" "svc")) None].
Proof.
  destruct (@store_evidence_roundtrip memdb (option MapClaims) _ _ _ jwt_authz jwt_access_laws _ _ user_ctx (ev_of "1" "svc")
    (ev_world []) stored_ev) as (Ha & _ & _ & Ht & _); [vm_compute; reflexivity|].
  split; [exact Ha|exact Ht].
Defined.

(** ** The discovery service *)

(** One discoverer that lists one resource. *)
#[export] Instance demo_discoverer : Discoverer nat DemoResource := {|
  disc_Name := fun _ => "demo";
  disc_List := fun n t => (Returned (OK (replicate n (demo_vm (Some true)))), t + 1);
|}.
#[export] Instance demo_discovery_scheduler : DiscoveryScheduler (list (string * nat)) nat := {|
  ds_TagsUnique := fun s => s;
  ds_Every := fun _ tag d s =>
    if bool_decide (tag ∈ s.*1) then (Some (EText "a non-unique tag was set on the job"), s) else (None, (tag, d) :: s);
  ds_StartAsync := fun s => s;
  ds_Stop := fun s => s;
|}.
#[export] Instance demo_providers : Providers nat := {|
  azure_NewAuthorizer := fun t => (Returned (Some (EText "no credentials")), t);
  azure_NewAzureDiscovery := fun _ => 0;
  k8s_AuthFromKubeConfig := fun t => (Returned (Some (EText "no kubeconfig")), t);
  k8s_discoveries := fun _ => [];
  aws_Client := unit;
  aws_NewClient := fun t => (Returned (OK tt), t + 1);
  aws_discoveries := fun _ _ => [1];
|}.
#[export] Instance demo_assessment_client : AssessmentClient unit := fun _ => OK tt.

Definition disc_svc : DiscoveryService (list (string * nat)) nat unit :=
  Discovery.NewService [] [WithAdditionalDiscoverers [1]; WithCloudServiceID "svc"].
Definition disc_world (l : list Resource) : World memdb (DiscoveryService (list (string * nat)) nat unit) DiscoveryTask :=
  mkWorld (mem_set T_Resource l (mem_empty 0)) disc_svc [] 0.

Lemma discovery_run_correct_witness :
  exists es w', @StartDiscovery memdb _ nat unit DemoResource DemoResource _ _ _ _ _ _ 1 (disc_world []) = (Returned tt, w') /\
    length es = 1 /\ ac_waiting w' = (fun e => mkEvidenceRequest (Some e)) <$> es.
Proof.
  destruct (@discovery_run_correct memdb (list (string * nat)) nat unit DemoResource DemoResource _ _ _ _ _ _ _ _
    (fun _ => ex_intro _ tt eq_refl) 1 [demo_vm (Some true)] 1 (disc_world [])) as (es & w' & Hrun & Hall & Hq & _);
    [reflexivity|repeat constructor; by eexists|done|apply Nat.leb_le; reflexivity|].
  exists es, w'. split_and!; [exact Hrun|by rewrite <-(Forall2_length _ _ _ Hall)|exact Hq].
Defined.

Definition res_of (id cs typ : string) : Resource := mkResource id cs typ (Some (mkAnyPb id "on")).

Definition list_all_resources : ListResourcesRequest := mkListResourcesRequest None no_paging.

Lemma list_resources_correct_witness : @may_access _ jwt_authz user_ctx "svc".
Proof.
  destruct (@list_resources_correct memdb (list (string * nat)) nat unit (option MapClaims) _ _ _ jwt_authz _ _
    user_ctx list_all_resources (disc_world [res_of "1" "svc" "A,B"; res_of "2" "other" "A,B"])) as (r & Hr & Hm).
  rewrite (run_is _ _ _ _ (OK (mkPage [res_of "1" "svc" "A,B"] "")) Hr) in Hm by (vm_compute; reflexivity).
  destruct Hm as (Hin & _ & Hpages).
  exact (proj2 (proj2 (proj1 (Hpages (res_of "1" "svc" "A,B")) (Hin (res_of "1" "svc" "A,B") (list_elem_of_here _ _))))).
Defined.

Definition demo_edge : GraphEdge := mkGraphEdge "1-root" "1" "root" "parent".

Lemma graph_edges_correct_witness :
  exists r x rel, @may_access _ jwt_authz user_ctx (Resource_CloudServiceId r) /\
    ToOntologyResource (R := DemoResource) r = OK x /\ rel ∈ Related x /\ Resource_Id r +:+ "-" +:+ Relationship_Value rel = "1-root".
Proof.
  destruct (@graph_edges_correct memdb (list (string * nat)) nat unit DemoResource DemoResource (option MapClaims)
    _ _ _ jwt_authz _ _ _ _ user_ctx (mkListGraphEdgesRequest no_paging)
    (disc_world [res_of "1" "svc" "A,B"; res_of "2" "other" "A,B"]) (mkPage [demo_edge] "")
    (disc_world [res_of "1" "svc" "A,B"; res_of "2" "other" "A,B"])) as (page & _ & _ & Hin & Hacc & Hedges).
  - vm_compute. reflexivity.
  - destruct (proj1 (Hedges demo_edge) (list_elem_of_here _ _)) as (r & x & rel & Hr & Hx & Hrel & He).
    exists r, x, rel. split; [exact (proj2 (proj1 (Hacc r) (Hin r Hr)))|]. split; [exact Hx|]. split; [exact Hrel|].
    exact (eq_sym (f_equal GraphEdge_Id He)).
Defined.

(** What discovery saves for the demo resource is found under both of its types. *)
Definition saved_vm : Resource :=
  mkResource "vm1" "svc" (strings_Join (ResourceTypes (demo_vm (Some true))) ",")
    (match anypb_New (demo_vm (Some true)) with OK a => Some a | Err _ => None end).

Lemma type_filter_finds_witness :
  let q := resource_filter (mkResourceFilter (Some "Compute") None) in
  plain_hold 0 (pk T_Resource saved_vm) (col T_Resource saved_vm) (BuildConds q.1 q.2) = Some true.
Proof.
  refine (proj1 (@type_filter_finds DemoResource DemoResource _ _ (demo_vm (Some true)) "svc" "Compute" saved_vm 0 _ _) _ _).
  - vm_compute. reflexivity.
  - repeat constructor; vm_compute; congruence.
  - vm_compute. apply list_elem_of_further, list_elem_of_here.
  - apply Nat.leb_le. reflexivity.
Defined.

Lemma update_resource_nil_panics_witness :
  fst (@UpdateResource memdb (list (string * nat)) nat unit unit _ demo_authz _ (Some tt)
         (Some (mkUpdateResourceRequest None)) (disc_world [])) = Panicked.
Proof.
  exact (@update_resource_nil_panics memdb (list (string * nat)) nat unit unit _ demo_authz _ (Some tt) (disc_world [])
    eq_refl eq_refl).
Defined.

(** *** Departures *)

(** Starting the discovery a second time fails: the discoverers of the providers
    are added again, under tags that are taken. *)
Definition started_twice : outcome (res unit) * World memdb (DiscoveryService (list (string * nat)) nat unit) DiscoveryTask :=
  let start := @Start memdb _ nat unit DemoResource unit _ _ _ demo_authz _ (Some tt) (Some (mkStartDiscoveryRequest None)) in
  start (snd (start (mkWorld (mem_empty 0) (Discovery.NewService [] [WithProviders [ProviderAWS]]) [] 0))).

Theorem second_start_fails :
  fst started_twice = Returned (Err (EStatus codes_Aborted
    "could not schedule job for {demo}: a non-unique tag was set on the job")) /\
  length (discoverers (w_svc (snd started_twice))) = 2.
Proof. split; vm_compute; reflexivity. Qed.

(** A caller with access to "svc" only overwrites the resource of "other". *)
Theorem resource_takeover :
  mem_rows (w_db (snd (@UpdateResource memdb (list (string * nat)) nat unit (option MapClaims) _ jwt_authz _ user_ctx
      (Some (mkUpdateResourceRequest (Some (res_of "2" "svc" "A,B")))) (disc_world [res_of "2" "other" "A,B"])))) T_Resource
  = [res_of "2" "svc" "A,B"].
Proof. vm_compute. reflexivity. Qed.
