(* ===== verification/GoJson.v ===== *)
(** [encoding/json], as the program uses it: the trees of JSON documents, and how
    they are decoded into Go values.

    The text of a document is a parameter, [JsonText], with the documented fact that
    a marshalled document is read back.  Decoding matches the keys of an object
    without regard to case, ignores unknown keys, leaves a field alone on null
    (unless it is a pointer, slice or interface, which becomes nil) and is an error
    for a value of another type.  The details of the error text are not kept. *)

From Stdlib Require Import Ascii.
From S2P Require Import Prelude GoRuntime GoStrings Util GoText Authz.

Class JsonText := {
  json_print : json -> string;
  json_read : string -> res json;
}.

Class JsonTextLaws `{JsonText} := {
  json_read_print j : json_read (json_print j) = OK j;
}.

Definition type_error {A} : res A := Err (EText "json: cannot unmarshal").

Definition decode_string (j : json) (old : string) : res string :=
  match j with JNull => OK old | JStr s => OK s | _ => type_error end.

Definition decode_bool (j : json) (old : bool) : res bool :=
  match j with JNull => OK old | JBool b => OK b | _ => type_error end.

(** Decode the members of an object one after the other. *)
Fixpoint decode_members {A} (field : string -> json -> A -> res A) (m : list (string * json)) (x : A) : res A :=
  match m with
  | [] => OK x
  | (k, v) :: m => match field k v x with OK x => decode_members field m x | Err e => Err e end
  end.

Definition decode_object {A} (field : string -> json -> A -> res A) (j : json) (x : A) : res A :=
  match j with JNull => OK x | JObj m => decode_members field m x | _ => type_error end.

(** A number into an int64: the literal must be an integer in range. *)
Definition decode_int64 (j : json) (old : Z) : res Z :=
  match j with
  | JNull => OK old
  | JNum repr => match strconv_Atoi repr with OK n => OK n | Err _ => type_error end
  | _ => type_error
  end.

(** The literal of an int64. *)
Definition int64_literal (z : Z) : string :=
  if bool_decide (z < 0)%Z then "-" +:+ strconv_Itoa (- z) else strconv_Itoa z.

Lemma decode_int64_literal z old : (int64_min <= z <= int64_max)%Z -> decode_int64 (JNum (int64_literal z)) old = OK z.
Proof.
  intros Hz. unfold decode_int64, int64_literal. case_bool_decide; [|by rewrite atoi_itoa by lia].
  unfold strconv_Atoi, strconv_Itoa. change ("-" +:+ digits_of 20 (- z) "") with (String "-" (digits_of 20 (- z) "")).
  destruct (digits_of_value 20 (- z) "") as (Hv & Hd & Hne); [|lia|].
  { unfold int64_min, int64_max in Hz. change (10 ^ Z.of_nat 20)%Z with 100000000000000000000%Z. lia. }
  cbv beta iota. rewrite bool_decide_eq_false_2, Hd by done. cbn [orb negb all_digits]. rewrite Hv. cbn [decimal_from].
  rewrite bool_decide_eq_true_2 by lia. f_equal. lia.
Qed.
