(* ===== verification/Serializer.v ===== *)
(** persistence/gorm/serializer.go and api/assessment/metric.go: how timestamps,
    [Any] messages, values and ranges are written to and read from a column.

    A value that Go passes as [interface{}] is an inductive type with a constructor
    for each dynamic type the code asks for.  protojson is third party
    ([ProtoJson]). *)

From Stdlib Require Import Ascii.
From S2P Require Import Prelude GoRuntime GoStrings Util GoText Authz Api GoJson.

Definition ErrUnsupportedType : error := EText "unsupported type".

(** ** Columns *)

(** [driver.Value] *)
Inductive column :=
| CNil
| CTime (t : Z)
| CBytes (b : string)
| CString (s : string)
| COther.

(** google.protobuf.Timestamp *)
Record Timestamp := mkTimestamp { Timestamp_Seconds : Z; Timestamp_Nanos : Z }.

Definition empty_any : AnyPb := mkAnyPb "" "".

(** The value of a field: the nil interface, or one of the message pointers. *)
Inductive field_value :=
| FNil
| FTimestamp (t : option Timestamp)
| FAny (a : option AnyPb)
| FValue (v : option Value)
| FOther.

(** [util.IsNil(fieldValue)] *)
Definition field_IsNil (f : field_value) : bool :=
  match f with FNil | FTimestamp None | FAny None | FValue None => true | _ => false end.

(** What [Scan] does with the destination: sets it, or leaves it alone. *)
Inductive scanned := ScanErr (e : error) | ScanKept | ScanSet (f : field_value).

Class ProtoJson := {
  any_Marshal : AnyPb -> res string;
  any_Unmarshal : string -> res AnyPb;
  value_MarshalJSON : Value -> res string;
  value_UnmarshalJSON : string -> res Value;
  (** the same for a value inside another document *)
  value_json : Value -> res json;
  json_value : json -> res Value;
}.

(** A marshalled message is read back, and null is the null value. *)
Class ProtoJsonLaws `{ProtoJson} := {
  any_round_trip a s : any_Marshal a = OK s -> any_Unmarshal s = OK a;
  value_round_trip v s : value_MarshalJSON v = OK s -> value_UnmarshalJSON s = OK v;
  json_value_round_trip v j : value_json v = OK j -> json_value j = OK v;
  value_json_null v : value_json v = OK JNull <-> v = NullValue;
}.

(** ** TimestampSerializer *)

Definition nanos_per_second : Z := 1000000000.

(** [t.AsTime()] and [timestamppb.New(t)] *)
Definition AsTime (t : Timestamp) : Z := (Timestamp_Seconds t * nanos_per_second + Timestamp_Nanos t)%Z.
Definition timestamppb_New (t : Z) : Timestamp := mkTimestamp (t / nanos_per_second) (t mod nanos_per_second).

Definition TimestampSerializer_Value (fieldValue : field_value) : res column :=
  if field_IsNil fieldValue then OK CNil
  else match fieldValue with FTimestamp (Some t) => OK (CTime (AsTime t)) | _ => Err ErrUnsupportedType end.

Definition TimestampSerializer_Scan (dbValue : column) : scanned :=
  match dbValue with
  | CNil => ScanKept
  | CTime v => ScanSet (FTimestamp (Some (timestamppb_New v)))
  | _ => ScanErr ErrUnsupportedType
  end.

Section Protobuf.
Context `{ProtoJson}.

(** ** AnySerializer *)

Definition AnySerializer_Value (fieldValue : field_value) : res column :=
  if field_IsNil fieldValue then OK CNil
  else match fieldValue with
       | FAny (Some a) => match any_Marshal a with OK b => OK (CBytes b) | Err e => Err e end
       | _ => Err ErrUnsupportedType
       end.

(** The switch on the type of the column, which selects the bytes to decode. *)
Definition any_bytes (dbValue : column) : option string :=
  match dbValue with CBytes b => Some b | CString s => Some s | _ => None end.

Definition AnySerializer_Scan (dbValue : column) : scanned :=
  match dbValue with
  | CNil => ScanSet (FAny (Some empty_any))
  | _ =>
      match any_bytes dbValue with
      | None => ScanErr ErrUnsupportedType
      | Some bytes =>
          match any_Unmarshal bytes with
          | Err e => ScanErr (EWrap "could not unmarshal JSONB value into protobuf message" e)
          | OK a => ScanSet (FAny (Some a))
          end
      end
  end.

(** ** ValueSerializer *)

Definition ValueSerializer_Value (fieldValue : field_value) : res column :=
  if field_IsNil fieldValue then OK CNil
  else match fieldValue with
       | FValue (Some v) => match value_MarshalJSON v with OK b => OK (CBytes b) | Err e => Err e end
       | _ => Err ErrUnsupportedType
       end.

Definition ValueSerializer_Scan (dbValue : column) : scanned :=
  match dbValue with
  | CNil => ScanKept
  | CBytes d => match value_UnmarshalJSON d with Err e => ScanErr e | OK v => ScanSet (FValue (Some v)) end
  | _ => ScanErr ErrUnsupportedType
  end.

(** ** Range (api/assessment/metric.go) *)

(** The [Range] field, a oneof of message pointers; a nil element is a nil value
    pointer. *)
Inductive range_oneof :=
| RNil
| RAllowedValues (v : option (list (option Value)))
| ROrder (v : option (list (option Value)))
| RMinMax (m : option (Z * Z)).

Context `{JsonText}.

(** [json.Marshal] of a [[]*structpb.Value] *)
Fixpoint values_json (l : list (option Value)) : res (list json) :=
  match l with
  | [] => OK []
  | v :: l =>
      match (match v with Some v => value_json v | None => OK JNull end), values_json l with
      | OK j, OK js => OK (j :: js)
      | Err e, _ => Err e
      | _, Err e => Err e
      end
  end.

(** A message with the field [Values], which is left out when it is empty. *)
Definition values_message_json (v : option (list (option Value))) : res json :=
  match v with
  | None => OK JNull
  | Some [] => OK (JObj [])
  | Some l => match values_json l with OK js => OK (JObj [("values", JArr js)]) | Err e => Err e end
  end.

Definition minmax_json (m : option (Z * Z)) : json :=
  match m with
  | None => JNull
  | Some (lo, hi) =>
      JObj ((if bool_decide (lo = 0)%Z then [] else [("min", JNum (int64_literal lo))]) ++
            (if bool_decide (hi = 0)%Z then [] else [("max", JNum (int64_literal hi))]))
  end.

Definition Range_MarshalJSON (r : range_oneof) : res string :=
  match r with
  | RAllowedValues v => match values_message_json v with OK j => OK (json_print (JObj [("allowedValues", j)])) | Err e => Err e end
  | ROrder v => match values_message_json v with OK j => OK (json_print (JObj [("order", j)])) | Err e => Err e end
  | RMinMax m => OK (json_print (JObj [("minMax", minmax_json m)]))
  | RNil => Err ErrUnsupportedType
  end.

(** Decoding a [[]*structpb.Value]: null is the nil pointer. *)
Fixpoint decode_values (l : list json) : res (list (option Value)) :=
  match l with
  | [] => OK []
  | j :: l =>
      match (match j with JNull => OK None | _ => match json_value j with OK v => OK (Some v) | Err e => Err e end end),
            decode_values l with
      | OK v, OK vs => OK (v :: vs)
      | Err e, _ => Err e
      | _, Err e => Err e
      end
  end.

Definition decode_values_field (k : string) (v : json) (old : list (option Value)) : res (list (option Value)) :=
  if strings_EqualFold k "values" then
    match v with JNull => OK [] | JArr l => decode_values l | _ => type_error end
  else OK old.

(** A pointer to a message: null is nil, an object is decoded into a new message or
    into the one that is there. *)
Definition decode_pointer {A} (new : A) (field : string -> json -> A -> res A) (j : json) (old : option A) : res (option A) :=
  match j with
  | JNull => OK None
  | JObj m => match decode_members field m (default new old) with OK x => OK (Some x) | Err e => Err e end
  | _ => type_error
  end.

Definition decode_minmax_field (k : string) (v : json) (old : Z * Z) : res (Z * Z) :=
  if strings_EqualFold k "min" then match decode_int64 v (fst old) with OK z => OK (z, snd old) | Err e => Err e end
  else if strings_EqualFold k "max" then match decode_int64 v (snd old) with OK z => OK (fst old, z) | Err e => Err e end
  else OK old.

(** A struct with one field, named [name]. *)
Definition decode_wrapper {A} (name : string) (new : A) (field : string -> json -> A -> res A) (j : json) : res (option A) :=
  decode_object (fun k v old => if strings_EqualFold k name then decode_pointer new field v old else OK old) j None.

(** The three attempts of [UnmarshalJSON]; the second component is the error. *)
Definition range_of_json (j : json) (r : range_oneof) : range_oneof * option error :=
  match decode_wrapper "AllowedValues" [] decode_values_field j with
  | OK (Some v) => (RAllowedValues (Some v), None)
  | _ =>
      match decode_wrapper "Order" [] decode_values_field j with
      | OK (Some v) => (ROrder (Some v), None)
      | _ =>
          match decode_wrapper "MinMax" (0, 0)%Z decode_minmax_field j with
          | OK (Some m) => (RMinMax (Some m), None)
          | OK None => (r, None)
          | Err e => (r, Some e)
          end
      end
  end.

(** [json.Unmarshal(b, r)], which checks the text first. *)
Definition Range_UnmarshalJSON (b : string) (r : range_oneof) : range_oneof * option error :=
  match json_read b with Err e => (r, Some e) | OK j => range_of_json j r end.

Definition Range_Value (r : option range_oneof) : res column :=
  match r with
  | None => OK CNil
  | Some r => match Range_MarshalJSON r with
              | OK b => OK (CBytes b)
              | Err e => Err (EWrap "could not marshal JSON"
                                (EWrap "json: error calling MarshalJSON for type *assessment.Range" e))
              end
  end.

Definition Range_Scan (value : column) (r : range_oneof) : range_oneof * option error :=
  match value with
  | CBytes v => match Range_UnmarshalJSON v r with
                | (r, Some e) => (r, Some (EWrap "could not unmarshal JSON" e))
                | (r, None) => (r, None)
                end
  | _ => (r, Some ErrUnsupportedType)
  end.

(** How GORM stores a range. *)
Definition Range_GormDataType : string := "jsonb".

(** [protojson.Marshal] and [protojson.Unmarshal] of a metric configuration. *)
Context (config_Marshal : MetricConfiguration -> res string)
  (config_Unmarshal : string -> MetricConfiguration -> MetricConfiguration * option error).

Definition MetricConfiguration_MarshalJSON (x : MetricConfiguration) : res string := config_Marshal x.
Definition MetricConfiguration_UnmarshalJSON (b : string) (x : MetricConfiguration) : MetricConfiguration * option error :=
  config_Unmarshal b x.
End Protobuf.

(** ** CheckCloudServiceID *)

Definition ErrCloudServiceIDIsMissing : error := EText "cloud service id is missing".
Definition ErrCloudServiceIDIsInvalid : error := EText "cloud service id is invalid".

(** [uuid.Parse(s)] of github.com/google/uuid: whether it succeeds. *)
Class UuidLibrary := uuid_Parse_ok : string -> bool.

Definition CheckCloudServiceID `{UuidLibrary} (serviceID : string) : option error :=
  if bool_decide (serviceID = "") then Some ErrCloudServiceIDIsMissing
  else if negb (uuid_Parse_ok serviceID) then Some ErrCloudServiceIDIsInvalid
  else None.

(** ** Round trips *)

(** A protobuf timestamp is valid if its nanoseconds are those of a second. *)
Definition valid_timestamp (t : Timestamp) : Prop := (0 <= Timestamp_Nanos t < nanos_per_second)%Z.

Lemma timestamp_time t : valid_timestamp t -> timestamppb_New (AsTime t) = t.
Proof.
  unfold valid_timestamp, timestamppb_New, AsTime, nanos_per_second. destruct t as [s n]. simpl. intros Hn. f_equal.
  - rewrite Z.div_add_l by lia. rewrite Z.div_small by lia. lia.
  - rewrite Z.add_comm, Z.mod_add by lia. by apply Z.mod_small.
Qed.

(** The field values a serializer is registered for, when they are in their range. *)
Inductive column_field : field_value -> Prop :=
| field_timestamp t : valid_timestamp t -> column_field (FTimestamp (Some t))
| field_any a : column_field (FAny (Some a))
| field_struct v : column_field (FValue (Some v)).

(** The serializer by the type of the field. *)
Definition serialize `{ProtoJson} (f : field_value) : res column :=
  match f with
  | FTimestamp _ => TimestampSerializer_Value f
  | FAny _ => AnySerializer_Value f
  | FValue _ => ValueSerializer_Value f
  | _ => Err ErrUnsupportedType
  end.

Definition deserialize `{ProtoJson} (f : field_value) (c : column) : scanned :=
  match f with
  | FTimestamp _ => TimestampSerializer_Scan c
  | FAny _ => AnySerializer_Scan c
  | FValue _ => ValueSerializer_Scan c
  | _ => ScanErr ErrUnsupportedType
  end.

Section RoundTrips.
Context `{ProtoJsonLaws, JsonTextLaws}.

(** What a serializer writes to a column it reads back unchanged; a timestamp is
    always written. *)
Lemma columns_round_trip f c : column_field f -> serialize f = OK c -> deserialize f c = ScanSet f.
Proof.
  intros [t Ht|a|v]; simpl.
  - intros [= <-]. simpl. by rewrite timestamp_time.
  - unfold AnySerializer_Value. simpl. destruct (any_Marshal a) eqn:E; [|done]. intros [= <-]. simpl.
    by rewrite (any_round_trip _ _ E).
  - unfold ValueSerializer_Value. simpl. destruct (value_MarshalJSON v) eqn:E; [|done]. intros [= <-]. simpl.
    by rewrite (value_round_trip _ _ E).
Qed.

(** A nil [Any] is written as NULL and read back as an empty message; a nil
    timestamp and a nil value stay nil. *)
Lemma nil_any_not_kept :
  serialize (FAny None) = OK CNil /\ deserialize (FAny None) CNil = ScanSet (FAny (Some empty_any)) /\
  deserialize (FTimestamp None) CNil = ScanKept /\ deserialize (FValue None) CNil = ScanKept.
Proof. done. Qed.

(** *** Ranges *)

Lemma wrapper_hit {A} k name (new : A) field j : strings_EqualFold k name = true ->
  decode_wrapper name new field (JObj [(k, j)]) = decode_pointer new field j None.
Proof. intros Hk. unfold decode_wrapper. simpl. rewrite Hk. by destruct (decode_pointer _ _ _ _). Qed.

Lemma wrapper_miss {A} k name (new : A) field j : strings_EqualFold k name = false ->
  decode_wrapper name new field (JObj [(k, j)]) = OK None.
Proof. intros Hk. unfold decode_wrapper. simpl. by rewrite Hk. Qed.

Lemma values_round_trip l js : Forall (fun v => exists x, v = Some x /\ x <> NullValue) l ->
  values_json l = OK js -> decode_values js = OK l.
Proof.
  intros Hl. revert js. induction Hl as [|v l (x & -> & Hx) Hl IH]; intros js; simpl; [by intros [= <-]|].
  destruct (value_json x) as [j|] eqn:E; [|by destruct (values_json l)].
  destruct (values_json l) as [js'|]; [|done]. intros [= <-]. cbn [decode_values].
  assert (Hj : j <> JNull) by (intros ->; by apply value_json_null in E).
  rewrite (IH _ eq_refl), (json_value_round_trip _ _ E). by destruct j.
Qed.

Lemma values_message_round_trip l j : Forall (fun v => exists x, v = Some x /\ x <> NullValue) l ->
  values_message_json (Some l) = OK j -> decode_pointer [] decode_values_field j None = OK (Some l).
Proof.
  intros Hl. destruct l as [|v l]; [by intros [= <-]|]. unfold values_message_json.
  destruct (values_json (v :: l)) as [js|] eqn:E; [|done]. intros [= <-].
  cbn [decode_pointer decode_members]. unfold decode_values_field. cbn.
  by rewrite (values_round_trip _ _ Hl E).
Qed.

Lemma minmax_round_trip lo hi : (int64_min <= lo <= int64_max)%Z -> (int64_min <= hi <= int64_max)%Z ->
  decode_pointer (0, 0)%Z decode_minmax_field (minmax_json (Some (lo, hi))) None = OK (Some (lo, hi)).
Proof.
  intros Hlo Hhi.
  assert (Hm : forall z old, (int64_min <= z <= int64_max)%Z ->
     decode_minmax_field "min" (JNum (int64_literal z)) old = OK (z, snd old)).
  { intros z old Hz. unfold decode_minmax_field. change (strings_EqualFold "min" "min") with true. cbv iota. by rewrite decode_int64_literal. }
  assert (Hx : forall z old, (int64_min <= z <= int64_max)%Z ->
     decode_minmax_field "max" (JNum (int64_literal z)) old = OK (fst old, z)).
  { intros z old Hz. unfold decode_minmax_field. change (strings_EqualFold "max" "min") with false.
    change (strings_EqualFold "max" "max") with true. cbv iota. by rewrite decode_int64_literal. }
  unfold minmax_json, decode_pointer, default. repeat case_bool_decide; subst; cbn [app decode_members]; [done|..];
    rewrite ?Hm by done; cbn [decode_members]; by rewrite ?Hx.
Qed.

(** The ranges that have a faithful column: a message is set, its values are
    neither nil nor the null value, and the bounds are int64. *)
Definition storable_range (r : range_oneof) : Prop :=
  match r with
  | RAllowedValues (Some l) | ROrder (Some l) => Forall (fun v => exists x, v = Some x /\ x <> NullValue) l
  | RMinMax (Some (lo, hi)) => (int64_min <= lo <= int64_max)%Z /\ (int64_min <= hi <= int64_max)%Z
  | _ => False
  end.

(** A range written to a column is read back unchanged, whatever was in the
    destination. *)
Lemma range_column_round_trip r c r0 : storable_range r -> Range_Value (Some r) = OK c -> Range_Scan c r0 = (r, None).
Proof.
  intros Hr. unfold Range_Value, Range_MarshalJSON.
  destruct r as [|[l|]|[l|]|[[lo hi]|]]; try done.
  - destruct (values_message_json (Some l)) as [j|] eqn:E; [|done]. intros [= <-].
    unfold Range_Scan, Range_UnmarshalJSON. rewrite json_read_print. unfold range_of_json.
    by rewrite wrapper_hit, (values_message_round_trip _ _ Hr E).
  - destruct (values_message_json (Some l)) as [j|] eqn:E; [|done]. intros [= <-].
    unfold Range_Scan, Range_UnmarshalJSON. rewrite json_read_print. unfold range_of_json.
    by rewrite wrapper_miss, wrapper_hit, (values_message_round_trip _ _ Hr E).
  - intros [= <-]. destruct Hr as [Hlo Hhi]. unfold Range_Scan, Range_UnmarshalJSON. rewrite json_read_print.
    unfold range_of_json. rewrite wrapper_miss by done. rewrite wrapper_miss by done. rewrite wrapper_hit by done.
    pose proof (minmax_round_trip lo hi Hlo Hhi) as Hm. unfold minmax_json in Hm. by rewrite Hm.
Qed.


(** A null value among the allowed values comes back as a nil pointer. *)
Lemma null_value_lost c r0 : Range_Value (Some (RAllowedValues (Some [Some NullValue]))) = OK c ->
  Range_Scan c r0 = (RAllowedValues (Some [None]), None).
Proof.
  unfold Range_Value, Range_MarshalJSON, values_message_json, values_json.
  assert (Hn : value_json NullValue = OK JNull) by (by apply value_json_null). rewrite Hn. intros [= <-].
  unfold Range_Scan, Range_UnmarshalJSON. by rewrite json_read_print.
Qed.

(** A document that is none of the three ranges is accepted and changes nothing. *)
Lemma unknown_range_accepted r0 : Range_Scan (CBytes (json_print (JObj [("allowedValues", JNum "5")]))) r0 = (r0, None).
Proof. unfold Range_Scan, Range_UnmarshalJSON. by rewrite json_read_print. Qed.
End RoundTrips.
