(* ===== verification/Formatter.v ===== *)
(** logging/formatter: the two formatters of log lines.

    CapitalizeFormatter makes the first letter of a message a capital one, by way
    of [[]rune(message)] and back, so the file also has Go's conversion between
    strings and runes (UTF-8).  GRPCFormatter writes the message for a gRPC call.
    The text formatter of logrus, the colours of aurora and the case mapping of
    package unicode are parameters. *)

From Stdlib Require Import Ascii.
From S2P Require Import Prelude GoRuntime GoStrings.

(** ** Strings and runes *)

Section Runes.
Local Open Scope Z_scope.

Definition RuneError : Z := 65533.

(** A continuation byte. *)
Definition continuation (b : Z) : bool := (128 <=? b) && (b <=? 191).

(** [utf8.DecodeRune(p)] of a non-empty slice: the rune and what is left behind it;
    an invalid or overlong encoding, or that of a surrogate, is one byte. *)
Definition DecodeRune (b0 : Z) (rest : list Z) : Z * list Z :=
  if b0 <? 128 then (b0, rest)
  else if (194 <=? b0) && (b0 <=? 223) then
    match rest with
    | b1 :: rest' => if continuation b1 then ((b0 - 192) * 64 + (b1 - 128), rest') else (RuneError, rest)
    | _ => (RuneError, rest)
    end
  else if (224 <=? b0) && (b0 <=? 239) then
    match rest with
    | b1 :: b2 :: rest' =>
        if ((if b0 =? 224 then 160 else 128) <=? b1) && (b1 <=? (if b0 =? 237 then 159 else 191)) && continuation b2
        then ((b0 - 224) * 4096 + (b1 - 128) * 64 + (b2 - 128), rest') else (RuneError, rest)
    | _ => (RuneError, rest)
    end
  else if (240 <=? b0) && (b0 <=? 244) then
    match rest with
    | b1 :: b2 :: b3 :: rest' =>
        if ((if b0 =? 240 then 144 else 128) <=? b1) && (b1 <=? (if b0 =? 244 then 143 else 191)) && continuation b2 && continuation b3
        then ((b0 - 240) * 262144 + (b1 - 128) * 4096 + (b2 - 128) * 64 + (b3 - 128), rest') else (RuneError, rest)
    | _ => (RuneError, rest)
    end
  else (RuneError, rest).

(** [[]rune(s)], over at most [fuel] runes; every rune takes at least one byte. *)
Fixpoint runes_from (fuel : nat) (l : list Z) : list Z :=
  match fuel, l with
  | S fuel, b :: l => let '(r, l) := DecodeRune b l in r :: runes_from fuel l
  | _, _ => []
  end.

(** A Unicode scalar value. *)
Definition scalar (r : Z) : bool := (0 <=? r) && (r <=? 1114111) && negb ((55296 <=? r) && (r <=? 57343)).

(** [utf8.AppendRune(nil, r)] *)
Definition EncodeRune (r : Z) : list Z :=
  let r := if scalar r then r else RuneError in
  if r <? 128 then [r]
  else if r <? 2048 then [192 + r / 64; 128 + r mod 64]
  else if r <? 65536 then [224 + r / 4096; 128 + (r / 64) mod 64; 128 + r mod 64]
  else [240 + r / 262144; 128 + (r / 4096) mod 64; 128 + (r / 64) mod 64; 128 + r mod 64].

(** Decide the comparisons of an encoding by arithmetic. *)
Ltac rune_cases :=
  repeat match goal with
  | |- context [if ?b then _ else _] => destruct b eqn:?; try (exfalso; Z.to_euclidean_division_equations; lia)
  end.

Lemma rune_decode_encode r rest : scalar r = true ->
  exists b l, EncodeRune r = b :: l /\ DecodeRune b (l ++ rest) = (r, rest).
Proof.
  intros Hs. unfold EncodeRune. rewrite Hs. unfold scalar in Hs.
  assert (Hr : 0 <= r <= 1114111 /\ ~ (55296 <= r <= 57343)) by lia. clear Hs.
  destruct (Z.ltb_spec r 128); [|destruct (Z.ltb_spec r 2048); [|destruct (Z.ltb_spec r 65536)]];
    do 2 eexists; (split; [reflexivity|]); unfold DecodeRune, continuation, app.
  - by rewrite (proj2 (Z.ltb_lt _ _)).
  - rune_cases. f_equal. Z.to_euclidean_division_equations; lia.
  - destruct (Z.eqb_spec (224 + r / 4096) 224), (Z.eqb_spec (224 + r / 4096) 237); rune_cases;
      f_equal; Z.to_euclidean_division_equations; lia.
  - destruct (Z.eqb_spec (240 + r / 262144) 240), (Z.eqb_spec (240 + r / 262144) 244); rune_cases;
      f_equal; Z.to_euclidean_division_equations; lia.
Qed.

Lemma encode_length r : (1 <= length (EncodeRune r))%nat.
Proof. unfold EncodeRune. repeat case_match; cbn; lia. Qed.

(** Reading back what was encoded. *)
Lemma runes_encoded rs fuel : Forall (fun r => scalar r = true) rs -> (length (rs ≫= EncodeRune) <= fuel)%nat ->
  runes_from fuel (rs ≫= EncodeRune) = rs.
Proof.
  intros Hrs. revert fuel. induction Hrs as [|r rs Hr _ IH]; intros fuel Hf; [by destruct fuel|].
  rewrite bind_cons in *. pose proof (encode_length r) as Hl. rewrite length_app in Hf.
  destruct fuel as [|fuel]; [lia|]. destruct (rune_decode_encode r (rs ≫= EncodeRune) Hr) as (b & l & He & Hd).
  rewrite He in *. cbn [app runes_from] in *. rewrite Hd. f_equal. apply IH. cbn [length] in Hf. lia.
Qed.
End Runes.

(** Bytes of a string and back. *)
Definition bytes_of (s : string) : list Z := (fun c => Z.of_nat (nat_of_ascii c)) <$> String.list_ascii_of_string s.
Definition string_of (l : list Z) : string := String.string_of_list_ascii ((fun b => ascii_of_nat (Z.to_nat b)) <$> l).

(** [[]rune(s)] and [string(runes)] *)
Definition to_runes (s : string) : list Z := let l := bytes_of s in runes_from (length l) l.
Definition of_runes (rs : list Z) : string := string_of (rs ≫= EncodeRune).

Lemma encode_bytes r : Forall (fun b => 0 <= b < 256)%Z (EncodeRune r).
Proof.
  unfold EncodeRune. assert (Hr : (0 <= (if scalar r then r else RuneError) <= 1114111)%Z).
  { destruct (scalar r) eqn:Hs; [unfold scalar in Hs; lia|unfold RuneError; lia]. }
  revert Hr. generalize (if scalar r then r else RuneError). clear r. intros r Hr.
  destruct (Z.ltb_spec r 128); [|destruct (Z.ltb_spec r 2048); [|destruct (Z.ltb_spec r 65536)]];
    repeat constructor; Z.to_euclidean_division_equations; lia.
Qed.

Lemma bytes_of_string_of l : Forall (fun b => 0 <= b < 256)%Z l -> bytes_of (string_of l) = l.
Proof.
  intros Hl. unfold bytes_of, string_of. rewrite String.list_ascii_of_string_of_list_ascii.
  induction Hl as [|b l Hb _ IH]; [done|]. cbn. rewrite IH, nat_ascii_embedding by lia. by rewrite Z2Nat.id by lia.
Qed.

(** Runes that are scalar values are read back from their string. *)
Lemma runes_round_trip rs : Forall (fun r => scalar r = true) rs -> to_runes (of_runes rs) = rs.
Proof.
  intros Hrs. unfold to_runes, of_runes. rewrite bytes_of_string_of; [by apply runes_encoded|].
  apply Forall_bind. eapply Forall_impl; [exact Hrs|]. intros r _. apply encode_bytes.
Qed.

(** ** Entries *)

(** A value of [logrus.Fields], an interface: a string or something else. *)
Inductive field := FString (s : string) | FOther.

Record Entry := mkEntry { Message : string; Data : gmap string field }.

(** A [logrus.Formatter]: the entry, which it may change, and the line. *)
Definition formatter : Type := Entry -> Entry * res string.

(** [unicode.ToUpper] *)
Class UnicodeCase := unicode_ToUpper : Z -> Z.

(** github.com/logrusorgru/aurora: coloured values and their text. *)
Class Aurora (V : Type) := {
  aurora_BrightWhite : string -> V;
  aurora_BgRed : V -> V;
  aurora_BgGreen : V -> V;
  aurora_BgCyan : V -> V;
  aurora_BgGray : Z -> V -> V;
  aurora_text : V -> string;
}.

(** ** capitalize.go *)

Section Capitalize.
Context `{UnicodeCase}.

Definition capitalized (message : string) : string :=
  match to_runes message with
  | r :: rs => of_runes (unicode_ToUpper r :: rs)
  | [] => message
  end.

Definition CapitalizeFormatter_Format (f : formatter) (entry : Entry) : Entry * res string :=
  let entry := if bool_decide (Message entry = "") then entry else mkEntry (capitalized (Message entry)) (Data entry) in
  f entry.

(** A message in UTF-8 is handed on with only its first letter changed, and an
    empty one as it is; formatting the entry again, which keeps the message,
    changes nothing more. *)
Theorem capitalize_correct f data r rs : Forall (fun r => scalar r = true) (r :: rs) ->
  scalar (unicode_ToUpper r) = true -> unicode_ToUpper (unicode_ToUpper r) = unicode_ToUpper r ->
  let msg := of_runes (unicode_ToUpper r :: rs) in
  CapitalizeFormatter_Format f (mkEntry (of_runes (r :: rs)) data) = f (mkEntry msg data) /\
  CapitalizeFormatter_Format f (mkEntry msg data) = f (mkEntry msg data) /\
  CapitalizeFormatter_Format f (mkEntry "" data) = f (mkEntry "" data).
Proof.
  intros Hrs Hup Hidem msg. apply Forall_cons in Hrs as [Hr Hrs].
  assert (Hne : forall x, scalar x = true -> of_runes (x :: rs) <> "").
  { intros x Hx Heq. assert (Ht : to_runes (of_runes (x :: rs)) = x :: rs) by (apply runes_round_trip; by constructor).
    by rewrite Heq in Ht. }
  unfold CapitalizeFormatter_Format. cbn [Message Data]. unfold msg.
  rewrite !bool_decide_eq_false_2 by auto. unfold capitalized. rewrite !runes_round_trip by (by constructor).
  by rewrite Hidem.
Qed.
End Capitalize.

(** ** grpc.go *)

Section GRPC.
Context {V : Type} `{Aurora V}.

(** [data[key].(string)], or "UNKNOWN". *)
Definition string_field (data : gmap string field) (key : string) : string :=
  match data !! key with Some (FString s) => s | _ => "UNKNOWN" end.

Definition padded (s : string) : V := aurora_BrightWhite (" " +:+ s +:+ " ").

Definition getCode (data : gmap string field) : V :=
  let code := string_field data "grpc.code" in
  if bool_decide (code = "Unauthenticated") then aurora_BgRed (padded code)
  else if bool_decide (code = "OK") then aurora_BgGreen (padded code)
  else aurora_BgGray 128 (padded code).

Definition getService (data : gmap string field) : V :=
  let service := string_field data "grpc.service" in
  if bool_decide (service = "UNKNOWN") then aurora_BgGray 128 (padded service) else aurora_BgCyan (padded service).

Definition getMethod (data : gmap string field) : V :=
  let method := string_field data "grpc.method" in
  if bool_decide (method = "UNKNOWN") then aurora_BgGray 128 (padded method) else aurora_BgGreen (padded method).

Definition GRPCFormatter_Format (text_formatter : formatter) (entry : Entry) : Entry * res string :=
  let entry := match Data entry !! "grpc.service" with
    | Some _ => mkEntry ("gRPC call " +:+ aurora_text (getService (Data entry)) +:+ " | "
                  +:+ aurora_text (getMethod (Data entry)) +:+ " | " +:+ aurora_text (getCode (Data entry))) (Data entry)
    | None => entry
    end in
  text_formatter entry.

(** Calls are shown by service, method and code, red exactly for calls that were
    refused as unauthenticated and green exactly for those that succeeded; other
    entries are not touched. *)
Theorem grpc_line f entry :
  (Data entry !! "grpc.service" = None -> GRPCFormatter_Format f entry = f entry) /\
  (forall s m c, Data entry !! "grpc.service" = Some (FString s) -> Data entry !! "grpc.method" = Some (FString m) ->
     Data entry !! "grpc.code" = Some (FString c) -> s <> "UNKNOWN" -> m <> "UNKNOWN" ->
     GRPCFormatter_Format f entry = f (mkEntry ("gRPC call " +:+ aurora_text (aurora_BgCyan (padded s)) +:+ " | "
       +:+ aurora_text (aurora_BgGreen (padded m)) +:+ " | "
       +:+ aurora_text ((if bool_decide (c = "Unauthenticated") then aurora_BgRed
                         else if bool_decide (c = "OK") then aurora_BgGreen else aurora_BgGray 128) (padded c))) (Data entry))).
Proof.
  unfold GRPCFormatter_Format, getService, getMethod, getCode, string_field. split; [by intros ->|].
  intros s m c -> -> -> Hs Hm. rewrite !(bool_decide_eq_false_2 (_ = "UNKNOWN")) by done. by repeat case_bool_decide.
Qed.
End GRPC.
