(* ===== verification/Server.v ===== *)
(** server/auth_middleware.go and server/grpc.go: authentication of gRPC calls and
    the interceptors in front of the handlers.

    The server's configuration is the service record of a [World]: the options and
    the interceptors share it, as they share the variable [c] in the source.  The
    JWT library, the JWKS client and the auth interceptor of go-grpc-middleware are
    third party ([AuthLibrary], [GrpcAuth]). *)

From S2P Require Import Prelude GoRuntime GoStrings Util GoText Api Authz.

(** ** auth_middleware.go *)

Definition DefaultJWKSURL : string := "http://localhost:8080/v1/auth/certs".

Record AuthConfig (Jwks Key : Type) := mkAuthConfig {
  ac_jwksURL : string;
  ac_useJWKS : bool;
  ac_jwks : option Jwks;
  ac_publicKey : option Key;
}.
Arguments mkAuthConfig {Jwks Key}.
Arguments ac_jwksURL {Jwks Key}.
Arguments ac_useJWKS {Jwks Key}.
Arguments ac_jwks {Jwks Key}.
Arguments ac_publicKey {Jwks Key}.

(** The function that gives the JWT library the key of a token. *)
Inductive keyfunc (Jwks Key : Type) := JwksKeyfunc (jwks : option Jwks) | PublicKeyfunc (key : option Key).
Arguments JwksKeyfunc {Jwks Key}.
Arguments PublicKeyfunc {Jwks Key}.

(** [keyfunc.Get], [jwt.ParseWithClaims], and [context.WithValue(ctx, AuthContextKey, claims)]. *)
Class AuthLibrary (Ctx Claims Jwks Key : Type) := {
  keyfunc_Get : string -> nat -> res Jwks;
  jwt_ParseWithClaims : string -> keyfunc Jwks Key -> nat -> res Claims;
  context_WithValue : Ctx -> Claims -> Ctx;
}.

(** A context with a value has the metadata of the context it was made from. *)
Class AuthLibraryLaws (Ctx Claims Jwks Key : Type) `{TokenLibrary Ctx, AuthLibrary Ctx Claims Jwks Key} : Prop := {
  metadata_kept (ctx : Ctx) (claims : Claims) scheme :
    AuthFromMD (context_WithValue ctx claims) scheme = AuthFromMD ctx scheme;
}.

(** ** grpc.go: configuration *)

Inductive ServiceDesc :=
| Orchestrator_ServiceDesc | Assessment_ServiceDesc | EvidenceStore_ServiceDesc | Discovery_ServiceDesc
| ExperimentalDiscovery_ServiceDesc | Evaluation_ServiceDesc.

#[global] Instance ServiceDesc_eq_dec : EqDecision ServiceDesc.
Proof. solve_decision. Defined.

Definition svc_desc_index (d : ServiceDesc) : nat :=
  match d with
  | Orchestrator_ServiceDesc => 0 | Assessment_ServiceDesc => 1 | EvidenceStore_ServiceDesc => 2
  | Discovery_ServiceDesc => 3 | ExperimentalDiscovery_ServiceDesc => 4 | Evaluation_ServiceDesc => 5
  end.

Definition svc_desc_of (n : nat) : option ServiceDesc :=
  [Orchestrator_ServiceDesc; Assessment_ServiceDesc; EvidenceStore_ServiceDesc; Discovery_ServiceDesc;
   ExperimentalDiscovery_ServiceDesc; Evaluation_ServiceDesc] !! n.

#[global] Instance ServiceDesc_countable : Countable ServiceDesc.
Proof. refine (inj_countable svc_desc_index svc_desc_of _). by intros []. Defined.

(** An implementation of a service is named. *)
Record config (Jwks Key Opt : Type) := mkConfig {
  c_grpcOpts : list Opt;
  c_services : gmap ServiceDesc string;
  c_publicEndpoints : list string;
  c_ac : AuthConfig Jwks Key;
  c_reflection : bool;
}.
Arguments mkConfig {Jwks Key Opt}.
Arguments c_grpcOpts {Jwks Key Opt}.
Arguments c_services {Jwks Key Opt}.
Arguments c_publicEndpoints {Jwks Key Opt}.
Arguments c_ac {Jwks Key Opt}.
Arguments c_reflection {Jwks Key Opt}.

Section Options.
Context {Jwks Key Opt : Type}.
Abbreviation cfg := (config Jwks Key Opt).
Abbreviation StartGRPCServerOption := (cfg -> cfg).

Definition set_ac (ac : AuthConfig Jwks Key) (c : cfg) : cfg :=
  mkConfig (c_grpcOpts c) (c_services c) (c_publicEndpoints c) ac (c_reflection c).

Definition WithJWKS (url : string) : StartGRPCServerOption := fun c =>
  set_ac (mkAuthConfig url true (ac_jwks (c_ac c)) (ac_publicKey (c_ac c))) c.

Definition WithPublicKey (publicKey : option Key) : StartGRPCServerOption := fun c =>
  set_ac (mkAuthConfig (ac_jwksURL (c_ac c)) (ac_useJWKS (c_ac c)) (ac_jwks (c_ac c)) publicKey) c.

Definition with_service (d : ServiceDesc) (svc : string) : StartGRPCServerOption := fun c =>
  mkConfig (c_grpcOpts c) (<[d := svc]> (c_services c)) (c_publicEndpoints c) (c_ac c) (c_reflection c).

Definition WithOrchestrator := with_service Orchestrator_ServiceDesc.
Definition WithAssessment := with_service Assessment_ServiceDesc.
Definition WithEvidenceStore := with_service EvidenceStore_ServiceDesc.
Definition WithDiscovery := with_service Discovery_ServiceDesc.
Definition WithExperimentalDiscovery := with_service ExperimentalDiscovery_ServiceDesc.
Definition WithEvaluation := with_service Evaluation_ServiceDesc.

Definition WithReflection : StartGRPCServerOption := fun c =>
  mkConfig (c_grpcOpts c) (c_services c) (c_publicEndpoints c) (c_ac c) true.

Definition WithPublicEndpoints (endpoints : list string) : StartGRPCServerOption := fun c =>
  mkConfig (c_grpcOpts c) (c_services c) endpoints (c_ac c) (c_reflection c).

Definition WithAdditionalGRPCOpts (opts : list Opt) : StartGRPCServerOption := fun c =>
  mkConfig (c_grpcOpts c ++ opts) (c_services c) (c_publicEndpoints c) (c_ac c) (c_reflection c).
End Options.

Definition ReflectionMethod : string := "/grpc.reflection.v1.ServerReflection/ServerReflectionInfo".

(** ** The interceptors *)

Section Server.
Context {DB T Ctx Claims Jwks Key Opt : Type} `{TokenLibrary Ctx, AuthLibrary Ctx Claims Jwks Key}.
Abbreviation W := (World DB (config Jwks Key Opt) T).

Definition invalid_token : error := EStatus codes_Unauthenticated "invalid auth token".

(** The clock decides about expired tokens: parsing depends on when it happens. *)
Definition parseToken (token : string) (ac : AuthConfig Jwks Key) : Go W (res Claims) :=
  r <- remote (jwt_ParseWithClaims token
                 (if ac_useJWKS ac then JwksKeyfunc (ac_jwks ac) else PublicKeyfunc (ac_publicKey ac))) ;;
  match r with
  | Err e => gerr (EWrap "could not validate JWT" e)
  | OK claims => gok claims
  end.

(** The lazy loading of the key set: an error leaves the configuration without one. *)
Definition load_jwks : Go W (option error) :=
  ac <- svc_read c_ac ;;
  match ac_jwks ac with
  | Some _ => gret None
  | None =>
      if ac_useJWKS ac then
        r <- remote (keyfunc_Get (ac_jwksURL ac)) ;;
        match r with
        | Err e => gret (Some (EStatus codes_FailedPrecondition ("could not retrieve JWKS: " +:+ Error e)))
        | OK jwks =>
            svc_modify (set_ac (mkAuthConfig (ac_jwksURL ac) (ac_useJWKS ac) (Some jwks) (ac_publicKey ac))) ;;; gret None
        end
      else gret None
  end.

Definition AuthFunc (ctx : Ctx) : Go W (res Ctx) :=
  e <- load_jwks ;;
  match e with
  | Some e => gerr e
  | None =>
      match AuthFromMD ctx "bearer" with
      | Err _ => gerr invalid_token
      | OK token =>
          ac <- svc_read c_ac ;;
          r <- parseToken token ac ;;
          match r with
          | Err _ => gerr invalid_token
          | OK tokenInfo => gok (context_WithValue ctx tokenInfo)
          end
      end
  end.

(** A unary handler, a unary interceptor, and the same for streams; a stream is
    its context. *)
Definition UnaryHandler (Req Resp : Type) : Type := Ctx -> Req -> Go W (res Resp).
Definition UnaryInterceptor (Req Resp : Type) : Type := Ctx -> Req -> string -> UnaryHandler Req Resp -> Go W (res Resp).
Definition StreamHandler : Type := Ctx -> Go W (option error).
Definition StreamInterceptor : Type := Ctx -> string -> StreamHandler -> Go W (option error).

(** The loop over the filters. *)
Fixpoint any_filter (filters : list (string -> Go W bool)) (method : string) : Go W bool :=
  match filters with
  | [] => gret false
  | f :: filters => b <- f method ;; if b : bool then gret true else any_filter filters method
  end.

Definition UnaryServerInterceptorWithFilter {Req Resp} (interceptor : UnaryInterceptor Req Resp)
    (filters : list (string -> Go W bool)) : UnaryInterceptor Req Resp := fun ctx req method handler =>
  b <- any_filter filters method ;;
  if b : bool then handler ctx req else interceptor ctx req method handler.

Definition StreamServerInterceptorWithFilter (interceptor : StreamInterceptor)
    (filters : list (string -> Go W bool)) : StreamInterceptor := fun ss method handler =>
  b <- any_filter filters method ;;
  if b : bool then handler ss else interceptor ss method handler.

Definition UnaryReflectionFilter (method : string) : Go W bool := gret (bool_decide (method = ReflectionMethod)).
Definition StreamReflectionFilter (method : string) : Go W bool := gret (bool_decide (method = ReflectionMethod)).

(** The loop over the public endpoints. *)
Fixpoint is_endpoint (endpoints : list string) (method : string) : bool :=
  match endpoints with
  | [] => false
  | e :: endpoints => if bool_decide (method = e) then true else is_endpoint endpoints method
  end.

Definition UnaryPublicEndpointFilter (method : string) : Go W bool :=
  endpoints <- svc_read c_publicEndpoints ;; gret (is_endpoint endpoints method).
Definition StreamPublicEndpointFilter (method : string) : Go W bool :=
  endpoints <- svc_read c_publicEndpoints ;; gret (is_endpoint endpoints method).

(** The auth interceptors of go-grpc-middleware. *)
Class GrpcAuth := {
  grpc_auth_Unary : forall {Req Resp}, (Ctx -> Go W (res Ctx)) -> UnaryInterceptor Req Resp;
  grpc_auth_Stream : (Ctx -> Go W (res Ctx)) -> StreamInterceptor;
}.

(** They call the function for every RPC and end it with its error, or run the
    handler with the context it returns. *)
Class GrpcAuthLaws `{GrpcAuth} : Prop := {
  unary_auth {Req Resp} auth ctx (req : Req) method (handler : UnaryHandler Req Resp) w :
    grpc_auth_Unary auth ctx req method handler w =
    (newCtx <-? auth ctx ! id ;; handler newCtx req) w;
  stream_auth auth ctx method (handler : StreamHandler) w :
    grpc_auth_Stream auth ctx method handler w =
    (r <- auth ctx ;; match r with Err e => gret (Some e) | OK newCtx => handler newCtx end) w;
}.

(** The last interceptor of the chain that [StartGRPCServer] installs. *)
Definition unary_interceptor `{GrpcAuth} {Req Resp} : UnaryInterceptor Req Resp :=
  UnaryServerInterceptorWithFilter (grpc_auth_Unary AuthFunc) [UnaryReflectionFilter; UnaryPublicEndpointFilter].
Definition stream_interceptor `{GrpcAuth} : StreamInterceptor :=
  StreamServerInterceptorWithFilter (grpc_auth_Stream AuthFunc) [StreamReflectionFilter; StreamPublicEndpointFilter].

(** [grpc.ChainUnaryInterceptor(l...)] and the same for streams: the first
    interceptor is the outermost. *)
Fixpoint ChainUnaryInterceptor {Req Resp} (l : list (UnaryInterceptor Req Resp)) : UnaryInterceptor Req Resp :=
  fun ctx req method handler =>
  match l with
  | [] => handler ctx req
  | i :: l => i ctx req method (fun ctx req => ChainUnaryInterceptor l ctx req method handler)
  end.

Fixpoint ChainStreamInterceptor (l : list StreamInterceptor) : StreamInterceptor := fun ctx method handler =>
  match l with
  | [] => handler ctx
  | i :: l => i ctx method (fun ctx => ChainStreamInterceptor l ctx method handler)
  end.

(** The chains, with the interceptors of grpc_ctxtags and grpc_logrus in front. *)
Definition unary_chain `{GrpcAuth} {Req Resp} (tags logging : UnaryInterceptor Req Resp) : UnaryInterceptor Req Resp :=
  ChainUnaryInterceptor [tags; logging; unary_interceptor].
Definition stream_chain `{GrpcAuth} (tags logging : StreamInterceptor) : StreamInterceptor :=
  ChainStreamInterceptor [tags; logging; stream_interceptor].

(** *** StartGRPCServer *)

(** A started server: its listener's address, the registered services, whether
    reflection is registered, and the number of options it was created with. *)
Record Server := mkServer {
  server_addr : string;
  server_services : list (ServiceDesc * string);
  server_reflection : bool;
  server_options : list Opt;
}.

(** [net.Listen("tcp", addr)], and the two chain options the server starts with. *)
Class ServerLibrary := {
  net_Listen : string -> nat -> option error;
  chain_options : list Opt;
}.

Definition StartGRPCServer `{ServerLibrary} (addr : string) (opts : list (config Jwks Key Opt -> config Jwks Key Opt))
  : Go W (res Server) :=
  e <- remote (net_Listen addr) ;;
  match e with
  | Some e => gerr (EWrap "could not listen" e)
  | None =>
      svc_modify (fun _ => foldl (fun c o => o c)
        (mkConfig chain_options ∅ [] (mkAuthConfig "" false None None) false) opts) ;;;
      c <- svc_read id ;;
      gok (mkServer addr (map_to_list (c_services c)) (c_reflection c) (c_grpcOpts c))
  end.
End Server.

(** ** Who reaches a handler *)

Section Authentication.
Context {DB T Ctx Claims Jwks Key Opt : Type}.
Context `{AuthLibraryLaws Ctx Claims Jwks Key}.
Abbreviation W := (World DB (config Jwks Key Opt) T).

(** The key with which tokens are verified. *)
Definition key_of (ac : AuthConfig Jwks Key) : keyfunc Jwks Key :=
  if ac_useJWKS ac then JwksKeyfunc (ac_jwks ac) else PublicKeyfunc (ac_publicKey ac).

(** The token was verified, with the configured key; a key set has been loaded. *)
Definition verified (c : config Jwks Key Opt) (token : string) (claims : Claims) : Prop :=
  (exists t, jwt_ParseWithClaims (Ctx := Ctx) token (key_of (c_ac c)) t = OK claims) /\
  (ac_useJWKS (c_ac c) = true -> is_Some (ac_jwks (c_ac c))).

(** Authentication changes nothing but the cached key set. *)
Definition only_keys_loaded (w w' : W) : Prop :=
  w_db w' = w_db w /\ w_tasks w' = w_tasks w /\ c_services (w_svc w') = c_services (w_svc w) /\
  c_publicEndpoints (w_svc w') = c_publicEndpoints (w_svc w) /\
  ac_useJWKS (c_ac (w_svc w')) = ac_useJWKS (c_ac (w_svc w)) /\
  ac_publicKey (c_ac (w_svc w')) = ac_publicKey (c_ac (w_svc w)) /\
  (forall k, ac_jwks (c_ac (w_svc w)) = Some k -> ac_jwks (c_ac (w_svc w')) = Some k).

(** Why a call is refused. *)
Definition refusal (e : error) : Prop := e = invalid_token \/ exists msg, e = EStatus codes_FailedPrecondition msg.

Lemma load_jwks_outcome (w : W) :
  exists e w', load_jwks w = (Returned e, w') /\ only_keys_loaded w w' /\
    match e with
    | None => ac_useJWKS (c_ac (w_svc w')) = true -> is_Some (ac_jwks (c_ac (w_svc w')))
    | Some e => refusal e
    end.
Proof.
  unfold load_jwks, gbind, svc_read, svc_modify, remote, gret, only_keys_loaded, refusal.
  destruct (ac_jwks (c_ac (w_svc w))) as [k|] eqn:Ek.
  { exists None, w. rewrite Ek. split_and!; eauto. }
  destruct (ac_useJWKS (c_ac (w_svc w))) eqn:Eu.
  2: { exists None, w. split_and!; congruence. }
  destruct (keyfunc_Get _ _) as [jwks|e].
  - eexists None, _. split; [reflexivity|]. cbn. split_and!; eauto; congruence.
  - eexists (Some _), _. split; [reflexivity|]. cbn. split_and!; eauto; congruence.
Qed.

Lemma AuthFunc_outcome ctx (w : W) :
  exists r w', AuthFunc ctx w = (Returned r, w') /\ only_keys_loaded w w' /\
    match r with
    | OK ctx' => exists token claims, AuthFromMD ctx' "bearer" = OK token /\ verified (w_svc w') token claims
    | Err e => refusal e
    end.
Proof.
  destruct (load_jwks_outcome w) as (e & w1 & Hl & Hk & He). unfold AuthFunc. rewrite (gbind_eq _ _ _ _ _ Hl).
  destruct e as [e|]; [by eexists (Err e), w1|].
  destruct (AuthFromMD ctx "bearer") as [token|] eqn:Et; [|eexists (Err _), w1; split_and!; [done..|by left]].
  unfold parseToken, svc_read, gbind, remote, gret, gok, gerr. fold (key_of (c_ac (w_svc w1))).
  destruct (jwt_ParseWithClaims token (key_of (c_ac (w_svc w1))) (w_tick w1)) as [claims|e] eqn:Ep.
  - eexists (OK _), _. split; [reflexivity|]. split; [done|]. exists token, claims. rewrite metadata_kept.
    split; [done|]. split; [by exists (w_tick w1)|done].
  - eexists (Err _), _. split; [reflexivity|]. split; [done|]. by left.
Qed.

Context `{!GrpcAuth (DB := DB) (T := T) (Ctx := Ctx) (Jwks := Jwks) (Key := Key) (Opt := Opt)} `{!GrpcAuthLaws}.

(** A method that needs no token. *)
Definition open_method (w : W) (method : string) : bool :=
  bool_decide (method = ReflectionMethod) || bool_decide (method ∈ c_publicEndpoints (w_svc w)).

Lemma is_endpoint_spec l m : is_endpoint l m = bool_decide (m ∈ l).
Proof.
  induction l as [|e l IH]; simpl; [done|]. destruct (bool_decide (m = e)) eqn:Hm.
  - apply bool_decide_eq_true in Hm. symmetry. apply bool_decide_eq_true_2. set_solver.
  - apply bool_decide_eq_false in Hm. rewrite IH. apply bool_decide_ext. set_solver.
Qed.

Lemma unary_filters method (w : W) :
  any_filter [UnaryReflectionFilter; UnaryPublicEndpointFilter] method w = (Returned (open_method w method), w).
Proof.
  unfold open_method. cbn. unfold gbind, svc_read, gret, UnaryPublicEndpointFilter, UnaryReflectionFilter, gret, gbind.
  case_bool_decide; [done|]. cbn. unfold gbind, gret. rewrite is_endpoint_spec. by destruct (bool_decide _).
Qed.

Lemma stream_filters method (w : W) :
  any_filter [StreamReflectionFilter; StreamPublicEndpointFilter] method w = (Returned (open_method w method), w).
Proof. apply unary_filters. Qed.

Lemma unary_authenticated {Req Resp} ctx (req : Req) method (handler : UnaryHandler Req Resp) (w : W) :
  if open_method w method then unary_interceptor ctx req method handler w = handler ctx req w
  else
    (exists e w', unary_interceptor ctx req method handler w = (Returned (Err e), w') /\
       refusal e /\ only_keys_loaded w w') \/
    (exists ctx' w' token claims, unary_interceptor ctx req method handler w = handler ctx' req w' /\
       only_keys_loaded w w' /\ AuthFromMD ctx' "bearer" = OK token /\ verified (w_svc w') token claims).
Proof.
  unfold unary_interceptor, UnaryServerInterceptorWithFilter. rewrite (gbind_eq _ _ _ _ _ (unary_filters method w)).
  destruct (open_method w method); [done|]. rewrite unary_auth. unfold gtry.
  destruct (AuthFunc_outcome ctx w) as (r & w' & Hr & Hk & Ho). rewrite (gbind_eq _ _ _ _ _ Hr). destruct r as [ctx'|e].
  - right. destruct Ho as (token & claims & ? & ?). by exists ctx', w', token, claims.
  - left. by exists e, w'.
Qed.

(** C23. A unary call reaches its handler without a token exactly for the reflection
    method and the configured public endpoints.  Every other call is refused
    without running the handler, or the handler runs in a context whose bearer
    token, the one the authorization strategy reads, was verified with the
    configured key. *)
Theorem unary_calls_authenticated {Req Resp} ctx (req : Req) method (handler : UnaryHandler Req Resp) (w : W) :
  if open_method w method then unary_interceptor ctx req method handler w = handler ctx req w
  else
    (exists e w', unary_interceptor ctx req method handler w = (Returned (Err e), w') /\
       refusal e /\ only_keys_loaded w w') \/
    (exists ctx' w' token claims, unary_interceptor ctx req method handler w = handler ctx' req w' /\
       only_keys_loaded w w' /\ AuthFromMD ctx' "bearer" = OK token /\ verified (w_svc w') token claims).
Proof. apply unary_authenticated. Qed.

(** An interceptor that runs what follows once, with a context that has the caller's
    metadata, and answers what it answers. *)
Definition transparent {Req Resp} (i : UnaryInterceptor (DB := DB) (T := T) (Ctx := Ctx) (Jwks := Jwks) (Key := Key) (Opt := Opt) Req Resp) : Prop :=
  forall ctx req method (handler : UnaryHandler Req Resp) (w : W), exists ctx',
    AuthFromMD ctx' "bearer" = AuthFromMD ctx "bearer" /\ i ctx req method handler w = handler ctx' req w.

(** Tagging and logging in front of the authentication change nothing about who
    reaches a handler. *)
Theorem unary_chain_authenticated {Req Resp} tags logging ctx (req : Req) method (handler : UnaryHandler Req Resp) (w : W) :
  transparent tags -> transparent logging ->
  (open_method w method = true /\ exists ctx', AuthFromMD ctx' "bearer" = AuthFromMD ctx "bearer" /\
     unary_chain tags logging ctx req method handler w = handler ctx' req w) \/
  (open_method w method = false /\
    ((exists e w', unary_chain tags logging ctx req method handler w = (Returned (Err e), w') /\
        refusal e /\ only_keys_loaded w w') \/
     (exists ctx' w' token claims, unary_chain tags logging ctx req method handler w = handler ctx' req w' /\
        only_keys_loaded w w' /\ AuthFromMD ctx' "bearer" = OK token /\ verified (w_svc w') token claims))).
Proof.
  intros Ht Hl.
  destruct (Ht ctx req method (fun ctx req => ChainUnaryInterceptor [logging; unary_interceptor] ctx req method handler) w)
    as (c1 & Hc1 & Heq1).
  destruct (Hl c1 req method (fun ctx req => ChainUnaryInterceptor [unary_interceptor] ctx req method handler) w) as (c2 & Hc2 & Heq2).
  assert (Heq : unary_chain tags logging ctx req method handler w = unary_interceptor c2 req method handler w)
    by exact (eq_trans Heq1 Heq2).
  rewrite Heq.
  pose proof (unary_authenticated c2 req method handler w) as Hu. destruct (open_method w method); [left|right]; [|done].
  split; [done|]. exists c2. by rewrite Hc2, Hc1.
Qed.

(** The same for streams. *)
Lemma stream_calls_authenticated ctx method (handler : StreamHandler) (w : W) :
  if open_method w method then stream_interceptor ctx method handler w = handler ctx w
  else
    (exists e w', stream_interceptor ctx method handler w = (Returned (Some e), w') /\ refusal e /\ only_keys_loaded w w') \/
    (exists ctx' w' token claims, stream_interceptor ctx method handler w = handler ctx' w' /\
       only_keys_loaded w w' /\ AuthFromMD ctx' "bearer" = OK token /\ verified (w_svc w') token claims).
Proof.
  unfold stream_interceptor, StreamServerInterceptorWithFilter. rewrite (gbind_eq _ _ _ _ _ (stream_filters method w)).
  destruct (open_method w method); [done|]. rewrite stream_auth.
  destruct (AuthFunc_outcome ctx w) as (r & w' & Hr & Hk & Ho). rewrite (gbind_eq _ _ _ _ _ Hr). destruct r as [ctx'|e].
  - right. destruct Ho as (token & claims & ? & ?). by exists ctx', w', token, claims.
  - left. by exists e, w'.
Qed.
End Authentication.
