(* ===== verification/Connection.v ===== *)
(** api/connection.go and api/authorizer.go: RPC connections that are established
    by the first call, and the credentials of a call.

    The sequential behaviour is a program in the [Go] monad on the connection
    record.  A second model interleaves the calls of several goroutines step by
    step, with the read-write lock of [init]. *)

From Stdlib Require Import Ascii.
From S2P Require Import Prelude GoRuntime GoStrings Util GoText.

(** ** net.SplitHostPort *)

Definition is_Some_b {A} (o : option A) : bool := match o with Some _ => true | None => false end.

Fixpoint index_byte (s : string) (c : ascii) : option nat :=
  match s with
  | EmptyString => None
  | String a s => if bool_decide (a = c) then Some 0 else match index_byte s c with Some n => Some (S n) | None => None end
  end.

Fixpoint last_index_byte (s : string) (c : ascii) : option nat :=
  match s with
  | EmptyString => None
  | String a s =>
      match last_index_byte s c with
      | Some n => Some (S n)
      | None => if bool_decide (a = c) then Some 0 else None
      end
  end.

Definition addr_error {A} (hostport reason : string) : res A := Err (EText ("address " +:+ hostport +:+ ": " +:+ reason)).

(** The host and port of "host:port" or "[host]:port". *)
Definition net_SplitHostPort (hostport : string) : res (string * string) :=
  match last_index_byte hostport ":" with
  | None => addr_error hostport "missing port in address"
  | Some i =>
      let finish host (j k : nat) :=
        if is_Some_b (index_byte (str_drop j hostport) "[") then addr_error hostport "unexpected '[' in address"
        else if is_Some_b (index_byte (str_drop k hostport) "]") then addr_error hostport "unexpected ']' in address"
        else OK (host, str_drop (i + 1) hostport) in
      match hostport with
      | String "[" _ =>
          match index_byte hostport "]" with
          | None => addr_error hostport "missing ']' in address"
          | Some end_ =>
              if bool_decide (end_ + 1 = String.length hostport) then addr_error hostport "missing port in address"
              else if bool_decide (end_ + 1 = i) then finish (str_drop 1 (str_take end_ hostport)) 1 (end_ + 1)
              else if bool_decide (String.get (end_ + 1) hostport = Some ":"%char)
                   then addr_error hostport "too many colons in address"
                   else addr_error hostport "missing port in address"
          end
      | _ =>
          let host := str_take i hostport in
          if is_Some_b (index_byte host ":") then addr_error hostport "too many colons in address"
          else finish host 0 0
      end
  end.

(** ** authorizer.go *)

Record Token := mkToken { Token_Type : string; AccessToken : string }.

(** An authorizer, by its token source: the token at a time, refreshed if needed;
    and [credentials.CheckSecurityLevel] for the call's transport. *)
Class TokenSource (A : Type) := {
  token_of : A -> nat -> res Token;
  CheckSecurityLevel : nat -> option error;
}.

Definition RequireTransportSecurity : bool := false.

Inductive DialOption (A O : Type) :=
| WithTLS (serverName : string)
| WithInsecure
| WithPerRPCCredentials (auth : A)
| AdditionalOption (o : O).
Arguments WithTLS {A O}.
Arguments WithInsecure {A O}.
Arguments WithPerRPCCredentials {A O}.
Arguments AdditionalOption {A O}.

Definition DefaultGrpcDialOptions {A O} (hostport : string) (auth : option A) (additionalOpts : list O)
  : list (DialOption A O) :=
  let transport := match net_SplitHostPort hostport with
                   | OK (host, port) => if bool_decide (port = "443") then WithTLS host else WithInsecure
                   | Err _ => WithInsecure
                   end in
  [transport] ++ match auth with Some a => [WithPerRPCCredentials a] | None => [] end ++ (AdditionalOption <$> additionalOpts).

(** ** connection.go *)

Inductive connectivity := Idle | Connecting | Ready | TransientFailure | Shutdown.

#[global] Instance connectivity_eq_dec : EqDecision connectivity.
Proof. solve_decision. Defined.

Record RPCConnection (A O C : Type) := mkRPCConnection {
  conn_Target : string;
  conn_Opts : list O;
  conn_authorizer : option A;
  conn_cc : option C;
}.
Arguments mkRPCConnection {A O C}.
Arguments conn_Target {A O C}.
Arguments conn_Opts {A O C}.
Arguments conn_authorizer {A O C}.
Arguments conn_cc {A O C}.

Definition io_EOF : error := EText "EOF".
Definition io_ErrUnexpectedEOF : error := EText "unexpected EOF".

Section Connection.
Context {DB T A O C : Type}.
Abbreviation conn := (RPCConnection A O C).
(** The connection is a pointer, which may be nil. *)
Abbreviation W := (World DB (option conn) T).

(** google.golang.org/grpc: dialling, and a connection's state and calls. *)
Class Grpc (Stream : Type) := {
  grpc_Dial : string -> list (DialOption A O) -> nat -> res C;
  cc_GetState : C -> nat -> connectivity;
  cc_Invoke : C -> string -> nat -> option error;
  cc_NewStream : C -> string -> nat -> res Stream;
}.

Definition set_cc (cc : option C) (c : conn) : conn := mkRPCConnection (conn_Target c) (conn_Opts c) (conn_authorizer c) cc.

Definition NewRPCConnection (target : string) (opts : list O) : conn := mkRPCConnection target opts None None.

Definition SetAuthorizer (auth : option A) : Go W unit :=
  c <- svc_read id ;; c <- gderef c ;;
  svc_modify (fun _ => Some (mkRPCConnection (conn_Target c) (conn_Opts c) auth (conn_cc c))).

Definition ForceReconnect : Go W unit :=
  c <- svc_read id ;; c <- gderef c ;; svc_modify (fun _ => Some (set_cc None c)).

Context {Stream : Type} `{Grpc Stream}.

(** The check under the read lock. *)
Definition established (c : conn) : Go W bool :=
  match conn_cc c with
  | None => gret false
  | Some cc => s <- remote (cc_GetState cc) ;; gret (bool_decide (s <> Shutdown))
  end.

Definition init : Go W (option error) :=
  c <- svc_read id ;;
  match c with
  | None => gret (Some (EText "RPC connection not configured"))
  | Some c =>
      ok <- established c ;;
      if ok : bool then gret None
      else
        r <- remote (grpc_Dial (conn_Target c) (DefaultGrpcDialOptions (conn_Target c) (conn_authorizer c) (conn_Opts c))) ;;
        match r with
        | Err e => svc_modify (fun _ => Some (set_cc None c)) ;;;
                   gret (Some (EWrap ("could not connect to gPRC target " +:+ conn_Target c) e))
        | OK cc => svc_modify (fun _ => Some (set_cc (Some cc) c)) ;;; gret None
        end
  end.

Definition is_eof (e : error) : bool := errors_Is e io_EOF || errors_Is e io_ErrUnexpectedEOF.

(** [conn.cc] after [init]. *)
Definition client_conn : Go W C :=
  c <- svc_read id ;; c <- gderef c ;; gderef (conn_cc c).

Definition Invoke (method : string) : Go W (option error) :=
  e <- init ;;
  match e with
  | Some e => gret (Some e)
  | None =>
      cc <- client_conn ;;
      e <- remote (cc_Invoke cc method) ;;
      match e with
      | Some e => (if is_eof e then ForceReconnect else gret tt) ;;; gret (Some e)
      | None => gret None
      end
  end.

Definition NewStream (method : string) : Go W (res Stream) :=
  e <- init ;;
  match e with
  | Some e => gerr e
  | None =>
      cc <- client_conn ;;
      r <- remote (cc_NewStream cc method) ;;
      match r with
      | Err e => (if is_eof e then ForceReconnect else gret tt) ;;; gerr e
      | OK stream => gok stream
      end
  end.

(** [(p *oauthAuthorizer) GetRequestMetadata(ctx)] *)
Definition GetRequestMetadata `{TokenSource A} (p : A) : Go W (res (gmap string string)) :=
  token <-? remote (token_of p) ! id ;;
  insecure <- (if RequireTransportSecurity then remote CheckSecurityLevel else gret None) ;;
  match insecure with
  | Some e => gerr (EText ("unable to transfer OAuthAuthorizer PerRPCCredentials: " +:+ Error e))
  | None => gok {["authorization" := Token_Type token +:+ " " +:+ AccessToken token]}
  end.

(** *** The calls of one goroutine *)

Definition dial_options (c : conn) : list (DialOption A O) :=
  DefaultGrpcDialOptions (conn_Target c) (conn_authorizer c) (conn_Opts c).

(** The connection is usable at the time of the check. *)
Definition alive (c : conn) (w : W) : bool :=
  match conn_cc c with Some cc => bool_decide (cc_GetState cc (w_tick w) <> Shutdown) | None => false end.

Lemma init_outcome c (w : W) : w_svc w = Some c ->
  exists e k w', init w = (Returned e, w') /\ w_svc w' = Some (set_cc k c) /\
    match e with
    | None => exists cc, k = Some cc /\
        (if alive c w then conn_cc c = Some cc else exists t, grpc_Dial (conn_Target c) (dial_options c) t = OK cc)
    | Some e => alive c w = false /\ k = None /\ exists e' t, grpc_Dial (conn_Target c) (dial_options c) t = Err e' /\
        e = EWrap ("could not connect to gPRC target " +:+ conn_Target c) e'
    end.
Proof.
  intros Hw. unfold init, established, alive, svc_read, svc_modify, remote, gbind, gret, id. rewrite Hw.
  destruct c as [target opts auth [cc|]]; cbn.
  - destruct (bool_decide (cc_GetState cc (w_tick w) <> Shutdown)).
    + eexists None, (Some cc), _. split; [reflexivity|]. split; [done|]. eauto.
    + destruct (grpc_Dial _ _ _) as [cc'|e] eqn:E; (eexists _, _, _; split; [reflexivity|]; split; [reflexivity|]); eauto 10.
  - destruct (grpc_Dial _ _ _) as [cc'|e] eqn:E; (eexists _, _, _; split; [reflexivity|]; split; [reflexivity|]); eauto 10.
Qed.

(** A call on a configured connection always returns.  It is made on the
    established connection, or on one dialled for it with the connection's target
    and credentials; if the dial fails its error is returned.  After an EOF the
    connection is dropped, so that the next call dials again. *)
Theorem invoke_correct c method (w : W) : w_svc w = Some c ->
  exists r k w', Invoke method w = (Returned r, w') /\ w_svc w' = Some (set_cc k c) /\
    ((exists e t, alive c w = false /\ grpc_Dial (conn_Target c) (dial_options c) t = Err e /\
        r = Some (EWrap ("could not connect to gPRC target " +:+ conn_Target c) e) /\ k = None) \/
     (exists cc t, (if alive c w then conn_cc c = Some cc
                    else exists t', grpc_Dial (conn_Target c) (dial_options c) t' = OK cc) /\
        r = cc_Invoke cc method t /\
        k = match r with Some e => if is_eof e then None else Some cc | None => Some cc end)).
Proof.
  intros Hw. destruct (init_outcome c w Hw) as (e & k & w1 & Hi & Hw1 & He). unfold Invoke.
  rewrite (gbind_eq _ _ _ _ _ Hi). destruct e as [e|].
  { destruct He as (Ha & -> & e' & t & Hd & ->). eexists _, None, w1. split; [reflexivity|]. split; [done|]. left. eauto 10. }
  destruct He as (cc & -> & Hcc).
  unfold client_conn, ForceReconnect, svc_read, svc_modify, remote, gbind, gret, gderef, id. rewrite Hw1. cbn.
  destruct (cc_Invoke cc method (w_tick w1)) as [e|] eqn:Ei; [destruct (is_eof e) eqn:Ee|];
    rewrite ?Hw1; cbn; (eexists _, _, _; split; [reflexivity|]; split; [first [exact Hw1|reflexivity]|]);
    right; exists cc, (w_tick w1); rewrite Ei, ?Ee; done.
Qed.
End Connection.

(** ** Concurrent calls

    Where a goroutine is inside [Invoke]; connections are numbered in the order in
    which they are dialled. *)
Module Concurrent.
Inductive pc :=
| PStart                (** before [conn.m.RLock()] *)
| PReading              (** holds the read lock *)
| PWant                 (** released it, before [conn.m.Lock()] *)
| PDialing              (** holds the write lock *)
| PReady                (** [init] returned nil *)
| PCalling (cc : nat)   (** in [conn.cc.Invoke] *)
| PDone
| PPanicked.            (** [conn.cc] was nil *)

#[export] Instance pc_eq_dec : EqDecision pc.
Proof. solve_decision. Defined.

Record state := mkState { cc : option nat; dials : nat; procs : list pc }.

(** Taking and releasing the lock of the check is part of the neighbouring step;
    the connection may be found shut down; [ForceReconnect] takes no lock. *)
Inductive step : state -> state -> Prop :=
| s_rlock k n ps i : ps !! i = Some PStart -> PDialing ∉ ps -> step (mkState k n ps) (mkState k n (<[i := PReading]> ps))
| s_valid c n ps i : ps !! i = Some PReading -> step (mkState (Some c) n ps) (mkState (Some c) n (<[i := PReady]> ps))
| s_invalid k n ps i : ps !! i = Some PReading -> step (mkState k n ps) (mkState k n (<[i := PWant]> ps))
| s_lock k n ps i : ps !! i = Some PWant -> PDialing ∉ ps -> PReading ∉ ps ->
    step (mkState k n ps) (mkState k n (<[i := PDialing]> ps))
| s_dialled k n ps i : ps !! i = Some PDialing -> step (mkState k n ps) (mkState (Some n) (S n) (<[i := PReady]> ps))
| s_dial_failed k n ps i : ps !! i = Some PDialing -> step (mkState k n ps) (mkState None n (<[i := PDone]> ps))
| s_call c n ps i : ps !! i = Some PReady -> step (mkState (Some c) n ps) (mkState (Some c) n (<[i := PCalling c]> ps))
| s_nil n ps i : ps !! i = Some PReady -> step (mkState None n ps) (mkState None n (<[i := PPanicked]> ps))
| s_returned k n ps i c : ps !! i = Some (PCalling c) -> step (mkState k n ps) (mkState k n (<[i := PDone]> ps))
| s_eof k n ps i c : ps !! i = Some (PCalling c) -> step (mkState k n ps) (mkState None n (<[i := PDone]> ps)).

Inductive steps : nat -> state -> state -> Prop :=
| steps_0 s : steps 0 s s
| steps_S n s s' s'' : steps n s s' -> step s' s'' -> steps (S n) s s''.

(** [n] goroutines that each make a call on a new connection. *)
Definition start (n : nat) : state := mkState None 0 (replicate n PStart).

Definition reachable (n : nat) (s : state) : Prop := exists k, steps k (start n) s.

Definition finished (p : pc) : bool := match p with PDone | PPanicked => true | _ => false end.

(** The steps a goroutine can still make. *)
Definition weight (p : pc) : nat :=
  match p with
  | PStart => 6 | PReading => 5 | PWant => 4 | PDialing => 3 | PReady => 2 | PCalling _ => 1 | PDone | PPanicked => 0
  end.

Definition total (s : state) : nat := sum_list (weight <$> procs s).

Lemma sum_insert (f : pc -> nat) l i x y : l !! i = Some x -> sum_list (f <$> <[i := y]> l) + f x = sum_list (f <$> l) + f y.
Proof.
  revert i. induction l as [|z l IH]; intros [|i] Hi; simplify_eq/=; [lia|]. specialize (IH i Hi). lia.
Qed.

(** Every step brings a goroutine nearer to its end. *)
Lemma step_decreases s s' : step s s' -> total s' < total s.
Proof.
  unfold total. destruct 1 as [? ? ps i Hi|? ? ps i Hi|? ? ps i Hi|? ? ps i Hi|? ? ps i Hi|? ? ps i Hi|? ? ps i Hi|? ps i Hi
    |? ? ps i ? Hi|? ? ps i ? Hi]; cbn [procs];
    match goal with |- sum_list (weight <$> <[_ := ?y]> _) < _ => pose proof (sum_insert weight ps i _ y Hi) as Hs end;
    cbn [weight] in Hs; lia.
Qed.

Lemma steps_bounded n s s' : steps n s s' -> total s' + n <= total s.
Proof. induction 1 as [|n s s' s'' _ IH Hs]; [lia|]. apply step_decreases in Hs. lia. Qed.

Lemma total_start n : total (start n) = 6 * n.
Proof. unfold total, start. cbn. rewrite fmap_replicate. induction n; simpl in *; lia. Qed.

(** A goroutine that has not finished can step, or waits for one that can. *)
Lemma progress s : existsb (fun p => negb (finished p)) (procs s) = true -> exists s', step s s'.
Proof.
  destruct s as [k n ps]. cbn. intros He.
  destruct (decide (PDialing ∈ ps)) as [Hd|Hd].
  { apply list_elem_of_lookup in Hd as [i Hi]. eexists. by apply s_dialled with (i := i). }
  destruct (decide (PReading ∈ ps)) as [Hr|Hr].
  { apply list_elem_of_lookup in Hr as [i Hi]. eexists. by apply s_invalid with (i := i). }
  apply existsb_exists in He as (p & Hp & Hf). apply list_elem_of_In, list_elem_of_lookup in Hp as [i Hi].
  destruct p; try done.
  - eexists. by apply s_rlock with (i := i).
  - by destruct Hr; eapply list_elem_of_lookup_2.
  - eexists. by apply s_lock with (i := i).
  - by destruct Hd; eapply list_elem_of_lookup_2.
  - destruct k as [c|]; eexists; [by apply s_call with (i := i)|by apply s_nil with (i := i)].
  - eexists. by eapply s_returned with (i := i).
Qed.

(** *** Mutual exclusion *)

Definition exclusive (ps : list pc) : Prop :=
  forall i, ps !! i = Some PDialing -> forall j p, ps !! j = Some p -> p = PDialing \/ p = PReading -> j = i.

Lemma exclusive_insert ps i y : exclusive ps -> y <> PDialing ->
  (y = PReading -> PDialing ∉ ps) -> exclusive (<[i := y]> ps).
Proof.
  intros Hx Hy Hr a Ha j p Hj Hp. apply list_lookup_insert_Some in Ha as [(_ & ? & _)|[_ Ha]]; [congruence|].
  apply list_lookup_insert_Some in Hj as [(_ & ? & _)|[_ Hj]]; [|by eapply Hx].
  destruct Hp as [?| ?]; [congruence|]. destruct Hr; [congruence|]. by eapply list_elem_of_lookup_2.
Qed.

Lemma exclusive_lock ps i : PDialing ∉ ps -> PReading ∉ ps -> exclusive (<[i := PDialing]> ps).
Proof.
  intros Hd Hr a Ha j p Hj Hp. apply list_lookup_insert_Some in Ha as [(? & _ & _)|[_ Ha]].
  - apply list_lookup_insert_Some in Hj as [(? & _ & _)|[_ Hj]]; [congruence|].
    apply list_elem_of_lookup_2 in Hj. by destruct Hp as [-> | ->].
  - by apply list_elem_of_lookup_2 in Ha.
Qed.

Lemma step_exclusive s s' : step s s' -> exclusive (procs s) -> exclusive (procs s').
Proof. destruct 1; cbn; intros Hx; first [by apply exclusive_lock|by apply exclusive_insert]. Qed.

Lemma steps_exclusive k n s : steps k (start n) s -> exclusive (procs s).
Proof.
  remember (start n) as s0 eqn:E. induction 1 as [s|k s s' s'' _ IH Hs]; subst.
  - intros i Hi. cbn in Hi. apply lookup_replicate in Hi as [[=] _].
  - eapply step_exclusive; [done|by apply IH].
Qed.


(** *** One goroutine, and two *)

(** A single call never finds the connection missing. *)
Definition ready_connected (s : state) : Prop :=
  exists p, procs s = [p] /\ p <> PPanicked /\ (p = PReady -> cc s <> None).

Lemma single_call_safe s : reachable 1 s -> PPanicked ∉ procs s.
Proof.
  intros [k Hk]. assert (Hr : ready_connected s) by (remember (start 1) as s0 eqn:E; induction Hk as [s|k s s' s'' _ IH Hs]; subst;
    [by exists PStart|]; destruct (IH eq_refl) as (p & Hp & Hn & Hc); destruct Hs as [? ? ps i Hi|? ? ps i Hi|? ? ps i Hi
    |? ? ps i Hi|? ? ps i Hi|? ? ps i Hi|? ? ps i Hi|? ps i Hi|? ? ps i ? Hi|? ? ps i ? Hi]; cbn in *; subst ps;
    destruct i as [|i]; try done; injection Hi as ->; try (eexists; split; [reflexivity|by split]); by destruct (Hc eq_refl)).
  destruct Hr as (p & -> & Hn & _). set_solver.
Qed.

(** Two calls: when the first ends with an EOF between the check and the call of
    the second, the second dereferences nil. *)
Lemma concurrent_eof_panics : exists s, reachable 2 s /\ PPanicked ∈ procs s.
Proof.
  exists (mkState None 1 [PDone; PPanicked]). split; [|set_solver]. exists 9.
  eapply steps_S; [|by apply (s_nil 1 [PDone; PReady] 1)].
  eapply steps_S; [|by apply (s_eof (Some 0) 1 [PCalling 0; PReady] 0 0)].
  eapply steps_S; [|by apply (s_valid 0 1 [PCalling 0; PReading] 1)].
  eapply steps_S; [|apply (s_rlock (Some 0) 1 [PCalling 0; PStart] 1); [done|set_solver]].
  eapply steps_S; [|by apply (s_call 0 1 [PReady; PStart] 0)].
  eapply steps_S; [|by apply (s_dialled None 0 [PDialing; PStart] 0)].
  eapply steps_S; [|apply (s_lock None 0 [PWant; PStart] 0); [done|set_solver..]].
  eapply steps_S; [|by apply (s_invalid None 0 [PReading; PStart] 0)].
  eapply steps_S; [|apply (s_rlock None 0 [PStart; PStart] 0); [done|set_solver]].
  apply steps_0.
Qed.

(** Two first calls may both dial: the connection of the first is lost. *)
Lemma concurrent_double_dial : exists s, reachable 2 s /\ dials s = 2 /\ procs s = [PReady; PReady] /\ cc s = Some 1.
Proof.
  exists (mkState (Some 1) 2 [PReady; PReady]). split; [|done]. exists 8.
  eapply steps_S; [|by apply (s_dialled (Some 0) 1 [PReady; PDialing] 1)].
  eapply steps_S; [|apply (s_lock (Some 0) 1 [PReady; PWant] 1); [done|set_solver..]].
  eapply steps_S; [|by apply (s_dialled None 0 [PDialing; PWant] 0)].
  eapply steps_S; [|apply (s_lock None 0 [PWant; PWant] 0); [done|set_solver..]].
  eapply steps_S; [|by apply (s_invalid None 0 [PWant; PReading] 1)].
  eapply steps_S; [|by apply (s_invalid None 0 [PReading; PReading] 0)].
  eapply steps_S; [|apply (s_rlock None 0 [PReading; PStart] 1); [done|set_solver]].
  eapply steps_S; [|apply (s_rlock None 0 [PStart; PStart] 0); [done|set_solver]].
  apply steps_0.
Qed.
End Concurrent.
