(* ===== verification/Gateway.v ===== *)
(** The REST gateway's reverse proxy: the handlers that grpc-gateway generates from
    the HTTP annotations of the services (api/*/*.pb.gw.go), as far as they have a
    shape in common.  GatewayRoutes.v has the handlers themselves.

    A handler decodes the body, takes parameters from the path and from the query,
    and calls the service.  grpc-gateway's runtime is third party: decoding and
    populating messages are the operations of [GatewayRuntime] and the choice of a
    handler for a request is [ServeMux]. *)

From S2P Require Import Prelude GoRuntime GoStrings Util GoText Connection.

(** ** Requests of a service as they are built up

    A request message is its struct's fields by Go name; messages in it are of the
    library's type [M]. *)
Inductive Field (M : Type) := FString (s : string) | FMessage (m : M).
Arguments FString {M}.
Arguments FMessage {M}.

Abbreviation ProtoReq M := (gmap string (Field M)).

(** [utilities.DoubleArray]: the fields that query parameters may not set. *)
Record DoubleArray := mkDoubleArray { Encoding : list (string * Z); Base : list Z; Check_ : list Z }.

(** An HTTP request, with its path split at "/". *)
Record HTTPRequest (Body Query : Type) := mkHTTPRequest {
  hr_Method : string;
  hr_Path : list string;
  hr_Body : Body;
  hr_Query : Query;
}.
Arguments mkHTTPRequest {Body Query}.
Arguments hr_Method {Body Query}.
Arguments hr_Path {Body Query}.
Arguments hr_Body {Body Query}.
Arguments hr_Query {Body Query}.

(** grpc-gateway's runtime: the decoder of a body, into the whole request or the
    message of one field, the query of a request, and how fields are set. *)
Class GatewayRuntime (M Body Query Form Ctx : Type) := {
  rt_Decode : Body -> ProtoReq M -> res (ProtoReq M);
  rt_DecodeField : string -> Body -> res M;
  rt_String : string -> res string;
  rt_PopulateFieldFromPath : string -> string -> ProtoReq M -> res (ProtoReq M);
  rt_ParseForm : Query -> res Form;
  rt_PopulateQueryParameters : Form -> DoubleArray -> ProtoReq M -> res (ProtoReq M);
  rt_AnnotateContext : HTTPRequest Body Query -> string -> string -> nat -> res Ctx;
  (** the string field of a message at a path of names *)
  rt_GetString : M -> list string -> option string;
}.

(** ** The statements of a request function *)

Inductive statement :=
(** [marshaler.NewDecoder(req.Body).Decode(&protoReq)] *)
| DecodeBody
(** [marshaler.NewDecoder(req.Body).Decode(&protoReq.F)] *)
| DecodeField (field : string)
(** [val, ok = pathParams[p]] and [protoReq.F, err = runtime.String(val)] *)
| PathString (param field : string)
(** [val, ok = pathParams[p]] and [runtime.PopulateFieldFromPath(&protoReq, p, val)] *)
| PathPopulate (param : string)
(** [req.ParseForm()] and [runtime.PopulateQueryParameters(&protoReq, req.Form, filter)] *)
| PopulateQuery (filter : DoubleArray).

(** A function [request_S_M_n]: what it does to the request message, and the method
    of the client (or, for [local_request_S_M_n], the server) it calls. *)
Record request_func := mkRequestFunc { rf_body : list statement; rf_call : string }.

Definition invalid {A} (e : error) : res A := Err (EStatus codes_InvalidArgument (Error e)).
Definition missing_parameter {A} (p : string) : res A :=
  Err (EStatus codes_InvalidArgument ("missing parameter " +:+ p)).
Definition type_mismatch {A} (p : string) (e : error) : res A :=
  Err (EStatus codes_InvalidArgument ("type mismatch, parameter: " +:+ p +:+ ", error: " +:+ Error e)).

Section Handlers.
Context {M Body Query Form Ctx Resp W : Type} `{GatewayRuntime M Body Query Form Ctx}.
Abbreviation Req := (ProtoReq M).

(** The decoder reports [io.EOF] for an empty body, without storing anything. *)
Definition unless_EOF (e : error) (p : Req) : res Req :=
  if bool_decide (e = io_EOF) then OK p else invalid e.

Definition with_param {A} (params : gmap string string) (p : string) (k : string -> res A) : res A :=
  match params !! p with None => missing_parameter p | Some v => k v end.

Definition exec (req : HTTPRequest Body Query) (params : gmap string string) (s : statement) (p : Req) : res Req :=
  match s with
  | DecodeBody => match rt_Decode (hr_Body req) p with OK p' => OK p' | Err e => unless_EOF e p end
  | DecodeField f => match rt_DecodeField f (hr_Body req) with OK m => OK (<[f := FMessage m]> p) | Err e => unless_EOF e p end
  | PathString x f => with_param params x (fun v =>
      match rt_String v with OK s => OK (<[f := FString s]> p) | Err e => type_mismatch x e end)
  | PathPopulate x => with_param params x (fun v =>
      match rt_PopulateFieldFromPath x v p with OK p' => OK p' | Err e => type_mismatch x e end)
  | PopulateQuery filter =>
      match rt_ParseForm (hr_Query req) with
      | Err e => invalid e
      | OK form => match rt_PopulateQueryParameters form filter p with OK p' => OK p' | Err e => invalid e end
      end
  end.

Fixpoint exec_all (req : HTTPRequest Body Query) (params : gmap string string) (l : list statement) (p : Req) : res Req :=
  match l with
  | [] => OK p
  | s :: l => match exec req params s p with OK p' => exec_all req params l p' | Err e => Err e end
  end.

(** The service: its methods by name. *)
Context (call : Ctx -> string -> Req -> Go W (res Resp)).

Definition run_request (f : request_func) (ctx : Ctx) (req : HTTPRequest Body Query) (params : gmap string string)
  : Go W (res Resp) :=
  match exec_all req params (rf_body f) ∅ with
  | Err e => gerr e
  | OK p => call ctx (rf_call f) p
  end.
End Handlers.

(** ** Patterns and handlers *)

(** [runtime.NewPattern(1, ops, pool, verb)] *)
Record Pattern := mkPattern { pat_ops : list Z; pat_pool : list string; pat_verb : string }.

(** A call of [mux.Handle]: the method, the pattern, the full name of the RPC and
    the path template the context is annotated with, and the request function. *)
Record handler := mkHandler {
  h_method : string;
  h_pattern : Pattern;
  h_rpc : string;
  h_template : string;
  h_request : request_func;
}.

#[global] Instance DoubleArray_eq_dec : EqDecision DoubleArray.
Proof. solve_decision. Defined.
#[global] Instance statement_eq_dec : EqDecision statement.
Proof. solve_decision. Defined.
#[global] Instance request_func_eq_dec : EqDecision request_func.
Proof. solve_decision. Defined.
#[global] Instance Pattern_eq_dec : EqDecision Pattern.
Proof. solve_decision. Defined.
#[global] Instance handler_eq_dec : EqDecision handler.
Proof. solve_decision. Defined.

(** What the client of the gateway gets: [runtime.HTTPError] or the answer. *)
Inductive http_answer (Resp : Type) := HTTPError (e : error) | Forwarded (r : Resp).
Arguments HTTPError {Resp}.
Arguments Forwarded {Resp}.

Section Serve.
Context {M Body Query Form Ctx Resp DB S T : Type} `{GatewayRuntime M Body Query Form Ctx}.
Abbreviation W := (World DB S T).
Context (call : Ctx -> string -> ProtoReq M -> Go W (res Resp)).

(** The function that is registered with [mux.Handle]. *)
Definition serve (h : handler) (req : HTTPRequest Body Query) (params : gmap string string) : Go W (http_answer Resp) :=
  a <- remote (rt_AnnotateContext req (h_rpc h) (h_template h)) ;;
  match a with
  | Err e => gret (HTTPError e)
  | OK annotated =>
      r <- run_request call (h_request h) annotated req params ;;
      gret (match r with OK resp => Forwarded resp | Err e => HTTPError e end)
  end.
End Serve.

(** [Register...HandlerFromEndpoint]: a connection is dialled, the handlers are
    added to the mux and a goroutine closes the connection when the context is done.
    [mux] adds a handler to the mux, which is a part of the state. *)
Class GatewayDial (Opt Conn T : Type) := {
  gd_DialContext : string -> list Opt -> nat -> res Conn;
  gd_close_when_done : Conn -> T;
}.

Definition register_from_endpoint {DB S Opt Conn T} `{GatewayDial Opt Conn T} (handlers : Conn -> list handler)
    (mux : handler -> S -> S) (endpoint : string) (opts : list Opt) : Go (World DB S T) (option error) :=
  conn <- remote (gd_DialContext endpoint opts) ;;
  match conn with
  | Err e => gret (Some e)
  | OK conn => gfor (handlers conn) (fun h => svc_modify (mux h)) ;;; go_spawn (gd_close_when_done conn) ;;; gret None
  end.
