(* ===== verification/GatewayRoutes.v ===== *)
(** The generated handlers of the REST gateway, api/*/*.pb.gw.go, one definition per
    function, pattern, query filter and [mux.Handle] call, under the names of the
    source.  Gateway.v has the meaning of what they are made of. *)

From S2P Require Import Prelude Gateway.

Local Open Scope Z_scope.

(** ** api/discovery/discovery.pb.gw.go *)

Definition filter_Discovery_ListResources_0 : DoubleArray := mkDoubleArray [] [] [].

Definition request_Discovery_Start_0 : request_func :=
  mkRequestFunc [DecodeBody] "Start".
Definition local_request_Discovery_Start_0 : request_func :=
  mkRequestFunc [DecodeBody] "Start".
Definition request_Discovery_ListResources_0 : request_func :=
  mkRequestFunc [PopulateQuery filter_Discovery_ListResources_0] "ListResources".
Definition local_request_Discovery_ListResources_0 : request_func :=
  mkRequestFunc [PopulateQuery filter_Discovery_ListResources_0] "ListResources".

Definition pattern_Discovery_Start_0 : Pattern :=
  mkPattern [2; 0; 2; 1; 2; 2] ["v1"; "discovery"; "start"] "".
Definition pattern_Discovery_ListResources_0 : Pattern :=
  mkPattern [2; 0; 2; 1; 2; 2] ["v1"; "discovery"; "resources"] "".

Definition handle_local_Discovery_Start_0 : handler :=
  mkHandler "POST" pattern_Discovery_Start_0 "/clouditor.discovery.v1.Discovery/Start"
    "/v1/discovery/start" local_request_Discovery_Start_0.
Definition handle_local_Discovery_ListResources_0 : handler :=
  mkHandler "GET" pattern_Discovery_ListResources_0 "/clouditor.discovery.v1.Discovery/ListResources"
    "/v1/discovery/resources" local_request_Discovery_ListResources_0.

Definition RegisterDiscoveryHandlerServer : list handler :=
  [handle_local_Discovery_Start_0;
   handle_local_Discovery_ListResources_0].

Definition handle_Discovery_Start_0 : handler :=
  mkHandler "POST" pattern_Discovery_Start_0 "/clouditor.discovery.v1.Discovery/Start"
    "/v1/discovery/start" request_Discovery_Start_0.
Definition handle_Discovery_ListResources_0 : handler :=
  mkHandler "GET" pattern_Discovery_ListResources_0 "/clouditor.discovery.v1.Discovery/ListResources"
    "/v1/discovery/resources" request_Discovery_ListResources_0.

Definition RegisterDiscoveryHandlerClient : list handler :=
  [handle_Discovery_Start_0;
   handle_Discovery_ListResources_0].

Definition RegisterDiscoveryHandler {Conn} (conn : Conn) : list handler := RegisterDiscoveryHandlerClient.
Definition RegisterDiscoveryHandlerFromEndpoint {DB S Opt Conn T} `{GatewayDial Opt Conn T} :=
  register_from_endpoint (DB := DB) (S := S) RegisterDiscoveryHandler.

(** ** api/discovery/experimental.pb.gw.go *)

Definition filter_ExperimentalDiscovery_ListGraphEdges_0 : DoubleArray := mkDoubleArray [] [] [].

Definition request_ExperimentalDiscovery_UpdateResource_0 : request_func :=
  mkRequestFunc [DecodeBody; PathPopulate "resource.id"] "UpdateResource".
Definition local_request_ExperimentalDiscovery_UpdateResource_0 : request_func :=
  mkRequestFunc [DecodeBody; PathPopulate "resource.id"] "UpdateResource".
Definition request_ExperimentalDiscovery_ListGraphEdges_0 : request_func :=
  mkRequestFunc [PopulateQuery filter_ExperimentalDiscovery_ListGraphEdges_0] "ListGraphEdges".
Definition local_request_ExperimentalDiscovery_ListGraphEdges_0 : request_func :=
  mkRequestFunc [PopulateQuery filter_ExperimentalDiscovery_ListGraphEdges_0] "ListGraphEdges".

Definition pattern_ExperimentalDiscovery_UpdateResource_0 : Pattern :=
  mkPattern [2; 0; 2; 1; 2; 2; 1; 0; 4; 1; 5; 3] ["v1experimental"; "discovery"; "resources"; "resource.id"] "".
Definition pattern_ExperimentalDiscovery_ListGraphEdges_0 : Pattern :=
  mkPattern [2; 0; 2; 1; 2; 2; 2; 3] ["v1experimental"; "discovery"; "graph"; "edges"] "".

Definition handle_local_ExperimentalDiscovery_UpdateResource_0 : handler :=
  mkHandler "POST" pattern_ExperimentalDiscovery_UpdateResource_0 "/clouditor.discovery.v1experimental.ExperimentalDiscovery/UpdateResource"
    "/v1experimental/discovery/resources/{resource.id}" local_request_ExperimentalDiscovery_UpdateResource_0.
Definition handle_local_ExperimentalDiscovery_ListGraphEdges_0 : handler :=
  mkHandler "GET" pattern_ExperimentalDiscovery_ListGraphEdges_0 "/clouditor.discovery.v1experimental.ExperimentalDiscovery/ListGraphEdges"
    "/v1experimental/discovery/graph/edges" local_request_ExperimentalDiscovery_ListGraphEdges_0.

Definition RegisterExperimentalDiscoveryHandlerServer : list handler :=
  [handle_local_ExperimentalDiscovery_UpdateResource_0;
   handle_local_ExperimentalDiscovery_ListGraphEdges_0].

Definition handle_ExperimentalDiscovery_UpdateResource_0 : handler :=
  mkHandler "POST" pattern_ExperimentalDiscovery_UpdateResource_0 "/clouditor.discovery.v1experimental.ExperimentalDiscovery/UpdateResource"
    "/v1experimental/discovery/resources/{resource.id}" request_ExperimentalDiscovery_UpdateResource_0.
Definition handle_ExperimentalDiscovery_ListGraphEdges_0 : handler :=
  mkHandler "GET" pattern_ExperimentalDiscovery_ListGraphEdges_0 "/clouditor.discovery.v1experimental.ExperimentalDiscovery/ListGraphEdges"
    "/v1experimental/discovery/graph/edges" request_ExperimentalDiscovery_ListGraphEdges_0.

Definition RegisterExperimentalDiscoveryHandlerClient : list handler :=
  [handle_ExperimentalDiscovery_UpdateResource_0;
   handle_ExperimentalDiscovery_ListGraphEdges_0].

Definition RegisterExperimentalDiscoveryHandler {Conn} (conn : Conn) : list handler := RegisterExperimentalDiscoveryHandlerClient.
Definition RegisterExperimentalDiscoveryHandlerFromEndpoint {DB S Opt Conn T} `{GatewayDial Opt Conn T} :=
  register_from_endpoint (DB := DB) (S := S) RegisterExperimentalDiscoveryHandler.

(** ** api/assessment/assessment.pb.gw.go *)


Definition request_Assessment_AssessEvidence_0 : request_func :=
  mkRequestFunc [DecodeField "Evidence"] "AssessEvidence".
Definition local_request_Assessment_AssessEvidence_0 : request_func :=
  mkRequestFunc [DecodeField "Evidence"] "AssessEvidence".

Definition pattern_Assessment_AssessEvidence_0 : Pattern :=
  mkPattern [2; 0; 2; 1; 2; 2] ["v1"; "assessment"; "evidences"] "".

Definition handle_local_Assessment_AssessEvidence_0 : handler :=
  mkHandler "POST" pattern_Assessment_AssessEvidence_0 "/clouditor.assessment.v1.Assessment/AssessEvidence"
    "/v1/assessment/evidences" local_request_Assessment_AssessEvidence_0.

Definition RegisterAssessmentHandlerServer : list handler :=
  [handle_local_Assessment_AssessEvidence_0].

Definition handle_Assessment_AssessEvidence_0 : handler :=
  mkHandler "POST" pattern_Assessment_AssessEvidence_0 "/clouditor.assessment.v1.Assessment/AssessEvidence"
    "/v1/assessment/evidences" request_Assessment_AssessEvidence_0.

Definition RegisterAssessmentHandlerClient : list handler :=
  [handle_Assessment_AssessEvidence_0].

Definition RegisterAssessmentHandler {Conn} (conn : Conn) : list handler := RegisterAssessmentHandlerClient.
Definition RegisterAssessmentHandlerFromEndpoint {DB S Opt Conn T} `{GatewayDial Opt Conn T} :=
  register_from_endpoint (DB := DB) (S := S) RegisterAssessmentHandler.

(** ** api/orchestrator/orchestrator.pb.gw.go *)

Definition filter_Orchestrator_ListAssessmentTools_0 : DoubleArray := mkDoubleArray [] [] [].
Definition filter_Orchestrator_ListAssessmentResults_0 : DoubleArray := mkDoubleArray [] [] [].
Definition filter_Orchestrator_ListMetrics_0 : DoubleArray := mkDoubleArray [] [] [].
Definition filter_Orchestrator_ListCloudServices_0 : DoubleArray := mkDoubleArray [] [] [].
Definition filter_Orchestrator_GetCloudServiceStatistics_0 : DoubleArray := mkDoubleArray [] [] [].
Definition filter_Orchestrator_ListCertificates_0 : DoubleArray := mkDoubleArray [] [] [].
Definition filter_Orchestrator_ListPublicCertificates_0 : DoubleArray := mkDoubleArray [] [] [].
Definition filter_Orchestrator_ListCatalogs_0 : DoubleArray := mkDoubleArray [] [] [].
Definition filter_Orchestrator_ListControls_0 : DoubleArray := mkDoubleArray [] [] [].
Definition filter_Orchestrator_ListControls_1 : DoubleArray := mkDoubleArray [("catalog_id", 0); ("category_name", 1)] [1; 1; 2; 0; 0] [0; 1; 1; 2; 3].
Definition filter_Orchestrator_ListTargetsOfEvaluation_0 : DoubleArray := mkDoubleArray [] [] [].
Definition filter_Orchestrator_ListTargetsOfEvaluation_1 : DoubleArray := mkDoubleArray [("cloud_service_id", 0)] [1; 1; 0] [0; 1; 2].
Definition filter_Orchestrator_ListTargetsOfEvaluation_2 : DoubleArray := mkDoubleArray [("catalog_id", 0)] [1; 1; 0] [0; 1; 2].

Definition request_Orchestrator_RegisterAssessmentTool_0 : request_func :=
  mkRequestFunc [DecodeField "Tool"] "RegisterAssessmentTool".
Definition local_request_Orchestrator_RegisterAssessmentTool_0 : request_func :=
  mkRequestFunc [DecodeField "Tool"] "RegisterAssessmentTool".
Definition request_Orchestrator_ListAssessmentTools_0 : request_func :=
  mkRequestFunc [PopulateQuery filter_Orchestrator_ListAssessmentTools_0] "ListAssessmentTools".
Definition local_request_Orchestrator_ListAssessmentTools_0 : request_func :=
  mkRequestFunc [PopulateQuery filter_Orchestrator_ListAssessmentTools_0] "ListAssessmentTools".
Definition request_Orchestrator_GetAssessmentTool_0 : request_func :=
  mkRequestFunc [PathString "tool_id" "ToolId"] "GetAssessmentTool".
Definition local_request_Orchestrator_GetAssessmentTool_0 : request_func :=
  mkRequestFunc [PathString "tool_id" "ToolId"] "GetAssessmentTool".
Definition request_Orchestrator_UpdateAssessmentTool_0 : request_func :=
  mkRequestFunc [DecodeField "Tool"; PathPopulate "tool.id"] "UpdateAssessmentTool".
Definition local_request_Orchestrator_UpdateAssessmentTool_0 : request_func :=
  mkRequestFunc [DecodeField "Tool"; PathPopulate "tool.id"] "UpdateAssessmentTool".
Definition request_Orchestrator_DeregisterAssessmentTool_0 : request_func :=
  mkRequestFunc [PathString "tool_id" "ToolId"] "DeregisterAssessmentTool".
Definition local_request_Orchestrator_DeregisterAssessmentTool_0 : request_func :=
  mkRequestFunc [PathString "tool_id" "ToolId"] "DeregisterAssessmentTool".
Definition request_Orchestrator_StoreAssessmentResult_0 : request_func :=
  mkRequestFunc [DecodeField "Result"] "StoreAssessmentResult".
Definition local_request_Orchestrator_StoreAssessmentResult_0 : request_func :=
  mkRequestFunc [DecodeField "Result"] "StoreAssessmentResult".
Definition request_Orchestrator_GetAssessmentResult_0 : request_func :=
  mkRequestFunc [PathString "id" "Id"] "GetAssessmentResult".
Definition local_request_Orchestrator_GetAssessmentResult_0 : request_func :=
  mkRequestFunc [PathString "id" "Id"] "GetAssessmentResult".
Definition request_Orchestrator_ListAssessmentResults_0 : request_func :=
  mkRequestFunc [PopulateQuery filter_Orchestrator_ListAssessmentResults_0] "ListAssessmentResults".
Definition local_request_Orchestrator_ListAssessmentResults_0 : request_func :=
  mkRequestFunc [PopulateQuery filter_Orchestrator_ListAssessmentResults_0] "ListAssessmentResults".
Definition request_Orchestrator_CreateMetric_0 : request_func :=
  mkRequestFunc [DecodeField "Metric"] "CreateMetric".
Definition local_request_Orchestrator_CreateMetric_0 : request_func :=
  mkRequestFunc [DecodeField "Metric"] "CreateMetric".
Definition request_Orchestrator_UpdateMetric_0 : request_func :=
  mkRequestFunc [DecodeField "Metric"; PathPopulate "metric.id"] "UpdateMetric".
Definition local_request_Orchestrator_UpdateMetric_0 : request_func :=
  mkRequestFunc [DecodeField "Metric"; PathPopulate "metric.id"] "UpdateMetric".
Definition request_Orchestrator_GetMetric_0 : request_func :=
  mkRequestFunc [PathString "metric_id" "MetricId"] "GetMetric".
Definition local_request_Orchestrator_GetMetric_0 : request_func :=
  mkRequestFunc [PathString "metric_id" "MetricId"] "GetMetric".
Definition request_Orchestrator_ListMetrics_0 : request_func :=
  mkRequestFunc [PopulateQuery filter_Orchestrator_ListMetrics_0] "ListMetrics".
Definition local_request_Orchestrator_ListMetrics_0 : request_func :=
  mkRequestFunc [PopulateQuery filter_Orchestrator_ListMetrics_0] "ListMetrics".
Definition request_Orchestrator_RemoveMetric_0 : request_func :=
  mkRequestFunc [PathString "metric_id" "MetricId"] "RemoveMetric".
Definition local_request_Orchestrator_RemoveMetric_0 : request_func :=
  mkRequestFunc [PathString "metric_id" "MetricId"] "RemoveMetric".
Definition request_Orchestrator_RegisterCloudService_0 : request_func :=
  mkRequestFunc [DecodeField "CloudService"] "RegisterCloudService".
Definition local_request_Orchestrator_RegisterCloudService_0 : request_func :=
  mkRequestFunc [DecodeField "CloudService"] "RegisterCloudService".
Definition request_Orchestrator_UpdateCloudService_0 : request_func :=
  mkRequestFunc [DecodeField "CloudService"; PathPopulate "cloud_service.id"] "UpdateCloudService".
Definition local_request_Orchestrator_UpdateCloudService_0 : request_func :=
  mkRequestFunc [DecodeField "CloudService"; PathPopulate "cloud_service.id"] "UpdateCloudService".
Definition request_Orchestrator_GetCloudService_0 : request_func :=
  mkRequestFunc [PathString "cloud_service_id" "CloudServiceId"] "GetCloudService".
Definition local_request_Orchestrator_GetCloudService_0 : request_func :=
  mkRequestFunc [PathString "cloud_service_id" "CloudServiceId"] "GetCloudService".
Definition request_Orchestrator_ListCloudServices_0 : request_func :=
  mkRequestFunc [PopulateQuery filter_Orchestrator_ListCloudServices_0] "ListCloudServices".
Definition local_request_Orchestrator_ListCloudServices_0 : request_func :=
  mkRequestFunc [PopulateQuery filter_Orchestrator_ListCloudServices_0] "ListCloudServices".
Definition request_Orchestrator_RemoveCloudService_0 : request_func :=
  mkRequestFunc [PathString "cloud_service_id" "CloudServiceId"] "RemoveCloudService".
Definition local_request_Orchestrator_RemoveCloudService_0 : request_func :=
  mkRequestFunc [PathString "cloud_service_id" "CloudServiceId"] "RemoveCloudService".
Definition request_Orchestrator_GetCloudServiceStatistics_0 : request_func :=
  mkRequestFunc [PopulateQuery filter_Orchestrator_GetCloudServiceStatistics_0] "GetCloudServiceStatistics".
Definition local_request_Orchestrator_GetCloudServiceStatistics_0 : request_func :=
  mkRequestFunc [PopulateQuery filter_Orchestrator_GetCloudServiceStatistics_0] "GetCloudServiceStatistics".
Definition request_Orchestrator_UpdateMetricConfiguration_0 : request_func :=
  mkRequestFunc [DecodeField "Configuration"; PathString "cloud_service_id" "CloudServiceId"; PathString "metric_id" "MetricId"] "UpdateMetricConfiguration".
Definition local_request_Orchestrator_UpdateMetricConfiguration_0 : request_func :=
  mkRequestFunc [DecodeField "Configuration"; PathString "cloud_service_id" "CloudServiceId"; PathString "metric_id" "MetricId"] "UpdateMetricConfiguration".
Definition request_Orchestrator_GetMetricConfiguration_0 : request_func :=
  mkRequestFunc [PathString "cloud_service_id" "CloudServiceId"; PathString "metric_id" "MetricId"] "GetMetricConfiguration".
Definition local_request_Orchestrator_GetMetricConfiguration_0 : request_func :=
  mkRequestFunc [PathString "cloud_service_id" "CloudServiceId"; PathString "metric_id" "MetricId"] "GetMetricConfiguration".
Definition request_Orchestrator_ListMetricConfigurations_0 : request_func :=
  mkRequestFunc [PathString "cloud_service_id" "CloudServiceId"] "ListMetricConfigurations".
Definition local_request_Orchestrator_ListMetricConfigurations_0 : request_func :=
  mkRequestFunc [PathString "cloud_service_id" "CloudServiceId"] "ListMetricConfigurations".
Definition request_Orchestrator_UpdateMetricImplementation_0 : request_func :=
  mkRequestFunc [DecodeField "Implementation"; PathPopulate "implementation.metric_id"] "UpdateMetricImplementation".
Definition local_request_Orchestrator_UpdateMetricImplementation_0 : request_func :=
  mkRequestFunc [DecodeField "Implementation"; PathPopulate "implementation.metric_id"] "UpdateMetricImplementation".
Definition request_Orchestrator_GetMetricImplementation_0 : request_func :=
  mkRequestFunc [PathString "metric_id" "MetricId"] "GetMetricImplementation".
Definition local_request_Orchestrator_GetMetricImplementation_0 : request_func :=
  mkRequestFunc [PathString "metric_id" "MetricId"] "GetMetricImplementation".
Definition request_Orchestrator_CreateCertificate_0 : request_func :=
  mkRequestFunc [DecodeField "Certificate"] "CreateCertificate".
Definition local_request_Orchestrator_CreateCertificate_0 : request_func :=
  mkRequestFunc [DecodeField "Certificate"] "CreateCertificate".
Definition request_Orchestrator_GetCertificate_0 : request_func :=
  mkRequestFunc [PathString "certificate_id" "CertificateId"] "GetCertificate".
Definition local_request_Orchestrator_GetCertificate_0 : request_func :=
  mkRequestFunc [PathString "certificate_id" "CertificateId"] "GetCertificate".
Definition request_Orchestrator_ListCertificates_0 : request_func :=
  mkRequestFunc [PopulateQuery filter_Orchestrator_ListCertificates_0] "ListCertificates".
Definition local_request_Orchestrator_ListCertificates_0 : request_func :=
  mkRequestFunc [PopulateQuery filter_Orchestrator_ListCertificates_0] "ListCertificates".
Definition request_Orchestrator_ListPublicCertificates_0 : request_func :=
  mkRequestFunc [PopulateQuery filter_Orchestrator_ListPublicCertificates_0] "ListPublicCertificates".
Definition local_request_Orchestrator_ListPublicCertificates_0 : request_func :=
  mkRequestFunc [PopulateQuery filter_Orchestrator_ListPublicCertificates_0] "ListPublicCertificates".
Definition request_Orchestrator_UpdateCertificate_0 : request_func :=
  mkRequestFunc [DecodeField "Certificate"; PathPopulate "certificate.id"] "UpdateCertificate".
Definition local_request_Orchestrator_UpdateCertificate_0 : request_func :=
  mkRequestFunc [DecodeField "Certificate"; PathPopulate "certificate.id"] "UpdateCertificate".
Definition request_Orchestrator_RemoveCertificate_0 : request_func :=
  mkRequestFunc [PathString "certificate_id" "CertificateId"] "RemoveCertificate".
Definition local_request_Orchestrator_RemoveCertificate_0 : request_func :=
  mkRequestFunc [PathString "certificate_id" "CertificateId"] "RemoveCertificate".
Definition request_Orchestrator_CreateCatalog_0 : request_func :=
  mkRequestFunc [DecodeField "Catalog"] "CreateCatalog".
Definition local_request_Orchestrator_CreateCatalog_0 : request_func :=
  mkRequestFunc [DecodeField "Catalog"] "CreateCatalog".
Definition request_Orchestrator_ListCatalogs_0 : request_func :=
  mkRequestFunc [PopulateQuery filter_Orchestrator_ListCatalogs_0] "ListCatalogs".
Definition local_request_Orchestrator_ListCatalogs_0 : request_func :=
  mkRequestFunc [PopulateQuery filter_Orchestrator_ListCatalogs_0] "ListCatalogs".
Definition request_Orchestrator_GetCatalog_0 : request_func :=
  mkRequestFunc [PathString "catalog_id" "CatalogId"] "GetCatalog".
Definition local_request_Orchestrator_GetCatalog_0 : request_func :=
  mkRequestFunc [PathString "catalog_id" "CatalogId"] "GetCatalog".
Definition request_Orchestrator_RemoveCatalog_0 : request_func :=
  mkRequestFunc [PathString "catalog_id" "CatalogId"] "RemoveCatalog".
Definition local_request_Orchestrator_RemoveCatalog_0 : request_func :=
  mkRequestFunc [PathString "catalog_id" "CatalogId"] "RemoveCatalog".
Definition request_Orchestrator_UpdateCatalog_0 : request_func :=
  mkRequestFunc [DecodeField "Catalog"; PathPopulate "catalog.id"] "UpdateCatalog".
Definition local_request_Orchestrator_UpdateCatalog_0 : request_func :=
  mkRequestFunc [DecodeField "Catalog"; PathPopulate "catalog.id"] "UpdateCatalog".
Definition request_Orchestrator_GetCategory_0 : request_func :=
  mkRequestFunc [PathString "catalog_id" "CatalogId"; PathString "category_name" "CategoryName"] "GetCategory".
Definition local_request_Orchestrator_GetCategory_0 : request_func :=
  mkRequestFunc [PathString "catalog_id" "CatalogId"; PathString "category_name" "CategoryName"] "GetCategory".
Definition request_Orchestrator_ListControls_0 : request_func :=
  mkRequestFunc [PopulateQuery filter_Orchestrator_ListControls_0] "ListControls".
Definition local_request_Orchestrator_ListControls_0 : request_func :=
  mkRequestFunc [PopulateQuery filter_Orchestrator_ListControls_0] "ListControls".
Definition request_Orchestrator_ListControls_1 : request_func :=
  mkRequestFunc [PathString "catalog_id" "CatalogId"; PathString "category_name" "CategoryName"; PopulateQuery filter_Orchestrator_ListControls_1] "ListControls".
Definition local_request_Orchestrator_ListControls_1 : request_func :=
  mkRequestFunc [PathString "catalog_id" "CatalogId"; PathString "category_name" "CategoryName"; PopulateQuery filter_Orchestrator_ListControls_1] "ListControls".
Definition request_Orchestrator_GetControl_0 : request_func :=
  mkRequestFunc [PathString "catalog_id" "CatalogId"; PathString "category_name" "CategoryName"; PathString "control_id" "ControlId"] "GetControl".
Definition local_request_Orchestrator_GetControl_0 : request_func :=
  mkRequestFunc [PathString "catalog_id" "CatalogId"; PathString "category_name" "CategoryName"; PathString "control_id" "ControlId"] "GetControl".
Definition request_Orchestrator_CreateTargetOfEvaluation_0 : request_func :=
  mkRequestFunc [DecodeField "TargetOfEvaluation"] "CreateTargetOfEvaluation".
Definition local_request_Orchestrator_CreateTargetOfEvaluation_0 : request_func :=
  mkRequestFunc [DecodeField "TargetOfEvaluation"] "CreateTargetOfEvaluation".
Definition request_Orchestrator_GetTargetOfEvaluation_0 : request_func :=
  mkRequestFunc [PathString "cloud_service_id" "CloudServiceId"; PathString "catalog_id" "CatalogId"] "GetTargetOfEvaluation".
Definition local_request_Orchestrator_GetTargetOfEvaluation_0 : request_func :=
  mkRequestFunc [PathString "cloud_service_id" "CloudServiceId"; PathString "catalog_id" "CatalogId"] "GetTargetOfEvaluation".
Definition request_Orchestrator_ListTargetsOfEvaluation_0 : request_func :=
  mkRequestFunc [PopulateQuery filter_Orchestrator_ListTargetsOfEvaluation_0] "ListTargetsOfEvaluation".
Definition local_request_Orchestrator_ListTargetsOfEvaluation_0 : request_func :=
  mkRequestFunc [PopulateQuery filter_Orchestrator_ListTargetsOfEvaluation_0] "ListTargetsOfEvaluation".
Definition request_Orchestrator_ListTargetsOfEvaluation_1 : request_func :=
  mkRequestFunc [PathString "cloud_service_id" "CloudServiceId"; PopulateQuery filter_Orchestrator_ListTargetsOfEvaluation_1] "ListTargetsOfEvaluation".
Definition local_request_Orchestrator_ListTargetsOfEvaluation_1 : request_func :=
  mkRequestFunc [PathString "cloud_service_id" "CloudServiceId"; PopulateQuery filter_Orchestrator_ListTargetsOfEvaluation_1] "ListTargetsOfEvaluation".
Definition request_Orchestrator_ListTargetsOfEvaluation_2 : request_func :=
  mkRequestFunc [PathString "catalog_id" "CatalogId"; PopulateQuery filter_Orchestrator_ListTargetsOfEvaluation_2] "ListTargetsOfEvaluation".
Definition local_request_Orchestrator_ListTargetsOfEvaluation_2 : request_func :=
  mkRequestFunc [PathString "catalog_id" "CatalogId"; PopulateQuery filter_Orchestrator_ListTargetsOfEvaluation_2] "ListTargetsOfEvaluation".
Definition request_Orchestrator_UpdateTargetOfEvaluation_0 : request_func :=
  mkRequestFunc [DecodeField "TargetOfEvaluation"; PathPopulate "target_of_evaluation.cloud_service_id"; PathPopulate "target_of_evaluation.catalog_id"] "UpdateTargetOfEvaluation".
Definition local_request_Orchestrator_UpdateTargetOfEvaluation_0 : request_func :=
  mkRequestFunc [DecodeField "TargetOfEvaluation"; PathPopulate "target_of_evaluation.cloud_service_id"; PathPopulate "target_of_evaluation.catalog_id"] "UpdateTargetOfEvaluation".
Definition request_Orchestrator_RemoveTargetOfEvaluation_0 : request_func :=
  mkRequestFunc [PathString "cloud_service_id" "CloudServiceId"; PathString "catalog_id" "CatalogId"] "RemoveTargetOfEvaluation".
Definition local_request_Orchestrator_RemoveTargetOfEvaluation_0 : request_func :=
  mkRequestFunc [PathString "cloud_service_id" "CloudServiceId"; PathString "catalog_id" "CatalogId"] "RemoveTargetOfEvaluation".
Definition request_Orchestrator_GetRuntimeInfo_0 : request_func :=
  mkRequestFunc [] "GetRuntimeInfo".
Definition local_request_Orchestrator_GetRuntimeInfo_0 : request_func :=
  mkRequestFunc [] "GetRuntimeInfo".

Definition pattern_Orchestrator_RegisterAssessmentTool_0 : Pattern :=
  mkPattern [2; 0; 2; 1; 2; 2] ["v1"; "orchestrator"; "assessment_tools"] "".
Definition pattern_Orchestrator_ListAssessmentTools_0 : Pattern :=
  mkPattern [2; 0; 2; 1; 2; 2] ["v1"; "orchestrator"; "assessment_tools"] "".
Definition pattern_Orchestrator_GetAssessmentTool_0 : Pattern :=
  mkPattern [2; 0; 2; 1; 2; 2; 1; 0; 4; 1; 5; 3] ["v1"; "orchestrator"; "assessment_tools"; "tool_id"] "".
Definition pattern_Orchestrator_UpdateAssessmentTool_0 : Pattern :=
  mkPattern [2; 0; 2; 1; 2; 2; 1; 0; 4; 1; 5; 3] ["v1"; "orchestrator"; "assessment_tools"; "tool.id"] "".
Definition pattern_Orchestrator_DeregisterAssessmentTool_0 : Pattern :=
  mkPattern [2; 0; 2; 1; 2; 2; 1; 0; 4; 1; 5; 3] ["v1"; "orchestrator"; "assessment_tools"; "tool_id"] "".
Definition pattern_Orchestrator_StoreAssessmentResult_0 : Pattern :=
  mkPattern [2; 0; 2; 1; 2; 2] ["v1"; "orchestrator"; "assessment_results"] "".
Definition pattern_Orchestrator_GetAssessmentResult_0 : Pattern :=
  mkPattern [2; 0; 2; 1; 2; 2; 1; 0; 4; 1; 5; 3] ["v1"; "orchestrator"; "assessment_results"; "id"] "".
Definition pattern_Orchestrator_ListAssessmentResults_0 : Pattern :=
  mkPattern [2; 0; 2; 1; 2; 2] ["v1"; "orchestrator"; "assessment_results"] "".
Definition pattern_Orchestrator_CreateMetric_0 : Pattern :=
  mkPattern [2; 0; 2; 1; 2; 2] ["v1"; "orchestrator"; "metrics"] "".
Definition pattern_Orchestrator_UpdateMetric_0 : Pattern :=
  mkPattern [2; 0; 2; 1; 2; 2; 1; 0; 4; 1; 5; 3] ["v1"; "orchestrator"; "metrics"; "metric.id"] "".
Definition pattern_Orchestrator_GetMetric_0 : Pattern :=
  mkPattern [2; 0; 2; 1; 2; 2; 1; 0; 4; 1; 5; 3] ["v1"; "orchestrator"; "metrics"; "metric_id"] "".
Definition pattern_Orchestrator_ListMetrics_0 : Pattern :=
  mkPattern [2; 0; 2; 1; 2; 2] ["v1"; "orchestrator"; "metrics"] "".
Definition pattern_Orchestrator_RemoveMetric_0 : Pattern :=
  mkPattern [2; 0; 2; 1; 2; 2; 1; 0; 4; 1; 5; 3] ["v1"; "orchestrator"; "metrics"; "metric_id"] "".
Definition pattern_Orchestrator_RegisterCloudService_0 : Pattern :=
  mkPattern [2; 0; 2; 1; 2; 2] ["v1"; "orchestrator"; "cloud_services"] "".
Definition pattern_Orchestrator_UpdateCloudService_0 : Pattern :=
  mkPattern [2; 0; 2; 1; 2; 2; 1; 0; 4; 1; 5; 3] ["v1"; "orchestrator"; "cloud_services"; "cloud_service.id"] "".
Definition pattern_Orchestrator_GetCloudService_0 : Pattern :=
  mkPattern [2; 0; 2; 1; 2; 2; 1; 0; 4; 1; 5; 3] ["v1"; "orchestrator"; "cloud_services"; "cloud_service_id"] "".
Definition pattern_Orchestrator_ListCloudServices_0 : Pattern :=
  mkPattern [2; 0; 2; 1; 2; 2] ["v1"; "orchestrator"; "cloud_services"] "".
Definition pattern_Orchestrator_RemoveCloudService_0 : Pattern :=
  mkPattern [2; 0; 2; 1; 2; 2; 1; 0; 4; 1; 5; 3] ["v1"; "orchestrator"; "cloud_services"; "cloud_service_id"] "".
Definition pattern_Orchestrator_GetCloudServiceStatistics_0 : Pattern :=
  mkPattern [2; 0; 2; 1; 2; 2; 2; 3] ["v1"; "orchestrator"; "cloud_services"; "statistics"] "".
Definition pattern_Orchestrator_UpdateMetricConfiguration_0 : Pattern :=
  mkPattern [2; 0; 2; 1; 2; 2; 1; 0; 4; 1; 5; 3; 2; 4; 1; 0; 4; 1; 5; 5] ["v1"; "orchestrator"; "cloud_services"; "cloud_service_id"; "metric_configurations"; "metric_id"] "".
Definition pattern_Orchestrator_GetMetricConfiguration_0 : Pattern :=
  mkPattern [2; 0; 2; 1; 2; 2; 1; 0; 4; 1; 5; 3; 2; 4; 1; 0; 4; 1; 5; 5] ["v1"; "orchestrator"; "cloud_services"; "cloud_service_id"; "metric_configurations"; "metric_id"] "".
Definition pattern_Orchestrator_ListMetricConfigurations_0 : Pattern :=
  mkPattern [2; 0; 2; 1; 2; 2; 1; 0; 4; 1; 5; 3; 2; 4] ["v1"; "orchestrator"; "cloud_services"; "cloud_service_id"; "metric_configurations"] "".
Definition pattern_Orchestrator_UpdateMetricImplementation_0 : Pattern :=
  mkPattern [2; 0; 2; 1; 2; 2; 1; 0; 4; 1; 5; 3; 2; 4] ["v1"; "orchestrator"; "metrics"; "implementation.metric_id"; "implementation"] "".
Definition pattern_Orchestrator_GetMetricImplementation_0 : Pattern :=
  mkPattern [2; 0; 2; 1; 2; 2; 1; 0; 4; 1; 5; 3; 2; 4] ["v1"; "orchestrator"; "metrics"; "metric_id"; "implementation"] "".
Definition pattern_Orchestrator_CreateCertificate_0 : Pattern :=
  mkPattern [2; 0; 2; 1; 2; 2] ["v1"; "orchestrator"; "certificates"] "".
Definition pattern_Orchestrator_GetCertificate_0 : Pattern :=
  mkPattern [2; 0; 2; 1; 2; 2; 1; 0; 4; 1; 5; 3] ["v1"; "orchestrator"; "certificates"; "certificate_id"] "".
Definition pattern_Orchestrator_ListCertificates_0 : Pattern :=
  mkPattern [2; 0; 2; 1; 2; 2] ["v1"; "orchestrator"; "certificates"] "".
Definition pattern_Orchestrator_ListPublicCertificates_0 : Pattern :=
  mkPattern [2; 0; 2; 1; 2; 2; 2; 3] ["v1"; "orchestrator"; "public"; "certificates"] "".
Definition pattern_Orchestrator_UpdateCertificate_0 : Pattern :=
  mkPattern [2; 0; 2; 1; 2; 2; 1; 0; 4; 1; 5; 3] ["v1"; "orchestrator"; "certificates"; "certificate.id"] "".
Definition pattern_Orchestrator_RemoveCertificate_0 : Pattern :=
  mkPattern [2; 0; 2; 1; 2; 2; 1; 0; 4; 1; 5; 3] ["v1"; "orchestrator"; "certificates"; "certificate_id"] "".
Definition pattern_Orchestrator_CreateCatalog_0 : Pattern :=
  mkPattern [2; 0; 2; 1; 2; 2] ["v1"; "orchestrator"; "catalogs"] "".
Definition pattern_Orchestrator_ListCatalogs_0 : Pattern :=
  mkPattern [2; 0; 2; 1; 2; 2] ["v1"; "orchestrator"; "catalogs"] "".
Definition pattern_Orchestrator_GetCatalog_0 : Pattern :=
  mkPattern [2; 0; 2; 1; 2; 2; 1; 0; 4; 1; 5; 3] ["v1"; "orchestrator"; "catalogs"; "catalog_id"] "".
Definition pattern_Orchestrator_RemoveCatalog_0 : Pattern :=
  mkPattern [2; 0; 2; 1; 2; 2; 1; 0; 4; 1; 5; 3] ["v1"; "orchestrator"; "catalogs"; "catalog_id"] "".
Definition pattern_Orchestrator_UpdateCatalog_0 : Pattern :=
  mkPattern [2; 0; 2; 1; 2; 2; 1; 0; 4; 1; 5; 3] ["v1"; "orchestrator"; "catalogs"; "catalog.id"] "".
Definition pattern_Orchestrator_GetCategory_0 : Pattern :=
  mkPattern [2; 0; 2; 1; 2; 2; 1; 0; 4; 1; 5; 3; 2; 4; 1; 0; 4; 1; 5; 5] ["v1"; "orchestrator"; "catalogs"; "catalog_id"; "category"; "category_name"] "".
Definition pattern_Orchestrator_ListControls_0 : Pattern :=
  mkPattern [2; 0; 2; 1; 2; 2] ["v1"; "orchestrator"; "controls"] "".
Definition pattern_Orchestrator_ListControls_1 : Pattern :=
  mkPattern [2; 0; 2; 1; 2; 2; 1; 0; 4; 1; 5; 3; 2; 4; 1; 0; 4; 1; 5; 5; 2; 6] ["v1"; "orchestrator"; "catalogs"; "catalog_id"; "categories"; "category_name"; "controls"] "".
Definition pattern_Orchestrator_GetControl_0 : Pattern :=
  mkPattern [2; 0; 2; 1; 2; 2; 1; 0; 4; 1; 5; 3; 2; 4; 1; 0; 4; 1; 5; 5; 2; 6; 1; 0; 4; 1; 5; 7] ["v1"; "orchestrator"; "catalogs"; "catalog_id"; "categories"; "category_name"; "controls"; "control_id"] "".
Definition pattern_Orchestrator_CreateTargetOfEvaluation_0 : Pattern :=
  mkPattern [2; 0; 2; 1; 2; 2] ["v1"; "orchestrator"; "toes"] "".
Definition pattern_Orchestrator_GetTargetOfEvaluation_0 : Pattern :=
  mkPattern [2; 0; 2; 1; 2; 2; 1; 0; 4; 1; 5; 3; 2; 4; 1; 0; 4; 1; 5; 5] ["v1"; "orchestrator"; "cloud_services"; "cloud_service_id"; "toes"; "catalog_id"] "".
Definition pattern_Orchestrator_ListTargetsOfEvaluation_0 : Pattern :=
  mkPattern [2; 0; 2; 1; 2; 2] ["v1"; "orchestrator"; "toes"] "".
Definition pattern_Orchestrator_ListTargetsOfEvaluation_1 : Pattern :=
  mkPattern [2; 0; 2; 1; 2; 2; 1; 0; 4; 1; 5; 3; 2; 4] ["v1"; "orchestrator"; "cloud_services"; "cloud_service_id"; "toes"] "".
Definition pattern_Orchestrator_ListTargetsOfEvaluation_2 : Pattern :=
  mkPattern [2; 0; 2; 1; 2; 2; 1; 0; 4; 1; 5; 3; 2; 4] ["v1"; "orchestrator"; "catalogs"; "catalog_id"; "toes"] "".
Definition pattern_Orchestrator_UpdateTargetOfEvaluation_0 : Pattern :=
  mkPattern [2; 0; 2; 1; 2; 2; 1; 0; 4; 1; 5; 3; 2; 4; 1; 0; 4; 1; 5; 5] ["v1"; "orchestrator"; "cloud_services"; "target_of_evaluation.cloud_service_id"; "toes"; "target_of_evaluation.catalog_id"] "".
Definition pattern_Orchestrator_RemoveTargetOfEvaluation_0 : Pattern :=
  mkPattern [2; 0; 2; 1; 2; 2; 1; 0; 4; 1; 5; 3; 2; 4; 1; 0; 4; 1; 5; 5] ["v1"; "orchestrator"; "cloud_services"; "cloud_service_id"; "toes"; "catalog_id"] "".
Definition pattern_Orchestrator_GetRuntimeInfo_0 : Pattern :=
  mkPattern [2; 0; 2; 1; 2; 2] ["v1"; "orchestrator"; "runtime_info"] "".

Definition handle_local_Orchestrator_RegisterAssessmentTool_0 : handler :=
  mkHandler "POST" pattern_Orchestrator_RegisterAssessmentTool_0 "/clouditor.orchestrator.v1.Orchestrator/RegisterAssessmentTool"
    "/v1/orchestrator/assessment_tools" local_request_Orchestrator_RegisterAssessmentTool_0.
Definition handle_local_Orchestrator_ListAssessmentTools_0 : handler :=
  mkHandler "GET" pattern_Orchestrator_ListAssessmentTools_0 "/clouditor.orchestrator.v1.Orchestrator/ListAssessmentTools"
    "/v1/orchestrator/assessment_tools" local_request_Orchestrator_ListAssessmentTools_0.
Definition handle_local_Orchestrator_GetAssessmentTool_0 : handler :=
  mkHandler "GET" pattern_Orchestrator_GetAssessmentTool_0 "/clouditor.orchestrator.v1.Orchestrator/GetAssessmentTool"
    "/v1/orchestrator/assessment_tools/{tool_id}" local_request_Orchestrator_GetAssessmentTool_0.
Definition handle_local_Orchestrator_UpdateAssessmentTool_0 : handler :=
  mkHandler "PUT" pattern_Orchestrator_UpdateAssessmentTool_0 "/clouditor.orchestrator.v1.Orchestrator/UpdateAssessmentTool"
    "/v1/orchestrator/assessment_tools/{tool.id}" local_request_Orchestrator_UpdateAssessmentTool_0.
Definition handle_local_Orchestrator_DeregisterAssessmentTool_0 : handler :=
  mkHandler "DELETE" pattern_Orchestrator_DeregisterAssessmentTool_0 "/clouditor.orchestrator.v1.Orchestrator/DeregisterAssessmentTool"
    "/v1/orchestrator/assessment_tools/{tool_id}" local_request_Orchestrator_DeregisterAssessmentTool_0.
Definition handle_local_Orchestrator_StoreAssessmentResult_0 : handler :=
  mkHandler "POST" pattern_Orchestrator_StoreAssessmentResult_0 "/clouditor.orchestrator.v1.Orchestrator/StoreAssessmentResult"
    "/v1/orchestrator/assessment_results" local_request_Orchestrator_StoreAssessmentResult_0.
Definition handle_local_Orchestrator_GetAssessmentResult_0 : handler :=
  mkHandler "GET" pattern_Orchestrator_GetAssessmentResult_0 "/clouditor.orchestrator.v1.Orchestrator/GetAssessmentResult"
    "/v1/orchestrator/assessment_results/{id}" local_request_Orchestrator_GetAssessmentResult_0.
Definition handle_local_Orchestrator_ListAssessmentResults_0 : handler :=
  mkHandler "GET" pattern_Orchestrator_ListAssessmentResults_0 "/clouditor.orchestrator.v1.Orchestrator/ListAssessmentResults"
    "/v1/orchestrator/assessment_results" local_request_Orchestrator_ListAssessmentResults_0.
Definition handle_local_Orchestrator_CreateMetric_0 : handler :=
  mkHandler "POST" pattern_Orchestrator_CreateMetric_0 "/clouditor.orchestrator.v1.Orchestrator/CreateMetric"
    "/v1/orchestrator/metrics" local_request_Orchestrator_CreateMetric_0.
Definition handle_local_Orchestrator_UpdateMetric_0 : handler :=
  mkHandler "PUT" pattern_Orchestrator_UpdateMetric_0 "/clouditor.orchestrator.v1.Orchestrator/UpdateMetric"
    "/v1/orchestrator/metrics/{metric.id}" local_request_Orchestrator_UpdateMetric_0.
Definition handle_local_Orchestrator_GetMetric_0 : handler :=
  mkHandler "GET" pattern_Orchestrator_GetMetric_0 "/clouditor.orchestrator.v1.Orchestrator/GetMetric"
    "/v1/orchestrator/metrics/{metric_id}" local_request_Orchestrator_GetMetric_0.
Definition handle_local_Orchestrator_ListMetrics_0 : handler :=
  mkHandler "GET" pattern_Orchestrator_ListMetrics_0 "/clouditor.orchestrator.v1.Orchestrator/ListMetrics"
    "/v1/orchestrator/metrics" local_request_Orchestrator_ListMetrics_0.
Definition handle_local_Orchestrator_RemoveMetric_0 : handler :=
  mkHandler "DELETE" pattern_Orchestrator_RemoveMetric_0 "/clouditor.orchestrator.v1.Orchestrator/RemoveMetric"
    "/v1/orchestrator/metrics/{metric_id}" local_request_Orchestrator_RemoveMetric_0.
Definition handle_local_Orchestrator_RegisterCloudService_0 : handler :=
  mkHandler "POST" pattern_Orchestrator_RegisterCloudService_0 "/clouditor.orchestrator.v1.Orchestrator/RegisterCloudService"
    "/v1/orchestrator/cloud_services" local_request_Orchestrator_RegisterCloudService_0.
Definition handle_local_Orchestrator_UpdateCloudService_0 : handler :=
  mkHandler "PUT" pattern_Orchestrator_UpdateCloudService_0 "/clouditor.orchestrator.v1.Orchestrator/UpdateCloudService"
    "/v1/orchestrator/cloud_services/{cloud_service.id}" local_request_Orchestrator_UpdateCloudService_0.
Definition handle_local_Orchestrator_GetCloudService_0 : handler :=
  mkHandler "GET" pattern_Orchestrator_GetCloudService_0 "/clouditor.orchestrator.v1.Orchestrator/GetCloudService"
    "/v1/orchestrator/cloud_services/{cloud_service_id}" local_request_Orchestrator_GetCloudService_0.
Definition handle_local_Orchestrator_ListCloudServices_0 : handler :=
  mkHandler "GET" pattern_Orchestrator_ListCloudServices_0 "/clouditor.orchestrator.v1.Orchestrator/ListCloudServices"
    "/v1/orchestrator/cloud_services" local_request_Orchestrator_ListCloudServices_0.
Definition handle_local_Orchestrator_RemoveCloudService_0 : handler :=
  mkHandler "DELETE" pattern_Orchestrator_RemoveCloudService_0 "/clouditor.orchestrator.v1.Orchestrator/RemoveCloudService"
    "/v1/orchestrator/cloud_services/{cloud_service_id}" local_request_Orchestrator_RemoveCloudService_0.
Definition handle_local_Orchestrator_GetCloudServiceStatistics_0 : handler :=
  mkHandler "GET" pattern_Orchestrator_GetCloudServiceStatistics_0 "/clouditor.orchestrator.v1.Orchestrator/GetCloudServiceStatistics"
    "/v1/orchestrator/cloud_services/statistics" local_request_Orchestrator_GetCloudServiceStatistics_0.
Definition handle_local_Orchestrator_UpdateMetricConfiguration_0 : handler :=
  mkHandler "PUT" pattern_Orchestrator_UpdateMetricConfiguration_0 "/clouditor.orchestrator.v1.Orchestrator/UpdateMetricConfiguration"
    "/v1/orchestrator/cloud_services/{cloud_service_id}/metric_configurations/{metric_id}" local_request_Orchestrator_UpdateMetricConfiguration_0.
Definition handle_local_Orchestrator_GetMetricConfiguration_0 : handler :=
  mkHandler "GET" pattern_Orchestrator_GetMetricConfiguration_0 "/clouditor.orchestrator.v1.Orchestrator/GetMetricConfiguration"
    "/v1/orchestrator/cloud_services/{cloud_service_id}/metric_configurations/{metric_id}" local_request_Orchestrator_GetMetricConfiguration_0.
Definition handle_local_Orchestrator_ListMetricConfigurations_0 : handler :=
  mkHandler "GET" pattern_Orchestrator_ListMetricConfigurations_0 "/clouditor.orchestrator.v1.Orchestrator/ListMetricConfigurations"
    "/v1/orchestrator/cloud_services/{cloud_service_id}/metric_configurations" local_request_Orchestrator_ListMetricConfigurations_0.
Definition handle_local_Orchestrator_UpdateMetricImplementation_0 : handler :=
  mkHandler "PUT" pattern_Orchestrator_UpdateMetricImplementation_0 "/clouditor.orchestrator.v1.Orchestrator/UpdateMetricImplementation"
    "/v1/orchestrator/metrics/{implementation.metric_id}/implementation" local_request_Orchestrator_UpdateMetricImplementation_0.
Definition handle_local_Orchestrator_GetMetricImplementation_0 : handler :=
  mkHandler "GET" pattern_Orchestrator_GetMetricImplementation_0 "/clouditor.orchestrator.v1.Orchestrator/GetMetricImplementation"
    "/v1/orchestrator/metrics/{metric_id}/implementation" local_request_Orchestrator_GetMetricImplementation_0.
Definition handle_local_Orchestrator_CreateCertificate_0 : handler :=
  mkHandler "POST" pattern_Orchestrator_CreateCertificate_0 "/clouditor.orchestrator.v1.Orchestrator/CreateCertificate"
    "/v1/orchestrator/certificates" local_request_Orchestrator_CreateCertificate_0.
Definition handle_local_Orchestrator_GetCertificate_0 : handler :=
  mkHandler "GET" pattern_Orchestrator_GetCertificate_0 "/clouditor.orchestrator.v1.Orchestrator/GetCertificate"
    "/v1/orchestrator/certificates/{certificate_id}" local_request_Orchestrator_GetCertificate_0.
Definition handle_local_Orchestrator_ListCertificates_0 : handler :=
  mkHandler "GET" pattern_Orchestrator_ListCertificates_0 "/clouditor.orchestrator.v1.Orchestrator/ListCertificates"
    "/v1/orchestrator/certificates" local_request_Orchestrator_ListCertificates_0.
Definition handle_local_Orchestrator_ListPublicCertificates_0 : handler :=
  mkHandler "GET" pattern_Orchestrator_ListPublicCertificates_0 "/clouditor.orchestrator.v1.Orchestrator/ListPublicCertificates"
    "/v1/orchestrator/public/certificates" local_request_Orchestrator_ListPublicCertificates_0.
Definition handle_local_Orchestrator_UpdateCertificate_0 : handler :=
  mkHandler "PUT" pattern_Orchestrator_UpdateCertificate_0 "/clouditor.orchestrator.v1.Orchestrator/UpdateCertificate"
    "/v1/orchestrator/certificates/{certificate.id}" local_request_Orchestrator_UpdateCertificate_0.
Definition handle_local_Orchestrator_RemoveCertificate_0 : handler :=
  mkHandler "DELETE" pattern_Orchestrator_RemoveCertificate_0 "/clouditor.orchestrator.v1.Orchestrator/RemoveCertificate"
    "/v1/orchestrator/certificates/{certificate_id}" local_request_Orchestrator_RemoveCertificate_0.
Definition handle_local_Orchestrator_CreateCatalog_0 : handler :=
  mkHandler "POST" pattern_Orchestrator_CreateCatalog_0 "/clouditor.orchestrator.v1.Orchestrator/CreateCatalog"
    "/v1/orchestrator/catalogs" local_request_Orchestrator_CreateCatalog_0.
Definition handle_local_Orchestrator_ListCatalogs_0 : handler :=
  mkHandler "GET" pattern_Orchestrator_ListCatalogs_0 "/clouditor.orchestrator.v1.Orchestrator/ListCatalogs"
    "/v1/orchestrator/catalogs" local_request_Orchestrator_ListCatalogs_0.
Definition handle_local_Orchestrator_GetCatalog_0 : handler :=
  mkHandler "GET" pattern_Orchestrator_GetCatalog_0 "/clouditor.orchestrator.v1.Orchestrator/GetCatalog"
    "/v1/orchestrator/catalogs/{catalog_id}" local_request_Orchestrator_GetCatalog_0.
Definition handle_local_Orchestrator_RemoveCatalog_0 : handler :=
  mkHandler "DELETE" pattern_Orchestrator_RemoveCatalog_0 "/clouditor.orchestrator.v1.Orchestrator/RemoveCatalog"
    "/v1/orchestrator/catalogs/{catalog_id}" local_request_Orchestrator_RemoveCatalog_0.
Definition handle_local_Orchestrator_UpdateCatalog_0 : handler :=
  mkHandler "PUT" pattern_Orchestrator_UpdateCatalog_0 "/clouditor.orchestrator.v1.Orchestrator/UpdateCatalog"
    "/v1/orchestrator/catalogs/{catalog.id}" local_request_Orchestrator_UpdateCatalog_0.
Definition handle_local_Orchestrator_GetCategory_0 : handler :=
  mkHandler "GET" pattern_Orchestrator_GetCategory_0 "/clouditor.orchestrator.v1.Orchestrator/GetCategory"
    "/v1/orchestrator/catalogs/{catalog_id}/category/{category_name}" local_request_Orchestrator_GetCategory_0.
Definition handle_local_Orchestrator_ListControls_0 : handler :=
  mkHandler "GET" pattern_Orchestrator_ListControls_0 "/clouditor.orchestrator.v1.Orchestrator/ListControls"
    "/v1/orchestrator/controls" local_request_Orchestrator_ListControls_0.
Definition handle_local_Orchestrator_ListControls_1 : handler :=
  mkHandler "GET" pattern_Orchestrator_ListControls_1 "/clouditor.orchestrator.v1.Orchestrator/ListControls"
    "/v1/orchestrator/catalogs/{catalog_id}/categories/{category_name}/controls" local_request_Orchestrator_ListControls_1.
Definition handle_local_Orchestrator_GetControl_0 : handler :=
  mkHandler "GET" pattern_Orchestrator_GetControl_0 "/clouditor.orchestrator.v1.Orchestrator/GetControl"
    "/v1/orchestrator/catalogs/{catalog_id}/categories/{category_name}/controls/{control_id}" local_request_Orchestrator_GetControl_0.
Definition handle_local_Orchestrator_CreateTargetOfEvaluation_0 : handler :=
  mkHandler "POST" pattern_Orchestrator_CreateTargetOfEvaluation_0 "/clouditor.orchestrator.v1.Orchestrator/CreateTargetOfEvaluation"
    "/v1/orchestrator/toes" local_request_Orchestrator_CreateTargetOfEvaluation_0.
Definition handle_local_Orchestrator_GetTargetOfEvaluation_0 : handler :=
  mkHandler "GET" pattern_Orchestrator_GetTargetOfEvaluation_0 "/clouditor.orchestrator.v1.Orchestrator/GetTargetOfEvaluation"
    "/v1/orchestrator/cloud_services/{cloud_service_id}/toes/{catalog_id}" local_request_Orchestrator_GetTargetOfEvaluation_0.
Definition handle_local_Orchestrator_ListTargetsOfEvaluation_0 : handler :=
  mkHandler "GET" pattern_Orchestrator_ListTargetsOfEvaluation_0 "/clouditor.orchestrator.v1.Orchestrator/ListTargetsOfEvaluation"
    "/v1/orchestrator/toes" local_request_Orchestrator_ListTargetsOfEvaluation_0.
Definition handle_local_Orchestrator_ListTargetsOfEvaluation_1 : handler :=
  mkHandler "GET" pattern_Orchestrator_ListTargetsOfEvaluation_1 "/clouditor.orchestrator.v1.Orchestrator/ListTargetsOfEvaluation"
    "/v1/orchestrator/cloud_services/{cloud_service_id}/toes" local_request_Orchestrator_ListTargetsOfEvaluation_1.
Definition handle_local_Orchestrator_ListTargetsOfEvaluation_2 : handler :=
  mkHandler "GET" pattern_Orchestrator_ListTargetsOfEvaluation_2 "/clouditor.orchestrator.v1.Orchestrator/ListTargetsOfEvaluation"
    "/v1/orchestrator/catalogs/{catalog_id}/toes" local_request_Orchestrator_ListTargetsOfEvaluation_2.
Definition handle_local_Orchestrator_UpdateTargetOfEvaluation_0 : handler :=
  mkHandler "PUT" pattern_Orchestrator_UpdateTargetOfEvaluation_0 "/clouditor.orchestrator.v1.Orchestrator/UpdateTargetOfEvaluation"
    "/v1/orchestrator/cloud_services/{target_of_evaluation.cloud_service_id}/toes/{target_of_evaluation.catalog_id}" local_request_Orchestrator_UpdateTargetOfEvaluation_0.
Definition handle_local_Orchestrator_RemoveTargetOfEvaluation_0 : handler :=
  mkHandler "DELETE" pattern_Orchestrator_RemoveTargetOfEvaluation_0 "/clouditor.orchestrator.v1.Orchestrator/RemoveTargetOfEvaluation"
    "/v1/orchestrator/cloud_services/{cloud_service_id}/toes/{catalog_id}" local_request_Orchestrator_RemoveTargetOfEvaluation_0.
Definition handle_local_Orchestrator_GetRuntimeInfo_0 : handler :=
  mkHandler "GET" pattern_Orchestrator_GetRuntimeInfo_0 "/clouditor.orchestrator.v1.Orchestrator/GetRuntimeInfo"
    "/v1/orchestrator/runtime_info" local_request_Orchestrator_GetRuntimeInfo_0.

Definition RegisterOrchestratorHandlerServer : list handler :=
  [handle_local_Orchestrator_RegisterAssessmentTool_0;
   handle_local_Orchestrator_ListAssessmentTools_0;
   handle_local_Orchestrator_GetAssessmentTool_0;
   handle_local_Orchestrator_UpdateAssessmentTool_0;
   handle_local_Orchestrator_DeregisterAssessmentTool_0;
   handle_local_Orchestrator_StoreAssessmentResult_0;
   handle_local_Orchestrator_GetAssessmentResult_0;
   handle_local_Orchestrator_ListAssessmentResults_0;
   handle_local_Orchestrator_CreateMetric_0;
   handle_local_Orchestrator_UpdateMetric_0;
   handle_local_Orchestrator_GetMetric_0;
   handle_local_Orchestrator_ListMetrics_0;
   handle_local_Orchestrator_RemoveMetric_0;
   handle_local_Orchestrator_RegisterCloudService_0;
   handle_local_Orchestrator_UpdateCloudService_0;
   handle_local_Orchestrator_GetCloudService_0;
   handle_local_Orchestrator_ListCloudServices_0;
   handle_local_Orchestrator_RemoveCloudService_0;
   handle_local_Orchestrator_GetCloudServiceStatistics_0;
   handle_local_Orchestrator_UpdateMetricConfiguration_0;
   handle_local_Orchestrator_GetMetricConfiguration_0;
   handle_local_Orchestrator_ListMetricConfigurations_0;
   handle_local_Orchestrator_UpdateMetricImplementation_0;
   handle_local_Orchestrator_GetMetricImplementation_0;
   handle_local_Orchestrator_CreateCertificate_0;
   handle_local_Orchestrator_GetCertificate_0;
   handle_local_Orchestrator_ListCertificates_0;
   handle_local_Orchestrator_ListPublicCertificates_0;
   handle_local_Orchestrator_UpdateCertificate_0;
   handle_local_Orchestrator_RemoveCertificate_0;
   handle_local_Orchestrator_CreateCatalog_0;
   handle_local_Orchestrator_ListCatalogs_0;
   handle_local_Orchestrator_GetCatalog_0;
   handle_local_Orchestrator_RemoveCatalog_0;
   handle_local_Orchestrator_UpdateCatalog_0;
   handle_local_Orchestrator_GetCategory_0;
   handle_local_Orchestrator_ListControls_0;
   handle_local_Orchestrator_ListControls_1;
   handle_local_Orchestrator_GetControl_0;
   handle_local_Orchestrator_CreateTargetOfEvaluation_0;
   handle_local_Orchestrator_GetTargetOfEvaluation_0;
   handle_local_Orchestrator_ListTargetsOfEvaluation_0;
   handle_local_Orchestrator_ListTargetsOfEvaluation_1;
   handle_local_Orchestrator_ListTargetsOfEvaluation_2;
   handle_local_Orchestrator_UpdateTargetOfEvaluation_0;
   handle_local_Orchestrator_RemoveTargetOfEvaluation_0;
   handle_local_Orchestrator_GetRuntimeInfo_0].

Definition handle_Orchestrator_RegisterAssessmentTool_0 : handler :=
  mkHandler "POST" pattern_Orchestrator_RegisterAssessmentTool_0 "/clouditor.orchestrator.v1.Orchestrator/RegisterAssessmentTool"
    "/v1/orchestrator/assessment_tools" request_Orchestrator_RegisterAssessmentTool_0.
Definition handle_Orchestrator_ListAssessmentTools_0 : handler :=
  mkHandler "GET" pattern_Orchestrator_ListAssessmentTools_0 "/clouditor.orchestrator.v1.Orchestrator/ListAssessmentTools"
    "/v1/orchestrator/assessment_tools" request_Orchestrator_ListAssessmentTools_0.
Definition handle_Orchestrator_GetAssessmentTool_0 : handler :=
  mkHandler "GET" pattern_Orchestrator_GetAssessmentTool_0 "/clouditor.orchestrator.v1.Orchestrator/GetAssessmentTool"
    "/v1/orchestrator/assessment_tools/{tool_id}" request_Orchestrator_GetAssessmentTool_0.
Definition handle_Orchestrator_UpdateAssessmentTool_0 : handler :=
  mkHandler "PUT" pattern_Orchestrator_UpdateAssessmentTool_0 "/clouditor.orchestrator.v1.Orchestrator/UpdateAssessmentTool"
    "/v1/orchestrator/assessment_tools/{tool.id}" request_Orchestrator_UpdateAssessmentTool_0.
Definition handle_Orchestrator_DeregisterAssessmentTool_0 : handler :=
  mkHandler "DELETE" pattern_Orchestrator_DeregisterAssessmentTool_0 "/clouditor.orchestrator.v1.Orchestrator/DeregisterAssessmentTool"
    "/v1/orchestrator/assessment_tools/{tool_id}" request_Orchestrator_DeregisterAssessmentTool_0.
Definition handle_Orchestrator_StoreAssessmentResult_0 : handler :=
  mkHandler "POST" pattern_Orchestrator_StoreAssessmentResult_0 "/clouditor.orchestrator.v1.Orchestrator/StoreAssessmentResult"
    "/v1/orchestrator/assessment_results" request_Orchestrator_StoreAssessmentResult_0.
Definition handle_Orchestrator_GetAssessmentResult_0 : handler :=
  mkHandler "GET" pattern_Orchestrator_GetAssessmentResult_0 "/clouditor.orchestrator.v1.Orchestrator/GetAssessmentResult"
    "/v1/orchestrator/assessment_results/{id}" request_Orchestrator_GetAssessmentResult_0.
Definition handle_Orchestrator_ListAssessmentResults_0 : handler :=
  mkHandler "GET" pattern_Orchestrator_ListAssessmentResults_0 "/clouditor.orchestrator.v1.Orchestrator/ListAssessmentResults"
    "/v1/orchestrator/assessment_results" request_Orchestrator_ListAssessmentResults_0.
Definition handle_Orchestrator_CreateMetric_0 : handler :=
  mkHandler "POST" pattern_Orchestrator_CreateMetric_0 "/clouditor.orchestrator.v1.Orchestrator/CreateMetric"
    "/v1/orchestrator/metrics" request_Orchestrator_CreateMetric_0.
Definition handle_Orchestrator_UpdateMetric_0 : handler :=
  mkHandler "PUT" pattern_Orchestrator_UpdateMetric_0 "/clouditor.orchestrator.v1.Orchestrator/UpdateMetric"
    "/v1/orchestrator/metrics/{metric.id}" request_Orchestrator_UpdateMetric_0.
Definition handle_Orchestrator_GetMetric_0 : handler :=
  mkHandler "GET" pattern_Orchestrator_GetMetric_0 "/clouditor.orchestrator.v1.Orchestrator/GetMetric"
    "/v1/orchestrator/metrics/{metric_id}" request_Orchestrator_GetMetric_0.
Definition handle_Orchestrator_ListMetrics_0 : handler :=
  mkHandler "GET" pattern_Orchestrator_ListMetrics_0 "/clouditor.orchestrator.v1.Orchestrator/ListMetrics"
    "/v1/orchestrator/metrics" request_Orchestrator_ListMetrics_0.
Definition handle_Orchestrator_RemoveMetric_0 : handler :=
  mkHandler "DELETE" pattern_Orchestrator_RemoveMetric_0 "/clouditor.orchestrator.v1.Orchestrator/RemoveMetric"
    "/v1/orchestrator/metrics/{metric_id}" request_Orchestrator_RemoveMetric_0.
Definition handle_Orchestrator_RegisterCloudService_0 : handler :=
  mkHandler "POST" pattern_Orchestrator_RegisterCloudService_0 "/clouditor.orchestrator.v1.Orchestrator/RegisterCloudService"
    "/v1/orchestrator/cloud_services" request_Orchestrator_RegisterCloudService_0.
Definition handle_Orchestrator_UpdateCloudService_0 : handler :=
  mkHandler "PUT" pattern_Orchestrator_UpdateCloudService_0 "/clouditor.orchestrator.v1.Orchestrator/UpdateCloudService"
    "/v1/orchestrator/cloud_services/{cloud_service.id}" request_Orchestrator_UpdateCloudService_0.
Definition handle_Orchestrator_GetCloudService_0 : handler :=
  mkHandler "GET" pattern_Orchestrator_GetCloudService_0 "/clouditor.orchestrator.v1.Orchestrator/GetCloudService"
    "/v1/orchestrator/cloud_services/{cloud_service_id}" request_Orchestrator_GetCloudService_0.
Definition handle_Orchestrator_ListCloudServices_0 : handler :=
  mkHandler "GET" pattern_Orchestrator_ListCloudServices_0 "/clouditor.orchestrator.v1.Orchestrator/ListCloudServices"
    "/v1/orchestrator/cloud_services" request_Orchestrator_ListCloudServices_0.
Definition handle_Orchestrator_RemoveCloudService_0 : handler :=
  mkHandler "DELETE" pattern_Orchestrator_RemoveCloudService_0 "/clouditor.orchestrator.v1.Orchestrator/RemoveCloudService"
    "/v1/orchestrator/cloud_services/{cloud_service_id}" request_Orchestrator_RemoveCloudService_0.
Definition handle_Orchestrator_GetCloudServiceStatistics_0 : handler :=
  mkHandler "GET" pattern_Orchestrator_GetCloudServiceStatistics_0 "/clouditor.orchestrator.v1.Orchestrator/GetCloudServiceStatistics"
    "/v1/orchestrator/cloud_services/statistics" request_Orchestrator_GetCloudServiceStatistics_0.
Definition handle_Orchestrator_UpdateMetricConfiguration_0 : handler :=
  mkHandler "PUT" pattern_Orchestrator_UpdateMetricConfiguration_0 "/clouditor.orchestrator.v1.Orchestrator/UpdateMetricConfiguration"
    "/v1/orchestrator/cloud_services/{cloud_service_id}/metric_configurations/{metric_id}" request_Orchestrator_UpdateMetricConfiguration_0.
Definition handle_Orchestrator_GetMetricConfiguration_0 : handler :=
  mkHandler "GET" pattern_Orchestrator_GetMetricConfiguration_0 "/clouditor.orchestrator.v1.Orchestrator/GetMetricConfiguration"
    "/v1/orchestrator/cloud_services/{cloud_service_id}/metric_configurations/{metric_id}" request_Orchestrator_GetMetricConfiguration_0.
Definition handle_Orchestrator_ListMetricConfigurations_0 : handler :=
  mkHandler "GET" pattern_Orchestrator_ListMetricConfigurations_0 "/clouditor.orchestrator.v1.Orchestrator/ListMetricConfigurations"
    "/v1/orchestrator/cloud_services/{cloud_service_id}/metric_configurations" request_Orchestrator_ListMetricConfigurations_0.
Definition handle_Orchestrator_UpdateMetricImplementation_0 : handler :=
  mkHandler "PUT" pattern_Orchestrator_UpdateMetricImplementation_0 "/clouditor.orchestrator.v1.Orchestrator/UpdateMetricImplementation"
    "/v1/orchestrator/metrics/{implementation.metric_id}/implementation" request_Orchestrator_UpdateMetricImplementation_0.
Definition handle_Orchestrator_GetMetricImplementation_0 : handler :=
  mkHandler "GET" pattern_Orchestrator_GetMetricImplementation_0 "/clouditor.orchestrator.v1.Orchestrator/GetMetricImplementation"
    "/v1/orchestrator/metrics/{metric_id}/implementation" request_Orchestrator_GetMetricImplementation_0.
Definition handle_Orchestrator_CreateCertificate_0 : handler :=
  mkHandler "POST" pattern_Orchestrator_CreateCertificate_0 "/clouditor.orchestrator.v1.Orchestrator/CreateCertificate"
    "/v1/orchestrator/certificates" request_Orchestrator_CreateCertificate_0.
Definition handle_Orchestrator_GetCertificate_0 : handler :=
  mkHandler "GET" pattern_Orchestrator_GetCertificate_0 "/clouditor.orchestrator.v1.Orchestrator/GetCertificate"
    "/v1/orchestrator/certificates/{certificate_id}" request_Orchestrator_GetCertificate_0.
Definition handle_Orchestrator_ListCertificates_0 : handler :=
  mkHandler "GET" pattern_Orchestrator_ListCertificates_0 "/clouditor.orchestrator.v1.Orchestrator/ListCertificates"
    "/v1/orchestrator/certificates" request_Orchestrator_ListCertificates_0.
Definition handle_Orchestrator_ListPublicCertificates_0 : handler :=
  mkHandler "GET" pattern_Orchestrator_ListPublicCertificates_0 "/clouditor.orchestrator.v1.Orchestrator/ListPublicCertificates"
    "/v1/orchestrator/public/certificates" request_Orchestrator_ListPublicCertificates_0.
Definition handle_Orchestrator_UpdateCertificate_0 : handler :=
  mkHandler "PUT" pattern_Orchestrator_UpdateCertificate_0 "/clouditor.orchestrator.v1.Orchestrator/UpdateCertificate"
    "/v1/orchestrator/certificates/{certificate.id}" request_Orchestrator_UpdateCertificate_0.
Definition handle_Orchestrator_RemoveCertificate_0 : handler :=
  mkHandler "DELETE" pattern_Orchestrator_RemoveCertificate_0 "/clouditor.orchestrator.v1.Orchestrator/RemoveCertificate"
    "/v1/orchestrator/certificates/{certificate_id}" request_Orchestrator_RemoveCertificate_0.
Definition handle_Orchestrator_CreateCatalog_0 : handler :=
  mkHandler "POST" pattern_Orchestrator_CreateCatalog_0 "/clouditor.orchestrator.v1.Orchestrator/CreateCatalog"
    "/v1/orchestrator/catalogs" request_Orchestrator_CreateCatalog_0.
Definition handle_Orchestrator_ListCatalogs_0 : handler :=
  mkHandler "GET" pattern_Orchestrator_ListCatalogs_0 "/clouditor.orchestrator.v1.Orchestrator/ListCatalogs"
    "/v1/orchestrator/catalogs" request_Orchestrator_ListCatalogs_0.
Definition handle_Orchestrator_GetCatalog_0 : handler :=
  mkHandler "GET" pattern_Orchestrator_GetCatalog_0 "/clouditor.orchestrator.v1.Orchestrator/GetCatalog"
    "/v1/orchestrator/catalogs/{catalog_id}" request_Orchestrator_GetCatalog_0.
Definition handle_Orchestrator_RemoveCatalog_0 : handler :=
  mkHandler "DELETE" pattern_Orchestrator_RemoveCatalog_0 "/clouditor.orchestrator.v1.Orchestrator/RemoveCatalog"
    "/v1/orchestrator/catalogs/{catalog_id}" request_Orchestrator_RemoveCatalog_0.
Definition handle_Orchestrator_UpdateCatalog_0 : handler :=
  mkHandler "PUT" pattern_Orchestrator_UpdateCatalog_0 "/clouditor.orchestrator.v1.Orchestrator/UpdateCatalog"
    "/v1/orchestrator/catalogs/{catalog.id}" request_Orchestrator_UpdateCatalog_0.
Definition handle_Orchestrator_GetCategory_0 : handler :=
  mkHandler "GET" pattern_Orchestrator_GetCategory_0 "/clouditor.orchestrator.v1.Orchestrator/GetCategory"
    "/v1/orchestrator/catalogs/{catalog_id}/category/{category_name}" request_Orchestrator_GetCategory_0.
Definition handle_Orchestrator_ListControls_0 : handler :=
  mkHandler "GET" pattern_Orchestrator_ListControls_0 "/clouditor.orchestrator.v1.Orchestrator/ListControls"
    "/v1/orchestrator/controls" request_Orchestrator_ListControls_0.
Definition handle_Orchestrator_ListControls_1 : handler :=
  mkHandler "GET" pattern_Orchestrator_ListControls_1 "/clouditor.orchestrator.v1.Orchestrator/ListControls"
    "/v1/orchestrator/catalogs/{catalog_id}/categories/{category_name}/controls" request_Orchestrator_ListControls_1.
Definition handle_Orchestrator_GetControl_0 : handler :=
  mkHandler "GET" pattern_Orchestrator_GetControl_0 "/clouditor.orchestrator.v1.Orchestrator/GetControl"
    "/v1/orchestrator/catalogs/{catalog_id}/categories/{category_name}/controls/{control_id}" request_Orchestrator_GetControl_0.
Definition handle_Orchestrator_CreateTargetOfEvaluation_0 : handler :=
  mkHandler "POST" pattern_Orchestrator_CreateTargetOfEvaluation_0 "/clouditor.orchestrator.v1.Orchestrator/CreateTargetOfEvaluation"
    "/v1/orchestrator/toes" request_Orchestrator_CreateTargetOfEvaluation_0.
Definition handle_Orchestrator_GetTargetOfEvaluation_0 : handler :=
  mkHandler "GET" pattern_Orchestrator_GetTargetOfEvaluation_0 "/clouditor.orchestrator.v1.Orchestrator/GetTargetOfEvaluation"
    "/v1/orchestrator/cloud_services/{cloud_service_id}/toes/{catalog_id}" request_Orchestrator_GetTargetOfEvaluation_0.
Definition handle_Orchestrator_ListTargetsOfEvaluation_0 : handler :=
  mkHandler "GET" pattern_Orchestrator_ListTargetsOfEvaluation_0 "/clouditor.orchestrator.v1.Orchestrator/ListTargetsOfEvaluation"
    "/v1/orchestrator/toes" request_Orchestrator_ListTargetsOfEvaluation_0.
Definition handle_Orchestrator_ListTargetsOfEvaluation_1 : handler :=
  mkHandler "GET" pattern_Orchestrator_ListTargetsOfEvaluation_1 "/clouditor.orchestrator.v1.Orchestrator/ListTargetsOfEvaluation"
    "/v1/orchestrator/cloud_services/{cloud_service_id}/toes" request_Orchestrator_ListTargetsOfEvaluation_1.
Definition handle_Orchestrator_ListTargetsOfEvaluation_2 : handler :=
  mkHandler "GET" pattern_Orchestrator_ListTargetsOfEvaluation_2 "/clouditor.orchestrator.v1.Orchestrator/ListTargetsOfEvaluation"
    "/v1/orchestrator/catalogs/{catalog_id}/toes" request_Orchestrator_ListTargetsOfEvaluation_2.
Definition handle_Orchestrator_UpdateTargetOfEvaluation_0 : handler :=
  mkHandler "PUT" pattern_Orchestrator_UpdateTargetOfEvaluation_0 "/clouditor.orchestrator.v1.Orchestrator/UpdateTargetOfEvaluation"
    "/v1/orchestrator/cloud_services/{target_of_evaluation.cloud_service_id}/toes/{target_of_evaluation.catalog_id}" request_Orchestrator_UpdateTargetOfEvaluation_0.
Definition handle_Orchestrator_RemoveTargetOfEvaluation_0 : handler :=
  mkHandler "DELETE" pattern_Orchestrator_RemoveTargetOfEvaluation_0 "/clouditor.orchestrator.v1.Orchestrator/RemoveTargetOfEvaluation"
    "/v1/orchestrator/cloud_services/{cloud_service_id}/toes/{catalog_id}" request_Orchestrator_RemoveTargetOfEvaluation_0.
Definition handle_Orchestrator_GetRuntimeInfo_0 : handler :=
  mkHandler "GET" pattern_Orchestrator_GetRuntimeInfo_0 "/clouditor.orchestrator.v1.Orchestrator/GetRuntimeInfo"
    "/v1/orchestrator/runtime_info" request_Orchestrator_GetRuntimeInfo_0.

Definition RegisterOrchestratorHandlerClient : list handler :=
  [handle_Orchestrator_RegisterAssessmentTool_0;
   handle_Orchestrator_ListAssessmentTools_0;
   handle_Orchestrator_GetAssessmentTool_0;
   handle_Orchestrator_UpdateAssessmentTool_0;
   handle_Orchestrator_DeregisterAssessmentTool_0;
   handle_Orchestrator_StoreAssessmentResult_0;
   handle_Orchestrator_GetAssessmentResult_0;
   handle_Orchestrator_ListAssessmentResults_0;
   handle_Orchestrator_CreateMetric_0;
   handle_Orchestrator_UpdateMetric_0;
   handle_Orchestrator_GetMetric_0;
   handle_Orchestrator_ListMetrics_0;
   handle_Orchestrator_RemoveMetric_0;
   handle_Orchestrator_RegisterCloudService_0;
   handle_Orchestrator_UpdateCloudService_0;
   handle_Orchestrator_GetCloudService_0;
   handle_Orchestrator_ListCloudServices_0;
   handle_Orchestrator_RemoveCloudService_0;
   handle_Orchestrator_GetCloudServiceStatistics_0;
   handle_Orchestrator_UpdateMetricConfiguration_0;
   handle_Orchestrator_GetMetricConfiguration_0;
   handle_Orchestrator_ListMetricConfigurations_0;
   handle_Orchestrator_UpdateMetricImplementation_0;
   handle_Orchestrator_GetMetricImplementation_0;
   handle_Orchestrator_CreateCertificate_0;
   handle_Orchestrator_GetCertificate_0;
   handle_Orchestrator_ListCertificates_0;
   handle_Orchestrator_ListPublicCertificates_0;
   handle_Orchestrator_UpdateCertificate_0;
   handle_Orchestrator_RemoveCertificate_0;
   handle_Orchestrator_CreateCatalog_0;
   handle_Orchestrator_ListCatalogs_0;
   handle_Orchestrator_GetCatalog_0;
   handle_Orchestrator_RemoveCatalog_0;
   handle_Orchestrator_UpdateCatalog_0;
   handle_Orchestrator_GetCategory_0;
   handle_Orchestrator_ListControls_0;
   handle_Orchestrator_ListControls_1;
   handle_Orchestrator_GetControl_0;
   handle_Orchestrator_CreateTargetOfEvaluation_0;
   handle_Orchestrator_GetTargetOfEvaluation_0;
   handle_Orchestrator_ListTargetsOfEvaluation_0;
   handle_Orchestrator_ListTargetsOfEvaluation_1;
   handle_Orchestrator_ListTargetsOfEvaluation_2;
   handle_Orchestrator_UpdateTargetOfEvaluation_0;
   handle_Orchestrator_RemoveTargetOfEvaluation_0;
   handle_Orchestrator_GetRuntimeInfo_0].

Definition RegisterOrchestratorHandler {Conn} (conn : Conn) : list handler := RegisterOrchestratorHandlerClient.
Definition RegisterOrchestratorHandlerFromEndpoint {DB S Opt Conn T} `{GatewayDial Opt Conn T} :=
  register_from_endpoint (DB := DB) (S := S) RegisterOrchestratorHandler.

(** ** api/evaluation/evaluation.pb.gw.go *)

Definition filter_Evaluation_StartEvaluation_0 : DoubleArray := mkDoubleArray [("cloud_service_id", 0); ("catalog_id", 1)] [1; 1; 2; 0; 0] [0; 1; 1; 2; 3].
Definition filter_Evaluation_ListEvaluationResults_0 : DoubleArray := mkDoubleArray [] [] [].

Definition request_Evaluation_StartEvaluation_0 : request_func :=
  mkRequestFunc [PathString "cloud_service_id" "CloudServiceId"; PathString "catalog_id" "CatalogId"; PopulateQuery filter_Evaluation_StartEvaluation_0] "StartEvaluation".
Definition local_request_Evaluation_StartEvaluation_0 : request_func :=
  mkRequestFunc [PathString "cloud_service_id" "CloudServiceId"; PathString "catalog_id" "CatalogId"; PopulateQuery filter_Evaluation_StartEvaluation_0] "StartEvaluation".
Definition request_Evaluation_StopEvaluation_0 : request_func :=
  mkRequestFunc [PathString "cloud_service_id" "CloudServiceId"; PathString "catalog_id" "CatalogId"] "StopEvaluation".
Definition local_request_Evaluation_StopEvaluation_0 : request_func :=
  mkRequestFunc [PathString "cloud_service_id" "CloudServiceId"; PathString "catalog_id" "CatalogId"] "StopEvaluation".
Definition request_Evaluation_ListEvaluationResults_0 : request_func :=
  mkRequestFunc [PopulateQuery filter_Evaluation_ListEvaluationResults_0] "ListEvaluationResults".
Definition local_request_Evaluation_ListEvaluationResults_0 : request_func :=
  mkRequestFunc [PopulateQuery filter_Evaluation_ListEvaluationResults_0] "ListEvaluationResults".
Definition request_Evaluation_CreateEvaluationResult_0 : request_func :=
  mkRequestFunc [DecodeField "Result"] "CreateEvaluationResult".
Definition local_request_Evaluation_CreateEvaluationResult_0 : request_func :=
  mkRequestFunc [DecodeField "Result"] "CreateEvaluationResult".

Definition pattern_Evaluation_StartEvaluation_0 : Pattern :=
  mkPattern [2; 0; 2; 1; 2; 2; 1; 0; 4; 1; 5; 3; 1; 0; 4; 1; 5; 4; 2; 5] ["v1"; "evaluation"; "evaluate"; "cloud_service_id"; "catalog_id"; "start"] "".
Definition pattern_Evaluation_StopEvaluation_0 : Pattern :=
  mkPattern [2; 0; 2; 1; 2; 2; 1; 0; 4; 1; 5; 3; 1; 0; 4; 1; 5; 4; 2; 5] ["v1"; "evaluation"; "evaluate"; "cloud_service_id"; "catalog_id"; "stop"] "".
Definition pattern_Evaluation_ListEvaluationResults_0 : Pattern :=
  mkPattern [2; 0; 2; 1; 2; 2] ["v1"; "evaluation"; "results"] "".
Definition pattern_Evaluation_CreateEvaluationResult_0 : Pattern :=
  mkPattern [2; 0; 2; 1; 2; 2] ["v1"; "evaluation"; "results"] "".

Definition handle_local_Evaluation_StartEvaluation_0 : handler :=
  mkHandler "POST" pattern_Evaluation_StartEvaluation_0 "/clouditor.evaluation.v1.Evaluation/StartEvaluation"
    "/v1/evaluation/evaluate/{cloud_service_id}/{catalog_id}/start" local_request_Evaluation_StartEvaluation_0.
Definition handle_local_Evaluation_StopEvaluation_0 : handler :=
  mkHandler "POST" pattern_Evaluation_StopEvaluation_0 "/clouditor.evaluation.v1.Evaluation/StopEvaluation"
    "/v1/evaluation/evaluate/{cloud_service_id}/{catalog_id}/stop" local_request_Evaluation_StopEvaluation_0.
Definition handle_local_Evaluation_ListEvaluationResults_0 : handler :=
  mkHandler "GET" pattern_Evaluation_ListEvaluationResults_0 "/clouditor.evaluation.v1.Evaluation/ListEvaluationResults"
    "/v1/evaluation/results" local_request_Evaluation_ListEvaluationResults_0.
Definition handle_local_Evaluation_CreateEvaluationResult_0 : handler :=
  mkHandler "POST" pattern_Evaluation_CreateEvaluationResult_0 "/clouditor.evaluation.v1.Evaluation/CreateEvaluationResult"
    "/v1/evaluation/results" local_request_Evaluation_CreateEvaluationResult_0.

Definition RegisterEvaluationHandlerServer : list handler :=
  [handle_local_Evaluation_StartEvaluation_0;
   handle_local_Evaluation_StopEvaluation_0;
   handle_local_Evaluation_ListEvaluationResults_0;
   handle_local_Evaluation_CreateEvaluationResult_0].

Definition handle_Evaluation_StartEvaluation_0 : handler :=
  mkHandler "POST" pattern_Evaluation_StartEvaluation_0 "/clouditor.evaluation.v1.Evaluation/StartEvaluation"
    "/v1/evaluation/evaluate/{cloud_service_id}/{catalog_id}/start" request_Evaluation_StartEvaluation_0.
Definition handle_Evaluation_StopEvaluation_0 : handler :=
  mkHandler "POST" pattern_Evaluation_StopEvaluation_0 "/clouditor.evaluation.v1.Evaluation/StopEvaluation"
    "/v1/evaluation/evaluate/{cloud_service_id}/{catalog_id}/stop" request_Evaluation_StopEvaluation_0.
Definition handle_Evaluation_ListEvaluationResults_0 : handler :=
  mkHandler "GET" pattern_Evaluation_ListEvaluationResults_0 "/clouditor.evaluation.v1.Evaluation/ListEvaluationResults"
    "/v1/evaluation/results" request_Evaluation_ListEvaluationResults_0.
Definition handle_Evaluation_CreateEvaluationResult_0 : handler :=
  mkHandler "POST" pattern_Evaluation_CreateEvaluationResult_0 "/clouditor.evaluation.v1.Evaluation/CreateEvaluationResult"
    "/v1/evaluation/results" request_Evaluation_CreateEvaluationResult_0.

Definition RegisterEvaluationHandlerClient : list handler :=
  [handle_Evaluation_StartEvaluation_0;
   handle_Evaluation_StopEvaluation_0;
   handle_Evaluation_ListEvaluationResults_0;
   handle_Evaluation_CreateEvaluationResult_0].

Definition RegisterEvaluationHandler {Conn} (conn : Conn) : list handler := RegisterEvaluationHandlerClient.
Definition RegisterEvaluationHandlerFromEndpoint {DB S Opt Conn T} `{GatewayDial Opt Conn T} :=
  register_from_endpoint (DB := DB) (S := S) RegisterEvaluationHandler.

(** ** api/evidence/evidence_store.pb.gw.go *)

Definition filter_EvidenceStore_ListEvidences_0 : DoubleArray := mkDoubleArray [] [] [].

Definition request_EvidenceStore_StoreEvidence_0 : request_func :=
  mkRequestFunc [DecodeField "Evidence"] "StoreEvidence".
Definition local_request_EvidenceStore_StoreEvidence_0 : request_func :=
  mkRequestFunc [DecodeField "Evidence"] "StoreEvidence".
Definition request_EvidenceStore_ListEvidences_0 : request_func :=
  mkRequestFunc [PopulateQuery filter_EvidenceStore_ListEvidences_0] "ListEvidences".
Definition local_request_EvidenceStore_ListEvidences_0 : request_func :=
  mkRequestFunc [PopulateQuery filter_EvidenceStore_ListEvidences_0] "ListEvidences".
Definition request_EvidenceStore_GetEvidence_0 : request_func :=
  mkRequestFunc [PathString "evidence_id" "EvidenceId"] "GetEvidence".
Definition local_request_EvidenceStore_GetEvidence_0 : request_func :=
  mkRequestFunc [PathString "evidence_id" "EvidenceId"] "GetEvidence".

Definition pattern_EvidenceStore_StoreEvidence_0 : Pattern :=
  mkPattern [2; 0; 2; 1; 2; 2] ["v1"; "evidence_store"; "evidence"] "".
Definition pattern_EvidenceStore_ListEvidences_0 : Pattern :=
  mkPattern [2; 0; 2; 1; 2; 2] ["v1"; "evidence_store"; "evidences"] "".
Definition pattern_EvidenceStore_GetEvidence_0 : Pattern :=
  mkPattern [2; 0; 2; 1; 2; 2; 1; 0; 4; 1; 5; 3] ["v1"; "evidence_store"; "evidences"; "evidence_id"] "".

Definition handle_local_EvidenceStore_StoreEvidence_0 : handler :=
  mkHandler "POST" pattern_EvidenceStore_StoreEvidence_0 "/clouditor.evidence.v1.EvidenceStore/StoreEvidence"
    "/v1/evidence_store/evidence" local_request_EvidenceStore_StoreEvidence_0.
Definition handle_local_EvidenceStore_ListEvidences_0 : handler :=
  mkHandler "GET" pattern_EvidenceStore_ListEvidences_0 "/clouditor.evidence.v1.EvidenceStore/ListEvidences"
    "/v1/evidence_store/evidences" local_request_EvidenceStore_ListEvidences_0.
Definition handle_local_EvidenceStore_GetEvidence_0 : handler :=
  mkHandler "GET" pattern_EvidenceStore_GetEvidence_0 "/clouditor.evidence.v1.EvidenceStore/GetEvidence"
    "/v1/evidence_store/evidences/{evidence_id}" local_request_EvidenceStore_GetEvidence_0.

Definition RegisterEvidenceStoreHandlerServer : list handler :=
  [handle_local_EvidenceStore_StoreEvidence_0;
   handle_local_EvidenceStore_ListEvidences_0;
   handle_local_EvidenceStore_GetEvidence_0].

Definition handle_EvidenceStore_StoreEvidence_0 : handler :=
  mkHandler "POST" pattern_EvidenceStore_StoreEvidence_0 "/clouditor.evidence.v1.EvidenceStore/StoreEvidence"
    "/v1/evidence_store/evidence" request_EvidenceStore_StoreEvidence_0.
Definition handle_EvidenceStore_ListEvidences_0 : handler :=
  mkHandler "GET" pattern_EvidenceStore_ListEvidences_0 "/clouditor.evidence.v1.EvidenceStore/ListEvidences"
    "/v1/evidence_store/evidences" request_EvidenceStore_ListEvidences_0.
Definition handle_EvidenceStore_GetEvidence_0 : handler :=
  mkHandler "GET" pattern_EvidenceStore_GetEvidence_0 "/clouditor.evidence.v1.EvidenceStore/GetEvidence"
    "/v1/evidence_store/evidences/{evidence_id}" request_EvidenceStore_GetEvidence_0.

Definition RegisterEvidenceStoreHandlerClient : list handler :=
  [handle_EvidenceStore_StoreEvidence_0;
   handle_EvidenceStore_ListEvidences_0;
   handle_EvidenceStore_GetEvidence_0].

Definition RegisterEvidenceStoreHandler {Conn} (conn : Conn) : list handler := RegisterEvidenceStoreHandlerClient.
Definition RegisterEvidenceStoreHandlerFromEndpoint {DB S Opt Conn T} `{GatewayDial Opt Conn T} :=
  register_from_endpoint (DB := DB) (S := S) RegisterEvidenceStoreHandler.

