(* ===== verification/Rest.v ===== *)
(** server/rest/rest.go: the REST gateway, its options and cross-origin requests.

    The gateway's global variables are the service record of a [World]; a response
    is the header map the handlers write to.  The sockets and the HTTP server are
    third party ([RestLibrary]); the handlers that are registered with the mux are
    the generated ones of GatewayRoutes.v. *)

From S2P Require Import Prelude GoRuntime GoStrings Util GoText Server Gateway GatewayRoutes.

Record corsConfig := mkCorsConfig {
  allowedOrigins : list string;
  allowedHeaders : list string;
  allowedMethods : list string;
}.

Definition DefaultAllowedOrigins : list string := [].
Definition DefaultAllowedHeaders : list string := ["Content-Type"; "Accept"; "Authorization"].
Definition DefaultAllowedMethods : list string := ["GET"; "POST"; "PUT"; "DELETE"].
Definition DefaultAPIHTTPPort : Z := 8080.

(** A call of an option of the OAuth 2.0 server, which is third party. *)
Inductive AuthorizationServerOption :=
| oauth2_WithClient (clientID clientSecret redirectURI : string)
| oauth2_WithLoginPage (users : list (string * string)) (baseURL : string)
| oauth2_WithSigningKeysFunc (keyPath keyPassword : string) (saveOnCreate : bool)
| oauth2_WithPublicURL (publicURL : string).

(** What is registered with the mux: handlers that an option added for a path, and
    generated ones. *)
Inductive route := Additional (method path : string) | Generated (h : handler).

#[global] Instance route_eq_dec : EqDecision route.
Proof. solve_decision. Defined.

(** The goroutines of the package: one that closes a connection when the server's
    context is done, one that waits for an interrupt and stops the server, and one
    that waits for a receiver of [ready]. *)
Inductive RestTask (Conn : Type) := CloseWhenDone (conn : Conn) | OnInterrupt | SignalReady.
Arguments CloseWhenDone {Conn}.
Arguments OnInterrupt {Conn}.
Arguments SignalReady {Conn}.

(** The globals of the package: [cnf], [httpPort], the address of [srv] and the
    port of [sock]; the routes of the mux are kept beside them in the order they
    were registered in, and the options of the embedded OAuth 2.0 server. *)
Record rest (Opt : Type) := mkRest {
  rest_cors : corsConfig;
  rest_opts : list Opt;
  rest_mux : list route;
  rest_auth : option (list AuthorizationServerOption);
  rest_httpPort : Z;
  rest_srv : option string;
  rest_sock : option (option Z);
}.
Arguments mkRest {Opt}.
Arguments rest_cors {Opt}.
Arguments rest_opts {Opt}.
Arguments rest_mux {Opt}.
Arguments rest_auth {Opt}.
Arguments rest_httpPort {Opt}.
Arguments rest_srv {Opt}.
Arguments rest_sock {Opt}.

(** The package's state after [init]. *)
Definition init_rest {Opt} : rest Opt :=
  mkRest (mkCorsConfig DefaultAllowedOrigins DefaultAllowedHeaders DefaultAllowedMethods) [] [] None 0 None None.

Section Options.
Context {Opt : Type}.

Definition set_cors (cors : corsConfig) (c : rest Opt) : rest Opt :=
  mkRest cors (rest_opts c) (rest_mux c) (rest_auth c) (rest_httpPort c) (rest_srv c) (rest_sock c).
Definition set_opts (opts : list Opt) (c : rest Opt) : rest Opt :=
  mkRest (rest_cors c) opts (rest_mux c) (rest_auth c) (rest_httpPort c) (rest_srv c) (rest_sock c).
Definition set_mux (mux : list route) (c : rest Opt) : rest Opt :=
  mkRest (rest_cors c) (rest_opts c) mux (rest_auth c) (rest_httpPort c) (rest_srv c) (rest_sock c).
Definition set_auth (auth : option (list AuthorizationServerOption)) (c : rest Opt) : rest Opt :=
  mkRest (rest_cors c) (rest_opts c) (rest_mux c) auth (rest_httpPort c) (rest_srv c) (rest_sock c).
Definition set_httpPort (port : Z) (c : rest Opt) : rest Opt :=
  mkRest (rest_cors c) (rest_opts c) (rest_mux c) (rest_auth c) port (rest_srv c) (rest_sock c).
Definition set_srv (addr : option string) (c : rest Opt) : rest Opt :=
  mkRest (rest_cors c) (rest_opts c) (rest_mux c) (rest_auth c) (rest_httpPort c) addr (rest_sock c).
Definition set_sock (sock : option (option Z)) (c : rest Opt) : rest Opt :=
  mkRest (rest_cors c) (rest_opts c) (rest_mux c) (rest_auth c) (rest_httpPort c) (rest_srv c) sock.

(** [mux.Handle] *)
Definition mux_add (r : route) (c : rest Opt) : rest Opt := set_mux (rest_mux c ++ [r]) c.

Definition WithAllowedOrigins (origins : list string) (c : rest Opt) : rest Opt :=
  set_cors (mkCorsConfig origins (allowedHeaders (rest_cors c)) (allowedMethods (rest_cors c))) c.
Definition WithAllowedHeaders (headers : list string) (c : rest Opt) : rest Opt :=
  set_cors (mkCorsConfig (allowedOrigins (rest_cors c)) headers (allowedMethods (rest_cors c))) c.
Definition WithAllowedMethods (methods : list string) (c : rest Opt) : rest Opt :=
  set_cors (mkCorsConfig (allowedOrigins (rest_cors c)) (allowedHeaders (rest_cors c)) methods) c.
Definition WithAdditionalHandler (method path : string) (c : rest Opt) : rest Opt := mux_add (Additional method path) c.
Definition rest_WithAdditionalGRPCOpts (opts : list Opt) (c : rest Opt) : rest Opt := set_opts (rest_opts c ++ opts) c.

(** The embedded OAuth 2.0 server with its routes. *)
Definition WithEmbeddedOAuth2Server (keyPath keyPassword : string) (saveOnCreate : bool)
    (opts : list AuthorizationServerOption) (c : rest Opt) : rest Opt :=
  let publicURL := "http://localhost:" +:+ strconv_Itoa (rest_httpPort c) +:+ "/v1/auth" in
  let opts := opts ++ [oauth2_WithSigningKeysFunc keyPath keyPassword saveOnCreate; oauth2_WithPublicURL publicURL] in
  let c := set_auth (Some opts) c in
  let c := WithAdditionalHandler "GET" "/.well-known/openid-configuration" c in
  let c := WithAdditionalHandler "GET" "/v1/auth/certs" c in
  let c := WithAdditionalHandler "GET" "/v1/auth/login" c in
  let c := WithAdditionalHandler "GET" "/v1/auth/authorize" c in
  let c := WithAdditionalHandler "POST" "/v1/auth/login" c in
  WithAdditionalHandler "POST" "/v1/auth/token" c.
End Options.

(** ** Cross-origin requests *)

(** The fields of a request that are read here. *)
Record http_Request := mkHttpRequest {
  req_Origin : string;
  req_Method : string;
  req_RequestMethod : string;
}.

(** [http.Header] with [Set] and [Add]. *)
Abbreviation http_Header := (gmap string (list string)).
Definition header_Set (k v : string) (h : http_Header) : http_Header := <[k := [v]]> h.
Definition header_Add (k v : string) (h : http_Header) : http_Header := <[k := default [] (h !! k) ++ [v]]> h.

(** The loop over the allowed origins. *)
Fixpoint origin_in (origin : string) (l : list string) : bool :=
  match l with [] => false | v :: l => if bool_decide (origin = v) then true else origin_in origin l end.

Definition OriginAllowed (cors : corsConfig) (origin : string) : bool :=
  if bool_decide (origin = "") then true else origin_in origin (allowedOrigins cors).

Section Handler.
Context {DB Opt Conn : Type}.
Abbreviation W := (World DB (rest Opt) (RestTask Conn)).

(** [http.Handler]: the header map of the response is passed along. *)
Definition http_Handler : Type := http_Request -> http_Header -> Go W http_Header.

Definition handleCORS (h : http_Handler) : http_Handler := fun r hdr =>
  cors <- svc_read rest_cors ;;
  let origin := req_Origin r in
  if OriginAllowed cors origin then
    let hdr := header_Add "Vary" "Origin" (header_Set "Access-Control-Allow-Origin" origin hdr) in
    if bool_decide (req_Method r = "OPTIONS") && bool_decide (req_RequestMethod r <> "") then
      gret (header_Set "Access-Control-Allow-Methods" (strings_Join (allowedMethods cors) ",")
              (header_Set "Access-Control-Allow-Headers" (strings_Join (allowedHeaders cors) ",") hdr))
    else h r hdr
  else h r hdr.

(** ** RunServer *)

(** [grpc.DialContext], [net.Listen] with the port it got, [srv.Serve], and the
    transport option. *)
Class RestLibrary := {
  rl_DialContext : string -> list Opt -> nat -> res Conn;
  rl_Listen : string -> nat -> res (option Z);
  rl_Serve : nat -> error;
  rl_insecure : Opt;
}.

#[global] Instance rest_dial `{RestLibrary} : GatewayDial Opt Conn (RestTask Conn) :=
  {| gd_DialContext := rl_DialContext; gd_close_when_done := CloseWhenDone |}.

(** The registrations in order; the first error ends them. *)
Definition add_generated (h : handler) (c : rest Opt) : rest Opt := mux_add (Generated h) c.

Fixpoint register_all (regs : list (string * (list Opt -> Go W (option error)))) : Go W (option error) :=
  match regs with
  | [] => gret None
  | (what, register) :: regs =>
      opts <- svc_read rest_opts ;;
      e <- register opts ;;
      match e with
      | Some e => gret (Some (EWrap ("failed to connect to " +:+ what +:+ " gRPC service") e))
      | None => register_all regs
      end
  end.

Definition registrations `{RestLibrary} (endpoint : string) : list (string * (list Opt -> Go W (option error))) :=
  [("discovery", RegisterDiscoveryHandlerFromEndpoint add_generated endpoint);
   ("discovery", RegisterExperimentalDiscoveryHandlerFromEndpoint add_generated endpoint);
   ("assessment", RegisterAssessmentHandlerFromEndpoint add_generated endpoint);
   ("orchestrator", RegisterOrchestratorHandlerFromEndpoint add_generated endpoint);
   ("evaluation", RegisterEvaluationHandlerFromEndpoint add_generated endpoint);
   ("evidence", RegisterEvidenceStoreHandlerFromEndpoint add_generated endpoint)].

(** Up to the point where the server listens. *)
Definition setup `{RestLibrary} (grpcPort port : Z) (serverOpts : list (rest Opt -> rest Opt)) : Go W (option error) :=
  svc_modify (set_httpPort port) ;;;
  svc_modify (set_mux []) ;;;
  svc_modify (set_opts [rl_insecure]) ;;;
  gfor serverOpts svc_modify ;;;
  register_all (registrations ("localhost:" +:+ strconv_Itoa grpcPort)).

Definition RunServer `{RestLibrary} (grpcPort port : Z) (serverOpts : list (rest Opt -> rest Opt)) : Go W error :=
  e <- setup grpcPort port serverOpts ;;
  match e with
  | Some e => gret e
  | None =>
      httpPort <- svc_read rest_httpPort ;;
      let addr := ":" +:+ strconv_Itoa httpPort in
      svc_modify (set_srv (Some addr)) ;;;
      go_spawn OnInterrupt ;;;
      l <- remote (rl_Listen addr) ;;
      match l with
      | Err e => svc_modify (set_sock None) ;;; gret e
      | OK tcp => svc_modify (set_sock (Some tcp)) ;;; go_spawn SignalReady ;;; remote rl_Serve
      end
  end.

(** A goroutine that waits to send to [ready] is let go, without waiting for one. *)
Fixpoint drop_signal (l : list (RestTask Conn)) : list (RestTask Conn) :=
  match l with [] => [] | SignalReady :: l => l | t :: l => t :: drop_signal l end.

(** [StopServer] without a server panics.  The result of [srv.Shutdown] is ignored. *)
Definition StopServer : Go W unit :=
  gmodify (fun w => mkWorld (w_db w) (w_svc w) (drop_signal (w_tasks w)) (w_tick w)) ;;;
  srv <- svc_read rest_srv ;;
  _ <- gderef srv ;;
  gret tt.

(** A socket that is not a TCP socket is [Some None]. *)
Definition GetServerPort : Go W (res Z) :=
  sock <- svc_read rest_sock ;;
  match sock with
  | None => gerr (EText "server socket is empty")
  | Some None => gerr (EText "server socket address is not a TCP address")
  | Some (Some port) => gok port
  end.

(** ** Properties *)

Lemma origin_in_spec origin l : origin_in origin l = true <-> origin ∈ l.
Proof.
  induction l as [|v l IH]; simpl; [split; [done|by intros ?%not_elem_of_nil]|].
  destruct (bool_decide (origin = v)) eqn:E.
  - apply bool_decide_eq_true in E. set_solver.
  - apply bool_decide_eq_false in E. set_solver.
Qed.

(** A cross-origin request: only an allowed origin (or none) is named in the
    response; a preflight request of an allowed origin is answered with the allowed
    methods and headers and does not reach the handler; every other request reaches
    the handler, once. *)
Theorem cors_correct h r hdr (w : W) :
  let cors := rest_cors (w_svc w) in
  let allowed := req_Origin r = "" \/ req_Origin r ∈ allowedOrigins cors in
  let preflight := req_Method r = "OPTIONS" /\ req_RequestMethod r <> "" in
  (allowed -> preflight -> exists hdr', handleCORS h r hdr w = (Returned hdr', w) /\
     hdr' !! "Access-Control-Allow-Origin" = Some [req_Origin r] /\
     hdr' !! "Access-Control-Allow-Methods" = Some [strings_Join (allowedMethods cors) ","] /\
     hdr' !! "Access-Control-Allow-Headers" = Some [strings_Join (allowedHeaders cors) ","]) /\
  (allowed -> ~ preflight -> exists hdr', handleCORS h r hdr w = h r hdr' w /\
     hdr' !! "Access-Control-Allow-Origin" = Some [req_Origin r] /\
     (forall k, k <> "Access-Control-Allow-Origin" -> k <> "Vary" -> hdr' !! k = hdr !! k)) /\
  (~ allowed -> handleCORS h r hdr w = h r hdr w).
Proof.
  intros cors allowed preflight. unfold handleCORS, gbind, svc_read. fold cors.
  assert (Ha : OriginAllowed cors (req_Origin r) = true <-> allowed).
  { unfold OriginAllowed, allowed. rewrite <-origin_in_spec. destruct (bool_decide _) eqn:E.
    - apply bool_decide_eq_true in E. tauto.
    - apply bool_decide_eq_false in E. tauto. }
  assert (Hp : bool_decide (req_Method r = "OPTIONS") && bool_decide (req_RequestMethod r <> "") = true <-> preflight)
    by (by rewrite andb_true_iff, !bool_decide_eq_true).
  split_and!.
  - intros Hal Hpr. rewrite (proj2 Ha Hal), (proj2 Hp Hpr). eexists. split; [reflexivity|].
    unfold header_Set, header_Add. split_and!; by repeat (rewrite lookup_insert_eq || rewrite lookup_insert_ne by done).
  - intros Hal Hpr. rewrite (proj2 Ha Hal). destruct (bool_decide _ && _); [tauto|]. eexists. split; [reflexivity|].
    unfold header_Set, header_Add. split; [by repeat (rewrite lookup_insert_eq || rewrite lookup_insert_ne by done)|]. intros k Hk1 Hk2. by rewrite !lookup_insert_ne.
  - intros Hal. destruct (OriginAllowed _ _); [tauto|done].
Qed.
End Handler.
