(* ===== verification/GatewayProofs.v ===== *)
(** Which RPC a REST request becomes, and with which parameters. *)

From Stdlib Require Import Ascii.
From S2P Require Import Prelude GoRuntime GoStrings Util GoText Connection Rest Gateway GatewayRoutes.

(** ** The runtime's patterns

    The op codes of grpc-gateway's [utilities] package, as they are documented: 1
    pushes a component of the path, 2 pushes one that equals a literal, 4 joins the
    last components, 5 binds the last one to a variable. *)
Fixpoint pattern_run (pool : list string) (ops : list (Z * Z)) (comps stack : list string) (bound : list (string * string))
  : option (list (string * string)) :=
  match ops with
  | [] => match comps with [] => Some bound | _ => None end
  | (op, n) :: ops =>
      if bool_decide (op = 1%Z) then
        match comps with c :: comps => pattern_run pool ops comps (c :: stack) bound | [] => None end
      else if bool_decide (op = 2%Z) then
        match comps, pool !! Z.to_nat n with
        | c :: comps, Some l => if bool_decide (c = l) then pattern_run pool ops comps (c :: stack) bound else None
        | _, _ => None
        end
      else if bool_decide (op = 4%Z) then
        let k := Z.to_nat n in
        if bool_decide (k <= length stack) then
          pattern_run pool ops comps (strings_Join (reverse (take k stack)) "/" :: drop k stack) bound
        else None
      else if bool_decide (op = 5%Z) then
        match stack, pool !! Z.to_nat n with
        | c :: stack, Some x => pattern_run pool ops comps stack (bound ++ [(x, c)])
        | _, _ => None
        end
      else None
  end.

Fixpoint pair_up (l : list Z) : list (Z * Z) :=
  match l with op :: n :: l => (op, n) :: pair_up l | _ => [] end.

Definition pattern_match (p : Pattern) (comps : list string) : option (list (string * string)) :=
  pattern_run (pat_pool p) (pair_up (pat_ops p)) comps [] [].

(** The components of a path that an option adds a handler for. *)
Definition path_components (path : string) : list string := tail (strings_Split path "/").

Definition route_method (r : route) : string := match r with Additional m _ => m | Generated h => h_method h end.
Definition route_match (r : route) (comps : list string) : option (list (string * string)) :=
  match r with
  | Additional _ path => if bool_decide (comps = path_components path) then Some [] else None
  | Generated h => pattern_match (h_pattern h) comps
  end.

(** The mux serves a request with what was registered last among the routes of its
    method that match its path. *)
Fixpoint find_route (method : string) (comps : list string) (l : list route) : option (route * gmap string string) :=
  match l with
  | [] => None
  | r :: l =>
      if bool_decide (route_method r = method) then
        match route_match r comps with
        | Some bound => Some (r, list_to_map bound)
        | None => find_route method comps l
        end
      else find_route method comps l
  end.

Class ServeMux := { mux_dispatch : list route -> string -> list string -> option (route * gmap string string) }.
Class ServeMuxLaws `{ServeMux} : Prop :=
  mux_last : forall mux method comps, mux_dispatch mux method comps = find_route method comps (reverse mux).

(** ** Path templates *)

Inductive segment := Lit (s : string) | Var (x : string).

#[global] Instance segment_eq_dec : EqDecision segment.
Proof. solve_decision. Defined.

(** The template of a pattern, when its program is the one of a template with
    literals and variables for single components. *)
Fixpoint segments_of (pool : list string) (ops : list (Z * Z)) : option (list segment) :=
  match ops with
  | [] => Some []
  | (op, n) :: ops =>
      if bool_decide (op = 2%Z) then
        match pool !! Z.to_nat n, segments_of pool ops with Some s, Some l => Some (Lit s :: l) | _, _ => None end
      else match ops with
           | (op', n') :: (op'', x) :: ops =>
               if bool_decide (op = 1 /\ op' = 4 /\ n' = 1 /\ op'' = 5)%Z then
                 match pool !! Z.to_nat x, segments_of pool ops with Some v, Some l => Some (Var v :: l) | _, _ => None end
               else None
           | _ => None
           end
  end.

Definition segments (h : handler) : list segment :=
  default [] (segments_of (pat_pool (h_pattern h)) (pair_up (pat_ops (h_pattern h)))).

Definition variables (l : list segment) : list string := omap (fun s => match s with Var x => Some x | Lit _ => None end) l.

(** The path of a request for given values of the variables. *)
Fixpoint fill (l : list segment) (vs : list string) : list string :=
  match l, vs with
  | Lit s :: l, _ => s :: fill l vs
  | Var _ :: l, v :: vs => v :: fill l vs
  | _, _ => []
  end.

Fixpoint match_segments (l : list segment) (comps : list string) : option (list (string * string)) :=
  match l, comps with
  | [], [] => Some []
  | Lit s :: l, c :: comps => if bool_decide (c = s) then match_segments l comps else None
  | Var x :: l, c :: comps => match match_segments l comps with Some b => Some ((x, c) :: b) | None => None end
  | _, _ => None
  end.

Definition print_segment (s : segment) : string := match s with Lit s => s | Var x => "{" +:+ x +:+ "}" end.
Definition print_template (l : list segment) : string := "/" +:+ strings_Join (print_segment <$> l) "/".

(** The paths of two templates can be the same. *)
Fixpoint overlap (l1 l2 : list segment) : bool :=
  match l1, l2 with
  | [], [] => true
  | Lit s1 :: l1, Lit s2 :: l2 => bool_decide (s1 = s2) && overlap l1 l2
  | _ :: l1, _ :: l2 => overlap l1 l2
  | _, _ => false
  end.

Lemma match_run pool ops l comps stack bound :
  segments_of pool ops = Some l ->
  pattern_run pool ops comps stack bound = match match_segments l comps with Some b => Some (bound ++ b) | None => None end.
Proof.
  revert l comps stack bound. induction ops as [ops IH] using (induction_ltof1 _ (@length _)); unfold ltof in IH.
  intros l comps stack bound Hs. destruct ops as [|[op n] ops]; cbn [segments_of] in Hs.
  { injection Hs as <-. destruct comps; cbn; [by rewrite app_nil_r|done]. }
  case_bool_decide as Hop.
  - subst op. cbn [pattern_run]. rewrite bool_decide_false by done. rewrite bool_decide_true by done.
    destruct (pool !! Z.to_nat n) as [s|]; [|done]. destruct (segments_of pool ops) as [l'|] eqn:Hl; [|done]. injection Hs as <-.
    destruct comps as [|c comps]; [done|]. cbn. case_bool_decide; [|done]. apply (IH ops); [cbn; lia|done].
  - destruct ops as [|[op' n'] [|[op'' x] ops]]; try done. case_bool_decide as Hops; [|done]. destruct Hops as (-> & -> & -> & ->).
    destruct (pool !! Z.to_nat x) as [v|] eqn:Hx; [|done]. destruct (segments_of pool ops) as [l'|] eqn:Hl; [|done]. injection Hs as <-.
    destruct comps as [|c comps]; [done|]. cbn. rewrite Hx. rewrite (IH ops ltac:(cbn; lia) l' comps stack _ Hl).
    destruct (match_segments l' comps); [|done]. by rewrite <-app_assoc.
Qed.

Lemma match_pattern h comps : is_Some (segments_of (pat_pool (h_pattern h)) (pair_up (pat_ops (h_pattern h)))) ->
  pattern_match (h_pattern h) comps = match_segments (segments h) comps.
Proof.
  intros [l Hl]. unfold pattern_match, segments. rewrite (match_run _ _ _ _ _ _ Hl), Hl. cbn. by destruct (match_segments l comps).
Qed.

Lemma match_fill l vs : length vs = length (variables l) -> match_segments l (fill l vs) = Some (zip (variables l) vs).
Proof.
  revert vs. induction l as [|[s|x] l IH]; intros vs Hv; cbn in *; [by destruct vs|rewrite bool_decide_true by done; by apply IH|].
  destruct vs as [|v vs]; [done|]. cbn. rewrite IH; [done|]. by injection Hv.
Qed.

Lemma match_overlap l1 l2 vs b : match_segments l2 (fill l1 vs) = Some b -> length vs = length (variables l1) -> overlap l1 l2 = true.
Proof.
  revert l2 vs b. induction l1 as [|[s1|x1] l1 IH]; intros [|[s2|x2] l2] vs b Hm Hv; cbn in *; try done; try (by destruct vs).
  - case_bool_decide; [|done]. cbn. by eapply IH.
  - destruct (match_segments l2 _) eqn:E; [|done]. by eapply IH.
  - destruct vs as [|v vs]; [done|]. case_bool_decide; [|done]. eapply IH; [exact Hm|]. by injection Hv.
  - destruct vs as [|v vs]; [done|]. destruct (match_segments l2 _) eqn:E; [|done]. eapply IH; [exact E|]. by injection Hv.
Qed.


(** ** Dispatch *)

(** What [RunServer] registers, in its order. *)
Definition generated_handlers : list handler :=
  RegisterDiscoveryHandlerClient ++ RegisterExperimentalDiscoveryHandlerClient ++ RegisterAssessmentHandlerClient ++
  RegisterOrchestratorHandlerClient ++ RegisterEvaluationHandlerClient ++ RegisterEvidenceStoreHandlerClient.

(** Templates of different handlers overlap in one place: the statistics of cloud
    services have a path that is also the one of a cloud service. *)
Definition statistics_pair (h h' : handler) : bool :=
  bool_decide (h = handle_Orchestrator_GetCloudService_0 /\ h' = handle_Orchestrator_GetCloudServiceStatistics_0).

Definition shadows (h h' : handler) : bool :=
  bool_decide (h_method h' = h_method h) && overlap (segments h) (segments h') && negb (statistics_pair h h').

Fixpoint unshadowed (l : list handler) : bool :=
  match l with [] => true | h :: l => forallb (fun h' => negb (shadows h h')) l && unshadowed l end.

Lemma handlers_unshadowed : unshadowed generated_handlers = true.
Proof. vm_compute. reflexivity. Qed.

Definition has_template (h : handler) : bool :=
  match segments_of (pat_pool (h_pattern h)) (pair_up (pat_ops (h_pattern h))) with Some _ => true | None => false end.

Lemma handlers_templates : forallb has_template generated_handlers = true.
Proof. vm_compute. reflexivity. Qed.

Lemma handler_template h : h ∈ generated_handlers -> is_Some (segments_of (pat_pool (h_pattern h)) (pair_up (pat_ops (h_pattern h)))).
Proof.
  intros Hh. pose proof (proj1 (forallb_forall _ _) handlers_templates h (proj1 (list_elem_of_In _ _) Hh)) as Ht.
  unfold has_template in Ht. destruct (segments_of _ _); [by eexists|done].
Qed.

Lemma unshadowed_split l1 h l2 h' : unshadowed (l1 ++ h :: l2) = true -> h' ∈ l2 -> shadows h h' = false.
Proof.
  induction l1 as [|x l1 IH]; cbn; intros [Hl Hr]%andb_true_iff Hin; [|by apply IH].
  rewrite forallb_forall in Hl. apply negb_true_iff, Hl. by apply list_elem_of_In.
Qed.

Lemma find_route_skip method comps l1 l2 :
  (forall r, r ∈ l1 -> route_method r = method -> route_match r comps = None) ->
  find_route method comps (l1 ++ l2) = find_route method comps l2.
Proof.
  induction l1 as [|r l1 IH]; intros Hl; [done|]. cbn. rewrite IH by set_solver.
  case_bool_decide; [|done]. by rewrite Hl by set_solver.
Qed.

(** A handler that was registered later does not take the requests of an earlier one. *)
Lemma later_no_match h h' vs : h ∈ generated_handlers -> h' ∈ generated_handlers -> shadows h h' = false -> h_method h' = h_method h ->
  length vs = length (variables (segments h)) ->
  (h = handle_Orchestrator_GetCloudService_0 -> vs <> ["statistics"]) ->
  pattern_match (h_pattern h') (fill (segments h) vs) = None.
Proof.
  intros Hh Hh' Hs Hm Hv Hex. rewrite match_pattern by by apply handler_template.
  destruct (match_segments _ _) as [b|] eqn:E; [|done]. exfalso.
  pose proof (match_overlap _ _ _ _ E Hv) as Ho. unfold shadows in Hs. rewrite bool_decide_true, Ho in Hs by done. cbn in Hs.
  apply negb_false_iff, bool_decide_eq_true in Hs as [-> ->]. specialize (Hex eq_refl).
  destruct vs as [|v [|]]; try done.
  change (match_segments (Lit <$> ["v1"; "orchestrator"; "cloud_services"; "statistics"]) ["v1"; "orchestrator"; "cloud_services"; v]
          = Some b) in E. cbn [match_segments fmap list_fmap] in E. repeat (case_bool_decide; [|done]). congruence.
Qed.

Lemma dispatch_generated extra h vs : h ∈ generated_handlers -> length vs = length (variables (segments h)) ->
  (h = handle_Orchestrator_GetCloudService_0 -> vs <> ["statistics"]) ->
  find_route (h_method h) (fill (segments h) vs) (reverse (extra ++ (Generated <$> generated_handlers)))
  = Some (Generated h, list_to_map (zip (variables (segments h)) vs)).
Proof.
  intros Hh Hv Hex. destruct (list_elem_of_split _ _ Hh) as (l1 & l2 & Hl).
  assert (Hin : forall h', h' ∈ l2 -> h' ∈ generated_handlers) by (rewrite Hl; set_solver).
  pose proof handlers_unshadowed as Hu. rewrite Hl in Hu |- *. rewrite reverse_app, fmap_app, reverse_app, fmap_cons, reverse_cons, <-!app_assoc.
  rewrite find_route_skip.
  - cbn. rewrite bool_decide_true by done. rewrite (match_pattern h _ (handler_template h Hh)). by rewrite match_fill.
  - intros r Hr. rewrite elem_of_reverse in Hr. apply list_elem_of_fmap in Hr as (h' & -> & Hh'). intros Hm.
    apply later_no_match; [done|by apply Hin| |done..]. by eapply unshadowed_split.
Qed.

(** ** Parameters *)

Definition ascii_upper (c : ascii) : ascii :=
  if IsLower c then ascii_of_nat (nat_of_ascii c - 32) else c.

(** The Go name of a field, as protoc-gen-go forms it. *)
Fixpoint camel (up : bool) (s : string) : string :=
  match s with
  | "" => ""
  | String c s => if bool_decide (c = "_"%char) then camel true s else String (if up then ascii_upper c else c) (camel false s)
  end.
Definition GoCamelCase (field : string) : string := camel true field.

(** [DoubleArray.HasCommonPrefix], as the library documents it: some sequence of the
    array is a prefix of the names. *)
Fixpoint da_walk (a : DoubleArray) (names : list string) (i : Z) : Z :=
  match names with
  | [] => i
  | s :: names =>
      match list_find (fun kv => kv.1 = s) (Encoding a) with
      | None => i
      | Some (_, (_, code)) =>
          let j := (default 0 (Base a !! Z.to_nat i) + code)%Z in
          if bool_decide (Check_ a !! Z.to_nat j = Some (i + 1)%Z) then da_walk a names j else i
      end
  end.
Definition HasCommonPrefix (a : DoubleArray) (names : list string) : bool :=
  if bool_decide (Base a = []) then false
  else let i := da_walk a names 0 in
       let j := (default 0 (Base a !! Z.to_nat i) + Z.of_nat (length (Encoding a)))%Z in
       bool_decide (Check_ a !! Z.to_nat j = Some (i + 1)%Z).

Definition field_path (x : string) : list string := strings_Split x ".".
Definition go_path (x : string) : list string := GoCamelCase <$> field_path x.

Section Params.
Context {M Body Query Form Ctx : Type} `{GatewayRuntime M Body Query Form Ctx}.

(** The string at a field of a request, which is named by a path parameter. *)
Definition field_at (x : string) (p : ProtoReq M) : option string :=
  match field_path x with
  | [f] => match p !! GoCamelCase f with Some (FString s) => Some s | _ => None end
  | f :: path => match p !! GoCamelCase f with Some (FMessage m) => rt_GetString m path | _ => None end
  | [] => None
  end.

(** The documented behaviour of the runtime's functions: a parameter that is a string
    is taken as it is; populating a field sets that field and no other one; query
    parameters do not set the fields that the filter has. *)
Class GatewayRuntimeLaws : Prop := {
  rt_String_ok v : rt_String v = OK v;
  populate_set x v (p p' : ProtoReq M) : rt_PopulateFieldFromPath x v p = OK p' -> field_at x p' = Some v;
  populate_other x v (p p' : ProtoReq M) y s : rt_PopulateFieldFromPath x v p = OK p' -> go_path y <> go_path x ->
    field_at y p = Some s -> field_at y p' = Some s;
  query_filtered form filter (p p' : ProtoReq M) y s : rt_PopulateQueryParameters form filter p = OK p' ->
    HasCommonPrefix filter (field_path y) = true -> field_at y p = Some s -> field_at y p' = Some s;
}.

(** A statement that binds the parameter [x], and one that keeps it bound. *)
Definition binds (x : string) (s : statement) : bool :=
  match s with
  | PathString y f => bool_decide (y = x /\ field_path x = [x] /\ f = GoCamelCase x)
  | PathPopulate y => bool_decide (y = x)
  | _ => false
  end.
Definition keeps_bound (x : string) (s : statement) : bool :=
  match s with
  | DecodeBody => false
  | DecodeField f | PathString _ f => bool_decide (Some f <> GoCamelCase <$> head (field_path x))
  | PathPopulate y => bool_decide (go_path x <> go_path y)
  | PopulateQuery filter => HasCommonPrefix filter (field_path x)
  end.
Fixpoint bound (x : string) (l : list statement) : bool :=
  match l with [] => false | s :: l => bound x l || binds x s && forallb (keeps_bound x) l end.

Context `{!GatewayRuntimeLaws}.

Lemma field_at_insert x f v (p : ProtoReq M) : Some f <> GoCamelCase <$> head (field_path x) -> field_at x (<[f := v]> p) = field_at x p.
Proof. unfold field_at. destruct (field_path x) as [|g [|]]; cbn; intros Hf; [done|by rewrite lookup_insert_ne by congruence..]. Qed.

Lemma exec_keeps req params s x v (p p' : ProtoReq M) :
  keeps_bound x s = true -> exec req params s p = OK p' -> field_at x p = Some v -> field_at x p' = Some v.
Proof.
  intros Hk He Hp. destruct s as [|f|y f|y|filter]; cbn in *; [done|..].
  - apply bool_decide_eq_true in Hk. destruct (rt_DecodeField _ _) as [m|e].
    + injection He as <-. by rewrite field_at_insert.
    + unfold unless_EOF in He. case_bool_decide; [|done]. by injection He as <-.
  - apply bool_decide_eq_true in Hk. unfold with_param in He. destruct (params !! y); [|done]. rewrite rt_String_ok in He.
    injection He as <-. by rewrite field_at_insert.
  - apply bool_decide_eq_true in Hk. unfold with_param in He. destruct (params !! y); [|done].
    destruct (rt_PopulateFieldFromPath _ _ _) eqn:E; [|done]. injection He as <-. by eapply populate_other.
  - destruct (rt_ParseForm _); [|done]. destruct (rt_PopulateQueryParameters _ _ _) eqn:E; [|done]. injection He as <-.
    by eapply query_filtered.
Qed.

Lemma exec_all_keeps req params l x v (p p' : ProtoReq M) :
  forallb (keeps_bound x) l = true -> exec_all req params l p = OK p' -> field_at x p = Some v -> field_at x p' = Some v.
Proof.
  revert p. induction l as [|s l IH]; cbn; intros p Hk He Hp; [by injection He as <-|].
  apply andb_true_iff in Hk as [Hs Hl]. destruct (exec _ _ _ _) eqn:E; [|done]. eapply IH; [done|exact He|]. by eapply exec_keeps.
Qed.

Lemma exec_binds req params s x (p p' : ProtoReq M) : binds x s = true -> exec req params s p = OK p' ->
  exists v, params !! x = Some v /\ field_at x p' = Some v.
Proof.
  intros Hb He. destruct s as [|f|y f|y|filter]; cbn in *; try done.
  - apply bool_decide_eq_true in Hb as (-> & Hx & ->). unfold with_param in He. destruct (params !! x) as [v|]; [|done].
    rewrite rt_String_ok in He. injection He as <-. exists v. split; [done|]. unfold field_at. by rewrite Hx, lookup_insert_eq.
  - apply bool_decide_eq_true in Hb as ->. unfold with_param in He. destruct (params !! x) as [v|]; [|done].
    destruct (rt_PopulateFieldFromPath _ _ _) eqn:E; [|done]. injection He as <-. exists v. split; [done|]. by eapply populate_set.
Qed.

Lemma exec_all_bound req params l x (p p' : ProtoReq M) : bound x l = true -> exec_all req params l p = OK p' ->
  exists v, params !! x = Some v /\ field_at x p' = Some v.
Proof.
  revert p. induction l as [|s l IH]; cbn; intros p Hb He; [done|]. destruct (exec _ _ _ _) eqn:E; [|done].
  apply orb_true_iff in Hb as [Hb|[Hb Hl]%andb_true_iff]; [by eapply IH|].
  destruct (exec_binds _ _ _ _ _ _ Hb E) as (v & Hv & Hf). exists v. split; [done|]. by eapply exec_all_keeps.
Qed.
End Params.

Definition rpc_of (h : handler) : bool :=
  bool_decide (last (strings_Split (h_rpc h) "/") = Some (rf_call (h_request h))).

(** A handler's template is the one its context is annotated with, its parameters
    are different and each ends up in the request, and it calls the method that it
    is annotated with. *)
Definition handler_sound (h : handler) : bool :=
  bool_decide (print_template (segments h) = h_template h) && bool_decide (NoDup (variables (segments h))) &&
  forallb (fun x => bound x (rf_body (h_request h))) (variables (segments h)) && rpc_of h.

Lemma handlers_sound : forallb handler_sound generated_handlers = true.
Proof. vm_compute. reflexivity. Qed.

(** The same holds for the handlers that call a server directly; they do the same. *)
Lemma local_handlers_agree :
  RegisterDiscoveryHandlerServer ++ RegisterExperimentalDiscoveryHandlerServer ++ RegisterAssessmentHandlerServer ++
  RegisterOrchestratorHandlerServer ++ RegisterEvaluationHandlerServer ++ RegisterEvidenceStoreHandlerServer = generated_handlers.
Proof. vm_compute. reflexivity. Qed.

(** ** A request, from the path to the call *)

Section Requests.
Context {DB Opt Conn : Type}.
Abbreviation RW := (World DB (rest Opt) (RestTask Conn)).

Definition upd_svc (f : rest Opt -> rest Opt) (w : RW) : RW := mkWorld (w_db w) (f (w_svc w)) (w_tasks w) (w_tick w).
Definition with_routes (l : list handler) (c : rest Opt) : rest Opt := set_mux (rest_mux c ++ (Generated <$> l)) c.

Lemma with_routes_app l1 l2 c : with_routes l2 (with_routes l1 c) = with_routes (l1 ++ l2) c.
Proof. unfold with_routes. cbn. by rewrite fmap_app, app_assoc. Qed.

Lemma gfor_handlers (l : list handler) (w : RW) :
  exists w', gfor l (fun h => svc_modify (add_generated h)) w = (Returned tt, w') /\ w_svc w' = with_routes l (w_svc w).
Proof.
  revert w. induction l as [|h l IH]; intros w.
  - exists w. split; [done|]. unfold with_routes. cbn. rewrite app_nil_r. by destruct (w_svc w).
  - destruct (IH (upd_svc (add_generated h) w)) as (w' & Hg & Hm). exists w'. split; [exact Hg|].
    rewrite Hm. exact (with_routes_app [h] l (w_svc w)).
Qed.

Lemma gfor_opts (l : list (rest Opt -> rest Opt)) (w : RW) :
  gfor l svc_modify w = (Returned tt, upd_svc (fun c => foldl (fun c o => o c) c l) w).
Proof. revert w. induction l as [|o l IH]; intros w; [by destruct w|]. exact (IH (upd_svc o w)). Qed.

Context `{!@RestLibrary Opt Conn}.

Lemma registered (hs : Conn -> list handler) endpoint opts (w w' : RW) :
  register_from_endpoint hs add_generated endpoint opts w = (Returned None, w') ->
  exists conn, w_svc w' = with_routes (hs conn) (w_svc w).
Proof.
  unfold register_from_endpoint, gbind, remote. cbn. destruct (rl_DialContext _ _ _) as [conn|e]; [|done]. intros Hr.
  edestruct gfor_handlers as (w1 & Hg & Hm). rewrite Hg in Hr. injection Hr as <-. exists conn. exact Hm.
Qed.

Lemma register_cons what reg regs (w w' : RW) : register_all ((what, reg) :: regs) w = (Returned None, w') ->
  exists opts w1, reg opts w = (Returned None, w1) /\ register_all regs w1 = (Returned None, w').
Proof.
  cbn. unfold gbind, svc_read. cbn. destruct (reg _ w) as [[[e|]| |] w1] eqn:E; intros Hr; try done. eauto.
Qed.

(** When it succeeds, the mux has the routes of the options, then the generated ones. *)
Lemma setup_mux grpcPort port serverOpts (w w' : RW) :
  setup grpcPort port serverOpts w = (Returned None, w') ->
  w_svc w' = with_routes generated_handlers
    (foldl (fun c o => o c) (set_opts [rl_insecure] (set_mux [] (set_httpPort port (w_svc w)))) serverOpts).
Proof.
  unfold setup, gbind. unfold svc_modify at 1 2 3. cbv beta iota. rewrite gfor_opts. cbn [w_svc upd_svc].
  intros Hr. do 6 (apply register_cons in Hr as (? & ? & [? Hs]%registered & Hr); revert Hs).
  cbn in Hr. unfold gret in Hr. injection Hr as <-. intros -> -> -> -> -> ->. by rewrite !with_routes_app.
Qed.

(** *** Serving *)

Context {M Body Query Form Ctx Resp Remote : Type} `{GatewayRuntime M Body Query Form Ctx, !GatewayRuntimeLaws, ServeMuxLaws}.
Abbreviation CW := (World DB Remote unit).

(** The request reaches the RPC [method]: its handler is called with the request
    message [p], unless the message cannot be built. *)
Definition reaches (call : Ctx -> string -> ProtoReq M -> Go CW (res Resp)) (served : Go CW (http_answer Resp))
    (method : string) (ok : ProtoReq M -> Prop) (w : CW) : Prop :=
  let w1 := mkWorld (w_db w) (w_svc w) (w_tasks w) (w_tick w + 1) in
  (exists e, served w = (Returned (HTTPError e), w1)) \/
  exists ctx p, ok p /\
    served w = (r <- call ctx method p ;; gret (match r with OK resp => Forwarded resp | Err e => HTTPError e end)) w1.

Lemma serve_reaches call h req params (w : CW) : h ∈ generated_handlers ->
  reaches call (serve call h req params) (rf_call (h_request h))
    (fun p => forall x, x ∈ variables (segments h) -> exists v, params !! x = Some v /\ field_at x p = Some v) w.
Proof.
  intros Hh. pose proof (proj1 (forallb_forall _ _) handlers_sound h (proj1 (list_elem_of_In _ _) Hh)) as Hs.
  unfold handler_sound in Hs. rewrite !andb_true_iff in Hs. destruct Hs as [[[_ _] Hb] _]. rewrite forallb_forall in Hb.
  unfold reaches, serve, gbind, remote. cbv zeta beta iota. destruct (rt_AnnotateContext _ _ _ _) as [ctx|e]; [|left; by exists e].
  unfold run_request. destruct (exec_all req params (rf_body (h_request h)) ∅) as [p|e] eqn:E; [right|left; by exists e].
  exists ctx, p. split; [|done]. intros x Hx. eapply exec_all_bound; [|exact E]. apply Hb. by apply list_elem_of_In.
Qed.

Lemma zip_bound (xs vs : list string) (x v : string) : NoDup xs -> length vs = length xs -> (x, v) ∈ zip xs vs ->
  (list_to_map (zip xs vs) : gmap string string) !! x = Some v.
Proof.
  intros Hn Hl Hin. apply elem_of_list_to_map; [|done]. by rewrite fst_zip by lia.
Qed.

(** C24. A REST request against the gateway that [RunServer] sets up, with whatever
    options: for every generated handler, a request of its HTTP method whose path is
    its template with values for the variables is dispatched to that handler (but
    the path of the cloud service "statistics" is the one of the statistics).  The
    handler calls the RPC it stands for, and in the request message each field that a
    path variable names has the value of the path, whatever the body and the query
    parameters contain; or the client gets an error and nothing is called. *)
Theorem rest_request_served grpcPort port serverOpts (w w' : RW) h vs :
  setup grpcPort port serverOpts w = (Returned None, w') ->
  h ∈ generated_handlers -> length vs = length (variables (segments h)) ->
  (h = handle_Orchestrator_GetCloudService_0 -> vs <> ["statistics"]) ->
  print_template (segments h) = h_template h /\
  last (strings_Split (h_rpc h) "/") = Some (rf_call (h_request h)) /\
  exists params, mux_dispatch (rest_mux (w_svc w')) (h_method h) (fill (segments h) vs) = Some (Generated h, params) /\
  forall call req (r : CW), reaches call (serve call h req params) (rf_call (h_request h))
    (fun p => forall x v, (x, v) ∈ zip (variables (segments h)) vs -> field_at x p = Some v) r.
Proof.
  intros Hset Hh Hv Hex. pose proof (proj1 (forallb_forall _ _) handlers_sound h (proj1 (list_elem_of_In _ _) Hh)) as Hs.
  unfold handler_sound, rpc_of in Hs. rewrite !andb_true_iff, !bool_decide_eq_true in Hs. destruct Hs as [[[Ht Hn] _] Hr].
  split; [done|]. split; [done|]. apply setup_mux in Hset. rewrite mux_last, Hset. cbn.
  eexists. split; [by apply dispatch_generated|]. intros call req r.
  destruct (serve_reaches call h req (list_to_map (zip (variables (segments h)) vs)) r Hh) as [?|(ctx & p & Hp & Hc)]; [by left|right].
  exists ctx, p. split; [|done]. intros x v Hin. pose proof (zip_bound _ _ _ _ Hn Hv Hin) as Hl.
  destruct (Hp x) as (v' & Hv' & Hf); [|congruence]. by apply elem_of_zip_l in Hin.
Qed.
End Requests.
