(* ===== verification/GatewayWitness.v ===== *)
(** The REST gateway with a concrete runtime: messages are maps of strings, and
    populating a field is done on them. *)

From S2P Require Import Prelude GoRuntime GoStrings Util GoText Connection Rest Gateway GatewayRoutes GatewayProofs.

Abbreviation DemoMsg := (gmap string string).

Definition demo_populate (x v : string) (p : ProtoReq DemoMsg) : res (ProtoReq DemoMsg) :=
  match go_path x with
  | [f] => match p !! f with Some (FMessage _) => Err (EText "a message") | _ => OK (<[f := FString v]> p) end
  | [f; g] => match p !! f with
              | Some (FMessage m) => OK (<[f := FMessage (<[g := v]> m)]> p)
              | None => OK (<[f := FMessage {[g := v]}]> p)
              | Some (FString _) => Err (EText "no message")
              end
  | _ => Err (EText "too deep")
  end.

(** Query parameters set fields that are not set yet. *)
Definition demo_query (form : list (string * string)) (_ : DoubleArray) (p : ProtoReq DemoMsg) : res (ProtoReq DemoMsg) :=
  OK (foldr (fun kv p => match p !! GoCamelCase kv.1 with None => <[GoCamelCase kv.1 := FString kv.2]> p | Some _ => p end) p form).

#[export] Instance demo_runtime : GatewayRuntime DemoMsg DemoMsg (list (string * string)) (list (string * string)) unit := {|
  rt_Decode := fun b p => OK p;
  rt_DecodeField := fun f b => OK b;
  rt_String := OK;
  rt_PopulateFieldFromPath := demo_populate;
  rt_ParseForm := OK;
  rt_PopulateQueryParameters := demo_query;
  rt_AnnotateContext := fun _ _ _ _ => OK tt;
  rt_GetString := fun m path => match path with [g] => m !! GoCamelCase g | _ => None end;
|}.

Lemma demo_populate_set x v p p' : demo_populate x v p = OK p' -> field_at x p' = Some v.
Proof.
  unfold demo_populate, go_path, field_at. destruct (field_path x) as [|f [|g [|]]]; cbn; try done;
    (destruct (p !! _) as [[|m]|]; [..|]; try done; intros [= <-]; rewrite lookup_insert_eq; by rewrite ?lookup_insert_eq, ?lookup_singleton_eq).
Qed.

Lemma demo_populate_other x v p p' y s : demo_populate x v p = OK p' -> go_path y <> go_path x -> field_at y p = Some s -> field_at y p' = Some s.
Proof.
  unfold demo_populate, go_path, field_at.
  destruct (field_path x) as [|f [|g [|]]]; cbn; try done; destruct (p !! GoCamelCase f) as [[t|m]|] eqn:Hf; try done; intros [= <-] Hn Hy;
    destruct (field_path y) as [|f' [|g' [|]]]; try done; cbn in *;
    (destruct (decide (GoCamelCase f = GoCamelCase f')) as [He|Hne]; [|by rewrite lookup_insert_ne]); rewrite <-He, Hf in Hy; try done; try congruence;
    rewrite <-He, lookup_insert_eq; destruct (decide (GoCamelCase g = GoCamelCase g')); try congruence; by rewrite lookup_insert_ne.
Qed.

Lemma demo_insert_new f v p y s : p !! f = None -> field_at y p = Some s -> field_at y (<[f := v]> p) = Some s.
Proof.
  intros Hf. unfold field_at. destruct (field_path y) as [|f' [|g' l]]; [done|..];
    (destruct (decide (f = GoCamelCase f')) as [->|Hne]; [by rewrite Hf|by rewrite lookup_insert_ne]).
Qed.

Lemma demo_query_keeps form filter p p' y s : demo_query form filter p = OK p' -> field_at y p = Some s -> field_at y p' = Some s.
Proof.
  intros [= <-] Hy. induction form as [|[k v] form IH]; cbn [foldr fst snd]; [done|].
  case_match eqn:Hk; [done|]. by apply demo_insert_new.
Qed.

#[export] Instance demo_runtime_laws : GatewayRuntimeLaws (M := DemoMsg) (Body := DemoMsg).
Proof.
  constructor; [done|exact demo_populate_set|exact demo_populate_other|]. intros form filter p p' y s Hp _. by eapply demo_query_keeps.
Qed.

#[export] Instance demo_mux : ServeMux := {| mux_dispatch := fun mux method comps => find_route method comps (reverse mux) |}.
#[export] Instance demo_mux_laws : ServeMuxLaws.
Proof. done. Qed.

#[export] Instance demo_rest : @RestLibrary unit unit := {|
  rl_DialContext := fun _ _ _ => OK tt;
  rl_Listen := fun _ _ => OK (Some 8080%Z);
  rl_Serve := fun _ => EText "http: Server closed";
  rl_insecure := tt;
|}.

Definition rest_world : World unit (rest unit) (RestTask unit) := mkWorld tt init_rest [] 0.
Definition rest_options : list (rest unit -> rest unit) :=
  [WithAllowedOrigins ["https://dashboard.example.org"]; WithEmbeddedOAuth2Server "~/.clouditor/api.key" "changeme" true []].

(** The RPCs record their requests. *)
Definition demo_call (_ : unit) (method : string) (p : ProtoReq DemoMsg)
  : Go (World unit (list (string * ProtoReq DemoMsg)) unit) (res string) :=
  svc_modify (fun l => l ++ [(method, p)]) ;;; gok "done".

(** An update of the certificate "c1" whose body is about another one. *)
Definition update_request : HTTPRequest DemoMsg (list (string * string)) :=
  mkHTTPRequest "PUT" ["v1"; "orchestrator"; "certificates"; "c1"] {["Id" := "c2"; "Name" := "EUCS"]} [("certificate.id", "c3")].

Lemma rest_request_served_witness :
  let w' := snd (setup 9090 8080 rest_options rest_world) in
  exists params,
    mux_dispatch (rest_mux (w_svc w')) "PUT" ["v1"; "orchestrator"; "certificates"; "c1"]
    = Some (Generated handle_Orchestrator_UpdateCertificate_0, params) /\
    reaches demo_call (serve demo_call handle_Orchestrator_UpdateCertificate_0 update_request params) "UpdateCertificate"
      (fun p => field_at "certificate.id" p = Some "c1") (mkWorld tt [] [] 0).
Proof.
  intros w'.
  destruct (@rest_request_served unit unit unit demo_rest DemoMsg DemoMsg (list (string * string)) (list (string * string)) unit string
    (list (string * ProtoReq DemoMsg)) demo_runtime demo_runtime_laws demo_mux demo_mux_laws 9090 8080 rest_options rest_world w'
    handle_Orchestrator_UpdateCertificate_0 ["c1"]) as (_ & _ & params & Hd & Hr).
  - subst w'. destruct (setup 9090 8080 rest_options rest_world) as [o w1] eqn:E. cbn. vm_compute in E. injection E as <- _. reflexivity.
  - apply list_elem_of_In. vm_compute. tauto.
  - reflexivity.
  - intros He. discriminate He.
  - exists params. split; [exact Hd|].
    destruct (Hr demo_call update_request (mkWorld tt [] [] 0)) as [He|(ctx & p & Hp & Hc)]; [left; exact He|right].
    exists ctx, p. split; [|exact Hc]. apply Hp. vm_compute. left.
Defined.
