(* ===== verification/ServiceInfo.v ===== *)
(** service/runtime.go and internal/logging/logging.go: the build information a
    service reports, and the log lines for requests. *)

From S2P Require Import Prelude GoRuntime GoStrings Util.

(** ** runtime.go *)

Record Dependency := mkDependency { Dependency_Path : string; Dependency_Version : string }.

(** [runtime.Runtime] *)
Record Runtime := mkRuntime {
  ReleaseVersion : option string;
  Runtime_Vcs : string;
  CommitHash : string;
  CommitTime : option Z;
  GolangVersion : string;
  Dependencies : list Dependency;
}.

(** [debug.BuildInfo]: the Go version, the modules and the settings. *)
Record BuildInfo := mkBuildInfo {
  GoVersion : string;
  Deps : list Dependency;
  Settings : list (string * string);
}.

(** The package variables. *)
Record runtimeState := mkRuntimeState { rt : Runtime; populated : bool }.

Definition empty_runtime : Runtime := mkRuntime None "" "" None "" [].

(** [debug.ReadBuildInfo()], [time.Parse(time.RFC3339, s)] and the version set by
    the linker. *)
Class BuildEnvironment := {
  ReadBuildInfo : nat -> option BuildInfo;
  time_Parse_RFC3339 : string -> res Z;
  version : string;
}.

Section RuntimeInfo.
Context {DB T : Type} `{BuildEnvironment}.
Abbreviation W := (World DB runtimeState T).

(** The loop over the settings. *)
Definition apply_setting (r : Runtime) (s : string * string) : Runtime :=
  if bool_decide (fst s = "vcs.time") then
    match time_Parse_RFC3339 (snd s) with
    | OK t => mkRuntime (ReleaseVersion r) (Runtime_Vcs r) (CommitHash r) (Some t) (GolangVersion r) (Dependencies r)
    | Err _ => r
    end
  else if bool_decide (fst s = "vcs.revision") then
    mkRuntime (ReleaseVersion r) (Runtime_Vcs r) (snd s) (CommitTime r) (GolangVersion r) (Dependencies r)
  else if bool_decide (fst s = "vcs") then
    mkRuntime (ReleaseVersion r) (snd s) (CommitHash r) (CommitTime r) (GolangVersion r) (Dependencies r)
  else r.

Definition populate (r : Runtime) (info : BuildInfo) : Runtime :=
  let r := mkRuntime (if bool_decide (version <> "") then Some version else ReleaseVersion r) (Runtime_Vcs r)
             (CommitHash r) (CommitTime r) (GoVersion info) (Dependencies r ++ Deps info) in
  foldl apply_setting r (Settings info).

Definition populateRuntimeInfo : Go W unit :=
  st <- svc_read id ;;
  if populated st then gret tt
  else
    buildInfo <- remote ReadBuildInfo ;;
    match buildInfo with
    | None => gret tt
    | Some info => svc_modify (fun st => mkRuntimeState (populate (rt st) info) true)
    end.

Definition GetRuntimeInfo : Go W (res Runtime) :=
  populateRuntimeInfo ;;; r <- svc_read rt ;; gok r.

Lemma settings_keep_dependencies l r :
  Dependencies (foldl apply_setting r l) = Dependencies r /\ GolangVersion (foldl apply_setting r l) = GolangVersion r.
Proof.
  revert r. induction l as [|s l IH]; intros r; simpl; [done|]. destruct (IH (apply_setting r s)) as [-> ->].
  unfold apply_setting. repeat case_bool_decide; try done. by destruct (time_Parse_RFC3339 (snd s)).
Qed.

(** The information is gathered once: every later answer is the first one, with
    each module listed as often as the build lists it. *)
Lemma runtime_info_once (w : W) info :
  w_svc w = mkRuntimeState empty_runtime false -> ReadBuildInfo (w_tick w) = Some info ->
  exists r w', GetRuntimeInfo w = (Returned (OK r), w') /\ Dependencies r = Deps info /\ GolangVersion r = GoVersion info /\
    GetRuntimeInfo w' = (Returned (OK r), w').
Proof.
  intros Hw Hi. unfold GetRuntimeInfo, populateRuntimeInfo, gbind, svc_read, svc_modify, remote, gok, gret, id.
  rewrite Hw. cbn. rewrite Hi. cbn. eexists _, _. split; [reflexivity|]. cbn. rewrite Hw. cbn.
  unfold populate. cbn. destruct (settings_keep_dependencies (Settings info)
    (mkRuntime (if bool_decide (version <> "") then Some version else None) "" "" None (GoVersion info) (Deps info))) as [-> ->].
  done.
Qed.
End RuntimeInfo.

(** api/runtime/runtime.go; [format] is [AsTime().Format("20060102150405")].  A
    commit hash of less than twelve characters makes it panic. *)
Definition VersionString {W} (format : Z -> string) (r : option Runtime) : Go W string :=
  r <- gderef r ;;
  match ReleaseVersion r, CommitTime r with
  | Some v, _ => gret v
  | None, Some t =>
      if bool_decide (CommitHash r <> "") then
        if bool_decide (12 <= String.length (CommitHash r)) then
          gret ("v0.0.0-" +:+ format t +:+ "-" +:+ String.substring 0 12 (CommitHash r))
        else gpanic
      else gret "v0.0.0"
  | None, None => gret "v0.0.0"
  end.

(** It returns a version unless the build has a commit with a short hash. *)
Lemma version_string_returns {W} format r (w : W) :
  (ReleaseVersion r = None -> CommitTime r <> None -> CommitHash r <> "" -> 12 <= String.length (CommitHash r)) <->
  exists v, VersionString format (Some r) w = (Returned v, w).
Proof.
  unfold VersionString. go_unfold. destruct (ReleaseVersion r) as [v|], (CommitTime r) as [t|];
    repeat case_bool_decide; (split; [eauto|]); intros Hv; try naive_solver.
Qed.

(** ** logging.go *)

Inductive LogRequestType := Assess | Add | Create | Register | Remove | Store | Send | Update.

Definition RequestType_String (r : LogRequestType) : string :=
  match r with
  | Assess => "assessed" | Add => "added" | Create => "created" | Register => "registered" | Remove => "removed"
  | Store => "stored" | Send => "sent" | Update => "updated"
  end.

(** A payload: the name of its message type, and its id if it has one. *)
Record Payload := mkPayload { payload_Name : string; payload_GetId : option string }.

(** A request: its payload, and its cloud service id if it has one. *)
Record LoggedRequest := mkLoggedRequest {
  logged_GetPayload : option Payload;
  logged_GetCloudServiceId : option string;
}.

(** The text that is logged; nothing without a logger, request or payload. *)
Definition LogRequest (log : bool) (reqType : LogRequestType) (req : option LoggedRequest) (params : list string) : option string :=
  match log, req with
  | true, Some req =>
      match logged_GetPayload req with
      | None => None
      | Some payload =>
          let name := payload_Name payload in
          let head := match payload_GetId payload with
                      | Some id =>
                          if bool_decide (id <> "") then name +:+ " with ID '" +:+ id +:+ "' " +:+ RequestType_String reqType
                          else name +:+ " " +:+ RequestType_String reqType
                      | None => name +:+ " " +:+ RequestType_String reqType
                      end in
          let service := match logged_GetCloudServiceId req with
                         | Some cs => if bool_decide (name <> "CloudService") then " for Cloud Service '" +:+ cs +:+ "'" else ""
                         | None => ""
                         end in
          let rest := if bool_decide (0 < length params) then " " +:+ strings_Join params " " else "" in
          Some (head +:+ service +:+ rest +:+ ".")
      end
  | _, _ => None
  end.

(** The form of the documentation: the verb follows the id. *)
Example log_line_form :
  LogRequest true Create (Some (mkLoggedRequest (Some (mkPayload "TargetOfEvaluation" (Some "ToE1234"))) (Some "svc")))
    ["and Catalog 'EUCS'"] =
  Some "TargetOfEvaluation with ID 'ToE1234' created for Cloud Service 'svc' and Catalog 'EUCS'.".
Proof. reflexivity. Qed.
