(* ===== verification/Session.v ===== *)
(** cli/session.go: the session of the command line client, which is kept in a file
    between two commands.

    The state is the files (their paths and contents) and the lines that were
    printed; what the operating system refuses is the class [Os].  OAuth 2.0 tokens
    and configurations are third party ([OAuth]), and so is the text of JSON. *)

From Stdlib Require Import Ascii.
From S2P Require Import Prelude GoRuntime GoStrings Util GoText Api Authz GoJson Policies Connection.

(** ** The environment *)

(** The errors of the operating system, by time.  A failed write has written some of
    the bytes. *)
Class Os := {
  os_MkdirAll : string -> nat -> option error;
  os_Open : string -> nat -> option error;
  os_Read : nat -> option error;
  os_Write : nat -> option (nat * error);
  os_Close : nat -> option error;
}.

(** golang.org/x/oauth2: tokens and configurations with their JSON, and the token
    source of a configuration, which starts with a token and refreshes it. *)
Class OAuth (Tok Cfg A : Type) := {
  token_json : Tok -> res json;
  token_zero : Tok;
  token_decode : json -> Tok -> res Tok;
  token_Valid : Tok -> nat -> bool;
  config_json : Cfg -> json;
  config_zero : Cfg;
  config_decode : json -> Cfg -> res Cfg;
  config_TokenSource : option Cfg -> option Tok -> A;
  source_Token : A -> nat -> res Tok;
}.

(** api/authorizer.go: an authorizer that starts with a token. *)
Definition NewOAuthAuthorizerFromConfig {Tok Cfg A} `{OAuth Tok Cfg A} (config : option Cfg) (token : option Tok) : A :=
  config_TokenSource config token.

(** Tokens and configurations are read back from their JSON objects, and a token
    source answers with its token while it is valid. *)
Class OAuthLaws (Tok Cfg A : Type) `{OAuth Tok Cfg A} := {
  token_json_read t j : token_json t = OK j -> j <> JNull /\ token_decode j token_zero = OK t;
  config_json_read c : config_json c <> JNull /\ config_decode (config_json c) config_zero = OK c;
  source_reuses c t n : token_Valid t n = true -> source_Token (config_TokenSource c (Some t)) n = OK t;
}.

(** [json.NewDecoder(r).Decode]: the first value of a text. *)
Class JsonDecoder `{JsonText} := { json_first : string -> res json }.

Definition newline : string := String "010" "".

Class JsonDecoderLaws `{JsonDecoder} := { json_first_line j : json_first (json_print j +:+ newline) = OK j }.

(** ** Sessions *)

Record Session (Cfg A C : Type) := mkSession {
  s_ClientConn : option C;
  s_Config : option Cfg;
  s_authorizer : option A;
  s_URL : string;
  s_Folder : string;
  s_dirty : bool;
}.
Arguments mkSession {Cfg A C}.
Arguments s_ClientConn {Cfg A C}.
Arguments s_Config {Cfg A C}.
Arguments s_authorizer {Cfg A C}.
Arguments s_URL {Cfg A C}.
Arguments s_Folder {Cfg A C}.
Arguments s_dirty {Cfg A C}.

Definition Session_Authorizer {Cfg A C} (s : Session Cfg A C) : option A := s_authorizer s.
Definition Session_SetAuthorizer {Cfg A C} (authorizer : option A) (s : Session Cfg A C) : Session Cfg A C :=
  mkSession (s_ClientConn s) (s_Config s) authorizer (s_URL s) (s_Folder s) (s_dirty s).
Definition set_conn {Cfg A C} (c : C) (s : Session Cfg A C) : Session Cfg A C :=
  mkSession (Some c) (s_Config s) (s_authorizer s) (s_URL s) (s_Folder s) (s_dirty s).
Definition set_dirty {Cfg A C} (d : bool) (s : Session Cfg A C) : Session Cfg A C :=
  mkSession (s_ClientConn s) (s_Config s) (s_authorizer s) (s_URL s) (s_Folder s) d.

Definition session_file (folder : string) : string := folder +:+ "/session.json".

(** [json:"token"] and [json:"oauth2"]: pointers, decoded into what is there. *)
Definition decode_into {X} (decode : json -> X -> res X) (zero : X) (v : json) (old : option X) : res (option X) :=
  match v with
  | JNull => OK None
  | _ => match decode v (default zero old) with OK x => OK (Some x) | Err e => Err e end
  end.

Section Sessions.
Context {T Tok Cfg A O C Stream : Type}.
Context `{Os, !OAuth Tok Cfg A, JsonDecoder, !@Grpc A O C Stream}.
(** [viper.GetString(SessionFolderFlag)] *)
Context (session_folder : string).
Abbreviation W := (World (gmap string string) (list string) T).
Abbreviation session := (Session Cfg A C).

(** *** Files *)

Definition no_such_file (path : string) : error := EText ("open " +:+ path +:+ ": no such file or directory").

(** [os.OpenFile(path, os.O_RDONLY, 0600)] *)
Definition open_read (path : string) : Go W (option error) :=
  e <- remote (os_Open path) ;;
  match e with
  | Some e => gret (Some e)
  | None => text <- db_query (fun fs => fs !! path) ;;
            gret (match text with Some _ => None | None => Some (no_such_file path) end)
  end.

(** [os.OpenFile(path, os.O_TRUNC|os.O_CREATE|os.O_WRONLY, 0600)] *)
Definition open_write (path : string) : Go W (option error) :=
  e <- remote (os_Open path) ;;
  match e with
  | Some e => gret (Some e)
  | None => db_exec (fun fs => (None, <[path := ""]> fs))
  end.

(** Write to a file that was just opened. *)
Definition file_write (path text : string) : Go W (option error) :=
  r <- remote os_Write ;;
  match r with
  | None => db_exec (fun fs => (None, <[path := text]> fs))
  | Some (n, e) => db_exec (fun fs => (Some e, <[path := str_take n text]> fs))
  end.

(** *** The JSON of a session *)

Definition MarshalJSON (s : session) : Go W (res json) :=
  authorizer <- gderef (s_authorizer s) ;;
  r <- remote (source_Token authorizer) ;;
  let token := match r with OK t => Some t | Err _ => None end in
  match match token with Some t => token_json t | None => OK JNull end with
  | Err e => gerr e
  | OK tj => gok (JObj [("url", JStr (s_URL s)); ("token", tj);
                        ("oauth2", match s_Config s with Some c => config_json c | None => JNull end)])
  end.

Definition session_field (k : string) (v : json) (x : string * option Tok * option Cfg)
  : res (string * option Tok * option Cfg) :=
  let '(url, token, config) := x in
  if strings_EqualFold k "url" then
    match decode_string v url with OK u => OK (u, token, config) | Err e => Err e end
  else if strings_EqualFold k "token" then
    match decode_into token_decode token_zero v token with OK t => OK (url, t, config) | Err e => Err e end
  else if strings_EqualFold k "oauth2" then
    match decode_into config_decode config_zero v config with OK c => OK (url, token, c) | Err e => Err e end
  else OK x.

Definition UnmarshalJSON (s : session) (data : json) : Go W (res session) :=
  match decode_object session_field data ("", None, None) with
  | Err e => gerr e
  | OK (url, token, config) =>
      fresh_ <- match token with Some t => remote (token_Valid t) | None => gret false end ;;
      match config with
      | None => gerr (EText "missing oauth2 config")
      | Some c =>
          gok (mkSession (s_ClientConn s) (Some c) (Some (NewOAuthAuthorizerFromConfig (Some c) token)) url (s_Folder s) (negb fresh_))
      end
  end.

(** *** Saving, creating and continuing a session *)

(** [json.NewEncoder(file).Encode(&s)] *)
Definition encode (path : string) (s : session) : Go W (option error) :=
  r <- MarshalJSON s ;;
  match r with
  | Err e => gret (Some e)
  | OK j => file_write path (json_print j +:+ newline)
  end.

(** The deferred function closes the file and sets the error that is returned. *)
Definition Save (s : session) : Go W (option error * session) :=
  e <- remote (os_MkdirAll (s_Folder s)) ;;
  match e with
  | Some e => gret (Some (EWrap "could not create .clouditor in home directory" e), s)
  | None =>
      let path := session_file (s_Folder s) in
      e <- open_write path ;;
      match e with
      | Some e => gret (Some (EWrap "could not save session.json" e), s)
      | None =>
          e <- encode path s ;;
          let s := match e with Some _ => s | None => set_dirty false s end in
          closed <- remote os_Close ;;
          gret (closed, s)
      end
  end.

Definition dial (s : session) : Go W (res session) :=
  r <- remote (grpc_Dial (s_URL s) (DefaultGrpcDialOptions (s_URL s) (Session_Authorizer s) [])) ;;
  match r with
  | Err e => gerr (EWrap "could not connect" e)
  | OK c => gok (set_conn c s)
  end.

Definition NewSession (url : string) (config : option Cfg) (token : option Tok) : Go W (res session) :=
  dial (mkSession None config (Some (NewOAuthAuthorizerFromConfig config token)) url session_folder false).

(** [json.NewDecoder(file).Decode(&session)]: null makes the pointer nil. *)
Definition decode_session (path : string) (s : session) : Go W (res (option session)) :=
  e <- remote os_Read ;;
  match e with
  | Some e => gerr e
  | None =>
      text <- db_query (fun fs => default "" (fs !! path)) ;;
      match json_first text with
      | Err e => gerr e
      | OK JNull => gok None
      | OK j => s <-? UnmarshalJSON s j ! id ;; gok (Some s)
      end
  end.

Definition ContinueSession : Go W (res session) :=
  let path := session_file session_folder in
  e <- open_read path ;;
  match e with
  | Some e => gerr e
  | None =>
      p <-? decode_session path (mkSession None None None "" session_folder false)
         ! EWrap "could not parse session file" ;;
      s <- gderef p ;;
      s <- (if s_dirty s then r <- Save s ;; gret (snd r) else gret s) ;;
      dial s
  end.

(** *** Facts *)

Definition set_fs (fs : gmap string string) (n : nat) (w : W) : W := mkWorld fs (w_svc w) (w_tasks w) n.

(** The document of a session whose token source answers [r]. *)
Definition session_document (s : session) (tj : json) : json :=
  JObj [("url", JStr (s_URL s)); ("token", tj);
        ("oauth2", match s_Config s with Some c => config_json c | None => JNull end)].

(** What Save leaves behind when the operating system does its part. *)
Lemma save_writes s a r tj (w : W) :
  (forall p n, os_MkdirAll p n = None) -> (forall p n, os_Open p n = None) ->
  (forall n, os_Write n = None) -> (forall n, os_Close n = None) ->
  s_authorizer s = Some a -> source_Token a (w_tick w + 1 + 1) = r ->
  match r with OK t => token_json t | Err _ => OK JNull end = OK tj ->
  Save s w = (Returned (None, set_dirty false s),
    set_fs (<[session_file (s_Folder s) := json_print (session_document s tj) +:+ newline]> (w_db w))
      (w_tick w + 1 + 1 + 1 + 1 + 1) w).
Proof.
  intros Hm Ho Hw Hc Ha Hr Htj.
  unfold Save, encode, MarshalJSON, open_write, file_write, remote, db_exec, gbind, gret, gderef, gerr, gok, set_fs.
  rewrite Hm, Ho, Ha. cbn. rewrite Hr. destruct r as [t|e]; [rewrite Htj|injection Htj as <-]; cbn; rewrite Hw; cbn; rewrite Hc;
    by rewrite insert_insert_eq.
Qed.

Context `{!OAuthLaws Tok Cfg A, !JsonDecoderLaws}.

(** The session a document stands for. *)
Definition session_of (url : string) (c : Cfg) (t : option Tok) (dirty : bool) : session :=
  mkSession None (Some c) (Some (config_TokenSource (Some c) t)) url session_folder dirty.

Lemma decode_document s0 s c ot tj (w : W) : s_Config s = Some c ->
  match ot with Some t => token_json t | None => OK JNull end = OK tj -> s_Folder s0 = session_folder -> s_ClientConn s0 = None ->
  exists w', UnmarshalJSON s0 (session_document s tj) w = (Returned (OK (session_of (s_URL s) c ot
      (negb (match ot with Some t => token_Valid t (w_tick w) | None => false end)))), w') /\
    w_db w' = w_db w /\ w_tick w' = w_tick w + match ot with Some _ => 1 | None => 0 end.
Proof.
  intros Hc Ht Hf Hn. unfold UnmarshalJSON, session_document. rewrite Hc. cbn [decode_object decode_members].
  destruct (config_json_read c) as [Hcn Hcd].
  assert (Hct : forall x, decode_into config_decode config_zero (config_json c) x = 
     match config_decode (config_json c) (default config_zero x) with OK c => OK (Some c) | Err e => Err e end).
  { intros x. unfold decode_into. by destruct (config_json c). }
  assert (Htt : decode_into token_decode token_zero tj None = OK ot).
  { destruct ot as [t|]; [|by injection Ht as <-]. destruct (token_json_read t tj Ht) as [Htn Htd].
    unfold decode_into. cbn [default]. rewrite Htd. by destruct tj. }
  unfold session_field. change (strings_EqualFold "url" "url") with true. change (strings_EqualFold "token" "url") with false.
  change (strings_EqualFold "token" "token") with true. change (strings_EqualFold "oauth2" "url") with false.
  change (strings_EqualFold "oauth2" "token") with false. change (strings_EqualFold "oauth2" "oauth2") with true.
  cbv iota. cbn [decode_string]. rewrite Htt, Hct. cbn [default]. rewrite Hcd.
  unfold session_of. rewrite <-Hf, <-Hn. destruct ot as [t|]; cbn; (eexists; split; [reflexivity|]); cbn; split; (done || lia).
Qed.

(** The operating system does what it is asked. *)
Definition os_works : Prop :=
  (forall p n, os_MkdirAll p n = None) /\ (forall p n, os_Open p n = None) /\ (forall n, os_Read n = None) /\
  (forall n, os_Write n = None) /\ (forall n, os_Close n = None).

(** Reading a session back: [dirty] sessions are saved again before dialling. *)
Lemma continue_reads s c ot tj (w : W) : os_works -> s_Config s = Some c ->
  match ot with Some t => token_json t | None => OK JNull end = OK tj ->
  w_db w !! session_file session_folder = Some (json_print (session_document s tj) +:+ newline) ->
  exists w', w_db w' = w_db w /\
    w_tick w' = w_tick w + 1 + 1 + match ot with Some _ => 1 | None => 0 end /\
    let s' := session_of (s_URL s) c ot (negb (match ot with Some t => token_Valid t (w_tick w + 1 + 1) | None => false end)) in
    ContinueSession w = gbind (if s_dirty s' then gbind (Save s') (fun r => gret (snd r)) else gret s') dial w'.
Proof.
  intros (_ & Ho & Hr & _) Hc Ht Hfs. unfold ContinueSession, open_read, decode_session, gtry.
  destruct (decode_document (mkSession None None None "" session_folder false) s c ot tj
    (mkWorld (w_db w) (w_svc w) (w_tasks w) (w_tick w + 1 + 1)) Hc Ht eq_refl eq_refl) as (w' & Hu & Hdb & Htick).
  cbn in Hdb, Htick. exists w'. split_and!; [done..|].
  unfold gbind at 1 2 3, remote, db_query. rewrite Ho. cbn. rewrite Hfs. cbn.
  unfold gbind at 1 2 3. cbn. rewrite Hr. cbn. rewrite Hfs. cbn. rewrite json_first_line. cbn.
  unfold gbind at 1. rewrite Hu. done.
Qed.

Lemma dial_outcome s (w : W) :
  dial s w = (Returned (match grpc_Dial (s_URL s) (DefaultGrpcDialOptions (s_URL s) (s_authorizer s) []) (w_tick w) with
                        | OK cc => OK (set_conn cc s) | Err e => Err (EWrap "could not connect" e) end),
              mkWorld (w_db w) (w_svc w) (w_tasks w) (w_tick w + 1)).
Proof. unfold dial, gbind, remote. by destruct (grpc_Dial _ _ _). Qed.


(** *** Pitfalls *)

(** A session that could not be written is reported as saved: the deferred function
    overwrites the error, and the file stays empty. *)
Lemma save_hides_errors s a t e (w : W) : os_works ->
  s_authorizer s = Some a -> source_Token a (w_tick w + 1 + 1) = OK t -> token_json t = Err e ->
  exists w', Save s w = (Returned (None, s), w') /\ w_db w' = <[session_file (s_Folder s) := ""]> (w_db w).
Proof.
  intros (Hm & Ho & _ & Hw & Hc) Ha Hs Ht.
  unfold Save, encode, MarshalJSON, open_write, remote, db_exec, gbind, gret, gderef, gerr. rewrite Hm, Ho, Ha. cbn.
  rewrite Hs, Ht. cbn. rewrite Hc. eexists. split; [reflexivity|done].
Qed.

(** A file that holds "null" makes the client panic. *)
Lemma null_session_panics text (w : W) : os_works ->
  w_db w !! session_file session_folder = Some text -> json_first text = OK JNull ->
  fst (ContinueSession w) = Panicked.
Proof.
  intros (_ & Ho & Hr & _) Hfs Hj. unfold ContinueSession, open_read, decode_session, gtry, gbind, remote, db_query.
  rewrite Ho. cbn. rewrite Hfs. cbn. rewrite Hr. cbn. rewrite Hfs. cbn. by rewrite Hj.
Qed.
End Sessions.
