(* ===== verification/Commands.v ===== *)
(** cli/session.go (responses and shell completion) and cli/commands: what the
    commands of the client do.

    A command continues the session, calls one RPC (or all pages of a list) and
    prints the answer.  The services behind the connection are the class [Backend],
    whose calls are [Rpc]; the flags of a command are read from viper.  cobra's
    selection of a command is third party, the check of its arguments is
    [accepts]. *)

From Stdlib Require Import Ascii.
From S2P Require Import Prelude GoRuntime GoStrings Util GoText Api Authz Pagination GoJson Policies Orchestrator OrchestratorCatalogs Discovery Connection Session.

(** ** The calls and their answers *)

Record AssessmentTool := mkAssessmentTool {
  AssessmentTool_Id : string;
  AssessmentTool_Name : string;
  AssessmentTool_Description : string;
  AssessmentTool_AvailableMetrics : list string;
}.

(** The RPCs the client uses, with their requests, by the type of the answer. *)
Inductive Rpc : Type -> Type :=
| ListAssessmentTools (req : PaginatedRequest) : Rpc (Page AssessmentTool)
| GetAssessmentTool (toolID : string) : Rpc AssessmentTool
| RegisterAssessmentTool (tool : option AssessmentTool) : Rpc AssessmentTool
| UpdateAssessmentTool (tool : option AssessmentTool) : Rpc AssessmentTool
| DeregisterAssessmentTool (toolID : string) : Rpc unit
| ListMetrics (req : ListMetricsRequest) : Rpc (Page Metric)
| GetMetric (req : GetMetricRequest) : Rpc Metric
| ListCatalogs (req : ListCatalogsRequest) : Rpc (Page Catalog)
| GetCatalog (req : GetCatalogRequest) : Rpc Catalog
| GetCategory (req : GetCategoryRequest) : Rpc Category
| GetControl (req : GetControlRequest) : Rpc Control
| ListCloudServices (req : ListCloudServicesRequest) : Rpc (Page CloudService)
| RegisterCloudService (req : RegisterCloudServiceRequest) : Rpc CloudService
| GetCloudService (req : GetCloudServiceRequest) : Rpc CloudService
| RemoveCloudService (req : RemoveCloudServiceRequest) : Rpc unit
| UpdateCloudService (req : UpdateCloudServiceRequest) : Rpc CloudService
| GetMetricConfiguration (req : GetMetricConfigurationRequest) : Rpc MetricConfiguration
| ListAssessmentResults (req : ListAssessmentResultsRequest) : Rpc (Page AssessmentResult)
| ListEvidences (req : ListEvidencesRequest) : Rpc (Page Evidence)
| StartDiscovery (req : StartDiscoveryRequest) : Rpc bool
| ListResources (req : ListResourcesRequest) : Rpc (Page Resource)
| ListGraphEdges (req : ListGraphEdgesRequest) : Rpc (Page GraphEdge)
| UpdateResource (req : UpdateResourceRequest) : Rpc Resource.

Class Backend (C : Type) := { rpc_call : forall R, C -> Rpc R -> nat -> res R }.
Arguments rpc_call {C _ R}.

(** The messages the commands print. *)
Inductive Message :=
| MTools (tools : list AssessmentTool) | MTool (t : AssessmentTool) | MEmpty
| MMetrics (metrics : list Metric) | MMetric (m : Metric)
| MCatalogs (catalogs : list Catalog) | MCatalog (c : Catalog) | MCategory (c : Category) | MControl (c : Control)
| MServices (services : list CloudService) | MService (s : CloudService)
| MConfiguration (c : MetricConfiguration) | MResults (results : list AssessmentResult)
| MEvidences (evidences : list Evidence) | MStarted (successful : bool)
| MResources (results : list Resource) | MResource (r : Resource) | MEdges (p : Page GraphEdge).

(** protojson with the options of HandleResponse (the empty text if a message cannot
    be marshalled), reading a resource, and the errors of writing to the output. *)
Class Terminal := {
  proto_text : Message -> string;
  resource_Unmarshal : string -> res Resource;
  output_error : nat -> option error;
}.

(** Flags, as viper answers them. *)
Class Viper := {
  viper_GetString : string -> string;
  viper_GetStringSlice : string -> list string;
}.

(** github.com/oxisto/oauth2go and the callback server of the login: building the
    configuration, generating a verifier, the URL to open, the code a browser
    delivers and its exchange for a token; and cobra's completion scripts. *)
Class LoginLibrary (Tok Cfg : Type) := {
  oauth_Config : string -> string -> string -> string -> Cfg;
  VerifierGenerator : nat -> string;
  auth_code_url : Cfg -> string -> string;
  callback_code : nat -> string;
  config_Exchange : Cfg -> string -> string -> nat -> res Tok;
  completion_script : string -> string;
}.

(** ** Arguments *)

Inductive PositionalArgs := ArbitraryArgs | ExactArgs (n : nat) | MinimumNArgs (n : nat) | OneOf (valid_args : list string).

Definition accepts (p : PositionalArgs) (args : list string) : bool :=
  match p with
  | ArbitraryArgs => true
  | ExactArgs n => bool_decide (length args = n)
  | MinimumNArgs n => bool_decide (n <= length args)
  | OneOf l => bool_decide (length args = 1) && forallb (fun a => bool_decide (a ∈ l)) args
  end.

(** [args[i]] *)
Definition arg {W} (args : list string) (i : nat) : Go W string := gderef (args !! i).

Definition tab : string := String "009" "".

Section Commands.
Context {T Tok Cfg A O C Stream : Type}.
Context `{Os, !OAuth Tok Cfg A, JsonDecoder, !@Grpc A O C Stream, !Backend C, !Terminal, !Viper, !LoginLibrary Tok Cfg}.
Context (session_folder : string).
Abbreviation W := (World (gmap string string) (list string) T).
Abbreviation session := (Session Cfg A C).

Definition print (text : string) : Go W unit := svc_modify (fun out => out ++ [text]).

Definition Continue : Go W (res session) := ContinueSession session_folder.

(** The client of a session: its calls go through the session's connection. *)
Definition invoke {R} (s : session) (call : Rpc R) : Go W (res R) :=
  c <- gderef (s_ClientConn s) ;; remote (rpc_call c call).

(** ** cli/session.go: responses *)

Definition HandleResponse (msg : option Message) (err : option error) : Go W (option error) :=
  match err with
  | Some e => gret (Some (match status_FromError e with None => e | Some (_, m) => EText m end))
  | None =>
      e <- remote output_error ;;
      match e with
      | Some e => gret (Some e)
      | None => print (match msg with Some m => proto_text m | None => "" end +:+ newline) ;;; gret None
      end
  end.

(** [return session.HandleResponse(res, err)] *)
Definition respond {R} (r : res R) (message : R -> Message) : Go W (option error) :=
  match r with OK x => HandleResponse (Some (message x)) None | Err e => HandleResponse None (Some e) end.

Definition session_error : string := "Error while retrieving the session. Please re-authenticate." +:+ newline.

(** ** cli/session.go: shell completion

    The suggestions, or [None] for nil when the session cannot be continued. *)
Definition suggest {R X} (call : Rpc R) (items : R -> list X) (line : X -> string) : Go W (option (list string)) :=
  r <- Continue ;;
  match r with
  | Err _ => print session_error ;;; gret None
  | OK s =>
      r <- invoke s call ;;
      gret (Some (match r with OK x => line <$> items x | Err _ => [] end))
  end.

Definition suggestion (id name description : string) : string := id +:+ tab +:+ name +:+ ": " +:+ description.

Definition no_paging : PaginatedRequest := mkPaging 0 "" "" false.

Definition getTools : Go W (option (list string)) :=
  suggest (ListAssessmentTools no_paging) Page_Items
    (fun v => suggestion (AssessmentTool_Id v) (AssessmentTool_Name v) (AssessmentTool_Description v)).
Definition getMetrics : Go W (option (list string)) :=
  suggest (ListMetrics (mkListMetricsRequest false no_paging)) Page_Items
    (fun v => suggestion (Metric_Id v) (Metric_Name v) (Metric_Description v)).
Definition getCatalogs : Go W (option (list string)) :=
  suggest (ListCatalogs (mkListCatalogsRequest no_paging)) Page_Items
    (fun v => suggestion (Catalog_Id v) (Catalog_Name v) (Catalog_Description v)).
Definition getCategories (catalogID : string) : Go W (option (list string)) :=
  suggest (GetCatalog (mkGetCatalogRequest catalogID)) Catalog_Categories
    (fun v => Category_Name v +:+ tab +:+ Category_Description v).
Definition getControls (catalogID categoryName : string) : Go W (option (list string)) :=
  suggest (GetCategory (mkGetCategoryRequest catalogID categoryName)) Category_Controls
    (fun v => suggestion (Control_Id v) (Control_Name v) (Control_Description v)).
Definition getCloudServices : Go W (option (list string)) :=
  suggest (ListCloudServices (mkListCloudServicesRequest no_paging)) Page_Items
    (fun v => suggestion (CloudService_Id v) (CloudService_Name v) (CloudService_Description v)).

Definition no_suggestions : Go W (option (list string)) := gret (Some []).

Definition DefaultArgsShellComp : Go W (option (list string)) := no_suggestions.
Definition ValidArgsGetTools : Go W (option (list string)) := getTools.
Definition ValidArgsGetMetrics : Go W (option (list string)) := getMetrics.
Definition ValidArgsGetCloudServices : Go W (option (list string)) := getCloudServices.
Definition ValidArgsGetCatalogs (args : list string) : Go W (option (list string)) :=
  match args with [] => getCatalogs | _ => no_suggestions end.
Definition ValidArgsGetCategory (args : list string) : Go W (option (list string)) :=
  match args with [] => getCatalogs | [c] => getCategories c | _ => no_suggestions end.
Definition ValidArgsGetControls (args : list string) : Go W (option (list string)) :=
  match args with [] => getCatalogs | [c] => getCategories c | [c; g] => getControls c g | _ => no_suggestions end.

(** ** The commands *)

(** [if session, err = cli.ContinueSession(); err != nil { ...; return nil }] *)
Definition with_session (body : session -> Go W (option error)) : Go W (option error) :=
  r <- Continue ;;
  match r with
  | Err _ => print session_error ;;; gret None
  | OK s => body s
  end.

(** One call whose answer is printed. *)
Definition one_call {R} (call : Rpc R) (message : R -> Message) : Go W (option error) :=
  with_session (fun s => r <- invoke s call ;; respond r message).

(** All pages of a list, printed as one response.  [fuel] bounds the pages. *)
Definition all_pages {X} (fuel : nat) (call : PaginatedRequest -> Rpc (Page X)) (message : list X -> Message)
  : Go W (option error) :=
  with_session (fun s =>
    r <- ListAllPaginated with_page_token Page_NextPageToken fuel no_paging (fun req => invoke s (call req)) Page_Items ;;
    respond r message).

Section Run.
Context (fuel : nat).

(** *** tool *)
Definition run_ListTools (_ : list string) := all_pages fuel ListAssessmentTools MTools.
Definition run_ShowTool (args : list string) :=
  with_session (fun s => id <- arg args 0 ;; r <- invoke s (GetAssessmentTool id) ;; respond r MTool).
Definition run_RegisterTool (_ : list string) :=
  one_call (RegisterAssessmentTool (Some (mkAssessmentTool "" (viper_GetString "name") (viper_GetString "description")
    (viper_GetStringSlice "metric-ids")))) MTool.
Definition run_UpdateTool (args : list string) :=
  with_session (fun s => id <- arg args 0 ;;
    r <- invoke s (UpdateAssessmentTool (Some (mkAssessmentTool id (viper_GetString "name") (viper_GetString "description")
      (viper_GetStringSlice "metric-ids")))) ;;
    respond r MTool).
Definition run_DeregisterTool (args : list string) :=
  with_session (fun s => id <- arg args 0 ;; r <- invoke s (DeregisterAssessmentTool id) ;; respond r (fun _ => MEmpty)).

(** *** metric *)
Definition run_ListMetrics (_ : list string) := all_pages fuel (fun p => ListMetrics (mkListMetricsRequest false p)) MMetrics.
Definition run_GetMetric (args : list string) :=
  with_session (fun s => metricID <- arg args 0 ;;
    r <- invoke s (GetMetric (mkGetMetricRequest metricID)) ;; respond r MMetric).

(** *** cloud *)
Definition new_service (id name description : string) : CloudService :=
  mkCloudService id name description [] [] None None None.
Definition run_RegisterCloudService (args : list string) :=
  with_session (fun s => name <- arg args 0 ;;
    r <- invoke s (RegisterCloudService (mkRegisterCloudServiceRequest (Some (new_service "" name "")))) ;; respond r MService).
Definition run_ListCloudServices (_ : list string) :=
  all_pages fuel (fun p => ListCloudServices (mkListCloudServicesRequest p)) MServices.
Definition run_GetCloudService (args : list string) :=
  with_session (fun s => serviceID <- arg args 0 ;;
    r <- invoke s (GetCloudService (mkGetCloudServiceRequest serviceID)) ;; respond r MService).
Definition run_RemoveCloudService (args : list string) :=
  with_session (fun s => serviceID <- arg args 0 ;;
    r <- invoke s (RemoveCloudService (mkRemoveCloudServiceRequest serviceID)) ;; respond r (fun _ => MEmpty)).
Definition run_UpdateCloudService (_ : list string) :=
  one_call (UpdateCloudService (mkUpdateCloudServiceRequest (Some
    (new_service (viper_GetString "id") (viper_GetString "name") (viper_GetString "description"))))) MService.
Definition run_GetMetricConfiguration (args : list string) :=
  with_session (fun s => serviceID <- arg args 0 ;; metricID <- arg args 1 ;;
    r <- invoke s (GetMetricConfiguration (mkGetConfigurationRequest serviceID metricID)) ;; respond r MConfiguration).

(** *** service orchestrator *)
Definition run_ListAssessmentResults (_ : list string) :=
  all_pages fuel (fun p => ListAssessmentResults (mkListAssessmentResultsRequest None None p)) MResults.
Definition run_ListCatalogs (_ : list string) := all_pages fuel (fun p => ListCatalogs (mkListCatalogsRequest p)) MCatalogs.
Definition run_GetCatalog (args : list string) :=
  with_session (fun s => catalogID <- arg args 0 ;;
    r <- invoke s (GetCatalog (mkGetCatalogRequest catalogID)) ;; respond r MCatalog).
Definition run_GetCategory (args : list string) :=
  with_session (fun s => catalogID <- arg args 0 ;; categoryName <- arg args 1 ;;
    r <- invoke s (GetCategory (mkGetCategoryRequest catalogID categoryName)) ;; respond r MCategory).
Definition run_GetControl (args : list string) :=
  with_session (fun s => catalogID <- arg args 0 ;; categoryName <- arg args 1 ;; controlID <- arg args 2 ;;
    r <- invoke s (GetControl (mkGetControlRequest catalogID categoryName controlID)) ;; respond r MControl).

(** *** evidence *)
Definition run_ListEvidences (_ : list string) :=
  all_pages fuel (fun p => ListEvidences (mkListEvidencesRequest None p)) MEvidences.

(** *** service discovery *)
Definition run_StartDiscovery (_ : list string) := one_call (StartDiscovery (mkStartDiscoveryRequest None)) MStarted.

(** The request with the filter is built and not used. *)
Definition run_QueryDiscovery (args : list string) :=
  let filter := mkResourceFilter (head args) None in
  let req := mkListResourcesRequest (Some filter) no_paging in
  all_pages fuel (fun p => ListResources (mkListResourcesRequest None p)) MResources.
Definition run_ListGraphEdges (_ : list string) := one_call (ListGraphEdges (mkListGraphEdgesRequest no_paging)) MEdges.
Definition run_UpdateResource (args : list string) :=
  with_session (fun s => text <- arg args 0 ;;
    match resource_Unmarshal text with
    | Err e => HandleResponse None (Some e)
    | OK resource => r <- invoke s (UpdateResource (mkUpdateResourceRequest (Some resource))) ;; respond r MResource
    end).

(** *** login *)
Definition OAuth2AuthURLFlag : string := "oauth2-auth-url".
Definition OAuth2TokenURLFlag : string := "oauth2-token-url".
Definition OAuth2ClientIDFlag : string := "oauth2-client-id".
Definition DefaultCallbackServerAddress : string := "localhost:10000".
Definition DefaultCallback : string := "http://" +:+ DefaultCallbackServerAddress +:+ "/callback".

(** The verifier; the URL with its challenge is printed. *)
Definition newCallbackServer (config : Cfg) : Go W string :=
  verifier <- remote VerifierGenerator ;;
  print ("Please open " +:+ auth_code_url config verifier +:+ " in your browser 🚀 to continue" +:+ newline) ;;;
  gret verifier.

(** The command, from the code the callback server hands over. *)
Definition run_Login (args : list string) : Go W (option error) :=
  let config := oauth_Config (viper_GetString OAuth2ClientIDFlag) (viper_GetString OAuth2AuthURLFlag)
                  (viper_GetString OAuth2TokenURLFlag) DefaultCallback in
  verifier <- newCallbackServer config ;;
  code <- remote callback_code ;;
  r <- remote (config_Exchange config verifier code) ;;
  match r with
  | Err e => gret (Some e)
  | OK token =>
      url <- arg args 0 ;;
      r <- NewSession session_folder url (Some config) (Some token) ;;
      match r with
      | Err e => gret (Some (EWrap "could not connect" e))
      | OK s =>
          r <- Save s ;;
          match fst r with
          | Some e => gret (Some (EWrap "could not save session" e))
          | None => print (newline +:+ "Login successful" +:+ newline) ;;; gret None
          end
      end
  end.

(** *** completion *)
Definition shells : list string := ["bash"; "zsh"; "fish"; "powershell"].

Definition run_Completion (args : list string) : Go W (option error) :=
  shell <- arg args 0 ;;
  (if bool_decide (shell ∈ shells) then print (completion_script shell) else gret tt) ;;; gret None.

(** *** The tree of commands *)
Inductive Command :=
| Run (Use : string) (Args : PositionalArgs) (RunE : list string -> Go W (option error))
| Group (Use : string) (sub : list Command).

Definition NewLoginCommand := Run "login [login]" (MinimumNArgs 1) run_Login.
Definition NewCompletionCommand := Run "completion [bash|zsh|fish|powershell]" (OneOf shells) run_Completion.
Definition NewListToolsCommand := Run "list" ArbitraryArgs run_ListTools.
Definition NewShowToolCommand := Run "show [id]" (ExactArgs 1) run_ShowTool.
Definition NewRegisterToolCommand := Run "register" ArbitraryArgs run_RegisterTool.
Definition NewUpdateToolCommand := Run "update [id]" (ExactArgs 1) run_UpdateTool.
Definition NewDeregisterToolCommand := Run "reregister [id]" (ExactArgs 1) run_DeregisterTool.
Definition NewToolCommand := Group "tool" [NewListToolsCommand; NewShowToolCommand; NewRegisterToolCommand].

Definition NewListMetricsCommand := Run "list" ArbitraryArgs run_ListMetrics.
Definition NewGetMetricCommand := Run "get" (ExactArgs 1) run_GetMetric.
Definition NewMetricCommand := Group "metric" [NewListMetricsCommand; NewGetMetricCommand].

Definition NewRegisterCloudServiceCommand := Run "register [name]" (ExactArgs 1) run_RegisterCloudService.
Definition NewListCloudServicesCommand := Run "list" ArbitraryArgs run_ListCloudServices.
Definition NewGetCloudServiceCommand := Run "get [id]" (ExactArgs 1) run_GetCloudService.
Definition NewRemoveCloudServiceComand := Run "remove [id]" (ExactArgs 1) run_RemoveCloudService.
Definition NewUpdateCloudServiceCommand := Run "update" ArbitraryArgs run_UpdateCloudService.
Definition NewGetMetricConfigurationCommand := Run "get-metric-configuration" (ExactArgs 2) run_GetMetricConfiguration.
Definition NewCloudCommand := Group "cloud"
  [NewRegisterCloudServiceCommand; NewListCloudServicesCommand; NewGetCloudServiceCommand; NewUpdateCloudServiceCommand;
   NewRemoveCloudServiceComand; NewGetMetricConfigurationCommand].

Definition NewListAssessmentResultsCommand := Run "list-assessment-results" ArbitraryArgs run_ListAssessmentResults.
Definition NewListCatalogsCommand := Run "list-catalogs" ArbitraryArgs run_ListCatalogs.
Definition NewGetCatalogCommand := Run "get-catalog [catalog ID]" (ExactArgs 1) run_GetCatalog.
Definition NewGetCategoryCommand := Run "get-category [catalog ID] [category name]" (ExactArgs 2) run_GetCategory.
Definition NewGetControlCommand := Run "get-control [catalog ID] [category name] [short name]" (ExactArgs 3) run_GetControl.
Definition NewOrchestratorCommand := Group "orchestrator"
  [NewListAssessmentResultsCommand; NewListCatalogsCommand; NewGetCatalogCommand; NewGetCategoryCommand; NewGetControlCommand].

Definition NewStartDiscoveryCommand := Run "start" ArbitraryArgs run_StartDiscovery.
Definition NewQueryDiscoveryCommand := Run "query" ArbitraryArgs run_QueryDiscovery.
Definition NewListGraphEdgesCommand := Run "list-graph-edges" ArbitraryArgs run_ListGraphEdges.
Definition NewUpdateResourceCommand := Run "update-resource" (MinimumNArgs 1) run_UpdateResource.
Definition NewExperimentalCommand := Group "experimental" [NewListGraphEdgesCommand; NewUpdateResourceCommand].
Definition NewDiscoveryCommand := Group "discovery" [NewStartDiscoveryCommand; NewQueryDiscoveryCommand; NewExperimentalCommand].
Definition NewAssessmentCommand := Group "assessment" [].
Definition NewServiceCommand := Group "service" [NewDiscoveryCommand; NewAssessmentCommand; NewOrchestratorCommand].

(** Commands that are another command under a shorter name. *)
Definition renamed (Use : string) (c : Command) : Command :=
  match c with Run _ Args RunE => Run Use Args RunE | Group _ sub => Group Use sub end.
Definition NewCatalogCommand := Group "catalog" [renamed "list" NewListCatalogsCommand].
Definition NewResourceCommand := Group "resource" [renamed "list" NewQueryDiscoveryCommand].
Definition NewAssessmentResultCommand := Group "assessment-result" [renamed "list" NewListAssessmentResultsCommand].
Definition NewListEvidencesCommand := Run "list" ArbitraryArgs run_ListEvidences.
Definition NewEvidenceCommand := Group "evidence" [NewListEvidencesCommand].

(** The root command with the subcommands of [AddCommands]. *)
Definition newRootCommand := Group "cl"
  [NewLoginCommand; NewCatalogCommand; NewMetricCommand; NewToolCommand; NewResourceCommand; NewEvidenceCommand;
   NewAssessmentResultCommand; NewCompletionCommand; NewCloudCommand; NewServiceCommand].

(** The commands that can be run, with the names that lead to them. *)
Fixpoint runnable (c : Command) : list (list string * PositionalArgs * (list string -> Go W (option error))) :=
  match c with
  | Run u p f => [([u], p, f)]
  | Group u sub => (fun x => (u :: fst (fst x), snd (fst x), snd x)) <$> concat (runnable <$> sub)
  end.

(** *** Facts *)

(** A continued session is connected. *)
Lemma continued_connected (w : W) s w' : Continue w = (Returned (OK s), w') -> exists c, s_ClientConn s = Some c.
Proof.
  unfold Continue, ContinueSession. intros (e & w1 & _ & Hk)%gbind_returned. destruct e; [done|].
  apply gtry_OK in Hk as (q & w2 & _ & Hk). apply gbind_returned in Hk as (s1 & w3 & _ & Hk).
  apply gbind_returned in Hk as (s2 & w4 & _ & Hk). rewrite dial_outcome in Hk.
  destruct (grpc_Dial _ _ _) as [c|]; [|done]. injection Hk as <- <-. by exists c.
Qed.

(** [m] does not panic in any state. *)
Definition calm {X} (m : Go W X) : Prop := forall w, fst (m w) <> Panicked.

Lemma calm_bind {X Y} (m : Go W X) (k : X -> Go W Y) : calm m -> (forall x, calm (k x)) -> calm (gbind m k).
Proof. intros Hm Hk w. unfold gbind. specialize (Hm w). destruct (m w) as [[x| |] w']; [apply Hk|done..]. Qed.

Lemma calm_simple {X} (x : X) : calm (gret x).
Proof. done. Qed.

Lemma calm_remote {X} (f : nat -> X) : calm (remote f).
Proof. done. Qed.

Lemma calm_print text : calm (print text).
Proof. done. Qed.

Lemma calm_fuel {X} : calm (@gfuel W X).
Proof. done. Qed.

Lemma calm_db {X} (f : gmap string string -> X * gmap string string) : calm (db_exec f).
Proof. intros w. unfold db_exec. by destruct (f (w_db w)). Qed.

Lemma calm_arg args i : i < length args -> calm (arg args i).
Proof. intros [x Hx]%lookup_lt_is_Some_2 w. unfold arg. by rewrite Hx. Qed.

Lemma calm_respond {R} (r : res R) message : calm (respond r message).
Proof.
  destruct r; cbn; [|done]. apply calm_bind; [done|]. intros [e|]; [done|]. by apply calm_bind.
Qed.

Lemma calm_handle_error e : calm (HandleResponse None (Some e)).
Proof. done. Qed.

Lemma calm_invoke {R} s (call : Rpc R) : (exists c, s_ClientConn s = Some c) -> calm (invoke s call).
Proof. intros [c Hc] w. unfold invoke. by rewrite Hc. Qed.

Lemma calm_list {X} fuel' (req : PaginatedRequest) (list_ : PaginatedRequest -> Go W (res (Page X))) acc tok :
  (forall req, calm (list_ req)) -> calm (list_all_loop with_page_token Page_NextPageToken fuel' req list_ Page_Items acc tok).
Proof.
  intros Hl. revert req acc tok. induction fuel' as [|n IH]; intros req acc tok; [done|]. cbn [list_all_loop].
  apply calm_bind; [apply Hl|]. intros [p|e]; [|done]. by destruct (bool_decide _).
Qed.

(** The body of a command with arguments. *)
Ltac calm_body :=
  repeat first [ apply calm_respond | apply calm_handle_error | apply calm_invoke; assumption | apply calm_arg; lia
               | apply calm_bind; [|intros ?]
               | match goal with |- calm (match ?x with _ => _ end) => destruct x end ].

(** A command that uses the session: only reading the session can panic, and
    without a session it says so and returns no error. *)
Definition uses_session (m : Go W (option error)) : Prop :=
  forall w, (fst (m w) = Panicked -> fst (Continue w) = Panicked) /\
    forall e w1, Continue w = (Returned (Err e), w1) ->
      m w = (Returned None, mkWorld (w_db w1) (w_svc w1 ++ [session_error]) (w_tasks w1) (w_tick w1)).

Lemma with_session_uses body : (forall s, (exists c, s_ClientConn s = Some c) -> calm (body s)) -> uses_session (with_session body).
Proof.
  intros Hb w. unfold with_session. split.
  - unfold gbind. destruct (Continue w) as [[[s|e]| |] w'] eqn:E; try done. apply continued_connected in E. by intros ?%Hb.
  - intros e w1 He. by rewrite (gbind_eq _ _ _ _ _ He).
Qed.

Lemma one_call_uses {R} (call : Rpc R) message : uses_session (one_call call message).
Proof. apply with_session_uses. intros s Hs. apply calm_bind; [by apply calm_invoke|]. intros r. apply calm_respond. Qed.

Lemma all_pages_uses {X} (call : PaginatedRequest -> Rpc (Page X)) message : uses_session (all_pages fuel call message).
Proof.
  apply with_session_uses. intros s Hs. apply calm_bind; [|intros r; apply calm_respond].
  apply calm_list. intros req. by apply calm_invoke.
Qed.

Lemma calm_save (s : session) a : s_authorizer s = Some a -> calm (Save s).
Proof.
  intros Ha. unfold Save, open_write, encode, MarshalJSON, file_write. rewrite Ha.
  repeat first [ apply calm_db | apply calm_remote | apply calm_simple | apply calm_bind; [|intros ?]
               | match goal with |- calm (match ?x with _ => _ end) => destruct x end | done ].
Qed.

Lemma calm_login args : 0 < length args -> calm (run_Login args).
Proof.
  intros Hl. unfold run_Login. apply calm_bind; [done|]. intros v. apply calm_bind; [done|]. intros c. apply calm_bind; [done|].
  intros [t|e]; [|done]. apply calm_bind; [by apply calm_arg|]. intros url w. unfold NewSession.
  unfold gbind at 1. rewrite dial_outcome. cbn. destruct (grpc_Dial _ _ _) as [cc|e]; [|done].
  apply calm_bind; [by eapply calm_save|]. intros [[e|] s']; done.
Qed.

Lemma calm_completion args : length args = 1 -> calm (run_Completion args).
Proof. intros Hl. apply calm_bind; [apply calm_arg; lia|]. intros shell. by destruct (bool_decide _). Qed.

(** The names of the two commands that do not continue a session. *)
Definition without_session : list (list string) :=
  [["cl"; "login [login]"]; ["cl"; "completion [bash|zsh|fish|powershell]"]].

(** C39. With arguments that its check accepts no command panics, except for a session
    file that ContinueSession panics on; and every command but login and completion
    reports a session that cannot be continued, without an error. *)
Theorem commands_run path p f args (w : W) :
  (path, p, f) ∈ runnable newRootCommand -> accepts p args = true ->
  (fst (f args w) = Panicked -> fst (Continue w) = Panicked) /\
  (path ∉ without_session -> forall e w1, Continue w = (Returned (Err e), w1) ->
     f args w = (Returned None, mkWorld (w_db w1) (w_svc w1 ++ [session_error]) (w_tasks w1) (w_tick w1))).
Proof.
  intros Hin Ha. enough (uses_session (f args) \/ (path ∈ without_session /\ calm (f args))) as [Hu|[Hp Hc]].
  - destruct (Hu w) as [? ?]. split; [done|]. intros _. done.
  - split; [by intros ?%Hc|]. by intros ?.
  - cbv [runnable newRootCommand] in Hin. cbn in Hin.
    repeat (apply elem_of_cons in Hin as [Hin|Hin]; [injection Hin as -> -> ->|]); [..|by apply not_elem_of_nil in Hin];
      cbn in Ha; try (case_bool_decide; [|done]);
      first [ left; first [apply one_call_uses | apply all_pages_uses | apply with_session_uses; intros s Hs; calm_body]
            | right; split; [unfold without_session; set_solver|]; first [apply calm_login; lia | apply calm_completion; done] ].
Qed.

(** *** Lists *)

(** The pages the service answers from a page token on, and the error it ends with. *)
Inductive pages_served {X} (c : C) (call : PaginatedRequest -> Rpc (Page X)) : nat -> string -> list (list X) -> option error -> Prop :=
| served_last t tok l : rpc_call c (call (mkPaging 0 tok "" false)) t = OK (mkPage l "") -> pages_served c call t tok [l] None
| served_more t tok l next ls oe :
    rpc_call c (call (mkPaging 0 tok "" false)) t = OK (mkPage l next) -> next <> "" ->
    pages_served c call (t + 1) next ls oe -> pages_served c call t tok (l :: ls) oe
| served_error t tok e : rpc_call c (call (mkPaging 0 tok "" false)) t = Err e -> pages_served c call t tok [] (Some e).

Lemma all_pages_fetched {X} (s : session) c (call : PaginatedRequest -> Rpc (Page X)) t tok ls oe :
  s_ClientConn s = Some c -> pages_served c call t tok ls oe ->
  forall n req acc w, (forall tok, with_page_token tok req = mkPaging 0 tok "" false) -> length ls < n -> w_tick w = t ->
  exists t', list_all_loop with_page_token Page_NextPageToken n req (fun req => invoke s (call req)) Page_Items acc tok w =
    (Returned (match oe with None => OK (acc ++ concat ls) | Some e => Err e end), mkWorld (w_db w) (w_svc w) (w_tasks w) t').
Proof.
  intros Hc. induction 1 as [t tok l Hr|t tok l next ls oe Hr Hne _ IH|t tok e Hr]; intros n req acc w Hq Hn Ht;
    (destruct n as [|n]; [simpl in Hn; lia|]); cbn [list_all_loop]; rewrite Hq;
    unfold gtry at 1, invoke at 1, gderef at 1, gbind at 1 2, gret, remote; rewrite Hc, Ht, Hr.
  - eexists. cbn. by rewrite app_nil_r.
  - cbn [Page_NextPageToken Page_Items]. rewrite bool_decide_eq_false_2 by done. simpl in Hn.
    edestruct (IH n (mkPaging 0 tok "" false) (acc ++ l) (mkWorld (w_db w) (w_svc w) (w_tasks w) (t + 1))) as [t' Ht'];
      [done|lia|done|]. exists t'. cbn [w_db w_svc w_tasks] in Ht'. rewrite Ht'. destruct oe; [done|]. by rewrite <-app_assoc.
  - by eexists.
Qed.

(** A list command prints one response with the items of all pages, in order; the
    error of a page is returned as the message of its status and nothing is
    printed.  More fuel than there are pages is enough. *)
Theorem list_command_prints_all {X} (call : PaginatedRequest -> Rpc (Page X)) message (w : W) s c w1 ls oe :
  Continue w = (Returned (OK s), w1) -> s_ClientConn s = Some c ->
  pages_served c call (w_tick w1) "" ls oe -> length ls < fuel ->
  exists r w2, all_pages fuel call message w = (Returned r, w2) /\ w_db w2 = w_db w1 /\
    match oe with
    | Some e => w_svc w2 = w_svc w1 /\ exists m, r = Some m /\
        m = match status_FromError e with Some (_, m) => EText m | None => e end
    | None => (r = None /\ w_svc w2 = w_svc w1 ++ [proto_text (message (concat ls)) +:+ newline]) \/
              (exists e t, output_error t = Some e /\ r = Some e /\ w_svc w2 = w_svc w1)
    end.
Proof.
  intros Hs Hc Hp Hf. unfold all_pages, with_session. rewrite (gbind_eq _ _ _ _ _ Hs).
  destruct (all_pages_fetched s c call _ _ _ _ Hc Hp fuel no_paging [] w1) as [t' Ht']; [done..|].
  unfold ListAllPaginated. rewrite (gbind_eq _ _ _ _ _ Ht'). destruct oe as [e|]; cbn.
  - eexists _, _. split; [reflexivity|]. eauto 6.
  - unfold gbind, remote, print, svc_modify, gret. cbn. destruct (output_error t') as [e|] eqn:Eo; cbn;
      (eexists _, _; split; [reflexivity|]); cbn; eauto 10.
Qed.

(** *** Pitfalls *)

(** The type given to [query] has no effect. *)
Lemma query_type_ignored args w : run_QueryDiscovery args w = run_QueryDiscovery [] w.
Proof. done. Qed.

(** Updating and deregistering a tool cannot be reached from the root command. *)
Lemma tool_commands_unreachable :
  ["cl"; "tool"; "update [id]"] ∉ (fst ∘ fst) <$> runnable newRootCommand /\
  ["cl"; "tool"; "reregister [id]"] ∉ (fst ∘ fst) <$> runnable newRootCommand.
Proof. cbn. split; set_solver. Qed.
End Run.
End Commands.
