(* ===== verification/Login.v ===== *)
(** The goroutines of a login (cli/commands/login/login.go), and the start of the
    client (cmd/cli/cl.go, cli/session.go).

    The login command waits for a code on an unbuffered channel.  A goroutine
    listens on a fixed address and serves requests; each request for the callback
    runs its own goroutine, which answers the browser and then hands its code to
    whoever waits.  The steps of these goroutines are a step relation. *)

From S2P Require Import Prelude GoRuntime GoStrings Util.

(** ** The callback server *)

(** The goroutine of the server: before it listens, serving, crashed, or closed by
    the command.  [net.Listen] may fail; the goroutine reports that and goes on, and
    serving the nil listener dereferences nil, which ends the process. *)
Inductive server_state := NotListening | Serving | Crashed | Closed.

(** A request for "/callback": the values of the query parameter "code". *)
Record CallbackRequest := mkCallbackRequest { query_code : list string }.

(** [r.URL.Query().Get("code")] *)
Definition request_code (r : CallbackRequest) : string := default "" (head (query_code r)).

Record login := mkLogin {
  (** what the command has received *)
  lg_code : option string;
  lg_server : server_state;
  (** [handleCallback] goroutines that have answered and wait to send their code *)
  lg_handlers : list string;
  (** the requests that came in, newest first *)
  lg_requests : list CallbackRequest;
  (** the answers to the browsers *)
  lg_responses : list string;
}.

Definition login_start : login := mkLogin None NotListening [] [] [].

Definition success_page : string := "Success. You can close this browser tab now".

Inductive login_step : login -> login -> Prop :=
| login_listen code handlers reqs out :
    login_step (mkLogin code NotListening handlers reqs out) (mkLogin code Serving handlers reqs out)
| login_listen_failed code handlers reqs out :
    login_step (mkLogin code NotListening handlers reqs out) (mkLogin code Crashed handlers reqs out)
| login_handleCallback r code handlers reqs out :
    login_step (mkLogin code Serving handlers reqs out)
               (mkLogin code Serving (handlers ++ [request_code r]) (r :: reqs) (out ++ [success_page]))
| login_receive c h1 h2 srv reqs out : srv <> Crashed ->
    login_step (mkLogin None srv (h1 ++ c :: h2) reqs out) (mkLogin (Some c) srv (h1 ++ h2) reqs out)
| login_close c handlers reqs out :
    login_step (mkLogin (Some c) Serving handlers reqs out) (mkLogin (Some c) Closed handlers reqs out).

Definition login_reachable (s : login) : Prop := rtc login_step login_start s.

(** The codes that came in are where they should be. *)
Definition login_inv (s : login) : Prop :=
  request_code <$> lg_requests s ≡ₚ option_list (lg_code s) ++ lg_handlers s /\
  length (lg_responses s) = length (lg_requests s) /\
  (lg_server s = NotListening \/ lg_server s = Crashed -> lg_requests s = []).

Lemma login_step_inv s s' : login_step s s' -> login_inv s -> login_inv s'.
Proof.
  unfold login_inv. destruct 1; cbn; intros (Hp & Hl & Hn).
  - split_and!; [done..|naive_solver].
  - split_and!; [done..|]. intros _. apply Hn. by left.
  - split_and!; [|by rewrite length_app; cbn; lia|naive_solver].
    rewrite Hp, app_assoc. by rewrite <-Permutation_cons_append.
  - split_and!; [|done..]. by rewrite Hp, <-Permutation_middle.
  - split_and!; [done..|naive_solver].
Qed.

Lemma login_reachable_inv s : login_reachable s -> login_inv s.
Proof.
  assert (H0 : login_inv login_start) by (split_and!; cbn; done). revert H0. unfold login_reachable.
  intros H0 Hr. induction Hr as [|x y z Hxy _ IH]; [done|]. apply IH. by eapply login_step_inv.
Qed.

(** In every interleaving of the server, the browsers and the command: the command
    receives at most one code, and one that a request for the callback carried; all
    other codes stay with handlers that wait for ever, although their browsers were
    told of a success; while a request has come in and none was received, the
    command can go on; and when the address cannot be listened on, no request is
    ever answered and no code received. *)
Theorem login_receives_one s : login_reachable s ->
  request_code <$> lg_requests s ≡ₚ option_list (lg_code s) ++ lg_handlers s /\
  length (lg_responses s) = length (lg_requests s) /\
  (lg_code s = None -> lg_requests s <> [] -> exists s', login_step s s' /\ lg_code s' <> None) /\
  (lg_server s = Crashed -> lg_code s = None /\ lg_requests s = [] /\ forall s', ~ login_step s s').
Proof.
  intros Hi%login_reachable_inv. destruct s as [code srv handlers reqs out]. destruct Hi as (Hp & Hl & Hn). cbn in *. split_and!; [done..| |].
  - intros -> Hne. destruct handlers as [|c handlers].
    + apply Permutation_nil_r in Hp. by destruct reqs.
    + eexists. split; [apply (login_receive c [] handlers)|done]. intros ->. apply Hne, Hn. by right.
  - intros ->. rewrite (Hn (or_intror eq_refl)) in *. apply Permutation_nil_l in Hp.
    symmetry in Hp. apply app_nil in Hp as [Hc ->]. destruct code; [done|]. split_and!; [done..|]. intros s' Hs. by inversion Hs.
Qed.

(** ** Starting the client *)

(** What cl.go sets in viper. *)
Record viper_settings := mkViperSettings {
  EnvKeyReplacer : list (string * string);
  ConfigName : string;
  ConfigType : string;
  ConfigPaths : list string;
}.

(** Reading the configuration is third party, and its error is ignored. *)
Definition initConfig (v : viper_settings) : viper_settings :=
  mkViperSettings [(".", "_")] "config" "yaml"
    (ConfigPaths v ++ ["/etc/clouditor/"; "$HOME/.clouditor"; "."]).

(** The folder of sessions, from the answer of [os.UserHomeDir()]. *)
Definition DefaultSessionFolder (home : res string) : string :=
  match home with Err _ => "" | OK home => home +:+ "/.clouditor/" end.
