(* ===== verification/CliFlags.v ===== *)
(** The flags of the client's commands (cli/commands, cmd/cli): their declaration,
    the viper keys they are bound to, and what the commands read from them.

    All commands are constructed when the client starts, whichever is run, and
    viper has one table of keys.  Parsing a command line and viper are third party:
    [given] is what cobra parsed, [ViperFlags] the lookup of a key. *)

From S2P Require Import Prelude GoRuntime GoStrings Util GoText Api Authz Pagination GoJson Policies Orchestrator OrchestratorCatalogs Discovery Connection Session Commands.

(** ** Declarations *)

Inductive flag_value := FString (s : string) | FSlice (l : list string).

#[global] Instance flag_value_eq_dec : EqDecision flag_value.
Proof. solve_decision. Defined.

(** A flag belongs to the command that declares it. *)
Record flag := mkFlag { flag_owner : list string; flag_name : string; flag_shorthand : string; flag_DefValue : flag_value }.

#[global] Instance flag_eq_dec : EqDecision flag.
Proof. solve_decision. Defined.

(** [cmd.PersistentFlags().StringP(...)], [cmd.MarkPersistentFlagRequired(name)] and
    [viper.BindPFlag(key, cmd.PersistentFlags().Lookup(name))]. *)
Inductive flag_statement :=
| DeclareFlag (name shorthand : string) (value : flag_value)
| MarkRequired (name : string)
| BindPFlag (key name : string).

(** What the statements leave behind: the flags, the required ones, and the bindings
    in the order in which they are made.  A name without a flag is bound to nil. *)
Record flag_table := mkFlagTable { declared : list flag; required : list flag; bindings : list (string * option flag) }.

Definition Lookup (owner : list string) (name : string) (l : list flag) : option flag :=
  find (fun f => bool_decide (flag_owner f = owner /\ flag_name f = name)) l.

Definition apply_statement (owner : list string) (t : flag_table) (s : flag_statement) : flag_table :=
  match s with
  | DeclareFlag name short v => mkFlagTable (declared t ++ [mkFlag owner name short v]) (required t) (bindings t)
  | MarkRequired name =>
      mkFlagTable (declared t) (required t ++ option_list (Lookup owner name (declared t))) (bindings t)
  | BindPFlag key name => mkFlagTable (declared t) (required t) (bindings t ++ [(key, Lookup owner name (declared t))])
  end.

Definition login_flags (auth_url token_url client_id : string) : list flag_statement :=
  [DeclareFlag OAuth2AuthURLFlag "" (FString auth_url); BindPFlag OAuth2AuthURLFlag OAuth2AuthURLFlag;
   DeclareFlag OAuth2TokenURLFlag "" (FString token_url); BindPFlag OAuth2TokenURLFlag OAuth2TokenURLFlag;
   DeclareFlag OAuth2ClientIDFlag "" (FString client_id); BindPFlag OAuth2ClientIDFlag OAuth2ClientIDFlag].

Definition DefaultOAuth2AuthURL : string := "http://localhost:8080/v1/auth/authorize".
Definition DefaultOAuth2TokenURL : string := "http://localhost:8080/v1/auth/token".
Definition DefaultClientID : string := "cli".

Definition list_tools_flags : list flag_statement :=
  [DeclareFlag "metric-id" "m" (FString ""); BindPFlag "metric-id" "metric-id"].

Definition register_tool_flags : list flag_statement :=
  [DeclareFlag "name" "n" (FString ""); DeclareFlag "description" "d" (FString ""); DeclareFlag "metric-ids" "m" (FSlice []);
   MarkRequired "name"; MarkRequired "metric-ids";
   BindPFlag "name" "name"; BindPFlag "description" "description"; BindPFlag "metric-ids" "metric-ids"].

(** The flag control-ids is bound and not declared. *)
Definition update_cloud_service_flags : list flag_statement :=
  [DeclareFlag "id" "" (FString ""); DeclareFlag "name" "n" (FString ""); DeclareFlag "description" "d" (FString "");
   MarkRequired "id"; MarkRequired "name";
   BindPFlag "id" "id"; BindPFlag "name" "name"; BindPFlag "description" "description"; BindPFlag "control-ids" "control-ids"].

Definition SessionFolderFlag : string := "session-directory".
Definition root_flags (DefaultSessionFolder : string) : list flag_statement :=
  [DeclareFlag SessionFolderFlag "s" (FString DefaultSessionFolder); BindPFlag SessionFolderFlag SessionFolderFlag].

(** The commands with flags, in the order in which [AddCommands] constructs them. *)
Definition tool_register : list string := ["cl"; "tool"; "register"].
Definition cloud_update : list string := ["cl"; "cloud"; "update"].

Definition flag_statements (DefaultSessionFolder : string) : list (list string * flag_statement) :=
  let of_command owner l := pair owner <$> l in
  of_command ["cl"; "login"] (login_flags DefaultOAuth2AuthURL DefaultOAuth2TokenURL DefaultClientID) ++
  of_command ["cl"; "tool"; "list"] list_tools_flags ++
  of_command tool_register register_tool_flags ++
  of_command cloud_update update_cloud_service_flags ++
  of_command ["cl"] (root_flags DefaultSessionFolder).

Definition cl_flags (DefaultSessionFolder : string) : flag_table :=
  foldl (fun t '(owner, s) => apply_statement owner t s) (mkFlagTable [] [] []) (flag_statements DefaultSessionFolder).

(** ** Values *)

Definition same_kind (v v' : flag_value) : Prop :=
  match v, v' with FString _, FString _ | FSlice _, FSlice _ => True | _, _ => False end.

(** What cobra parsed from a command line for [cmd]: flags of the command and of its
    parents, with the required ones among them. *)
Definition parsed (t : flag_table) (cmd : list string) (given : flag -> option flag_value) : Prop :=
  (forall f v, given f = Some v -> f ∈ declared t /\ flag_owner f `prefix_of` cmd /\ same_kind v (flag_DefValue f)) /\
  (forall f, f ∈ required t -> flag_owner f = cmd -> is_Some (given f)).

(** viper's lookup of a key: from the bindings, the flags that were given, the
    configuration file and the key. *)
Class ViperFlags := {
  viper_find : list (string * option flag) -> (flag -> option flag_value) -> (string -> option flag_value) -> string -> flag_value;
}.

(** The documented behaviour.  A flag that was given has precedence over the
    configuration file, which has precedence over the default of the flag.  Binding a
    key again replaces its flag, and binding nil is an error without effect. *)
Class ViperFlagsLaws `{ViperFlags} : Prop := {
  find_bound bs k f given config :
    viper_find (bs ++ [(k, Some f)]) given config k = default (default (flag_DefValue f) (config k)) (given f);
  find_other bs k k' f given config : k <> k' -> viper_find (bs ++ [(k', f)]) given config k = viper_find bs given config k;
  find_nil bs k k' given config : viper_find (bs ++ [(k', None)]) given config k = viper_find bs given config k;
}.

(** [GetString] and [GetStringSlice] convert the value with spf13/cast; a value of
    the kind asked for is answered as it is. *)
Class ViperCast := {
  cast_ToString : flag_value -> string;
  cast_ToStringSlice : flag_value -> list string;
}.
Class ViperCastLaws `{ViperCast} : Prop := {
  to_string s : cast_ToString (FString s) = s;
  to_slice l : cast_ToStringSlice (FSlice l) = l;
}.

Definition cl_viper `{ViperFlags, ViperCast} (home : string) (given : flag -> option flag_value)
  (config : string -> option flag_value) : Viper := {|
  viper_GetString k := cast_ToString (viper_find (bindings (cl_flags home)) given config k);
  viper_GetStringSlice k := cast_ToStringSlice (viper_find (bindings (cl_flags home)) given config k);
|}.

(** The flag a key is bound to in the end. *)
Fixpoint bound_to (bs : list (string * option flag)) (k : string) : option flag :=
  match bs with
  | [] => None
  | (k', f) :: bs =>
      match bound_to bs k with
      | Some f => Some f
      | None => if bool_decide (k = k') then f else None
      end
  end.

Lemma bound_to_app bs bs' k : bound_to (bs ++ bs') k = match bound_to bs' k with Some f => Some f | None => bound_to bs k end.
Proof.
  induction bs as [|[k' f] bs IH]; simpl; [by destruct (bound_to bs' k)|]. rewrite IH.
  by destruct (bound_to bs' k), (bound_to bs k).
Qed.

Section Lookup.
Context `{ViperFlagsLaws}.

(** A key is answered from the flag it was bound to last, whoever owns that flag. *)
Lemma find_last bs k f given config : bound_to bs k = Some f ->
  viper_find bs given config k = default (default (flag_DefValue f) (config k)) (given f).
Proof.
  induction bs as [|[k' f'] bs IH] using rev_ind; [done|]. rewrite bound_to_app. simpl. case_bool_decide as Hk.
  - subst k'. destruct f' as [f'|]; intros Hf; [injection Hf as <-; apply find_bound|]. rewrite find_nil. auto.
  - intros Hf. rewrite find_other by done. auto.
Qed.
End Lookup.

(** ** The flags of the client *)

Definition string_flag (owner : list string) (name short value : string) : flag := mkFlag owner name short (FString value).

(** Every flag is bound under its name, but the key of the name and of the
    description of a tool ends up with the flags of [cl cloud update]. *)
Lemma flags_kept home f : f ∈ declared (cl_flags home) ->
  bound_to (bindings (cl_flags home)) (flag_name f) =
  Some (if bool_decide (flag_owner f = tool_register /\ flag_name f ∈ ["name"; "description"])
        then string_flag cloud_update (flag_name f) (flag_shorthand f) "" else f).
Proof.
  intros Hf. vm_compute in Hf. repeat (apply list_elem_of_cons in Hf as [->|Hf]; [reflexivity|]). set_solver.
Qed.

Section Values.
Context {T Tok Cfg A O C Stream : Type}.
Context `{Os, !OAuth Tok Cfg A, JsonDecoder, !@Grpc A O C Stream, !Backend C, !Terminal, !LoginLibrary Tok Cfg}.
Context `{ViperFlagsLaws, !ViperCast, !ViperCastLaws} (home : string) (config : string -> option flag_value).
Abbreviation viper given := (cl_viper home given config).

(** A flag of the selected command that keeps its key is answered as it was given. *)
Lemma flag_read cmd given f v k : parsed (cl_flags home) cmd given -> given f = Some v -> k = flag_name f ->
  ~ (flag_owner f = tool_register /\ k ∈ ["name"; "description"]) ->
  viper_find (bindings (cl_flags home)) given config k = v.
Proof.
  intros [Hp _] Hv -> Hn. destruct (Hp f v Hv) as (Hf & _ & _). pose proof (flags_kept home f Hf) as Hb.
  rewrite bool_decide_eq_false_2 in Hb by done. by rewrite (find_last _ _ _ _ _ Hb), Hv.
Qed.

(** The name and the description of a tool are never read from the command line. *)
Lemma tool_flag_lost given name short : parsed (cl_flags home) tool_register given ->
  (name, short) ∈ [("name", "n"); ("description", "d")] ->
  viper_find (bindings (cl_flags home)) given config name = default (FString "") (config name).
Proof.
  intros [Hp _] Hn.
  assert (Hb : bound_to (bindings (cl_flags home)) name = Some (string_flag cloud_update name short "")).
  { repeat (apply list_elem_of_cons in Hn as [[= -> ->]|Hn]; [reflexivity|]). set_solver. }
  rewrite (find_last _ _ _ _ _ Hb). destruct (given _) as [v|] eqn:Hv; [|done].
  destruct (Hp _ _ Hv) as (_ & [k Ho] & _). discriminate Ho.
Qed.

Abbreviation update_call given := (@run_UpdateCloudService T Tok Cfg A O C Stream _ _ _ _ _ _ _ (viper given)).
Abbreviation register_call given := (@run_RegisterTool T Tok Cfg A O C Stream _ _ _ _ _ _ _ (viper given)).

(** A required flag of kind string has a value on the command line. *)
Lemma required_string cmd given name short : parsed (cl_flags home) cmd given ->
  string_flag cmd name short "" ∈ required (cl_flags home) -> exists s, given (string_flag cmd name short "") = Some (FString s).
Proof.
  intros [Hp Hr] Hin. destruct (Hr _ Hin eq_refl) as [v Hv]. destruct (Hp _ _ Hv) as (_ & _ & Hk).
  destruct v as [s|l]; [by exists s|done].
Qed.

(** [cl cloud update] sends the id and the name that were given, and the description
    if there is one. *)
Theorem cloud_update_request folder given args : parsed (cl_flags home) cloud_update given -> config "description" = None ->
  exists id name,
    given (string_flag cloud_update "id" "" "") = Some (FString id) /\
    given (string_flag cloud_update "name" "n" "") = Some (FString name) /\
    update_call given folder args =
    one_call folder (UpdateCloudService (mkUpdateCloudServiceRequest (Some (new_service id name
      (match given (string_flag cloud_update "description" "d" "") with Some (FString d) => d | _ => "" end))))) MService.
Proof.
  intros Hp Hc.
  destruct (required_string _ _ "id" "" Hp) as [id Hid]; [vm_compute; set_solver|].
  destruct (required_string _ _ "name" "n" Hp) as [name Hname]; [vm_compute; set_solver|].
  exists id, name. split; [done|]. split; [done|]. unfold run_UpdateCloudService, cl_viper. cbn [viper_GetString].
  rewrite (flag_read _ _ _ _ "id" Hp Hid), (flag_read _ _ _ _ "name" Hp Hname) by first [reflexivity | intros [[=] _]]. rewrite !to_string. repeat f_equal.
  rewrite (find_last _ _ (string_flag cloud_update "description" "d" "")) by reflexivity. rewrite Hc.
  destruct (given (string_flag cloud_update "description" "d" "")) as [v|] eqn:Hd; [|apply to_string]. destruct Hp as [Hp _]. destruct (Hp _ _ Hd) as (_ & _ & Hk).
  destruct v; [apply to_string|done].
Qed.

(** [cl tool register] sends the metrics that were given, with an empty name and an
    empty description, whatever its flags [--name] and [--description] say. *)
Theorem tool_register_request folder given args : parsed (cl_flags home) tool_register given ->
  config "name" = None -> config "description" = None ->
  exists metrics, given (mkFlag tool_register "metric-ids" "m" (FSlice [])) = Some (FSlice metrics) /\
    register_call given folder args =
    one_call folder (RegisterAssessmentTool (Some (mkAssessmentTool "" "" "" metrics))) MTool.
Proof.
  intros Hp Hn Hd. pose proof Hp as [Hp' Hr].
  destruct (Hr (mkFlag tool_register "metric-ids" "m" (FSlice []))) as [v Hv]; [vm_compute; set_solver|done|].
  destruct (Hp' _ _ Hv) as (_ & _ & Hk). destruct v as [s|metrics]; [done|]. exists metrics. split; [done|].
  unfold run_RegisterTool, cl_viper. cbn [viper_GetString viper_GetStringSlice].
  rewrite (tool_flag_lost _ "name" "n" Hp), (tool_flag_lost _ "description" "d" Hp) by set_solver.
  rewrite Hn, Hd. cbn [default]. rewrite !to_string.
  rewrite (flag_read _ _ _ _ "metric-ids" Hp Hv) by first [reflexivity | set_solver]. by rewrite to_slice.
Qed.
End Values.
