(* ===== verification/Payloads.v ===== *)
(** The payloads of requests ([GetPayload] of api/orchestrator/orchestrator.go,
    api/assessment/assessment.go and api/evidence/evidence.go), and the lines that
    internal/logging/logging.go writes about them. *)

From S2P Require Import Prelude GoRuntime GoStrings Util Api Authz Orchestrator OrchestratorCatalogs ServiceInfo Commands.

(** [proto.Message], as far as requests carry it. *)
Inductive PayloadMessage :=
| PResult (x : AssessmentResult) | PTool (x : AssessmentTool) | PCatalog (x : Catalog) | PCertificate (x : Certificate)
| PService (x : CloudService) | PMetric (x : Metric) | PConfiguration (x : MetricConfiguration)
| PImplementation (x : MetricImplementation) | PToe (x : TargetOfEvaluation) | PEvidence (x : Evidence).

(** The name of the message type, and [GetId()] of the types that have it. *)
Definition described (p : PayloadMessage) : Payload :=
  match p with
  | PResult x => mkPayload "AssessmentResult" (Some (AssessmentResult_Id x))
  | PTool x => mkPayload "AssessmentTool" (Some (AssessmentTool_Id x))
  | PCatalog x => mkPayload "Catalog" (Some (Catalog_Id x))
  | PCertificate x => mkPayload "Certificate" (Some (Certificate_Id x))
  | PService x => mkPayload "CloudService" (Some (CloudService_Id x))
  | PMetric x => mkPayload "Metric" (Some (Metric_Id x))
  | PConfiguration _ => mkPayload "MetricConfiguration" None
  | PImplementation _ => mkPayload "MetricImplementation" None
  | PToe _ => mkPayload "TargetOfEvaluation" None
  | PEvidence x => mkPayload "Evidence" (Some (Evidence_Id x))
  end.

(** [api.PayloadRequest], and [api.CloudServiceRequest] where the request is one. *)
Class PayloadRequest (Req : Type) := {
  GetPayload : Req -> option PayloadMessage;
  as_CloudServiceRequest : Req -> option string;
}.

Definition log_of {Req} `{PayloadRequest Req} (req : Req) : LoggedRequest :=
  mkLoggedRequest (described <$> GetPayload req) (as_CloudServiceRequest req).

(** ** Assessment results and evidences *)

Definition StoreAssessmentResultRequest_GetPayload (req : StoreAssessmentResultRequest) := PResult <$> StoreAssessmentResult_Result req.
#[export] Instance store_result_payload : PayloadRequest StoreAssessmentResultRequest :=
  {| GetPayload := StoreAssessmentResultRequest_GetPayload; as_CloudServiceRequest req := Some (StoreAssessmentResult_GetCloudServiceId req) |}.

(** [AssessEvidenceRequest] and [StoreEvidenceRequest] *)
Definition EvidenceRequest_GetPayload (req : EvidenceRequest) := PEvidence <$> EvidenceRequest_Evidence req.
#[export] Instance evidence_payload : PayloadRequest EvidenceRequest :=
  {| GetPayload := EvidenceRequest_GetPayload; as_CloudServiceRequest req := Some (EvidenceRequest_GetCloudServiceId req) |}.

(** ** Assessment tools *)

Record RegisterAssessmentToolRequest := mkRegisterToolRequest { RegisterTool_Tool : option AssessmentTool }.
Record UpdateAssessmentToolRequest := mkUpdateToolRequest { UpdateTool_Tool : option AssessmentTool }.
Record DeregisterAssessmentToolRequest := mkDeregisterToolRequest { DeregisterTool_ToolId : string }.

Definition RegisterAssessmentToolRequest_GetPayload req := PTool <$> RegisterTool_Tool req.
Definition UpdateAssessmentToolRequest_GetPayload req := PTool <$> UpdateTool_Tool req.
Definition DeregisterAssessmentToolRequest_GetPayload req := Some (PTool (mkAssessmentTool (DeregisterTool_ToolId req) "" "" [])).
#[export] Instance register_tool_payload : PayloadRequest RegisterAssessmentToolRequest :=
  {| GetPayload := RegisterAssessmentToolRequest_GetPayload; as_CloudServiceRequest _ := None |}.
#[export] Instance update_tool_payload : PayloadRequest UpdateAssessmentToolRequest :=
  {| GetPayload := UpdateAssessmentToolRequest_GetPayload; as_CloudServiceRequest _ := None |}.
#[export] Instance deregister_tool_payload : PayloadRequest DeregisterAssessmentToolRequest :=
  {| GetPayload := DeregisterAssessmentToolRequest_GetPayload; as_CloudServiceRequest _ := None |}.

(** ** Catalogs *)

Definition CreateCatalogRequest_GetPayload req := PCatalog <$> CreateCatalog_Catalog req.
Definition UpdateCatalogRequest_GetPayload req := PCatalog <$> UpdateCatalog_Catalog req.
Definition RemoveCatalogRequest_GetPayload req :=
  Some (PCatalog (mkCatalog (RemoveCatalog_CatalogId req) "" "" [] false [] "" None)).
#[export] Instance create_catalog_payload : PayloadRequest CreateCatalogRequest :=
  {| GetPayload := CreateCatalogRequest_GetPayload; as_CloudServiceRequest _ := None |}.
#[export] Instance update_catalog_payload : PayloadRequest UpdateCatalogRequest :=
  {| GetPayload := UpdateCatalogRequest_GetPayload; as_CloudServiceRequest _ := None |}.
#[export] Instance remove_catalog_payload : PayloadRequest RemoveCatalogRequest :=
  {| GetPayload := RemoveCatalogRequest_GetPayload; as_CloudServiceRequest _ := None |}.

(** ** Certificates *)

Definition CreateCertificateRequest_GetPayload req := PCertificate <$> CreateCertificate_Certificate req.
Definition UpdateCertificateRequest_GetPayload req := PCertificate <$> UpdateCertificate_Certificate req.
Definition RemoveCertificateRequest_GetPayload req :=
  Some (PCertificate (mkCertificate (RemoveCertificate_CertificateId req) "" "" "" "" "" "" "" "" [])).
#[export] Instance create_certificate_payload : PayloadRequest CreateCertificateRequest :=
  {| GetPayload := CreateCertificateRequest_GetPayload;
     as_CloudServiceRequest req := Some (CertificateRequest_GetCloudServiceId (CreateCertificate_Certificate req)) |}.
#[export] Instance update_certificate_payload : PayloadRequest UpdateCertificateRequest :=
  {| GetPayload := UpdateCertificateRequest_GetPayload;
     as_CloudServiceRequest req := Some (CertificateRequest_GetCloudServiceId (UpdateCertificate_Certificate req)) |}.
#[export] Instance remove_certificate_payload : PayloadRequest RemoveCertificateRequest :=
  {| GetPayload := RemoveCertificateRequest_GetPayload; as_CloudServiceRequest _ := None |}.

(** ** Cloud services *)

Definition RegisterCloudServiceRequest_GetPayload req := PService <$> RegisterCloudService_CloudService req.
Definition UpdateCloudServiceRequest_GetPayload req := PService <$> UpdateCloudService_CloudService req.
Definition RemoveCloudServiceRequest_GetPayload req :=
  Some (PService (mkCloudService (RemoveCloudService_CloudServiceId req) "" "" [] [] None None None)).
#[export] Instance register_service_payload : PayloadRequest RegisterCloudServiceRequest :=
  {| GetPayload := RegisterCloudServiceRequest_GetPayload;
     as_CloudServiceRequest req := Some (CloudServiceWrapper_GetCloudServiceId (RegisterCloudService_CloudService req)) |}.
#[export] Instance update_service_payload : PayloadRequest UpdateCloudServiceRequest :=
  {| GetPayload := UpdateCloudServiceRequest_GetPayload;
     as_CloudServiceRequest req := Some (CloudServiceWrapper_GetCloudServiceId (UpdateCloudService_CloudService req)) |}.
#[export] Instance remove_service_payload : PayloadRequest RemoveCloudServiceRequest :=
  {| GetPayload := RemoveCloudServiceRequest_GetPayload;
     as_CloudServiceRequest req := Some (RemoveCloudService_CloudServiceId req) |}.

(** ** Metrics *)

Definition zero_metric (id : string) : Metric := mkMetric id "" "" "" SCALE_UNSPECIFIED None 0 None None.
Definition CreateMetricRequest_GetPayload req := PMetric <$> CreateMetric_Metric req.
Definition UpdateMetricRequest_GetPayload req := PMetric <$> UpdateMetric_Metric req.
Definition RemoveMetricRequest_GetPayload req := Some (PMetric (zero_metric (RemoveMetric_MetricId req))).
Definition UpdateMetricConfigurationRequest_GetPayload req := PConfiguration <$> UpdateConfiguration_Configuration req.
Definition UpdateMetricImplementationRequest_GetPayload req := PImplementation <$> UpdateImplementation_Implementation req.
#[export] Instance create_metric_payload : PayloadRequest CreateMetricRequest :=
  {| GetPayload := CreateMetricRequest_GetPayload; as_CloudServiceRequest _ := None |}.
#[export] Instance update_metric_payload : PayloadRequest UpdateMetricRequest :=
  {| GetPayload := UpdateMetricRequest_GetPayload; as_CloudServiceRequest _ := None |}.
#[export] Instance remove_metric_payload : PayloadRequest RemoveMetricRequest :=
  {| GetPayload := RemoveMetricRequest_GetPayload; as_CloudServiceRequest _ := None |}.
#[export] Instance update_configuration_payload : PayloadRequest UpdateMetricConfigurationRequest :=
  {| GetPayload := UpdateMetricConfigurationRequest_GetPayload;
     as_CloudServiceRequest req := Some (UpdateConfiguration_CloudServiceId req) |}.
#[export] Instance update_implementation_payload : PayloadRequest UpdateMetricImplementationRequest :=
  {| GetPayload := UpdateMetricImplementationRequest_GetPayload; as_CloudServiceRequest _ := None |}.

(** ** Targets of evaluation *)

Definition CreateToeRequest_GetPayload req := PToe <$> CreateToe_Toe req.
Definition UpdateToeRequest_GetPayload req := PToe <$> UpdateToe_Toe req.
Definition RemoveToeRequest_GetPayload req :=
  Some (PToe (mkTargetOfEvaluation (RemoveToe_CloudServiceId req) (RemoveToe_CatalogId req) None)).
#[export] Instance create_toe_payload : PayloadRequest CreateToeRequest :=
  {| GetPayload := CreateToeRequest_GetPayload; as_CloudServiceRequest req := Some (ToeRequest_GetCloudServiceId (CreateToe_Toe req)) |}.
#[export] Instance update_toe_payload : PayloadRequest UpdateToeRequest :=
  {| GetPayload := UpdateToeRequest_GetPayload; as_CloudServiceRequest req := Some (ToeRequest_GetCloudServiceId (UpdateToe_Toe req)) |}.
#[export] Instance remove_toe_payload : PayloadRequest RemoveToeRequest :=
  {| GetPayload := RemoveToeRequest_GetPayload; as_CloudServiceRequest req := Some (RemoveToe_CloudServiceId req) |}.

(** ** Log lines *)

Abbreviation logged verb req params := (LogRequest true verb (Some (log_of req)) params).

(** A request is logged exactly when it has a payload. *)
Lemma logged_with_payload {Req} `{PayloadRequest Req} (req : Req) verb params :
  is_Some (logged verb req params) <-> is_Some (GetPayload req).
Proof.
  unfold LogRequest, log_of. cbn [logged_GetPayload]. destruct (GetPayload req) as [p|]; cbn; [|done].
  split; intros _; [by exists p|]. by eexists.
Qed.

(** Removed objects have only their id, and the line names it. *)
Lemma removal_logged id : id <> "" ->
  logged Remove (mkRemoveCatalogRequest id) [] = Some ("Catalog with ID '" +:+ id +:+ "' removed.") /\
  logged Remove (mkRemoveCertificateRequest id) [] = Some ("Certificate with ID '" +:+ id +:+ "' removed.") /\
  logged Remove (mkRemoveCloudServiceRequest id) [] = Some ("CloudService with ID '" +:+ id +:+ "' removed.") /\
  logged Remove (mkRemoveMetricRequest id) [] = Some ("Metric with ID '" +:+ id +:+ "' removed.") /\
  logged Remove (mkDeregisterToolRequest id) [] = Some ("AssessmentTool with ID '" +:+ id +:+ "' removed.").
Proof.
  intros Hid. unfold LogRequest, log_of. cbn [logged_GetPayload logged_GetCloudServiceId fmap option_fmap option_map described
    GetPayload as_CloudServiceRequest payload_Name payload_GetId].
  split_and!; cbn; rewrite bool_decide_eq_true_2 by done; cbn; by rewrite  ?str_append_assoc, ?str_append_cons, ?str_append_empty.
Qed.

(** A target of evaluation is named by its cloud service and the parameter that
    [toe.go] appends. *)
Lemma toe_logged verb toe :
  logged verb (mkCreateToeRequest (Some toe)) ["and Catalog '" +:+ TargetOfEvaluation_CatalogId toe +:+ "'"] =
  Some ("TargetOfEvaluation " +:+ RequestType_String verb +:+ " for Cloud Service '" +:+ TargetOfEvaluation_CloudServiceId toe +:+
        "' and Catalog '" +:+ TargetOfEvaluation_CatalogId toe +:+ "'.").
Proof.
  unfold LogRequest, log_of. cbn. rewrite !bool_decide_eq_true_2 by (done || lia). rewrite !str_append_assoc. by destruct verb.
Qed.
