(* ===== verification/OntologyMessages.v ===== *)
(** The messages of the ontology (api/ontology) that the discoverers build, with
    the fields they set, and [discovery.Raw] of api/discovery/discovery.go.

    Every resource message has the same first fields; they are the record
    [Common].  A map is a finite map, a nil map the empty one.  The [float32]
    protocol versions are the constants 0, 1.0, 1.1, 1.2 and 1.3; they are kept in
    tenths.  Durations and timestamps are nanoseconds. *)

From S2P Require Import Prelude GoRuntime GoStrings Util.

Record GeoLocation := mkGeoLocation { GeoLocation_Region : string }.

Inductive AtRestEncryption :=
| AtRestEncryption_None
| ManagedKeyEncryption (enabled : bool) (algorithm : string)
| CustomerKeyEncryption (enabled : bool) (algorithm keyUrl : string).

Record CipherSuite := mkCipherSuite {
  KeyExchangeAlgorithm : string;
  AuthenticationMechanism : string;
  SessionCipher : string;
  MacAlgorithm : string;
}.

Record TransportEncryption := mkTransportEncryption {
  TransportEncryption_Enabled : bool;
  TransportEncryption_Enforced : bool;
  TransportEncryption_Protocol : string;
  TransportEncryption_ProtocolVersion : Z;
  TransportEncryption_CipherSuites : list CipherSuite;
}.

Record HttpEndpoint := mkHttpEndpoint {
  HttpEndpoint_Url : string;
  HttpEndpoint_TransportEncryption : option TransportEncryption;
}.

Record Backup := mkBackup {
  Backup_Enabled : bool;
  Backup_RetentionPeriod : option Z;
  Backup_StorageId : option string;
  Backup_TransportEncryption : option TransportEncryption;
}.

Record Immutability := mkImmutability { Immutability_Enabled : bool }.

Record ResourceLogging := mkResourceLogging {
  ResourceLogging_Enabled : bool;
  ResourceLogging_MonitoringEnabled : bool;
  ResourceLogging_SecurityAlertsEnabled : bool;
}.

Record BootLogging := mkBootLogging {
  BootLogging_Enabled : bool;
  BootLogging_LoggingServiceIds : list string;
  BootLogging_RetentionPeriod : option Z;
  BootLogging_MonitoringEnabled : bool;
  BootLogging_SecurityAlertsEnabled : bool;
}.

Record OSLogging := mkOSLogging {
  OSLogging_Enabled : bool;
  OSLogging_RetentionPeriod : option Z;
  OSLogging_LoggingServiceIds : list string;
  OSLogging_MonitoringEnabled : bool;
  OSLogging_SecurityAlertsEnabled : bool;
}.

Record ActivityLogging := mkActivityLogging {
  ActivityLogging_Enabled : bool;
  ActivityLogging_RetentionPeriod : option Z;
  ActivityLogging_LoggingServiceIds : list string;
}.

Record AutomaticUpdates := mkAutomaticUpdates {
  AutomaticUpdates_Enabled : bool;
  AutomaticUpdates_Interval : option Z;
}.

Record MalwareProtection := mkMalwareProtection {}.

Inductive Redundancy := ZoneRedundancy | GeoRedundancy.

Record AnomalyDetection := mkAnomalyDetection { AnomalyDetection_Scope : string; AnomalyDetection_Enabled : bool }.

Inductive AccessRestriction := L3Firewall (enabled : bool) | WebApplicationFirewall (enabled : bool).

(** The fields every resource message has. *)
Record Common := mkCommon {
  Common_Id : string;
  Common_Name : string;
  Common_CreationTime : option Z;
  Common_GeoLocation : option GeoLocation;
  Common_Labels : gmap string string;
  Common_ParentId : option string;
  Common_Raw : string;
}.

(** [ontology.IsResource], by its implementations. *)
Inductive Ontology :=
| Account (c : Common)
| ResourceGroup (c : Common)
| VirtualMachine (c : Common) (networkInterfaceIds blockStorageIds : list string)
    (malwareProtection : option MalwareProtection) (bootLogging : option BootLogging) (osLogging : option OSLogging)
    (activityLogging : option ActivityLogging) (automaticUpdates : option AutomaticUpdates)
| BlockStorage (c : Common) (atRestEncryption : option AtRestEncryption) (backups : list Backup)
| FileStorage (c : Common) (resourceLogging : option ResourceLogging) (atRestEncryption : option AtRestEncryption)
| ObjectStorage (c : Common) (atRestEncryption : option AtRestEncryption) (immutability : option Immutability)
    (resourceLogging : option ResourceLogging) (backups : list Backup) (publicAccess : bool)
| ObjectStorageService (c : Common) (storageIds : list string) (transportEncryption : option TransportEncryption)
    (httpEndpoint : option HttpEndpoint)
| DatabaseStorage (c : Common) (atRestEncryption : option AtRestEncryption)
| DocumentDatabaseService (c : Common)
| RelationalDatabaseService (c : Common) (transportEncryption : option TransportEncryption)
    (anomalyDetections : list AnomalyDetection)
| Function_ (c : Common) (networkInterfaceIds : list string) (resourceLogging : option ResourceLogging)
    (runtimeLanguage runtimeVersion : string) (internetAccessibleEndpoint : bool) (redundancies : list Redundancy)
| WebApp (c : Common) (networkInterfaceIds : list string) (resourceLogging : option ResourceLogging)
    (internetAccessibleEndpoint : bool) (redundancies : list Redundancy)
| NetworkInterface (c : Common) (accessRestriction : option AccessRestriction)
| LoadBalancer (c : Common) (accessRestriction : option AccessRestriction) (ips : list string) (ports : list Z)
    (httpEndpoints : list HttpEndpoint)
| Container (c : Common) (networkInterfaceIds : list string)
| GenericNetworkService (c : Common) (ips : list string) (ports : list Z).

Definition common_of (r : Ontology) : Common :=
  match r with
  | Account c | ResourceGroup c | VirtualMachine c _ _ _ _ _ _ _ | BlockStorage c _ _ | FileStorage c _ _
  | ObjectStorage c _ _ _ _ _ | ObjectStorageService c _ _ _ | DatabaseStorage c _ | DocumentDatabaseService c
  | RelationalDatabaseService c _ _ | Function_ c _ _ _ _ _ _ | WebApp c _ _ _ _ | NetworkInterface c _
  | LoadBalancer c _ _ _ _ | Container c _ | GenericNetworkService c _ _ => c
  end.

(** [r.GetId()] and [r.GetName()] *)
Definition GetId (r : Ontology) : string := Common_Id (common_of r).
Definition GetName (r : Ontology) : string := Common_Name (common_of r).

(** ** discovery.Raw *)

(** Go's reflection and [encoding/json], as [Raw] uses them: the name of the type
    of a value, and the text of a map from type names to values. *)
Class RawLibrary (any : Type) := {
  type_name : any -> string;
  json_Marshal_raw : gmap string (list any) -> string;
}.

Section Raw.
Context {any : Type} `{RawLibrary any}.

(** The loop over the arguments of [Raw]. *)
Fixpoint raw_map (raws : list any) (m : gmap string (list any)) : gmap string (list any) :=
  match raws with
  | [] => m
  | raw :: raws => raw_map raws (<[type_name raw := default [] (m !! type_name raw) ++ [raw]]> m)
  end.

Definition Raw (raws : list any) : string := json_Marshal_raw (raw_map raws ∅).

(** Raw keeps every argument, grouped by type and in order. *)
Lemma raw_map_spec raws m t :
  default [] (raw_map raws m !! t) = default [] (m !! t) ++ filter (fun r => type_name r = t) raws.
Proof.
  revert m. induction raws as [|r raws IH]; intros m; simpl; [by rewrite app_nil_r|].
  rewrite IH, filter_cons. destruct (decide (type_name r = t)) as [<-|Hne].
  - rewrite lookup_insert_eq. simpl. by rewrite <-app_assoc.
  - by rewrite lookup_insert_ne.
Qed.
End Raw.
