(* ===== verification/AzureSdk.v ===== *)
(** What the Azure discoverer reads of the Azure SDK: the response types with the
    fields it uses (a pointer is an [option], a nil slice element a [None]), and
    the calls as a class.  The SDK itself is third party.

    A pager is the list of the answers its [NextPage] gives; [More] is false when
    the list is used up. *)

From S2P Require Import Prelude GoRuntime GoStrings Util GoText OntologyMessages.

(** ** Response types *)

(** The fields every ARM resource has. *)
Record Arm := mkArm {
  arm_ID : option string;
  arm_Name : option string;
  arm_Location : option string;
  arm_Tags : gmap string (option string);
}.

(** *** armsubscription, armresources, armsecurity *)
Record Subscription := mkSubscription {
  Subscription_ID : option string;
  Subscription_SubscriptionID : option string;
  Subscription_DisplayName : option string;
}.

Record arm_ResourceGroup := mkArmResourceGroup { rg_arm : Arm }.

Record Pricing := mkPricing {
  Pricing_Name : option string;
  (** [Properties.PricingTier], with [Properties] a pointer *)
  Pricing_Properties : option (option string);
}.

(** *** armstorage *)
Record Encryption := mkEncryption {
  Encryption_KeySource : option string;
  (** [KeyVaultProperties.KeyVaultURI] *)
  Encryption_KeyVaultProperties : option (option string);
}.

Record AccountProperties := mkAccountProperties {
  AccountProperties_Encryption : option Encryption;
  AccountProperties_CreationTime : option Z;
  AccountProperties_EnableHTTPSTrafficOnly : option bool;
  AccountProperties_MinimumTLSVersion : option string;
  (** [PrimaryEndpoints.Blob] *)
  AccountProperties_PrimaryEndpoints : option (option string);
}.

Record StorageAccount := mkStorageAccount {
  account_arm : Arm;
  account_Properties : option AccountProperties;
}.

Record FileShareItem := mkFileShareItem { FileShareItem_ID : option string; FileShareItem_Name : option string }.

Record ContainerProperties := mkContainerProperties {
  ContainerProperties_HasImmutabilityPolicy : option bool;
  ContainerProperties_PublicAccess : option string;
}.

Record ListContainerItem := mkListContainerItem {
  ListContainerItem_ID : option string;
  ListContainerItem_Name : option string;
  ListContainerItem_Properties : option ContainerProperties;
}.

(** *** armsql, armcosmos *)
Record SqlServer := mkSqlServer {
  server_arm : Arm;
  (** [Properties.MinimalTLSVersion] *)
  server_Properties : option (option string);
}.

Record DatabaseProperties := mkDatabaseProperties {
  DatabaseProperties_CreationDate : option Z;
  DatabaseProperties_IsInfraEncryptionEnabled : option bool;
}.

Record SqlDatabase := mkSqlDatabase { database_arm : Arm; database_Properties : option DatabaseProperties }.

(** [Properties.State] of an advanced threat protection setting. *)
Record ThreatProtection := mkThreatProtection { ThreatProtection_Properties : option (option string) }.

Record CosmosAccount := mkCosmosAccount {
  cosmos_arm : Arm;
  cosmos_Kind : option string;
  (** [Properties.KeyVaultKeyURI] *)
  cosmos_Properties : option (option string);
  (** [SystemData.CreatedAt] *)
  cosmos_SystemData : option (option Z);
}.

Record MongoDatabase := mkMongoDatabase { mongo_arm : Arm }.

(** *** armcompute *)
Record WindowsConfiguration := mkWindowsConfiguration {
  (** [PatchSettings.PatchMode] *)
  Windows_PatchSettings : option (option string);
  Windows_EnableAutomaticUpdates : option bool;
}.

Record OSProfile := mkOSProfile {
  (** [LinuxConfiguration.PatchSettings.PatchMode] *)
  OSProfile_LinuxConfiguration : option (option (option string));
  OSProfile_WindowsConfiguration : option WindowsConfiguration;
}.

Record StorageProfile := mkStorageProfile {
  (** [OSDisk.ManagedDisk.ID] *)
  StorageProfile_OSDisk : option (option (option string));
  (** [DataDisks[i].ManagedDisk.ID]; a nil slice is the empty one *)
  StorageProfile_DataDisks : list (option (option (option string)));
}.

Record VmProperties := mkVmProperties {
  Vm_TimeCreated : option Z;
  (** [NetworkProfile.NetworkInterfaces[i].ID] *)
  Vm_NetworkProfile : option (list (option (option string)));
  Vm_StorageProfile : option StorageProfile;
  Vm_OSProfile : option OSProfile;
  (** [DiagnosticsProfile.BootDiagnostics.Enabled] *)
  Vm_DiagnosticsProfile : option (option (option bool));
}.

Record arm_VirtualMachine := mkArmVirtualMachine {
  vm_arm : Arm;
  (** the [ID]s of the extensions in [Resources] *)
  vm_Resources : list (option (option string));
  vm_Properties : option VmProperties;
}.

Record DiskEncryption := mkDiskEncryption {
  DiskEncryption_Type : option string;
  DiskEncryption_DiskEncryptionSetID : option string;
}.

Record DiskProperties := mkDiskProperties {
  Disk_TimeCreated : option Z;
  Disk_Encryption : option DiskEncryption;
}.

Record Disk := mkDisk { disk_arm : Arm; disk_Properties : option DiskProperties }.

(** [Properties.ActiveKey.KeyURL] *)
Record DiskEncryptionSet := mkDiskEncryptionSet { des_Properties : option (option (option string)) }.

(** *** armappservice *)
Record SiteProperties := mkSiteProperties {
  Site_ResourceGroup : option string;
  Site_VirtualNetworkSubnetID : option string;
  Site_PublicNetworkAccess : option string;
  Site_RedundancyMode : option string;
  Site_HTTPSOnly : option bool;
  (** [SiteConfig.LinuxFxVersion] *)
  Site_SiteConfig : option (option string);
}.

Record Site := mkSite { site_arm : Arm; site_Kind : option string; site_Properties : option SiteProperties }.

Record SiteConfig := mkSiteConfig {
  Config_JavaVersion : option string;
  Config_NodeVersion : option string;
  Config_PowerShellVersion : option string;
  Config_PhpVersion : option string;
  Config_PythonVersion : option string;
  Config_JavaContainer : option string;
  Config_NetFrameworkVersion : option string;
  Config_MinTLSVersion : option string;
  Config_MinTLSCipherSuite : option string;
}.

(** [WebAppsClientGetConfigurationResponse]; [None] is its zero value, and the
    inner option is the pointer [Properties]. *)
Definition GetConfigurationResponse : Type := option (option SiteConfig).

(** *** armnetwork *)
Record arm_Interface := mkArmInterface {
  interface_arm : Arm;
  (** [Properties.NetworkSecurityGroup.ID] *)
  interface_Properties : option (option (option string));
}.

(** [Properties.SecurityRules], of which only the number is used *)
Record SecurityGroup := mkSecurityGroup { nsg_Properties : option (list unit) }.

Record LoadBalancerProperties := mkLoadBalancerProperties {
  (** [LoadBalancingRules[i].Properties.FrontendPort] *)
  Lb_LoadBalancingRules : list (option (option (option Z)));
  (** [FrontendIPConfigurations[i].Properties.PublicIPAddress.Properties.IPAddress] *)
  Lb_FrontendIPConfigurations : option (list (option (option (option (option (option string))))));
}.

Record arm_LoadBalancer := mkArmLoadBalancer { lb_arm : Arm; lb_Properties : option LoadBalancerProperties }.

(** [Properties.WebApplicationFirewallConfiguration.Enabled] *)
Record ApplicationGateway := mkApplicationGateway { ag_arm : Arm; ag_Properties : option (option (option bool)) }.

(** *** armdataprotection *)
Record BackupVault := mkBackupVault { vault_ID : option string; vault_Name : option string; vault_Location : option string }.

Record DataSourceInfo := mkDataSourceInfo {
  DataSourceInfo_DatasourceType : option string;
  DataSourceInfo_ResourceID : option string;
}.

Record InstanceProperties := mkInstanceProperties {
  Instance_DataSourceInfo : option DataSourceInfo;
  (** [PolicyInfo.PolicyID] *)
  Instance_PolicyInfo : option (option string);
}.

Record BackupInstance := mkBackupInstance {
  instance_ID : option string;
  instance_Name : option string;
  instance_Properties : option InstanceProperties;
}.

(** The [DeleteAfter] of a lifecycle, by its dynamic type. *)
Inductive DeleteOption := AbsoluteDeleteOption (duration : option string) | OtherDeleteOption.
(** The rules of a policy, by their dynamic type; a retention rule has lifecycles. *)
Inductive PolicyRule := AzureRetentionRule (lifecycles : list (option DeleteOption)) | OtherPolicyRule.
(** The [Properties] of a policy, by their dynamic type. *)
Inductive PolicyProperties := BackupPolicy (rules : list PolicyRule) | OtherPolicyProperties.
Record BackupPolicyResource := mkBackupPolicyResource { policy_Properties : PolicyProperties }.

(** ** Values handed to [discovery.Raw] *)
Inductive AzureObject :=
| OAccount (a : StorageAccount) | OFileShare (f : FileShareItem) | OContainer (c : ListContainerItem)
| OServer (s : SqlServer) | ODatabase (d : SqlDatabase) | OCosmos (c : CosmosAccount) | OMongo (m : MongoDatabase)
| OVirtualMachine (v : arm_VirtualMachine) | ODisk (d : Disk) | ODiskEncryptionSet (d : option DiskEncryptionSet)
| OSite (s : Site) | OSiteConfig (c : GetConfigurationResponse)
| OInterface (i : arm_Interface) | OLoadBalancer (l : arm_LoadBalancer) | OGateway (g : ApplicationGateway)
| OInstance (i : BackupInstance) | OVault (v : BackupVault).

(** ** The clients *)

Inductive client :=
| blobContainerClient | fileStorageClient | accountsClient
| databasesClient | sqlServersClient | threatProtectionClient | cosmosDBClient | mongoDBResourcesClient
| networkInterfacesClient | loadBalancerClient | applicationGatewayClient | networkSecurityGroupsClient
| webAppsClient
| virtualMachinesClient | blockStorageClient | diskEncSetClient
| defenderClient
| backupPoliciesClient | backupVaultClient | backupInstancesClient
| rgClient.

#[global] Instance client_eq_dec : EqDecision client.
Proof. solve_decision. Defined.

(** The answers of the [NextPage] calls of a pager. *)
Definition Pager (A : Type) : Type := list (res A).

(** A page of a list call: its [Value]. *)
Record ListResponse (T : Type) := mkListResponse { lr_Value : list (option T) }.
Arguments mkListResponse {T}.
Arguments lr_Value {T}.

(** A client with a pager over everything and one over a resource group. *)
Record Lister (T : Type) := mkLister {
  NewListAllPager : nat -> Pager (ListResponse T);
  NewListByResourceGroupPager : string -> nat -> Pager (ListResponse T);
}.
Arguments mkLister {T}.
Arguments NewListAllPager {T}.
Arguments NewListByResourceGroupPager {T}.

Class AzureSdk := {
  (** [armsubscription.NewSubscriptionsClient] and its list pager *)
  az_NewSubscriptionsClient : nat -> option error;
  az_Subscriptions : nat -> Pager (ListResponse Subscription);
  (** the [New...Client] functions: [None] is success *)
  az_NewClient : client -> string -> nat -> option error;
  (** [%T] of a pointer to the client's type *)
  az_client_type : client -> string;
  az_ResourceGroups : nat -> Pager (ListResponse arm_ResourceGroup);
  az_Pricings : nat -> res (list (option Pricing));
  az_Accounts : Lister StorageAccount;
  az_FileShares : string -> string -> nat -> Pager (ListResponse FileShareItem);
  az_BlobContainers : string -> string -> nat -> Pager (ListResponse ListContainerItem);
  az_SqlServers : Lister SqlServer;
  az_Databases : string -> string -> nat -> Pager (ListResponse SqlDatabase);
  az_ThreatProtection : string -> string -> string -> nat -> Pager (ListResponse ThreatProtection);
  az_CosmosAccounts : Lister CosmosAccount;
  az_MongoDatabases : string -> string -> nat -> Pager (ListResponse MongoDatabase);
  az_VirtualMachines : Lister arm_VirtualMachine;
  az_Disks : Lister Disk;
  az_DiskEncryptionSet : string -> string -> nat -> res DiskEncryptionSet;
  az_Sites : Lister Site;
  (** the answer together with an error, as the caller uses both *)
  az_SiteConfiguration : string -> string -> nat -> GetConfigurationResponse * option error;
  az_ApplicationSettings : string -> string -> nat -> res (gmap string (option string));
  az_Interfaces : Lister arm_Interface;
  az_LoadBalancers : Lister arm_LoadBalancer;
  az_ApplicationGateways : Lister ApplicationGateway;
  az_SecurityGroup : string -> string -> nat -> res SecurityGroup;
  az_BackupVaults : Lister BackupVault;
  az_BackupInstances : string -> string -> nat -> Pager (ListResponse BackupInstance);
  az_BackupPolicy : string -> string -> string -> nat -> res BackupPolicyResource;
}.
