(* ===== verification/Azure.v ===== *)
(** service/discovery/azure: azure.go (state, authorization, paging, Defender),
    azure_properties.go (identifiers, TLS, retention), azure_clients.go (lazy
    clients) and backup_*.go (backup vaults).

    The discoverer is the service record of a [World]; its calls of the SDK go
    through [AzureSdk].  Calling a client that was not created panics, as the nil
    pointer does. *)

From Stdlib Require Import Ascii.
From S2P Require Import Prelude GoRuntime GoStrings Util GoText Api Pagination OntologyMessages AzureSdk.

(** ** azure.go: constants and state *)

Definition DefenderStorageType : string := "StorageAccounts".
Definition DefenderVirtualMachineType : string := "VirtualMachines".
Definition DataSourceTypeDisc : string := "Microsoft.Compute/disks".
Definition DataSourceTypeStorageAccountObject : string := "Microsoft.Storage/storageAccounts/blobServices".

(** [time.Hour] *)
Definition time_Hour : Z := 3600 * 1000000000.
Definition Duration30Days : Z := 30 * time_Hour * 24.
Definition RetentionPeriod90Days : Z := 90 * time_Hour * 24.

Definition constants_TLS : string := "TLS".
Definition constants_AES256 : string := "AES256".

Definition ErrCouldNotAuthenticate : error := EText "could not authenticate to Azure".
Definition ErrCouldNotGetSubscriptions : error := EText "could not get azure subscription".
Definition ErrNoCredentialsConfigured : error := EText "no credentials were configured".
Definition ErrGettingNextPage : error := EText "error getting next page".
Definition ErrVaultInstanceIsEmpty : error := EText "vault and/or instance is nil".

Record defenderProperties := mkDefenderProperties {
  monitoringLogDataEnabled : bool;
  securityAlertsEnabled : bool;
}.

Record backup := mkBackupEntry {
  backup_backup : gmap string (list Backup);
  (** a resource of another kind is a nil element *)
  backup_backupStorages : list (option Ontology);
}.

Record azureDiscovery := mkAzureDiscovery {
  isAuthorized : bool;
  az_sub : option Subscription;
  (** whether a credential is set *)
  az_cred : bool;
  az_rg : option string;
  az_clients : list client;
  az_csID : string;
  az_backupMap : gmap string backup;
  az_defender : gmap string defenderProperties;
  (** [clientOptions.Transport], through which the clients send *)
  az_transport : option nat;
}.

Definition set_authorized (sub : Subscription) (d : azureDiscovery) : azureDiscovery :=
  mkAzureDiscovery true (Some sub) (az_cred d) (az_rg d) (az_clients d) (az_csID d) (az_backupMap d) (az_defender d) (az_transport d).
Definition set_clients (l : list client) (d : azureDiscovery) : azureDiscovery :=
  mkAzureDiscovery (isAuthorized d) (az_sub d) (az_cred d) (az_rg d) l (az_csID d) (az_backupMap d) (az_defender d) (az_transport d).
Definition set_backupMap (m : gmap string backup) (d : azureDiscovery) : azureDiscovery :=
  mkAzureDiscovery (isAuthorized d) (az_sub d) (az_cred d) (az_rg d) (az_clients d) (az_csID d) m (az_defender d) (az_transport d).
Definition set_defender (m : gmap string defenderProperties) (d : azureDiscovery) : azureDiscovery :=
  mkAzureDiscovery (isAuthorized d) (az_sub d) (az_cred d) (az_rg d) (az_clients d) (az_csID d) (az_backupMap d) m (az_transport d).

(** [DiscoveryOption]s *)
Definition azure_WithSender (sender : nat) (d : azureDiscovery) : azureDiscovery :=
  mkAzureDiscovery (isAuthorized d) (az_sub d) (az_cred d) (az_rg d) (az_clients d) (az_csID d) (az_backupMap d) (az_defender d) (Some sender).
Definition azure_WithAuthorizer (d : azureDiscovery) : azureDiscovery :=
  mkAzureDiscovery (isAuthorized d) (az_sub d) true (az_rg d) (az_clients d) (az_csID d) (az_backupMap d) (az_defender d) (az_transport d).
Definition azure_WithCloudServiceID (csID : string) (d : azureDiscovery) : azureDiscovery :=
  mkAzureDiscovery (isAuthorized d) (az_sub d) (az_cred d) (az_rg d) (az_clients d) csID (az_backupMap d) (az_defender d) (az_transport d).
Definition azure_WithResourceGroup (rg : string) (d : azureDiscovery) : azureDiscovery :=
  mkAzureDiscovery (isAuthorized d) (az_sub d) (az_cred d) (Some rg) (az_clients d) (az_csID d) (az_backupMap d) (az_defender d) (az_transport d).

Definition DefaultCloudServiceID : string := "00000000-0000-0000-0000-000000000000".

Definition NewAzureDiscovery (opts : list (azureDiscovery -> azureDiscovery)) : azureDiscovery :=
  foldl (fun d opt => opt d) (mkAzureDiscovery false None false None [] DefaultCloudServiceID ∅ ∅ None) opts.

Definition azure_Name (d : azureDiscovery) : string := "Azure".
Definition azure_Description (d : azureDiscovery) : string := "Discovery Azure.".
Definition azure_CloudServiceID (d : azureDiscovery) : string := az_csID d.

(** [cred] is the answer of [azidentity.NewDefaultAzureCredential(nil)]. *)
Definition NewAuthorizer {W C} (cred : Go W (res C)) : Go W (res C) :=
  cred <-? cred ! EWrap (Error ErrCouldNotAuthenticate) ;;
  gok cred.

(** ** azure_properties.go *)

(** [l[i]] *)
Definition gindex {W A} (l : list A) (i : nat) : Go W A := gderef (l !! i).

Definition getName {W} (id : string) : Go W string :=
  if bool_decide (id = "") then gret "" else gindex (strings_Split id "/") 8.

Definition resourceID (id : option string) : string :=
  match id with None => "" | Some id => strings_ToLower id end.

Definition resourceID2 (id : option string) : option string :=
  match id with None => None | Some id => Some (strings_ToLower id) end.

Definition accountName {W} (id : string) : Go W string :=
  if bool_decide (id = "") then gret "" else gindex (strings_Split id "/") 8.

Definition tlsVersion (version : option string) : Z :=
  match version with
  | None => 0
  | Some v =>
      if slices_Contains ["1.0"; "1_0"; "TLS1_0"] v then 10
      else if slices_Contains ["1.1"; "1_1"; "TLS1_1"] v then 11
      else if slices_Contains ["1.2"; "1_2"; "TLS1_2"] v then 12
      else if slices_Contains ["1.3"; "1_3"] v then 13
      else 0
  end.

(** From the label [cipher:] on, with [i] the index before the increment and
    [kex], [auth] what was found so far.  [None] is the label [invalid:]. *)
Definition cipher_from {W} (parts : list string) (i : nat) (kex auth : string) : Go W (option (list CipherSuite)) :=
  let i := S i in
  p <- gindex parts i ;;
  if bool_decide (p <> "AES") then gret None else
  let session := p in
  let i := S i in
  p <- gindex parts i ;;
  if negb (slices_Contains ["128"; "256"] p) then gret None else
  let session := session +:+ "-" +:+ p in
  let i := S i in
  p <- gindex parts i ;;
  if negb (slices_Contains ["CBC"; "GCM"] p) then gret None else
  let session := session +:+ "-" +:+ p in
  let i := S i in
  p <- gindex parts i ;;
  if bool_decide (p = "SHA256") then gret (Some [mkCipherSuite kex auth session "SHA-256"])
  else if bool_decide (p = "SHA384") then gret (Some [mkCipherSuite kex auth session "SHA-384"])
  else gret None.

Definition tlsCipherSuites {W} (cs : string) : Go W (option (list CipherSuite)) :=
  let parts := strings_Split cs "_" in
  p <- gindex parts 0 ;;
  if bool_decide (p <> "TLS") then gret None else
  p <- gindex parts 1 ;;
  if bool_decide (p <> "ECDHE") then cipher_from parts 0 "" "" else
  let kex := p in
  p <- gindex parts 2 ;;
  if negb (slices_Contains ["RSA"; "ECDSA"] p) then gret None else
  let auth := p in
  p <- gindex parts 3 ;;
  if bool_decide (p <> "WITH") then gret None else
  cipher_from parts 3 kex auth.

Definition generalizeURL {W} (url : string) : Go W string :=
  if bool_decide (url = "") then gret ""
  else
    let urlSplit := strings_Split url "." in
    _ <- gindex urlSplit 1 ;;
    gret (strings_Join (<[1 := "[file,blob]"]> urlSplit) ".").

Definition resourceGroupName {W} (id : string) : Go W string := gindex (strings_Split id "/") 4.

Definition resourceGroupID (ID : option string) : option string :=
  match ID with
  | None => None
  | Some id =>
      let s := strings_Split id "/" in
      if bool_decide (length s < 5) then None
      else Some (strings_ToLower (strings_Join (take 5 s) "/"))
  end.

(** A retention such as "P30D", in nanoseconds; [retention[1 : len-1]] panics for a
    single byte.  The product of int64 values wraps. *)
Definition retentionDuration {W} (retention : string) : Go W Z :=
  if bool_decide (retention = "") then gret 0%Z
  else if bool_decide (String.length retention < 2) then gpanic
  else
    let r := str_take (String.length retention - 2) (str_drop 1 retention) in
    match strconv_Atoi r with
    | Err _ => gret 0%Z
    | OK d => gret (wrap64 (wrap64 (d * time_Hour) * 24))
    end.

Definition labels (tags : gmap string (option string)) : gmap string string := (fun t => Deref t) <$> tags.

Definition creationTime (t : option Z) : option Z := match t with None => None | Some t => Some t end.

Definition location (region : option string) : option GeoLocation :=
  match region with None => None | Some _ => Some (mkGeoLocation (Deref region)) end.

(** ** backup_properties.go *)

Definition backupsEmptyCheck (backups : list Backup) : list Backup :=
  if bool_decide (length backups = 0) then [mkBackup false None None None] else backups.

Definition backupPolicyName {W} (id : string) : Go W string :=
  let s := strings_Split id "/" in
  if bool_decide (length s < 10) then gret "" else gindex s 10.

(** ** Running against the SDK *)

Section Discovery.
Context {DB T : Type} `{AzureSdk, RawLibrary AzureObject}.
Abbreviation W := (World DB azureDiscovery T).

(** ** azure_clients.go *)

Definition initClient (c : client) : Go W (option error) :=
  clients <- svc_read az_clients ;;
  if bool_decide (c ∈ clients) then gret None
  else
    sub <- svc_read az_sub ;;
    let subID := match sub with Some s => Deref (Subscription_SubscriptionID s) | None => "" end in
    e <- remote (az_NewClient c subID) ;;
    match e with
    | Some e => gret (Some (EWrap ("could not get " +:+ az_client_type c +:+ " client") e))
    | None => svc_modify (fun d => set_clients (c :: az_clients d) d) ;;; gret None
    end.

Definition initAccountsClient := initClient accountsClient.
Definition initApplicationGatewayClient := initClient applicationGatewayClient.
Definition initBackupInstancesClient := initClient backupInstancesClient.
Definition initBackupPoliciesClient := initClient backupPoliciesClient.
Definition initBackupVaultsClient := initClient backupVaultClient.
Definition initBlobContainerClient := initClient blobContainerClient.
Definition initBlockStoragesClient := initClient blockStorageClient.
Definition initCosmosDBClient := initClient cosmosDBClient.
Definition initMongoDResourcesBClient := initClient mongoDBResourcesClient.
Definition initDatabasesClient := initClient databasesClient.
Definition initDefenderClient := initClient defenderClient.
Definition initDiskEncryptonSetClient := initClient diskEncSetClient.
Definition initFileStorageClient := initClient fileStorageClient.
Definition initLoadBalancersClient := initClient loadBalancerClient.
Definition initNetworkInterfacesClient := initClient networkInterfacesClient.
Definition initNetworkSecurityGroupClient := initClient networkSecurityGroupsClient.
Definition initResourceGroupsClient := initClient rgClient.
Definition initSQLServersClient := initClient sqlServersClient.
Definition initThreatProtectionClient := initClient threatProtectionClient.
Definition initVirtualMachinesClient := initClient virtualMachinesClient.
Definition initWebAppsClient := initClient webAppsClient.

(** [if err := init(); err != nil { return nil, err }] *)
Definition ginit {A} (init : Go W (option error)) (k : Go W (res A)) : Go W (res A) :=
  e <- init ;; match e with Some e => gerr e | None => k end.

(** A call of a client's method. *)
Definition client_call {A} (c : client) (answer : nat -> A) : Go W A :=
  clients <- svc_read az_clients ;;
  if bool_decide (c ∈ clients) then remote answer else gpanic.

(** ** Paging *)

(** [allPages]: [acc] are the local variables the callback captures. *)
Fixpoint allPages {A L} (pager : Pager A) (callback : A -> L -> Go W (L * option error)) (acc : L)
  : Go W (L * option error) :=
  match pager with
  | [] => gret (acc, None)
  | Err e :: _ => gret (acc, Some (EWrap (Error ErrGettingNextPage) e))
  | OK page :: pager =>
      r <- callback page acc ;;
      match r with
      | (acc, Some e) => gret (acc, Some e)
      | (acc, None) => allPages pager callback acc
      end
  end.

(** The loop over the values of a page. *)
Fixpoint each_value {A L} (values : list A) (callback : A -> L -> Go W (L * option error)) (acc : L)
  : Go W (L * option error) :=
  match values with
  | [] => gret (acc, None)
  | v :: values =>
      r <- callback v acc ;;
      match r with
      | (acc, Some e) => gret (acc, Some e)
      | (acc, None) => each_value values callback acc
      end
  end.

Definition listPager {R1 R2 A L} (c : client) (newListAllPager : nat -> Pager R1)
    (newListByResourceGroupPager : string -> nat -> Pager R2)
    (allPagerResponseToValues : R1 -> list (option A)) (allByResourceGroupPagerResponseToValues : R2 -> list (option A))
    (callback : option A -> L -> Go W (L * option error)) (acc : L) : Go W (L * option error) :=
  rg <- svc_read az_rg ;;
  match rg with
  | None =>
      pager <- client_call c newListAllPager ;;
      allPages pager (fun page => each_value (allPagerResponseToValues page) callback) acc
  | Some rg =>
      pager <- client_call c (newListByResourceGroupPager rg) ;;
      allPages pager (fun page => each_value (allByResourceGroupPagerResponseToValues page) callback) acc
  end.

(** The way every discovery of one resource type uses it: what the callback
    returns for a value is appended, an error ends the listing with nothing. *)
Definition list_resources {A} (c : client) (l : Lister A) (callback : option A -> Go W (res (list Ontology)))
  : Go W (res (list Ontology)) :=
  r <- listPager c (NewListAllPager l) (NewListByResourceGroupPager l) lr_Value lr_Value
         (fun v list => x <- callback v ;;
                        match x with Err e => gret (list, Some e) | OK rs => gret (list ++ rs, None) end) [] ;;
  match r with (_, Some e) => gerr e | (list, None) => gok list end.

(** A loop over the pages of a pager that ends with the given error. *)
Fixpoint pages_of {A B} (pager : Pager (ListResponse A)) (wrap : error -> error) (callback : option A -> Go W (res B))
    (acc : list B) : Go W (list B * option error) :=
  match pager with
  | [] => gret (acc, None)
  | Err e :: _ => gret (acc, Some (wrap e))
  | OK page :: pager =>
      r <- each_value (lr_Value page)
             (fun v acc => x <- callback v ;;
                match x with Err e => gret (acc, Some e) | OK b => gret (acc ++ [b], None) end) acc ;;
      match r with (acc, Some e) => gret (acc, Some e) | (acc, None) => pages_of pager wrap callback acc end
  end.

(** [fmt.Errorf("%s: %v", ErrGettingNextPage, err)] *)
Definition next_page_error (e : error) : error := EText (Error ErrGettingNextPage +:+ ": " +:+ Error e).

(** ** azure.go: authorization and Defender *)

(** The loop over the pages of subscriptions. *)
Fixpoint collect_subscriptions (pager : Pager (ListResponse Subscription)) (subs : list (option Subscription))
  : res (list (option Subscription)) :=
  match pager with
  | [] => OK subs
  | Err e :: _ => Err (EWrap (Error ErrCouldNotGetSubscriptions) e)
  | OK page :: pager => collect_subscriptions pager (subs ++ lr_Value page)
  end.

Definition authorize : Go W (option error) :=
  authorized <- svc_read isAuthorized ;;
  if authorized : bool then gret None else
  cred <- svc_read az_cred ;;
  if negb cred then gret (Some ErrNoCredentialsConfigured) else
  e <- remote az_NewSubscriptionsClient ;;
  match e with
  | Some e => gret (Some (EWrap "could not get new subscription client" e))
  | None =>
      pager <- remote az_Subscriptions ;;
      match collect_subscriptions pager [] with
      | Err e => gret (Some e)
      | OK [] => gret (Some (EText "list of subscriptions is empty"))
      | OK (sub :: _) =>
          sub <- gderef sub ;;
          _ <- gderef (Subscription_SubscriptionID sub) ;;
          svc_modify (set_authorized sub) ;;;
          gret None
      end
  end.

(** The loop over the pricings; an element or its properties may be nil. *)
Fixpoint defender_of (l : list (option Pricing)) (pricings : gmap string defenderProperties)
  : Go W (gmap string defenderProperties) :=
  match l with
  | [] => gret pricings
  | elem :: l =>
      elem <- gderef elem ;;
      tier <- gderef (Pricing_Properties elem) ;;
      let p := if bool_decide (Deref tier = "Free") then mkDefenderProperties false false
               else mkDefenderProperties true true in
      defender_of l (<[Deref (Pricing_Name elem) := p]> pricings)
  end.

Definition discoverDefender : Go W (res (gmap string defenderProperties)) :=
  ginit initDefenderClient (
    l <- client_call defenderClient az_Pricings ;;
    match l with
    | Err _ => gerr (EText "could not discover pricings")
    | OK l => m <- defender_of l ∅ ;; gok m
    end).

(** ** backup_handle.go *)

Definition handleInstances (vault : option BackupVault) (instance : option BackupInstance)
  : Go W (res (option Ontology)) :=
  match vault, instance with
  | Some vault, Some instance =>
      props <- gderef (instance_Properties instance) ;;
      info <- gderef (Instance_DataSourceInfo props) ;;
      typ <- gderef (DataSourceInfo_DatasourceType info) ;;
      let common := mkCommon (resourceID (instance_ID instance)) (Deref (instance_Name instance)) None
                      (location (vault_Location vault)) ∅ (resourceGroupID (instance_ID instance))
                      (Raw [OInstance instance; OVault vault]) in
      if bool_decide (typ = "Microsoft.Storage/storageAccounts/blobServices")
      then gok (Some (ObjectStorage common None None None [] false))
      else if bool_decide (typ = "Microsoft.Compute/disks")
      then gok (Some (BlockStorage common None []))
      else gok None
  | _, _ => gerr ErrVaultInstanceIsEmpty
  end.

(** ** backup_discover.go *)

(** The loop over the pages: [list] is overwritten by each page. *)
Fixpoint last_page {A} (pager : Pager (ListResponse A)) (list : list (option A)) : res (Datatypes.list (option A)) :=
  match pager with
  | [] => OK list
  | Err e :: _ => Err (next_page_error e)
  | OK page :: pager => last_page pager (lr_Value page)
  end.

Definition discoverBackupInstances (resourceGroup vaultName : string) : Go W (res (list (option BackupInstance))) :=
  require (negb (bool_decide (resourceGroup = "") || bool_decide (vaultName = "")))
    else EText "missing resource group and/or vault name" ;;
  pager <- client_call backupInstancesClient (az_BackupInstances resourceGroup vaultName) ;;
  gret (last_page pager []).

(** The chain of type assertions from the policy's properties over its first rule
    and first lifecycle to the duration: every failed assertion, missing element
    and nil pointer panics. *)
Definition policy_retention (policy : BackupPolicyResource) : Go W (option string) :=
  match policy_Properties policy with
  | OtherPolicyProperties => gpanic
  | BackupPolicy rules =>
      rule <- gindex rules 0 ;;
      match rule with
      | OtherPolicyRule => gpanic
      | AzureRetentionRule lifecycles =>
          lifecycle <- gindex lifecycles 0 ;;
          delete <- gderef lifecycle ;;
          match delete with OtherDeleteOption => gpanic | AbsoluteDeleteOption duration => gret duration end
      end
  end.

(** The backup recorded for a data source. *)
Definition recorded_backup (retention : Z) (instance : BackupInstance) : Backup :=
  mkBackup true (Some retention) (instance_ID instance)
    (Some (mkTransportEncryption true true constants_TLS 12 [])).

(** [d.backupMap[typ].backup[id] = ...; d.backupMap[typ].backupStorages = append(...)] *)
Definition record_backup (typ id : string) (b : Backup) (storage : option Ontology) (d : azureDiscovery) : azureDiscovery :=
  let entry := default (mkBackupEntry ∅ []) (az_backupMap d !! typ) in
  set_backupMap (<[typ := mkBackupEntry (<[id := [b]]> (backup_backup entry))
                            (backup_backupStorages entry ++ [storage])]> (az_backupMap d)) d.

(** The loop over the instances of a vault. *)
Fixpoint handle_vault_instances (vault : BackupVault) (instances : list (option BackupInstance)) : Go W (option error) :=
  match instances with
  | [] => gret None
  | instance :: instances =>
      inst <- gderef instance ;;
      props <- gderef (instance_Properties inst) ;;
      info <- gderef (Instance_DataSourceInfo props) ;;
      let dataSourceType := Deref (DataSourceInfo_DatasourceType info) in
      vaultID <- gderef (vault_ID vault) ;;
      rg <- resourceGroupName vaultID ;;
      vaultName <- gderef (vault_Name vault) ;;
      policyInfo <- gderef (Instance_PolicyInfo props) ;;
      policyID <- gderef policyInfo ;;
      policyName <- backupPolicyName policyID ;;
      policy <- client_call backupPoliciesClient (az_BackupPolicy rg vaultName policyName) ;;
      match policy with
      | Err _ => handle_vault_instances vault instances
      | OK policy =>
          retention <- policy_retention policy ;;
          resp <- handleInstances (Some vault) instance ;;
          match resp with
          | Err _ => gret (Some (EText "could not handle instance"))
          | OK resp =>
              retention <- retentionDuration (Deref retention) ;;
              svc_modify (record_backup dataSourceType (Deref (DataSourceInfo_ResourceID info))
                            (recorded_backup retention inst) resp) ;;;
              handle_vault_instances vault instances
          end
      end
  end.

Definition discoverBackupVaults : Go W (option error) :=
  m <- svc_read az_backupMap ;;
  if bool_decide (0 < size m) then gret None else
  e <- initBackupVaultsClient ;;
  match e with Some e => gret (Some e) | None =>
  e <- initBackupInstancesClient ;;
  match e with Some e => gret (Some e) | None =>
  e <- initBackupPoliciesClient ;;
  match e with Some e => gret (Some e) | None =>
  r <- listPager backupVaultClient (NewListAllPager az_BackupVaults) (NewListByResourceGroupPager az_BackupVaults)
         lr_Value lr_Value
         (fun vault (u : unit) =>
            vault <- gderef vault ;;
            rg <- resourceGroupName (Deref (vault_ID vault)) ;;
            instances <- discoverBackupInstances rg (Deref (vault_Name vault)) ;;
            match instances with
            | Err e => gret (u, Some (EText ("could not discover backup instances: " +:+ Error e)))
            | OK instances => e <- handle_vault_instances vault instances ;; gret (u, e)
            end) tt ;;
  gret (snd r)
  end end end.
End Discovery.
