(* ===== verification/AzureResources.v ===== *)
(** service/discovery/azure: the discovery of resource groups, storage, databases,
    compute and network resources (the [*_discover.go], [*_handle.go] and
    [*_properties.go] files), and [List] of azure.go. *)

From Stdlib Require Import Ascii.
From S2P Require Import Prelude GoRuntime GoStrings Util GoText Api Pagination OntologyMessages AzureSdk Azure.

Definition ErrEmptyStorageAccount : error := EText "storage account is empty".
Definition ErrEmptyVirtualMachine : error := EText "virtual machine is empty".
Definition ErrMissingDiskEncryptionSetID : error := EText "no disk encryption set ID was specified".

(** A literal [&ontology.GeoLocation{Region: util.Deref(l)}]. *)
Definition region_of (l : option string) : option GeoLocation := Some (mkGeoLocation (Deref l)).

(** ** compute_properties.go *)

Definition diskEncryptionSetName {W} (diskEncryptionSetID : string) : Go W string :=
  if bool_decide (diskEncryptionSetID = "") then gret "" else gindex (strings_Split diskEncryptionSetID "/") 8.

Definition getVirtualNetworkSubnetId {W} (site : option Site) : Go W (list string) :=
  match site with
  | None => gret []
  | Some site =>
      props <- gderef (site_Properties site) ;;
      match Site_VirtualNetworkSubnetID props with
      | Some id => gret [resourceID (Some id)]
      | None => gret []
      end
  end.

Definition getInternetAccessibleEndpoint {W} (site : option Site) : Go W bool :=
  match site with
  | None => gret false
  | Some site =>
      props <- gderef (site_Properties site) ;;
      gret (bool_decide (Deref (Site_PublicNetworkAccess props) = "Enabled"))
  end.

Definition getRedundancies {W} (app : Site) : Go W (list Redundancy) :=
  props <- gderef (site_Properties app) ;;
  let mode := Deref (Site_RedundancyMode props) in
  if bool_decide (mode = "None") then gret []
  else if bool_decide (mode = "ActiveActive") then gret [ZoneRedundancy]
  else if slices_Contains ["Failover"; "GeoRedundant"] mode then gret [ZoneRedundancy; GeoRedundancy]
  else gret [].

Definition getTransportEncryption {W} (siteProperties : SiteProperties) (config : GetConfigurationResponse)
  : Go W TransportEncryption :=
  props <- gderef (match config with Some c => c | None => None end) ;;
  let version := tlsVersion (Config_MinTLSVersion props) in
  if bool_decide (version <> 0%Z) then
    suites <- tlsCipherSuites (Deref (Config_MinTLSCipherSuite props)) ;;
    gret (mkTransportEncryption true (Deref (Site_HTTPSOnly siteProperties)) constants_TLS version
            (match suites with Some l => l | None => [] end))
  else gret (mkTransportEncryption false (Deref (Site_HTTPSOnly siteProperties)) "" 0 []).

Definition runtimeInfo {W} (runtime : string) : Go W (string * string) :=
  if bool_decide (runtime = "") || negb (strings_Contains runtime "|") then gret ("", "")
  else
    let split := strings_Split runtime "|" in
    l <- gindex split 0 ;;
    v <- gindex split 1 ;;
    gret (l, v).

(** A condition [a && *p], which reads [p] only when [a] holds. *)
Definition and_deref {W} (a : bool) (p : option bool) : Go W bool :=
  if a then gderef p else gret false.

Definition automaticUpdates_ {W} (vm : option arm_VirtualMachine) : Go W AutomaticUpdates :=
  let off := mkAutomaticUpdates false None in
  let on := mkAutomaticUpdates true (Some Duration30Days) in
  match vm with
  | Some {| vm_Properties := Some {| Vm_OSProfile := Some profile |} |} =>
      let linux := match OSProfile_LinuxConfiguration profile with
                   | Some (Some mode) => bool_decide (Deref mode = "AutomaticByPlatform")
                   | _ => false end in
      if linux then gret on
      else match OSProfile_WindowsConfiguration profile with
           | Some {| Windows_PatchSettings := Some mode; Windows_EnableAutomaticUpdates := enabled |} =>
               a <- and_deref (bool_decide (Deref mode = "AutomaticByOS")) enabled ;;
               b <- (if a : bool then gret true
                     else and_deref (bool_decide (Deref mode = "AutomaticByPlatform")) enabled) ;;
               gret (if b : bool then on else off)
           | _ => gret off
           end
  | _ => gret off
  end.

Definition isBootDiagnosticEnabled (vm : option arm_VirtualMachine) : bool :=
  match vm with
  | Some {| vm_Properties := Some {| Vm_DiagnosticsProfile := Some (Some enabled) |} |} => Deref enabled
  | _ => false
  end.

Definition bootLogOutput (vm : option arm_VirtualMachine) : string :=
  if isBootDiagnosticEnabled vm then "" else "".

(** ** storage_properties.go *)

Definition storageAtRestEncryption {W} (account : option StorageAccount) : Go W (res (option AtRestEncryption)) :=
  match account with
  | None => gerr ErrEmptyStorageAccount
  | Some account =>
      match account_Properties account with
      | None => gerr (EText "keySource is empty")
      | Some props =>
          enc <- gderef (AccountProperties_Encryption props) ;;
          match Encryption_KeySource enc with
          | None => gerr (EText "keySource is empty")
          | Some source =>
              if bool_decide (source = "Microsoft.Storage") then gok (Some (ManagedKeyEncryption true constants_AES256))
              else if bool_decide (source = "Microsoft.Keyvault") then
                uri <- gderef (Encryption_KeyVaultProperties enc) ;;
                gok (Some (CustomerKeyEncryption true "" (Deref uri)))
              else gok None
          end
      end
  end.

(** ** network_properties.go *)

(** [uint32(v)] of an int32 *)
Definition uint32_of (z : Z) : Z := (z mod 2 ^ 32)%Z.

(** The loop over the rules. *)
Fixpoint ports_of {W} (rules : list (option (option (option Z)))) (ports : list Z) : Go W (list Z) :=
  match rules with
  | [] => gret ports
  | item :: rules =>
      item <- gderef item ;;
      port <- gderef item ;;
      ports_of rules (ports ++ [uint32_of (Deref port)])
  end.

Definition loadBalancerPorts {W} (lb : arm_LoadBalancer) : Go W (list Z) :=
  props <- gderef (lb_Properties lb) ;; ports_of (Lb_LoadBalancingRules props) [].

(** The loop over the frontend configurations. *)
Fixpoint ips_of {W} (configs : list (option (option (option (option (option string)))))) (ips : list string)
  : Go W (list string) :=
  match configs with
  | [] => gret ips
  | config :: configs =>
      config <- gderef config ;;
      props <- gderef config ;;
      match props with
      | Some (Some (Some ip)) =>
          if bool_decide (ip = "") then ips_of configs ips else ips_of configs (ips ++ [ip])
      | _ => ips_of configs ips
      end
  end.

Definition publicIPAddressFromLoadBalancer {W} (lb : option arm_LoadBalancer) : Go W (list string) :=
  match lb with
  | Some {| lb_Properties := Some {| Lb_FrontendIPConfigurations := Some configs |} |} => ips_of configs []
  | _ => gret []
  end.

Section Resources.
Context {DB T : Type} `{AzureSdk, RawLibrary AzureObject}.
Abbreviation W := (World DB azureDiscovery T).

(** ** resource_group_handle.go, resource_group_discover.go *)

Definition handleResourceGroup (rg : arm_ResourceGroup) : Go W Ontology :=
  sub <- svc_read az_sub ;;
  sub <- gderef sub ;;
  let a := rg_arm rg in
  gret (ResourceGroup (mkCommon (resourceID (arm_ID a)) (Deref (arm_Name a)) None (location (arm_Location a))
                         (labels (arm_Tags a)) (Subscription_ID sub) "")).

Definition handleSubscription (s : option Subscription) : Go W Ontology :=
  s <- gderef s ;;
  gret (Account (mkCommon (resourceID (Subscription_ID s)) (Deref (Subscription_DisplayName s)) None None ∅ None "")).

(** The loop over the pages of resource groups. *)
Fixpoint groups_of (rg : option string) (values : list (option arm_ResourceGroup)) (list : list Ontology)
  : Go W (Datatypes.list Ontology) :=
  match values with
  | [] => gret list
  | v :: values =>
      g <- gderef v ;;
      if match rg with Some rg => negb (strings_EqualFold (Deref (arm_Name (rg_arm g))) rg) | None => false end
      then groups_of rg values list
      else r <- handleResourceGroup g ;; groups_of rg values (list ++ [r])
  end.

Fixpoint group_pages (rg : option string) (pager : Pager (ListResponse arm_ResourceGroup)) (list : list Ontology)
  : Go W (res (Datatypes.list Ontology)) :=
  match pager with
  | [] => gok list
  | Err e :: _ => gerr (next_page_error e)
  | OK page :: pager => list <- groups_of rg (lr_Value page) list ;; group_pages rg pager list
  end.

Definition discoverResourceGroups : Go W (res (list Ontology)) :=
  ginit initResourceGroupsClient (
    sub <- svc_read az_sub ;;
    acc <- handleSubscription sub ;;
    pager <- client_call rgClient az_ResourceGroups ;;
    rg <- svc_read az_rg ;;
    group_pages rg pager [acc]).

(** ** storage_properties.go: threat protection *)

Fixpoint some_enabled (values : list (option ThreatProtection)) : Go W bool :=
  match values with
  | [] => gret false
  | v :: values =>
      v <- gderef v ;;
      state <- gderef (ThreatProtection_Properties v) ;;
      state <- gderef state ;;
      if bool_decide (state = "Enabled") then gret true else some_enabled values
  end.

Fixpoint protection_pages (pager : Pager (ListResponse ThreatProtection)) : Go W (res bool) :=
  match pager with
  | [] => gok false
  | Err e :: _ => gerr (next_page_error e)
  | OK page :: pager =>
      found <- some_enabled (lr_Value page) ;;
      if found : bool then gok true else protection_pages pager
  end.

(** An error comes with the value false. *)
Definition anomalyDetectionEnabled (server : SqlServer) (db : SqlDatabase) : Go W (res bool) :=
  ginit initThreatProtectionClient (
    rg <- resourceGroupName (Deref (arm_ID (database_arm db))) ;;
    serverName <- gderef (arm_Name (server_arm server)) ;;
    dbName <- gderef (arm_Name (database_arm db)) ;;
    pager <- client_call threatProtectionClient (az_ThreatProtection rg serverName dbName) ;;
    protection_pages pager).

(** ** storage_discover.go, storage_handle.go: databases *)

(** One value of [getSqlDBs]. *)
Definition handle_sql_database (server : SqlServer) (value : option SqlDatabase)
  : Go W (res (AnomalyDetection * Ontology)) :=
  value <- gderef value ;;
  let a := database_arm value in
  enabled <- anomalyDetectionEnabled server value ;;
  enabled <- match enabled with
             | OK b => gret b
             | Err _ => _ <- gderef (arm_Name a) ;; gret false
             end ;;
  let anomaly := mkAnomalyDetection (Deref (arm_ID a)) enabled in
  props <- gderef (database_Properties value) ;;
  infra <- gderef (DatabaseProperties_IsInfraEncryptionEnabled props) ;;
  gok (anomaly, DatabaseStorage
    (mkCommon (resourceID (arm_ID a)) (Deref (arm_Name a)) (creationTime (DatabaseProperties_CreationDate props))
       (location (arm_Location a)) (labels (arm_Tags a)) (resourceID2 (arm_ID (server_arm server))) (Raw [ODatabase value]))
    (Some (ManagedKeyEncryption infra constants_AES256))).

Definition getSqlDBs (server : SqlServer) : Go W (list Ontology * list AnomalyDetection) :=
  e <- initDatabasesClient ;;
  match e with
  | Some _ => gret ([], [])
  | None =>
      rg <- resourceGroupName (Deref (arm_ID (server_arm server))) ;;
      name <- gderef (arm_Name (server_arm server)) ;;
      pager <- client_call databasesClient (az_Databases rg name) ;;
      r <- pages_of pager id (handle_sql_database server) [] ;;
      gret (snd <$> fst r, fst <$> fst r)
  end.

Definition handleSqlServer (server : option SqlServer) : Go W (res (list Ontology)) :=
  server <- gderef server ;;
  dbs <- getSqlDBs server ;;
  let a := server_arm server in
  version <- gderef (server_Properties server) ;;
  let dbService := RelationalDatabaseService
    (mkCommon (resourceID (arm_ID a)) (Deref (arm_Name a)) None (location (arm_Location a)) (labels (arm_Tags a))
       (resourceGroupID (arm_ID a)) (Raw [OServer server]))
    (Some (mkTransportEncryption true true constants_TLS (tlsVersion version) [])) (snd dbs) in
  gok ([dbService] ++ fst dbs).

Definition discoverSqlServers : Go W (res (list Ontology)) :=
  ginit initSQLServersClient (
    list_resources sqlServersClient az_SqlServers (fun server =>
      db <-? handleSqlServer server ! EWrap "could not handle sql database" ;;
      s <- gderef server ;;
      _ <- gderef (arm_Name (server_arm s)) ;;
      gok db)).

Definition handle_mongo (account : CosmosAccount) (atRestEnc : AtRestEncryption) (value : option MongoDatabase)
  : Go W (res Ontology) :=
  value <- gderef value ;;
  let a := mongo_arm value in
  gok (DatabaseStorage
    (mkCommon (resourceID (arm_ID a)) (Deref (arm_Name a)) None (location (arm_Location a)) (labels (arm_Tags a))
       (resourceID2 (arm_ID (cosmos_arm account))) (Raw [OCosmos account; OMongo value]))
    (Some atRestEnc)).

Definition discoverMongoDBDatabases (account : CosmosAccount) (atRestEnc : AtRestEncryption) : Go W (list Ontology) :=
  e <- initMongoDResourcesBClient ;;
  match e with
  | Some _ => gret []
  | None =>
      rg <- resourceGroupName (Deref (arm_ID (cosmos_arm account))) ;;
      name <- gderef (arm_Name (cosmos_arm account)) ;;
      pager <- client_call mongoDBResourcesClient (az_MongoDatabases rg name) ;;
      r <- pages_of pager id (handle_mongo account atRestEnc) [] ;;
      gret (fst r)
  end.

Definition handleCosmosDB (account : option CosmosAccount) : Go W (res (list Ontology)) :=
  ginit initCosmosDBClient (
    account <- gderef account ;;
    keyUri <- gderef (cosmos_Properties account) ;;
    let atRestEnc := match keyUri with
                     | Some uri => CustomerKeyEncryption true "" (Deref (Some uri))
                     | None => ManagedKeyEncryption true constants_AES256
                     end in
    let a := cosmos_arm account in
    createdAt <- gderef (cosmos_SystemData account) ;;
    let dbService := DocumentDatabaseService
      (mkCommon (resourceID (arm_ID a)) (Deref (arm_Name a)) (creationTime createdAt) (location (arm_Location a))
         (labels (arm_Tags a)) (resourceGroupID (arm_ID a)) (Raw [OCosmos account])) in
    if bool_decide (Deref (cosmos_Kind account) = "MongoDB") then
      dbs <- discoverMongoDBDatabases account atRestEnc ;; gok ([dbService] ++ dbs)
    else gok [dbService]).

Definition discoverCosmosDB : Go W (res (list Ontology)) :=
  ginit initCosmosDBClient (
    list_resources cosmosDBClient az_CosmosAccounts (fun dbAccount =>
      cosmos <-? handleCosmosDB dbAccount ! EWrap "could not cosmos db accounts" ;;
      a <- gderef dbAccount ;;
      _ <- gderef (arm_Name (cosmos_arm a)) ;;
      gok cosmos)).

(** ** storage_discover.go, storage_handle.go: storage accounts *)

(** The monitoring flags of a storage: the entry of the storage accounts decides
    whether they are set, the entry of the virtual machines what they are. *)
Definition storage_defender : Go W (bool * bool) :=
  m <- svc_read az_defender ;;
  match m !! DefenderStorageType with
  | None => gret (false, false)
  | Some _ => p <- gderef (m !! DefenderVirtualMachineType) ;; gret (monitoringLogDataEnabled p, securityAlertsEnabled p)
  end.

(** The backups of a data source, by type and id. *)
Definition backups_of (typ id : string) : Go W (list Backup) :=
  m <- svc_read az_backupMap ;;
  gret (backupsEmptyCheck (match m !! typ with Some entry => default [] (backup_backup entry !! id) | None => [] end)).

Definition handleFileStorage (account : option StorageAccount) (fileshare : option FileShareItem) : Go W (res Ontology) :=
  match account, fileshare with
  | None, _ => gerr ErrEmptyStorageAccount
  | Some _, None | Some _, Some {| FileShareItem_ID := None |} => gerr (EText "fileshare is nil")
  | Some acc, Some share =>
      enc <-? storageAtRestEncryption account
        ! EWrap "could not get file storage properties for the atRestEncryption" ;;
      flags <- storage_defender ;;
      props <- gderef (account_Properties acc) ;;
      let a := account_arm acc in
      gok (FileStorage
        (mkCommon (resourceID (FileShareItem_ID share)) (Deref (FileShareItem_Name share))
           (creationTime (AccountProperties_CreationTime props)) (location (arm_Location a)) (labels (arm_Tags a))
           (resourceID2 (arm_ID a)) (Raw [OAccount acc; OFileShare share]))
        (Some (mkResourceLogging false (fst flags) (snd flags))) enc)
  end.

Definition handleObjectStorage (account : option StorageAccount) (container : option ListContainerItem)
  : Go W (res Ontology) :=
  match account, container with
  | None, _ => gerr ErrEmptyStorageAccount
  | Some _, None | Some _, Some {| ListContainerItem_ID := None |} => gerr (EText "container is nil")
  | Some acc, Some cont =>
      enc <-? storageAtRestEncryption account
        ! EWrap "could not get object storage properties for the atRestEncryption" ;;
      let a := account_arm acc in
      backups <- backups_of DataSourceTypeStorageAccountObject (Deref (arm_ID a)) ;;
      flags <- storage_defender ;;
      props <- gderef (account_Properties acc) ;;
      cprops <- gderef (ListContainerItem_Properties cont) ;;
      gok (ObjectStorage
        (mkCommon (resourceID (ListContainerItem_ID cont)) (Deref (ListContainerItem_Name cont))
           (creationTime (AccountProperties_CreationTime props)) (location (arm_Location a)) (labels (arm_Tags a))
           (resourceID2 (arm_ID a)) (Raw [OAccount acc; OContainer cont]))
        enc (Some (mkImmutability (Deref (ContainerProperties_HasImmutabilityPolicy cprops))))
        (Some (mkResourceLogging false (fst flags) (snd flags))) backups
        (bool_decide (Deref (ContainerProperties_PublicAccess cprops) <> "None")))
  end.

(** The loop that gathers the ids of an account's storages. *)
Fixpoint storage_ids (accountID : string) (storagesList : list Ontology) (ids : list string) : Go W (list string) :=
  match storagesList with
  | [] => gret ids
  | storage :: storagesList =>
      name <- accountName accountID ;;
      storage_ids accountID storagesList
        (if strings_Contains (GetId storage) name then ids ++ [GetId storage] else ids)
  end.

Definition handleStorageAccount (account : option StorageAccount) (storagesList : list Ontology) : Go W (res Ontology) :=
  match account with
  | None => gerr ErrEmptyStorageAccount
  | Some acc =>
      let a := account_arm acc in
      ids <- storage_ids (Deref (arm_ID a)) storagesList [] ;;
      props <- gderef (account_Properties acc) ;;
      let te := mkTransportEncryption true (Deref (AccountProperties_EnableHTTPSTrafficOnly props)) constants_TLS
                  (tlsVersion (AccountProperties_MinimumTLSVersion props)) [] in
      blob <- gderef (AccountProperties_PrimaryEndpoints props) ;;
      url <- generalizeURL (Deref blob) ;;
      gok (ObjectStorageService
        (mkCommon (resourceID (arm_ID a)) (Deref (arm_Name a)) (creationTime (AccountProperties_CreationTime props))
           (location (arm_Location a)) (labels (arm_Tags a)) (resourceGroupID (arm_ID a)) (Raw [OAccount acc]))
        ids (Some te) (Some (mkHttpEndpoint url (Some te))))
  end.

(** The end of a loop over the pages of a child resource: an error leaves nothing. *)
Definition all_or_nothing {A} (r : list A * option error) : res (list A) :=
  match r with (_, Some e) => Err e | (l, None) => OK l end.

Definition discoverFileStorages (account : option StorageAccount) : Go W (res (list Ontology)) :=
  acc <- gderef account ;;
  rg <- resourceGroupName (Deref (arm_ID (account_arm acc))) ;;
  pager <- client_call fileStorageClient (az_FileShares rg (Deref (arm_Name (account_arm acc)))) ;;
  r <- pages_of pager next_page_error
         (fun value => x <-? handleFileStorage account value ! EWrap "could not handle file storage" ;; gok x) [] ;;
  gret (all_or_nothing r).

Definition discoverObjectStorages (account : option StorageAccount) : Go W (res (list Ontology)) :=
  acc <- gderef account ;;
  rg <- resourceGroupName (Deref (arm_ID (account_arm acc))) ;;
  pager <- client_call blobContainerClient (az_BlobContainers rg (Deref (arm_Name (account_arm acc)))) ;;
  r <- pages_of pager next_page_error
         (fun value => x <-? handleObjectStorage account value ! EWrap "could not handle object storage" ;; gok x) [] ;;
  gret (all_or_nothing r).

(** The callback for one account; [list] is everything listed so far. *)
Definition list_account (account : option StorageAccount) (list : list Ontology)
  : Go W (Datatypes.list Ontology * option error) :=
  objects <- discoverObjectStorages account ;;
  match objects with
  | Err e => gret (list, Some (EWrap "could not handle object storages" e))
  | OK objects =>
      files <- discoverFileStorages account ;;
      match files with
      | Err e => gret (list, Some (EWrap "could not handle file storages" e))
      | OK files =>
          let list := list ++ objects ++ files in
          service <- handleStorageAccount account list ;;
          match service with
          | Err e => gret (list, Some (EWrap "could not create storage service" e))
          | OK service => gret (list ++ [service], None)
          end
      end
  end.

(** [d.backupMap[typ].backupStorages], if there are any. *)
Definition backup_storages (typ : string) : Go W (list (option Ontology)) :=
  m <- svc_read az_backupMap ;;
  gret (match m !! typ with Some entry => backup_backupStorages entry | None => [] end).

Definition discoverStorageAccounts : Go W (res (list (option Ontology))) :=
  ginit initBackupPoliciesClient (ginit initBackupInstancesClient (ginit initBackupVaultsClient (
  ginit initAccountsClient (ginit initBlobContainerClient (ginit initFileStorageClient (
    _ <- discoverBackupVaults ;;
    r <- listPager accountsClient (NewListAllPager az_Accounts) (NewListByResourceGroupPager az_Accounts)
           lr_Value lr_Value list_account [] ;;
    match r with
    | (_, Some e) => gerr e
    | (list, None) =>
        backups <- backup_storages DataSourceTypeStorageAccountObject ;;
        gok ((Some <$> list) ++ backups)
    end)))))).

(** ** compute_properties.go with the SDK *)

Definition keyURL (diskEncryptionSetID : string) : Go W (res (string * DiskEncryptionSet)) :=
  require (negb (bool_decide (diskEncryptionSetID = ""))) else ErrMissingDiskEncryptionSetID ;;
  ginit initDiskEncryptonSetClient (
    rg <- resourceGroupName diskEncryptionSetID ;;
    name <- diskEncryptionSetName diskEncryptionSetID ;;
    kv <-? client_call diskEncSetClient (az_DiskEncryptionSet rg name) ! EWrap "could not get key vault" ;;
    props <- gderef (des_Properties kv) ;;
    activeKey <- gderef props ;;
    match activeKey with
    | None => gerr (EText "could not get keyURL")
    | Some url => gok (url, kv)
    end).

Definition blockStorageAtRestEncryption (disk : option Disk)
  : Go W (res (option AtRestEncryption * option DiskEncryptionSet)) :=
  match disk with
  | None => gerr (EText "disk is empty")
  | Some disk =>
      props <- gderef (disk_Properties disk) ;;
      enc <- gderef (Disk_Encryption props) ;;
      match DiskEncryption_Type enc with
      | None => gerr (EText "error getting atRestEncryption properties of blockStorage")
      | Some typ =>
          if bool_decide (typ = "EncryptionAtRestWithPlatformKey") then
            gok (Some (ManagedKeyEncryption true "AES256"), None)
          else if bool_decide (typ = "EncryptionAtRestWithCustomerKey") then
            k <-? keyURL (Deref (DiskEncryption_DiskEncryptionSetID enc)) ! EWrap "could not get keyVaultID" ;;
            gok (Some (CustomerKeyEncryption true "" (fst k)), Some (snd k))
          else gok (None, None)
      end
  end.

Definition getResourceLoggingWebApps (site : option Site) : Go W ResourceLogging :=
  match site with
  | None => gret (mkResourceLogging false false false)
  | Some site =>
      props <- gderef (site_Properties site) ;;
      rg <- gderef (Site_ResourceGroup props) ;;
      name <- gderef (arm_Name (site_arm site)) ;;
      settings <- client_call webAppsClient (az_ApplicationSettings rg name) ;;
      match settings with
      | Err _ => gret (mkResourceLogging false false false)
      | OK m => gret (mkResourceLogging
                  (match m !! "APPLICATIONINSIGHTS_CONNECTION_STRING" with Some (Some _) => true | _ => false end)
                  false false)
      end
  end.

(** ** compute_handle.go *)

(** Whether one of the extensions is a monitoring agent. *)
Definition is_agent (id : string) : bool :=
  strings_Contains id "OmsAgentForLinux" || strings_Contains id "MicrosoftMonitoringAgent" ||
  strings_Contains id "AzureMonitoringWindowsAgent" || strings_Contains id "AzureMonitoringLinuxAgent".

Fixpoint has_agent (extensions : list (option (option string))) (found : bool) : Go W bool :=
  match extensions with
  | [] => gret found
  | extension :: extensions =>
      e <- gderef extension ;;
      id <- gderef e ;;
      has_agent extensions (if is_agent id then true else found)
  end.

(** [for _, x := range l { ids = append(ids, resourceID(x.ID)) }] *)
Fixpoint resource_ids (l : list (option (option string))) (ids : list string) : Go W (list string) :=
  match l with
  | [] => gret ids
  | x :: l => x <- gderef x ;; resource_ids l (ids ++ [resourceID x])
  end.

(** The same through the field [ManagedDisk]. *)
Fixpoint disk_ids (l : list (option (option (option string)))) (ids : list string) : Go W (list string) :=
  match l with
  | [] => gret ids
  | x :: l => x <- gderef x ;; m <- gderef x ;; disk_ids l (ids ++ [resourceID m])
  end.

Definition vm_defender : Go W (bool * bool) :=
  m <- svc_read az_defender ;;
  match m !! DefenderVirtualMachineType with
  | None => gret (false, false)
  | Some p => gret (monitoringLogDataEnabled p, securityAlertsEnabled p)
  end.

Definition handleVirtualMachines (vm : option arm_VirtualMachine) : Go W (res Ontology) :=
  match vm with
  | None | Some {| vm_arm := {| arm_ID := None |} |} => gerr ErrEmptyVirtualMachine
  | Some m =>
      let a := vm_arm m in
      let bootLogging := if bool_decide (bootLogOutput vm <> "") then [bootLogOutput vm] else [] in
      autoUpdates <- automaticUpdates_ vm ;;
      flags <- vm_defender ;;
      osLoggingEnabled <- has_agent (vm_Resources m) false ;;
      props <- gderef (vm_Properties m) ;;
      nics <- match Vm_NetworkProfile props with Some l => resource_ids l [] | None => gret [] end ;;
      disks <- match Vm_StorageProfile props with
               | Some {| StorageProfile_OSDisk := Some (Some id) |} => gret [resourceID id]
               | _ => gret []
               end ;;
      disks <- match Vm_StorageProfile props with
               | Some sp => disk_ids (StorageProfile_DataDisks sp) disks
               | None => gret disks
               end ;;
      gok (VirtualMachine
        (mkCommon (resourceID (arm_ID a)) (Deref (arm_Name a)) (creationTime (Vm_TimeCreated props))
           (region_of (arm_Location a)) (labels (arm_Tags a)) (resourceGroupID (arm_ID a)) (Raw [OVirtualMachine m]))
        nics disks (Some mkMalwareProtection)
        (Some (mkBootLogging (isBootDiagnosticEnabled vm) bootLogging (Some 0%Z) (fst flags) (snd flags)))
        (Some (mkOSLogging osLoggingEnabled (Some 0%Z) [] (fst flags) (fst flags)))
        (Some (mkActivityLogging true (Some RetentionPeriod90Days) []))
        (Some autoUpdates))
  end.

Definition handleBlockStorage (disk : option Disk) : Go W (res Ontology) :=
  match disk with
  | None | Some {| disk_arm := {| arm_ID := None |} |} => gerr (EText "disk is nil")
  | Some dk =>
      enc <-? blockStorageAtRestEncryption disk
        ! EWrap "could not get block storage properties for the atRestEncryption" ;;
      let a := disk_arm dk in
      backups <- backups_of DataSourceTypeDisc (Deref (arm_ID a)) ;;
      props <- gderef (disk_Properties dk) ;;
      gok (BlockStorage
        (mkCommon (resourceID (arm_ID a)) (Deref (arm_Name a)) (creationTime (Disk_TimeCreated props))
           (location (arm_Location a)) (labels (arm_Tags a)) (resourceGroupID (arm_ID a))
           (Raw [ODisk dk; ODiskEncryptionSet (snd enc)]))
        (fst enc) backups)
  end.

(** The runtime of a Windows function: the first version that is set. *)
Definition windows_runtime (c : SiteConfig) : string * string :=
  if bool_decide (Deref (Config_JavaVersion c) <> "") then ("Java", Deref (Config_JavaVersion c))
  else if bool_decide (Deref (Config_NodeVersion c) <> "") then ("Node.js", Deref (Config_NodeVersion c))
  else if bool_decide (Deref (Config_PowerShellVersion c) <> "") then ("PowerShell", Deref (Config_PowerShellVersion c))
  else if bool_decide (Deref (Config_PhpVersion c) <> "") then ("PHP", Deref (Config_PhpVersion c))
  else if bool_decide (Deref (Config_PythonVersion c) <> "") then ("Python", Deref (Config_PythonVersion c))
  else if bool_decide (Deref (Config_JavaContainer c) <> "") then ("JavaContainer", Deref (Config_JavaContainer c))
  else if bool_decide (Deref (Config_NetFrameworkVersion c) <> "") then (".NET", Deref (Config_NetFrameworkVersion c))
  else ("", "").

Definition site_common (site : Site) (config : GetConfigurationResponse) : Common :=
  let a := site_arm site in
  mkCommon (resourceID (arm_ID a)) (Deref (arm_Name a)) None (region_of (arm_Location a)) (labels (arm_Tags a))
    (resourceGroupID (arm_ID a)) (Raw [OSite site; OSiteConfig config]).

Definition handleFunction (function : option Site) (config : GetConfigurationResponse) : Go W (option Ontology) :=
  match function, config with
  | None, _ | _, None => gret None
  | Some site, Some cfg =>
      kind <- gderef (site_Kind site) ;;
      runtime <- (if bool_decide (kind = "functionapp,linux") then
                    props <- gderef (site_Properties site) ;;
                    fx <- gderef (Site_SiteConfig props) ;;
                    runtimeInfo (Deref fx)
                  else if bool_decide (kind = "functionapp") then
                    c <- gderef cfg ;; gret (windows_runtime c)
                  else gret ("", "")) ;;
      nics <- getVirtualNetworkSubnetId function ;;
      logging <- getResourceLoggingWebApps function ;;
      internet <- getInternetAccessibleEndpoint function ;;
      redundancies <- getRedundancies site ;;
      gret (Some (Function_ (site_common site config) nics (Some logging) (fst runtime) (snd runtime) internet redundancies))
  end.

Definition handleWebApp (webApp : option Site) (config : GetConfigurationResponse) : Go W (option Ontology) :=
  match webApp, config with
  | None, _ | _, None => gret None
  | Some site, Some _ =>
      nics <- getVirtualNetworkSubnetId webApp ;;
      logging <- getResourceLoggingWebApps webApp ;;
      internet <- getInternetAccessibleEndpoint webApp ;;
      redundancies <- getRedundancies site ;;
      gret (Some (WebApp (site_common site config) nics (Some logging) internet redundancies))
  end.

(** ** compute_discover.go *)

Definition discoverVirtualMachines : Go W (res (list Ontology)) :=
  ginit initVirtualMachinesClient (
    list_resources virtualMachinesClient az_VirtualMachines (fun vm =>
      r <-? handleVirtualMachines vm ! EWrap "could not handle virtual machine" ;; gok [r])).

Definition discoverBlockStorages : Go W (res (list Ontology)) :=
  ginit initBlockStoragesClient (
    list_resources blockStorageClient az_Disks (fun disk =>
      r <-? handleBlockStorage disk ! EWrap "could not handle block storage" ;; gok [r])).

(** The callback for one site. *)
Definition handle_site (site : option Site) : Go W (res (list Ontology)) :=
  s <- gderef site ;;
  props <- gderef (site_Properties s) ;;
  config <- client_call webAppsClient
              (az_SiteConfiguration (Deref (Site_ResourceGroup props)) (Deref (arm_Name (site_arm s)))) ;;
  kind <- gderef (site_Kind s) ;;
  r <- (if slices_Contains ["app"; "app,linux"] kind then handleWebApp site (fst config)
        else if slices_Contains ["functionapp"; "functionapp,linux"] kind then handleFunction site (fst config)
        else gret None) ;;
  gok (match r with Some r => [r] | None => [] end).

Definition discoverFunctionsWebApps : Go W (res (list Ontology)) :=
  ginit initWebAppsClient (list_resources webAppsClient az_Sites handle_site).

(** ** network_properties.go, network_handle.go, network_discover.go *)

Definition nsgFirewallEnabled (ni : option arm_Interface) : Go W bool :=
  e <- initNetworkSecurityGroupClient ;;
  match e with
  | Some _ => gret false
  | None =>
      match ni with
      | Some {| interface_Properties := Some (Some vmNsg) |} =>
          id <- gderef vmNsg ;;
          rg <- resourceGroupName id ;;
          name <- getName id ;;
          nsg <- client_call networkSecurityGroupsClient (az_SecurityGroup rg name) ;;
          match nsg with
          | Err _ => gret false
          | OK nsg => rules <- gderef (nsg_Properties nsg) ;; gret (bool_decide (0 < length rules))
          end
      | _ => gret false
      end
  end.

(** The fields all network resources have. *)
Definition network_common (a : Arm) (raw : string) : Common :=
  mkCommon (resourceID (arm_ID a)) (Deref (arm_Name a)) None (region_of (arm_Location a)) (labels (arm_Tags a))
    (resourceGroupID (arm_ID a)) raw.

Definition handleLoadBalancer (lb : option arm_LoadBalancer) : Go W Ontology :=
  l <- gderef lb ;;
  ips <- publicIPAddressFromLoadBalancer lb ;;
  ports <- loadBalancerPorts l ;;
  gret (LoadBalancer (network_common (lb_arm l) (Raw [OLoadBalancer l])) None ips ports []).

Definition handleApplicationGateway (ag : option ApplicationGateway) : Go W Ontology :=
  g <- gderef ag ;;
  props <- gderef (ag_Properties g) ;;
  waf <- gderef props ;;
  gret (LoadBalancer (network_common (ag_arm g) (Raw [OGateway g])) (Some (WebApplicationFirewall (Deref waf))) [] [] []).

Definition handleNetworkInterfaces (ni : option arm_Interface) : Go W Ontology :=
  i <- gderef ni ;;
  enabled <- nsgFirewallEnabled ni ;;
  gret (NetworkInterface (network_common (interface_arm i) (Raw [OInterface i])) (Some (L3Firewall enabled))).

Definition discoverNetworkInterfaces : Go W (res (list Ontology)) :=
  ginit initNetworkInterfacesClient (
    list_resources networkInterfacesClient az_Interfaces (fun ni => s <- handleNetworkInterfaces ni ;; gok [s])).

Definition discoverApplicationGateway : Go W (res (list Ontology)) :=
  ginit initApplicationGatewayClient (
    list_resources applicationGatewayClient az_ApplicationGateways (fun ag => s <- handleApplicationGateway ag ;; gok [s])).

Definition discoverLoadBalancer : Go W (res (list Ontology)) :=
  ginit initLoadBalancersClient (
    list_resources loadBalancerClient az_LoadBalancers (fun lb => s <- handleLoadBalancer lb ;; gok [s])).

(** ** azure.go: List *)

(** [x, err := m; if err != nil { return onErr, wrap(err) }; list = append(list, x...)] *)
Definition list_step (m : Go W (res (list (option Ontology)))) (wrap : string) (keep : bool) (list : list (option Ontology))
    (k : Datatypes.list (option Ontology) -> Go W (Datatypes.list (option Ontology) * option error))
  : Go W (Datatypes.list (option Ontology) * option error) :=
  r <- m ;;
  match r with
  | Err e => gret (if keep then list else [], Some (EWrap wrap e))
  | OK x => k (list ++ x)
  end.

(** A discovery that never returns nil elements. *)
Definition somes (m : Go W (res (list Ontology))) : Go W (res (list (option Ontology))) :=
  r <- m ;; gret (match r with OK l => OK (Some <$> l) | Err e => Err e end).

Definition azure_List : Go W (list (option Ontology) * option error) :=
  e <- authorize ;;
  match e with Some e => gret ([], Some (EWrap (Error ErrCouldNotAuthenticate) e)) | None =>
  list_step (somes discoverResourceGroups) "could not discover resource groups" false [] (fun list =>
  defender <- discoverDefender ;;
  svc_modify (set_defender (match defender with OK m => m | Err _ => ∅ end)) ;;;
  match defender with Err e => gret ([], Some (EWrap "could not discover Defender for X" e)) | OK _ =>
  list_step discoverStorageAccounts "could not discover storage accounts" false list (fun list =>
  list_step (somes discoverSqlServers) "could not discover sql databases" false list (fun list =>
  list_step (somes discoverCosmosDB) "could not discover cosmos db accounts" false list (fun list =>
  _ <- discoverBackupVaults ;;
  list_step (somes discoverBlockStorages) "could not discover block storage" false list (fun list =>
  backups <- backup_storages DataSourceTypeDisc ;;
  let list := list ++ backups in
  list_step (somes discoverVirtualMachines) "could not discover virtual machines" false list (fun list =>
  list_step (somes discoverFunctionsWebApps) "could not discover functions" false list (fun list =>
  list_step (somes discoverNetworkInterfaces) "could not discover network interfaces" false list (fun list =>
  list_step (somes discoverLoadBalancer) "could not discover load balancer" true list (fun list =>
  list_step (somes discoverApplicationGateway) "could not discover application gateways" true list (fun list =>
  gret (list, None)))))))))) end) end.
End Resources.
