(* ===== verification/AzureProofs.v ===== *)
(** The Azure discoverer: identifiers and parents of everything it lists, the
    listing of all pages, authorization and lazy clients, cipher suites,
    retention periods and backups. *)

From Stdlib Require Import Ascii.
From S2P Require Import Prelude GoRuntime GoHoare GoStrings Util GoText Api Pagination OntologyMessages AzureSdk Azure AzureResources.

(** ** Identifiers and parents *)

Create HintDb azure_ids.

Definition lower (s : string) : Prop := strings_ToLower s = s.

Definition is_group (r : Ontology) : bool := match r with ResourceGroup _ => true | _ => false end.

(** The id of a resource is lower case, and so is the id of its parent, unless it
    is a resource group. *)
Definition identified (r : Ontology) : Prop :=
  lower (GetId r) /\ (is_group r = false -> forall p, Common_ParentId (common_of r) = Some p -> lower p).

(** No resource, or an identified one. *)
Definition identified_opt (o : option Ontology) : Prop := match o with Some r => identified r | None => True end.

(** An element of a listing: not nil, and identified. *)
Definition listed (o : option Ontology) : Prop := match o with Some r => identified r | None => False end.

(** A recorded backup storage: the data sources whose storages are listed have no
    nil elements. *)
Definition stored (typ : string) (o : option Ontology) : Prop :=
  match o with
  | Some r => identified r
  | None => typ <> DataSourceTypeDisc /\ typ <> DataSourceTypeStorageAccountObject
  end.

Lemma resourceID_lower id : lower (resourceID id).
Proof. destruct id; [apply strings_ToLower_idem|done]. Qed.

Lemma resourceID2_lower id p : resourceID2 id = Some p -> lower p.
Proof. destruct id; [|done]. intros [= <-]. apply strings_ToLower_idem. Qed.

Lemma resourceGroupID_lower id p : resourceGroupID id = Some p -> lower p.
Proof.
  destruct id as [id|]; [|done]. simpl. case_bool_decide; [done|]. intros [= <-]. apply strings_ToLower_idem.
Qed.

(** A list whose elements are identified, or an error. *)
Definition all_identified (r : res (list Ontology)) : Prop := match r with OK l => Forall identified l | Err _ => True end.
Definition ok_identified (r : res Ontology) : Prop := match r with OK x => identified x | Err _ => True end.

(** A message whose id and parent come from the helpers is identified. *)
Ltac identify :=
  unfold ok_identified, identified_opt, identified, GetId; cbn [common_of Common_Id Common_ParentId is_group snd];
  split; [first [apply resourceID_lower|done]
         |intros ?; try done; first [apply resourceID2_lower|apply resourceGroupID_lower|by intros ? [=]]].

Section Identifiers.
Context {DB T : Type} `{AzureSdk, RawLibrary AzureObject}.
Abbreviation W := (World DB azureDiscovery T).

(** The invariant of the discoverer: the recorded backup storages are identified. *)
Definition backups_identified (d : azureDiscovery) : Prop :=
  forall typ e, az_backupMap d !! typ = Some e -> Forall (stored typ) (backup_backupStorages e).

Abbreviation I := (fun w : W => backups_identified (w_svc w)).
Abbreviation calm m := (ensures I m (fun _ => True)).

(** Follow a run; [calm] steps are those whose result does not matter. *)
Ltac ens1 ens :=
  match goal with
  | |- ensures _ (gret _) _ => apply ensures_ret; try done
  | |- ensures _ (gok _) _ => apply ensures_ret; try done
  | |- ensures _ (gerr _) _ => apply ensures_ret; try done
  | |- ensures _ gpanic _ => apply ensures_panic
  | |- ensures _ (gderef _) (fun _ => True) => by apply ensures_deref
  | |- ensures _ (gindex _ _) (fun _ => True) => by apply ensures_deref
  | |- ensures _ (svc_read _) (fun _ => True) => by apply ensures_svc_read
  | |- ensures _ (remote _) (fun _ => True) => by apply ensures_remote
  | |- ensures _ (svc_modify _) _ => apply ensures_svc_modify; [|done]; solve [done|eauto with azure_ids]
  | |- ensures _ (gguard _ _ _) _ => apply ensures_guard; [done|]
  | |- ensures _ (gbind _ _) _ => first
      [ eapply ensures_bind; [solve [eauto with azure_ids]|intros ? ?]
      | apply (ensures_bind _ _ _ (fun _ => True)); [solve [ens]|intros ? _] ]
  | |- ensures _ (gtry _ _ _) _ => first
      [ eapply (ensures_try _ _ _ _ identified); [solve [eauto with azure_ids]|done|intros ? ?]
      | eapply (ensures_try _ _ _ _ (fun _ => True));
          [eapply (ensures_weaken _ _ (fun _ => True)); [solve [ens]|by intros [] ?]|done|intros ? _] ]
  | |- ensures _ (match ?x with _ => _ end) _ => destruct x
  | |- ensures _ (let '(_, _) := ?x in _) _ => destruct x
  end.
Ltac ens := repeat (solve [eauto with azure_ids] || ens1 ens).

Lemma calm_initClient c : calm (initClient c).
Proof. unfold initClient. ens. Qed.

Lemma ensures_client_call {A} c (f : nat -> A) : calm (client_call c f).
Proof. unfold client_call. ens. Qed.

Lemma ensures_ginit {A} (init : Go W (option error)) (k : Go W (res A)) P :
  calm init -> (forall e, P (Err e)) -> ensures I k P -> ensures I (ginit init k) P.
Proof. intros Hi He Hk. unfold ginit. eapply ensures_bind; [exact Hi|]. intros [e|] _; [by apply ensures_ret|done]. Qed.

(** The helpers without effects. *)
Lemma calm_resourceGroupName id : calm (resourceGroupName id).
Proof. unfold resourceGroupName. ens. Qed.
Lemma calm_accountName id : calm (accountName id).
Proof. unfold accountName. ens. Qed.
Lemma calm_getName id : calm (getName id).
Proof. unfold getName. ens. Qed.
Lemma calm_generalizeURL id : calm (generalizeURL id).
Proof. unfold generalizeURL. ens. Qed.
Lemma calm_backupPolicyName id : calm (backupPolicyName id).
Proof. unfold backupPolicyName. ens. Qed.
Lemma calm_retentionDuration r : calm (retentionDuration r).
Proof. unfold retentionDuration. ens. Qed.
Lemma calm_policy_retention p : calm (policy_retention p).
Proof. unfold policy_retention. ens. Qed.
Hint Resolve calm_initClient ensures_client_call calm_resourceGroupName calm_accountName calm_getName
  calm_generalizeURL calm_backupPolicyName calm_retentionDuration calm_policy_retention : azure_ids.

(** *** Paging *)

Lemma ensures_each_value {A L} (P : L -> Prop) (values : list A) (cb : A -> L -> Go W (L * option error)) acc :
  (forall v acc, P acc -> ensures I (cb v acc) (fun r => P (fst r))) -> P acc ->
  ensures I (each_value values cb acc) (fun r => P (fst r)).
Proof.
  intros Hcb. revert acc. induction values as [|v values IH]; intros acc Ha; simpl; [by ens|].
  eapply ensures_bind; [by apply Hcb|]. intros [acc' [e|]] Ha'; [by ens|]. by apply IH.
Qed.

Lemma ensures_allPages {A L} (P : L -> Prop) (pager : Pager A) (cb : A -> L -> Go W (L * option error)) acc :
  (forall v acc, P acc -> ensures I (cb v acc) (fun r => P (fst r))) -> P acc ->
  ensures I (allPages pager cb acc) (fun r => P (fst r)).
Proof.
  intros Hcb. revert acc. induction pager as [|[v|e] pager IH]; intros acc Ha; simpl; [by ens| |by ens].
  eapply ensures_bind; [by apply Hcb|]. intros [acc' [e|]] Ha'; [by ens|]. by apply IH.
Qed.

Lemma ensures_listPager {R1 R2 A L} (P : L -> Prop) c all rg v1 v2 (cb : option A -> L -> Go W (L * option error)) acc :
  (forall v acc, P acc -> ensures I (cb v acc) (fun r => P (fst r))) -> P acc ->
  ensures I (@listPager DB T R1 R2 A L c all rg v1 v2 cb acc) (fun r => P (fst r)).
Proof.
  intros Hcb Ha. unfold listPager. ens; (apply ensures_allPages; [|done]); intros; by apply ensures_each_value.
Qed.

Lemma ensures_list_resources {A} c (l : Lister A) cb :
  (forall v, ensures I (cb v) all_identified) -> ensures I (list_resources c l cb) all_identified.
Proof.
  intros Hcb. unfold list_resources. eapply ensures_bind.
  - apply (ensures_listPager (Forall identified)); [|done]. intros v acc Ha. eapply ensures_bind; [apply Hcb|].
    intros [rs|e] Hr; ens. by apply Forall_app.
  - intros [list [e|]] Hl; ens.
Qed.

Lemma ensures_pages_of {A B} (P : B -> Prop) (pager : Pager (ListResponse A)) wrap cb acc :
  (forall v, ensures I (cb v) (fun r : res B => match r with OK b => P b | Err _ => True end)) -> Forall P acc ->
  ensures I (pages_of pager wrap cb acc) (fun r => Forall P (fst r)).
Proof.
  intros Hcb. revert acc. induction pager as [|[v|e] pager IH]; intros acc Ha; simpl; [by ens| |by ens].
  eapply ensures_bind.
  - apply (ensures_each_value (Forall P)); [|done]. intros x acc' Ha'. eapply ensures_bind; [apply Hcb|].
    intros [b|e] Hb; ens. apply Forall_app. by split; [|constructor].
  - intros [acc' [e|]] Ha'; [by ens|]. by apply IH.
Qed.

(** *** The handlers *)

Lemma calm_cipher_from parts i kex auth : calm (cipher_from parts i kex auth).
Proof. unfold cipher_from. ens. Qed.
Hint Resolve calm_cipher_from : azure_ids.
Lemma calm_tlsCipherSuites cs : calm (tlsCipherSuites cs).
Proof. unfold tlsCipherSuites. ens. Qed.
Lemma calm_storageAtRestEncryption a : calm (storageAtRestEncryption a).
Proof. unfold storageAtRestEncryption. ens. Qed.
Lemma calm_storage_defender : calm storage_defender.
Proof. unfold storage_defender. ens. Qed.
Lemma calm_backups_of typ id : calm (backups_of typ id).
Proof. unfold backups_of. ens. Qed.
Lemma calm_storage_ids id l ids : calm (storage_ids id l ids).
Proof. revert ids. induction l; intros ids; simpl; ens. Qed.
Lemma calm_some_enabled l : calm (some_enabled l).
Proof. induction l; simpl; ens. Qed.
Hint Resolve calm_tlsCipherSuites calm_storageAtRestEncryption calm_storage_defender calm_backups_of calm_storage_ids
  calm_some_enabled : azure_ids.
Lemma calm_protection_pages pager : calm (protection_pages pager).
Proof. induction pager as [|[] ]; simpl; ens. Qed.
Hint Resolve calm_protection_pages : azure_ids.
Lemma calm_anomalyDetectionEnabled server db : calm (anomalyDetectionEnabled server db).
Proof. unfold anomalyDetectionEnabled. apply ensures_ginit; ens. Qed.
Hint Resolve calm_anomalyDetectionEnabled : azure_ids.

Lemma ids_handleFileStorage a f : ensures I (handleFileStorage a f) ok_identified.
Proof. unfold handleFileStorage. ens. identify. Qed.

Lemma ids_handleObjectStorage a c : ensures I (handleObjectStorage a c) ok_identified.
Proof. unfold handleObjectStorage. ens. identify. Qed.

Lemma ids_handleStorageAccount a l : ensures I (handleStorageAccount a l) ok_identified.
Proof. unfold handleStorageAccount. ens. identify. Qed.

Lemma ids_handleInstances v inst props info :
  instance_Properties inst = Some props -> Instance_DataSourceInfo props = Some info ->
  ensures I (handleInstances v (Some inst))
    (fun r => match r with OK o => stored (Deref (DataSourceInfo_DatasourceType info)) o | Err _ => True end).
Proof.
  intros Hp Hi. unfold handleInstances. destruct v as [v|]; [|by ens].
  rewrite Hp. apply (ensures_bind _ _ _ (eq props)); [by apply ensures_ret|]. intros ? <-.
  rewrite Hi. apply (ensures_bind _ _ _ (eq info)); [by apply ensures_ret|]. intros ? <-.
  eapply ensures_bind; [apply ensures_deref, (fun a (H : _ = Some a) => H)|]. intros typ Ht. rewrite Ht.
  repeat case_bool_decide; apply ensures_ret; [cbn [stored]; identify..|]. by split.
Qed.

Lemma ids_handle_sql_database s v :
  ensures I (handle_sql_database s v) (fun r => match r with OK p => identified (snd p) | Err _ => True end).
Proof. unfold handle_sql_database. ens. identify. Qed.

Lemma ids_handle_mongo a e v : ensures I (handle_mongo a e v) ok_identified.
Proof. unfold handle_mongo. ens. identify. Qed.
Hint Resolve ids_handleFileStorage ids_handleObjectStorage ids_handleStorageAccount ids_handleInstances
  ids_handle_sql_database ids_handle_mongo : azure_ids.

Lemma ids_discoverFileStorages a : ensures I (discoverFileStorages a) all_identified.
Proof.
  unfold discoverFileStorages. ens. eapply ensures_bind.
  - apply (ensures_pages_of identified); [|done]. intros v. ens.
  - intros [l [e|]] Hl; ens.
Qed.

Lemma ids_discoverObjectStorages a : ensures I (discoverObjectStorages a) all_identified.
Proof.
  unfold discoverObjectStorages. ens. eapply ensures_bind.
  - apply (ensures_pages_of identified); [|done]. intros v. ens.
  - intros [l [e|]] Hl; ens.
Qed.
Hint Resolve ids_discoverFileStorages ids_discoverObjectStorages : azure_ids.

Lemma ids_list_account a l : Forall identified l -> ensures I (list_account a l) (fun r => Forall identified (fst r)).
Proof.
  intros Hl. unfold list_account. eapply ensures_bind; [eauto with azure_ids|]. intros [objects|e] Ho; [|by ens].
  eapply ensures_bind; [eauto with azure_ids|]. intros [files|e] Hf; [|by ens].
  assert (Forall identified (l ++ objects ++ files)) by (rewrite !Forall_app; auto).
  eapply ensures_bind; [eauto with azure_ids|]. intros [x|e] Hx; ens. apply Forall_app. by split; [|constructor].
Qed.

Lemma identified_record_backup typ id b o d :
  stored typ o -> backups_identified d -> backups_identified (record_backup typ id b o d).
Proof.
  intros Ho Hd t e. unfold record_backup. simpl. destruct (decide (t = typ)) as [->|Hne].
  - rewrite lookup_insert_eq. intros [= <-]. simpl. apply Forall_app. split; [|by constructor].
    destruct (az_backupMap d !! typ) eqn:E; simpl; [by eapply Hd|done].
  - rewrite lookup_insert_ne by done. apply Hd.
Qed.

Hint Resolve identified_record_backup : azure_ids.

Lemma calm_handle_vault_instances v l : calm (handle_vault_instances v l).
Proof.
  induction l as [|i l IH]; cbn [handle_vault_instances]; [by ens|].
  eapply ensures_bind; [by apply ensures_deref, (fun a (H : i = Some a) => H)|]. intros inst ->.
  eapply ensures_bind; [by apply ensures_deref, (fun a (H : _ = Some a) => H)|]. intros props Hp.
  eapply ensures_bind; [by apply ensures_deref, (fun a (H : _ = Some a) => H)|]. intros info Hi.
  ens. eapply ensures_bind; [by apply (ids_handleInstances _ _ _ _ Hp Hi)|]. intros [o|e] Ho; ens.
Qed.
Hint Resolve calm_handle_vault_instances : azure_ids.

Lemma calm_discoverBackupInstances rg v : calm (discoverBackupInstances rg v).
Proof. unfold discoverBackupInstances. ens. Qed.
Hint Resolve calm_discoverBackupInstances : azure_ids.

Lemma calm_discoverBackupVaults : calm discoverBackupVaults.
Proof.
  unfold discoverBackupVaults. ens. apply (ensures_bind _ _ _ (fun _ => True)); [|by intros; ens].
  apply (ensures_weaken _ _ (fun _ => True)); [|done].
  apply (ensures_listPager (fun _ => True)); [|done]. intros v u _. ens.
Qed.
Hint Resolve calm_discoverBackupVaults : azure_ids.

(** *** Databases and groups *)

Lemma ids_getSqlDBs server : ensures I (getSqlDBs server) (fun r => Forall identified (fst r)).
Proof.
  unfold getSqlDBs. ens. eapply ensures_bind.
  - apply (ensures_pages_of (fun p => identified (snd p))); [|done]. intros v. ens.
  - intros [l e] Hl. ens. by apply Forall_fmap.
Qed.
Hint Resolve ids_getSqlDBs : azure_ids.

Lemma ids_handleSqlServer server : ensures I (handleSqlServer server) all_identified.
Proof. unfold handleSqlServer. ens. constructor; [identify|done]. Qed.

Lemma ids_discoverMongoDBDatabases a e : ensures I (discoverMongoDBDatabases a e) (Forall identified).
Proof.
  unfold discoverMongoDBDatabases. ens. eapply ensures_bind.
  - apply (ensures_pages_of identified); [|done]. intros v. ens.
  - intros [l e'] Hl. ens.
Qed.
Hint Resolve ids_handleSqlServer ids_discoverMongoDBDatabases : azure_ids.

Lemma ids_handleCosmosDB a : ensures I (handleCosmosDB a) all_identified.
Proof. unfold handleCosmosDB. apply ensures_ginit; [ens|done|]. ens; (constructor; [identify|done]). Qed.
Hint Resolve ids_handleCosmosDB : azure_ids.

Lemma ids_discoverSqlServers : ensures I discoverSqlServers all_identified.
Proof.
  unfold discoverSqlServers. apply ensures_ginit; [ens|done|]. apply ensures_list_resources. intros v.
  eapply (ensures_try _ _ _ _ (Forall identified)); [apply ids_handleSqlServer|done|]. intros l Hl. ens.
Qed.

Lemma ids_discoverCosmosDB : ensures I discoverCosmosDB all_identified.
Proof.
  unfold discoverCosmosDB. apply ensures_ginit; [ens|done|]. apply ensures_list_resources. intros v.
  eapply (ensures_try _ _ _ _ (Forall identified)); [apply ids_handleCosmosDB|done|]. intros l Hl. ens.
Qed.

Lemma ids_handleResourceGroup rg : ensures I (handleResourceGroup rg) identified.
Proof. unfold handleResourceGroup. ens. identify. Qed.

Lemma ids_handleSubscription s : ensures I (handleSubscription s) identified.
Proof. unfold handleSubscription. ens. identify. Qed.
Hint Resolve ids_handleResourceGroup ids_handleSubscription : azure_ids.

Lemma ids_groups_of rg values l : Forall identified l -> ensures I (groups_of rg values l) (Forall identified).
Proof.
  revert l. induction values as [|v values IH]; intros l Hl; simpl; ens. apply IH, Forall_app. by split; [|constructor].
Qed.

Lemma ids_group_pages rg pager l : Forall identified l -> ensures I (group_pages rg pager l) all_identified.
Proof.
  revert l. induction pager as [|[v|e] pager IH]; intros l Hl; simpl; [by ens| |by ens].
  eapply ensures_bind; [by apply ids_groups_of|]. intros l' Hl'. by apply IH.
Qed.

Lemma ids_discoverResourceGroups : ensures I discoverResourceGroups all_identified.
Proof.
  unfold discoverResourceGroups. apply ensures_ginit; [ens|done|]. ens. apply ids_group_pages. by constructor.
Qed.

Lemma ids_backup_storages typ : typ = DataSourceTypeDisc \/ typ = DataSourceTypeStorageAccountObject ->
  ensures I (backup_storages typ) (Forall listed).
Proof.
  intros Ht. unfold backup_storages, gbind, svc_read. intros w Hw. simpl. split; [done|]. intros ? [= <-].
  destruct (az_backupMap _ !! _) eqn:E; [|done]. eapply Forall_impl; [by eapply Hw|].
  intros [r|]; [done|]. intros [? ?]. by destruct Ht.
Qed.
Hint Resolve ids_backup_storages : azure_ids.

Lemma ids_discoverStorageAccounts :
  ensures I discoverStorageAccounts (fun r => match r with OK l => Forall listed l | Err _ => True end).
Proof.
  unfold discoverStorageAccounts. do 6 (apply ensures_ginit; [ens|done|]). ens.
  eapply ensures_bind; [apply (ensures_listPager (Forall identified)); [apply ids_list_account|done]|].
  intros [l [e|]] Hl; [by ens|]. eapply ensures_bind; [by apply ids_backup_storages; right|].
  intros b Hb. ens. apply Forall_app. split; [by apply Forall_fmap|done].
Qed.
Hint Resolve ids_discoverSqlServers ids_discoverCosmosDB ids_discoverResourceGroups ids_discoverStorageAccounts : azure_ids.

(** *** Compute and network *)

Lemma calm_keyURL id : calm (keyURL id).
Proof.
  unfold keyURL, diskEncryptionSetName. ens. apply ensures_ginit; [ens|done|]. ens.
Qed.
Hint Resolve calm_keyURL : azure_ids.
Lemma calm_blockStorageAtRestEncryption d : calm (blockStorageAtRestEncryption d).
Proof. unfold blockStorageAtRestEncryption. ens. Qed.
Lemma calm_getResourceLoggingWebApps s : calm (getResourceLoggingWebApps s).
Proof. unfold getResourceLoggingWebApps. ens. Qed.
Lemma calm_has_agent l b : calm (has_agent l b).
Proof. revert b. induction l; intros b; simpl; ens. Qed.
Lemma calm_resource_ids l ids : calm (resource_ids l ids).
Proof. revert ids. induction l; intros ids; simpl; ens. Qed.
Lemma calm_disk_ids l ids : calm (disk_ids l ids).
Proof. revert ids. induction l; intros ids; simpl; ens. Qed.
Lemma calm_and_deref a p : calm (and_deref a p).
Proof. unfold and_deref. ens. Qed.
Lemma calm_vm_defender : calm vm_defender.
Proof. unfold vm_defender. ens. Qed.
Lemma calm_ports_of l ids : calm (ports_of l ids).
Proof. revert ids. induction l; intros ids; simpl; ens. Qed.
Lemma calm_ips_of l ids : calm (ips_of l ids).
Proof. revert ids. induction l; intros ids; simpl; ens. Qed.
Hint Resolve calm_blockStorageAtRestEncryption calm_getResourceLoggingWebApps calm_has_agent calm_resource_ids
  calm_disk_ids calm_and_deref calm_vm_defender calm_ports_of calm_ips_of : azure_ids.
Lemma calm_automaticUpdates vm : calm (automaticUpdates_ vm).
Proof. unfold automaticUpdates_. ens. Qed.
Lemma calm_getVirtualNetworkSubnetId s : calm (getVirtualNetworkSubnetId s).
Proof. unfold getVirtualNetworkSubnetId. ens. Qed.
Lemma calm_getInternetAccessibleEndpoint s : calm (getInternetAccessibleEndpoint s).
Proof. unfold getInternetAccessibleEndpoint. ens. Qed.
Lemma calm_getRedundancies s : calm (getRedundancies s).
Proof. unfold getRedundancies. ens. Qed.
Lemma calm_runtimeInfo s : calm (runtimeInfo s).
Proof. unfold runtimeInfo. ens. Qed.
Lemma calm_nsgFirewallEnabled ni : calm (nsgFirewallEnabled ni).
Proof. unfold nsgFirewallEnabled, initNetworkSecurityGroupClient. ens. Qed.
Lemma calm_publicIPAddressFromLoadBalancer lb : calm (publicIPAddressFromLoadBalancer lb).
Proof. unfold publicIPAddressFromLoadBalancer. ens. Qed.
Lemma calm_loadBalancerPorts lb : calm (loadBalancerPorts lb).
Proof. unfold loadBalancerPorts. ens. Qed.
Hint Resolve calm_automaticUpdates calm_getVirtualNetworkSubnetId calm_getInternetAccessibleEndpoint
  calm_getRedundancies calm_runtimeInfo calm_nsgFirewallEnabled calm_publicIPAddressFromLoadBalancer
  calm_loadBalancerPorts : azure_ids.

Lemma ids_handleVirtualMachines vm : ensures I (handleVirtualMachines vm) ok_identified.
Proof. unfold handleVirtualMachines. ens; identify. Qed.

Lemma ids_handleBlockStorage d : ensures I (handleBlockStorage d) ok_identified.
Proof. unfold handleBlockStorage. ens. identify. Qed.

Lemma ids_handleFunction f c : ensures I (handleFunction f c) identified_opt.
Proof. unfold handleFunction, site_common. ens; identify. Qed.

Lemma ids_handleWebApp f c : ensures I (handleWebApp f c) identified_opt.
Proof. unfold handleWebApp, site_common. ens; identify. Qed.
Hint Resolve ids_handleVirtualMachines ids_handleBlockStorage ids_handleFunction ids_handleWebApp : azure_ids.

Lemma ids_handle_site s : ensures I (handle_site s) all_identified.
Proof.
  unfold handle_site. ens. eapply (ensures_bind _ _ _ identified_opt); [ens|]. intros r Hr. apply ensures_ret.
  by destruct r; constructor.
Qed.

Lemma ids_handleLoadBalancer lb : ensures I (handleLoadBalancer lb) identified.
Proof. unfold handleLoadBalancer, network_common. ens. identify. Qed.
Lemma ids_handleApplicationGateway ag : ensures I (handleApplicationGateway ag) identified.
Proof. unfold handleApplicationGateway, network_common. ens. identify. Qed.
Lemma ids_handleNetworkInterfaces ni : ensures I (handleNetworkInterfaces ni) identified.
Proof. unfold handleNetworkInterfaces, network_common. ens. identify. Qed.
Hint Resolve ids_handleLoadBalancer ids_handleApplicationGateway ids_handleNetworkInterfaces : azure_ids.

(** The discoveries that answer one resource for each value. *)
Ltac ids_listing :=
  apply ensures_ginit; [ens|done|]; apply ensures_list_resources; intros ?; ens; by constructor.

Lemma ids_discoverVirtualMachines : ensures I discoverVirtualMachines all_identified.
Proof. unfold discoverVirtualMachines. ids_listing. Qed.
Lemma ids_discoverBlockStorages : ensures I discoverBlockStorages all_identified.
Proof. unfold discoverBlockStorages. ids_listing. Qed.
Lemma ids_discoverNetworkInterfaces : ensures I discoverNetworkInterfaces all_identified.
Proof. unfold discoverNetworkInterfaces. ids_listing. Qed.
Lemma ids_discoverLoadBalancer : ensures I discoverLoadBalancer all_identified.
Proof. unfold discoverLoadBalancer. ids_listing. Qed.
Lemma ids_discoverApplicationGateway : ensures I discoverApplicationGateway all_identified.
Proof. unfold discoverApplicationGateway. ids_listing. Qed.
Lemma ids_discoverFunctionsWebApps : ensures I discoverFunctionsWebApps all_identified.
Proof.
  unfold discoverFunctionsWebApps. apply ensures_ginit; [ens|done|]. apply ensures_list_resources, ids_handle_site.
Qed.
Hint Resolve ids_discoverVirtualMachines ids_discoverBlockStorages ids_discoverNetworkInterfaces
  ids_discoverLoadBalancer ids_discoverApplicationGateway ids_discoverFunctionsWebApps : azure_ids.

Lemma calm_authorize : calm authorize.
Proof. unfold authorize. ens. Qed.
Lemma calm_defender_of l m : calm (defender_of l m).
Proof. revert m. induction l; intros m; simpl; ens. Qed.
Hint Resolve calm_authorize calm_defender_of : azure_ids.
Lemma calm_discoverDefender : calm discoverDefender.
Proof. unfold discoverDefender. apply ensures_ginit; [ens|done|]. ens. Qed.
Hint Resolve calm_discoverDefender : azure_ids.

(** *** The whole listing *)

Lemma ids_somes m : ensures I m all_identified ->
  ensures I (somes m) (fun r => match r with OK l => Forall listed l | Err _ => True end).
Proof. intros Hm. unfold somes. eapply ensures_bind; [exact Hm|]. intros [l|e] Hl; ens. by apply Forall_fmap. Qed.

Lemma ids_list_step m wrap keep l k :
  ensures I m (fun r => match r with OK l => Forall listed l | Err _ => True end) -> Forall listed l ->
  (forall l', Forall listed l' -> ensures I (k l') (fun r => Forall listed (fst r))) ->
  ensures I (list_step m wrap keep l k) (fun r => Forall listed (fst r)).
Proof.
  intros Hm Hl Hk. unfold list_step. eapply ensures_bind; [exact Hm|]. intros [x|e] Hx.
  - apply Hk. by apply Forall_app.
  - apply ensures_ret. by destruct keep.
Qed.

Lemma ids_azure_List : ensures I azure_List (fun r => Forall listed (fst r)).
Proof.
  unfold azure_List. ens. apply ids_list_step; [apply ids_somes; ens|done|]. intros l1 Hl1. ens.
  do 3 (apply ids_list_step; [first [apply ids_somes; solve [ens]|solve [ens]]|done|]; intros ? ?). ens.
  apply ids_list_step; [apply ids_somes; ens|done|]. intros l5 Hl5. ens.
  do 5 (apply ids_list_step; [apply ids_somes; ens|try done; by apply Forall_app|]; intros ? ?). ens.
Qed.
End Identifiers.

(** A discoverer as it is made, and after any number of listings. *)
Inductive known_option : (azureDiscovery -> azureDiscovery) -> Prop :=
| known_authorizer : known_option azure_WithAuthorizer
| known_service csID : known_option (azure_WithCloudServiceID csID)
| known_group rg : known_option (azure_WithResourceGroup rg)
| known_sender sender : known_option (azure_WithSender sender).

Inductive azure_reachable {DB T} `{AzureSdk, RawLibrary AzureObject} : World DB azureDiscovery T -> Prop :=
| azure_new db opts tasks tick : Forall known_option opts ->
    azure_reachable (mkWorld db (NewAzureDiscovery opts) tasks tick)
| azure_listed w o w' : azure_reachable w -> azure_List w = (o, w') -> azure_reachable w'.

Lemma new_has_no_backups opts : Forall known_option opts -> az_backupMap (NewAzureDiscovery opts) = ∅.
Proof.
  unfold NewAzureDiscovery. set (d := mkAzureDiscovery _ _ _ _ _ _ _ _ _).
  assert (Hd : az_backupMap d = ∅) by done. clearbody d. intros Ho. revert d Hd.
  induction Ho as [|o opts [] _ IH]; intros d Hd; simpl; auto.
Qed.

Lemma azure_reachable_backups {DB T} `{AzureSdk, RawLibrary AzureObject} (w : World DB azureDiscovery T) :
  azure_reachable w -> backups_identified (w_svc w).
Proof.
  induction 1 as [db opts tasks tick Ho|w o w' _ IH Hr].
  - intros typ e. simpl. by rewrite new_has_no_backups.
  - destruct (ids_azure_List w IH) as [Hi _]. by rewrite Hr in Hi.
Qed.

(** C28. Whatever the SDK answers and however often the discoverer has listed before, a
    listing has no nil element, every resource in it has a lower-case id, and every
    resource that is not a resource group has a lower-case parent id: the ids by
    which the resource graph joins a child with its parent do not depend on the
    spelling Azure returns. *)
Theorem azure_listing_wellformed {DB T} `{AzureSdk, RawLibrary AzureObject} (w : World DB azureDiscovery T) l e w' :
  azure_reachable w -> azure_List w = (Returned (l, e), w') ->
  forall o, o ∈ l -> exists r, o = Some r /\ lower (GetId r) /\
    (is_group r = false -> forall p, Common_ParentId (common_of r) = Some p -> lower p).
Proof.
  intros Hw Hr o Hin. destruct (ids_azure_List w (azure_reachable_backups w Hw)) as [_ Hl].
  rewrite Hr in Hl. specialize (Hl _ eq_refl). rewrite Forall_forall in Hl. specialize (Hl _ Hin).
  destruct o as [r|]; [|done]. exists r. split; [done|]. exact Hl.
Qed.

(** ** Errors of a listing *)

Section Errors.
Context {DB T : Type} `{AzureSdk, RawLibrary AzureObject}.
Abbreviation W := (World DB azureDiscovery T).

(** An error that comes with the resources found so far. *)
Definition late_failure (e : error) : Prop :=
  exists e', e = EWrap "could not discover load balancer" e' \/ e = EWrap "could not discover application gateways" e'.

Definition all_or_late (r : list (option Ontology) * option error) : Prop :=
  forall e, snd r = Some e -> fst r = [] \/ late_failure e.

Lemma any_run {A} (m : Go W A) : ensures (fun _ => True) m (fun _ => True).
Proof. done. Qed.

Lemma step_all_or_late m wrap keep l k :
  (keep = true -> wrap = "could not discover load balancer" \/ wrap = "could not discover application gateways") ->
  (forall l', ensures (fun _ : W => True) (k l') all_or_late) ->
  ensures (fun _ => True) (list_step m wrap keep l k) all_or_late.
Proof.
  intros Hkeep Hk. unfold list_step. eapply ensures_bind; [apply any_run|]. intros [x|e] _; [apply Hk|].
  apply ensures_ret. intros ? [= <-]. destruct keep; [|by left]. right. exists e. simpl. destruct (Hkeep eq_refl) as [-> | ->]; auto.
Qed.

(** A listing that fails returns nothing, unless only the load balancers or the
    application gateways failed: then the resources found before are returned with
    the error. *)
Lemma azure_failure_partial (w : W) l e w' :
  azure_List w = (Returned (l, Some e), w') -> l = [] \/ late_failure e.
Proof.
  intros Hr. assert (Hl : ensures (fun _ : W => True) azure_List all_or_late).
  { unfold azure_List. eapply ensures_bind; [apply any_run|]. intros [e1|] _; [apply ensures_ret; intros ? _; by left|].
    apply step_all_or_late; [done|]. intros l1. eapply ensures_bind; [apply any_run|]. intros defender _. eapply ensures_bind; [apply any_run|]. intros _ _.
    destruct defender as [m|e1]; [|apply ensures_ret; intros ? _; by left].
    do 3 (apply step_all_or_late; [done|]; intros ?). eapply ensures_bind; [apply any_run|]. intros _ _.
    apply step_all_or_late; [done|]. intros l5. eapply ensures_bind; [apply any_run|]. intros b _.
    do 5 (apply step_all_or_late; [first [done|by left|by right]|]; intros ?).
    apply ensures_ret. intros ? [=]. }
  by destruct (ensures_returned _ _ _ _ _ _ Hl I Hr) as [Ha _]; apply Ha.
Qed.

(** Without a credential, a new discoverer lists nothing and makes no client. *)
Lemma azure_unauthenticated (w : W) : isAuthorized (w_svc w) = false -> az_cred (w_svc w) = false ->
  azure_List w = (Returned ([], Some (EWrap (Error ErrCouldNotAuthenticate) ErrNoCredentialsConfigured)), w).
Proof. intros Ha Hc. unfold azure_List, authorize, svc_read, gbind. rewrite Ha, Hc. reflexivity. Qed.

(** Authorization takes the first subscription delivered; it is done once. *)
Lemma authorize_once (w : W) w' : authorize w = (Returned None, w') ->
  isAuthorized (w_svc w') = true /\ authorize w' = (Returned None, w').
Proof.
  intros Hr. assert (Ha : isAuthorized (w_svc w') = true).
  { unfold authorize in Hr. unfold svc_read in Hr. unfold gbind at 1 in Hr.
    destruct (isAuthorized (w_svc w)) eqn:E; [by injection Hr as <-|].
    unfold svc_modify in Hr. go_step Hr; done. }
  split; [done|]. unfold authorize, svc_read, gbind. by rewrite Ha.
Qed.
End Errors.

(** ** Listing all pages *)

(** The values a pager delivers before its first failing page, and that failure. *)
Fixpoint delivered {A} (pager : Pager (ListResponse A)) : list (option A) * option error :=
  match pager with
  | [] => ([], None)
  | Err e :: _ => ([], Some e)
  | OK page :: pager => (lr_Value page ++ fst (delivered pager), snd (delivered pager))
  end.

(** The pager a listing uses: over the subscription, or over the resource group
    the discoverer is restricted to. *)
Definition scoped {A} (l : Lister A) (rg : option string) : nat -> Pager (ListResponse A) :=
  match rg with None => NewListAllPager l | Some rg => NewListByResourceGroupPager l rg end.

Lemma listPager_scoped {DB T} `{AzureSdk} {A L} c (l : Lister A) cb (acc : L) (w : World DB azureDiscovery T) :
  c ∈ az_clients (w_svc w) ->
  listPager c (NewListAllPager l) (NewListByResourceGroupPager l) lr_Value lr_Value cb acc w =
  allPages (scoped l (az_rg (w_svc w)) (w_tick w)) (fun page => each_value (lr_Value page) cb) acc
    (mkWorld (w_db w) (w_svc w) (w_tasks w) (w_tick w + 1)).
Proof.
  intros Hc. unfold listPager, client_call, svc_read, gbind, remote, scoped.
  destruct (az_rg (w_svc w)); by rewrite bool_decide_eq_true_2.
Qed.

Section Listing.
Context {DB T : Type} `{AzureSdk, RawLibrary AzureObject}.
Abbreviation W := (World DB azureDiscovery T).
Context {A : Type} (K : W -> Prop) (cb : option A -> Go W (res (list Ontology))).
Context (R : option A -> list Ontology -> Prop) (E : option A -> error -> Prop).

(** On the values in question the callback returns. *)
Definition answers (values : list (option A)) : Prop :=
  forall v w, v ∈ values -> K w ->
  exists r w', cb v w = (Returned r, w') /\ K w' /\ match r with OK rs => R v rs | Err e => E v e end.

Abbreviation collect := (fun v list => x <- cb v ;;
  match x with Err e => gret (list, Some e) | OK rs => gret (list ++ rs, None) end).

Lemma each_value_total values acc w : answers values -> K w ->
  exists l e w', each_value values collect acc w = (Returned (l, e), w') /\ K w' /\
    match e with
    | None => exists rss, Forall2 R values rss /\ l = acc ++ concat rss
    | Some e => exists v, v ∈ values /\ E v e
    end.
Proof.
  intros Ha. revert acc w. induction values as [|v values IH]; intros acc w Hk.
  { exists acc, None, w. split_and!; [done..|]. exists []. by rewrite app_nil_r. }
  destruct (Ha v w ltac:(set_solver) Hk) as ([rs|e] & w1 & Hc & Hk1 & Hr).
  - destruct (IH ltac:(intros ? ? ?; apply Ha; set_solver) (acc ++ rs) w1 Hk1) as (l & e & w' & Hrun & Hk' & Hl).
    exists l, e, w'. split_and!; [|done|].
    + simpl. unfold gbind. by rewrite Hc.
    + destruct e as [e|].
      * destruct Hl as (v' & Hv' & He). exists v'. set_solver.
      * destruct Hl as (rss & Hrss & ->). exists (rs :: rss). split; [by constructor|]. by rewrite <-app_assoc.
  - exists acc, (Some e), w1. split_and!; [|done|exists v; set_solver]. simpl. unfold gbind. by rewrite Hc.
Qed.

Lemma allPages_total (pager : Pager (ListResponse A)) acc w : answers (fst (delivered pager)) -> K w ->
  exists l e w', allPages pager (fun page => each_value (lr_Value page) collect) acc w = (Returned (l, e), w') /\
    match e with
    | None => snd (delivered pager) = None /\ exists rss, Forall2 R (fst (delivered pager)) rss /\ l = acc ++ concat rss
    | Some e => (exists v, v ∈ fst (delivered pager) /\ E v e) \/
                exists e', snd (delivered pager) = Some e' /\ e = EWrap (Error ErrGettingNextPage) e'
    end.
Proof.
  revert acc w. induction pager as [|[page|e] pager IH]; intros acc w Ha Hk; simpl in *.
  - exists acc, None, w. split_and!; [done..|]. exists []. by rewrite app_nil_r.
  - destruct (each_value_total (lr_Value page) acc w ltac:(intros ? ? ?; apply Ha; set_solver) Hk)
      as (l & e & w1 & Hrun & Hk1 & Hl).
    unfold gbind at 1. rewrite Hrun. destruct e as [e|].
    { exists l, (Some e), w1. split; [done|]. left. destruct Hl as (v & ? & ?). exists v. set_solver. }
    destruct Hl as (rss & Hrss & ->).
    destruct (IH (acc ++ concat rss) w1 ltac:(intros ? ? ?; apply Ha; set_solver) Hk1) as (l & e & w2 & Hrun2 & Hl).
    exists l, e, w2. split; [exact Hrun2|]. destruct e as [e|].
    + destruct Hl as [(v & ? & ?)|?]; [left|by right]. exists v. set_solver.
    + destruct Hl as (? & rss' & Hrss' & ->). split; [done|]. exists (rss ++ rss'). split; [by apply Forall2_app|].
      by rewrite concat_app, app_assoc.
  - exists acc, (Some (EWrap (Error ErrGettingNextPage) e)), w. split; [done|]. right. eauto.
Qed.

(** A listing with a client that exists answers: one result per value that was
    delivered, in order; or a page or a value failed. *)
Lemma list_resources_total c (l : Lister A) w :
  let d := delivered (scoped l (az_rg (w_svc w)) (w_tick w)) in
  c ∈ az_clients (w_svc w) ->
  answers (fst d) -> K (mkWorld (w_db w) (w_svc w) (w_tasks w) (w_tick w + 1)) ->
  exists r w', list_resources c l cb w = (Returned r, w') /\
    match r with
    | OK rs => snd d = None /\ exists rss, Forall2 R (fst d) rss /\ rs = concat rss
    | Err e => (exists v, v ∈ fst d /\ E v e) \/
               exists e', snd d = Some e' /\ e = EWrap (Error ErrGettingNextPage) e'
    end.
Proof.
  intros d Hc Ha Hk.
  destruct (allPages_total _ [] _ Ha Hk) as (rs & e & w' & Hrun & Hl).
  exists (match e with Some e => Err e | None => OK rs end), w'. split; [|by destruct e].
  unfold list_resources. unfold gbind at 1. rewrite listPager_scoped, Hrun by done. by destruct e.
Qed.
End Listing.

Lemma concat_singletons {A B} (Q : A -> B -> Prop) l (rss : list (list B)) :
  Forall2 (fun v rs => exists r, rs = [r] /\ Q v r) l rss -> Forall2 Q l (concat rss).
Proof. induction 1 as [|v rs l rss (r & -> & ?) _ IH]; simpl; by constructor. Qed.

(** *** Lazy clients *)

Section Clients.
Context {DB T : Type} `{AzureSdk}.
Abbreviation W := (World DB azureDiscovery T).

(** The state in which the code after the initialisation of [c] runs. *)
Definition with_client (c : client) (w : W) : W :=
  if bool_decide (c ∈ az_clients (w_svc w)) then w
  else mkWorld (w_db w) (set_clients (c :: az_clients (w_svc w)) (w_svc w)) (w_tasks w) (w_tick w + 1).

(** Why a client could not be made. *)
Definition client_failed (c : client) (w : W) (e : error) : Prop :=
  c ∉ az_clients (w_svc w) /\
  exists e', az_NewClient c (match az_sub (w_svc w) with Some s => Deref (Subscription_SubscriptionID s) | None => "" end)
               (w_tick w) = Some e' /\
    e = EWrap ("could not get " +:+ az_client_type c +:+ " client") e'.

Lemma with_client_has c w : c ∈ az_clients (w_svc (with_client c w)).
Proof. unfold with_client. case_bool_decide; [done|]. set_solver. Qed.

Lemma with_client_idem c w : with_client c (with_client c w) = with_client c w.
Proof. unfold with_client at 1. by rewrite bool_decide_eq_true_2 by apply with_client_has. Qed.

Lemma ginit_total {A} c (k : Go W (res A)) (w : W) :
  (exists e, client_failed c w e /\ fst (ginit (initClient c) k w) = Returned (Err e)) \/
  ginit (initClient c) k w = k (with_client c w).
Proof.
  unfold ginit, initClient, client_failed, with_client, svc_read, svc_modify, remote, gbind, gret.
  case_bool_decide; [by right|]. simpl.
  destruct (az_NewClient c _ _) as [e|] eqn:E; [left|by right]. eauto 10.
Qed.
End Clients.

(** ** Virtual machines *)

Section VirtualMachines.
Context {DB T : Type} `{AzureSdk, RawLibrary AzureObject}.
Abbreviation W := (World DB azureDiscovery T).

(** Nothing that the handler dereferences is nil. *)
Definition vm_complete (m : arm_VirtualMachine) : Prop :=
  Forall (fun x => exists id, x = Some (Some id)) (vm_Resources m) /\
  exists props, vm_Properties m = Some props /\
    (forall l, Vm_NetworkProfile props = Some l -> Forall is_Some l) /\
    (forall sp, Vm_StorageProfile props = Some sp -> Forall (fun x => exists d, x = Some (Some d)) (StorageProfile_DataDisks sp)) /\
    (forall os wc, Vm_OSProfile props = Some os -> OSProfile_WindowsConfiguration os = Some wc ->
       is_Some (Windows_EnableAutomaticUpdates wc)).

(** The agents, network interfaces and disks of a complete virtual machine. *)
Definition agent_installed (m : arm_VirtualMachine) : Prop :=
  exists id, Some (Some id) ∈ vm_Resources m /\ is_agent id = true.

Definition attached_nics (props : VmProperties) : list string :=
  match Vm_NetworkProfile props with
  | Some l => (fun x => match x with Some id => resourceID id | None => "" end) <$> l
  | None => []
  end.

Definition attached_disks (props : VmProperties) : list string :=
  match Vm_StorageProfile props with
  | Some sp =>
      match StorageProfile_OSDisk sp with Some (Some id) => [resourceID id] | _ => [] end ++
      ((fun x => match x with Some (Some id) => resourceID id | _ => "" end) <$> StorageProfile_DataDisks sp)
  | None => []
  end.

(** Automatic updates are on: by the platform on Linux; on Windows also by the
    operating system, where they must be enabled too. *)
Definition updates_on (props : VmProperties) : Prop :=
  exists os, Vm_OSProfile props = Some os /\
    (OSProfile_LinuxConfiguration os = Some (Some (Some "AutomaticByPlatform")) \/
     exists wc mode, OSProfile_WindowsConfiguration os = Some wc /\ Windows_PatchSettings wc = Some (Some mode) /\
       (mode = "AutomaticByOS" \/ mode = "AutomaticByPlatform") /\ Windows_EnableAutomaticUpdates wc = Some true).

(** The message for a virtual machine, with [flag] whether Defender watches
    virtual machines. *)
Definition vm_message (d : azureDiscovery) (m : arm_VirtualMachine) (r : Ontology) : Prop :=
  exists props boot os auto, vm_Properties m = Some props /\
    r = VirtualMachine
          (mkCommon (resourceID (arm_ID (vm_arm m))) (Deref (arm_Name (vm_arm m))) (Vm_TimeCreated props)
             (Some (mkGeoLocation (Deref (arm_Location (vm_arm m))))) (labels (arm_Tags (vm_arm m)))
             (resourceGroupID (arm_ID (vm_arm m))) (Raw [OVirtualMachine m]))
          (attached_nics props) (attached_disks props) (Some mkMalwareProtection)
          (Some boot) (Some os) (Some (mkActivityLogging true (Some RetentionPeriod90Days) [])) (Some auto) /\
    (BootLogging_Enabled boot = true <-> exists e, Vm_DiagnosticsProfile props = Some (Some e) /\ e = Some true) /\
    (OSLogging_Enabled os = true <-> agent_installed m) /\
    (AutomaticUpdates_Enabled auto = true <-> updates_on props) /\
    let watched := match az_defender d !! DefenderVirtualMachineType with Some p => monitoringLogDataEnabled p | None => false end in
    BootLogging_MonitoringEnabled boot = watched /\ OSLogging_MonitoringEnabled os = watched.

Lemma has_agent_total l b (w : W) : Forall (fun x => exists id, x = Some (Some id)) l ->
  exists b', has_agent l b w = (Returned b', w) /\
    (b' = true <-> b = true \/ exists id, Some (Some id) ∈ l /\ is_agent id = true).
Proof.
  intros Hl. revert b. induction Hl as [|x l [id ->] Hl IH]; intros b.
  - exists b. split; [done|]. set_solver.
  - destruct (IH (if is_agent id then true else b)) as (b' & Hr & Hb). exists b'. split; [exact Hr|]. rewrite Hb.
    destruct (is_agent id) eqn:E; split.
    + intros _. right. exists id. set_solver.
    + by left.
    + intros [?|(id' & ? & ?)]; [by left|]. right. exists id'. set_solver.
    + intros [?|(id' & [[=]|?]%elem_of_cons & ?)]; [by left|congruence|]. right. eauto.
Qed.

Lemma resource_ids_total l ids (w : W) : Forall is_Some l ->
  resource_ids l ids w = (Returned (ids ++ ((fun x => match x with Some id => resourceID id | None => "" end) <$> l)), w).
Proof.
  intros Hl. revert ids. induction Hl as [|x l [id ->] Hl IH]; intros ids; simpl; [by rewrite app_nil_r|].
  rewrite gbind_ret, IH. by rewrite <-app_assoc.
Qed.

Lemma disk_ids_total l ids (w : W) : Forall (fun x => exists d, x = Some (Some d)) l ->
  disk_ids l ids w =
  (Returned (ids ++ ((fun x => match x with Some (Some id) => resourceID id | _ => "" end) <$> l)), w).
Proof.
  intros Hl. revert ids. induction Hl as [|x l [id ->] Hl IH]; intros ids; simpl; [by rewrite app_nil_r|].
  unfold gbind, gderef, gret. rewrite IH. by rewrite <-app_assoc.
Qed.

Lemma deref_is (o : option string) s : s <> "" -> Deref o = s <-> o = Some s.
Proof. intros Hs. destruct o as [x|]; cbn; split; [by intros ->|by intros [= ->]| |done]. intros He. by destruct Hs. Qed.

Definition linux_of (os : OSProfile) : bool :=
  match OSProfile_LinuxConfiguration os with
  | Some (Some mode) => bool_decide (Deref mode = "AutomaticByPlatform")
  | _ => false
  end.

Lemma automaticUpdates_total m props (w : W) : vm_complete m -> vm_Properties m = Some props ->
  exists auto, automaticUpdates_ (Some m) w = (Returned auto, w) /\ (AutomaticUpdates_Enabled auto = true <-> updates_on props).
Proof.
  intros (_ & p & Hp & _ & _ & Hw) Hp'. rewrite Hp in Hp'. injection Hp' as ->.
  destruct m as [a rs vp]. simpl in Hp. subst vp. destruct props as [tc np sp [os|] dp]; simpl in *.
  2: { eexists. split; [reflexivity|]. split; [done|]. by intros (? & [=] & _). }
  assert (HL : match linux_of os with true => OSProfile_LinuxConfiguration os = Some (Some (Some "AutomaticByPlatform"))
               | false => OSProfile_LinuxConfiguration os <> Some (Some (Some "AutomaticByPlatform")) end).
  { unfold linux_of. destruct (OSProfile_LinuxConfiguration os) as [[mode|]|]; [|done..].
    case_bool_decide as Hm; rewrite deref_is in Hm by done; congruence. }
  fold (linux_of os). destruct (linux_of os).
  { eexists. split; [reflexivity|]. split; [|done]. intros _. exists os. auto. }
  destruct (OSProfile_WindowsConfiguration os) as [[[mode|] en]|] eqn:Ew.
  - destruct (Hw _ _ eq_refl Ew) as [b Hb]. simpl in Hb. subst en.
    assert (Hu : updates_on (mkVmProperties tc np sp (Some os) dp) <->
                 (Deref mode = "AutomaticByOS" \/ Deref mode = "AutomaticByPlatform") /\ b = true).
    { rewrite !deref_is by done. split.
      - intros (os' & [= <-] & [?|(wc & m & Hwc & Hps & Hm & Hb)]); [done|]. rewrite Ew in Hwc. injection Hwc as <-.
        naive_solver.
      - intros [Hm ->]. exists os. split; [done|]. right. destruct Hm as [-> | ->]; eexists _, _; eauto. }
    setoid_rewrite Hu. unfold and_deref, gderef, gbind, gret. destruct b; repeat case_bool_decide; simpl; eexists; (split; [reflexivity|]);
      naive_solver.
  - eexists. split; [reflexivity|]. split; [done|].
    intros (os' & [= <-] & [?|(wc & m & Hwc & Hps & _)]); [done|]. simplify_eq/=.
  - eexists. split; [reflexivity|]. split; [done|].
    intros (os' & [= <-] & [?|(wc & m & Hwc & Hps & _)]); [done|]. simplify_eq/=.
Qed.

Lemma creationTime_eq t : creationTime t = t.
Proof. by destruct t. Qed.

(** A virtual machine without an id is refused. *)
Definition unnamed (vm : option arm_VirtualMachine) : Prop :=
  forall m, vm = Some m -> arm_ID (vm_arm m) = None.

Lemma handleVirtualMachines_total vm (w : W) :
  (forall m, vm = Some m -> arm_ID (vm_arm m) <> None -> vm_complete m) ->
  exists r, handleVirtualMachines vm w = (Returned r, w) /\
    match r with
    | OK r => exists m, vm = Some m /\ vm_message (w_svc w) m r
    | Err e => unnamed vm /\ e = ErrEmptyVirtualMachine
    end.
Proof.
  intros Hc. destruct vm as [m|]; [|eexists; split; [reflexivity|]; split; [by intros|done]].
  destruct (arm_ID (vm_arm m)) as [id|] eqn:Ei.
  2: { destruct m as [[] rs vp]; simpl in Ei; subst. eexists. split; [reflexivity|]. split; [|done].
       by intros ? [= <-]. }
  specialize (Hc m eq_refl ltac:(by rewrite Ei)). pose proof Hc as (Hag & props & Hp & Hnic & Hsp & _).
  destruct (automaticUpdates_total m props w Hc Hp) as (auto & Ha & Hauto).
  destruct (has_agent_total (vm_Resources m) false w Hag) as (ag & Hg & Hagent).
  assert (Hn : match Vm_NetworkProfile props with Some l => resource_ids l [] | None => gret [] end w =
               (Returned (attached_nics props), w)).
  { unfold attached_nics. destruct (Vm_NetworkProfile props) as [l|] eqn:En; [|done]. by rewrite resource_ids_total by eauto. }
  assert (Hd : (disks <- match Vm_StorageProfile props with
                         | Some {| StorageProfile_OSDisk := Some (Some id) |} => gret [resourceID id]
                         | _ => gret []
                         end ;;
                match Vm_StorageProfile props with
                | Some sp => disk_ids (StorageProfile_DataDisks sp) disks
                | None => gret disks
                end) w = (Returned (attached_disks props), w)).
  { unfold attached_disks. destruct (Vm_StorageProfile props) as [[[[d|]|] ds]|] eqn:Es; [..|done];
      rewrite gbind_ret; (rewrite disk_ids_total; [done|]; exact (Hsp _ eq_refl)). }
  set (flags := match az_defender (w_svc w) !! DefenderVirtualMachineType with
                | Some p => (monitoringLogDataEnabled p, securityAlertsEnabled p) | None => (false, false) end).
  assert (Hf : vm_defender w = (Returned flags, w)).
  { unfold vm_defender, flags, gbind, svc_read. by destruct (az_defender (w_svc w) !! DefenderVirtualMachineType). }
  destruct m as [[i n lo t] rs vp]. simpl in Ei. subst i. set (m := mkArmVirtualMachine _ rs vp) in *.
  unfold handleVirtualMachines. fold m. unfold m at 1. cbv iota. fold m.
  rewrite (gbind_eq _ _ _ _ _ Ha), (gbind_eq _ _ _ _ _ Hf), (gbind_eq _ _ _ _ _ Hg), Hp.
  unfold gderef. rewrite gbind_ret, (gbind_eq _ _ _ _ _ Hn). cbv beta. rewrite <-gbind_assoc, (gbind_eq _ _ _ _ _ Hd).
  rewrite creationTime_eq. eexists. split; [reflexivity|]. cbn beta iota. exists m. split; [done|].
  eexists props, _, _, auto. split_and!; [done|reflexivity|..]; cbn.
  - destruct vp as [[]|]; [|done]. injection Hp as <-. cbn. destruct Vm_DiagnosticsProfile as [[[e|]|]|]; cbn; naive_solver.
  - rewrite Hagent. unfold agent_installed. naive_solver.
  - done.
  - unfold flags. by destruct (_ !! _).
Qed.

End VirtualMachines.

(** ** Identifiers *)

(** The parent recorded for a resource of a resource group is the id that is
    recorded for the group, however Azure spells the two. *)
Lemma resourceGroupID_parent group rest :
  length (strings_Split group "/") = 5 ->
  resourceGroupID (Some (group +:+ "/" +:+ rest)) = Some (resourceID (Some group)).
Proof.
  intros Hg. unfold resourceGroupID, resourceID. change (group +:+ "/" +:+ rest) with (group +:+ String "/" rest).
  rewrite split_app, length_app, Hg. rewrite bool_decide_eq_false_2 by lia.
  rewrite take_app_le by lia. rewrite <-Hg, firstn_all. by rewrite join_split.
Qed.

(** ** TLS cipher suites *)

(** The names that are understood, by their parts: the key exchange is optional, and
    what follows the hash is ignored. *)
Inductive suite_parts : list string -> CipherSuite -> Prop :=
| suite_ecdhe auth bits mode mac rest : auth ∈ ["RSA"; "ECDSA"] -> bits ∈ ["128"; "256"] -> mode ∈ ["CBC"; "GCM"] ->
    mac ∈ ["256"; "384"] ->
    suite_parts (["TLS"; "ECDHE"; auth; "WITH"; "AES"; bits; mode; "SHA" +:+ mac] ++ rest)
      (mkCipherSuite "ECDHE" auth ("AES-" +:+ bits +:+ "-" +:+ mode) ("SHA-" +:+ mac))
| suite_tls13 bits mode mac rest : bits ∈ ["128"; "256"] -> mode ∈ ["CBC"; "GCM"] -> mac ∈ ["256"; "384"] ->
    suite_parts (["TLS"; "AES"; bits; mode; "SHA" +:+ mac] ++ rest)
      (mkCipherSuite "" "" ("AES-" +:+ bits +:+ "-" +:+ mode) ("SHA-" +:+ mac)).

Lemma deref_returned {W A B} (o : option A) (k : A -> Go W B) w b w' :
  gbind (gderef o) k w = (Returned b, w') -> exists a, o = Some a /\ k a w = (Returned b, w').
Proof. destruct o; [eauto|done]. Qed.

Lemma cipher_from_spec {W} parts i kex auth s (w : W) :
  cipher_from parts i kex auth w = (Returned (Some [s]), w) <->
  exists bits mode mac rest, drop (i + 1) parts = ["AES"; bits; mode; "SHA" +:+ mac] ++ rest /\
    bits ∈ ["128"; "256"] /\ mode ∈ ["CBC"; "GCM"] /\ mac ∈ ["256"; "384"] /\
    s = mkCipherSuite kex auth ("AES-" +:+ bits +:+ "-" +:+ mode) ("SHA-" +:+ mac).
Proof.
  unfold cipher_from, gindex.
  replace (parts !! S i) with (drop (i + 1) parts !! 0) by (rewrite lookup_drop; f_equal; lia).
  replace (parts !! S (S i)) with (drop (i + 1) parts !! 1) by (rewrite lookup_drop; f_equal; lia).
  replace (parts !! S (S (S i))) with (drop (i + 1) parts !! 2) by (rewrite lookup_drop; f_equal; lia).
  replace (parts !! S (S (S (S i)))) with (drop (i + 1) parts !! 3) by (rewrite lookup_drop; f_equal; lia).
  generalize (drop (i + 1) parts). intros l. split.
  - intros Hr. apply deref_returned in Hr as (p0 & H0 & Hr). destruct (bool_decide (p0 <> "AES")) eqn:E0; [done|].
    apply deref_returned in Hr as (p1 & H1 & Hr). destruct (slices_Contains _ p1) eqn:E1; [cbn [negb] in Hr|done].
    apply deref_returned in Hr as (p2 & H2 & Hr). destruct (slices_Contains _ p2) eqn:E2; [cbn [negb] in Hr|done].
    apply deref_returned in Hr as (p3 & H3 & Hr).
    destruct l as [|q0 [|q1 [|q2 [|q3 rest]]]]; try done. injection H0 as ->; injection H1 as ->; injection H2 as ->; injection H3 as ->.
    apply bool_decide_eq_false, dec_stable in E0. subst p0.
    apply slices_Contains_true in E1, E2.
    exists p1, p2.
    destruct (bool_decide (p3 = "SHA256")) eqn:E3; [apply bool_decide_eq_true in E3|apply bool_decide_eq_false in E3;
      destruct (bool_decide (p3 = "SHA384")) eqn:E4; [apply bool_decide_eq_true in E4|done]];
      subst p3; injection Hr as <-; [exists "256", rest|exists "384", rest]; (split_and!; [done..| |]; [set_solver|]);
      by rewrite !str_append_assoc.
  - intros (bits & mode & mac & rest & -> & Hb & Hm & Hs & ->).
    apply list_elem_of_In in Hb, Hm, Hs. simpl in Hb, Hm, Hs.
    destruct Hb as [<-|[<-|[]]], Hm as [<-|[<-|[]]], Hs as [<-|[<-|[]]]; reflexivity.
Qed.

(** A name is turned into a cipher suite exactly when its parts are understood, and
    the suite is the one they name; a refused name gives no suite. *)
Theorem tls_suites_recognised {W} cs s (w : W) :
  tlsCipherSuites cs w = (Returned (Some [s]), w) <-> suite_parts (strings_Split cs "_") s.
Proof.
  unfold tlsCipherSuites, gindex. generalize (strings_Split cs "_"). intros l. split.
  - intros Hr. apply deref_returned in Hr as (p0 & H0 & Hr). destruct (bool_decide (p0 <> "TLS")) eqn:E0; [done|].
    apply bool_decide_eq_false, dec_stable in E0. subst p0.
    apply deref_returned in Hr as (p1 & H1 & Hr). destruct l as [|q0 [|q1 l]]; [done..|].
    injection H0 as ->; injection H1 as ->. destruct (bool_decide (p1 <> "ECDHE")) eqn:E1.
    + apply cipher_from_spec in Hr as (bits & mode & mac & rest & Hl & ? & ? & ? & ->). simpl in Hl.
      rewrite Hl. by apply (suite_tls13 bits mode mac rest).
    + apply bool_decide_eq_false, dec_stable in E1. subst p1.
      apply deref_returned in Hr as (p2 & H2 & Hr). destruct (slices_Contains _ p2) eqn:E2; [cbn [negb] in Hr|done].
      apply deref_returned in Hr as (p3 & H3 & Hr). destruct (bool_decide (p3 <> "WITH")) eqn:E3; [done|].
      apply bool_decide_eq_false, dec_stable in E3. subst p3. apply slices_Contains_true in E2.
      destruct l as [|q2 [|q3 l]]; [done..|]. injection H2 as ->; injection H3 as ->.
      apply cipher_from_spec in Hr as (bits & mode & mac & rest & Hl & ? & ? & ? & ->). simpl in Hl.
      rewrite drop_0 in Hl. rewrite Hl. by apply (suite_ecdhe p2 bits mode mac rest).
  - intros Hs. destruct Hs as [auth bits mode mac rest Ha Hb Hm Hc|bits mode mac rest Hb Hm Hc].
    + apply list_elem_of_In in Ha. destruct Ha as [<-|[<-|[]]]; apply (cipher_from_spec _ 3 "ECDHE"); by exists bits, mode, mac, rest.
    + apply (cipher_from_spec _ 0 "" ""). by exists bits, mode, mac, rest.
Qed.

(** A name that ends before its hash makes the discoverer panic. *)
Lemma tls_suites_short {W} (w : W) :
  fst (tlsCipherSuites "TLS" w) = Panicked /\ fst (tlsCipherSuites "TLS_AES_128_GCM" w) = Panicked.
Proof. split; reflexivity. Qed.

(** ** Retention periods *)

(** A retention of [n] days is read as its nanoseconds, up to the 106751 days that
    fit into an int64. *)
Lemma retention_days {W} n (w : W) : (0 <= n <= 106751)%Z ->
  retentionDuration ("P" +:+ strconv_Itoa n +:+ "D") w = (Returned (n * 24 * time_Hour)%Z, w).
Proof.
  intros Hn. unfold retentionDuration. set (t := strconv_Itoa n).
  assert (Hlen : String.length ("P" +:+ t +:+ "D") = String.length t + 2).
  { rewrite !str_length_append. simpl. lia. }
  rewrite bool_decide_eq_false_2 by done. rewrite Hlen, bool_decide_eq_false_2 by lia.
  replace (String.length t + 2 - 2) with (String.length t) by lia.
  change (str_drop 1 ("P" +:+ t +:+ "D")) with (t +:+ "D"). rewrite str_take_append.
  unfold t. rewrite atoi_itoa by (unfold int64_max; lia). unfold time_Hour.
  unfold gret. f_equal. f_equal. rewrite (wrap64_small (n * (3600 * 1000000000)))%Z by (apply bool_decide_eq_true_2; lia).
  rewrite wrap64_small by (apply bool_decide_eq_true_2; lia). lia.
Qed.

(** The first number of days beyond wraps to a negative period. *)
Lemma retention_overflows {W} (w : W) :
  exists d, retentionDuration ("P" +:+ strconv_Itoa 106752 +:+ "D") w = (Returned d, w) /\ (d < 0)%Z.
Proof. eexists. split; [reflexivity|]. vm_compute. reflexivity. Qed.

(** ** Behaviours to know *)

Section Pitfalls.
Context {DB T : Type} `{AzureSdk, RawLibrary AzureObject}.
Abbreviation W := (World DB azureDiscovery T).

(** The flags of a storage are those of the virtual machines; with a plan for
    storage accounts only, the handler dereferences a nil pointer. *)
Lemma storage_defender_of_machines (w : W) p :
  az_defender (w_svc w) !! DefenderStorageType = Some p ->
  storage_defender w =
    match az_defender (w_svc w) !! DefenderVirtualMachineType with
    | Some q => (Returned (monitoringLogDataEnabled q, securityAlertsEnabled q), w)
    | None => (Panicked, w)
    end.
Proof. intros Hp. unfold storage_defender, svc_read, gbind. rewrite Hp. by destruct (_ !! DefenderVirtualMachineType). Qed.

(** Of the instances of a backup vault only the last page is used. *)
Lemma last_page_wins {A} pages (page : ListResponse A) init :
  last_page ((OK <$> pages) ++ [OK page]) init = OK (lr_Value page).
Proof. revert init. induction pages as [|p pages IH]; intros init; [done|]. apply IH. Qed.

(** A policy id of exactly ten segments passes the length check and panics. *)
Lemma policy_name_panics id (w : W) : length (strings_Split id "/") = 10 -> backupPolicyName id w = (Panicked, w).
Proof.
  intros Hl. unfold backupPolicyName. rewrite bool_decide_eq_false_2 by lia.
  unfold gindex. by rewrite lookup_ge_None_2 by lia.
Qed.

(** Once a backup has been recorded the vaults are never looked up again. *)
Lemma backups_recorded_once (w : W) : az_backupMap (w_svc w) <> ∅ -> discoverBackupVaults w = (Returned None, w).
Proof.
  intros Hm. unfold discoverBackupVaults, svc_read, gbind. rewrite bool_decide_eq_true_2; [done|].
  destruct (decide (size (az_backupMap (w_svc w)) = 0)) as [He%map_size_empty_inv|]; [done|lia].
Qed.

(** The storages of an account are found by its name anywhere in their ids: the
    containers of an account whose name contains it are claimed as well. *)
Lemma foreign_storage_claimed (w : W) :
  let id := "/subscriptions/s/resourceGroups/g/providers/Microsoft.Storage/storageAccounts/data" in
  let other := "/subscriptions/s/resourcegroups/g/providers/microsoft.storage/storageaccounts/data2/blobservices/default/containers/c" in
  storage_ids id [ObjectStorage (mkCommon other "c" None None ∅ None "") None None None [] false] [] w =
    (Returned [other], w).
Proof. vm_compute. reflexivity. Qed.
End Pitfalls.
