(* ===== verification/AzureWitness.v ===== *)
(** A small Azure subscription: the theorems on the Azure discoverer applied to
    concrete answers of the SDK. *)

From S2P Require Import Prelude GoRuntime GoStrings Util GoText Api Pagination OntologyMessages AzureSdk Azure AzureResources AzureProofs.

Definition demo_group : string := "/subscriptions/S/resourceGroups/G1".

Definition demo_arm (name : string) : Arm :=
  mkArm (Some (demo_group +:+ "/providers/Microsoft.Compute/virtualMachines/" +:+ name)) (Some name) (Some "westeurope") ∅.

(** Two machines, the first with an agent, an interface and two disks. *)
Definition demo_vm1 : arm_VirtualMachine :=
  mkArmVirtualMachine (demo_arm "VM1") [Some (Some "/x/OmsAgentForLinux")]
    (Some (mkVmProperties (Some 5%Z) (Some [Some (Some "/NIC/1")])
             (Some (mkStorageProfile (Some (Some (Some "/DISK/os"))) [Some (Some (Some "/DISK/1"))]))
             (Some (mkOSProfile (Some (Some (Some "AutomaticByPlatform"))) None)) (Some (Some (Some true))))).

Definition demo_vm2 : arm_VirtualMachine :=
  mkArmVirtualMachine (demo_arm "VM2") [] (Some (mkVmProperties None None None None None)).

Definition one_page {A} (l : list (option A)) : Pager (ListResponse A) := [OK (mkListResponse l)].
Definition no_lister {A} : Lister A := mkLister (fun _ => []) (fun _ _ => []).

#[global] Instance demo_azure : AzureSdk := {
  az_NewSubscriptionsClient _ := None;
  az_Subscriptions _ := one_page [Some (mkSubscription (Some "/subscriptions/S") (Some "S") (Some "Demo"))];
  az_NewClient _ _ _ := None;
  az_client_type _ := "client";
  az_ResourceGroups _ := one_page [Some (mkArmResourceGroup (mkArm (Some demo_group) (Some "G1") (Some "westeurope") ∅))];
  az_Pricings _ := OK [Some (mkPricing (Some "VirtualMachines") (Some (Some "Standard")))];
  az_Accounts := no_lister;
  az_FileShares _ _ _ := [];
  az_BlobContainers _ _ _ := [];
  az_SqlServers := no_lister;
  az_Databases _ _ _ := [];
  az_ThreatProtection _ _ _ _ := [];
  az_CosmosAccounts := no_lister;
  az_MongoDatabases _ _ _ := [];
  az_VirtualMachines := mkLister (fun _ => [OK (mkListResponse [Some demo_vm1]); OK (mkListResponse [Some demo_vm2])]) (fun _ _ => []);
  az_Disks := no_lister;
  az_DiskEncryptionSet _ _ _ := Err (EText "none");
  az_Sites := no_lister;
  az_SiteConfiguration _ _ _ := (None, None);
  az_ApplicationSettings _ _ _ := Err (EText "none");
  az_Interfaces := no_lister;
  az_LoadBalancers := no_lister;
  az_ApplicationGateways := no_lister;
  az_SecurityGroup _ _ _ := Err (EText "none");
  az_BackupVaults := no_lister;
  az_BackupInstances _ _ _ := [];
  az_BackupPolicy _ _ _ _ := Err (EText "none");
}.

#[global] Instance demo_raw : RawLibrary AzureObject := {
  type_name _ := "object";
  json_Marshal_raw _ := "{}";
}.

Definition demo_world : World unit azureDiscovery unit :=
  mkWorld tt (NewAzureDiscovery [azure_WithAuthorizer]) [] 0.

(** The whole subscription is listed: the account, its group and both machines. *)
Example demo_listing :
  match fst (azure_List demo_world) with
  | Returned (l, None) => (fun o => match o with Some r => GetId r | None => "nil" end) <$> l
  | _ => []
  end = ["/subscriptions/s"; "/subscriptions/s/resourcegroups/g1";
         "/subscriptions/s/resourcegroups/g1/providers/microsoft.compute/virtualmachines/vm1";
         "/subscriptions/s/resourcegroups/g1/providers/microsoft.compute/virtualmachines/vm2"].
Proof. vm_compute. reflexivity. Qed.

Lemma demo_reachable : azure_reachable demo_world.
Proof. apply azure_new. repeat constructor. Qed.

Lemma azure_listing_wellformed_witness :
  exists l w', azure_List demo_world = (Returned (l, None), w') /\ length l = 4 /\
    forall o, o ∈ l -> exists r, o = Some r /\ lower (GetId r) /\
      (is_group r = false -> forall p, Common_ParentId (common_of r) = Some p -> lower p).
Proof.
  destruct (azure_List demo_world) as [[[l [e|]]| |] w'] eqn:Hr; try (vm_compute in Hr; discriminate).
  exists l, w'. split; [done|]. split; [|exact (azure_listing_wellformed demo_world l None w' demo_reachable Hr)].
  vm_compute in Hr. by injection Hr as <- _.
Defined.

