(* ===== verification/Aws.v ===== *)
(** service/discovery/aws: the EC2, Lambda and S3 discoverers.

    The AWS SDK is third party: its calls are the class [AwsSdk], its answers the
    records below with the fields the discoverers read.  A struct in a slice cannot
    be nil, a pointer is an [option]. *)

From S2P Require Import Prelude GoRuntime GoStrings Util GoText Authz GoJson OntologyMessages.

(** ** SDK types *)

(** What [errors.As] finds in the chain of an SDK error: an API error, or the
    error of an operation. *)
Record APIError := mkAPIError { ErrorCode : string; ErrorFault : string; ErrorMessage : string }.
Record OperationError := mkOperationError { oe_Service : string; oe_Operation : string; oe_Unwrap : error }.
Record aws_error := mkAwsError {
  as_APIError : option APIError;
  as_OperationError : option OperationError;
  aws_err : error;
}.

(** The answer of an SDK call. *)
Inductive aws_res (A : Type) := AwsOK (a : A) | AwsErr (e : aws_error).
Arguments AwsOK {A} a.
Arguments AwsErr {A} e.

Record Tag := mkTag { Tag_Key : option string; Tag_Value : option string }.

Record Volume := mkVolume {
  VolumeId : option string;
  Volume_Encrypted : option bool;
  Volume_CreateTime : option Z;
  Volume_Tags : list Tag;
}.

Record ec2_NetworkInterface := mkEc2NetworkInterface {
  NetworkInterfaceId : option string;
  NetworkInterface_TagSet : list Tag;
}.

Record Instance_ := mkInstance {
  InstanceId : option string;
  Instance_Tags : list Tag;
  (** [Ebs.VolumeId] of the mappings *)
  BlockDeviceMappings : list (option (option string));
  (** the ids of the attached interfaces *)
  Instance_NetworkInterfaces : list (option string);
}.

Record Reservation := mkReservation { Reservation_Instances : list Instance_ }.

Record FunctionConfiguration := mkFunctionConfiguration { FunctionArn : option string; FunctionName : option string }.

Record ListFunctionsOutput := mkListFunctionsOutput {
  Functions : list FunctionConfiguration;
  NextMarker : option string;
}.

Record s3_Bucket := mkS3Bucket { Bucket_Name : option string; Bucket_CreationDate : option Z }.

(** [Rules[i].ApplyServerSideEncryptionByDefault] *)
Record EncryptionDefault := mkEncryptionDefault { SSEAlgorithm : string; KMSMasterKeyID : option string }.
(** [GetBucketEncryptionOutput.ServerSideEncryptionConfiguration] *)
Record GetBucketEncryptionOutput := mkGetBucketEncryptionOutput { Encryption_Rules : option (list (option EncryptionDefault)) }.
Record GetBucketPolicyOutput := mkGetBucketPolicyOutput { Policy_ : option string }.
Record GetBucketLocationOutput := mkGetBucketLocationOutput { LocationConstraint : string }.

Class AwsSdk := {
  aws_LoadDefaultConfig : nat -> res string;
  aws_GetCallerIdentity : nat -> aws_res (option string);
  aws_DescribeVolumes : nat -> aws_res (list Volume);
  aws_DescribeNetworkInterfaces : nat -> aws_res (list ec2_NetworkInterface);
  aws_DescribeInstances : nat -> aws_res (list Reservation);
  aws_ListFunctions : option string -> nat -> aws_res ListFunctionsOutput;
  aws_ListBuckets : nat -> aws_res (list s3_Bucket);
  aws_GetBucketEncryption : string -> nat -> aws_res GetBucketEncryptionOutput;
  aws_GetBucketPolicy : string -> nat -> aws_res GetBucketPolicyOutput;
  aws_GetBucketLocation : string -> nat -> aws_res GetBucketLocationOutput;
}.

(** ** aws.go *)

(** The fields of [aws.Config] that are used, and the account. *)
Record Client := mkClient { cfg_Region : string; accountID : option string }.

Definition formatError (ae : APIError) : error :=
  EText ("code: " +:+ ErrorCode ae +:+ ", fault: " +:+ ErrorFault ae +:+ ", message: " +:+ ErrorMessage ae).

Definition prettyError (err : aws_error) : error :=
  match as_APIError err with Some ae => formatError ae | None => aws_err err end.

(** ** S3 types *)

Record bucket := mkBucket {
  bucket_arn : string;
  bucket_name : string;
  bucket_creationTime : Z;
  bucket_endpoint : string;
  bucket_region : string;
  bucket_raw : s3_Bucket * GetBucketLocationOutput;
}.

Record Statement := mkStatement {
  (** an [interface{}]; nil is [JNull] *)
  Statement_Action : json;
  Statement_Effect : string;
  Statement_Resource : json;
  (** [Condition.Bool.AwsSecureTransport] *)
  AwsSecureTransport : bool;
}.

Record BucketPolicy := mkBucketPolicy {
  BucketPolicy_ID : string;
  BucketPolicy_Version : string;
  BucketPolicy_Statement : list Statement;
}.

(** *** [json.Unmarshal] into a [BucketPolicy]

    The fields of the embedded [Bool], which has no tag, are fields of the condition
    itself. *)
Definition decode_condition (k : string) (v : json) (secure : bool) : res bool :=
  if strings_EqualFold k "aws:SecureTransport" then decode_bool v secure else OK secure.

Definition decode_statement (k : string) (v : json) (s : Statement) : res Statement :=
  if strings_EqualFold k "Action" then
    OK (mkStatement v (Statement_Effect s) (Statement_Resource s) (AwsSecureTransport s))
  else if strings_EqualFold k "Effect" then
    match decode_string v (Statement_Effect s) with
    | OK e => OK (mkStatement (Statement_Action s) e (Statement_Resource s) (AwsSecureTransport s))
    | Err e => Err e
    end
  else if strings_EqualFold k "Resource" then
    OK (mkStatement (Statement_Action s) (Statement_Effect s) v (AwsSecureTransport s))
  else if strings_EqualFold k "Condition" then
    match decode_object decode_condition v (AwsSecureTransport s) with
    | OK b => OK (mkStatement (Statement_Action s) (Statement_Effect s) (Statement_Resource s) b)
    | Err e => Err e
    end
  else OK s.

Definition zero_statement : Statement := mkStatement JNull "" JNull false.

Fixpoint decode_statements (l : list json) : res (list Statement) :=
  match l with
  | [] => OK []
  | j :: l =>
      match decode_object decode_statement j zero_statement, decode_statements l with
      | OK s, OK ss => OK (s :: ss)
      | Err e, _ => Err e
      | _, Err e => Err e
      end
  end.

Definition decode_policy (k : string) (v : json) (p : BucketPolicy) : res BucketPolicy :=
  if strings_EqualFold k "id" then
    match decode_string v (BucketPolicy_ID p) with
    | OK x => OK (mkBucketPolicy x (BucketPolicy_Version p) (BucketPolicy_Statement p))
    | Err e => Err e
    end
  else if strings_EqualFold k "Version" then
    match decode_string v (BucketPolicy_Version p) with
    | OK x => OK (mkBucketPolicy (BucketPolicy_ID p) x (BucketPolicy_Statement p))
    | Err e => Err e
    end
  else if strings_EqualFold k "Statement" then
    match v with
    | JNull => OK (mkBucketPolicy (BucketPolicy_ID p) (BucketPolicy_Version p) [])
    | JArr l => match decode_statements l with
                | OK ss => OK (mkBucketPolicy (BucketPolicy_ID p) (BucketPolicy_Version p) ss)
                | Err e => Err e
                end
    | _ => type_error
    end
  else OK p.

Definition json_Unmarshal_policy `{JsonText} (text : string) : res BucketPolicy :=
  match json_read text with
  | Err e => Err e
  | OK j => decode_object decode_policy j (mkBucketPolicy "" "" [])
  end.

(** ** Values handed to [discovery.Raw] *)
Inductive AwsObject :=
| AVolume (v : Volume) | AInterface (i : ec2_NetworkInterface) | AReservation (r : Reservation)
| AFunction (f : FunctionConfiguration) | ABucket (b : bucket)
| AEncryption (e : option GetBucketEncryptionOutput) | APolicy (p : option GetBucketPolicyOutput)
| ABucketRaw (r : s3_Bucket * GetBucketLocationOutput).

Section Aws.
Context {DB S T : Type} `{JsonText, AwsSdk, RawLibrary AwsObject}.
Abbreviation W := (World DB S T).

Definition aws_NewClient_ : Go W (res Client) :=
  cfg <-? remote aws_LoadDefaultConfig ! EWrap "could not load default config" ;;
  resp <- remote aws_GetCallerIdentity ;;
  match resp with
  | AwsErr e => gerr (prettyError e)
  | AwsOK account => gok (mkClient cfg account)
  end.

(** ** compute.go *)

Record computeDiscovery := mkComputeDiscovery {
  compute_isDiscovering : bool;
  compute_awsConfig : Client;
  compute_csID : string;
}.

Definition NewAwsComputeDiscovery (client : Client) (cloudServiceID : string) : computeDiscovery :=
  mkComputeDiscovery true client cloudServiceID.

Definition compute_Name : string := "AWS Compute".

(** [if err != nil { return nil, prettyError(err) }] *)
Definition aws_call {A B} (m : Go W (aws_res A)) (k : A -> Go W (res B)) : Go W (res B) :=
  r <- m ;; match r with AwsErr e => gerr (prettyError e) | AwsOK a => k a end.

Definition arnify (d : computeDiscovery) (typ : string) (ID : option string) : string :=
  "arn:aws:ec2:" +:+ cfg_Region (compute_awsConfig d) +:+ ":" +:+ Deref (accountID (compute_awsConfig d)) +:+
  ":" +:+ typ +:+ "/" +:+ Deref ID.

Fixpoint nameOrID (tags : list Tag) (ID : option string) : string :=
  match tags with
  | [] => Deref ID
  | tag :: tags => if bool_decide (Deref (Tag_Key tag) = "Name") then Deref (Tag_Value tag) else nameOrID tags ID
  end.

Definition getNameOfVM (vm : Instance_) : string := nameOrID (Instance_Tags vm) (InstanceId vm).

Definition aws_labels (tags : list Tag) : gmap string string :=
  foldl (fun labels tag => <[Deref (Tag_Key tag) := Deref (Tag_Value tag)]> labels) ∅ tags.

Definition compute_region (d : computeDiscovery) : option GeoLocation :=
  Some (mkGeoLocation (cfg_Region (compute_awsConfig d))).

(** One volume of [discoverVolumes]. *)
Definition handle_volume (d : computeDiscovery) (volume : Volume) : Ontology :=
  let enabled := Deref (Volume_Encrypted volume) in
  BlockStorage
    (mkCommon (arnify d "volume" (VolumeId volume)) (nameOrID (Volume_Tags volume) (VolumeId volume))
       (Some (default zero_time (Volume_CreateTime volume))) (compute_region d) (aws_labels (Volume_Tags volume)) None
       (Raw [AVolume volume]))
    (Some (ManagedKeyEncryption enabled (if enabled then "AES-256" else ""))) [].

Definition aws_discoverVolumes (d : computeDiscovery) : Go W (res (list Ontology)) :=
  aws_call (remote aws_DescribeVolumes) (fun volumes => gok (handle_volume d <$> volumes)).

(** One interface of [discoverNetworkInterfaces]. *)
Definition handle_interface (d : computeDiscovery) (ifc : ec2_NetworkInterface) : Ontology :=
  NetworkInterface
    (mkCommon (arnify d "network-interface" (NetworkInterfaceId ifc))
       (nameOrID (NetworkInterface_TagSet ifc) (NetworkInterfaceId ifc)) None (compute_region d)
       (aws_labels (NetworkInterface_TagSet ifc)) None (Raw [AInterface ifc]))
    None.

Definition aws_discoverNetworkInterfaces (d : computeDiscovery) : Go W (res (list Ontology)) :=
  aws_call (remote aws_DescribeNetworkInterfaces) (fun ifcs => gok (handle_interface d <$> ifcs)).

(** The loop over the mappings. *)
Fixpoint mapBlockStorageIDsOfVM (d : computeDiscovery) (mappings : list (option (option string))) (ids : list string)
  : Go W (list string) :=
  match mappings with
  | [] => gret ids
  | mapping :: mappings =>
      id <- gderef mapping ;; mapBlockStorageIDsOfVM d mappings (ids ++ [arnify d "volume" id])
  end.

Definition getNetworkInterfacesOfVM (d : computeDiscovery) (vm : Instance_) : list string :=
  (fun id => arnify d "network-interface" id) <$> Instance_NetworkInterfaces vm.

Definition getBootLog : BootLogging := mkBootLogging false [] None false false.
Definition getOSLog : OSLogging := mkOSLogging false None [] false false.

(** One instance of [discoverVirtualMachines]. *)
Definition handle_instance (d : computeDiscovery) (reservation : Reservation) (vm : Instance_) : Go W Ontology :=
  disks <- mapBlockStorageIDsOfVM d (BlockDeviceMappings vm) [] ;;
  gret (VirtualMachine
    (mkCommon (arnify d "instance" (InstanceId vm)) (getNameOfVM vm) None (compute_region d)
       (aws_labels (Instance_Tags vm)) None (Raw [AReservation reservation]))
    (getNetworkInterfacesOfVM d vm) disks None (Some getBootLog) (Some getOSLog) None None).

Fixpoint handle_instances (d : computeDiscovery) (reservation : Reservation) (vms : list Instance_) (acc : list Ontology)
  : Go W (list Ontology) :=
  match vms with
  | [] => gret acc
  | vm :: vms => r <- handle_instance d reservation vm ;; handle_instances d reservation vms (acc ++ [r])
  end.

Fixpoint handle_reservations (d : computeDiscovery) (reservations : list Reservation) (acc : list Ontology)
  : Go W (list Ontology) :=
  match reservations with
  | [] => gret acc
  | r :: reservations =>
      acc <- handle_instances d r (Reservation_Instances r) acc ;; handle_reservations d reservations acc
  end.

Definition aws_discoverVirtualMachines (d : computeDiscovery) : Go W (res (list Ontology)) :=
  aws_call (remote aws_DescribeInstances) (fun reservations =>
    l <- handle_reservations d reservations [] ;; gok l).

Definition handle_function (d : computeDiscovery) (function : FunctionConfiguration) : Ontology :=
  Function_
    (mkCommon (Deref (FunctionArn function)) (Deref (FunctionName function)) None (compute_region d) ∅ None
       (Raw [AFunction function]))
    [] None "" "" false [].

Definition mapFunctionResources (d : computeDiscovery) (functions : list FunctionConfiguration) : list Ontology :=
  handle_function d <$> functions.

(** The loop over the pages of functions, with a bound on their number. *)
Fixpoint function_pages (fuel : nat) (d : computeDiscovery) (nextMarker : option string) (resources : list Ontology)
  : Go W (res (list Ontology)) :=
  match fuel with
  | 0 => gfuel
  | Datatypes.S fuel =>
      aws_call (remote (aws_ListFunctions nextMarker)) (fun resp =>
        let resources := resources ++ mapFunctionResources d (Functions resp) in
        match NextMarker resp with
        | None => gok resources
        | Some m => function_pages fuel d (Some m) resources
        end)
  end.

Definition discoverFunctions (fuel : nat) (d : computeDiscovery) : Go W (res (list Ontology)) :=
  function_pages fuel d None [].

Definition compute_List (fuel : nat) (d : computeDiscovery) : Go W (res (list Ontology)) :=
  volumes <-? aws_discoverVolumes d ! EWrap "could not discover volumes" ;;
  ifcs <-? aws_discoverNetworkInterfaces d ! EWrap "could not discover volumes" ;;
  vms <-? aws_discoverVirtualMachines d ! EWrap "could not discover virtual machines" ;;
  functions <-? discoverFunctions fuel d ! EWrap "could not discover functions" ;;
  gok (volumes ++ ifcs ++ vms ++ functions).

(** ** storage.go *)

Record awsS3Discovery := mkAwsS3Discovery {
  s3_isDiscovering : bool;
  s3_awsConfig : Client;
  s3_csID : string;
}.

Definition NewAwsStorageDiscovery (client : Client) (cloudServiceID : string) : awsS3Discovery :=
  mkAwsS3Discovery true client cloudServiceID.

Definition s3_Name : string := "AWS Blob Storage".

Definition getRegion (bucket : string) : Go W (res (string * GetBucketLocationOutput)) :=
  resp <- remote (aws_GetBucketLocation bucket) ;;
  match resp with
  | AwsErr e =>
      gerr (match as_OperationError e with
            | Some oe => EText ("failed to call service: " +:+ oe_Service oe +:+ ", operation: " +:+ oe_Operation oe +:+
                                ", error: " +:+ Error (oe_Unwrap oe))
            | None => aws_err e
            end)
  | AwsOK resp => gok (LocationConstraint resp, resp)
  end.

(** The loop over the buckets; an error comes with the buckets found so far. *)
Fixpoint collect_buckets (d : awsS3Discovery) (l : list s3_Bucket) (buckets : list bucket)
  : Go W (list bucket * option error) :=
  match l with
  | [] => gret (buckets, None)
  | b :: l =>
      r <- getRegion (Deref (Bucket_Name b)) ;;
      match r with
      | Err e => gret (buckets, Some e)
      | OK (region, rawRegion) =>
          if bool_decide (region = cfg_Region (s3_awsConfig d)) then
            name <- gderef (Bucket_Name b) ;;
            collect_buckets d l (buckets ++
              [mkBucket ("arn:aws:s3:::" +:+ name) name (default zero_time (Bucket_CreationDate b))
                 ("https://" +:+ name +:+ ".s3." +:+ region +:+ ".amazonaws.com") region (b, rawRegion)])
          else collect_buckets d l buckets
      end
  end.

Definition getBuckets (d : awsS3Discovery) : Go W (list bucket * option error) :=
  resp <- remote aws_ListBuckets ;;
  match resp with
  | AwsErr e => gret ([], Some (prettyError e))
  | AwsOK l => collect_buckets d l []
  end.

Definition getEncryptionAtRest (d : awsS3Discovery) (b : bucket)
  : Go W (res (option AtRestEncryption * option GetBucketEncryptionOutput)) :=
  resp <- remote (aws_GetBucketEncryption (bucket_name b)) ;;
  match resp with
  | AwsErr e =>
      match as_APIError e with
      | Some ae =>
          if bool_decide (ErrorCode ae = "ServerSideEncryptionConfigurationNotFoundError") then gok (None, None)
          else gerr (formatError ae)
      | None => gerr (aws_err e)
      end
  | AwsOK resp =>
      rules <- gderef (Encryption_Rules resp) ;;
      rule <- gderef (rules !! 0) ;;
      rule <- gderef rule ;;
      let alg := SSEAlgorithm rule in
      if bool_decide (alg = "AES256") then gok (Some (ManagedKeyEncryption true alg), Some resp)
      else gok (Some (CustomerKeyEncryption true ""
             ("arn:aws:kms:" +:+ bucket_region b +:+ ":" +:+ Deref (accountID (s3_awsConfig d)) +:+ ":key/" +:+
              Deref (KMSMasterKeyID rule))), Some resp)
  end.

(** The two type assertions on the action of a statement: [encoding/json] makes a
    string a [string] and an array an [[]interface{}], never an [[]string]. *)
Definition as_string (j : json) : option string := match j with JStr s => Some s | _ => None end.
Definition as_strings (j : json) : option (list string) := None.

Definition denies_http (statement : Statement) (a : string) : bool :=
  bool_decide (Statement_Effect statement = "Deny") && negb (AwsSecureTransport statement) && bool_decide (a = "s3:*").

(** The loop over the statements. *)
Fixpoint enforced (statements : list Statement) : bool :=
  match statements with
  | [] => false
  | s :: statements =>
      if match as_string (Statement_Action s) with Some a => denies_http s a | None => false end then true
      else if match as_strings (Statement_Action s) with Some l => existsb (denies_http s) l | None => false end then true
      else enforced statements
  end.

Definition s3_transport (enforced : bool) : TransportEncryption := mkTransportEncryption true enforced "TLS" 12 [].

(** [getTransportEncryption] of storage.go. *)
Definition s3_getTransportEncryption (b : string) : Go W (res (TransportEncryption * option GetBucketPolicyOutput)) :=
  resp <- remote (aws_GetBucketPolicy b) ;;
  match resp with
  | AwsErr e =>
      match as_APIError e with
      | Some ae =>
          if bool_decide (ErrorCode ae = "NoSuchBucketPolicy") then gok (s3_transport false, None)
          else gerr (formatError ae)
      | None => gerr (aws_err e)
      end
  | AwsOK resp =>
      match json_Unmarshal_policy (Deref (Policy_ resp)) with
      | Err e => gerr (EText ("error occurred while unmarshalling the bucket policy: " +:+ Error e))
      | OK policy => gok (s3_transport (enforced (BucketPolicy_Statement policy)), Some resp)
      end
  end.

(** The loop over the buckets in [List]; an error comes with the resources so far. *)
Fixpoint list_buckets (d : awsS3Discovery) (buckets : list bucket) (resources : list Ontology)
  : Go W (list Ontology * option error) :=
  match buckets with
  | [] => gret (resources, None)
  | b :: buckets =>
      rest <- getEncryptionAtRest d b ;;
      match rest with
      | Err e => gret (resources, Some e)
      | OK (encryptionAtRest, rawBucketEncOutput) =>
          transit <- s3_getTransportEncryption (bucket_name b) ;;
          match transit with
          | Err e => gret (resources, Some e)
          | OK (encryptionAtTransit, rawBucketTranspEnc) =>
              let common := mkCommon (bucket_arn b) (bucket_name b) (Some (bucket_creationTime b))
                              (Some (mkGeoLocation (bucket_region b))) ∅ None
                              (Raw [ABucket b; AEncryption rawBucketEncOutput; APolicy rawBucketTranspEnc;
                                    ABucketRaw (bucket_raw b)]) in
              list_buckets d buckets (resources ++
                [ObjectStorage common encryptionAtRest None None [] false;
                 ObjectStorageService common [] (Some encryptionAtTransit)
                   (Some (mkHttpEndpoint (bucket_endpoint b) (Some encryptionAtTransit)))])
          end
      end
  end.

Definition s3_List (d : awsS3Discovery) : Go W (list Ontology * option error) :=
  r <- getBuckets d ;;
  match r with
  | (_, Some e) => gret ([], Some e)
  | (buckets, None) => list_buckets d buckets []
  end.
End Aws.
