(* ===== verification/AwsProofs.v ===== *)
(** The AWS discoverers: what the EC2 and Lambda discoverer lists and how its
    resources refer to each other, the pages of functions, the buckets of the
    configured region and the policies that enforce HTTPS. *)

From S2P Require Import Prelude GoRuntime GoStrings Util GoText Authz GoJson OntologyMessages Aws.

Section Compute.
Context {DB S T : Type} `{JsonText, AwsSdk, RawLibrary AwsObject}.
Abbreviation W := (World DB S T).
Context (d : computeDiscovery).

(** [k] calls later. *)
Definition later (k : nat) (w : W) : W := mkWorld (w_db w) (w_svc w) (w_tasks w) (w_tick w + k).

(** *** Pages of functions *)

(** The pages the Lambda API serves from a marker on, and the error that ends them. *)
Inductive served : nat -> option string -> list (list FunctionConfiguration) -> option aws_error -> Prop :=
| served_last t m resp : aws_ListFunctions m t = AwsOK resp -> NextMarker resp = None -> served t m [Functions resp] None
| served_more t m m' resp pages e : aws_ListFunctions m t = AwsOK resp -> NextMarker resp = Some m' ->
    served (t + 1) (Some m') pages e -> served t m (Functions resp :: pages) e
| served_error t m e : aws_ListFunctions m t = AwsErr e -> served t m [] (Some e).

Lemma function_pages_served t m pages e fuel acc (w : W) :
  served t m pages e -> length pages < fuel -> w_tick w = t ->
  exists w', function_pages fuel d m acc w =
    (Returned match e with
              | None => OK (acc ++ mapFunctionResources d (concat pages))
              | Some e => Err (prettyError e)
              end, w').
Proof.
  intros Hs. revert fuel acc w. induction Hs as [t m resp Hc Hn|t m m' resp pages e Hc Hn Hs IH|t m e Hc];
    intros [|fuel] acc w Hf Ht; simpl in Hf; try lia; cbn [function_pages].
  - unfold aws_call, gbind, remote. rewrite Ht, Hc, Hn. eexists. simpl. by rewrite app_nil_r.
  - unfold aws_call, gbind at 1, remote. rewrite Ht, Hc, Hn.
    destruct (IH fuel (acc ++ mapFunctionResources d (Functions resp)) (later 1 w)) as [w' Hw'];
      [lia|by rewrite <-Ht|]. unfold later in Hw'. rewrite Ht in Hw'. rewrite Hw'. exists w'. destruct e; [done|].
    unfold mapFunctionResources. simpl. by rewrite fmap_app, app_assoc.
  - unfold aws_call, gbind, remote. rewrite Ht, Hc. by eexists.
Qed.

(** *** Instances *)

(** Every block device mapping of the instance is an EBS volume. *)
Definition ebs_only (vm : Instance_) : Prop := Forall is_Some (BlockDeviceMappings vm).

Definition volume_ids (vm : Instance_) : list string :=
  (fun o => match o with Some id => arnify d "volume" id | None => "" end) <$> BlockDeviceMappings vm.

Lemma mappings_total l ids (w : W) : Forall is_Some l ->
  mapBlockStorageIDsOfVM d l ids w =
  (Returned (ids ++ ((fun o => match o with Some id => arnify d "volume" id | None => "" end) <$> l)), w).
Proof.
  intros Hl. revert ids. induction Hl as [|x l [id ->] Hl IH]; intros ids; simpl; [by rewrite app_nil_r|].
  rewrite gbind_ret, IH. by rewrite <-app_assoc.
Qed.

(** The message of an instance. *)
Definition instance_message (reservation : Reservation) (vm : Instance_) : Ontology :=
  VirtualMachine
    (mkCommon (arnify d "instance" (InstanceId vm)) (nameOrID (Instance_Tags vm) (InstanceId vm)) None
       (compute_region d) (aws_labels (Instance_Tags vm)) None (Raw [AReservation reservation]))
    (arnify d "network-interface" <$> Instance_NetworkInterfaces vm) (volume_ids vm) None
    (Some getBootLog) (Some getOSLog) None None.

Lemma instances_total reservation vms acc (w : W) : Forall ebs_only vms ->
  handle_instances d reservation vms acc w = (Returned (acc ++ (instance_message reservation <$> vms)), w).
Proof.
  intros Hl. revert acc. induction Hl as [|vm vms Hvm Hl IH]; intros acc; simpl; [by rewrite app_nil_r|].
  unfold handle_instance. rewrite gbind_assoc, (gbind_eq _ _ _ _ _ (mappings_total _ _ w Hvm)), gbind_ret, IH.
  by rewrite <-app_assoc.
Qed.

(** The instances of all reservations, each with its reservation. *)
Definition all_instances (l : list Reservation) : list (Reservation * Instance_) :=
  l ≫= fun r => pair r <$> Reservation_Instances r.

Lemma reservations_total l acc (w : W) : Forall (fun p => ebs_only (snd p)) (all_instances l) ->
  handle_reservations d l acc w = (Returned (acc ++ ((fun p => instance_message (fst p) (snd p)) <$> all_instances l)), w).
Proof.
  revert acc. induction l as [|r l IH]; intros acc Hl; simpl; [by rewrite app_nil_r|].
  unfold all_instances in *. cbn in Hl. apply Forall_app in Hl as [Hr Hl]. rewrite Forall_fmap in Hr.
  erewrite gbind_eq by (apply instances_total; exact Hr). rewrite IH by done. cbn.
  rewrite fmap_app, <-app_assoc, <-list_fmap_compose. done.
Qed.

(** The disks and interfaces an instance refers to are the ids under which the
    volumes and interfaces are listed. *)
Lemma aws_references vm (v : Volume) (i : ec2_NetworkInterface) :
  (Some (VolumeId v) ∈ BlockDeviceMappings vm -> GetId (handle_volume d v) ∈ volume_ids vm) /\
  (NetworkInterfaceId i ∈ Instance_NetworkInterfaces vm ->
     GetId (handle_interface d i) ∈ (arnify d "network-interface" <$> Instance_NetworkInterfaces vm)).
Proof.
  split; intros Hv; apply list_elem_of_fmap; [by exists (Some (VolumeId v))|by exists (NetworkInterfaceId i)].
Qed.

(** What the three EC2 calls and the Lambda API answer to a listing that starts
    now. *)
Record ec2_answers (w : W) (vs : list Volume) (ifs : list ec2_NetworkInterface) (rs : list Reservation)
    (fs : list (list FunctionConfiguration)) : Prop := {
  answered_volumes : aws_DescribeVolumes (w_tick w) = AwsOK vs;
  answered_interfaces : aws_DescribeNetworkInterfaces (w_tick w + 1) = AwsOK ifs;
  answered_instances : aws_DescribeInstances (w_tick w + 1 + 1) = AwsOK rs;
  answered_functions : served (w_tick w + 1 + 1 + 1) None fs None;
}.

(** One of the calls of the listing failed with [e]. *)
Definition ec2_failure (w : W) (e : error) : Prop :=
  exists ae, errors_Is e (prettyError ae) = true /\
    (aws_DescribeVolumes (w_tick w) = AwsErr ae \/ aws_DescribeNetworkInterfaces (w_tick w + 1) = AwsErr ae \/
     aws_DescribeInstances (w_tick w + 1 + 1) = AwsErr ae \/ exists fs, served (w_tick w + 1 + 1 + 1) None fs (Some ae)).

Lemma errors_Is_refl e : errors_Is e e = true.
Proof. destruct e; simpl; by rewrite bool_decide_eq_true_2. Qed.

Lemma errors_Is_wrap p e e' : errors_Is e e' = true -> errors_Is (EWrap p e) e' = true.
Proof. intros He. simpl. by rewrite He, orb_true_r. Qed.

Lemma ec2_failed (w : W) p ae :
  aws_DescribeVolumes (w_tick w) = AwsErr ae \/ aws_DescribeNetworkInterfaces (w_tick w + 1) = AwsErr ae \/
  aws_DescribeInstances (w_tick w + 1 + 1) = AwsErr ae \/ (exists fs, served (w_tick w + 1 + 1 + 1) None fs (Some ae)) ->
  ec2_failure w (EWrap p (prettyError ae)).
Proof. intros Hd. exists ae. split; [|done]. apply errors_Is_wrap, errors_Is_refl. Qed.

(** C30. The compute discoverer answers, with enough fuel for the pages of functions,
    when the instances have EBS volumes only: every volume, interface, instance and
    function AWS delivers is listed once and in order, and an instance refers to its
    volumes by the ids under which they are listed; or the error of the call
    that failed is returned and nothing is listed. *)
Theorem aws_compute_listed (w : W) fuel fs oe :
  (forall rs, aws_DescribeInstances (w_tick w + 1 + 1) = AwsOK rs -> Forall (fun p => ebs_only (snd p)) (all_instances rs)) ->
  served (w_tick w + 1 + 1 + 1) None fs oe -> length fs < fuel ->
  exists r w', compute_List fuel d w = (Returned r, w') /\
    match r with
    | OK l => exists vs ifs rs, ec2_answers w vs ifs rs fs /\
        l = (handle_volume d <$> vs) ++ (handle_interface d <$> ifs) ++
            ((fun p => instance_message (fst p) (snd p)) <$> all_instances rs) ++ (handle_function d <$> concat fs) /\
        (forall vm v, Some (VolumeId v) ∈ BlockDeviceMappings vm -> GetId (handle_volume d v) ∈ volume_ids vm)
    | Err e => ec2_failure w e
    end.
Proof.
  intros Hebs Hs Hf. unfold compute_List, aws_discoverVolumes, aws_discoverNetworkInterfaces, aws_discoverVirtualMachines,
    discoverFunctions, aws_call, gtry, gbind, remote, gok, gerr, gret. cbn [w_tick].
  destruct (aws_DescribeVolumes (w_tick w)) as [vs|ae] eqn:Ev.
  2: { eexists (Err _), _. split; [reflexivity|]. apply ec2_failed. auto. }
  cbn [w_tick]. destruct (aws_DescribeNetworkInterfaces (w_tick w + 1)) as [ifs|ae] eqn:Ei.
  2: { eexists (Err _), _. split; [reflexivity|]. apply ec2_failed. auto. }
  cbn [w_tick]. destruct (aws_DescribeInstances (w_tick w + 1 + 1)) as [rs|ae] eqn:Er.
  2: { eexists (Err _), _. split; [reflexivity|]. apply ec2_failed. auto. }
  cbn [w_tick w_db w_svc w_tasks]. rewrite (reservations_total rs [] _ (Hebs rs eq_refl)).
  destruct (function_pages_served _ _ _ _ fuel [] (mkWorld (w_db w) (w_svc w) (w_tasks w) (w_tick w + 1 + 1 + 1)) Hs Hf)
    as [w' Hw']; [done|]. rewrite Hw'. destruct oe as [ae|].
  - eexists (Err _), _. split; [reflexivity|]. apply ec2_failed. eauto 6.
  - eexists (OK _), _. split; [reflexivity|]. exists vs, ifs, rs. split; [by split|]. split; [done|].
    intros vm v. apply (aws_references vm v (mkEc2NetworkInterface None [])).
Qed.

End Compute.

(** ** Buckets *)

Section Buckets.
Context {DB S T : Type} `{JsonText, AwsSdk, RawLibrary AwsObject}.
Abbreviation W := (World DB S T).
Context (d : awsS3Discovery).

(** A statement that denies everything to clients without a secure transport, as
    the discoverer understands it. *)
Definition https_only (s : Statement) : Prop :=
  Statement_Action s = JStr "s3:*" /\ Statement_Effect s = "Deny" /\ AwsSecureTransport s = false.

Lemma enforced_spec l : enforced l = true <-> exists s, s ∈ l /\ https_only s.
Proof.
  induction l as [|s l IH]; simpl; [split; [done|]; intros (? & ?%not_elem_of_nil & _); done|].
  set (found := match as_string (Statement_Action s) with Some a => denies_http s a | None => false end).
  assert (Hs : found = true <-> https_only s).
  { unfold found. unfold https_only, denies_http. destruct (Statement_Action s) as [| | |a| |]; simpl; [naive_solver..| |naive_solver|naive_solver].
    rewrite !andb_true_iff, !bool_decide_eq_true, negb_true_iff. naive_solver. }
  destruct found.
  - split; [|done]. intros _. exists s. split; [set_solver|]. by apply Hs.
  - rewrite IH. split; intros (x & Hx & Hh); exists x; (split; [set_solver|done]).
Qed.


(** A condition as AWS writes it, nested below its operator, is not read: the flag
    keeps its zero value, whatever the condition says. *)
Lemma nested_condition_ignored v b : decode_object decode_condition (JObj [("Bool", v)]) b = OK b.
Proof. done. Qed.

(** A statement with a list of actions never enforces HTTPS. *)
Lemma action_list_ignored l effect r b : enforced [mkStatement (JArr l) effect r b] = false.
Proof. done. Qed.

(** A bucket whose location is not the configured region is left out; in
    us-east-1 AWS answers the empty location. *)
Lemma other_region_skipped b l acc (w : W) name loc :
  Bucket_Name b = Some name -> aws_GetBucketLocation name (w_tick w) = AwsOK loc ->
  LocationConstraint loc <> cfg_Region (s3_awsConfig d) ->
  collect_buckets d (b :: l) acc w = collect_buckets d l acc (later 1 w).
Proof.
  intros Hn Hl Hr. cbn [collect_buckets]. rewrite Hn. unfold getRegion, gbind at 1 2, remote. cbn [Deref].
  rewrite Hl. cbn. by rewrite bool_decide_eq_false_2.
Qed.
End Buckets.
