(* ===== verification/K8s.v ===== *)
(** service/discovery/k8s: the compute, network and storage discoverers of
    Kubernetes.

    The Kubernetes client is third party: its list calls are the class
    [Kubernetes], its objects the records below with the fields the discoverers
    read.  A volume source is the list of its pointers that are not nil. *)

From S2P Require Import Prelude GoRuntime GoStrings Util OntologyMessages AzureSdk AzureResources.

(** ** API objects *)

Record ObjectMeta := mkObjectMeta {
  meta_Name : string;
  meta_Namespace : string;
  meta_UID : string;
  meta_Labels : gmap string string;
  meta_CreationTimestamp : Z;
}.

(** The pointers of [v1.VolumeSource] and [v1.PersistentVolumeSource]; the ones the
    discoverers do not name are [OtherSource]. *)
Inductive source :=
| AWSElasticBlockStore | AzureDisk | Cinder | FlexVolume | CephFS | Glusterfs | GCEPersistentDisk | RBD | StorageOS
| FC | PortworxVolume | ISCSI | Flocker
| AzureFile | EmptyDir | NFS | HostPath | Secret
| OtherSource.

#[global] Instance source_eq_dec : EqDecision source.
Proof. solve_decision. Defined.

Definition VolumeSource := list source.

Record k8s_Volume := mkK8sVolume { vol_Name : string; vol_VolumeSource : VolumeSource }.
Record Pod := mkPod { pod_meta : ObjectMeta; pod_Volumes : list k8s_Volume }.
Record PersistentVolume := mkPersistentVolume { pv_meta : ObjectMeta; pv_Source : VolumeSource }.
Record k8s_Service := mkK8sService { service_meta : ObjectMeta; service_Ports : list Z; service_ClusterIPs : list string }.
(** [HTTP.Paths[i].Path] *)
Record IngressRule := mkIngressRule { rule_Host : string; rule_HTTP : option (list string) }.
Record Ingress := mkIngress {
  ingress_meta : ObjectMeta;
  ingress_Rules : list IngressRule;
  (** a slice that may be nil *)
  ingress_TLS : option (list unit);
}.

Inductive KubernetesObject :=
| KPod (p : Pod) | KVolume (v : k8s_Volume) | KPersistentVolume (v : PersistentVolume) | KService (s : k8s_Service)
| KIngress (i : Ingress).

Class Kubernetes := {
  (** the home directory, and the configuration and client made from it *)
  k8s_HomeDir : string;
  k8s_BuildConfigFromFlags : string -> nat -> option error;
  k8s_NewForConfig : nat -> option error;
  k8s_Pods : nat -> res (list Pod);
  k8s_Services : nat -> res (list k8s_Service);
  k8s_Ingresses : nat -> res (list Ingress);
  k8s_PersistentVolumes : nat -> res (list PersistentVolume);
}.

Section K8s.
Context {DB S T : Type} `{Kubernetes, RawLibrary KubernetesObject}.
Abbreviation W := (World DB S T).

(** ** k8s.go *)

Record k8sDiscovery := mkK8sDiscovery { k8s_csID : string }.

Definition AuthFromKubeConfig : Go W (option error) :=
  if bool_decide (k8s_HomeDir = "") then gret (Some (EText "could not find kubeconfig"))
  else
    e <- remote (k8s_BuildConfigFromFlags (k8s_HomeDir +:+ "/.kube/config")) ;;
    match e with
    | Some e => gret (Some (EWrap "could not read kubeconfig" e))
    | None =>
        e <- remote k8s_NewForConfig ;;
        match e with Some e => gret (Some (EWrap "could not create client" e)) | None => gret None end
    end.

(** ** compute.go *)

Definition getContainerResourceID (pod : Pod) : string :=
  "/namespaces/" +:+ meta_Namespace (pod_meta pod) +:+ "/containers/" +:+ meta_Name (pod_meta pod).

Definition handlePod (pod : Pod) : Ontology :=
  let m := pod_meta pod in
  Container
    (mkCommon (getContainerResourceID pod) (meta_Name m) (Some (meta_CreationTimestamp m)) None (meta_Labels m) None
       (Raw [KPod pod]))
    ([] ++ [meta_Namespace m]).

(** The conditions on the volume source. *)
Definition is_block (vs : VolumeSource) : bool :=
  existsb (fun k => bool_decide (k ∈ vs))
    [AWSElasticBlockStore; AzureDisk; Cinder; FlexVolume; CephFS; Glusterfs; GCEPersistentDisk; RBD; StorageOS;
     FC; PortworxVolume; ISCSI; Flocker].

Definition is_file (vs : VolumeSource) : bool :=
  existsb (fun k => bool_decide (k ∈ vs)) [AzureFile; EmptyDir; NFS; HostPath; Secret].

Definition volume_common (pod : Pod) (vol : k8s_Volume) : Common :=
  mkCommon (vol_Name vol) (vol_Name vol) None None ∅ None (Raw [KPod pod; KVolume vol]).

(** The loop over the volumes; [v] is declared before the loop. *)
Fixpoint pod_volumes (pod : Pod) (vols : list k8s_Volume) (v : option Ontology) (volumes : list Ontology) : list Ontology :=
  match vols with
  | [] => volumes
  | vol :: vols =>
      let vs := vol_VolumeSource vol in
      let v := if is_block vs then Some (BlockStorage (volume_common pod vol) (Some AtRestEncryption_None) [])
               else if is_file vs then Some (FileStorage (volume_common pod vol) None (Some AtRestEncryption_None))
               else v in
      pod_volumes pod vols v (match v with Some v => volumes ++ [v] | None => volumes end)
  end.

Definition handlePodVolume (pod : Pod) : list Ontology := pod_volumes pod (pod_Volumes pod) None [].

Definition k8s_compute_List : Go W (res (list Ontology)) :=
  pods <- remote k8s_Pods ;;
  match pods with
  | Err e => gerr (EText ("could not list ingresses: " +:+ Error e))
  | OK pods => gok (pods ≫= fun pod => [handlePod pod] ++ handlePodVolume pod)
  end.

(** ** network.go *)

Definition getNetworkServiceResourceID (service : k8s_Service) : string :=
  "/namespaces/" +:+ meta_Namespace (service_meta service) +:+ "/services/" +:+ meta_Name (service_meta service).

Definition handleService (service : k8s_Service) : Ontology :=
  let m := service_meta service in
  GenericNetworkService
    (mkCommon (getNetworkServiceResourceID service) (meta_Name m) (Some (meta_CreationTimestamp m)) None (meta_Labels m) None
       (Raw [KService service]))
    (service_ClusterIPs service) (uint32_of <$> service_Ports service).

Definition getLoadBalancerResourceID (ingress : Ingress) : string :=
  "/namespaces/" +:+ meta_Namespace (ingress_meta ingress) +:+ "/ingresses/" +:+ meta_Name (ingress_meta ingress).

(** One path of a rule. *)
Definition path_endpoint (ingress : Ingress) (host path : string) : HttpEndpoint :=
  let url := host +:+ "/" +:+ path in
  match ingress_TLS ingress with
  | None => mkHttpEndpoint ("http://" +:+ url) None
  | Some _ => mkHttpEndpoint ("https://" +:+ url) (Some (mkTransportEncryption true true "" 0 []))
  end.

(** The loop over the rules. *)
Fixpoint ingress_rules (ingress : Ingress) (rules : list IngressRule) (ips : list string) (endpoints : list HttpEndpoint)
  : Go W (list string * list HttpEndpoint) :=
  match rules with
  | [] => gret (ips, endpoints)
  | rule :: rules =>
      paths <- gderef (rule_HTTP rule) ;;
      ingress_rules ingress rules (ips ++ [rule_Host rule])
        (endpoints ++ (path_endpoint ingress (rule_Host rule) <$> paths))
  end.

Definition handleIngress (ingress : Ingress) : Go W Ontology :=
  let m := ingress_meta ingress in
  r <- ingress_rules ingress (ingress_Rules ingress) [] [] ;;
  gret (LoadBalancer
    (mkCommon (getLoadBalancerResourceID ingress) (meta_Name m) (Some (meta_CreationTimestamp m)) None (meta_Labels m) None
       (Raw [KIngress ingress]))
    None (fst r) [80; 443]%Z (snd r)).

(** The loop over the ingresses. *)
Fixpoint list_ingresses (l : list Ingress) (list : list Ontology) : Go W (Datatypes.list Ontology) :=
  match l with
  | [] => gret list
  | i :: l => c <- handleIngress i ;; list_ingresses l (list ++ [c])
  end.

(** An error of the second call comes with the services. *)
Definition k8s_network_List : Go W (list Ontology * option error) :=
  services <- remote k8s_Services ;;
  match services with
  | Err e => gret ([], Some (EWrap "could not list services" e))
  | OK services =>
      let list := handleService <$> services in
      ingresses <- remote k8s_Ingresses ;;
      match ingresses with
      | Err e => gret (list, Some (EWrap "could not list ingresses" e))
      | OK ingresses => list <- list_ingresses ingresses list ;; gret (list, None)
      end
  end.

(** ** storage.go *)

(** The second condition of [handlePV]. *)
Definition is_pv_file (vs : VolumeSource) : bool :=
  existsb (fun k => bool_decide (k ∈ vs)) [AzureFile; NFS; HostPath].

Definition handlePV (pv : PersistentVolume) : option Ontology :=
  let m := pv_meta pv in
  let vs := pv_Source pv in
  let common := mkCommon (meta_UID m) (meta_Name m) (Some (meta_CreationTimestamp m)) None (meta_Labels m) None
                  (Raw [KPersistentVolume pv]) in
  if is_block vs then Some (BlockStorage common (Some AtRestEncryption_None) [])
  else if is_pv_file vs then Some (FileStorage common None (Some AtRestEncryption_None))
  else None.

Definition k8s_storage_List : Go W (res (list Ontology)) :=
  pvc <- remote k8s_PersistentVolumes ;;
  match pvc with
  | Err e => gerr (EText ("could not list ingresses: " +:+ Error e))
  | OK pvc => gok (omap handlePV pvc)
  end.

(** ** What is listed *)

(** The resource of a volume whose source is one of the known types. *)
Definition volume_resource (pod : Pod) (vol : k8s_Volume) : option Ontology :=
  if is_block (vol_VolumeSource vol) then Some (BlockStorage (volume_common pod vol) (Some AtRestEncryption_None) [])
  else if is_file (vol_VolumeSource vol) then Some (FileStorage (volume_common pod vol) None (Some AtRestEncryption_None))
  else None.

(** What the loop yields for a volume: its resource, or that of the last volume
    before it that has one. *)
Fixpoint carried (pod : Pod) (vols : list k8s_Volume) (v : option Ontology) : list (option Ontology) :=
  match vols with
  | [] => []
  | vol :: vols => let v := match volume_resource pod vol with Some r => Some r | None => v end in v :: carried pod vols v
  end.

Lemma pod_volumes_carried pod vols v acc : pod_volumes pod vols v acc = acc ++ omap id (carried pod vols v).
Proof.
  revert v acc. induction vols as [|vol vols IH]; intros v acc; simpl; [by rewrite app_nil_r|].
  rewrite IH. unfold volume_resource. destruct (is_block (vol_VolumeSource vol)), (is_file (vol_VolumeSource vol)), v; simpl; by rewrite <- ?app_assoc.
Qed.

(** A pod whose volumes all have a known source gives one resource for each. *)
Lemma pod_volumes_known pod : Forall (fun vol => is_Some (volume_resource pod vol)) (pod_Volumes pod) ->
  Some <$> handlePodVolume pod = volume_resource pod <$> pod_Volumes pod.
Proof.
  intros Hk. unfold handlePodVolume. rewrite pod_volumes_carried. simpl.
  generalize (@None Ontology). induction Hk as [|vol vols [r Hr] Hk IH]; intros v; simpl; [done|].
  rewrite Hr. simpl. by rewrite IH.
Qed.

(** A volume of another type is listed as the volume before it, once more. *)
Lemma pod_volume_duplicated pod vol other r rest :
  volume_resource pod vol = Some r -> volume_resource pod other = None -> pod_Volumes pod = vol :: other :: rest ->
  exists l, handlePodVolume pod = r :: r :: l.
Proof.
  intros Hv Ho Hp. unfold handlePodVolume. rewrite Hp, pod_volumes_carried. simpl. rewrite Hv, Ho. simpl. by eexists.
Qed.

(** The compute discoverer lists every pod, followed by its volumes. *)
Theorem k8s_pods_listed (w : W) :
  exists r w', k8s_compute_List w = (Returned r, w') /\
    match r with
    | OK l => exists pods, k8s_Pods (w_tick w) = OK pods /\ l = (pods ≫= fun pod => handlePod pod :: handlePodVolume pod) /\
        forall pod, pod ∈ pods -> Forall (fun vol => is_Some (volume_resource pod vol)) (pod_Volumes pod) ->
          Some <$> handlePodVolume pod = volume_resource pod <$> pod_Volumes pod
    | Err e => exists e', k8s_Pods (w_tick w) = Err e' /\ e = EText ("could not list ingresses: " +:+ Error e')
    end.
Proof.
  unfold k8s_compute_List, gbind, remote, gok, gerr, gret. destruct (k8s_Pods (w_tick w)) as [pods|e] eqn:E.
  - eexists (OK _), _. split; [reflexivity|]. exists pods. split_and!; [done..|]. intros pod _. apply pod_volumes_known.
  - eexists (Err _), _. split; [reflexivity|]. eauto.
Qed.

(** *** Ingresses *)

(** An ingress whose rules all have HTTP paths. *)
Definition http_rules (i : Ingress) : Prop := Forall (fun r => is_Some (rule_HTTP r)) (ingress_Rules i).

Definition rule_endpoints (i : Ingress) (r : IngressRule) : list HttpEndpoint :=
  match rule_HTTP r with Some paths => path_endpoint i (rule_Host r) <$> paths | None => [] end.

Lemma ingress_rules_total i rules ips eps (w : W) : Forall (fun r => is_Some (rule_HTTP r)) rules ->
  ingress_rules i rules ips eps w = (Returned (ips ++ (rule_Host <$> rules), eps ++ (rules ≫= rule_endpoints i)), w).
Proof.
  intros Hr. revert ips eps. induction Hr as [|r rules [ps Hp] Hr IH]; intros ips eps; simpl; [by rewrite !app_nil_r|].
  unfold rule_endpoints at 1. rewrite Hp. unfold gderef. rewrite gbind_ret, IH. by rewrite <-!app_assoc.
Qed.

(** The load balancer of an ingress: an endpoint for every path, with HTTPS and
    transport encryption exactly when the ingress has a TLS section. *)
Definition ingress_message (i : Ingress) (r : Ontology) : Prop :=
  exists c eps, r = LoadBalancer c None (rule_Host <$> ingress_Rules i) [80; 443]%Z eps /\
    Common_Id c = getLoadBalancerResourceID i /\
    length eps = length (ingress_Rules i ≫= fun r => default [] (rule_HTTP r)) /\
    Forall (fun ep => is_Some (HttpEndpoint_TransportEncryption ep) <-> is_Some (ingress_TLS i)) eps /\
    Forall (fun ep => exists rest, HttpEndpoint_Url ep =
              (match ingress_TLS i with Some _ => "https://" | None => "http://" end) +:+ rest) eps.

Lemma handleIngress_total i (w : W) : http_rules i -> exists r, handleIngress i w = (Returned r, w) /\ ingress_message i r.
Proof.
  intros Hi. unfold handleIngress. rewrite (gbind_eq _ _ _ _ _ (ingress_rules_total i _ [] [] w Hi)).
  eexists. split; [reflexivity|]. eexists _, _. split; [reflexivity|]. simpl. split_and!; [done|..].
  - unfold http_rules in Hi. induction Hi as [|r rules [ps Hp] _ IH]; cbn; [done|].
    rewrite !length_app, IH. f_equal. unfold rule_endpoints. rewrite Hp. cbn. by rewrite length_fmap.
  - apply Forall_forall. intros ep (r & Hep & Hr)%list_elem_of_bind. unfold rule_endpoints in Hep.
    destruct (rule_HTTP r); [|by apply elem_of_nil in Hep]. apply list_elem_of_fmap in Hep as (p & -> & _).
    unfold path_endpoint. destruct (ingress_TLS i); simpl; split; by eauto using is_Some_None.
  - apply Forall_forall. intros ep (r & Hep & Hr)%list_elem_of_bind. unfold rule_endpoints in Hep.
    destruct (rule_HTTP r); [|by apply elem_of_nil in Hep]. apply list_elem_of_fmap in Hep as (p & -> & _).
    unfold path_endpoint. destruct (ingress_TLS i); simpl; by eexists.
Qed.

(** A rule without HTTP paths panics. *)
Lemma bare_rule_panics i r rules (w : W) : ingress_Rules i = r :: rules -> rule_HTTP r = None ->
  handleIngress i w = (Panicked, w).
Proof. intros Hi Hr. unfold handleIngress, gbind. rewrite Hi. simpl. unfold gbind. by rewrite Hr. Qed.

Lemma list_ingresses_total l acc (w : W) : Forall http_rules l ->
  exists rs, list_ingresses l acc w = (Returned (acc ++ rs), w) /\ Forall2 ingress_message l rs.
Proof.
  intros Hl. revert acc. induction Hl as [|i l Hi Hl IH]; intros acc.
  - exists []. rewrite app_nil_r. split; [done|constructor].
  - destruct (handleIngress_total i w Hi) as (r & Hr & Hm). destruct (IH (acc ++ [r])) as (rs & Hrs & Hms).
    exists (r :: rs). simpl. rewrite (gbind_eq _ _ _ _ _ Hr), Hrs. split; [by rewrite <-app_assoc|by constructor].
Qed.

(** The listing of a cluster that answers both calls. *)
Lemma k8s_network_lists services ingresses (w : W) :
  k8s_Services (w_tick w) = OK services -> k8s_Ingresses (w_tick w + 1) = OK ingresses -> Forall http_rules ingresses ->
  exists lbs, k8s_network_List w = (Returned ((handleService <$> services) ++ lbs, None),
                                    mkWorld (w_db w) (w_svc w) (w_tasks w) (w_tick w + 1 + 1)) /\
    Forall2 ingress_message ingresses lbs.
Proof.
  intros Hs Hi Hh. unfold k8s_network_List, gbind, remote, gret. rewrite Hs. cbn [w_tick w_db w_svc w_tasks]. rewrite Hi.
  destruct (list_ingresses_total ingresses (handleService <$> services)
    (mkWorld (w_db w) (w_svc w) (w_tasks w) (w_tick w + 1 + 1)) Hh) as (lbs & Hl & Hm). rewrite Hl. by exists lbs.
Qed.

(** C32. The network discoverer answers when the rules of the ingresses have HTTP paths:
    all services, then a load balancer for every ingress.  If only the ingresses
    cannot be listed the services are returned with the error. *)
Theorem k8s_network_listed (w : W) :
  (forall l, k8s_Ingresses (w_tick w + 1) = OK l -> Forall http_rules l) ->
  exists l e w', k8s_network_List w = (Returned (l, e), w') /\
    match e with
    | None => exists services ingresses lbs, k8s_Services (w_tick w) = OK services /\
        k8s_Ingresses (w_tick w + 1) = OK ingresses /\ l = (handleService <$> services) ++ lbs /\
        Forall2 ingress_message ingresses lbs
    | Some e =>
        (exists e', k8s_Services (w_tick w) = Err e' /\ l = [] /\ e = EWrap "could not list services" e') \/
        (exists services e', k8s_Services (w_tick w) = OK services /\ k8s_Ingresses (w_tick w + 1) = Err e' /\
           l = handleService <$> services /\ e = EWrap "could not list ingresses" e')
    end.
Proof.
  intros Hi. destruct (k8s_Services (w_tick w)) as [services|e] eqn:Es.
  2: { unfold k8s_network_List, gbind, remote, gret. rewrite Es. eexists _, (Some _), _. split; [reflexivity|]. left. eauto. }
  destruct (k8s_Ingresses (w_tick w + 1)) as [ingresses|e] eqn:Ei.
  2: { unfold k8s_network_List, gbind, remote, gret. rewrite Es. cbn [w_tick]. rewrite Ei.
       eexists _, (Some _), _. split; [reflexivity|]. right. eauto 8. }
  destruct (k8s_network_lists services ingresses w Es Ei (Hi _ eq_refl)) as (lbs & Hl & Hm).
  eexists _, None, _. split; [exact Hl|]. eauto 8.
Qed.
End K8s.
