(* ===== verification/CloudWitness.v ===== *)
(** Concrete AWS and Kubernetes accounts, gRPC calls, connections and columns: the
    theorems on the discoverers, the server, the connections and the serializers
    applied to them. *)

From Stdlib Require Import Ascii.
From stdpp Require Import countable.
From S2P Require Import Prelude GoRuntime GoStrings Util GoText Api Authz GoJson Serializer Server Connection OntologyMessages Aws AwsProofs K8s.

(** ** JSON texts

    A text for JSON documents, to show that [JsonTextLaws] can hold: the binary
    digits of stdpp's encoding of trees. *)

Fixpoint json_tree (j : json) : gen_tree string :=
  match j with
  | JNull => GenNode 0 []
  | JBool b => GenNode (if b then 1 else 2) []
  | JNum s => GenNode 3 [GenLeaf s]
  | JStr s => GenNode 4 [GenLeaf s]
  | JArr l => GenNode 5 (json_tree <$> l)
  | JObj m => GenNode 6 ((fun kv => GenNode 7 [GenLeaf (fst kv); json_tree (snd kv)]) <$> m)
  end.

Fixpoint tree_json (t : gen_tree string) : json :=
  match t with
  | GenNode 1 [] => JBool true
  | GenNode 2 [] => JBool false
  | GenNode 3 [GenLeaf s] => JNum s
  | GenNode 4 [GenLeaf s] => JStr s
  | GenNode 5 l => JArr (tree_json <$> l)
  | GenNode 6 l =>
      JObj ((fun t => match t with GenNode 7 [GenLeaf k; v] => (k, tree_json v) | _ => ("", JNull) end) <$> l)
  | _ => JNull
  end.

Lemma tree_json_tree j : tree_json (json_tree j) = j.
Proof.
  revert j. fix IH 1. intros [|[]|s|s|l|m]; try reflexivity; cbn; f_equal.
  - induction l as [|j l IHl]; cbn; [done|]. by rewrite IH, IHl.
  - induction m as [|[k j] m IHm]; cbn; [done|]. by rewrite IH, IHm.
Qed.

#[global] Instance json_eq_dec : EqDecision json.
Proof.
  intros x y. destruct (decide (json_tree x = json_tree y)) as [E|E]; [left|right; congruence].
  by rewrite <-(tree_json_tree x), E, tree_json_tree.
Defined.

#[global] Instance json_countable : Countable json := inj_countable' json_tree tree_json tree_json_tree.

Fixpoint binary (p : positive) : string :=
  match p with xH => "" | xO p => String "0" (binary p) | xI p => String "1" (binary p) end.

Fixpoint of_binary (s : string) : positive :=
  match s with
  | EmptyString => xH
  | String c s => if bool_decide (c = "0"%char) then xO (of_binary s) else xI (of_binary s)
  end.

Lemma of_binary_binary p : of_binary (binary p) = p.
Proof. induction p as [p IH|p IH|]; cbn; by rewrite ?IH. Qed.

#[global] Instance binary_json : JsonText := {
  json_print j := binary (encode j);
  json_read s := match decode (of_binary s) with Some j => OK j | None => Err (EText "invalid JSON") end;
}.

#[global] Instance binary_json_laws : JsonTextLaws.
Proof. split. intros j. cbn. by rewrite of_binary_binary, decode_encode. Qed.

(** ** AWS *)

Definition demo_volume : Volume := mkVolume (Some "vol-1") (Some true) None [mkTag (Some "Name") (Some "data")].

(** One volume, one interface, one instance with both, and two pages of functions. *)
#[global] Instance demo_aws : AwsSdk := {
  aws_LoadDefaultConfig _ := OK "eu-central-1";
  aws_GetCallerIdentity _ := AwsOK (Some "42");
  aws_DescribeVolumes _ := AwsOK [demo_volume];
  aws_DescribeNetworkInterfaces _ := AwsOK [mkEc2NetworkInterface (Some "eni-1") []];
  aws_DescribeInstances _ := AwsOK [mkReservation [mkInstance (Some "i-1") [] [Some (Some "vol-1")] [Some "eni-1"]]];
  aws_ListFunctions m _ :=
    match m with
    | None => AwsOK (mkListFunctionsOutput [mkFunctionConfiguration (Some "f1") None] (Some "next"))
    | Some _ => AwsOK (mkListFunctionsOutput [mkFunctionConfiguration (Some "f2") None] None)
    end;
  aws_ListBuckets _ := AwsOK [];
  aws_GetBucketEncryption _ _ := AwsOK (mkGetBucketEncryptionOutput None);
  aws_GetBucketPolicy _ _ := AwsOK (mkGetBucketPolicyOutput (Some "policy"));
  aws_GetBucketLocation _ _ := AwsOK (mkGetBucketLocationOutput "eu-central-1");
}.

#[global] Instance demo_aws_raw : RawLibrary AwsObject := { type_name _ := "object"; json_Marshal_raw _ := "{}" }.

Definition demo_compute : computeDiscovery := NewAwsComputeDiscovery (mkClient "eu-central-1" (Some "42")) "svc".
Definition demo_aws_world : World unit unit unit := mkWorld tt tt [] 0.

Lemma aws_compute_listed_witness :
  exists l w', compute_List 3 demo_compute demo_aws_world = (Returned (OK l), w') /\ length l = 5 /\
    exists vs ifs rs fs, ec2_answers demo_aws_world vs ifs rs fs.
Proof.
  assert (Hs : served 3 None [[mkFunctionConfiguration (Some "f1") None]; [mkFunctionConfiguration (Some "f2") None]] None).
  { apply (served_more 3 None "next" (mkListFunctionsOutput [mkFunctionConfiguration (Some "f1") None] (Some "next")));
      [reflexivity..|].
    by apply (served_last 4 (Some "next") (mkListFunctionsOutput [mkFunctionConfiguration (Some "f2") None] None)). }
  assert (He : forall rs, aws_DescribeInstances 2 = AwsOK rs -> Forall (fun p => ebs_only (snd p)) (all_instances rs)).
  { intros rs Hrs. cbn in Hrs. injection Hrs as <-. repeat constructor. by eexists. }
  destruct (aws_compute_listed demo_compute demo_aws_world 3 _ None He Hs ltac:(simpl; lia)) as (r & w' & Hr & Hl).
  destruct r as [l|e].
  - destruct Hl as (vs & ifs & rs & Ha & Hl & _). exists l, w'. split; [done|]. split; [|eauto].
    destruct Ha as [Hv Hi Hrs _]. cbn in Hv, Hi, Hrs.
    injection Hv as <-. injection Hi as <-. injection Hrs as <-. by rewrite Hl.
  - vm_compute in Hr. discriminate.
Defined.

(** ** Kubernetes *)

Definition demo_ingress : Ingress :=
  mkIngress (mkObjectMeta "web" "default" "u1" ∅ 7) [mkIngressRule "example.com" (Some ["shop"; "blog"])] (Some [tt]).

#[global] Instance demo_kubernetes : Kubernetes := {
  k8s_HomeDir := "/home/demo";
  k8s_BuildConfigFromFlags _ _ := None;
  k8s_NewForConfig _ := None;
  k8s_Pods _ := OK [];
  k8s_Services _ := OK [mkK8sService (mkObjectMeta "db" "default" "u2" ∅ 7) [5432%Z] ["10.0.0.1"]];
  k8s_Ingresses _ := OK [demo_ingress];
  k8s_PersistentVolumes _ := OK [];
}.

#[global] Instance demo_k8s_raw : RawLibrary KubernetesObject := { type_name _ := "object"; json_Marshal_raw _ := "{}" }.

Lemma k8s_network_listed_witness :
  exists l w', k8s_network_List demo_aws_world = (Returned (l, None), w') /\
    exists services ingresses lbs, l = (handleService <$> services) ++ lbs /\ Forall2 ingress_message ingresses lbs.
Proof.
  assert (Hi : forall l, k8s_Ingresses 1 = OK l -> Forall http_rules l).
  { intros l Hl. cbn in Hl. injection Hl as <-. repeat constructor. by eexists. }
  destruct (k8s_network_listed demo_aws_world Hi) as (l & e & w' & Hr & Hl).
  destruct e as [e|]; [vm_compute in Hr; discriminate|].
  destruct Hl as (services & ingresses & lbs & _ & _ & Hl & Hf). exists l, w'. split; [done|]. by exists services, ingresses, lbs.
Defined.

(** ** Columns *)

(** Two messages have a text. *)
#[global] Instance demo_protojson : ProtoJson := {
  any_Marshal a := if bool_decide (Any_TypeUrl a = "t" /\ Any_Value a = "v") then OK "any" else Err (EText "no text");
  any_Unmarshal s := OK (mkAnyPb "t" "v");
  value_MarshalJSON v := match v with BoolValue true => OK "true" | _ => Err (EText "no text") end;
  value_UnmarshalJSON s := OK (BoolValue true);
  value_json v := match v with NullValue => OK JNull | BoolValue b => OK (JBool b) | _ => Err (EText "no text") end;
  json_value j := match j with JNull => OK NullValue | JBool b => OK (BoolValue b) | _ => Err (EText "no value") end;
}.

#[global] Instance demo_protojson_laws : ProtoJsonLaws.
Proof.
  split.
  - intros [t v] s. cbn. case_bool_decide as E; [|done]. by destruct E as [-> ->].
  - by intros [| | |[]| |] x [= <-].
  - intros [] j; cbn; try done; by intros [= <-].
  - intros []; cbn; naive_solver.
Qed.


(** ** Calls *)

(** The context is the bearer token; the token "good" verifies. *)
#[global] Instance demo_tokens : TokenLibrary (option string) := {
  AuthFromMD ctx _ := match ctx with Some t => OK t | None => Err (EText "no token") end;
  ParseUnverified _ := OK ∅;
}.

#[global] Instance demo_auth : AuthLibrary (option string) unit string string := {
  keyfunc_Get _ _ := OK "keys";
  jwt_ParseWithClaims token k _ := if bool_decide (token = "good") then OK tt else Err (EText "bad signature");
  context_WithValue ctx _ := ctx;
}.

#[global] Instance demo_auth_laws : AuthLibraryLaws (option string) unit string string.
Proof. by split. Qed.

#[global] Instance demo_grpc : GrpcAuth (DB := unit) (T := unit) (Ctx := option string) (Jwks := string) (Key := string) (Opt := unit) := {
  grpc_auth_Unary Req Resp auth ctx req method handler := (newCtx <-? auth ctx ! id ;; handler newCtx req);
  grpc_auth_Stream auth ctx method handler :=
    (r <- auth ctx ;; match r with Err e => gret (Some e) | OK newCtx => handler newCtx end);
}.

#[global] Instance demo_grpc_laws : GrpcAuthLaws.
Proof. by split. Qed.

Definition demo_server : World unit (config string string unit) unit :=
  mkWorld tt (WithPublicEndpoints ["/open"] (WithJWKS "url" (mkConfig [] ∅ [] (mkAuthConfig "" false None None) false))) [] 0.

Definition echo : UnaryHandler (DB := unit) (T := unit) (Ctx := option string) (Jwks := string) (Key := string) (Opt := unit) string string :=
  fun ctx req => gok req.

Example open_call : fst (unary_interceptor None "hello" "/open" echo demo_server) = Returned (OK "hello").
Proof. reflexivity. Qed.

Example bad_call : fst (unary_interceptor (Some "forged") "hello" "/closed" echo demo_server) = Returned (Err invalid_token).
Proof. reflexivity. Qed.

Lemma unary_calls_authenticated_witness :
  exists ctx' w' token claims, unary_interceptor (Some "good") "hello" "/closed" echo demo_server = echo ctx' "hello" w' /\
    AuthFromMD ctx' "bearer" = OK token /\ verified (Ctx := option string) (w_svc w') token claims.
Proof.
  destruct (unary_calls_authenticated (Some "good") "hello" "/closed" echo demo_server) as [(e & w' & Hr & _)|(ctx' & w' & token & claims & Hr & _ & Ht & Hv)].
  - vm_compute in Hr. discriminate.
  - by exists ctx', w', token, claims.
Defined.

(** ** Connections *)

#[global] Instance demo_dial : Grpc (A := unit) (O := unit) (C := nat) unit := {
  grpc_Dial _ _ _ := OK 7;
  cc_GetState _ _ := Ready;
  cc_Invoke _ _ _ := Some io_EOF;
  cc_NewStream _ _ _ := OK tt;
}.

Definition demo_conn : RPCConnection unit unit nat := NewRPCConnection "localhost:9090" [].

(** The first call dials; it ends with an EOF, and the connection is dropped. *)
Lemma invoke_correct_witness :
  exists r k w', Invoke "m" (mkWorld tt (Some demo_conn) (@nil unit) 0) = (Returned r, w') /\ r = Some io_EOF /\ k = None /\
    w_svc w' = Some (set_cc k demo_conn).
Proof.
  destruct (invoke_correct demo_conn "m" (mkWorld tt (Some demo_conn) (@nil unit) 0) eq_refl) as (r & k & w' & Hr & Hw & Hc).
  exists r, k, w'. split; [done|]. destruct Hc as [(e & t & _ & Hd & _)|(cc & t & _ & -> & ->)]; [discriminate|]. by split_and!.
Defined.
