(* ===== verification/CliWitness.v ===== *)
(** A client with a session file on a concrete file system: the theorems on sessions
    and commands applied to it. *)

From Stdlib Require Import Ascii.
From S2P Require Import Prelude GoRuntime GoStrings Util GoText Api Authz Pagination GoJson Connection CloudWitness Session Commands CliFlags.

#[global] Instance quiet_os : Os := {
  os_MkdirAll _ _ := None; os_Open _ _ := None; os_Read _ := None; os_Write _ := None; os_Close _ := None;
}.

Lemma quiet_os_works : os_works.
Proof. by split_and!. Qed.

(** Tokens and configurations are their texts.  The token "old" expires at time 50
    and is refreshed to "new". *)
Definition text_field (name k : string) (v : json) (old : string) : res string :=
  if strings_EqualFold k name then decode_string v old else OK old.

Definition demo_valid (t : string) (n : nat) : bool := bool_decide (t = "new") || bool_decide (n < 50).

#[global] Instance text_oauth : OAuth string string (option string * option string) := {
  token_json t := OK (JObj [("access_token", JStr t)]);
  token_zero := "";
  token_decode := decode_object (text_field "access_token");
  token_Valid := demo_valid;
  config_json c := JObj [("ClientID", JStr c)];
  config_zero := "";
  config_decode := decode_object (text_field "ClientID");
  config_TokenSource c t := (c, t);
  source_Token a n :=
    match snd a with
    | Some t => if demo_valid t n then OK t else OK "new"
    | None => Err (EText "oauth2: token expired and refresh token is not set")
    end;
}.

#[global] Instance text_oauth_laws : OAuthLaws string string (option string * option string).
Proof.
  split; cbn.
  - by intros t j [= <-].
  - done.
  - by intros c t n ->.
Qed.

Fixpoint first_line (s : string) : string :=
  match s with
  | EmptyString => ""
  | String a s => if Ascii.eqb a "010" then "" else String a (first_line s)
  end.

#[global] Instance line_decoder : JsonDecoder := { json_first text := json_read (first_line text) }.

Lemma first_line_binary p : first_line (binary p +:+ newline) = binary p.
Proof. induction p as [p IH|p IH|]; [simpl; f_equal; apply IH..|reflexivity]. Qed.

#[global] Instance line_decoder_laws : JsonDecoderLaws.
Proof. split. intros j. cbn. by rewrite first_line_binary, of_binary_binary, stdpp.countable.decode_encode. Qed.

#[global] Instance demo_dial : @Grpc (option string * option string) unit unit unit := {
  grpc_Dial _ _ _ := OK tt;
  cc_GetState _ _ := Ready;
  cc_Invoke _ _ _ := None;
  cc_NewStream _ _ _ := OK tt;
}.

Definition demo_session : Session string (option string * option string) unit :=
  mkSession (Some tt) (Some "cli") (Some (Some "cli", Some "old")) "localhost:9090" "/home/user" false.

Abbreviation CliWorld := (World (gmap string string) (list string) unit).

Definition empty_home : CliWorld := mkWorld ∅ [] [] 0.


(** ** Commands *)

#[global] Instance demo_backend : Backend unit := {
  rpc_call R _ call _ :=
    match call in Rpc R return res R with
    | ListAssessmentTools req =>
        if bool_decide (GetPageToken req = "") then OK (mkPage [mkAssessmentTool "1" "scanner" "" []] "next")
        else OK (mkPage [mkAssessmentTool "2" "prober" "" []] "")
    | _ => Err (EStatus codes_NotFound "not found")
    end;
}.

#[global] Instance demo_terminal : Terminal := {
  proto_text m := match m with MTools l => "tools: " +:+ String.concat " " (AssessmentTool_Id <$> l) | _ => "message" end;
  resource_Unmarshal _ := Err (EText "syntax error");
  output_error _ := None;
}.

#[global] Instance demo_viper : Viper := { viper_GetString _ := "flag"; viper_GetStringSlice _ := [] }.

#[global] Instance demo_login : LoginLibrary string string := {
  oauth_Config id _ _ _ := id;
  VerifierGenerator _ := "verifier";
  auth_code_url _ _ := "http://localhost";
  callback_code _ := "code";
  config_Exchange _ _ _ _ := OK "old";
  completion_script _ := "script";
}.

Abbreviation demo_root := (@newRootCommand unit string string _ unit unit unit quiet_os text_oauth binary_json line_decoder
  demo_dial demo_backend demo_terminal demo_viper demo_login "/home/user" 5).

Abbreviation demo_show := (@run_ShowTool unit string string _ unit unit unit quiet_os text_oauth binary_json line_decoder
  demo_dial demo_backend demo_terminal "/home/user").

(** Without a session, [cl tool show 1] says so and reports success. *)
Lemma commands_run_witness :
  (["cl"; "tool"; "show [id]"], ExactArgs 1, demo_show) ∈ runnable demo_root /\
  exists w, demo_show ["1"] empty_home = (Returned None, w) /\ w_svc w = [session_error].
Proof.
  assert (Hin : (["cl"; "tool"; "show [id]"], ExactArgs 1, demo_show) ∈ runnable demo_root).
  { apply (list_elem_of_lookup_2 _ 5). reflexivity. }
  split; [exact Hin|].
  destruct (@commands_run unit string string _ unit unit unit quiet_os text_oauth binary_json line_decoder demo_dial
    demo_backend demo_terminal demo_viper demo_login "/home/user" 5 _ _ _ ["1"] empty_home Hin eq_refl) as [_ Hw].
  eexists. split.
  - eapply Hw; [|reflexivity]. unfold without_session. set_solver.
  - reflexivity.
Defined.

(** Both pages of tools are printed as one response. *)
Example tools_printed :
  let w := snd (Save demo_session empty_home) in
  w_svc (snd (@run_ListTools unit string string _ unit unit unit quiet_os text_oauth binary_json line_decoder
    demo_dial demo_backend demo_terminal "/home/user" 5 [] w)) = ["tools: 1 2" +:+ newline].
Proof. vm_compute. reflexivity. Qed.

(** ** Flags *)

#[global] Instance table_viper : ViperFlags := {
  viper_find bs given config k :=
    match bound_to bs k with
    | Some f => default (default (flag_DefValue f) (config k)) (given f)
    | None => default (FString "") (config k)
    end;
}.

#[global] Instance table_viper_laws : ViperFlagsLaws.
Proof.
  split; cbn; intros.
  - rewrite bound_to_app. simpl. by rewrite bool_decide_eq_true_2.
  - rewrite bound_to_app. simpl. by rewrite bool_decide_eq_false_2.
  - rewrite bound_to_app. simpl. by case_bool_decide.
Qed.

#[global] Instance plain_cast : ViperCast := {
  cast_ToString v := match v with FString s => s | FSlice l => String.concat "," l end;
  cast_ToStringSlice v := match v with FString s => [s] | FSlice l => l end;
}.

#[global] Instance plain_cast_laws : ViperCastLaws.
Proof. by split. Qed.

(** [cl tool register --name scanner --metric-ids TLS] *)
Definition register_line (f : flag) : option flag_value :=
  if bool_decide (f = string_flag tool_register "name" "n" "") then Some (FString "scanner")
  else if bool_decide (f = mkFlag tool_register "metric-ids" "m" (FSlice [])) then Some (FSlice ["TLS"])
  else None.

Lemma register_line_parsed home : parsed (cl_flags home) tool_register register_line.
Proof.
  unfold register_line. split.
  - intros f v Hf. repeat case_bool_decide; simplify_eq; (split; [vm_compute; set_solver|]; split; [by exists []|done]).
  - intros f Hf Ho. vm_compute in Hf.
    repeat (apply list_elem_of_cons in Hf as [->|Hf]; [first [discriminate Ho | vm_compute; by eexists]|]). set_solver.
Qed.

(** The tool is registered without its name. *)
Lemma tool_register_request_witness :
  parsed (cl_flags "/") tool_register register_line /\
  register_line (string_flag tool_register "name" "n" "") = Some (FString "scanner") /\
  (@run_RegisterTool unit string string _ unit unit unit quiet_os text_oauth binary_json line_decoder demo_dial demo_backend
    demo_terminal (cl_viper "/" register_line (fun _ => None)) "/home/user" []) =
  one_call "/home/user" (RegisterAssessmentTool (Some (mkAssessmentTool "" "" "" ["TLS"]))) MTool.
Proof.
  split; [apply register_line_parsed|]. split; [reflexivity|].
  destruct (tool_register_request (T := unit) "/" (fun _ => None) "/home/user" register_line [] (register_line_parsed "/")
    eq_refl eq_refl) as (metrics & Hm & Hr).
  injection Hm as <-. exact Hr.
Defined.
