(* ===== verification/GormSetup.v ===== *)
(** Opening a storage: persistence/gorm/gorm.go's options and [NewStorage], and
    persistence/inmemory/inmemory.go.

    GORM itself is third party ([GormOpen]).  A storage that was opened is an index
    into the list of the opened databases: services that share a storage share its
    database. *)

From S2P Require Import Prelude GoRuntime GoStrings Util GoText Api Sql Storage.

Inductive Dialector := sqlite_Open (dsn : string) | postgres_Open (dsn : string).

#[global] Instance Dialector_eq_dec : EqDecision Dialector.
Proof. solve_decision. Defined.

(** The fields of [storage] that options set; [L] is GORM's logger. *)
Record storage (L : Type) := mkStorage {
  st_dialector : option Dialector;
  st_logger : L;
  st_types : list table;
  st_maxConn : Z;
}.
Arguments mkStorage {L}.
Arguments st_dialector {L}.
Arguments st_logger {L}.
Arguments st_types {L}.
Arguments st_maxConn {L}.

Definition DefaultTypes : list table :=
  [T_MetricImplementation; T_Metric; T_AssessmentResult; T_Resource; T_Evidence; T_CloudService; T_Certificate; T_State;
   T_Catalog; T_Category; T_Control; T_TargetOfEvaluation; T_EvaluationResult].

(** The serializers of serializer.go, by the name they are registered under. *)
Inductive serializer := TimestampSerializer | ValueSerializer | AnySerializer.

(** The serializers that the tables' columns ask for ([gorm:"serializer:..."]). *)
Definition column_serializers : list string := ["timestamppb"; "valuepb"; "anypb"].

Class GormOpen (DB L : Type) := {
  gorm_Open : Dialector -> L -> nat -> res DB;
  gorm_DB : DB -> nat -> option error;
  gorm_SetMaxOpenConns : Z -> DB -> DB;
  gorm_SetupJoinTable : table -> string -> table -> DB -> option error * DB;
  gorm_AutoMigrate : list table -> DB -> option error * DB;
  logger_Silent : L;
}.

Section Options.
Context {L : Type}.
Abbreviation StorageOption := (storage L -> storage L).

Definition set_dialector (d : Dialector) : StorageOption := fun s => mkStorage (Some d) (st_logger s) (st_types s) (st_maxConn s).

Definition WithInMemory : StorageOption := set_dialector (sqlite_Open ":memory:?_pragma=foreign_keys(1)").
Definition WithMaxOpenConns (max : Z) : StorageOption := fun s => mkStorage (st_dialector s) (st_logger s) (st_types s) max.
Definition postgres_dsn (host : string) (port : Z) (user pw db sslmode : string) : string :=
  "postgres://" +:+ user +:+ ":" +:+ pw +:+ "@" +:+ host +:+ ":" +:+ strconv_Itoa port +:+ "/" +:+ db +:+ "?sslmode=" +:+ sslmode.
Definition WithPostgres (host : string) (port : Z) (user pw db sslmode : string) : StorageOption :=
  set_dialector (postgres_Open (postgres_dsn host port user pw db sslmode)).
Definition WithLogger (logger : L) : StorageOption := fun s => mkStorage (st_dialector s) logger (st_types s) (st_maxConn s).
Definition WithAdditionalAutoMigration (types : list table) : StorageOption := fun s =>
  mkStorage (st_dialector s) (st_logger s) (st_types s ++ types) (st_maxConn s).
End Options.

Section NewStorage.
Context {DB L S T : Type} `{GormOpen DB L}.
(** The databases that were opened, and the registered serializers in the state. *)
Context (register : string -> serializer -> S -> S).
Abbreviation W := (World (list DB) S T).

(** The configuration that the options result in. *)
Definition configured (opts : list (storage L -> storage L)) : storage L :=
  let g := foldl (fun g o => o g) (mkStorage None logger_Silent DefaultTypes 0) opts in
  match st_dialector g with None => WithInMemory g | Some _ => g end.

Definition set_max (g : storage L) (db : DB) : Go W (res DB) :=
  if bool_decide (0 < st_maxConn g)%Z then
    e <- remote (gorm_DB db) ;;
    match e with
    | Some e => gerr (EText ("could not retrieve sql.DB: " +:+ Error e))
    | None => gok (gorm_SetMaxOpenConns (st_maxConn g) db)
    end
  else gok db.

Definition join_table (t : table) (field : string) (join : table) (db : DB) : Go W (res DB) :=
  match gorm_SetupJoinTable t field join db with
  | (Some e, _) => gerr (EWrap "error during join-table" e)
  | (None, db) => gok db
  end.

Definition NewStorage (opts : list (storage L -> storage L)) : Go W (res nat) :=
  let g := configured opts in
  db <-? remote (gorm_Open (default (sqlite_Open "") (st_dialector g)) (st_logger g)) ! id ;;
  db <-? set_max g db ! id ;;
  svc_modify (register "timestamppb" TimestampSerializer) ;;;
  svc_modify (register "valuepb" ValueSerializer) ;;;
  svc_modify (register "anypb" AnySerializer) ;;;
  db <-? join_table T_CloudService "CatalogsInScope" T_TargetOfEvaluation db ! id ;;
  db <-? join_table T_CloudService "ConfiguredMetrics" T_MetricConfiguration db ! id ;;
  match gorm_AutoMigrate (st_types g) db with
  | (Some e, _) => gerr (EWrap "error during auto-migration" e)
  | (None, db) =>
      n <- gread (fun w => length (w_db w)) ;;
      gmodify (fun w => mkWorld (w_db w ++ [db]) (w_svc w) (w_tasks w) (w_tick w)) ;;;
      gok n
  end.

(** persistence/inmemory *)
Definition inmemory_NewStorage : Go W (res nat) := NewStorage [WithInMemory; WithMaxOpenConns 1; WithLogger logger_Silent].
End NewStorage.

(** ** Properties *)

Section Opened.
Context {DB L S T : Type} `{GormOpen DB L} (register : string -> serializer -> S -> S).
Abbreviation W := (World (list DB) S T).

Definition register_all_serializers (s : S) : S :=
  register "anypb" AnySerializer (register "valuepb" ValueSerializer (register "timestamppb" TimestampSerializer s)).

(** [NewStorage] returns a storage on a new database, whose schema was migrated
    for the configured types, or an error and no storage. *)
Lemma new_storage_runs opts (w : W) :
  exists r w', NewStorage register opts w = (Returned r, w') /\ w_tasks w' = w_tasks w /\
    match r with
    | OK n => n = length (w_db w) /\ w_svc w' = register_all_serializers (w_svc w) /\
        exists db0 db, w_db w' = w_db w ++ [db] /\ gorm_AutoMigrate (st_types (configured opts)) db0 = (None, db)
    | Err e => w_db w' = w_db w /\ (w_svc w' = w_svc w \/ w_svc w' = register_all_serializers (w_svc w))
    end.
Proof.
  unfold NewStorage, set_max, join_table. go_unfold.
  repeat (case_match; simplify_eq; cbn in * ); (eexists _, _; split; [reflexivity|]; split; [done|]); cbn; eauto 10.
Qed.

(** The options of this package. *)
Inductive storage_option : (storage L -> storage L) -> Prop :=
| opt_memory : storage_option WithInMemory
| opt_conns n : storage_option (WithMaxOpenConns n)
| opt_postgres h p u pw db m : storage_option (WithPostgres h p u pw db m)
| opt_logger l : storage_option (WithLogger l)
| opt_types l : storage_option (WithAdditionalAutoMigration l).

Lemma configured_types opts : Forall storage_option opts -> exists more, st_types (configured opts) = DefaultTypes ++ more.
Proof.
  intros Ho. assert (Hg : forall g : storage L, (exists more, st_types g = DefaultTypes ++ more) ->
    exists more, st_types (foldl (fun g o => o g) g opts) = DefaultTypes ++ more).
  { induction Ho as [|o opts Ho _ IH]; intros g Hg; [done|]. apply IH. destruct Hg as [more Hg].
    destruct Ho; cbn; rewrite Hg; try rewrite <-app_assoc; eauto. }
  destruct (Hg (mkStorage None logger_Silent DefaultTypes 0)) as [more Hm]; [exists []; by rewrite app_nil_r|].
  exists more. unfold configured. by destruct (st_dialector _).
Qed.

(** The dialect is the one that was asked for last, and SQLite in memory otherwise. *)
Lemma configured_dialect opts : is_Some (st_dialector (configured opts)).
Proof. unfold configured. destruct (st_dialector (foldl _ _ _)) eqn:E; [rewrite E|]; by eexists. Qed.

(** The tables of the services are all migrated, or are the join table of metric
    configurations that [NewStorage] sets up; and every serializer that a column
    asks for is registered. *)
Lemma tables_migrated t : t ∈ DefaultTypes \/ t = T_MetricConfiguration.
Proof. destruct t; (by right) || (left; by apply (bool_decide_unpack _)). Qed.
End Opened.

(** The credentials are put into the address as they are: different ones give the
    same address. *)
Lemma postgres_dsn_ambiguous :
  postgres_dsn "db" 5432 "admin" "a:b" "clouditor" "disable" = postgres_dsn "db" 5432 "admin:a" "b" "clouditor" "disable".
Proof. reflexivity. Qed.
