(* ===== verification/Services.v ===== *)
(** Construction of the services: the functional options and [NewService] of each of
    the five services.

    A constructed service is its state with what it is wired to: the storage (an
    index into the opened databases, or nil), the authorization strategy, and the
    connections to other services with the credentials they use. *)

From S2P Require Import Prelude GoRuntime GoStrings Util Api Sql Storage Authz Evaluation Streams Ontology Policies Orchestrator OrchestratorCatalogs EvidenceStore Discovery Assessment GormSetup.

(** [service.AuthorizationStrategy]: the two of the source, or one of the caller. *)
Inductive strategy := StrategyAllowAll | StrategyJWT (a : JWT.AuthorizationStrategyJWT) | StrategyOther (n : nat).

(** [clientcredentials.Config] *)
Record ClientCredentials := mkClientCredentials { ClientID : string; ClientSecret : string; TokenURL : string }.

(** [api.Authorizer]: from client credentials, or one that was created before. *)
Inductive authorizer := OAuthAuthorizer (config : ClientCredentials) | PreCreated (n : nat).

(** api/authorizer.go *)
Definition NewOAuthAuthorizerFromClientCredentials (config : ClientCredentials) : authorizer := OAuthAuthorizer config.

(** The part of an [api.RPCConnection] that options change; [O] is [grpc.DialOption]. *)
Record peer (O : Type) := mkPeer { peer_Target : string; peer_Opts : list O; peer_authorizer : option authorizer }.
Arguments mkPeer {O}.
Arguments peer_Target {O}.
Arguments peer_Opts {O}.
Arguments peer_authorizer {O}.

Definition NewPeer {O} (target : string) : peer O := mkPeer target [] None.
Definition peer_SetAuthorizer {O} (auth : authorizer) (p : peer O) : peer O := mkPeer (peer_Target p) (peer_Opts p) (Some auth).

(** A service and what it is wired to. *)
Record wired (S K : Type) := mkWired {
  wired_svc : S;
  wired_storage : option nat;
  wired_authz : option strategy;
  wired_peers : K;
}.
Arguments mkWired {S K}.
Arguments wired_svc {S K}.
Arguments wired_storage {S K}.
Arguments wired_authz {S K}.
Arguments wired_peers {S K}.

Section Wiring.
Context {S K : Type}.

Definition set_storage (storage : option nat) (s : wired S K) : wired S K :=
  mkWired (wired_svc s) storage (wired_authz s) (wired_peers s).
Definition set_authz (authz : option strategy) (s : wired S K) : wired S K :=
  mkWired (wired_svc s) (wired_storage s) authz (wired_peers s).
Definition on_peers (f : K -> K) (s : wired S K) : wired S K :=
  mkWired (wired_svc s) (wired_storage s) (wired_authz s) (f (wired_peers s)).
Definition on_service (f : S -> S) (s : wired S K) : wired S K :=
  mkWired (f (wired_svc s)) (wired_storage s) (wired_authz s) (wired_peers s).

Definition apply_options (opts : list (wired S K -> wired S K)) (s : wired S K) : wired S K := foldl (fun s o => o s) s opts.

(** "Default to an allow-all authorization strategy" *)
Definition default_authz (s : wired S K) : wired S K :=
  match wired_authz s with None => set_authz (Some StrategyAllowAll) s | Some _ => s end.

Context {DB L G T : Type} `{GormOpen DB L} (register : string -> serializer -> G -> G).
Abbreviation W := (World (list DB) G T).

(** "Default to an in-memory storage, if nothing was explicitly set"; an error is
    only logged, and the storage stays nil. *)
Definition default_storage (s : wired S K) : Go W (wired S K) :=
  match wired_storage s with
  | Some _ => gret s
  | None =>
      r <- inmemory_NewStorage register ;;
      gret (set_storage (match r with OK n => Some n | Err _ => None end) s)
  end.
End Wiring.

(** ** Discovery *)

Module DiscoverySetup.
Section Setup.
Context {Sch D Stream O : Type}.
Abbreviation Service := (wired (DiscoveryService Sch D Stream) (peer O)).

Definition WithAssessmentAddress (target : string) (opts : list O) (s : Service) : Service :=
  on_peers (fun p => mkPeer target opts (peer_authorizer p)) (on_service (Discovery.WithAssessmentAddress target) s).
Definition WithCloudServiceID (id : string) : Service -> Service := on_service (Discovery.WithCloudServiceID id).
Definition WithOAuth2Authorizer (config : ClientCredentials) : Service -> Service :=
  on_peers (peer_SetAuthorizer (NewOAuthAuthorizerFromClientCredentials config)).
Definition WithProviders (l : list string) : Service -> Service := on_service (Discovery.WithProviders l).
Definition WithAdditionalDiscoverers (l : list D) : Service -> Service := on_service (Discovery.WithAdditionalDiscoverers l).
Definition WithStorage (storage : option nat) : Service -> Service := set_storage storage.
Definition WithDiscoveryInterval (i : Z) : Service -> Service := on_service (Discovery.WithDiscoveryInterval i).
Definition WithAuthorizationStrategy (authz : option strategy) : Service -> Service := set_authz authz.

Context {DB L G T : Type} `{GormOpen DB L} (register : string -> serializer -> G -> G).

Definition NewService (sch : Sch) (opts : list (Service -> Service)) : Go (World (list DB) G T) Service :=
  let s := mkWired (Discovery.NewService sch []) None (Some StrategyAllowAll) (NewPeer DefaultAssessmentAddress) in
  default_storage register (apply_options opts s).
End Setup.
End DiscoverySetup.

(** ** Evidence store *)

Module EvidenceSetup.
Section Setup.
Abbreviation Service := (wired EvidenceService unit).

Definition WithStorage (storage : option nat) : Service -> Service := set_storage storage.

Context {DB L G T : Type} `{GormOpen DB L} (register : string -> serializer -> G -> G).

Definition NewService (opts : list (Service -> Service)) : Go (World (list DB) G T) Service :=
  let s := mkWired EvidenceStore.NewService None None tt in
  default_storage register (default_authz (apply_options opts s)).
End Setup.
End EvidenceSetup.

(** ** Evaluation *)

Module EvaluationSetup.
Section Setup.
Context {Sch O : Type}.
Abbreviation Service := (wired (EvaluationService Sch) (peer O)).

Definition DefaultOrchestratorAddress : string := "localhost:9090".

Definition WithStorage (storage : option nat) : Service -> Service := set_storage storage.
Definition WithOAuth2Authorizer (config : ClientCredentials) : Service -> Service :=
  on_peers (peer_SetAuthorizer (NewOAuthAuthorizerFromClientCredentials config)).
Definition WithAuthorizer (auth : authorizer) : Service -> Service := on_peers (peer_SetAuthorizer auth).
Definition WithOrchestratorAddress (target : string) (opts : list O) : Service -> Service :=
  on_peers (fun p => mkPeer target opts (peer_authorizer p)).

Context {DB L G T : Type} `{GormOpen DB L} (register : string -> serializer -> G -> G).

Definition NewService (sch : Sch) (opts : list (Service -> Service)) : Go (World (list DB) G T) Service :=
  let svc := mkWired (mkEvaluationService ∅ sch) None None (NewPeer DefaultOrchestratorAddress) in
  svc <- default_storage register (apply_options opts svc) ;;
  gret (default_authz svc).
End Setup.
End EvaluationSetup.

(** ** Assessment *)

Module AssessmentSetup.
Section Setup.
Context {Query EvS OrS EvtS O : Type}.

(** The connections to the evidence store and the orchestrator. *)
Record peers := mkPeers { evidenceStore : peer O; orchestrator : peer O }.
Abbreviation Service := (wired (AssessmentService Query EvS OrS EvtS) peers).

Definition WithoutEvidenceStore : Service -> Service := on_service Assessment.WithoutEvidenceStore.
Definition WithEvidenceStoreAddress (address : string) (opts : list O) (s : Service) : Service :=
  on_peers (fun p => mkPeers (mkPeer address opts (peer_authorizer (evidenceStore p))) (orchestrator p))
    (on_service (Assessment.WithEvidenceStoreAddress address) s).
Definition WithOrchestratorAddress (target : string) (opts : list O) (s : Service) : Service :=
  on_peers (fun p => mkPeers (evidenceStore p) (mkPeer target opts (peer_authorizer (orchestrator p))))
    (on_service (Assessment.WithOrchestratorAddress target) s).
Definition WithAuthorizer (auth : authorizer) : Service -> Service :=
  on_peers (fun p => mkPeers (peer_SetAuthorizer auth (evidenceStore p)) (peer_SetAuthorizer auth (orchestrator p))).
Definition WithOAuth2Authorizer (config : ClientCredentials) : Service -> Service :=
  WithAuthorizer (NewOAuthAuthorizerFromClientCredentials config).
Definition WithRegoPackageName (pkg : string) : Service -> Service := on_service (Assessment.WithRegoPackageName pkg).
Definition WithAuthorizationStrategy (authz : option strategy) : Service -> Service := set_authz authz.

Definition start_service : AssessmentService Query EvS OrS EvtS :=
  mkAssessment false NewStreamsOf DefaultEvidenceStoreAddress NewStreamsOf DefaultOrchestratorAddress
    None [] [] ∅ (mkRegoEval ∅ ∅ false "") "".

Definition NewService (opts : list (Service -> Service)) : Service :=
  let svc := mkWired start_service None None (mkPeers (NewPeer DefaultEvidenceStoreAddress) (NewPeer DefaultOrchestratorAddress)) in
  let svc := apply_options opts svc in
  let svc := if bool_decide (evalPkg (wired_svc svc) = "") then WithRegoPackageName DefaultRegoPackage svc else svc in
  let svc := on_service (fun s => set_pe (NewRegoEval [WithPackageName (evalPkg s)]) s) svc in
  default_authz svc.
End Setup.
Arguments mkPeers {O}.
Arguments evidenceStore {O}.
Arguments orchestrator {O}.
Arguments peers O : clear implicits.
End AssessmentSetup.

(** ** Orchestrator *)

(** A handler of a service with state [s] on the database of the storage [h]. *)
Definition on_storage {DB S G T T' A} (inj : T' -> T) (h : nat) (m : Go (World DB S T') A) (s : S)
  : Go (World (list DB) G T) (A * S) := fun w =>
  match w_db w !! h with
  | None => (Panicked, w)
  | Some db =>
      let '(o, w1) := m (mkWorld db s [] (w_tick w)) in
      (match o with Returned a => Returned (a, w_svc w1) | Panicked => Panicked | OutOfFuel => OutOfFuel end,
       mkWorld (<[h := w_db w1]> (w_db w)) (w_svc w) (w_tasks w ++ (inj <$> w_tasks w1)) (w_tick w1))
  end.

Module OrchestratorSetup.
Definition DefaultMetricsFile : string := "metrics.json".
Definition DefaultCatalogsFolder : string := "catalogs".

(** The service with the sources of its metrics and catalogs. *)
Record state := mkState {
  o_svc : OrchestratorService;
  metricsFile : string;
  loadMetricsFunc : option (res (list Metric));
  catalogsFolder : string;
  loadCatalogsFunc : option (list Catalog * option error);
}.
Abbreviation Service := (wired state unit).

Definition WithMetricsFile (file : string) : Service -> Service :=
  on_service (fun s => mkState (o_svc s) file (loadMetricsFunc s) (catalogsFolder s) (loadCatalogsFunc s)).
Definition WithExternalMetrics (f : res (list Metric)) : Service -> Service :=
  on_service (fun s => mkState (o_svc s) (metricsFile s) (Some f) (catalogsFolder s) (loadCatalogsFunc s)).
Definition WithCatalogsFolder (folder : string) : Service -> Service :=
  on_service (fun s => mkState (o_svc s) (metricsFile s) (loadMetricsFunc s) folder (loadCatalogsFunc s)).
Definition WithExternalCatalogs (f : list Catalog * option error) : Service -> Service :=
  on_service (fun s => mkState (o_svc s) (metricsFile s) (loadMetricsFunc s) (catalogsFolder s) (Some f)).
Definition WithStorage (storage : option nat) : Service -> Service := set_storage storage.
Definition WithAuthorizationStrategyJWT (key allowAllKey : string) : Service -> Service :=
  set_authz (Some (StrategyJWT (JWT.mkJWT key allowAllKey))).
Definition WithAuthorizationStrategy (authz : option strategy) : Service -> Service := set_authz authz.

Section Setup.
Context {DB L G T : Type} `{GormOpen DB L, Storage DB, Files, Env} (register : string -> serializer -> G -> G) (inj : OrchestratorTask -> T).
Abbreviation W := (World (list DB) G T).

(** [s.loadMetrics()] and [s.loadCatalogs()], whose errors are logged. *)
Definition load (s : state) : Go (World DB OrchestratorService OrchestratorTask) unit :=
  NewOrchestratorService (loadMetricsFunc s) (metricsFile s) (loadCatalogsFunc s) (catalogsFolder s).

(** Without a storage, the first metric or the catalogs that are to be saved make it
    panic. *)
Definition load_without_storage (s : state) : Go W OrchestratorService :=
  svc <- (match default (loadEmbeddedMetrics (metricsFile s)) (loadMetricsFunc s) with
          | Err _ => gret (o_svc s)
          | OK [] => gret (set_defaults ∅ (o_svc s))
          | OK (_ :: _) => gpanic
          end) ;;
  match default (loadEmbeddedCatalogs (catalogsFolder s)) (loadCatalogsFunc s) with
  | (_, Some _) => gret svc
  | (_, None) => gpanic
  end.

Definition NewService (opts : list (Service -> Service)) : Go W Service :=
  let s := mkWired (mkState (mkOrchestrator [] [] [] [] ∅ []) DefaultMetricsFile None DefaultCatalogsFolder None) None None tt in
  s <- default_storage register (apply_options opts s) ;;
  let s := default_authz s in
  svc <- (match wired_storage s with
          | Some h => r <- on_storage inj h (load (wired_svc s)) (o_svc (wired_svc s)) ;; gret (snd r)
          | None => load_without_storage (wired_svc s)
          end) ;;
  gret (on_service (fun st => mkState svc (metricsFile st) (loadMetricsFunc st) (catalogsFolder st) (loadCatalogsFunc st)) s).
End Setup.
End OrchestratorSetup.
