(* ===== verification/Engine.v ===== *)
(** cmd/engine/engine.go: the engine, which opens a storage, constructs the services
    on it and runs them behind one gRPC server and the REST gateway.

    Flags and their values come from viper and cobra, which are third party
    ([Config]).  The services, the servers and their construction are the models of
    the other files; the engine runs them in a state that has all of them. *)

From Stdlib Require Import Ascii.
From S2P Require Import Prelude GoRuntime GoStrings Util GoText Api Sql Storage Authz Evaluation Streams Ontology Policies Orchestrator OrchestratorCatalogs EvidenceStore Discovery Assessment Server Gateway GatewayRoutes Rest GatewayProofs ServiceInfo GormSetup Services.

(** ** Flags *)

Definition APIDefaultUserFlag : string := "api-default-user".
Definition APIDefaultPasswordFlag : string := "api-default-password".
Definition APIKeyPasswordFlag : string := "api-key-password".
Definition APIKeyPathFlag : string := "api-key-path".
Definition APIKeySaveOnCreateFlag : string := "api-key-save-on-create".
Definition APIgRPCPortFlag : string := "api-grpc-port".
Definition APIHTTPPortFlag : string := "api-http-port".
Definition APICORSAllowedOriginsFlags : string := "api-cors-allowed-origins".
Definition APICORSAllowedHeadersFlags : string := "api-cors-allowed-headers".
Definition APICORSAllowedMethodsFlags : string := "api-cors-allowed-methods".
Definition APIJWKSURLFlag : string := "api-jwks-url".
Definition APIStartEmbeddedOAuth2ServerFlag : string := "api-start-embedded-oauth-server".
Definition ServiceOAuth2EndpointFlag : string := "service-oauth2-token-endpoint".
Definition ServiceOAuth2ClientIDFlag : string := "service-oauth2-client-id".
Definition ServiceOAuth2ClientSecretFlag : string := "service-oauth2-client-secret".
Definition DBUserNameFlag : string := "db-user-name".
Definition DBPasswordFlag : string := "db-password".
Definition DBHostFlag : string := "db-host".
Definition DBNameFlag : string := "db-name".
Definition DBPortFlag : string := "db-port".
Definition DBSSLModeFlag : string := "db-ssl-mode".
Definition DBInMemoryFlag : string := "db-in-memory".
Definition CreateDefaultTarget : string := "target-default-create".
Definition DiscoveryAutoStartFlag : string := "discovery-auto-start".
Definition DiscoveryProviderFlag : string := "discovery-provider".
Definition DiscoveryResourceGroupFlag : string := "discovery-resource-group".
Definition DashboardURLFlag : string := "dashboard-url".
Definition LogLevelFlag : string := "log-level".

Definition DefaultAPIDefaultUser : string := "clouditor".
Definition DefaultAPIDefaultPassword : string := "clouditor".
Definition DefaultAPIgRPCPort : Z := 9090.
Definition DefaultAPIStartEmbeddedOAuth2Server : bool := true.
Definition DefaultServiceOAuth2Endpoint : string := "http://localhost:8080/v1/auth/token".
Definition DefaultServiceOAuth2ClientID : string := "clouditor".
Definition DefaultServiceOAuth2ClientSecret : string := "clouditor".
Definition DefaultDBUserName : string := "postgres".
Definition DefaultDBPassword : string := "postgres".
Definition DefaultDBHost : string := "localhost".
Definition DefaultDBName : string := "postgres".
Definition DefaultDBPort : Z := 5432.
Definition DefaultDBSSLMode : string := "disable".
Definition DefaultDBInMemory : bool := false.
Definition DefaultCreateDefaultTarget : bool := true.
Definition DefaultDiscoveryAutoStart : bool := false.
Definition DefaultDiscoveryResourceGroup : string := "".
Definition DefaultDashboardURL : string := "http://localhost:8080".
Definition DefaultLogLevel : string := "info".
Definition EnvPrefix : string := "CLOUDITOR".

(** internal/auth *)
Definition DefaultApiKeySaveOnCreate : bool := true.
Definition DefaultApiKeyPassword : string := "changeme".
Definition DefaultConfigDirectory : string := "~/.clouditor".
Definition DefaultApiKeyPath : string := DefaultConfigDirectory +:+ "/api.key".

(** cli/commands/login *)
Definition login_DefaultClientID : string := "cli".
Definition login_DefaultCallback : string := "http://localhost:10000/callback".

Inductive flag_value := VString (s : string) | VBool (b : bool) | VUint16 (n : Z) | VStrings (l : list string).

(** The flags of the command with their defaults, as [init] registers them. *)
Definition engine_flags : list (string * flag_value) :=
  [(APIDefaultUserFlag, VString DefaultAPIDefaultUser);
   (APIDefaultPasswordFlag, VString DefaultAPIDefaultPassword);
   (APIKeyPasswordFlag, VString DefaultApiKeyPassword);
   (APIKeyPathFlag, VString DefaultApiKeyPath);
   (APIKeySaveOnCreateFlag, VBool DefaultApiKeySaveOnCreate);
   (APIgRPCPortFlag, VUint16 DefaultAPIgRPCPort);
   (APIHTTPPortFlag, VUint16 DefaultAPIHTTPPort);
   (APIJWKSURLFlag, VString DefaultJWKSURL);
   (ServiceOAuth2EndpointFlag, VString DefaultServiceOAuth2Endpoint);
   (ServiceOAuth2ClientIDFlag, VString DefaultServiceOAuth2ClientID);
   (ServiceOAuth2ClientSecretFlag, VString DefaultServiceOAuth2ClientSecret);
   (APIStartEmbeddedOAuth2ServerFlag, VBool DefaultAPIStartEmbeddedOAuth2Server);
   (APICORSAllowedOriginsFlags, VStrings DefaultAllowedOrigins);
   (APICORSAllowedHeadersFlags, VStrings DefaultAllowedHeaders);
   (APICORSAllowedMethodsFlags, VStrings DefaultAllowedMethods);
   (DBUserNameFlag, VString DefaultDBUserName);
   (DBPasswordFlag, VString DefaultDBPassword);
   (DBHostFlag, VString DefaultDBHost);
   (DBNameFlag, VString DefaultDBName);
   (DBPortFlag, VUint16 DefaultDBPort);
   (DBSSLModeFlag, VString DefaultDBSSLMode);
   (DBInMemoryFlag, VBool DefaultDBInMemory);
   (CreateDefaultTarget, VBool DefaultCreateDefaultTarget);
   (DiscoveryAutoStartFlag, VBool DefaultDiscoveryAutoStart);
   (DiscoveryProviderFlag, VStrings []);
   (DiscoveryResourceGroupFlag, VString DefaultDiscoveryResourceGroup);
   (DashboardURLFlag, VString DefaultDashboardURL);
   (LogLevelFlag, VString DefaultLogLevel)].

(** The flags that are bound to a viper key, of the same name. *)
Definition bound_flags : list string :=
  [APIDefaultUserFlag; APIDefaultPasswordFlag; APIKeyPasswordFlag; APIKeyPathFlag; APIKeySaveOnCreateFlag; APIgRPCPortFlag; APIHTTPPortFlag; APIJWKSURLFlag; ServiceOAuth2EndpointFlag; ServiceOAuth2ClientIDFlag; ServiceOAuth2ClientSecretFlag; APIStartEmbeddedOAuth2ServerFlag; APICORSAllowedOriginsFlags; APICORSAllowedHeadersFlags; APICORSAllowedMethodsFlags; DBUserNameFlag; DBPasswordFlag; DBHostFlag; DBNameFlag; DBPortFlag; DBSSLModeFlag; DBInMemoryFlag; CreateDefaultTarget; DiscoveryAutoStartFlag; DiscoveryProviderFlag; DiscoveryResourceGroupFlag; DashboardURLFlag; LogLevelFlag].

(** The values that viper answers, and the environment variable that [initConfig]
    makes it read for a key: the prefix and the key in upper case with "_" for "-". *)
Class Config := {
  viper_GetString : string -> string;
  viper_GetBool : string -> bool;
  viper_GetUint16 : string -> Z;
  viper_GetStringSlice : string -> list string;
}.

Fixpoint env_name (key : string) : string :=
  match key with
  | "" => ""
  | String c key => String (if bool_decide (c = "-"%char) then "_"%char else ascii_upper c) (env_name key)
  end.
Definition env_variable (key : string) : string := EnvPrefix +:+ "_" +:+ env_name key.

(** ** The state of the engine *)

(** What the libraries offer that the engine itself calls: log levels, the two
    schedulers, and the format of a time. *)
Class EngineLibrary (Level Sch GSch : Type) := {
  logrus_ParseLevel : string -> res Level;
  gocron_NewScheduler_UTC : Sch;
  gocron_NewScheduler_Local : GSch;
  format_time : Z -> string;
}.

Definition ErrServerClosed : error := EText "http: Server closed".

Section Engine.
Context {DB L Level Sch GSch D Stream O Query Tx EvS OrS EvtS Jwks Key SOpt ROpt Conn Ctx R : Type}.
Context `{Config, EngineLibrary Level Sch GSch, GormOpen DB L, Storage DB, Files, Env, BuildEnvironment}.
Context `{DiscoveryScheduler Sch D, Providers D, Discoverer D R, AuthorizationStrategy Ctx, Validator StartDiscoveryRequest}.
Context `{AssessmentClients EvS OrS EvtS, !@ServerLibrary SOpt, !@RestLibrary ROpt Conn}.

Abbreviation DiscoverySvc := (wired (DiscoveryService Sch D Stream) (peer O)).
Abbreviation AssessmentSvc := (wired (AssessmentService Query EvS OrS EvtS) (AssessmentSetup.peers O)).
Abbreviation EvaluationSvc := (wired (EvaluationService GSch) (peer O)).
Abbreviation EvidenceSvc := (wired EvidenceService unit).
Abbreviation ServerConfig := (config Jwks Key SOpt).

(** The five services; they are constructed together. *)
Record services := mkServices {
  discoveryService : DiscoverySvc;
  orchestratorService : OrchestratorSetup.Service;
  assessmentService : AssessmentSvc;
  evidenceStoreService : EvidenceSvc;
  evaluationService : EvaluationSvc;
}.

(** The package variables, GORM's serializers, the runtime information, the log
    level, and the state of the packages server and rest.  [stopped] is set by
    [srv.Stop()]. *)
Record engine := mkEngine {
  serializers : gmap string serializer;
  runtime_info : runtimeState;
  log_level : option Level;
  db : option nat;
  providers_ : list string;
  svcs : option services;
  server_config : ServerConfig;
  srv : option (Server (Opt := SOpt));
  rest_ : rest ROpt;
  stopped : bool;
}.

(** The goroutines of the engine: the automatic start of the discovery, and those of
    its parts. *)
Inductive engine_task :=
| AutoStartDiscovery (rg : string)
| DiscoveryGo (t : DiscoveryTask)
| OrchestratorGo (t : OrchestratorTask)
| RestGo (t : RestTask Conn).

Abbreviation W := (World (list DB) engine engine_task).

Definition set_serializers (m : gmap string serializer) (e : engine) : engine :=
  mkEngine m (runtime_info e) (log_level e) (db e) (providers_ e) (svcs e) (server_config e) (srv e) (rest_ e) (stopped e).
Definition set_runtime (r : runtimeState) (e : engine) : engine :=
  mkEngine (serializers e) r (log_level e) (db e) (providers_ e) (svcs e) (server_config e) (srv e) (rest_ e) (stopped e).
Definition set_level (l : Level) (e : engine) : engine :=
  mkEngine (serializers e) (runtime_info e) (Some l) (db e) (providers_ e) (svcs e) (server_config e) (srv e) (rest_ e) (stopped e).
Definition set_db (h : option nat) (e : engine) : engine :=
  mkEngine (serializers e) (runtime_info e) (log_level e) h (providers_ e) (svcs e) (server_config e) (srv e) (rest_ e) (stopped e).
Definition set_providers (l : list string) (e : engine) : engine :=
  mkEngine (serializers e) (runtime_info e) (log_level e) (db e) l (svcs e) (server_config e) (srv e) (rest_ e) (stopped e).
Definition set_svcs (s : option services) (e : engine) : engine :=
  mkEngine (serializers e) (runtime_info e) (log_level e) (db e) (providers_ e) s (server_config e) (srv e) (rest_ e) (stopped e).
Definition set_server (c : ServerConfig) (s : option (Server (Opt := SOpt))) (e : engine) : engine :=
  mkEngine (serializers e) (runtime_info e) (log_level e) (db e) (providers_ e) (svcs e) c s (rest_ e) (stopped e).
Definition set_rest (r : rest ROpt) (e : engine) : engine :=
  mkEngine (serializers e) (runtime_info e) (log_level e) (db e) (providers_ e) (svcs e) (server_config e) (srv e) r (stopped e).
Definition set_stopped (e : engine) : engine :=
  mkEngine (serializers e) (runtime_info e) (log_level e) (db e) (providers_ e) (svcs e) (server_config e) (srv e) (rest_ e) true.

Definition register_serializer (name : string) (s : serializer) (e : engine) : engine :=
  set_serializers (<[name := s]> (serializers e)) e.

(** A call into a part of the engine that has a state of its own. *)
Definition within {S T A} (get : engine -> S) (put : S -> engine -> engine) (inj : T -> list engine_task)
    (m : Go (World unit S T) A) : Go W A := fun w =>
  let '(o, w1) := m (mkWorld tt (get (w_svc w)) [] (w_tick w)) in
  (o, mkWorld (w_db w) (put (w_svc w1) (w_svc w)) (w_tasks w ++ (w_tasks w1 ≫= inj)) (w_tick w1)).

(** ** doCmd *)

(** The version that is printed at the start. *)
Definition print_version : Go W string :=
  r <- within runtime_info set_runtime (fun _ : unit => []) GetRuntimeInfo ;;
  VersionString format_time (match r with OK rt => Some rt | Err _ => None end).

Definition open_storage : Go W (res nat) :=
  if viper_GetBool DBInMemoryFlag then inmemory_NewStorage register_serializer
  else NewStorage register_serializer
         [WithPostgres (viper_GetString DBHostFlag) (viper_GetUint16 DBPortFlag) (viper_GetString DBUserNameFlag)
            (viper_GetString DBPasswordFlag) (viper_GetString DBNameFlag) (viper_GetString DBSSLModeFlag)].

(** If no providers are given, all that are implemented. *)
Definition chosen_providers : list string :=
  match viper_GetStringSlice DiscoveryProviderFlag with
  | [] => [ProviderAWS; ProviderAzure; ProviderK8S]
  | l => l
  end.

Definition service_credentials : ClientCredentials :=
  mkClientCredentials (viper_GetString ServiceOAuth2ClientIDFlag) (viper_GetString ServiceOAuth2ClientSecretFlag)
    (viper_GetString ServiceOAuth2EndpointFlag).

(** The five services, in the order they are constructed in. *)
Definition construct (storage : option nat) (provs : list string) : Go W services :=
  d <- DiscoverySetup.NewService register_serializer gocron_NewScheduler_UTC
         [DiscoverySetup.WithProviders provs; DiscoverySetup.WithStorage storage;
          DiscoverySetup.WithOAuth2Authorizer service_credentials] ;;
  o <- OrchestratorSetup.NewService register_serializer OrchestratorGo [OrchestratorSetup.WithStorage storage] ;;
  let a := AssessmentSetup.NewService [AssessmentSetup.WithOAuth2Authorizer service_credentials] in
  ev <- EvidenceSetup.NewService register_serializer [EvidenceSetup.WithStorage storage] ;;
  ea <- EvaluationSetup.NewService register_serializer gocron_NewScheduler_Local
          [EvaluationSetup.WithOAuth2Authorizer service_credentials; EvaluationSetup.WithStorage storage] ;;
  gret (mkServices d o a ev ea).

Definition set_orchestrator (svc : OrchestratorService) (s : services) : services :=
  mkServices (discoveryService s)
    (on_service (fun st => OrchestratorSetup.mkState svc (OrchestratorSetup.metricsFile st) (OrchestratorSetup.loadMetricsFunc st)
       (OrchestratorSetup.catalogsFolder st) (OrchestratorSetup.loadCatalogsFunc st)) (orchestratorService s))
    (assessmentService s) (evidenceStoreService s) (evaluationService s).
Definition set_assessment (svc : AssessmentService Query EvS OrS EvtS) (s : services) : services :=
  mkServices (discoveryService s) (orchestratorService s) (on_service (fun _ => svc) (assessmentService s))
    (evidenceStoreService s) (evaluationService s).
Definition set_discovery (svc : DiscoveryService Sch D Stream) (s : services) : services :=
  mkServices (on_service (fun _ => svc) (discoveryService s)) (orchestratorService s) (assessmentService s)
    (evidenceStoreService s) (evaluationService s).

(** The default target, if it is asked for; an error is logged. *)
Definition create_default_target (s : services) : Go W services :=
  if viper_GetBool CreateDefaultTarget then
    match wired_storage (orchestratorService s) with
    | None => gpanic
    | Some h =>
        r <- on_storage OrchestratorGo h CreateDefaultTargetCloudService (OrchestratorSetup.o_svc (wired_svc (orchestratorService s))) ;;
        gret (set_orchestrator (snd r) s)
    end
  else gret s.

(** The clients and the user of the embedded OAuth 2.0 server. *)
Definition oauth_options : list AuthorizationServerOption :=
  [oauth2_WithClient login_DefaultClientID "" login_DefaultCallback;
   oauth2_WithClient "dashboard" "" (viper_GetString DashboardURLFlag +:+ "/callback");
   oauth2_WithClient (viper_GetString ServiceOAuth2ClientIDFlag) (viper_GetString ServiceOAuth2ClientIDFlag) "";
   oauth2_WithLoginPage [(viper_GetString APIDefaultUserFlag, viper_GetString APIDefaultPasswordFlag)] "/v1/auth"].

Definition rest_server_options : list (rest ROpt -> rest ROpt) :=
  [WithAllowedOrigins (viper_GetStringSlice APICORSAllowedOriginsFlags);
   WithAllowedHeaders (viper_GetStringSlice APICORSAllowedHeadersFlags);
   WithAllowedMethods (viper_GetStringSlice APICORSAllowedMethodsFlags)] ++
  (if viper_GetBool APIStartEmbeddedOAuth2ServerFlag then
     [WithEmbeddedOAuth2Server (viper_GetString APIKeyPathFlag) (viper_GetString APIKeyPasswordFlag)
        (viper_GetBool APIKeySaveOnCreateFlag) oauth_options]
   else []).

(** The services are registered under the names of their variables. *)
Definition grpc_options : list (ServerConfig -> ServerConfig) :=
  [WithJWKS (viper_GetString APIJWKSURLFlag); WithDiscovery "discoveryService"; WithExperimentalDiscovery "discoveryService";
   WithOrchestrator "orchestratorService"; WithAssessment "assessmentService"; WithEvidenceStore "evidenceStoreService";
   WithEvaluation "evaluationService"; WithReflection].

Definition start_grpc : Go W (res unit) :=
  r <- within server_config (fun c e => set_server c (srv e) e) (fun _ : unit => [])
         (StartGRPCServer ("0.0.0.0:" +:+ strconv_Itoa (viper_GetUint16 APIgRPCPortFlag)) grpc_options) ;;
  match r with
  | Err e => gerr e
  | OK s => svc_modify (fun e => set_server (server_config e) (Some s) e) ;;; gok tt
  end.

Definition run_rest : Go W error :=
  within rest_ set_rest (fun t => [RestGo t])
    (RunServer (viper_GetUint16 APIgRPCPortFlag) (viper_GetUint16 APIHTTPPortFlag) rest_server_options).

(** [assessmentService.Shutdown()] and [discoveryService.Shutdown()] *)
Definition shutdown_assessment (s : services) : Go W services := fun w =>
  let '(o, w1) := Assessment.Shutdown (mkWorld tt (wired_svc (assessmentService s)) [] (w_tick w)) in
  (match o with Returned _ => Returned (set_assessment (w_svc w1) s) | Panicked => Panicked | OutOfFuel => OutOfFuel end,
   mkWorld (w_db w) (w_svc w) (w_tasks w) (w_tick w1)).
Definition shutdown_discovery (s : services) : Go W services := fun w =>
  let '(o, w1) := Discovery.Shutdown (DB := unit) (mkWorld tt (wired_svc (discoveryService s)) [] (w_tick w)) in
  (match o with Returned _ => Returned (set_discovery (w_svc w1) s) | Panicked => Panicked | OutOfFuel => OutOfFuel end,
   mkWorld (w_db w) (w_svc w) (w_tasks w) (w_tick w1)).

(** Up to the services: the log level, the storage and the construction. *)
Definition prepare : Go W (res services) :=
  _ <- print_version ;;
  match logrus_ParseLevel (viper_GetString LogLevelFlag) with
  | Err e => gerr e
  | OK level =>
      svc_modify (set_level level) ;;;
      r <- open_storage ;;
      svc_modify (set_db (match r with OK h => Some h | Err _ => None end)) ;;;
      match r with
      | Err e => gerr (EWrap "could not create storage" e)
      | OK h =>
          svc_modify (set_providers chosen_providers) ;;;
          s <- construct (Some h) chosen_providers ;;
          s <- create_default_target s ;;
          svc_modify (set_svcs (Some s)) ;;;
          gok s
      end
  end.

(** The rest: both servers, and the end. *)
Definition serve (s : services) : Go W (res unit) :=
  (if viper_GetBool DiscoveryAutoStartFlag then go_spawn (AutoStartDiscovery (viper_GetString DiscoveryResourceGroupFlag)) else gret tt) ;;;
  r <- start_grpc ;;
  match r with
  | Err e => gerr e
  | OK _ =>
      err <- run_rest ;;
      if bool_decide (err <> ErrServerClosed) then gerr err
      else
        s <- shutdown_assessment s ;;
        s <- shutdown_discovery s ;;
        svc_modify (set_svcs (Some s)) ;;;
        svc_modify set_stopped ;;;
        gok tt
  end.

Definition doCmd : Go W (res unit) := s <-? prepare ! id ;; serve s.

(** The goroutine that starts the discovery when the gateway is ready; [background]
    is [context.Background()].  (It also writes to the variable [err] of [doCmd],
    which is overwritten when the gateway ends.) *)
Definition auto_start (background : Ctx) (rg : string) : Go W (res unit) :=
  s <- svc_read svcs ;;
  s <- gderef s ;;
  h <- gderef (wired_storage (discoveryService s)) ;;
  r <- on_storage DiscoveryGo h (Start (Some background) (Some (mkStartDiscoveryRequest (Some rg)))) (wired_svc (discoveryService s)) ;;
  svc_modify (set_svcs (Some (set_discovery (snd r) s))) ;;;
  gret (fst r).
End Engine.
