(* ===== verification/EngineProofs.v ===== *)
(** The engine: what it runs, on which storage, and who may use it. *)

From Stdlib Require Import Ascii.
From S2P Require Import Prelude GoRuntime GoStrings Util GoText Api Sql Storage Authz Evaluation Streams Ontology Policies Orchestrator OrchestratorCatalogs EvidenceStore Discovery Assessment Server Gateway GatewayRoutes Rest GatewayProofs ServiceInfo GormSetup Services Engine.

(** Every flag is bound, under its own name, and has an environment variable of its
    own. *)
Lemma flags_bound : bound_flags = engine_flags.*1 /\ NoDup bound_flags /\ NoDup (env_variable <$> bound_flags).
Proof. split; [reflexivity|]. split; apply (bool_decide_unpack _); vm_compute; exact I. Qed.

(** The name a service is registered under. *)
Definition service_name (d : ServiceDesc) : string :=
  match d with
  | Orchestrator_ServiceDesc => "orchestratorService"
  | Assessment_ServiceDesc => "assessmentService"
  | EvidenceStore_ServiceDesc => "evidenceStoreService"
  | Discovery_ServiceDesc | ExperimentalDiscovery_ServiceDesc => "discoveryService"
  | Evaluation_ServiceDesc => "evaluationService"
  end.

Section Proofs.
Context {DB L Level Sch GSch D Stream O Query Tx EvS OrS EvtS Jwks Key SOpt ROpt Conn Ctx R : Type}.
Context `{Config, EngineLibrary Level Sch GSch, GormOpen DB L, Storage DB, Files, Env, BuildEnvironment}.
Context `{DiscoveryScheduler Sch D, Providers D, Discoverer D R, AuthorizationStrategy Ctx, Validator StartDiscoveryRequest}.
Context `{AssessmentClients EvS OrS EvtS, !@ServerLibrary SOpt, !@RestLibrary ROpt Conn}.
Abbreviation Services := (@services Sch GSch D Stream O Query EvS OrS EvtS).
Abbreviation Eng := (@engine Level Sch GSch D Stream O Query EvS OrS EvtS Jwks Key SOpt ROpt).
Abbreviation W := (World (list DB) Eng (@engine_task Conn)).

(** The services share the storage [h], have no authorization strategy of their own,
    and use the configured credentials. *)
Definition wired_to (h : nat) (s : Services) : Prop :=
  wired_storage (discoveryService s) = Some h /\ wired_storage (orchestratorService s) = Some h /\
  wired_storage (evidenceStoreService s) = Some h /\ wired_storage (evaluationService s) = Some h /\
  wired_authz (discoveryService s) = Some StrategyAllowAll /\ wired_authz (orchestratorService s) = Some StrategyAllowAll /\
  wired_authz (assessmentService s) = Some StrategyAllowAll /\ wired_authz (evidenceStoreService s) = Some StrategyAllowAll /\
  wired_authz (evaluationService s) = Some StrategyAllowAll /\
  let auth := Some (OAuthAuthorizer service_credentials) in
  peer_authorizer (wired_peers (discoveryService s)) = auth /\
  peer_authorizer (AssessmentSetup.evidenceStore (wired_peers (assessmentService s))) = auth /\
  peer_authorizer (AssessmentSetup.orchestrator (wired_peers (assessmentService s))) = auth /\
  peer_authorizer (wired_peers (evaluationService s)) = auth.

(** Calls on a storage change its database only. *)
Lemma on_storage_keeps {S T' A} (inj : T' -> @engine_task Conn) h (m : Go (World DB S T') A) s (w : W) :
  length (w_db (snd (on_storage inj h m s w))) = length (w_db w) /\ w_svc (snd (on_storage inj h m s w)) = w_svc w.
Proof.
  unfold on_storage. destruct (w_db w !! h); [|done]. destruct (m _) as [o w1]. cbn. by rewrite length_insert.
Qed.

Lemma construct_wired h provs (w w' : W) s :
  construct (Some h) provs w = (Returned s, w') -> wired_to h s /\ length (w_db w') = length (w_db w) /\ w_svc w' = w_svc w.
Proof.
  unfold construct, DiscoverySetup.NewService, OrchestratorSetup.NewService, EvidenceSetup.NewService, EvaluationSetup.NewService.
  cbn -[OrchestratorSetup.load on_storage]. unfold gbind, gret. cbn -[OrchestratorSetup.load on_storage].
  match goal with |- context [on_storage ?i ?h ?m ?s ?w] => pose proof (on_storage_keeps i h m s w) as Hk; destruct (on_storage i h m s w) as [[[u svc]| |] w1] end;
    [|done..].
  intros [= <- <-]. split; [|done]. by split_and!.
Qed.

Lemma default_target_wired h s s' (w w' : W) : wired_to h s -> create_default_target s w = (Returned s', w') ->
  wired_to h s' /\ length (w_db w') = length (w_db w) /\ w_svc w' = w_svc w.
Proof.
  intros Hs. pose proof Hs as (_ & Ho & _). unfold create_default_target. destruct (viper_GetBool _); [|by intros [= <- <-]].
  rewrite Ho. unfold gbind.
  match goal with |- context [on_storage ?i ?h ?m ?s ?w] => pose proof (on_storage_keeps i h m s w) as Hk; destruct (on_storage i h m s w) as [[[u svc]| |] w1] end;
    [|done..].
  intros [= <- <-]. done.
Qed.

Lemma within_keeps {S T A} get put inj (m : Go (World unit S T) A) (w : W) :
  let w' := snd (within get put inj m w) in w_db w' = w_db w /\ exists x, w_svc w' = put x (w_svc w).
Proof. unfold within. destruct (m _) as [o w1]. cbn. eauto. Qed.

Lemma open_storage_failed (w w' : W) e : open_storage w = (Returned (Err e), w') ->
  w_svc w' = w_svc w \/ w_svc w' = register_all_serializers register_serializer (w_svc w).
Proof.
  assert (Hn : forall opts, NewStorage register_serializer opts w = (Returned (Err e), w') ->
    w_svc w' = w_svc w \/ w_svc w' = register_all_serializers register_serializer (w_svc w)).
  { intros opts Hr. destruct (new_storage_runs register_serializer opts w) as (r & w1 & Hr' & _ & Hok). rewrite Hr in Hr'.
    injection Hr' as <- <-. apply Hok. }
  unfold open_storage, inmemory_NewStorage. destruct (viper_GetBool _); apply Hn.
Qed.

Lemma open_storage_new (w w' : W) h : open_storage w = (Returned (OK h), w') ->
  h = length (w_db w) /\ length (w_db w') = S (length (w_db w)) /\
  w_svc w' = register_all_serializers register_serializer (w_svc w).
Proof.
  assert (Hn : forall opts, NewStorage register_serializer opts w = (Returned (OK h), w') ->
    h = length (w_db w) /\ length (w_db w') = S (length (w_db w)) /\ w_svc w' = register_all_serializers register_serializer (w_svc w)).
  { intros opts Hr. destruct (new_storage_runs register_serializer opts w) as (r & w1 & Hr' & _ & Hok). rewrite Hr in Hr'.
    injection Hr' as <- <-. destruct Hok as (-> & Hs & db0 & db & -> & _). rewrite length_app. cbn. split_and!; [done|lia|done]. }
  unfold open_storage, inmemory_NewStorage. destruct (viper_GetBool _); apply Hn.
Qed.

(** The engine before it is started. *)
Definition fresh (w : W) : Prop := w_db w = [] /\ svcs (w_svc w) = None /\ srv (w_svc w) = None.

(** After the preparation there is one database, all services are on it, and the
    column serializers are registered. *)
Definition prepared (s : Services) (w : W) : Prop :=
  length (w_db w) = 1 /\ db (w_svc w) = Some 0 /\ wired_to 0 s /\ svcs (w_svc w) = Some s /\ srv (w_svc w) = None /\
  (forall name, name ∈ column_serializers -> is_Some (serializers (w_svc w) !! name)).

Lemma registered_serializers (e : Eng) name : name ∈ column_serializers ->
  is_Some (serializers (register_all_serializers register_serializer e) !! name).
Proof.
  unfold column_serializers. rewrite !elem_of_cons. intros [->|[->|[->|[]%not_elem_of_nil]]]; cbn;
    repeat (rewrite lookup_insert_eq || rewrite lookup_insert_ne by done); by eexists.
Qed.

Lemma version_string_state {V} format r (w : V) : snd (VersionString format r w) = w.
Proof. unfold VersionString. destruct r as [r|]; [|done]. cbn. by repeat case_match. Qed.

Lemma print_version_keeps (w : W) : fresh w -> fresh (snd (print_version w)).
Proof.
  intros Hf. unfold print_version, gbind. pose proof (within_keeps runtime_info set_runtime (fun _ : unit => []) GetRuntimeInfo w) as Hk.
  destruct (within _ _ _ _ w) as [o w1]. cbn in Hk. destruct Hk as [Hd [x Hx]].
  assert (Hf1 : fresh w1) by (unfold fresh; rewrite Hd, Hx; exact Hf).
  destruct o as [r| |]; [|done..]. by rewrite version_string_state.
Qed.

Lemma prepare_ok (w w' : W) s : fresh w -> prepare w = (Returned (OK s), w') -> prepared s w'.
Proof.
  intros Hf. unfold prepare. unfold gbind at 1. pose proof (print_version_keeps w Hf) as Hf'.
  destruct (print_version w) as [[v| |] w0]; [|done..]. clear w Hf. cbn in Hf'. destruct Hf' as (Hdb & Hsv & Hsrv).
  destruct (logrus_ParseLevel _) as [level|e]; [|done]. unfold gbind at 1 2, svc_modify at 1.
  destruct (open_storage _) as [[[h|e]| |] w1] eqn:E1; [|done..]. apply open_storage_new in E1 as (Hh & Hl & Hs1). cbn in Hh, Hl, Hs1.
  rewrite Hdb in Hh, Hl. subst h. unfold gbind, svc_modify. cbv beta iota.
  match goal with |- context [construct ?h ?l ?w] => destruct (construct h l w) as [[s1| |] w2] eqn:E2 end; [|done..]. apply construct_wired in E2 as (Hw2 & Hl2 & Hs2). cbn in Hl2, Hs2.
  destruct (create_default_target s1 w2) as [[s2| |] w3] eqn:E3; [|done..]. apply (default_target_wired 0) in E3 as (Hw3 & Hl3 & Hs3); [|done].
  intros [= <- <-]. unfold prepared. cbn. rewrite Hs3, Hs2. cbn. rewrite Hs1. cbn. split_and!; try done; [by rewrite Hl3, Hl2|].
  intros name Hn. by apply (registered_serializers (w_svc w0)).
Qed.

Lemma prepare_failed (w w' : W) e : fresh w -> prepare w = (Returned (Err e), w') -> srv (w_svc w') = None.
Proof.
  intros Hf. unfold prepare. unfold gbind at 1. pose proof (print_version_keeps w Hf) as Hf'.
  destruct (print_version w) as [[v| |] w0]; [|done..]. clear w Hf. cbn in Hf'. destruct Hf' as (Hdb & Hsv & Hsrv).
  destruct (logrus_ParseLevel _) as [level|e']; [|by intros [= <- <-]]. unfold gbind at 1 2, svc_modify at 1.
  destruct (open_storage _) as [[[h|e1]| |] w1] eqn:E1; try done; unfold gbind, svc_modify; cbv beta iota.
  - match goal with |- context [construct ?h ?l ?w] => destruct (construct h l w) as [[s1| |] w2] eqn:E2 end; [|done..].
    by destruct (create_default_target s1 w2) as [[s2| |] w3].
  - apply open_storage_failed in E1. intros [= <- <-]. by destruct E1 as [Hs|Hs]; cbn; rewrite Hs.
Qed.

(** *** Serving *)

(** What the gRPC server was started with. *)
Definition serves (s : Server (Opt := SOpt)) (c : config Jwks Key SOpt) : Prop :=
  server_addr s = "0.0.0.0:" +:+ strconv_Itoa (viper_GetUint16 APIgRPCPortFlag) /\
  (forall d name, (d, name) ∈ server_services s <-> name = service_name d) /\
  c_publicEndpoints c = [] /\ ac_useJWKS (c_ac c) = true /\ ac_jwksURL (c_ac c) = viper_GetString APIJWKSURLFlag.

Lemma start_grpc_ok (w w' : W) r : start_grpc w = (Returned r, w') ->
  w_db w' = w_db w /\ svcs (w_svc w') = svcs (w_svc w) /\ db (w_svc w') = db (w_svc w) /\ serializers (w_svc w') = serializers (w_svc w) /\
  match r with
  | OK _ => exists s, srv (w_svc w') = Some s /\ serves s (server_config (w_svc w'))
  | Err _ => srv (w_svc w') = srv (w_svc w)
  end.
Proof.
  unfold start_grpc, within, StartGRPCServer, gbind, remote, svc_modify, svc_read, gerr, gok, gret. cbn -[map_to_list insert strconv_Itoa].
  destruct (net_Listen _ _) as [e|]; cbn -[map_to_list insert strconv_Itoa]; intros [= <- <-]; cbn -[map_to_list insert strconv_Itoa]; [done|]. split_and!; [done..|].
  eexists. split; [done|]. unfold serves. cbn -[map_to_list insert strconv_Itoa]. split_and!; [done| |done..].
  intros d name. rewrite elem_of_map_to_list. destruct d; cbn;
    repeat (rewrite lookup_insert_eq || rewrite lookup_insert_ne by done); naive_solver.
Qed.

(** The state while the engine serves, and after it has ended. *)
Definition running (w : W) : Prop :=
  length (w_db w) = 1 /\ db (w_svc w) = Some 0 /\ (exists s, svcs (w_svc w) = Some s /\ wired_to 0 s) /\
  (exists s, srv (w_svc w) = Some s /\ serves s (server_config (w_svc w))) /\
  (forall name, name ∈ column_serializers -> is_Some (serializers (w_svc w) !! name)).

Lemma shutdown_assessment_wired h s s' (w w' : W) : shutdown_assessment s w = (Returned s', w') -> wired_to h s ->
  wired_to h s' /\ w_db w' = w_db w /\ w_svc w' = w_svc w.
Proof. unfold shutdown_assessment. destruct (Assessment.Shutdown _) as [[r| |] w1]; [|done..]. by intros [= <- <-]. Qed.

Lemma shutdown_discovery_wired h s s' (w w' : W) : shutdown_discovery s w = (Returned s', w') -> wired_to h s ->
  wired_to h s' /\ w_db w' = w_db w /\ w_svc w' = w_svc w.
Proof. unfold shutdown_discovery. destruct (Discovery.Shutdown _) as [[r| |] w1]; [|done..]. by intros [= <- <-]. Qed.

Lemma run_rest_running (w w' : W) e : running w -> run_rest w = (Returned e, w') -> running w' /\ svcs (w_svc w') = svcs (w_svc w).
Proof.
  intros Hr Hw. pose proof (within_keeps rest_ set_rest (fun t => [RestGo t])
    (RunServer (viper_GetUint16 APIgRPCPortFlag) (viper_GetUint16 APIHTTPPortFlag) rest_server_options) w) as Hk.
  unfold run_rest in Hw. rewrite Hw in Hk. cbn in Hk. destruct Hk as [Hd [x Hx]]. unfold running. rewrite Hd, Hx. done.
Qed.

Lemma serve_running s (w w' : W) r : prepared s w -> serve s w = (Returned r, w') -> srv (w_svc w') <> None -> running w'.
Proof.
  intros (Hl & Hdb & Hw & Hsv & Hsrv & Hser). unfold serve, gbind at 1.
  assert (Hspawn : exists w0, (if viper_GetBool DiscoveryAutoStartFlag then go_spawn (AutoStartDiscovery (viper_GetString DiscoveryResourceGroupFlag)) else gret tt) w
    = (Returned tt, w0) /\ w_db w0 = w_db w /\ w_svc w0 = w_svc w) by (destruct (viper_GetBool _); by eexists).
  destruct Hspawn as (w0 & -> & Hd0 & Hs0). unfold gbind at 1.
  destruct (start_grpc w0) as [[r1| |] w1] eqn:E1; [|done..]. apply start_grpc_ok in E1 as (Hd1 & Hv1 & Hb1 & Hz1 & Hsv1).
  destruct r1 as [_u|e]; [|intros [= <- <-]; by rewrite Hsv1, Hs0, Hsrv].
  assert (Hr1 : running w1).
  { unfold running. rewrite Hd1, Hv1, Hb1, Hz1, Hd0, Hs0. split_and!; [done|done|by eexists|done|done]. }
  unfold gbind at 1. destruct (run_rest w1) as [[e| |] w2] eqn:E2; [|done..].
  destruct (run_rest_running _ _ _ Hr1 E2) as [Hr2 Hv2]. case_bool_decide; [by intros [= <- <-]|].
  unfold gbind at 1. destruct (shutdown_assessment s w2) as [[s3| |] w3] eqn:E3; [|done..].
  apply (shutdown_assessment_wired 0) in E3 as (Hw3 & Hd3 & Hs3); [|done].
  unfold gbind at 1. destruct (shutdown_discovery s3 w3) as [[s4| |] w4] eqn:E4; [|done..].
  apply (shutdown_discovery_wired 0) in E4 as (Hw4 & Hd4 & Hs4); [|done].
  intros [= <- <-] _. destruct Hr2 as (Ha & Hb & _ & Hd & He). unfold running. cbn. rewrite Hd4, Hd3, Hs4, Hs3.
  split_and!; [done|done|by eexists|done|done].
Qed.

End Proofs.

(** ** The embedded OAuth 2.0 server *)

Section OAuth.
Context {Any ROpt Conn : Type} `{Config, !@RestLibrary ROpt Conn, ServeMuxLaws}.
Abbreviation RW := (World Any (rest ROpt) (RestTask Conn)).

(** A client with this secret is registered. *)
Definition client_registered (opts : list AuthorizationServerOption) (id secret : string) : Prop :=
  exists redirect, oauth2_WithClient id secret redirect ∈ opts.

Lemma embedded_setup (w w' : RW) grpcPort port :
  viper_GetBool APIStartEmbeddedOAuth2ServerFlag = true -> setup grpcPort port rest_server_options w = (Returned None, w') ->
  rest_auth (w_svc w') = Some (oauth_options ++
    [oauth2_WithSigningKeysFunc (viper_GetString APIKeyPathFlag) (viper_GetString APIKeyPasswordFlag) (viper_GetBool APIKeySaveOnCreateFlag);
     oauth2_WithPublicURL ("http://localhost:" +:+ strconv_Itoa port +:+ "/v1/auth")]) /\
  rest_mux (w_svc w') = [Additional "GET" "/.well-known/openid-configuration"; Additional "GET" "/v1/auth/certs";
     Additional "GET" "/v1/auth/login"; Additional "GET" "/v1/auth/authorize"; Additional "POST" "/v1/auth/login";
     Additional "POST" "/v1/auth/token"] ++ (Generated <$> generated_handlers).
Proof.
  intros Hb Hs. apply setup_mux in Hs. rewrite Hs. unfold rest_server_options. rewrite Hb. split; reflexivity.
Qed.

(** C26. With the embedded authorization server, the gateway serves its token endpoint,
    and the clients that are registered with it are the command line and the
    dashboard, which are public, and one for the services.  The credentials the
    services are configured with are those of a registered client exactly when the
    secret is the same as the id: the configured secret is not used for the client. *)
Theorem service_login (w w' : RW) grpcPort port :
  viper_GetBool APIStartEmbeddedOAuth2ServerFlag = true -> setup grpcPort port rest_server_options w = (Returned None, w') ->
  ClientID service_credentials <> login_DefaultClientID -> ClientID service_credentials <> "dashboard" ->
  mux_dispatch (rest_mux (w_svc w')) "POST" ["v1"; "auth"; "token"] = Some (Additional "POST" "/v1/auth/token", ∅) /\
  exists opts, rest_auth (w_svc w') = Some opts /\
    (client_registered opts (ClientID service_credentials) (ClientSecret service_credentials) <->
     ClientSecret service_credentials = ClientID service_credentials).
Proof.
  intros Hb Hs Hcli Hdash. destruct (embedded_setup _ _ _ _ Hb Hs) as [Ha Hm]. split.
  - rewrite mux_last, Hm. vm_compute. reflexivity.
  - eexists. split; [exact Ha|]. unfold client_registered, oauth_options, service_credentials in *. cbn in Hcli, Hdash. cbn [ClientID ClientSecret].
    split.
    + intros [redirect Hin]. rewrite elem_of_app, !elem_of_cons in Hin. destruct Hin as [Hin|Hin]; [|set_solver].
      clear -Hin Hcli Hdash. destruct Hin as [Hc|[Hc|[Hc|[Hc|Hc]]]]; [congruence..|by apply not_elem_of_nil in Hc].
    + intros ->. exists "". set_solver.
Qed.
End OAuth.
