(* ===== verification/EngineWitness.v ===== *)
(** The engine with its default flags, on the databases of MemDB.v. *)

From S2P Require Import Prelude GoRuntime GoStrings Util GoText Api Sql Storage Gorm MemDB Authz Pagination Evaluation EvaluationProofs EvaluationWitness Streams Ontology Policies Orchestrator OrchestratorCatalogs OrchestratorWitness EvidenceStore Discovery DiscoveryWitness Assessment AssessmentWitness Server Gateway GatewayRoutes Rest GatewayProofs GatewayWitness ServiceInfo GormSetup Services Engine EngineProofs.

Definition flag_default (name : string) : option flag_value := (list_to_map engine_flags : gmap string flag_value) !! name.

(** The flags with their defaults. *)
#[export] Instance default_config : Config := {|
  viper_GetString := fun k => match flag_default k with Some (VString s) => s | _ => "" end;
  viper_GetBool := fun k => match flag_default k with Some (VBool b) => b | _ => false end;
  viper_GetUint16 := fun k => match flag_default k with Some (VUint16 n) => n | _ => 0%Z end;
  viper_GetStringSlice := fun k => match flag_default k with Some (VStrings l) => l | _ => [] end;
|}.

#[export] Instance demo_gorm_open : GormOpen memdb unit := {|
  gorm_Open := fun _ _ _ => OK (mem_empty 0);
  gorm_DB := fun _ _ => None;
  gorm_SetMaxOpenConns := fun _ db => db;
  gorm_SetupJoinTable := fun _ _ _ db => (None, db);
  gorm_AutoMigrate := fun _ db => (None, db);
  logger_Silent := tt;
|}.

(** A metrics file with one metric, and no catalogs. *)
#[export] Instance demo_files : Files := {|
  os_ReadFile := fun _ => OK "text";
  embedded_ReadFile := fun _ => OK "metrics";
  read_folder := fun _ => Err (EText "no such folder");
  json_configuration := fun _ => OK (Some (mkMetricConfiguration "==" None false None "" ""));
  json_metrics := fun _ => OK [demo_metric "m1"];
  json_catalogs := fun _ => OK [];
|}.

#[export] Instance demo_build : BuildEnvironment := {|
  ReadBuildInfo := fun _ => Some (mkBuildInfo "go1.22" [] []);
  time_Parse_RFC3339 := fun _ => Err (EText "no time");
  version := "v2.0.0";
|}.

#[export] Instance demo_engine_library : EngineLibrary string (list (string * nat)) (list Job) := {|
  logrus_ParseLevel := OK;
  gocron_NewScheduler_UTC := [];
  gocron_NewScheduler_Local := [];
  format_time := fun _ => "20240101000000";
|}.

#[export] Instance demo_server_library : @ServerLibrary unit := {| net_Listen := fun _ _ => None; chain_options := [tt; tt] |}.

Abbreviation DemoEngine := (@engine string (list (string * nat)) (list Job) nat unit unit string unit unit unit unit unit unit unit).
Abbreviation DemoEngineWorld := (World (list memdb) DemoEngine (@engine_task unit)).

Definition engine_start : DemoEngineWorld :=
  mkWorld [] (mkEngine ∅ (mkRuntimeState empty_runtime false) None None [] None
    (mkConfig [] ∅ [] (mkAuthConfig "" false None None) false) None init_rest false) [] 0.

Definition engine_run : outcome (res unit) * DemoEngineWorld := doCmd engine_start.

(** The engine serves and ends; the database has the default target and the metric. *)
Example engine_ends :
  fst engine_run = Returned (OK tt) /\ stopped (w_svc (snd engine_run)) = true /\
  (CloudService_Id <$> (mem_rows (default (mem_empty 0) (head (w_db (snd engine_run)))) T_CloudService)) = [DefaultTargetCloudServiceId] /\
  (Metric_Id <$> (mem_rows (default (mem_empty 0) (head (w_db (snd engine_run)))) T_Metric)) = ["m1"].
Proof. vm_compute. split_and!; reflexivity. Qed.


(** With another secret than the id, the services cannot log in. *)
Definition other_secret : Config := {|
  viper_GetString := fun k => if bool_decide (k = ServiceOAuth2ClientSecretFlag) then "s3cret" else @viper_GetString default_config k;
  viper_GetBool := @viper_GetBool default_config;
  viper_GetUint16 := @viper_GetUint16 default_config;
  viper_GetStringSlice := @viper_GetStringSlice default_config;
|}.

Lemma service_login_witness :
  exists opts, rest_auth (w_svc (snd (setup 9090 8080 (@rest_server_options unit other_secret) rest_world))) = Some opts /\
    ~ client_registered opts "clouditor" "s3cret".
Proof.
  destruct (setup 9090 8080 (@rest_server_options unit other_secret) rest_world) as [o w'] eqn:E.
  assert (Ho : o = Returned None) by (vm_compute in E; injection E as <- _; reflexivity). subst o.
  destruct (@service_login unit unit unit other_secret demo_rest demo_mux demo_mux_laws rest_world w' 9090 8080) as (_ & opts & Ha & Hc).
  - reflexivity.
  - exact E.
  - vm_compute. discriminate.
  - vm_compute. discriminate.
  - exists opts. split; [exact Ha|]. intros Hr. apply Hc in Hr. vm_compute in Hr. discriminate Hr.
Defined.
