(* ===== verification/Pipeline.v ===== *)
(** The services together: discovery, assessment, evidence store, orchestrator and
    evaluation on one database, as cmd/engine runs them.

    A state of the system is the database and the state of each service.  A step is
    a whole handler or job of a service, or an iteration of one of the goroutines
    that move messages between two services (api/streams.go): sending a message runs
    the handler of the service that receives it.  Handlers end in any way, calls
    fail, streams break and services are restarted.

    The theorems follow the data back: every stored evidence comes from a resource
    that a discoverer listed, every stored assessment result from the evaluation of
    such an evidence, and every failing result that the evaluation of a control
    names is a stored, non-compliant one of these. *)

From S2P Require Import Prelude GoRuntime GoHoare GoStrings Util Api Sql Storage Gorm MemDB Authz Pagination Evaluation EvaluationProofs Streams Ontology Policies PoliciesProofs Orchestrator OrchestratorProofs EvidenceStore Discovery DiscoveryProofs Assessment AssessmentProofs.

(** ** Messages in streams *)

Section Messages.
Context {Stream Msg : Type} (P : Msg -> Prop).
Abbreviation streams := (StreamsOf Stream Msg).

(** Every message that waits in a channel or is on its way back satisfies [P]. *)
Definition streams_all (s : streams) : Prop :=
  (forall t c, channels s !! t = Some c -> Forall P (sc_channel c)) /\
  (forall t m, Requeue t m ∈ routines s -> P m).

Lemma streams_all_new : streams_all NewStreamsOf.
Proof. split; cbn; [done|]. intros t m Hm. by apply not_elem_of_nil in Hm. Qed.

Lemma streams_all_set (c : StreamChannelOf Stream Msg) s :
  Forall P (sc_channel c) -> streams_all s -> streams_all (set_chan c s).
Proof.
  intros Hc [Hs Hr]. split; [|done]. intros t c'. cbn. rewrite lookup_insert_Some. intros [[_ <-]|[_ Hl]]; [done|by eapply Hs].
Qed.

Lemma streams_all_go r s : (forall t m, r = Requeue t m -> P m) -> streams_all s -> streams_all (go_routine r s).
Proof. intros Hr [Hs Hq]. split; [done|]. intros t m. cbn. rewrite elem_of_app, list_elem_of_singleton. naive_solver. Qed.

Lemma streams_all_end `{EqDecision Msg} r s : streams_all s -> streams_all (end_routine r s).
Proof.
  intros [Hs Hq]. split; [done|]. intros t m Hm. apply (Hq t m). cbn in Hm. revert Hm. generalize (routines s) as l.
  induction l as [|x l IH]; cbn; [done|]. destruct (decide (x = r)); set_solver.
Qed.

(** One iteration of the sending goroutine hands over a message with [P]. *)
Lemma streams_all_send `{EqDecision Msg} answer t s m b s' :
  streams_all s -> sendLoop_iter answer t s = Some (m, b, s') -> P m /\ streams_all s'.
Proof.
  intros Hs Hi. unfold sendLoop_iter in Hi. destruct (channels s !! t) as [c|] eqn:Hc; [|done].
  destruct (sc_channel c) as [|m' rest] eqn:Hq; [done|].
  pose proof (proj1 Hs t c Hc) as Hp. rewrite Hq in Hp. apply Forall_cons in Hp as [Hm Hrest].
  destruct answer; injection Hi as <- <- <-; (split; [done|]); [by apply streams_all_set|..];
    (apply streams_all_go; [by intros ? ? [= <- <-]|apply streams_all_end; by apply streams_all_set]).
Qed.

Lemma streams_all_requeue `{EqDecision Msg} t m s s' :
  streams_all s -> Requeue t m ∈ routines s -> requeue_run t m s = Some s' -> streams_all s'.
Proof.
  intros Hs Hin Hr. unfold requeue_run in Hr. destruct (channels s !! t) as [c|] eqn:Hc; [|done].
  destruct (enqueue m c) as [c'|] eqn:He; [|done]. injection Hr as <-.
  apply enqueue_Some in He as (_ & Hq & _). apply streams_all_end, streams_all_set; [|done].
  rewrite Hq. apply Forall_app. split; [by apply (proj1 Hs t c)|]. apply Forall_singleton. by apply (proj2 Hs t).
Qed.

(** *** In handlers *)

Context {W : Type} `{Field W streams, !FieldLaws W streams} (I : W -> Prop).
Context (I_get : forall w, I w -> streams_all (field_get w)) (I_set : forall f w, I w -> streams_all f -> I (field_set f w)).

Lemma ensures_st_modify (f : streams -> streams) :
  (forall s, streams_all s -> streams_all (f s)) -> ensures I (st_modify f) (fun _ => True).
Proof. intros Hf w Hw. split; [|done]. apply I_set; [done|]. by apply Hf, I_get. Qed.

Lemma ensures_read_chan t : ensures I (st_read (fun s => channels s !! t))
  (fun o => forall c, o = Some c -> Forall P (sc_channel c)).
Proof. intros w Hw. split; [done|]. intros a [= <-] c Hc. by apply (proj1 (I_get w Hw) t). Qed.

Lemma ensures_start_loops t : ensures I (st_modify (go_routine (RecvLoop t)) ;;; st_modify (go_routine (SendLoop t)))%go
  (fun _ => True).
Proof. eapply ensures_bind; [|intros _ _]; apply ensures_st_modify; intros s Hs; by apply streams_all_go. Qed.

Lemma ensures_open (c : StreamChannelOf Stream Msg) : Forall P (sc_channel c) ->
  ensures I (st_modify (set_chan c) ;;; st_modify (go_routine (RecvLoop (sc_target c))) ;;;
             st_modify (go_routine (SendLoop (sc_target c))) ;;; gok c)%go (fun _ => True).
Proof.
  intros Hc. repeat (eapply ensures_bind; [apply ensures_st_modify; intros s Hs; (by apply streams_all_set) || (by apply streams_all_go)|intros _ _]).
  by apply ensures_ret.
Qed.

Lemma ensures_GetStream t component (f : string -> Go W (res Stream)) :
  (forall t, ensures I (f t) (fun _ => True)) -> ensures I (GetStream t component (Some f)) (fun _ => True).
Proof.
  intros Hf. unfold GetStream. eapply ensures_bind; [apply ensures_read_chan|]. intros [c|] Hc.
  - destruct (sc_dead c); [|by apply ensures_ret]. unfold restartStream.
    eapply ensures_bind with (Q := fun _ => True); [|intros [c'|e] _; [by apply ensures_ret|apply ensures_panic]].
    eapply ensures_bind; [apply Hf|]. intros [str|e] _.
    + apply (ensures_open (revive (Some str) false c)). exact (Hc c eq_refl).
    + eapply ensures_bind; [apply ensures_st_modify; intros s Hs; apply streams_all_set; [exact (Hc c eq_refl)|done]|].
      intros _ _. by apply ensures_ret.
  - unfold addStream. eapply ensures_try with (Q := fun _ => True); [|done|intros c _; by apply ensures_ret].
    apply (ensures_weaken I _ (fun _ => True)); [|by intros []]. eapply ensures_try with (Q := fun _ => True); [|done|].
    + apply (ensures_weaken I _ (fun _ => True)); [apply Hf|by intros []].
    + intros str _. apply (ensures_open (mkStreamChannel [] (Some str) t component false)). constructor.
Qed.

Lemma ensures_Send t m : P m -> ensures I (Send (Stream := Stream) t m) (fun _ => True).
Proof.
  intros Hm. unfold Send. eapply ensures_bind; [apply ensures_read_chan|]. intros o Ho.
  eapply ensures_bind; [apply (ensures_deref _ _ (fun c => Forall P (sc_channel c))); apply Ho|].
  intros c Hc. destruct (enqueue m c) as [c'|] eqn:He; [|apply ensures_fuel]. apply enqueue_Some in He as (_ & Hq & _).
  apply ensures_st_modify. intros s Hs. apply streams_all_set; [|done]. rewrite Hq. apply Forall_app. split; [done|].
  by apply Forall_singleton.
Qed.
End Messages.

(** ** The system *)

(** The part of a state that belongs to the service alone, and back. *)
Definition local {DB S T} (w : World DB S T) : World unit S T := mkWorld tt (w_svc w) (w_tasks w) (w_tick w).
Definition on_db {DB S T} (db : DB) (l : World unit S T) : World DB S T := mkWorld db (w_svc l) (w_tasks l) (w_tick l).

(** Protobuf's [Any] gives back what was packed into it. *)
Class AnyLaws (Message R : Type) `{AnyLibrary Message R} : Prop :=
  any_unpack : forall (r : R) a, anypb_New r = OK a -> exists m, UnmarshalNew (Some a) = OK m /\ as_resource m = Some r.

Section System.
Context {DB Sch D Stream Message R Query Tx EvS OrS EvtS Ctx : Type}.
Context `{StorageLaws DB, DiscoveryScheduler Sch D, Discoverer D R, AssessmentClient Stream}.
Context `{IsResource R, AnyLibrary Message R, JSONLibrary, ValueText, Env}.
Context `{Opa Query Tx, AssessmentClients EvS OrS EvtS, AuthorizationStrategy Ctx}.
Context `{Validator EvidenceRequest, Validator Message, Validator StoreAssessmentResultRequest}.
(** The pages of metrics the assessment service asks for. *)
Context (fuel : nat).
(** What clients outside of the system send to it: evidences and results. *)
Context (Submitted : Evidence -> Prop) (SubmittedResult : AssessmentResult -> Prop).

Abbreviation DiscoveryLocal := (World unit (DiscoveryService Sch D Stream) DiscoveryTask).
Abbreviation AssessmentLocal := (World unit (AssessmentService Query EvS OrS EvtS) AssessmentTask).

Record System := mkSystem {
  sys_db : DB;
  sys_discovery : DiscoveryLocal;
  sys_assessment : AssessmentLocal;
  sys_store : World unit EvidenceService EvidenceTask;
  sys_orchestrator : World unit OrchestratorService OrchestratorTask;
}.

(** A handler of each service, run to its end, whatever that is. *)
Definition in_discovery {A} (m : Go (World DB (DiscoveryService Sch D Stream) DiscoveryTask) A) (s : System) : System :=
  let w := snd (m (on_db (sys_db s) (sys_discovery s))) in
  mkSystem (w_db w) (local w) (sys_assessment s) (sys_store s) (sys_orchestrator s).
Definition in_assessment {A} (m : Go AssessmentLocal A) (s : System) : System :=
  mkSystem (sys_db s) (sys_discovery s) (snd (m (sys_assessment s))) (sys_store s) (sys_orchestrator s).
Definition in_store {A} (m : Go (World DB EvidenceService EvidenceTask) A) (s : System) : System :=
  let w := snd (m (on_db (sys_db s) (sys_store s))) in
  mkSystem (w_db w) (sys_discovery s) (sys_assessment s) (local w) (sys_orchestrator s).
Definition in_orchestrator {A} (m : Go (World DB OrchestratorService OrchestratorTask) A) (s : System) : System :=
  let w := snd (m (on_db (sys_db s) (sys_orchestrator s))) in
  mkSystem (w_db w) (sys_discovery s) (sys_assessment s) (sys_store s) (local w).

(** The three kinds of streams between the services. *)
Definition discovery_streams (s : System) : StreamsOf Stream EvidenceRequest := assessmentStreams (w_svc (sys_discovery s)).
Definition store_streams (s : System) : StreamsOf EvS EvidenceRequest := evidenceStoreStreams (w_svc (sys_assessment s)).
Definition result_streams (s : System) : StreamsOf OrS StoreAssessmentResultRequest :=
  orchestratorStreams (w_svc (sys_assessment s)).

Definition set_discovery_streams (f : StreamsOf Stream EvidenceRequest) (s : System) : System :=
  let w := sys_discovery s in
  mkSystem (sys_db s) (mkWorld tt (set_streams f (w_svc w)) (w_tasks w) (w_tick w)) (sys_assessment s) (sys_store s) (sys_orchestrator s).
Definition set_store_streams (f : StreamsOf EvS EvidenceRequest) (s : System) : System :=
  mkSystem (sys_db s) (sys_discovery s) (with_svc (set_ev_streams f) (sys_assessment s)) (sys_store s) (sys_orchestrator s).
Definition set_result_streams (f : StreamsOf OrS StoreAssessmentResultRequest) (s : System) : System :=
  mkSystem (sys_db s) (sys_discovery s) (with_svc (set_or_streams f) (sys_assessment s)) (sys_store s) (sys_orchestrator s).

(** The sending goroutine of a stream: [receive] is what happens to a message that
    was sent, [get] and [put] access the streams. *)
Inductive transfer {Str Msg} `{EqDecision Msg} (get : System -> StreamsOf Str Msg) (put : StreamsOf Str Msg -> System -> System)
    (receive : Msg -> System -> System -> Prop) : System -> System -> Prop :=
| transfer_sent t m f s s' : SendLoop t ∈ routines (get s) ->
    sendLoop_iter SentOK t (get s) = Some (m, true, f) -> receive m (put f s) s' -> transfer get put receive s s'
| transfer_failed t m answer f s : SendLoop t ∈ routines (get s) ->
    sendLoop_iter answer t (get s) = Some (m, false, f) -> transfer get put receive s (put f s)
| transfer_requeue t m f s :
    Requeue t m ∈ routines (get s) -> requeue_run t m (get s) = Some f -> transfer get put receive s (put f s).

(** A message that was sent, as a function: [handler] is what the receiver does. *)
Definition sent_by {Str Msg} `{EqDecision Msg} (target : string) (get : System -> StreamsOf Str Msg)
    (put : StreamsOf Str Msg -> System -> System) (handler : Msg -> System -> System) (s : System) : System :=
  match sendLoop_iter SentOK target (get s) with
  | Some (m, _, f) => handler m (put f s)
  | None => s
  end.

Lemma sent_by_transfer {Str Msg} `{EqDecision Msg} target (get : System -> StreamsOf Str Msg) put handler receive s :
  (forall m s, receive m s (handler m s)) -> SendLoop target ∈ routines (get s) ->
  is_Some (sendLoop_iter SentOK target (get s)) ->
  transfer get put receive s (sent_by target get put handler s).
Proof.
  intros Hr Hl [[[m b] f] Hi]. unfold sent_by. rewrite Hi. eapply (transfer_sent _ _ _ target m f); [done| |apply Hr].
  rewrite Hi. unfold sendLoop_iter in Hi. repeat case_match; by simplify_eq.
Qed.

(** The receiving stream handlers call the handler of a single message. *)
Definition receive_evidence (m : EvidenceRequest) (s s' : System) : Prop :=
  exists ctx, s' = in_assessment (AssessEvidence fuel (Ctx := Ctx) ctx (Some (mkEvidenceRequest (EvidenceRequest_Evidence m)))) s.
Definition receive_store (m : EvidenceRequest) (s s' : System) : Prop :=
  exists ctx, s' = in_store (StoreEvidence (Ctx := Ctx) ctx (Some (mkEvidenceRequest (EvidenceRequest_Evidence m)))) s.
Definition receive_result (m : StoreAssessmentResultRequest) (s s' : System) : Prop :=
  exists ctx, s' = in_orchestrator
    (StoreAssessmentResult (Ctx := Ctx) ctx (Some (mkStoreAssessmentResultRequest (StoreAssessmentResult_Result m)))) s.

(** Everything else that happens adds neither evidences nor assessment results to the
    database and sends none. *)
Definition no_new_rows (db db' : DB) : Prop :=
  (forall e : Evidence, e ∈ rows T_Evidence db' -> e ∈ rows T_Evidence db) /\
  (forall r : AssessmentResult, r ∈ rows T_AssessmentResult db' -> r ∈ rows T_AssessmentResult db).

Inductive sys_step : System -> System -> Prop :=
| sys_discover d s : sys_step s (in_discovery (StartDiscovery d) s)
| sys_evidence s s' : transfer discovery_streams set_discovery_streams receive_evidence s s' -> sys_step s s'
| sys_evidence_store s s' : transfer store_streams set_store_streams receive_store s s' -> sys_step s s'
| sys_result s s' : transfer result_streams set_result_streams receive_result s s' -> sys_step s s'
| sys_event event s : sys_step s (in_assessment (handleMetricEvent event) s)
| sys_client_assess ctx e s : Submitted e ->
    sys_step s (in_assessment (AssessEvidence fuel (Ctx := Ctx) ctx (Some (mkEvidenceRequest (Some e)))) s)
| sys_client_store ctx e s : Submitted e ->
    sys_step s (in_store (StoreEvidence (Ctx := Ctx) ctx (Some (mkEvidenceRequest (Some e)))) s)
| sys_client_result ctx r s : SubmittedResult r ->
    sys_step s (in_orchestrator (StoreAssessmentResult (Ctx := Ctx) ctx (Some (mkStoreAssessmentResultRequest (Some r)))) s)
| sys_other s s' : no_new_rows (sys_db s) (sys_db s') -> discovery_streams s' = discovery_streams s ->
    store_streams s' = store_streams s -> result_streams s' = result_streams s -> sys_step s s'
| sys_restart_discovery w s : assessmentStreams (w_svc w) = NewStreamsOf ->
    sys_step s (mkSystem (sys_db s) w (sys_assessment s) (sys_store s) (sys_orchestrator s))
| sys_restart_assessment w s : evidenceStoreStreams (w_svc w) = NewStreamsOf -> orchestratorStreams (w_svc w) = NewStreamsOf ->
    sys_step s (mkSystem (sys_db s) (sys_discovery s) w (sys_store s) (sys_orchestrator s)).

(** The services are started on a database without evidences and results. *)
Definition sys_start (s : System) : Prop :=
  rows T_Evidence (sys_db s) = [] /\ rows T_AssessmentResult (sys_db s) = [] /\
  discovery_streams s = NewStreamsOf /\ store_streams s = NewStreamsOf /\ result_streams s = NewStreamsOf.

Definition sys_reachable (s : System) : Prop := exists s0, sys_start s0 /\ rtc sys_step s0 s.

(** ** Where the data comes from *)

(** A discoverer listed a resource, and the evidence was made from it. *)
Definition discovered (r : R) (e : Evidence) : Prop :=
  exists d n n' l cs, disc_List (D := D) d n = (Returned (OK l), n') /\ r ∈ l /\ evidence_for cs r e.

Definition origin (e : Evidence) : Prop := Submitted e \/ exists r, discovered r e.

(** The resource an evidence is about. *)
Definition about (e : Evidence) (r : R) : Prop :=
  exists m, UnmarshalNew (Evidence_Resource e) = OK m /\ as_resource m = Some r.

(** The policy evaluator came to the verdict [data] on the resource. *)
Definition judged (e : Evidence) (r : R) (data : Result) : Prop :=
  exists (w w' : AssessmentLocal) rs, Eval (Src := service_source fuel) e r w = (Returned (OK rs), w') /\ Some data ∈ rs.

Definition traced (a : AssessmentResult) : Prop :=
  SubmittedResult a \/ exists e r data, origin e /\ about e r /\ judged e r data /\ result_for e r data a.

Definition evidence_ok (m : EvidenceRequest) : Prop := forall e, EvidenceRequest_Evidence m = Some e -> origin e.
Definition result_ok (m : StoreAssessmentResultRequest) : Prop :=
  forall r, StoreAssessmentResult_Result m = Some r -> traced r.

Definition tables_ok (db : DB) : Prop :=
  (forall e : Evidence, e ∈ rows T_Evidence db -> origin e) /\
  (forall r : AssessmentResult, r ∈ rows T_AssessmentResult db -> traced r).

Definition discovery_ok (w : World DB (DiscoveryService Sch D Stream) DiscoveryTask) : Prop :=
  streams_all evidence_ok (assessmentStreams (w_svc w)) /\ tables_ok (w_db w).
Definition assessment_ok (w : AssessmentLocal) : Prop :=
  streams_all evidence_ok (evidenceStoreStreams (w_svc w)) /\ streams_all result_ok (orchestratorStreams (w_svc w)).

Definition sys_ok (s : System) : Prop :=
  tables_ok (sys_db s) /\ streams_all evidence_ok (discovery_streams s) /\ assessment_ok (sys_assessment s).

(** *** Every step keeps it *)

Lemma tables_create_evidence db e o db' : tables_ok db -> origin e -> st_Create T_Evidence e db = (o, db') -> tables_ok db'.
Proof.
  intros [He Hr] Ho Hc. destruct o as [x|]; [by rewrite (create_err _ _ _ _ _ Hc)|].
  pose proof (create_flat T_Evidence e db db' eq_refl Hc) as Hrows. split.
  - intros y. rewrite Hrows. intros [->|Hy]%elem_of_cons; [done|by apply He].
  - intros r. rewrite (frame_create T_Evidence e _ _ _ eq_refl Hc T_AssessmentResult) by done. apply Hr.
Qed.

Lemma tables_create_result db r o db' : tables_ok db -> traced r -> st_Create T_AssessmentResult r db = (o, db') -> tables_ok db'.
Proof.
  intros [He Hr] Ho Hc. destruct o as [x|]; [by rewrite (create_err _ _ _ _ _ Hc)|].
  pose proof (create_flat T_AssessmentResult r db db' eq_refl Hc) as Hrows. split.
  - intros e. rewrite (frame_create T_AssessmentResult r _ _ _ eq_refl Hc T_Evidence) by done. apply He.
  - intros y. rewrite Hrows. intros [->|Hy]%elem_of_cons; [done|by apply Hr].
Qed.

Lemma tables_save_resource db (x : Resource) conds o db' : tables_ok db -> st_Save T_Resource x conds db = (o, db') -> tables_ok db'.
Proof.
  intros [He Hr] Hs. split; [intros e|intros r]; rewrite (frame_save T_Resource x _ _ _ _ eq_refl Hs) by done; auto.
Qed.

(** **** Discovery *)

Lemma discover_all_ok d n n' l l0 : disc_List (D := D) d n = (Returned (OK l0), n') -> (forall r, r ∈ l -> r ∈ l0) ->
  ensures discovery_ok (discover_all (Stream := Stream) l) (fun _ => True).
Proof.
  intros Hd. induction l as [|r l IH]; intros Hl; [by apply ensures_ret|]. cbn [discover_all].
  assert (IH' : ensures discovery_ok (discover_all (Stream := Stream) l) (fun _ => True)) by (apply IH; set_solver).
  eapply ensures_bind with (Q := fun _ => True); [intros w Hw; by split|]. intros cs _.
  destruct (ToDiscoveryResource r cs) as [x|]; [|done].
  eapply ensures_bind with (Q := fun _ => True).
  { intros w [Hs Ht]. unfold storage_Save, db_exec. destruct (st_Save _ _ _ _) as [o db'] eqn:E. split; [|done].
    split; [done|]. by eapply tables_save_resource. }
  intros _ _. destruct (anypb_New r) as [a|] eqn:Ha; [|done].
  do 2 (eapply ensures_bind with (Q := fun _ => True); [intros w Hw; by split|intros ? _]).
  set (e := new_evidence _ _ _ _ _).
  assert (He : origin e).
  { right. exists r, d, n, n', l0, cs. split_and!; [done|set_solver|]. split_and!; [by exists a|done..]. }
  eapply ensures_bind with (Q := fun _ => True); [intros w Hw; by split|]. intros t _.
  assert (Hget : forall w, discovery_ok w -> streams_all evidence_ok (field_get (F := StreamsOf Stream EvidenceRequest) w))
    by (by intros w [? _]).
  assert (Hset : forall f w, discovery_ok w -> streams_all evidence_ok f ->
    discovery_ok (field_set (F := StreamsOf Stream EvidenceRequest) f w)) by (by intros f w [_ ?] ?; split).
  eapply ensures_bind; [apply (ensures_GetStream evidence_ok discovery_ok Hget Hset)|].
  - intros t'. unfold initAssessmentStream. eapply ensures_try with (Q := fun _ => True); [|done|intros; by apply ensures_ret].
    intros w Hw. split; [done|]. by intros [].
  - intros [c|er] _; [|done]. eapply ensures_bind; [apply (ensures_Send evidence_ok discovery_ok Hget Hset)|by intros _ _].
    by intros ? [= <-].
Qed.

Lemma start_discovery_ok d : ensures discovery_ok (StartDiscovery (Stream := Stream) d) (fun _ => True).
Proof.
  unfold StartDiscovery. eapply ensures_bind with (Q := fun _ => True); [intros w Hw; by split|]. intros _ _.
  eapply ensures_bind with (Q := fun r => exists n n', disc_List d n = (Returned r, n')).
  { intros w Hw. unfold run_calls. destruct (disc_List d (w_tick w)) as [o n] eqn:E. split; [done|]. intros a [= ->]. eauto. }
  intros r (n & n' & Hr). destruct r as [l|]; [|by apply ensures_ret].
  eapply ensures_bind with (Q := fun _ => True); [intros w Hw; by split|]. intros _ _. by apply (discover_all_ok d n n' l l).
Qed.

(** **** Assessment *)

Lemma assessment_ev_get w : assessment_ok w -> streams_all evidence_ok (field_get (F := StreamsOf EvS EvidenceRequest) w).
Proof. by intros [? _]. Qed.
Lemma assessment_ev_set f w : assessment_ok w -> streams_all evidence_ok f ->
  assessment_ok (field_set (F := StreamsOf EvS EvidenceRequest) f w).
Proof. by intros [_ ?] ?; split. Qed.
Lemma assessment_or_get w : assessment_ok w -> streams_all result_ok (field_get (F := StreamsOf OrS StoreAssessmentResultRequest) w).
Proof. by intros [_ ?]. Qed.
Lemma assessment_or_set f w : assessment_ok w -> streams_all result_ok f ->
  assessment_ok (field_set (F := StreamsOf OrS StoreAssessmentResultRequest) f w).
Proof. by intros [? _] ?; split. Qed.

(** Steps that leave the streams alone. *)
Lemma assessment_quiet {A} (m : Go AssessmentLocal A) : keeps (fun w => (evidenceStoreStreams (w_svc w), orchestratorStreams (w_svc w))) m ->
  ensures assessment_ok m (fun _ => True).
Proof.
  intros Hm. apply (ensures_keeps _ _ _ Hm). intros w w' [= He Ho] [Hs1 Hs2]. split; [by rewrite He|by rewrite Ho].
Qed.

Lemma init_store_ok t : ensures assessment_ok (initEvidenceStoreStream (Query := Query) (OrS := OrS) (EvtS := EvtS) t) (fun _ => True).
Proof. apply assessment_quiet. intros w. unfold initEvidenceStoreStream. go_unfold. by destruct (ec_StoreEvidences _). Qed.

Lemma init_orchestrator_ok t : ensures assessment_ok (initOrchestratorStream (Query := Query) (EvS := EvS) t) (fun _ => True).
Proof.
  apply assessment_quiet. intros w. unfold initOrchestratorStream. go_unfold.
  destruct (ac_StoreAssessmentResults _); [|done]. cbn. by destruct (ac_SubscribeMetricChangeEvents _).
Qed.

Lemma fail_inform_ok {A} e1 e2 : ensures assessment_ok (fail_inform (A := A) e1 e2) (fun _ => True).
Proof. by apply assessment_quiet. Qed.

Lemma store_evidence_ok e : origin e -> ensures assessment_ok (store_evidence e) (fun _ => True).
Proof.
  intros He. unfold store_evidence. eapply ensures_bind; [by apply assessment_quiet|]. intros dis _.
  destruct dis; [by apply ensures_ret|]. eapply ensures_bind; [by apply assessment_quiet|]. intros t _.
  eapply ensures_bind; [apply (ensures_GetStream evidence_ok assessment_ok assessment_ev_get assessment_ev_set), init_store_ok|].
  intros [c|er] _; [|apply fail_inform_ok].
  eapply ensures_bind; [apply (ensures_Send evidence_ok assessment_ok assessment_ev_get assessment_ev_set)|intros _ _; by apply ensures_ret].
  by intros ? [= <-].
Qed.

Lemma send_results_ok e r chan l acc : origin e -> about e r -> (forall data, Some data ∈ l -> judged e r data) ->
  ensures assessment_ok (send_results e r chan l acc) (fun _ => True).
Proof.
  intros He Hr. revert acc. induction l as [|[data|] l IH]; intros acc Hj; cbn [send_results]; [by apply ensures_ret| |apply IH; set_solver].
  do 2 (eapply ensures_bind; [by apply assessment_quiet|intros ? _]).
  eapply ensures_bind; [by apply assessment_quiet|intros ? _].
  eapply ensures_bind; [apply (ensures_Send result_ok assessment_ok assessment_or_get assessment_or_set)|].
  - intros res [= <-]. right. exists e, r, data. split_and!; [done|done|set_solver|]. by split_and!.
  - intros _ _. apply IH. set_solver.
Qed.

Lemma handle_evidence_ok e : origin e -> ensures assessment_ok (handleEvidence fuel e) (fun _ => True).
Proof.
  intros He. unfold handleEvidence. eapply ensures_try with (Q := fun m => UnmarshalNew (Evidence_Resource e) = OK m);
    [intros w Hw; split; [done|]; intros a [= <-]; by destruct (UnmarshalNew _)|done|].
  intros m Hm. unfold with_valid. destruct (Validate (Some m)) as [e1|]; [by apply ensures_ret|].
  destruct (as_resource m) as [r|] eqn:Hr; [|by apply ensures_ret].
  eapply ensures_bind; [apply ensures_ran, (assessment_quiet (Eval (Src := service_source fuel) e r))|].
  { intros w. assert (Hk : keeps frame (Eval (Src := service_source fuel) e r)) by (apply moves_Eval; apply _).
    specialize (Hk w). injection Hk as _ Hs _ Ho _ _. by apply (f_equal2 pair). }
  intros rs (w0 & w1 & Hran). destruct rs as [rs|er]; [|apply fail_inform_ok].
  eapply ensures_try with (Q := fun _ => True); [|done|].
  { apply (ensures_weaken _ _ (fun _ => True)); [by apply store_evidence_ok|by intros []]. }
  intros _ _. eapply ensures_bind; [by apply assessment_quiet|]. intros t _.
  eapply ensures_bind; [apply (ensures_GetStream result_ok assessment_ok assessment_or_get assessment_or_set), init_orchestrator_ok|].
  intros [c|er] _; [|apply fail_inform_ok]. eapply ensures_bind; [|intros ? _; by apply ensures_ret].
  apply send_results_ok; [done|by exists m|]. intros data Hin. by exists w0, w1, rs.
Qed.

Lemma assess_ok ctx q : evidence_ok q -> ensures assessment_ok (AssessEvidence fuel (Ctx := Ctx) ctx (Some q)) (fun _ => True).
Proof.
  intros Hq. unfold AssessEvidence, with_valid. destruct (Validate (Some q)); [by apply ensures_ret|].
  apply ensures_guard; [done|]. eapply ensures_bind; [apply (ensures_deref _ _ origin Hq)|]. intros e He.
  eapply ensures_try with (Q := fun _ => True); [|done|intros; by apply ensures_ret].
  apply (ensures_weaken _ _ (fun _ => True)); [by apply handle_evidence_ok|by intros []].
Qed.

Lemma metric_event_ok event : ensures assessment_ok (handleMetricEvent event) (fun _ => True).
Proof. apply assessment_quiet. intros w. unfold handleMetricEvent. by case_bool_decide. Qed.

(** **** Storing *)

Lemma store_ok ctx q : evidence_ok q ->
  ensures (fun w => tables_ok (w_db w)) (StoreEvidence (Ctx := Ctx) ctx (Some q)) (fun _ => True).
Proof.
  intros Hq. unfold StoreEvidence, with_valid. destruct (Validate (Some q)); [by apply ensures_ret|].
  apply ensures_guard; [done|]. eapply ensures_bind; [apply (ensures_deref _ _ origin Hq)|]. intros e He.
  eapply ensures_try with (Q := fun _ => True); [|done|].
  - intros w Hw. unfold storage_Create, db_exec. destruct (st_Create _ _ _) as [o db'] eqn:E. cbn. split; [by eapply tables_create_evidence|].
    by intros [].
  - intros _ _. eapply ensures_bind with (Q := fun _ => True); [intros w Hw; by split|]. intros _ _. by apply ensures_ret.
Qed.

Lemma store_result_ok ctx q : result_ok q ->
  ensures (fun w => tables_ok (w_db w)) (StoreAssessmentResult (Ctx := Ctx) ctx (Some q)) (fun _ => True).
Proof.
  intros Hq. unfold StoreAssessmentResult, with_valid. destruct (Validate (Some q)); [by apply ensures_ret|].
  apply ensures_guard; [done|]. eapply ensures_bind; [apply (ensures_deref _ _ traced Hq)|]. intros r Hr.
  eapply ensures_try with (Q := fun _ => True); [|done|].
  - intros w Hw. unfold storage_Create, db_exec. destruct (st_Create _ _ _) as [o db'] eqn:E. cbn. split; [by eapply tables_create_result|].
    by intros [].
  - intros _ _. eapply ensures_bind with (Q := fun _ => True); [intros w Hw; by split|]. intros _ _. by apply ensures_ret.
Qed.

(** **** Steps *)

Lemma in_discovery_ok {A} (m : Go _ A) s : ensures discovery_ok m (fun _ => True) -> sys_ok s -> sys_ok (in_discovery m s).
Proof.
  intros Hm (Ht & Hd & Ha). destruct (Hm (on_db (sys_db s) (sys_discovery s))) as [[Hd' Ht'] _]; [by split|]. by split_and!.
Qed.

Lemma in_assessment_ok {A} (m : Go _ A) s : ensures assessment_ok m (fun _ => True) -> sys_ok s -> sys_ok (in_assessment m s).
Proof. intros Hm (Ht & Hd & Ha). destruct (Hm _ Ha) as [Ha' _]. by split_and!. Qed.

Lemma in_store_ok {A} (m : Go _ A) s : ensures (fun w => tables_ok (w_db w)) m (fun _ => True) -> sys_ok s -> sys_ok (in_store m s).
Proof. intros Hm (Ht & Hd & Ha). destruct (Hm (on_db (sys_db s) (sys_store s)) Ht) as [Ht' _]. by split_and!. Qed.

Lemma in_orchestrator_ok {A} (m : Go _ A) s :
  ensures (fun w => tables_ok (w_db w)) m (fun _ => True) -> sys_ok s -> sys_ok (in_orchestrator m s).
Proof. intros Hm (Ht & Hd & Ha). destruct (Hm (on_db (sys_db s) (sys_orchestrator s)) Ht) as [Ht' _]. by split_and!. Qed.

Lemma transfer_ok {Str Msg} `{EqDecision Msg} (P : Msg -> Prop) (get : System -> StreamsOf Str Msg) put receive s s' :
  (forall s, sys_ok s -> streams_all P (get s)) -> (forall f s, sys_ok s -> streams_all P f -> sys_ok (put f s)) ->
  (forall m s s', P m -> receive m s s' -> sys_ok s -> sys_ok s') ->
  transfer get put receive s s' -> sys_ok s -> sys_ok s'.
Proof.
  intros Hget Hput Hrec Ht Hs. destruct Ht as [t m f s s' _ Hi Hr|t m a f s _ Hi|t m f s Hin Hr].
  - destruct (streams_all_send P _ _ _ _ _ _ (Hget s Hs) Hi) as [Hm Hf]. by eapply Hrec, Hput.
  - destruct (streams_all_send P _ _ _ _ _ _ (Hget s Hs) Hi) as [Hm Hf]. by apply Hput.
  - apply Hput; [done|]. by eapply streams_all_requeue; [apply Hget| |].
Qed.

Lemma sys_step_ok s s' : sys_step s s' -> sys_ok s -> sys_ok s'.
Proof.
  destruct 1 as [d s|s s' Ht|s s' Ht|s s' Ht|ev s|ctx e s He|ctx e s He|ctx r s Hr|s s' Hn Hd Hst Hres|w s Hw|w s Hw1 Hw2].
  - apply in_discovery_ok, start_discovery_ok.
  - revert Ht. apply (transfer_ok evidence_ok); [by intros ? (_ & ? & _)| |].
    + by intros f s0 (? & _ & ?) ?; split_and!.
    + intros m s0 s1 Hm [ctx ->]. by apply in_assessment_ok, assess_ok.
  - revert Ht. apply (transfer_ok evidence_ok); [by intros ? (_ & _ & ? & _)| |].
    + by intros f s0 (? & ? & _ & ?) ?; split_and!.
    + intros m s0 s1 Hm [ctx ->]. by apply in_store_ok, store_ok.
  - revert Ht. apply (transfer_ok result_ok); [by intros ? (_ & _ & _ & ?)| |].
    + by intros f s0 (? & ? & ? & _) ?; split_and!.
    + intros m s0 s1 Hm [ctx ->]. by apply in_orchestrator_ok, store_result_ok.
  - apply in_assessment_ok, metric_event_ok.
  - apply in_assessment_ok, assess_ok. intros ? [= <-]. by left.
  - apply in_store_ok, store_ok. intros ? [= <-]. by left.
  - apply in_orchestrator_ok, store_result_ok. intros ? [= <-]. by left.
  - intros ([He Hr] & Hds & Hs1 & Hs2). destruct Hn as [Hne Hnr]. rewrite <-Hd in Hds.
    unfold sys_ok, assessment_ok, tables_ok. unfold store_streams, result_streams in *. rewrite Hst, Hres. split_and!; eauto.
  - intros (? & _ & ?). split_and!; [done| |done]. unfold discovery_streams. cbn. rewrite Hw. apply streams_all_new.
  - intros (? & ? & _). split; [done|]. split; [done|]. split; cbn; rewrite ?Hw1, ?Hw2; apply streams_all_new.
Qed.

Lemma sys_reachable_ok s : sys_reachable s -> sys_ok s.
Proof.
  intros (s0 & (He & Hr & Hd & Hst & Hres) & Hrun).
  assert (H0' : sys_ok s0).
  { unfold sys_ok, tables_ok, assessment_ok, discovery_streams, store_streams, result_streams in *. rewrite Hd, Hst, Hres.
    split_and!; try apply streams_all_new.
    - intros e. rewrite He. by intros ?%not_elem_of_nil.
    - intros r. rewrite Hr. by intros ?%not_elem_of_nil. }
  clear He Hr Hd Hst Hres. induction Hrun as [|s1 s2 s3 Hs _ IH]; [done|]. apply IH. by eapply sys_step_ok.
Qed.

(** ** Theorems *)

Context `{!AnyLaws Message R}.

Lemma about_discovered e r r' : discovered r e -> about e r' -> r' = r.
Proof.
  intros (d & n & n' & l & cs & _ & _ & (a & Ha & He) & _) (m & Hm & Hr'). destruct (any_unpack r a Ha) as (m' & Hm' & Hr).
  rewrite He in Hm. congruence.
Qed.

(** The result is the verdict of the policies on a resource that a discoverer listed
    or that a client submitted as an evidence. *)
Definition verdict_on (e : Evidence) (r : R) (data : Result) (a : AssessmentResult) : Prop :=
  (discovered r e \/ Submitted e /\ about e r) /\ judged e r data /\ result_for e r data a.

Lemma traced_verdict a : traced a -> SubmittedResult a \/ exists e r data, verdict_on e r data a.
Proof.
  intros [?|(e & r & data & Ho & Hr & Hj & Ha)]; [by left|]. right. exists e, r, data. split; [|done].
  destruct Ho as [?|[r' Hd]]; [by right|]. left. by rewrite (about_discovered e r' r).
Qed.

(** C4. In every state the system can reach, whatever the order of discovery runs,
    deliveries, failures, restarts and calls of clients: every stored evidence was
    made from a resource that a discoverer listed, or was submitted by a client;
    and every stored assessment result is the verdict of the policy evaluator on
    the resource of such an evidence, under that resource's id, that evidence's
    id and its cloud service, or was itself submitted by a client. *)
Theorem pipeline_traceable s : sys_reachable s ->
  (forall e : Evidence, e ∈ rows T_Evidence (sys_db s) -> Submitted e \/ exists r, discovered r e) /\
  (forall a : AssessmentResult, a ∈ rows T_AssessmentResult (sys_db s) ->
     SubmittedResult a \/ exists e r data, verdict_on e r data a).
Proof. intros [[He Hr] _]%sys_reachable_ok. split; [done|]. intros a Ha. by apply traced_verdict, Hr. Qed.

(** *** Evaluation *)

Context {Gsch T : Type} `{Gocron Gsch, TokenCodec, Schedule, !AuthorizationLaws Ctx}.
Context `{Validator ListAssessmentResultsRequest, Validator ListEvaluationResultsRequest}.
Context `{Validator GetAssessmentResultRequest}.

(** The orchestrator of the system, which is in state [states n] at moment [n]. *)
Definition sys_client (ctx : option Ctx) (states : nat -> System) controls toe catalog : OrchestratorClient :=
  Build_OrchestratorClient (orchestrator_answers ctx (fun n => on_db (sys_db (states n)) (sys_orchestrator (states n))))
    controls toe catalog.

(** A stored result that makes a control fail: the policies judged a resource not
    to be compliant. *)
Definition failure_traced (toe : TargetOfEvaluation) (id : string) : Prop :=
  exists a, AssessmentResult_Id a = id /\ AssessmentResult_Compliant a = false /\
    AssessmentResult_CloudServiceId a = TargetOfEvaluation_CloudServiceId toe /\
    (SubmittedResult a \/ exists e r data, verdict_on e r data a /\ Result_Compliant data = false).

Lemma sub_failures ctx states controls toes catalogs (svc : EvaluationService Gsch) toe c x :
  (forall n, sys_reachable (states n)) ->
  @sub_result Gsch (sys_client ctx states controls toes catalogs) svc toe c x ->
  Forall (failure_traced toe) (EvaluationResult_FailingAssessmentResultIds x).
Proof.
  intros Hreach (metrics & n & uid & now & _ & ->). cbn. apply Forall_forall. intros id.
  unfold failing_ids. intros (a & -> & [Hc Ha]%list_elem_of_filter)%list_elem_of_fmap. exists a. unfold answers in Ha.
  case_bool_decide; [set_solver|]. destruct (oc_ListAssessmentResults _ _) as [p|] eqn:Ep; [|set_solver].
  destruct (orchestrator_answered _ _ _ _ _ Ep) as [Hs _]. destruct (Hs a Ha) as (Hrow & (Hcs & _) & _).
  split_and!; [done|done|by apply Hcs|].
  destruct (sys_reachable_ok _ (Hreach n)) as [[_ Hr] _]. destruct (traced_verdict a (Hr a Hrow)) as [?|(e & r & data & Hv)]; [by left|].
  right. exists e, r, data. split; [done|]. destruct Hv as (_ & _ & (_ & _ & Hd & _)). congruence.
Qed.

End System.
