(* ===== verification/CloudDiscovery.v ===== *)
(** The discoverers of AWS and Kubernetes in the discovery service: the
    discoverers [Start] creates for a provider (service/discovery/discovery.go), as
    instances of the interfaces the service is verified against.

    The Azure discoverer, which keeps a state between two runs (AzurePipeline.v), and
    discoverers that are added to the service are [OtherDiscoverer]. *)

From S2P Require Import Prelude GoRuntime GoHoare GoStrings Util GoText Api Sql Storage Authz Pagination GoJson Streams Ontology Policies Orchestrator EvidenceStore Discovery DiscoveryProofs Assessment AssessmentProofs OntologyMessages AzureSdk AzureResources Aws AwsProofs K8s Pipeline.

Inductive CloudDiscoverer (X : Type) :=
| K8sCompute (d : k8sDiscovery)
| K8sNetwork (d : k8sDiscovery)
| K8sStorage (d : k8sDiscovery)
| AwsStorage (d : awsS3Discovery)
| AwsCompute (d : computeDiscovery)
| OtherDiscoverer (x : X).
Arguments K8sCompute {X}.
Arguments K8sNetwork {X}.
Arguments K8sStorage {X}.
Arguments AwsStorage {X}.
Arguments AwsCompute {X}.
Arguments OtherDiscoverer {X}.

(** Azure, whose discoverer is constructed from options. *)
Class AzureProvider (X : Type) := {
  other_NewAuthorizer : Calls (option error);
  other_NewAzureDiscovery : list AzureOption -> X;
}.

(** [(list, err)]: a caller that finds an error does not look at the list. *)
Definition checked (r : list Ontology * option error) : res (list Ontology) :=
  match snd r with Some e => Err e | None => OK (fst r) end.

Section Discoverers.
Context {X : Type} `{!Discoverer X Ontology, !AzureProvider X}.
Context `{Kubernetes, !RawLibrary KubernetesObject, JsonText, AwsSdk, !RawLibrary AwsObject}.
(** A bound on the pages of AWS functions. *)
Context (fuel : nat).
Abbreviation W := (World unit unit unit).

Definition cloud_Name (d : CloudDiscoverer X) : string :=
  match d with
  | K8sCompute _ => "Kubernetes Compute"
  | K8sNetwork _ => "Kubernetes Network"
  | K8sStorage _ => "Kubernetes Storage"
  | AwsStorage _ => s3_Name
  | AwsCompute _ => compute_Name
  | OtherDiscoverer x => disc_Name x
  end.

Definition cloud_List (d : CloudDiscoverer X) : Calls (res (list Ontology)) :=
  match d with
  | K8sCompute _ => calls_of k8s_compute_List
  | K8sNetwork _ => calls_of (r <- k8s_network_List ;; gret (checked r))
  | K8sStorage _ => calls_of k8s_storage_List
  | AwsStorage d => calls_of (r <- s3_List d ;; gret (checked r))
  | AwsCompute d => calls_of (compute_List fuel d)
  | OtherDiscoverer x => disc_List x
  end.

#[global] Instance cloud_discoverer : Discoverer (CloudDiscoverer X) Ontology := {|
  disc_Name := cloud_Name;
  disc_List := cloud_List;
|}.

(** The discoverers that [Start] appends for a provider. *)
Definition k8s_discoverers (csID : string) : list (CloudDiscoverer X) :=
  [K8sCompute (mkK8sDiscovery csID); K8sNetwork (mkK8sDiscovery csID); K8sStorage (mkK8sDiscovery csID)].
Definition aws_discoverers (client : Client) (csID : string) : list (CloudDiscoverer X) :=
  [AwsStorage (NewAwsStorageDiscovery client csID); AwsCompute (NewAwsComputeDiscovery client csID)].

#[global] Instance cloud_providers : Providers (CloudDiscoverer X) := {|
  azure_NewAuthorizer := other_NewAuthorizer;
  azure_NewAzureDiscovery opts := OtherDiscoverer (other_NewAzureDiscovery opts);
  k8s_AuthFromKubeConfig := calls_of AuthFromKubeConfig;
  k8s_discoveries := k8s_discoverers;
  aws_Client := Client;
  aws_NewClient := calls_of aws_NewClient_;
  aws_discoveries := aws_discoverers;
|}.

(** ** Where a listed resource comes from *)

(** The two resources of a bucket. *)
Definition bucket_message (name : string) (r : Ontology) : Prop :=
  GetId r = "arn:aws:s3:::" +:+ name /\ GetName r = name /\
  ((exists c rest, r = ObjectStorage c rest None None [] false) \/
   exists c t ep, r = ObjectStorageService c [] (Some t) (Some (mkHttpEndpoint ep (Some t)))).

(** The resource describes an object that an API of a provider delivered. *)
Inductive delivered : Ontology -> Prop :=
| delivered_pod n pods pod : k8s_Pods n = OK pods -> pod ∈ pods -> delivered (handlePod pod)
| delivered_pod_volume n pods pod vol r :
    k8s_Pods n = OK pods -> pod ∈ pods -> vol ∈ pod_Volumes pod -> volume_resource pod vol = Some r -> delivered r
| delivered_service n services s : k8s_Services n = OK services -> s ∈ services -> delivered (handleService s)
| delivered_ingress n ingresses i r : k8s_Ingresses n = OK ingresses -> i ∈ ingresses -> ingress_message i r -> delivered r
| delivered_persistent_volume n pvs pv r :
    k8s_PersistentVolumes n = OK pvs -> pv ∈ pvs -> handlePV pv = Some r -> delivered r
| delivered_volume d n vs v : aws_DescribeVolumes n = AwsOK vs -> v ∈ vs -> delivered (handle_volume d v)
| delivered_interface d n ifs i : aws_DescribeNetworkInterfaces n = AwsOK ifs -> i ∈ ifs -> delivered (handle_interface d i)
| delivered_instance d n rs reservation vm :
    aws_DescribeInstances n = AwsOK rs -> (reservation, vm) ∈ all_instances rs -> ebs_only vm ->
    delivered (instance_message d reservation vm)
| delivered_function d m n resp f : aws_ListFunctions m n = AwsOK resp -> f ∈ Functions resp -> delivered (handle_function d f)
| delivered_bucket n l b name r :
    aws_ListBuckets n = AwsOK l -> b ∈ l -> Bucket_Name b = Some name -> bucket_message name r -> delivered r
| delivered_other (x : X) n l n' r : disc_List x n = (Returned (OK l), n') -> r ∈ l -> delivered r.

Abbreviation I := (fun _ : W => True).
Definition all_delivered (r : res (list Ontology)) : Prop := match r with OK l => Forall delivered l | Err _ => True end.

(** What a remote call answered. *)
Lemma ensures_asked {A} (f : nat -> A) : ensures I (remote f) (fun a => exists n, f n = a).
Proof. intros w _. split; [done|]. intros a [= <-]. eauto. Qed.

(** *** Kubernetes *)

Lemma carried_known pod vols v r : Some r ∈ carried pod vols v ->
  v = Some r \/ exists vol, vol ∈ vols /\ volume_resource pod vol = Some r.
Proof.
  revert v. induction vols as [|vol vols IH]; intros v; simpl; [by intros ?%not_elem_of_nil|].
  destruct (volume_resource pod vol) as [x|] eqn:Hx; intros [Hr|Hr]%elem_of_cons.
  - injection Hr as ->. right. exists vol. set_solver.
  - destruct (IH _ Hr) as [[= ->]|(vol' & Hin & Hv)]; right; [exists vol|exists vol']; set_solver.
  - by left.
  - destruct (IH _ Hr) as [?|(vol' & Hin & Hv)]; [by left|]. right. exists vol'. set_solver.
Qed.

Lemma pod_volume_delivered n pods pod r : k8s_Pods n = OK pods -> pod ∈ pods -> r ∈ handlePodVolume pod -> delivered r.
Proof.
  intros Hn Hp. unfold handlePodVolume. rewrite pod_volumes_carried. simpl.
  intros (o & Hr & Ho)%list_elem_of_omap. unfold id in Ho. subst o.
  apply carried_known in Hr as [|(vol & Hin & Hv)]; [done|]. by eapply delivered_pod_volume.
Qed.

Lemma k8s_compute_delivered : ensures I k8s_compute_List all_delivered.
Proof.
  unfold k8s_compute_List. eapply ensures_bind; [apply ensures_asked|]. intros [pods|e] [n Hn]; apply ensures_ret; [|done].
  apply Forall_forall. intros r (pod & Hr & Hp)%list_elem_of_bind. apply elem_of_app in Hr as [Hr|Hr].
  - apply list_elem_of_singleton in Hr as ->. by eapply delivered_pod.
  - by eapply pod_volume_delivered.
Qed.

Lemma k8s_storage_delivered : ensures I k8s_storage_List all_delivered.
Proof.
  unfold k8s_storage_List. eapply ensures_bind; [apply ensures_asked|]. intros [pvs|e] [n Hn]; apply ensures_ret; [|done].
  apply Forall_forall. intros r (pv & Hp & Hr)%list_elem_of_omap. by eapply delivered_persistent_volume.
Qed.

(** A volume is listed under its name, which is unique only within its pod. *)
Lemma volume_ids_collide pod pod' vol vol' r r' :
  volume_resource pod vol = Some r -> volume_resource pod' vol' = Some r' -> vol_Name vol = vol_Name vol' -> GetId r = GetId r'.
Proof.
  unfold volume_resource. intros Hr Hr' Hn. repeat case_match; by simplify_eq/=.
Qed.

(** An ingress that was handled has HTTP paths in all its rules. *)
Lemma rules_returned i rules ips eps (w w' : W) r : ingress_rules i rules ips eps w = (Returned r, w') ->
  Forall (fun r => is_Some (rule_HTTP r)) rules.
Proof.
  revert ips eps w. induction rules as [|rule rules IH]; intros ips eps w; [constructor|]. simpl.
  destruct (rule_HTTP rule) as [ps|] eqn:Hp; simpl; [|done]. unfold gderef. rewrite gbind_ret. intros Hr%IH.
  constructor; [by exists ps|done].
Qed.

Lemma ingress_handled i : ensures I (handleIngress i) (ingress_message i).
Proof.
  intros w _. split; [done|]. intros r Hr. destruct (handleIngress i w) as [o w'] eqn:E. simpl in Hr. subst o.
  pose proof E as E'. unfold handleIngress in E'. apply gbind_returned in E' as (x & w1 & Hx & _).
  destruct (handleIngress_total i w (rules_returned _ _ _ _ _ _ _ Hx)) as (r' & Hr' & Hm). congruence.
Qed.

Lemma ingresses_delivered n all l acc : k8s_Ingresses n = OK all -> (forall i, i ∈ l -> i ∈ all) -> Forall delivered acc ->
  ensures I (list_ingresses l acc) (Forall delivered).
Proof.
  intros Hn. revert acc. induction l as [|i l IH]; intros acc Hl Ha; simpl; [by apply ensures_ret|].
  eapply ensures_bind; [apply ingress_handled|]. intros r Hr. apply IH; [set_solver|].
  apply Forall_app. split; [done|]. apply Forall_singleton. eapply delivered_ingress; [done| |done]. set_solver.
Qed.

Lemma k8s_network_delivered : ensures I (r <- k8s_network_List ;; gret (checked r)) all_delivered.
Proof.
  unfold k8s_network_List. eapply ensures_bind with (Q := fun r => Forall delivered (fst r));
    [|intros [l [e|]] Hr; by apply ensures_ret].
  eapply ensures_bind; [apply ensures_asked|]. intros [services|e] [n Hn]; [|by apply ensures_ret].
  assert (Hs : Forall delivered (handleService <$> services)).
  { apply Forall_forall. intros r (x & -> & Hx)%list_elem_of_fmap. by eapply delivered_service. }
  eapply ensures_bind; [apply ensures_asked|]. intros [ingresses|e] [n' Hn']; [|by apply ensures_ret].
  eapply ensures_bind; [by eapply ingresses_delivered|]. intros l Hl. by apply ensures_ret.
Qed.

(** *** AWS *)

Lemma ensures_aws_call {A B} (f : nat -> aws_res A) (k : A -> Go W (res B)) P :
  (forall e, P (Err e)) -> (forall a n, f n = AwsOK a -> ensures I (k a) P) -> ensures I (aws_call (remote f) k) P.
Proof.
  intros He Hk. unfold aws_call. eapply ensures_bind; [apply ensures_asked|]. intros [a|e] [n Hn]; [by eapply Hk|].
  by apply ensures_ret.
Qed.

Lemma volumes_delivered d : ensures I (aws_discoverVolumes d) all_delivered.
Proof.
  apply ensures_aws_call; [done|]. intros vs n Hn. apply ensures_ret, Forall_forall.
  intros r (v & -> & Hv)%list_elem_of_fmap. by eapply delivered_volume.
Qed.

Lemma interfaces_delivered d : ensures I (aws_discoverNetworkInterfaces d) all_delivered.
Proof.
  apply ensures_aws_call; [done|]. intros ifs n Hn. apply ensures_ret, Forall_forall.
  intros r (i & -> & Hi)%list_elem_of_fmap. by eapply delivered_interface.
Qed.

(** An instance that was handled has EBS volumes only. *)
Lemma mappings_returned d l ids (w w' : W) r : mapBlockStorageIDsOfVM d l ids w = (Returned r, w') -> Forall is_Some l.
Proof.
  revert ids w. induction l as [|m l IH]; intros ids w; [constructor|]. simpl. destruct m as [id|]; simpl; [|done].
  rewrite gbind_ret. intros Hr%IH. constructor; [by exists id|done].
Qed.

Lemma instance_handled d reservation vm :
  ensures I (handle_instance d reservation vm) (fun r => ebs_only vm /\ r = instance_message d reservation vm).
Proof.
  intros w _. split; [done|]. intros r Hr. unfold handle_instance, gbind in Hr.
  destruct (mapBlockStorageIDsOfVM d (BlockDeviceMappings vm) [] w) as [[ids| |] w'] eqn:E; [|done..].
  pose proof (mappings_returned _ _ _ _ _ _ E) as Hm. injection Hr as <-. split; [done|].
  rewrite (mappings_total d _ [] w Hm) in E. injection E as <- _. done.
Qed.

Lemma instances_delivered d n rs reservation vms acc : aws_DescribeInstances n = AwsOK rs ->
  (forall vm, vm ∈ vms -> (reservation, vm) ∈ all_instances rs) -> Forall delivered acc ->
  ensures I (handle_instances d reservation vms acc) (Forall delivered).
Proof.
  intros Hn. revert acc. induction vms as [|vm vms IH]; intros acc Hl Ha; simpl; [by apply ensures_ret|].
  eapply ensures_bind; [apply instance_handled|]. intros r [He ->]. apply IH; [set_solver|].
  apply Forall_app. split; [done|]. apply Forall_singleton. eapply delivered_instance; [done| |done]. set_solver.
Qed.

Lemma reservations_delivered d n rs l acc : aws_DescribeInstances n = AwsOK rs -> (forall r, r ∈ l -> r ∈ rs) ->
  Forall delivered acc -> ensures I (handle_reservations d l acc) (Forall delivered).
Proof.
  intros Hn. revert acc. induction l as [|r l IH]; intros acc Hl Ha; simpl; [by apply ensures_ret|].
  eapply ensures_bind; [eapply instances_delivered; [done| |done]|intros acc' Ha'; apply IH; [set_solver|done]].
  intros vm Hvm. apply list_elem_of_bind. exists r. split; [|set_solver]. apply list_elem_of_fmap. by exists vm.
Qed.

Lemma machines_delivered d : ensures I (aws_discoverVirtualMachines d) all_delivered.
Proof.
  apply ensures_aws_call; [done|]. intros rs n Hn. eapply ensures_bind; [by eapply reservations_delivered|].
  intros l Hl. by apply ensures_ret.
Qed.

Lemma functions_delivered d pages m acc : Forall delivered acc -> ensures I (function_pages pages d m acc) all_delivered.
Proof.
  revert m acc. induction pages as [|pages IH]; intros m acc Ha; cbn [function_pages]; [apply ensures_fuel|].
  apply ensures_aws_call; [done|]. intros resp n Hn.
  assert (Hf : Forall delivered (acc ++ mapFunctionResources d (Functions resp))).
  { apply Forall_app. split; [done|]. apply Forall_forall. intros r (f & -> & Hin)%list_elem_of_fmap. by eapply delivered_function. }
  destruct (NextMarker resp); [by apply IH|by apply ensures_ret].
Qed.

Lemma aws_compute_delivered d : ensures I (compute_List fuel d) all_delivered.
Proof.
  unfold compute_List, discoverFunctions.
  eapply ensures_try; [apply volumes_delivered|done|]. intros vs Hvs.
  eapply ensures_try; [apply interfaces_delivered|done|]. intros ifs Hifs.
  eapply ensures_try; [apply machines_delivered|done|]. intros vms Hvms.
  eapply ensures_try; [by apply functions_delivered|done|]. intros fs Hfs.
  apply ensures_ret. by repeat apply Forall_app_2.
Qed.

(** A bucket record was made from a delivered bucket. *)
Definition from_bucket (b : bucket) : Prop :=
  exists n l raw, aws_ListBuckets n = AwsOK l /\ raw ∈ l /\ Bucket_Name raw = Some (bucket_name b) /\
    bucket_arn b = "arn:aws:s3:::" +:+ bucket_name b.

Lemma collect_delivered d n all l acc : aws_ListBuckets n = AwsOK all -> (forall b, b ∈ l -> b ∈ all) -> Forall from_bucket acc ->
  ensures I (collect_buckets d l acc) (fun r => Forall from_bucket (fst r)).
Proof.
  intros Hn. revert acc. induction l as [|b l IH]; intros acc Hl Ha; simpl; [by apply ensures_ret|].
  eapply ensures_bind with (Q := fun _ => True).
  { unfold getRegion. eapply ensures_bind; [apply ensures_asked|]. intros [resp|e] _; by apply ensures_ret. }
  intros [[region raw]|e] _; [|by apply ensures_ret]. case_bool_decide; [|apply IH; [set_solver|done]].
  eapply ensures_bind; [by apply (ensures_deref I _ (fun name => Bucket_Name b = Some name))|]. intros name Hb.
  apply IH; [set_solver|]. apply Forall_app. split; [done|]. apply Forall_singleton. exists n, all, b. split_and!; [done| |done..].
  set_solver.
Qed.

Lemma buckets_delivered d : ensures I (getBuckets d) (fun r => Forall from_bucket (fst r)).
Proof.
  unfold getBuckets. eapply ensures_bind; [apply ensures_asked|]. intros [l|e] [n Hn]; [by eapply collect_delivered|].
  by apply ensures_ret.
Qed.

Lemma calls_only {A} (m : Go W A) : ensures I m (fun _ => True).
Proof. by intros w. Qed.

Lemma list_buckets_delivered d l acc : Forall from_bucket l -> Forall delivered acc ->
  ensures I (list_buckets d l acc) (fun r => Forall delivered (fst r)).
Proof.
  intros Hl. revert acc. induction Hl as [|b l (n & all & raw & Hn & Hin & Hb & Harn) Hl IH]; intros acc Ha; cbn [list_buckets];
    [by apply ensures_ret|].
  eapply ensures_bind; [apply calls_only|]. intros [[rest raw1]|e] _; [|by apply ensures_ret].
  eapply ensures_bind; [apply calls_only|]. intros [[transit raw2]|e] _; [|by apply ensures_ret].
  apply IH, Forall_app_2; [done|]. repeat constructor; (eapply delivered_bucket; [done..|]);
    (split; [exact Harn|split; [reflexivity|]]); [left; by eexists _, _|right; by eexists _, _, _].
Qed.

Lemma s3_delivered d : ensures I (r <- s3_List d ;; gret (checked r)) all_delivered.
Proof.
  unfold s3_List. eapply ensures_bind with (Q := fun r => Forall delivered (fst r)); [|intros [l [e|]] Hr; by apply ensures_ret].
  eapply ensures_bind; [apply buckets_delivered|]. intros [l [e|]] Hl; [by apply ensures_ret|]. by apply list_buckets_delivered.
Qed.

(** The storage and the service of a bucket are listed under the same id. *)
Lemma bucket_listed_twice d b (w w' : W) l : list_buckets d [b] [] w = (Returned (l, None), w') ->
  exists storage service, l = [storage; service] /\ storage <> service /\ GetId storage = GetId service.
Proof.
  cbn [list_buckets]. intros (r & w1 & _ & Hk)%gbind_returned. destruct r as [[rest raw1]|]; [|done].
  apply gbind_returned in Hk as (r & w2 & _ & Hk). destruct r as [[transit raw2]|]; [|done].
  injection Hk as <- _. eexists _, _. split; [reflexivity|]. by split.
Qed.

(** *** All discoverers *)

Lemma calls_ensured {A} (m : Go W A) P n a n' : ensures I m P -> calls_of m n = (Returned a, n') -> P a.
Proof.
  intros Hm. unfold calls_of. destruct (m _) as [o w] eqn:E. intros [= -> _]. exact (proj1 (ensures_returned _ _ _ _ _ _ Hm Logic.I E)).
Qed.

(** What a discoverer lists was delivered by a provider. *)
Lemma cloud_listing d n l n' : disc_List d n = (Returned (OK l), n') -> Forall delivered l.
Proof.
  destruct d as [d|d|d|d|d|x]; cbn [disc_List cloud_discoverer cloud_List]; intros Hl.
  - apply (calls_ensured _ _ _ _ _ k8s_compute_delivered Hl).
  - apply (calls_ensured _ _ _ _ _ k8s_network_delivered Hl).
  - apply (calls_ensured _ _ _ _ _ k8s_storage_delivered Hl).
  - apply (calls_ensured _ _ _ _ _ (s3_delivered d) Hl).
  - apply (calls_ensured _ _ _ _ _ (aws_compute_delivered d) Hl).
  - apply Forall_forall. intros r Hr. exact (delivered_other x n l n' r Hl Hr).
Qed.
End Discoverers.

(** ** A discovery run over a cluster *)

Section Runs.
Context {X DB Sch Stream Message : Type} (fuel : nat).
Context `{!Discoverer X Ontology, !AzureProvider X}.
Context `{Kubernetes, !RawLibrary KubernetesObject, JsonText, AwsSdk, !RawLibrary AwsObject}.
Context `{StorageLaws DB, DiscoveryScheduler Sch (CloudDiscoverer X), AssessmentClient Stream}.
Context `{IsResource Ontology, AnyLibrary Message Ontology, JSONLibrary, ValueText, Env}.
Context (assessment_available : forall n, exists str, dc_AssessEvidences n = OK str).
#[local] Instance run_discoverer : Discoverer (CloudDiscoverer X) Ontology := cloud_discoverer fuel.
Abbreviation W := (World DB (DiscoveryService Sch (CloudDiscoverer X) Stream) DiscoveryTask).

(** The jobs of the discoverers have tags of their own. *)
Lemma cloud_names_distinct client csID :
  NoDup (cloud_Name <$> k8s_discoveries (D := CloudDiscoverer X) (Providers := cloud_providers) csID ++ aws_discoveries client csID).
Proof. apply (bool_decide_unpack _). reflexivity. Qed.

(** Of two resources with the same id only the one that was saved last is kept. *)
Lemma save_replaces (x y : Resource) conds (db db' : DB) :
  st_Save T_Resource y conds db = (None, db') -> Resource_Id x = Resource_Id y -> x ∈ rows T_Resource db' -> x = y.
Proof.
  intros Hs Hid. rewrite (save_flat T_Resource _ _ _ _ eq_refl ltac:(done) Hs). intros [->|Hx]%elem_of_cons; [done|].
  apply list_elem_of_filter in Hx as [Hx _]. exfalso. apply Hx. cbn. by rewrite Hid.
Qed.

(** A run over a cluster that answers: the channel to the assessment service has, in
    this order, an evidence for every service and one for the load balancer of every
    ingress; and what was saved is only these. *)
Theorem k8s_cluster_discovered d services ingresses (w : W) :
  k8s_Services (w_tick w) = OK services -> k8s_Ingresses (w_tick w + 1) = OK ingresses -> Forall http_rules ingresses ->
  (forall r : Ontology, exists a, anypb_New r = OK a) ->
  named w -> length (ac_waiting w) + (length services + length ingresses) <= channel_cap ->
  exists lbs es w', StartDiscovery (D := CloudDiscoverer X) (K8sNetwork d) w = (Returned tt, w') /\
    Forall2 ingress_message ingresses lbs /\
    Forall2 (evidence_for (csID (w_svc w))) ((handleService <$> services) ++ lbs) es /\
    ac_waiting w' = ac_waiting w ++ ((fun e => mkEvidenceRequest (Some e)) <$> es) /\
    saved (csID (w_svc w)) ((handleService <$> services) ++ lbs) w w'.
Proof.
  intros Hs Hi Hh Hany Hn Hroom.
  destruct (k8s_network_lists services ingresses (mkWorld tt tt [] (w_tick w) : World unit unit unit) Hs Hi Hh) as (lbs & Hl & Hm).
  assert (Hd : disc_List (D := CloudDiscoverer X) (K8sNetwork d) (w_tick w) =
               (Returned (OK ((handleService <$> services) ++ lbs)), w_tick w + 1 + 1)).
  { cbn [disc_List run_discoverer cloud_discoverer cloud_List]. unfold calls_of. by rewrite (gbind_eq _ _ _ _ _ Hl). }
  destruct (discovery_run assessment_available _ _ _ w Hd) as (es & w' & Hrun & Hes & Hq & Hsaved & _); [|done| |].
  - apply Forall_forall. intros r _. apply Hany.
  - rewrite length_app, length_fmap, <-(Forall2_length _ _ _ Hm). lia.
  - exists lbs, es, w'. split_and!; try done. eapply Forall2_impl; [done|]. apply made_evidence_for.
Qed.
End Runs.

(** ** The services together, over the providers *)

Section EndToEnd.
Context {X DB Sch Stream Message Query Tx EvS OrS EvtS Ctx : Type} (pages fuel : nat).
Context `{!Discoverer X Ontology, !AzureProvider X}.
Context `{Kubernetes, !RawLibrary KubernetesObject, JsonText, AwsSdk, !RawLibrary AwsObject}.
#[local] Instance system_discoverer : Discoverer (CloudDiscoverer X) Ontology := cloud_discoverer pages.
Context `{StorageLaws DB, DiscoveryScheduler Sch (CloudDiscoverer X), AssessmentClient Stream}.
Context `{IsResource Ontology, AnyLibrary Message Ontology, JSONLibrary, ValueText, Env}.
Context `{Opa Query Tx, AssessmentClients EvS OrS EvtS, AuthorizationStrategy Ctx}.
Context `{Validator EvidenceRequest, Validator Message, Validator StoreAssessmentResultRequest}.
Context `{!AnyLaws Message Ontology}.
Context (Submitted : Evidence -> Prop) (SubmittedResult : AssessmentResult -> Prop).
Abbreviation reachable := (sys_reachable (DB := DB) (Sch := Sch) (D := CloudDiscoverer X) (Stream := Stream) (Message := Message)
  (Query := Query) (EvS := EvS) (OrS := OrS) (EvtS := EvtS) (Ctx := Ctx) fuel Submitted SubmittedResult).

(** The evidence describes an object of a provider. *)
Definition cloud_evidence (r : Ontology) (e : Evidence) : Prop := delivered (X := X) r /\ exists cs, evidence_for cs r e.

Lemma discovered_delivered r e : discovered (D := CloudDiscoverer X) r e -> cloud_evidence r e.
Proof.
  intros (d & n & n' & l & cs & Hl & Hr & He). split; [|by exists cs].
  exact (proj1 (Forall_forall _ _) (cloud_listing pages d n l n' Hl) r Hr).
Qed.

(** In every state that the services reach over AWS, Kubernetes and other
    discoverers: a stored evidence that no client submitted describes an object
    that an API of a provider delivered, with the raw data and the message the
    discoverer made of it, and a stored assessment result that no client submitted
    is the verdict of the policies on such an object or on a submitted evidence. *)
Theorem cloud_pipeline_traceable s : reachable s ->
  (forall e : Evidence, e ∈ rows T_Evidence (sys_db s) -> Submitted e \/ exists r, cloud_evidence r e) /\
  (forall a : AssessmentResult, a ∈ rows T_AssessmentResult (sys_db s) -> SubmittedResult a \/
     exists e r data, (cloud_evidence r e \/ Submitted e /\ about e r) /\ judged fuel e r data /\ result_for e r data a).
Proof.
  intros [[He Hr] _]%sys_reachable_ok. split.
  - intros e Hin. destruct (He e Hin) as [?|[r Hd]]; [by left|]. right. exists r. by apply discovered_delivered.
  - intros a Hin. destruct (traced_verdict _ _ _ a (Hr a Hin)) as [?|(e & r & data & Hd & Hj & Ha)]; [by left|].
    right. exists e, r, data. split_and!; [|done..]. destruct Hd as [Hd|?]; [left; by apply discovered_delivered|by right].
Qed.
End EndToEnd.
