(* ===== verification/AzurePipeline.v ===== *)
(** The Azure discoverer (service/discovery/azure/azure.go) in the discovery service,
    beside those of AWS and Kubernetes.

    [NewAzureDiscovery] returns a pointer, and a listing changes what it points to:
    the clients, the backup storages and the Defender settings are kept for the next
    run.  The discoverer is here the state it is in when a run starts; a run may
    start in any state that earlier listings can have left. *)

From S2P Require Import Prelude GoRuntime GoHoare GoStrings Util GoText Api Sql Storage Authz Pagination GoJson Streams Ontology Policies Orchestrator EvidenceStore Discovery DiscoveryProofs Assessment AssessmentProofs OntologyMessages AzureSdk Azure AzureResources AzureProofs Aws AwsProofs K8s Pipeline CloudDiscovery.

(** No discoverers besides those of the providers. *)
#[export] Instance no_others : Discoverer Empty_set Ontology := {|
  disc_Name := fun x : Empty_set => match x with end;
  disc_List := fun x : Empty_set => match x with end;
|}.

(** The options that [Start] gives, as functions on the discoverer. *)
Definition azure_option (o : AzureOption) : azureDiscovery -> azureDiscovery :=
  match o with
  | AzureWithAuthorizer => azure_WithAuthorizer
  | AzureWithCloudServiceID id => azure_WithCloudServiceID id
  | AzureWithResourceGroup rg => azure_WithResourceGroup rg
  end.

Lemma azure_option_known opts : Forall known_option (azure_option <$> opts).
Proof. apply Forall_fmap, Forall_true. intros []; constructor. Qed.

(** [(list, err)]; a listing has no nil element (azure_run_listed). *)
Definition azure_checked (r : list (option Ontology) * option error) : res (list Ontology) :=
  match snd r with Some e => Err e | None => OK (omap id (fst r)) end.

Section Azure.
Context `{AzureSdk, !RawLibrary AzureObject}.
Abbreviation AW := (World unit azureDiscovery unit).

(** A discoverer in a state that it can be in. *)
Record AzureDiscoverer := mkAzure {
  azure_state : azureDiscovery;
  azure_reached : exists n, azure_reachable (mkWorld tt azure_state [] n : AW);
}.

Definition azure_calls (d : azureDiscovery) : Calls (res (list Ontology)) :=
  fun n => let '(o, w) := (r <- azure_List ;; gret (azure_checked r)) (mkWorld tt d [] n : AW) in (o, w_tick w).

#[global] Instance azure_discoverer : Discoverer AzureDiscoverer Ontology := {|
  disc_Name := fun x => azure_Name (azure_state x);
  disc_List := fun x => azure_calls (azure_state x);
|}.

Lemma azure_new_reached opts : exists n, azure_reachable (mkWorld tt (NewAzureDiscovery (azure_option <$> opts)) [] n : AW).
Proof. exists 0. apply azure_new, azure_option_known. Qed.

(** [cred] is the answer of the credential library. *)
Definition azure_provider {C} (cred : Go (World unit unit unit) (res C)) : AzureProvider AzureDiscoverer := {|
  other_NewAuthorizer := calls_of (r <- NewAuthorizer cred ;; gret (match r with OK _ => None | Err e => Some e end));
  other_NewAzureDiscovery opts := mkAzure (NewAzureDiscovery (azure_option <$> opts)) (azure_new_reached opts);
|}.

(** The resource was listed by the Azure discoverer in some state that it can be in. *)
Definition azure_found (r : Ontology) : Prop :=
  exists (x : AzureDiscoverer) n l n', disc_List x n = (Returned (OK l), n') /\ r ∈ l.

(** What the service is handed are all the elements, each identified. *)
Lemma azure_run_listed (x : AzureDiscoverer) n l n' : disc_List x n = (Returned (OK l), n') ->
  exists w', azure_List (mkWorld tt (azure_state x) [] n : AW) = (Returned (Some <$> l, None), w') /\ Forall identified l.
Proof.
  destruct x as [d [n0 Hx]]. cbn [disc_List azure_discoverer azure_state]. unfold azure_calls.
  destruct (gbind _ _ _) as [o w] eqn:E. intros [= -> _]. apply gbind_returned in E as ([l' e] & w1 & Hl & Hr).
  unfold azure_checked in Hr. destruct e as [e|]; [done|]. cbn in Hr. injection Hr as <- <-.
  destruct (ids_azure_List (mkWorld tt d [] n : AW) (azure_reachable_backups _ Hx)) as [_ Hi].
  rewrite Hl in Hi. specialize (Hi _ eq_refl). cbn in Hi. exists w1. rewrite Hl.
  clear Hl. induction Hi as [|[r|] l' Hr _ IH]; cbn; [done| |done]. destruct IH as [IH Hf]. injection IH as IH.
  split; [by rewrite <-IH at 1|by constructor].
Qed.

Lemma azure_found_identified r : azure_found r -> identified r.
Proof.
  intros (x & n & l & n' & Hl & Hr). destruct (azure_run_listed x n l n' Hl) as (_ & _ & Hf).
  by apply (proj1 (Forall_forall _ _) Hf).
Qed.
End Azure.

Section Providers.
Context `{AzureSdk, !RawLibrary AzureObject}.
Context `{Kubernetes, !RawLibrary KubernetesObject, JsonText, AwsSdk, !RawLibrary AwsObject}.

(** A resource comes from AWS or Kubernetes, or from Azure. *)
Lemma delivered_by r : delivered (X := AzureDiscoverer) r -> delivered (X := Empty_set) r \/ azure_found r.
Proof. intros Hd. destruct Hd; [left; by econstructor..|right; by eexists _, _, _, _]. Qed.
End Providers.

(** ** The services together, over the three providers *)

Section EndToEnd.
Context {DB Sch Stream Message Query Tx EvS OrS EvtS Ctx : Type} (pages fuel : nat).
Context `{AzureSdk, !RawLibrary AzureObject}.
Context `{Kubernetes, !RawLibrary KubernetesObject, JsonText, AwsSdk, !RawLibrary AwsObject}.
Abbreviation Disc := (CloudDiscoverer AzureDiscoverer).
#[local] Instance providers_discoverer : Discoverer Disc Ontology := cloud_discoverer pages.
Context `{StorageLaws DB, DiscoveryScheduler Sch Disc, AssessmentClient Stream}.
Context `{IsResource Ontology, AnyLibrary Message Ontology, JSONLibrary, ValueText, Env}.
Context `{Opa Query Tx, AssessmentClients EvS OrS EvtS, AuthorizationStrategy Ctx}.
Context `{Validator EvidenceRequest, Validator Message, Validator StoreAssessmentResultRequest}.
Context `{!AnyLaws Message Ontology}.
Context (Submitted : Evidence -> Prop) (SubmittedResult : AssessmentResult -> Prop).
Abbreviation reachable := (sys_reachable (DB := DB) (Sch := Sch) (D := Disc) (Stream := Stream) (Message := Message)
  (Query := Query) (EvS := EvS) (OrS := OrS) (EvtS := EvtS) (Ctx := Ctx) fuel Submitted SubmittedResult).

(** The evidence describes an object of AWS or Kubernetes, or an Azure resource, whose
    id and parent are in lower case. *)
Definition provider_evidence (r : Ontology) (e : Evidence) : Prop :=
  (delivered (X := Empty_set) r \/ azure_found r /\ identified r) /\ exists cs, evidence_for cs r e.

Lemma cloud_provider_evidence r e : cloud_evidence (X := AzureDiscoverer) r e -> provider_evidence r e.
Proof.
  intros [Hd He]. split; [|done]. destruct (delivered_by r Hd) as [?|Hf]; [by left|right].
  split; [done|by apply azure_found_identified].
Qed.

(** C7. In every state that the services reach over Azure, AWS and Kubernetes, with
    the Azure discoverer in any state that its earlier listings left: a stored
    evidence that no client submitted describes an object that an API of AWS or
    Kubernetes delivered or a resource that the Azure discoverer listed, the latter
    with the lower-case ids by which the resource graph joins it with its parent;
    and a stored assessment result that no client submitted is the verdict of the
    policies on such an object or on a submitted evidence. *)
Theorem providers_pipeline_traceable s : reachable s ->
  (forall e : Evidence, e ∈ rows T_Evidence (sys_db s) -> Submitted e \/ exists r, provider_evidence r e) /\
  (forall a : AssessmentResult, a ∈ rows T_AssessmentResult (sys_db s) -> SubmittedResult a \/
     exists e r data, (provider_evidence r e \/ Submitted e /\ about e r) /\ judged fuel e r data /\ result_for e r data a).
Proof.
  intros [He Ha]%(cloud_pipeline_traceable pages fuel Submitted SubmittedResult). split.
  - intros e Hin. destruct (He e Hin) as [?|[r Hd]]; [by left|]. right. exists r. by apply cloud_provider_evidence.
  - intros a Hin. destruct (Ha a Hin) as [?|(e & r & data & Hd & Hrest)]; [by left|]. right. exists e, r, data.
    split; [|done]. destruct Hd as [Hd|?]; [left; by apply cloud_provider_evidence|by right].
Qed.
End EndToEnd.
