(* ===== verification/CloudDiscoveryWitness.v ===== *)
(** A Kubernetes cluster with one service and an Azure subscription with two machines,
    discovered, assessed and stored by the services together. *)

From S2P Require Import Prelude GoRuntime GoStrings Util Api OntologyMessages AzureSdk Azure AzureResources AzureProofs AzureWitness Sql Storage Gorm MemDB Authz Pagination Evaluation EvaluationProofs EvaluationWitness Streams Ontology Policies PoliciesProofs Orchestrator OrchestratorProofs OrchestratorWitness EvidenceStore Discovery DiscoveryProofs Assessment AssessmentProofs AssessmentWitness DiscoveryWitness GoJson Aws AwsProofs K8s CloudWitness Pipeline CloudDiscovery AzurePipeline.

(** ** Messages *)

#[export] Instance ontology_eq_dec : EqDecision Ontology.
Proof.
  assert (EqDecision AtRestEncryption) by solve_decision.
  assert (EqDecision CipherSuite) by solve_decision.
  assert (EqDecision TransportEncryption) by solve_decision.
  assert (EqDecision HttpEndpoint) by solve_decision.
  assert (EqDecision Backup) by solve_decision.
  assert (EqDecision Immutability) by solve_decision.
  assert (EqDecision ResourceLogging) by solve_decision.
  assert (EqDecision BootLogging) by solve_decision.
  assert (EqDecision OSLogging) by solve_decision.
  assert (EqDecision ActivityLogging) by solve_decision.
  assert (EqDecision AutomaticUpdates) by solve_decision.
  assert (EqDecision MalwareProtection) by solve_decision.
  assert (EqDecision Redundancy) by solve_decision.
  assert (EqDecision AnomalyDetection) by solve_decision.
  assert (EqDecision AccessRestriction) by solve_decision.
  assert (EqDecision GeoLocation) by solve_decision.
  assert (EqDecision Common) by solve_decision.
  solve_decision.
Defined.

(** A service has no transport encryption, and a machine no automatic updates: their
    field "enabled" is off. *)
#[export] Instance cluster_ontology : IsResource Ontology := {|
  resource_GetId := GetId;
  resource_GetRaw := fun r => Common_Raw (common_of r);
  resource_fields := fun _ => [];
  resource_type_names := fun _ => ["GenericNetworkService"; "NetworkService"];
  protojson_Marshal := fun r => OK (match r with GenericNetworkService _ _ _ | VirtualMachine _ _ _ _ _ _ _ _ => "off" | _ => "on" end);
|}.

Definition db_service : k8s_Service := mkK8sService (mkObjectMeta "db" "default" "u2" ∅ 7) [5432%Z] ["10.0.0.1"].

(** The first machine of the subscription, as the discoverer lists it. *)
Definition machine : Ontology := Eval vm_compute in
  match fst (azure_List AzureWitness.demo_world) with
  | Returned (l, _) => default (handleService db_service) (mjoin (l !! 2))
  | _ => handleService db_service
  end.

(** The message of the service and that of the machine are the only ones that are packed. *)
#[export] Instance cluster_any : AnyLibrary Ontology Ontology := {|
  UnmarshalNew := fun a =>
    match a with
    | Some a => if bool_decide (Any_TypeUrl a = "machine") then OK machine else OK (handleService db_service)
    | None => Err (EText "invalid empty type URL")
    end;
  as_resource := Some;
  anypb_New := fun r => if bool_decide (r = handleService db_service) then OK (mkAnyPb "service" "")
                        else if bool_decide (r = machine) then OK (mkAnyPb "machine" "") else Err (EText "not packed");
|}.

#[export] Instance cluster_any_laws : AnyLaws Ontology Ontology.
Proof.
  intros r a. cbn. case_bool_decide as Hr; [intros [= <-]; exists r; by rewrite Hr|].
  case_bool_decide as Hm; [|done]. intros [= <-]. exists r. by rewrite Hm.
Qed.

(** ** The system *)

Abbreviation Disc := (CloudDiscoverer AzureDiscoverer).
Abbreviation ClusterSystem := (@System memdb unit Disc unit string unit unit unit).
#[export] Instance cluster_discoverer : Discoverer Disc Ontology := cloud_discoverer 3.
Definition cluster : Disc := K8sNetwork (mkK8sDiscovery "svc").
Definition subscription : Disc := OtherDiscoverer (mkAzure (NewAzureDiscovery (azure_option <$> [AzureWithAuthorizer])) (azure_new_reached _)).

Definition cluster_discovery : DiscoveryService unit Disc unit :=
  Discovery.NewService tt [WithAdditionalDiscoverers [cluster; subscription]; WithCloudServiceID "svc"].

Definition cluster_system : ClusterSystem :=
  mkSystem (mem_empty 0) (mkWorld tt cluster_discovery [] 0) demo_start (mkWorld tt EvidenceStore.NewService [] 0)
    (mkWorld tt demo_orch [] 0).

Definition no_client {A : Type} (_ : A) : Prop := False.

Abbreviation cluster_step := (@sys_step memdb unit Disc unit Ontology Ontology string string unit unit unit unit
  _ _ _ _ _ _ _ _ _ _ _ demo_authz _ _ _ 1 no_client no_client).
Abbreviation cluster_reachable := (@sys_reachable memdb unit Disc unit Ontology Ontology string string unit unit unit unit
  _ _ _ _ _ _ _ _ _ _ _ demo_authz _ _ _ 1 no_client no_client).

(** One evidence, or one assessment result, goes to the next service. *)
Definition assess_one (s : ClusterSystem) : ClusterSystem := sent_by "localhost:9090" discovery_streams set_discovery_streams
  (fun m => in_assessment (@AssessEvidence _ _ _ _ _ _ _ unit _ _ _ _ _ _ demo_authz _ _ _ 1 (Some tt) (Some m))) s.
Definition store_one (s : ClusterSystem) : ClusterSystem := sent_by "localhost:9090" store_streams set_store_streams
  (fun m => in_store (@StoreEvidence _ unit _ demo_authz _ (Some tt) (Some m))) s.
Definition result_one (s : ClusterSystem) : ClusterSystem := sent_by "localhost:9090" result_streams set_result_streams
  (fun m => in_orchestrator (@StoreAssessmentResult _ unit _ demo_authz _ (Some tt) (Some m))) s.

(** Both discoverers run; then the evidences are assessed and stored with their results. *)
Definition cluster1 : ClusterSystem := in_discovery (StartDiscovery cluster) cluster_system.
Definition cluster2 : ClusterSystem := in_discovery (StartDiscovery subscription) cluster1.
Definition cluster3 : ClusterSystem := assess_one cluster2.
Definition cluster4 : ClusterSystem := assess_one cluster3.
Definition cluster5 : ClusterSystem := store_one cluster4.
Definition cluster6 : ClusterSystem := store_one cluster5.
Definition cluster7 : ClusterSystem := result_one cluster6.
Definition cluster8 : ClusterSystem := result_one cluster7.

(** The loop of the stream runs and has a message to send. *)
Ltac deliver := apply sent_by_transfer;
  [intros [?] ?; by exists (Some tt)|apply (bool_decide_unpack _); vm_compute; exact I|vm_compute; by eexists].

Lemma cluster_run : rtc cluster_step cluster_system cluster8.
Proof.
  apply (rtc_l _ _ cluster1); [unfold cluster1; apply sys_discover|].
  apply (rtc_l _ _ cluster2); [unfold cluster2; apply sys_discover|].
  apply (rtc_l _ _ cluster3); [unfold cluster3; apply sys_evidence; deliver|].
  apply (rtc_l _ _ cluster4); [unfold cluster4; apply sys_evidence; deliver|].
  apply (rtc_l _ _ cluster5); [unfold cluster5; apply sys_evidence_store; deliver|].
  apply (rtc_l _ _ cluster6); [unfold cluster6; apply sys_evidence_store; deliver|].
  apply (rtc_l _ _ cluster7); [unfold cluster7; apply sys_result; deliver|].
  apply rtc_once. unfold cluster8. apply sys_result. deliver.
Qed.

Lemma cluster8_reachable : cluster_reachable cluster8.
Proof. exists cluster_system. split; [by split_and!|exact cluster_run]. Qed.

Abbreviation cluster_results := (rows T_AssessmentResult (sys_db cluster8)).

(** The results that are stored are verdicts on what the cluster and Azure delivered. *)
Lemma providers_pipeline_traceable_witness :
  (AssessmentResult_ResourceId <$> cluster_results) =
    ["/namespaces/default/services/db"; "/subscriptions/s/resourcegroups/g1/providers/microsoft.compute/virtualmachines/vm1"] /\
  (AssessmentResult_Compliant <$> cluster_results) = [false; false] /\
  forall a, a ∈ cluster_results -> exists e r data, provider_evidence r e /\ result_for e r data a.
Proof.
  split; [vm_compute; reflexivity|]. split; [vm_compute; reflexivity|]. intros a Hin.
  destruct (providers_pipeline_traceable (DB := memdb) (Sch := unit) (Stream := unit) (Message := Ontology)
    (Query := string) (EvS := unit) (OrS := unit) (EvtS := unit) (Ctx := unit) 3 1 no_client no_client cluster8
    cluster8_reachable) as [_ Ha].
  destruct (Ha a Hin) as [[]|(e & r & data & Hv)].
  destruct Hv as ([Hd|[[] _]] & _ & Hres). exists e, r, data. split; [exact Hd|exact Hres].
Defined.
