(* ===== verification/PipelineComplete.v ===== *)
(** Nothing of a discovery run is lost: in whatever order the streams between the
    services deliver, everything a discoverer lists gets through them, every
    resource ends up as one stored evidence and, for each of its verdicts, one
    stored assessment result, and nothing else is stored. *)

From S2P Require Import Prelude GoRuntime GoStrings Util Api Sql Storage Gorm MemDB Authz Pagination Streams Ontology Policies PoliciesProofs Orchestrator EvidenceStore Discovery DiscoveryProofs Assessment AssessmentProofs Pipeline.

(** A database that accepts a new evidence or result whose key is not taken. *)
Class ReliableStorage (DB : Type) `{Storage DB, !StorageView DB} : Prop :=
  create_accepts : forall t (r : row t) (db : DB), t = T_Evidence \/ t = T_AssessmentResult ->
    (forall x, x ∈ rows t db -> pk t x <> pk t r) -> exists db', st_Create t r db = (None, db').

Section Complete.
Context {DB Sch D Stream Message R Query Tx EvS OrS EvtS Ctx : Type}.
Context `{StorageLaws DB, !ReliableStorage DB, DiscoveryScheduler Sch D, Discoverer D R, AssessmentClient Stream}.
Context `{IsResource R, AnyLibrary Message R, !AnyLaws Message R, JSONLibrary, ValueText, Env, !Inj (=) (=) uuid_at}.
Context `{Opa Query Tx, AssessmentClients EvS OrS EvtS, !ClientsUp, AuthorizationStrategy Ctx}.
Context `{Validator EvidenceRequest, Validator Message, Validator StoreAssessmentResultRequest}.
Context (fuel : nat).
Context (Hup : forall n, exists str, dc_AssessEvidences n = OK str).

Abbreviation Sys := (System (DB := DB) (Sch := Sch) (D := D) (Stream := Stream) (Query := Query) (EvS := EvS) (OrS := OrS) (EvtS := EvtS)).
Implicit Types s : Sys.

Abbreviation evidence_msg := (fun e => mkEvidenceRequest (Some e)).
Abbreviation result_msg := (fun r => mkStoreAssessmentResultRequest (Some r)).

(** The orchestrator's metrics, and a caller that may act on the cloud service. *)
Context (ms : list Metric) (cfg0 : string -> string -> res MetricConfiguration)
  (impl0 : string -> res MetricImplementation) `{!StableOrchestrator fuel ms cfg0 impl0}.
Context (Hnames : Forall (fun m => no_dash (Metric_Id m) = true) ms) (pkg : string).
Context (ctx : option Ctx) (cs : string) (Huuid : is_uuid cs).
Context (Hupdate : CheckAccess ctx AccessUpdate cs = true) (Hread : CheckAccess ctx AccessRead cs = true).

(** ** Storing what was sent *)

Lemma store_evidence_stored e (w : World DB EvidenceService EvidenceTask) :
  violations (evidence_msg e) = None -> Evidence_CloudServiceId e = cs ->
  Evidence_Id e ∉ Evidence_Id <$> rows T_Evidence (w_db w) ->
  exists db', w_db (snd (StoreEvidence (Ctx := Ctx) ctx (Some (evidence_msg e)) w)) = db' /\
    rows T_Evidence db' ≡ₚ e :: rows T_Evidence (w_db w) /\
    rows T_AssessmentResult db' = rows T_AssessmentResult (w_db w).
Proof.
  intros Hv Hcs Hfresh. destruct (create_accepts T_Evidence e (w_db w)) as [db' Hc]; [by left| |].
  { intros x Hx [= Heq]. apply Hfresh. rewrite <-Heq. by apply list_elem_of_fmap_2. }
  unfold StoreEvidence, with_valid, Validate. rewrite Hv.
  change (EvidenceRequest_GetCloudServiceId _) with (Evidence_CloudServiceId e). rewrite Hcs, Hupdate.
  unfold storage_Create. go_unfold. rewrite Hc. cbn. exists db'. split_and!; [done|exact (create_flat T_Evidence e _ _ eq_refl Hc)|].
  by apply (frame_create T_Evidence e _ _ _ eq_refl Hc T_AssessmentResult).
Qed.

Lemma store_result_stored a (w : World DB OrchestratorService OrchestratorTask) :
  violations (result_msg a) = None -> AssessmentResult_CloudServiceId a = cs ->
  AssessmentResult_Id a ∉ AssessmentResult_Id <$> rows T_AssessmentResult (w_db w) ->
  exists db', w_db (snd (StoreAssessmentResult (Ctx := Ctx) ctx (Some (result_msg a)) w)) = db' /\
    rows T_AssessmentResult db' ≡ₚ a :: rows T_AssessmentResult (w_db w) /\
    rows T_Evidence db' = rows T_Evidence (w_db w).
Proof.
  intros Hv Hcs Hfresh. destruct (create_accepts T_AssessmentResult a (w_db w)) as [db' Hc]; [by right| |].
  { intros x Hx [= Heq]. apply Hfresh. rewrite <-Heq. by apply list_elem_of_fmap_2. }
  unfold StoreAssessmentResult, with_valid, Validate. rewrite Hv.
  change (StoreAssessmentResult_GetCloudServiceId _) with (AssessmentResult_CloudServiceId a). rewrite Hcs, Hread.
  unfold storage_Create. go_unfold. rewrite Hc. cbn. exists db'. split_and!; [done|exact (create_flat T_AssessmentResult a _ _ eq_refl Hc)|].
  by apply (frame_create T_AssessmentResult a _ _ _ eq_refl Hc T_Evidence).
Qed.

(** ** Delivering

    A sending goroutine of one of the three streams takes the next message, and the
    handler of the service that receives it runs. *)
Inductive deliver : Sys -> Sys -> Prop :=
| deliver_evidence m f s :
    let t := assessment_Target (w_svc (sys_discovery s)) in
    SendLoop t ∈ routines (discovery_streams s) -> sendLoop_iter SentOK t (discovery_streams s) = Some (m, true, f) ->
    deliver s (in_assessment (AssessEvidence fuel ctx (Some (mkEvidenceRequest (EvidenceRequest_Evidence m)))) (set_discovery_streams f s))
| deliver_stored m f s :
    let t := evidenceStore_Target (w_svc (sys_assessment s)) in
    SendLoop t ∈ routines (store_streams s) -> sendLoop_iter SentOK t (store_streams s) = Some (m, true, f) ->
    deliver s (in_store (StoreEvidence ctx (Some (mkEvidenceRequest (EvidenceRequest_Evidence m)))) (set_store_streams f s))
| deliver_result m f s :
    let t := orchestrator_Target (w_svc (sys_assessment s)) in
    SendLoop t ∈ routines (result_streams s) -> sendLoop_iter SentOK t (result_streams s) = Some (m, true, f) ->
    deliver s (in_orchestrator (StoreAssessmentResult ctx (Some (mkStoreAssessmentResultRequest (StoreAssessmentResult_Result m))))
      (set_result_streams f s)).

(** These are steps of the system. *)
Lemma deliver_step (Submitted : Evidence -> Prop) (SubmittedResult : AssessmentResult -> Prop) s s' :
  deliver s s' -> sys_step (Message := Message) (R := R) (Ctx := Ctx) fuel Submitted SubmittedResult s s'.
Proof.
  destruct 1 as [m f s t Hl Hi|m f s t Hl Hi|m f s t Hl Hi]; [apply sys_evidence|apply sys_evidence_store|apply sys_result];
    (eapply transfer_sent; [exact Hl|exact Hi|by exists ctx]).
Qed.

(** ** The resources *)

(** What trying every metric of the orchestrator on a resource gives. *)
Definition verdicts (r : R) : list Result :=
  match ResourceMap r with
  | OK x => match assess_all pkg ms (cfg cfg0) (impl impl0) cs x with Returned (OK rs) => rs | _ => [] end
  | Err _ => []
  end.

(** A resource that the services accept and whose policies run without an error. *)
Definition assessable (r : R) : Prop :=
  (exists a, anypb_New r = OK a /\ forall m, UnmarshalNew (Some a) = OK m -> violations m = None) /\
  (exists x, ResourceMap r = OK x /\ assess_all pkg ms (cfg cfg0) (impl impl0) cs x = Returned (OK (verdicts r))) /\
  length (verdicts r) <= channel_cap /\
  forall e, made_evidence cs r e -> violations (evidence_msg e) = None /\
    forall data a, made_result e r data a -> violations (result_msg a) = None.

(** The key under which the applicable metrics of a discovered resource are cached. *)
Definition collector_key (r : R) : string :=
  strings_ReplaceAll (strings_Join (ResourceTypes r ++ [EvidenceCollectorToolId]) "-") " " "".

(** Resources with the same key have the same applicable metrics. *)
Definition alike (r r' : R) : Prop := forall x x', ResourceMap r = OK x -> ResourceMap r' = OK x' ->
  collector_key r = collector_key r' -> same_applicability pkg ms (cfg cfg0) (impl impl0) cs x cs x'.

(** What the assessment service has cached is right for the resources. *)
Definition cached_right (l : list R) (re : regoEval Query) : Prop :=
  forall r x e, r ∈ l -> ResourceMap r = OK x -> made_evidence cs r e -> cache_fits pkg ms (cfg cfg0) (impl impl0) re e r x.

(** The streams run, evidences are stored, and the caches are right for the
    resources [l]. *)
Record healthy (l : list R) (s : Sys) : Prop := {
  healthy_discovery : flowing (discovery_streams s);
  healthy_store : flowing (store_streams s);
  healthy_results : flowing (result_streams s);
  healthy_enabled : isEvidenceStoreDisabled (w_svc (sys_assessment s)) = false;
  healthy_caches : caches_good ms cfg0 impl0 pkg (sys_assessment s);
  healthy_kinds : cached_right l (pe (w_svc (sys_assessment s)));
}.

(** The evidences on their way to the assessment service. *)
Definition sent_evidences (s : Sys) : list EvidenceRequest :=
  waiting (assessment_Target (w_svc (sys_discovery s))) (discovery_streams s).

Lemma flowing_named {Str Msg} (f : StreamsOf Str Msg) : flowing f -> well_named f.
Proof. intros Hf t c Hc. by apply (Hf t c). Qed.

Lemma made_key r e : made_evidence cs r e -> createKey e (ResourceTypes r) = collector_key r.
Proof. by intros (k & t & a & _ & ->). Qed.

Lemma made_cs r e : made_evidence cs r e -> Evidence_CloudServiceId e = cs.
Proof. by intros (k & t & a & _ & ->). Qed.

Lemma cached_right_grown l r x e re re' : made_evidence cs r e -> ResourceMap r = OK x ->
  assess_all pkg ms (cfg cfg0) (impl impl0) cs x = Returned (OK (verdicts r)) -> (forall r', r' ∈ l -> alike r r') ->
  mrtc_grown (createKey e (ResourceTypes r)) (verdicts r) re re' -> cached_right l re -> cached_right l re'.
Proof.
  intros He Hx Hrs Halike Hg Hc r' x' e' Hr' Hx' He'. pose proof (made_cs r e He) as Hcs. pose proof (made_cs r' e' He') as Hcs'.
  eapply (fits_grown (Src := service_source fuel) pkg ms (cfg cfg0) (impl impl0) (cache_current cfg0) Hnames e r x); [exact Hg|by rewrite Hcs| |by apply Hc]. rewrite Hcs, Hcs', !made_key by done.
  intros Hk. by apply (Halike r' Hr').
Qed.

(** The results of one evidence: one per verdict on its resource. *)
Definition results_of (r : R) (e : Evidence) (results : list AssessmentResult) : Prop :=
  Forall2 (result_for e r) (verdicts r) results.

(** ** A run underway *)

Section Run.
(** The state before, the resources and the evidences that were made of them. *)
Context (s0 : Sys) (l : list R) (es : list Evidence).
Context (Hok : Forall assessable l) (Halike : forall r r', r ∈ l -> r' ∈ l -> alike r r').
Context (Hids : NoDup (Evidence_Id <$> es)).
Context (Hnew : forall id, id ∈ Evidence_Id <$> es -> id ∉ Evidence_Id <$> rows T_Evidence (sys_db s0)).
Context (Hlen : length l <= channel_cap) (Hroom : length (l ≫= verdicts) <= channel_cap).

(** A resource with its evidence and its results. *)
Abbreviation assessed := (R * Evidence * list AssessmentResult)%type.

(** The evidences up to [todo] have been assessed, of these [evs] are stored and
    [evq] wait, and of the results [ars] are stored and [arq] wait; [k] deliveries
    are left. *)
Record underway (k : nat) (s : Sys) (fin : list assessed) (todo : list (R * Evidence))
    (evs evq : list Evidence) (ars arq : list AssessmentResult) : Prop := {
  uw_healthy : healthy l s;
  uw_resources : l = ((fun d : assessed => d.1.1) <$> fin) ++ todo.*1;
  uw_evidences : es = ((fun d : assessed => d.1.2) <$> fin) ++ todo.*2;
  uw_made : Forall (fun p => made_evidence cs p.1 p.2) todo;
  uw_results : Forall (fun d : assessed => results_of d.1.1 d.1.2 d.2) fin;
  uw_ev_split : (fun d : assessed => d.1.2) <$> fin = evs ++ evq;
  uw_ar_split : concat ((fun d : assessed => d.2) <$> fin) = ars ++ arq;
  uw_ev_valid : Forall (fun e => violations (evidence_msg e) = None /\ Evidence_CloudServiceId e = cs) evq;
  uw_ar_valid : Forall (fun a => violations (result_msg a) = None /\ AssessmentResult_CloudServiceId a = cs) arq;
  uw_sent : sent_evidences s = evidence_msg <$> todo.*2;
  uw_ev_waiting : ev_waiting (sys_assessment s) = evidence_msg <$> evq;
  uw_ar_waiting : or_waiting (sys_assessment s) = result_msg <$> arq;
  uw_ev_rows : rows T_Evidence (sys_db s) ≡ₚ evs ++ rows T_Evidence (sys_db s0);
  uw_ar_rows : rows T_AssessmentResult (sys_db s) ≡ₚ ars ++ rows T_AssessmentResult (sys_db s0);
  uw_ar_ids : NoDup (AssessmentResult_Id <$> (ars ++ arq));
  uw_ar_new : forall id, id ∈ AssessmentResult_Id <$> (ars ++ arq) -> id ∉ AssessmentResult_Id <$> rows T_AssessmentResult (sys_db s0);
  uw_unused : unused (w_tick (sys_assessment s))
    (AssessmentResult_Id <$> ((ars ++ arq) ++ rows T_AssessmentResult (sys_db s0)));
  uw_left : k = 2 * length todo + length (todo.*1 ≫= verdicts) + length evq + length arq;
}.

(** The message that a stream delivers is the first that waits. *)
Lemma next_message {Str Msg X} `{EqDecision Msg} (msg : X -> Msg) t m f (q : list X) (str : StreamsOf Str Msg) :
  flowing str -> waiting t str = msg <$> q -> sendLoop_iter SentOK t str = Some (m, true, f) ->
  exists x q', q = x :: q' /\ m = msg x /\ waiting t f = msg <$> q' /\ flowing f.
Proof.
  intros Hf Hq Hi. destruct q as [|x q].
  - unfold waiting in Hq. unfold sendLoop_iter in Hi. destruct (channels str !! t) as [c|]; [|done]. cbn in Hq. by rewrite Hq in Hi.
  - destruct (flowing_next t (msg x) _ str Hf Hq) as (_ & f' & Hi' & Hw & Hf'). rewrite Hi in Hi'.
    injection Hi' as -> ->. by exists x, q.
Qed.

(** Storing the next evidence. *)
Lemma underway_stored m f k s fin todo evs evq ars arq :
  let t := evidenceStore_Target (w_svc (sys_assessment s)) in
  underway k s fin todo evs evq ars arq -> sendLoop_iter SentOK t (store_streams s) = Some (m, true, f) ->
  exists k' evs' evq', k' < k /\
    underway k' (in_store (StoreEvidence ctx (Some (mkEvidenceRequest (EvidenceRequest_Evidence m)))) (set_store_streams f s))
      fin todo evs' evq' ars arq.
Proof.
  intros t [Hh Hl Hes Hmade Hres Hev Har Hvev Hvar Hsent Hq Hqr Hrows Hrowsr Hnd Hfresh Hun ->] Hi.
  destruct (next_message evidence_msg t m f evq (store_streams s)) as (e & evq' & -> & -> & Hw & Hf); [by apply (healthy_store l)|done..|].
  rename evq' into evq. apply Forall_cons in Hvev as [[Hve Hcs] Hvev].
  set (s1 := set_store_streams f s). cbn [EvidenceRequest_Evidence].
  destruct (store_evidence_stored e (on_db (sys_db s1) (sys_store s1))) as (db' & Hdb & Hdbe & Hdbr); [done..| |].
  { change (w_db _) with (sys_db s). rewrite Hrows, fmap_app, not_elem_of_app. rewrite Hes, Hev in Hids, Hnew. split.
    - rewrite !fmap_app in Hids. apply NoDup_app in Hids as [Hids _]. apply NoDup_app in Hids as (_ & Hdis & _).
      intros Hin. apply (Hdis _ Hin). by left.
    - apply Hnew. rewrite !fmap_app. cbn. set_solver. }
  set (s2 := in_store _ s1). assert (Hs2 : sys_db s2 = db') by exact Hdb.
  exists (2 * length todo + length (todo.*1 ≫= verdicts) + length evq + length arq), (evs ++ [e]), evq.
  split; [cbn; lia|]. constructor; try done.
  - destruct Hh. by constructor.
  - by rewrite <-app_assoc.
  - rewrite Hs2, Hdbe, <-Permutation_cons_append. by apply (Permutation_skip e), Hrows.
  - by rewrite Hs2, Hdbr.
Qed.

(** Storing the next result. *)
Lemma underway_result m f k s fin todo evs evq ars arq :
  let t := orchestrator_Target (w_svc (sys_assessment s)) in
  underway k s fin todo evs evq ars arq -> sendLoop_iter SentOK t (result_streams s) = Some (m, true, f) ->
  exists k' ars' arq', k' < k /\
    underway k' (in_orchestrator (StoreAssessmentResult ctx (Some (mkStoreAssessmentResultRequest (StoreAssessmentResult_Result m))))
      (set_result_streams f s)) fin todo evs evq ars' arq'.
Proof.
  intros t [Hh Hl Hes Hmade Hres Hev Har Hvev Hvar Hsent Hq Hqr Hrows Hrowsr Hnd Hfresh Hun ->] Hi.
  destruct (next_message result_msg t m f arq (result_streams s)) as (a & arq' & -> & -> & Hw & Hf); [by apply (healthy_results l)|done..|].
  rename arq' into arq. apply Forall_cons in Hvar as [[Hva Hcs] Hvar].
  set (s1 := set_result_streams f s). cbn [StoreAssessmentResult_Result].
  destruct (store_result_stored a (on_db (sys_db s1) (sys_orchestrator s1))) as (db' & Hdb & Hdbr & Hdbe); [done..| |].
  { change (w_db _) with (sys_db s). rewrite Hrowsr, fmap_app, not_elem_of_app. split.
    - rewrite fmap_app in Hnd. apply NoDup_app in Hnd as (_ & Hdis & _). intros Hin. apply (Hdis _ Hin). by left.
    - apply Hfresh. rewrite fmap_app. cbn. set_solver. }
  set (s2 := in_orchestrator _ s1). assert (Hs2 : sys_db s2 = db') by exact Hdb.
  exists (2 * length todo + length (todo.*1 ≫= verdicts) + length evq + length arq), (ars ++ [a]), arq.
  split; [cbn; lia|].
  assert (Heq : (ars ++ [a]) ++ arq = ars ++ a :: arq) by (by rewrite <-app_assoc).
  constructor; rewrite ?Heq; try done.
  - destruct Hh. by constructor.
  - by rewrite Hs2, Hdbe.
  - rewrite Hs2, Hdbr, <-Permutation_cons_append. by apply (Permutation_skip a), Hrowsr.
Qed.

Lemma fin_results (fin : list assessed) : Forall (fun d : assessed => results_of d.1.1 d.1.2 d.2) fin ->
  length (concat ((fun d : assessed => d.2) <$> fin)) = length (((fun d : assessed => d.1.1) <$> fin) ≫= verdicts).
Proof.
  induction 1 as [|d fin Hd _ IH]; [done|]. cbn. rewrite !length_app, IH. f_equal. symmetry. by eapply Forall2_length.
Qed.

(** Assessing the next evidence. *)
Lemma underway_assessed m f k s fin todo evs evq ars arq :
  let t := assessment_Target (w_svc (sys_discovery s)) in
  underway k s fin todo evs evq ars arq -> sendLoop_iter SentOK t (discovery_streams s) = Some (m, true, f) ->
  exists k' fin' todo' evq' arq', k' < k /\
    underway k' (in_assessment (AssessEvidence fuel ctx (Some (mkEvidenceRequest (EvidenceRequest_Evidence m)))) (set_discovery_streams f s))
      fin' todo' evs evq' ars arq'.
Proof.
  intros t [[Hfd Hfs Hfr Hen Hgood Hkinds] Hl Hes Hmade Hres Hev Har Hvev Hvar Hsent Hq Hqr Hrows Hrowsr Hnd Hfresh Hun ->] Hi.
  destruct (next_message evidence_msg t m f todo.*2 (discovery_streams s)) as (e & q & Hq2 & -> & Hw & Hf); [done..|].
  destruct todo as [|[r e'] todo]; [done|]. injection Hq2 as -> <-. apply Forall_cons in Hmade as [He Hmade]. cbn in He.
  assert (Hr : r ∈ l) by (rewrite Hl; set_solver). pose proof (made_cs r e He) as Hcs.
  destruct (proj1 (Forall_forall _ _) Hok r Hr) as ((a & Ha & Hvm) & (x & Hx & Hrs) & Hvlen & Hval).
  destruct (Hval e He) as [Hve Hva].
  assert (Hres' : Evidence_Resource e = Some a) by (destruct He as (? & ? & a' & Ha' & ->); cbn; congruence).
  destruct (any_unpack r a Ha) as (m & Hm & Hrm). rewrite <-Hres' in Hm.
  assert (Hevq : length (evidence_msg <$> evq) < channel_cap).
  { rewrite length_fmap. apply (f_equal length) in Hev, Hl. rewrite !length_app, !length_fmap in *. cbn in *. lia. }
  assert (Harq : length (result_msg <$> arq) + length (verdicts r) <= channel_cap).
  { rewrite length_fmap. apply (f_equal length) in Har. rewrite fin_results, length_app in Har by done.
    rewrite Hl, bind_app, length_app in Hroom. cbn in Hroom. rewrite length_app in Hroom. lia. }
  rewrite <-Hq in Hevq. rewrite <-Hqr in Harq.
  destruct (assess_evidence_run fuel ms cfg0 impl0 Hnames pkg ctx e m r x (verdicts r) (sys_assessment s))
    as (w & results & lt & Hrun & Hall & Hev' & Hor' & _ & _ & Hgrown & Hgood' & Hfs' & Hfr' & [= Hdis Het Hot] & Hmint & Hti);
    [done|by rewrite Hcs|done|apply Hvm; by rewrite <-Hres'|done|done|by rewrite Hcs|done|by apply Hkinds|by rewrite Hcs
    |by apply flowing_named|done|by apply flowing_named|done|].
  rewrite Hen in Hev'. cbn [EvidenceRequest_Evidence]. set (s2 := in_assessment _ _).
  assert (Hs2 : sys_assessment s2 = w) by (unfold s2, in_assessment; cbn [sys_assessment set_discovery_streams]; by rewrite Hrun).
  assert (Hmade' : forall b, b ∈ results -> violations (result_msg b) = None /\ AssessmentResult_CloudServiceId b = cs).
  { intros b [i Hib]%list_elem_of_lookup. destruct (Forall2_lookup_r _ _ _ _ _ Hall Hib) as (data & _ & Hb).
    split; [by eapply Hva|]. destruct Hb as (? & ? & ->). exact Hcs. }
  exists (2 * length todo + length (todo.*1 ≫= verdicts) + length (evq ++ [e]) + length (arq ++ results)),
    (fin ++ [(r, e, results)]), todo, (evq ++ [e]), (arq ++ results).
  split. { cbn. rewrite !length_app, (Forall2_length _ _ _ Hall). cbn. lia. }
  constructor; rewrite ?Hs2; try done.
  - constructor; rewrite ?Hs2; try done; [unfold store_streams; rewrite Hs2; auto|unfold result_streams; rewrite Hs2; auto|congruence|].
    eapply (cached_right_grown l r x e); eauto.
  - by rewrite fmap_app, <-app_assoc.
  - by rewrite fmap_app, <-app_assoc.
  - apply Forall_app. split; [done|]. apply Forall_singleton. eapply Forall2_impl; [exact Hall|]. apply made_result_for.
  - by rewrite fmap_app, Hev, <-app_assoc.
  - rewrite fmap_app, concat_app, Har. cbn. by rewrite app_nil_r, <-app_assoc.
  - apply Forall_app. split; [done|]. by apply Forall_singleton.
  - apply Forall_app. split; [done|]. by apply Forall_forall.
  - by rewrite Hev', Hq, fmap_app.
  - by rewrite Hor', Hqr, fmap_app.
  - rewrite app_assoc, fmap_app. apply NoDup_app. split_and!; [done| |by eapply minted_NoDup].
    intros id Hold Hid. apply (unused_minted _ _ _ _ _ Hmint Hun Hid). rewrite fmap_app. set_solver.
  - intros id. rewrite app_assoc, fmap_app. intros [Hid|Hid]%elem_of_app; [by apply Hfresh|].
    intros Hold. apply (unused_minted _ _ _ _ _ Hmint Hun Hid). rewrite fmap_app. set_solver.
  - eapply unused_after; [exact Hmint|exact Hti|exact Hun|]. intros id. rewrite !fmap_app. set_solver.
Qed.

(** Every delivery is progress. *)
Lemma underway_deliver k s fin todo evs evq ars arq s' :
  underway k s fin todo evs evq ars arq -> deliver s s' ->
  exists k' fin' todo' evs' evq' ars' arq', k' < k /\ underway k' s' fin' todo' evs' evq' ars' arq'.
Proof.
  intros Hu Hd. destruct Hd as [m f s t _ Hi|m f s t _ Hi|m f s t _ Hi].
  - destruct (underway_assessed m f _ _ _ _ _ _ _ _ Hu Hi) as (? & ? & ? & ? & ? & Hk & Hu'). by eauto 10.
  - destruct (underway_stored m f _ _ _ _ _ _ _ _ Hu Hi) as (? & ? & ? & Hk & Hu'). by eauto 10.
  - destruct (underway_result m f _ _ _ _ _ _ _ _ Hu Hi) as (? & ? & ? & Hk & Hu'). by eauto 10.
Qed.

Lemma underway_sn k s fin todo evs evq ars arq : underway k s fin todo evs evq ars arq -> sn deliver s.
Proof.
  revert s fin todo evs evq ars arq. induction (lt_wf k) as [k _ IH]; intros s fin todo evs evq ars arq Hu.
  constructor. intros s' Hd. destruct (underway_deliver _ _ _ _ _ _ _ _ _ Hu Hd) as (? & ? & ? & ? & ? & ? & ? & Hk & Hu'). by eapply IH.
Qed.

(** When nothing more is delivered, nothing waits. *)
Lemma underway_done k s fin todo evs evq ars arq : underway k s fin todo evs evq ars arq -> nf deliver s ->
  todo = [] /\ evq = [] /\ arq = [].
Proof.
  intros Hu Hnf. destruct Hu as [[Hfd Hfs Hfr _ _ _] _ _ _ _ _ _ _ _ Hsent Hq Hqr _ _ _ _ _ _]. split_and!.
  - destruct todo as [|[r e] todo]; [done|]. destruct (flowing_next _ _ _ _ Hfd Hsent) as (Hl & f & Hi & _). destruct Hnf.
    eexists. by eapply deliver_evidence.
  - destruct evq as [|e evq]; [done|]. destruct (flowing_next _ _ _ _ Hfs Hq) as (Hl & f & Hi & _). destruct Hnf.
    eexists. by eapply deliver_stored.
  - destruct arq as [|a arq]; [done|]. destruct (flowing_next _ _ _ _ Hfr Hqr) as (Hl & f & Hi & _). destruct Hnf.
    eexists. by eapply deliver_result.
Qed.

Lemma underway_run k s fin todo evs evq ars arq s' : underway k s fin todo evs evq ars arq -> rtc deliver s s' ->
  exists k' fin' todo' evs' evq' ars' arq', underway k' s' fin' todo' evs' evq' ars' arq'.
Proof.
  intros Hu Hrun. revert k fin todo evs evq ars arq Hu. induction Hrun as [|s s1 s' Hd _ IH]; intros; [by eauto 10|].
  destruct (underway_deliver _ _ _ _ _ _ _ _ _ Hu Hd) as (? & ? & ? & ? & ? & ? & ? & _ & Hu'). by eapply IH.
Qed.

Lemma fin_forall3 (fin : list assessed) : Forall (fun d : assessed => results_of d.1.1 d.1.2 d.2) fin ->
  Forall3 results_of ((fun d : assessed => d.1.1) <$> fin) ((fun d : assessed => d.1.2) <$> fin) ((fun d : assessed => d.2) <$> fin).
Proof. induction 1; by constructor. Qed.

Lemma underway_complete k s fin evs ars : underway k s fin [] evs [] ars [] ->
  healthy l s /\ sent_evidences s = [] /\ ev_waiting (sys_assessment s) = [] /\ or_waiting (sys_assessment s) = [] /\
  exists rss, Forall3 results_of l es rss /\
    rows T_Evidence (sys_db s) ≡ₚ es ++ rows T_Evidence (sys_db s0) /\
    rows T_AssessmentResult (sys_db s) ≡ₚ concat rss ++ rows T_AssessmentResult (sys_db s0).
Proof.
  intros [Hh Hl Hes _ Hres Hev Har _ _ Hsent Hq Hqr Hrows Hrowsr _ _ _ _]. split_and!; [done..|].
  exists ((fun d : assessed => d.2) <$> fin). cbn in Hl, Hes. rewrite app_nil_r in Hl, Hes, Hev, Har.
  rewrite Har. split_and!; [rewrite Hl, Hes; by apply fin_forall3|by rewrite Hrows, Hes, Hev|done].
Qed.
End Run.

End Complete.
