(* ===== verification/PipelineWitness.v ===== *)
(** The services together on a concrete deployment: a virtual machine that is not
    compliant is discovered, assessed, stored and makes a control fail. *)

From S2P Require Import Prelude GoRuntime GoStrings Util Api Sql Storage Gorm MemDB Authz Pagination Evaluation EvaluationProofs EvaluationWitness Streams Ontology Policies PoliciesProofs Orchestrator OrchestratorProofs OrchestratorWitness EvidenceStore Discovery DiscoveryProofs Assessment AssessmentProofs AssessmentWitness DiscoveryWitness Pipeline.

#[export] Instance demo_any_laws : AnyLaws DemoResource DemoResource.
Proof. intros [id [[]|]] a [= <-]; by eexists. Qed.

(** A discoverer of one machine, which has the field or not. *)
#[export] Instance machine_discoverer : Discoverer bool DemoResource := {|
  disc_Name := fun _ => "machines";
  disc_List := fun b t => (Returned (OK [demo_vm (Some b)]), t + 1);
|}.

Abbreviation DemoSystem := (@System memdb unit bool unit string unit unit unit).

Definition machine_discovery : DiscoveryService unit bool unit :=
  Discovery.NewService tt [WithAdditionalDiscoverers [false]; WithCloudServiceID "svc"].

Definition demo_system : DemoSystem :=
  mkSystem (mem_empty 0) (mkWorld tt machine_discovery [] 0) demo_start (mkWorld tt EvidenceStore.NewService [] 0)
    (mkWorld tt demo_orch [] 0).

Definition nobody {A : Type} (_ : A) : Prop := False.

Abbreviation demo_step := (@sys_step memdb unit bool unit DemoResource DemoResource string string unit unit unit unit
  _ _ _ _ _ _ _ _ _ _ _ demo_authz _ _ _ 1 nobody nobody).
Abbreviation demo_reachable := (@sys_reachable memdb unit bool unit DemoResource DemoResource string string unit unit unit unit
  _ _ _ _ _ _ _ _ _ _ _ demo_authz _ _ _ 1 nobody nobody).

Definition system1 : DemoSystem := in_discovery (StartDiscovery false) demo_system.
Definition system2 : DemoSystem := sent_by "localhost:9090" discovery_streams set_discovery_streams
  (fun m => in_assessment (@AssessEvidence _ _ _ _ _ _ _ unit _ _ _ _ _ _ demo_authz _ _ _ 1 (Some tt) (Some m))) system1.
Definition system3 : DemoSystem := sent_by "localhost:9090" store_streams set_store_streams
  (fun m => in_store (@StoreEvidence _ unit _ demo_authz _ (Some tt) (Some m))) system2.
Definition system4 : DemoSystem := sent_by "localhost:9090" result_streams set_result_streams
  (fun m => in_orchestrator (@StoreAssessmentResult _ unit _ demo_authz _ (Some tt) (Some m))) system3.

Lemma system4_rows :
  (AssessmentResult_Compliant <$> mem_rows (sys_db system4) T_AssessmentResult) = [false] /\
  length (mem_rows (sys_db system4) T_Evidence) = 1.
Proof. split; vm_compute; reflexivity. Qed.

Lemma step1 : demo_step demo_system system1.
Proof. unfold system1. apply sys_discover. Qed.

Lemma step2 : demo_step system1 system2.
Proof. unfold system2. apply sys_evidence, sent_by_transfer; [intros [e] s; by exists (Some tt)|apply (bool_decide_unpack _); vm_compute; exact I|vm_compute; by eexists]. Qed.

Lemma step3 : demo_step system2 system3.
Proof. unfold system3. apply sys_evidence_store, sent_by_transfer; [intros [e] s; by exists (Some tt)|apply (bool_decide_unpack _); vm_compute; exact I|vm_compute; by eexists]. Qed.

Lemma step4 : demo_step system3 system4.
Proof. unfold system4. apply sys_result, sent_by_transfer; [intros [r] s; by exists (Some tt)|apply (bool_decide_unpack _); vm_compute; exact I|vm_compute; by eexists]. Qed.

Lemma system4_reachable : demo_reachable system4.
Proof.
  exists demo_system. split; [by split_and!|].
  exact (rtc_l _ _ _ _ step1 (rtc_l _ _ _ _ step2 (rtc_l _ _ _ _ step3 (rtc_once _ _ step4)))).
Qed.

Definition stored_failure : AssessmentResult :=
  default (demo_result "" "" true) (head (mem_rows (sys_db system4) T_AssessmentResult)).

(** The stored result is the policies' verdict on the machine that was listed. *)
Lemma pipeline_traceable_witness :
  AssessmentResult_Compliant stored_failure = false /\
  exists e r data, discovered (D := bool) r e /\ result_for e r data stored_failure.
Proof.
  split; [vm_compute; reflexivity|].
  destruct (@pipeline_traceable memdb unit bool unit DemoResource DemoResource string string unit unit unit unit
    _ _ _ _ _ _ _ _ _ _ _ _ demo_authz _ _ _ 1 nobody nobody demo_any_laws system4 system4_reachable) as [_ Ha].
  destruct (Ha stored_failure) as [[]|(e & r & data & Hv)]; [apply (list_elem_of_lookup_2 _ 0); vm_compute; reflexivity|].
  destruct Hv as ([Hd|[[] _]] & _ & Hres). exists e, r, data. split; [exact Hd|exact Hres].
Defined.

(** A control with one sub-control that asks for the metric "Enabled". *)
Definition machine_sub : Control :=
  mkControl "OPS-1.1" "Cat" "C5" "OPS-1.1" "" [] [demo_metric "Enabled"] (Some "OPS-1") (Some "Cat") (Some "C5") None.
Definition machine_control : Control :=
  mkControl "OPS-1" "Cat" "C5" "OPS-1" "" [machine_sub] [] None None None None.

Definition machine_evaluation : World memdb (EvaluationService (list Job)) unit :=
  mkWorld (mem_empty 0) (mkEvaluationService {["C5" := {[control_tag "Cat" "OPS-1.1" := machine_sub]}]} []) [] 0.

(** The evaluation service asks the orchestrator of [system4]. *)
Definition machine_client : OrchestratorClient :=
  @sys_client memdb unit bool unit string unit unit unit unit _ demo_authz _ _ (Some tt) (fun _ => system4)
    (fun _ _ => OK (mkPage [] "")) (fun _ cs cat => OK (mkTargetOfEvaluation cs cat None)) (fun _ _ => OK demo_catalog).

Definition machine_evaluated : outcome (res unit) * World memdb (EvaluationService (list Job)) unit :=
  @evaluateControl memdb (list Job) unit _ machine_client _ _ 1 demo_toe demo_catalog machine_control [] machine_evaluation.

Lemma named_in (l ys : list EvaluationResult) id :
  EvaluationResult_FailingAssessmentResultIds <$> l = [[id]; [id]] -> l ≡ₚ ys ->
  exists y, y ∈ ys /\ id ∈ EvaluationResult_FailingAssessmentResultIds y.
Proof.
  intros Hl Hp. setoid_rewrite <-Hp. destruct l as [|y l]; [done|]. injection Hl as Hy _. exists y. rewrite Hy. split; [apply list_elem_of_here|].
  by apply list_elem_of_singleton.
Qed.

