(* ===== verification/PipelineCompleteWitness.v ===== *)
(** A discovery run over two virtual machines, one of them not compliant, carried
    through the services to the database. *)

From S2P Require Import Prelude GoRuntime GoStrings Util Api Sql Storage Gorm MemDB Authz Pagination Evaluation EvaluationProofs EvaluationWitness Streams Ontology Policies PoliciesProofs Orchestrator OrchestratorProofs OrchestratorWitness EvidenceStore Discovery DiscoveryProofs Assessment AssessmentProofs AssessmentWitness DiscoveryWitness Pipeline PipelineComplete PipelineWitness.

#[export] Instance mem_reliable : ReliableStorage memdb.
Proof.
  intros t r db _ Hfree. cbn. unfold Gorm.Create. cbn.
  destruct (existsb _ (mem_rows db t)) eqn:E; [|by eexists].
  apply existsb_exists in E as (x & Hx & Hpk). apply bool_decide_eq_true in Hpk.
  exfalso. apply (Hfree x); [by apply list_elem_of_In|done].
Qed.

#[export] Instance ticks_inj : Inj (=) (=) (uuid_at (Env := demo_env)).
Proof.
  cbn. intros n. induction n as [|n IH]; intros [|m]; cbn; try done. intros [= Heq]. f_equal. by apply IH.
Qed.

(** A discoverer of machines, given by whether they have the field. *)
#[export] Instance fleet_discoverer : Discoverer (list bool) DemoResource := {|
  disc_Name := fun _ => "fleet";
  disc_List := fun l t => (Returned (OK ((fun b => mkDemoResource (on_off (Some b)) (Some b)) <$> l)), t + 1);
|}.

Abbreviation FleetSystem := (@System memdb unit (list bool) unit string unit unit unit).

Definition fleet_discovery : DiscoveryService unit (list bool) unit :=
  Discovery.NewService tt [WithAdditionalDiscoverers [[true; false]]; WithCloudServiceID demo_service_id].

Definition fleet_system : FleetSystem :=
  mkSystem (mem_empty 0) (mkWorld tt fleet_discovery [] 0) demo_start (mkWorld tt EvidenceStore.NewService [] 0)
    (mkWorld tt demo_orch [] 0).

Definition machine (b : bool) : DemoResource := mkDemoResource (on_off (Some b)) (Some b).
Definition fleet : list DemoResource := [machine true; machine false].

Abbreviation fleet_assessable := (assessable (Message := DemoResource) (R := DemoResource) (Query := string) (Tx := string)
  demo_metrics demo_cfg demo_impl DefaultRegoPackage demo_service_id).
Abbreviation fleet_alike := (alike (R := DemoResource) (Query := string) (Tx := string)
  demo_metrics demo_cfg demo_impl DefaultRegoPackage demo_service_id).

Lemma machine_assessable b : fleet_assessable (machine b).
Proof.
  split_and!.
  - eexists. split; [reflexivity|done].
  - eexists. split; [destruct b; reflexivity|]. destruct b; vm_compute; reflexivity.
  - destruct b; apply Nat.leb_le; vm_compute; reflexivity.
  - done.
Qed.

Lemma machine_alike b b' : fleet_alike (machine b) (machine b').
Proof.
  intros x x' Hx Hx' _. destruct b, b'; injection Hx as <-; injection Hx' as <-;
    (intros id [->|[->|Hid]%elem_of_cons]%elem_of_cons; [vm_compute; by eexists| |by apply elem_of_nil in Hid]);
    vm_compute; right; eexists; split; reflexivity.
Qed.

Lemma fleet_healthy : healthy (Message := DemoResource) (Tx := string) demo_metrics demo_cfg demo_impl DefaultRegoPackage demo_service_id fleet fleet_system.
Proof. by constructor. Qed.

Abbreviation fleet_deliver := (@deliver memdb unit (list bool) unit DemoResource DemoResource string string unit unit unit unit
  _ _ _ _ _ _ _ _ demo_authz _ _ _ 1 (Some tt)).

Definition fleet_listed : FleetSystem := in_discovery (StartDiscovery (R := DemoResource) [true; false]) fleet_system.

